(* ===== verification/_CoqProject ===== *)
-Q . S2P
Prelude.v
Structs.v
MgArray.v
Counters.v
Format.v
IpUtils.v
StreamKey.v
Sort.v
StringBuf.v
Float32.v
HashTable.v
Packet.v
Cleanup.v
ShmData.v
Export.v
StatProc.v
Capture.v
Lifecycle.v
Replay.v
Conversation.v
Flows.v
StreamIds.v
FlowTable.v
FlowViews.v
Bookkeeping.v
FlowRun.v
Expiry.v
Sweeps.v
SweepRun.v
Reports.v
Rankings.v
Typing.v
Lines.v
ReportRun.v
Clock.v
Seconds.v
ReplayClock.v
Main.v
TopText.v
System.v
TopStreams.v
TopServices.v
MinuteStreams.v
Session.v
