(* ===== verification/Prelude.v ===== *)
(** * minflow: a verification development

    minflow measures network traffic.  A capture process (or the replay of a
    capture file) classifies every packet into a stream, counts it on the stream,
    on the two addresses, on the flow type and on the service port, and keeps all
    of that in one block of shared memory.  A statistics process looks at the
    block every second, and once a minute copies it, forms the differences to the
    previous minute, sorts and prints the top streams, protocols and addresses.
    When a file is replayed both run in one process, the statistics driven by the
    packets' timestamps.

    ** The parts and where they are modelled

    - [Prelude] (this file): outcomes of C code, machine integers, arrays, loops,
      byte order, and the lemmas and tactics shared by the other files.
    - [Structs]: the structs and constants of common/structs.h, tval.h, mgainfo.h
      and sharedif.h.  The shared block [sharedif_t] is one record.
    - [MgArray]: utils/mgarray.c, an allocator of array entries that keeps the
      taken entries inside a window.  It is generic in the entry: the class
      [MgaEntry] is the user's callback, [MgaEntryOk] its documented contract,
      which ShmData discharges for addresses and streams.
    - [Counters]: common/tval.c and statproc/statproc_utils.c.
    - [Format]: the printf conversions the program uses.
    - [IpUtils]: net/iputils.c.  [StreamKey]: net/streamkey.c.
    - [Sort]: utils/sort.c, generic in the comparison; the class [CmpOrder] is
      what it needs of one, and Reports discharges it for the comparators of the
      statistics process.
    - [StringBuf]: utils/stringbuf.c.
    - [Float32], [HashTable]: utils/hashtable.c, with its [float] load ratios.
      The abstract specification is a finite map; the class [KeyLaws] is what a
      client promises of its key comparison and hash, discharged in ShmData for
      stream keys and addresses.
    - [Packet]: net/parse.c and net/pktinfo.c.
    - [Cleanup]: the lists of capture/cleanup.c.
    - [ShmData]: common/shmdata.c.  Its static variables are the record [shm_t]:
      the shared block, the memory the tables' keys point into, the two hash
      tables, the three managed arrays, the two id counters.
    - [Export]: export/export.c, with the printed text in the state.
    - [StatProc]: statproc/statproc_handlers.c and statproc_sim.c.
    - [Capture]: capture/main.c ([on_packet] and what it calls), the release of
      expired streams of capture/cleanup.c, capture/readcap.c, the callback of
      capture/capmain.c.
    - [Main]: [main] of capture/main.c and of statproc/main.c, [go_live_pcap] of
      capture/capmain.c, utils/ipc.c.
    - Theorems about the previous files, which define no code of their own: [Lifecycle]
      (how entries of the block come and go), [Replay] (what a capture file delivers),
      [Conversation] (a stream from its first packet on), [Flows] (which packet moves
      which flow counter), [StreamIds] (the numbers of the streams), [FlowTable] (the
      abstract specification of the packet handler: tables of conversations, peers and
      services), [FlowViews] (its tables agree with each other), [Bookkeeping] (the
      relation between the shared block and the flow table, kept by every packet),
      [FlowRun] (runs of the handler), [Expiry] (sweeps of the cleanup lists and what
      they never free), [Sweeps] (a sweep over a list of any length) and [SweepRun] (the
      cleanup list after a run of the handler, the sweep that follows, and the packets
      after it), [Reports] and [Rankings] (what a period reports of streams,
      protocols and addresses), [Typing] (every member of the block in the range of its
      type), [Lines] and [ReportRun] (a whole minute's report), [Clock] (one second and
      runs of seconds), [Seconds] (the per second table over a minute, and its lines in
      the report), [ReplayClock] (the clock of a replayed file), [TopText] (the text of
      a report's lists of streams and protocols, and that the rest of the report prints
      around it).
    - [System]: the two processes over one block.  Its events are a packet handled by
      the capture process and a second of the statistics process, in any order.
      [TopStreams] and [TopServices] relate what the statistics process remembers of the
      streams and protocols to the flow table, [MinuteStreams] a minute's events to the
      lists of its report, and [Session] does so from the first second of both processes through any number of
      minutes.

    ** How the program is represented

    A function of the C program is a function of the same name that takes the
    state it works on and returns it.  Its result is [Val], or [Asserted] when an
    [assert] fails, or [Undefined] when the C standard gives it no meaning: an
    access outside an array, a read of uninitialised bytes, a NULL dereference.
    So a theorem that a call returns [Val] also says that it makes no such error.
    Integers are [Z]; every operation on a fixed-width type wraps as the type
    does ([u8], [u16], [u32], [u64], [i16], [i32]).  Little-endian byte order and
    64-bit pointers are assumed, as the code itself assumes them.  A struct is a
    record, an array a list, a pointer into an array an index.  Pointers whose
    identity matters - the keys stored in the hash tables - are numbers, and the
    memory they point to is part of the state.

    What lies outside the program is an argument: whether [malloc] and [calloc]
    succeed, the address they return, the readings of the clock, the results of
    [pcap_stats] and of the shared memory calls, the bytes of a capture file, and
    what stack objects contain before they are written ([pkt_env], [init_env]).

    ** What the theorems show

    - Hash table: put, remove, rehash, remove-all and the observers refine a
      finite map over the keys in memory, for every outcome of the allocations;
      the search for an ideal bucket count ends for every element count.
    - Managed arrays: allocation and release preserve the allocator's invariant,
      change exactly one entry and keep to the range; what happens at the two
      ends where they do not (the last entry of an even range, a window that was
      pulled below the middle).
    - Packets: the parser reads inside the buffer for every input, accepts
      exactly the frames described by [accepts], and inverts the encoding of
      frames; stream keys identify unordered pairs of endpoints.
    - Sort: termination, permutation, order, for any comparison that is an order.
    - String buffers: appends concatenate; the cases that overrun.
    - Shared data: initialisation, allocation and release of addresses with the
      invariant [shm_inv] over the block, the dictionary of addresses and the
      three managed arrays; protocol counters are separate for each port.
    - The packet handler: what one packet changes, for a known stream, for a new
      one and for a packet that is ignored, with everything else unchanged and
      the invariants kept; what freeing a stream does.
    - The capture process as a whole: it refines the flow table of [FlowTable] over runs
      of interleaved conversations, so all its counters are sums over its streams; a
      conversation whose key selects the bucket of another one is lost in it.  The runs
      are those of [bookable_all]: there is room and memory for what they need, and no
      sweep runs in them - from the end of the first connection on, packets come in the
      first fifteen seconds of a minute.
    - Expiry: after such a run the cleanup list holds the streams of the connections that
      ended, in their order; the first sweep, under the conditions of [sweep_due], frees
      exactly these, and every address counts the streams it keeps; the table still leads
      to the freed entries, so a connection that goes on is counted on a free one.  A queued stream that is
      idle is freed twice, and both its addresses then count 65535 active streams;
      without the end of a connection nothing is ever freed.
    - Replay: the reader hands every record of a file to its callback in order.
    - Whole conversations: from a stream's first packet on, its entry, its two ends
      and the flow counters have counted exactly its packets and bytes.
    - Types: in every state the capture process reaches the block is well typed, its
      indices within their arrays; this is what the reports rely on.
    - Reports: differences, rankings of streams, protocols and addresses, the clock of
      the per second table, port masks, the description of each address once in a
      period; a minute's report returns with one START and one END line, for every block
      that is [block_ready] - typed, with a live stream and with windows that lie in order
      inside their arrays; releases can turn a window round ([mga_window_below_mid_breaks]),
      and the copy of such a block is [Undefined]; which columns of the per second table a minute writes,
      and that the rest is printed as it was; reports keep coming while the seconds do; the 3600
      iterations of the statistics process return.
    - Replay clock: timestamps in order never fail the assertion of the per second
      table; timestamps that run backwards by less than a second each count a second, and
      fail it when the table has no column left for them.
    - The whole program: over a run from start to end every packet that is accepted is
      counted once in the total and at most once in a class; and the packets and bytes
      a minute's report states are exactly those of the packets of that minute,
      however packets and seconds interleave.  The list of streams in each report is the
      conversations so far, ranked by the packets and by the bytes they had in that
      minute, and the list of ports the services of that minute, for every minute of a
      session in which no stream is freed ([session_ok]).
    - Command line: what each combination of options and arguments does.

    Where the code does not do what it means to, a theorem states what it does:
    the shared key object of the stream table, entries of freed addresses that
    stay in the table, the truncated VLAN tag, the fixed-size buffers.

    ** Fuel and bounds

    Loops over indices are [for_each] over the list of the indices.  The
    [while] loops have fuel: [quicksort] the length of its range and its scans
    the distance to the ends, shown enough by [quicksort_sorts]; the two loops
    of [mga_free_entry] the width of the window, shown enough by
    [mga_free_entry_spec]; [read_pcap_loop] takes fuel, and the length of the
    file is enough by [read_pcap_loop_records]; the search for a bucket count has
    as many steps as there are candidates in an [int], and
    [ideal_buckets_prime] shows that it ends.  Running out of fuel is
    [Undefined], so a theorem that a call returns says that the fuel was enough.

    ** Not modelled

    The crash handler (utils/sigsegv.c), code of another author that prints the
    registers and the stack, and the test drivers (test/), two of which are examples in
    [MgArray] and [Sort].  [mga_to_s] is a debug print; [housekeeping_t] and
    net/stream_state.h are used by nothing.  In [System] a packet and a second each run
    to their end: the statistics process reading the block while the capture process
    is inside a packet is not modelled.  The allocations of one second of the statistics
    process succeed or fail together.  Text on the standard error output is left out, and
    of the capture program's own messages those of [usage] and of a failed initialisation
    are constructors of [main_result].  The system calls, [getopt], libpcap and the
    clock are arguments.

    ** To be added

    Runs that go on for several sweeps, where freed entries are used again; the end of
    the capture process when an address cannot be allocated; the text of the description
    lines of streams and addresses, and of the lists of addresses, as a function of the
    packets.
*)
From stdpp Require Export base numbers list gmap.

#[global] Open Scope Z_scope.

(** ** Outcomes of C code

    A modelled C function either returns, stops at a failed [assert] (the
    Makefile builds without NDEBUG, so a failed assert aborts the process), or
    reaches behaviour the C standard does not define: an access outside an
    array, a null dereference, an unrepresentable conversion. *)
Inductive res (A : Type) : Type :=
| Val (a : A)
| Asserted
| Undefined.
Arguments Val {A} a.
Arguments Asserted {A}.
Arguments Undefined {A}.

#[export] Instance res_ret : MRet res := fun A a => Val a.
#[export] Instance res_bind : MBind res := fun A B f m =>
  match m with
  | Val a => f a
  | Asserted => Asserted
  | Undefined => Undefined
  end.

(** [assert(b); k] *)
Definition c_assert {A} (b : bool) (k : res A) : res A := if b then k else Asserted.

(** Use of a pointer that may be NULL. *)
Definition deref {A} (o : option A) : res A :=
  match o with Some a => Val a | None => Undefined end.

Lemma bind_Val {A B} (a : A) (f : A -> res B) : (Val a ≫= f) = f a.
Proof. reflexivity. Qed.

Lemma bind_assoc {A B C} (m : res A) (f : A -> res B) (g : B -> res C) :
  ((m ≫= f) ≫= g) = (m ≫= fun a => f a ≫= g).
Proof. by destruct m. Qed.

Lemma bind_Val_inv {A B} (m : res A) (f : A -> res B) (b : B) :
  (m ≫= f) = Val b -> exists a, m = Val a /\ f a = Val b.
Proof. destruct m; cbn; intros H; [eauto | discriminate ..]. Qed.

Lemma c_assert_inv {A} (b : bool) (k : res A) (a : A) :
  c_assert b k = Val a -> b = true /\ k = Val a.
Proof. destruct b; cbn; [auto | discriminate]. Qed.

(** Decomposes a hypothesis [... = Val b] about a sequence of statements. *)
Ltac res_inv :=
  repeat match goal with
  | H : (_ ≫= _) = Val _ |- _ =>
      let a := fresh "r" in let H1 := fresh "Hr" in
      apply bind_Val_inv in H as (a & H1 & H)
  | H : c_assert _ _ = Val _ |- _ =>
      let H1 := fresh "Has" in apply c_assert_inv in H as [H1 H]
  | H : Val _ = Val _ |- _ => injection H as H; subst
  | H : (_, _) = (_, _) |- _ => injection H as ?; subst
  | H : Asserted = Val _ |- _ => discriminate H
  | H : Undefined = Val _ |- _ => discriminate H
  end.

(** ** Machine integers

    Values of unsigned types are the numbers [0 .. 2^w - 1]; the functions are
    the conversions C performs on assignment (modular, two's complement for the
    signed ones, as the supported compilers define it). *)
Definition u8 (x : Z) : Z := x mod 256.
Definition u16 (x : Z) : Z := x mod 65536.
Definition u32 (x : Z) : Z := x mod 4294967296.
Definition u64 (x : Z) : Z := x mod 18446744073709551616.
Definition i8 (x : Z) : Z := (x + 128) mod 256 - 128.
Definition i16 (x : Z) : Z := (x + 32768) mod 65536 - 32768.
Definition i32 (x : Z) : Z := (x + 2147483648) mod 4294967296 - 2147483648.

Definition is_u8 (x : Z) : Prop := 0 <= x < 256.
Definition is_u16 (x : Z) : Prop := 0 <= x < 65536.
Definition is_u32 (x : Z) : Prop := 0 <= x < 4294967296.

#[export] Instance is_u8_dec x : Decision (is_u8 x).
Proof. unfold is_u8. apply _. Defined.
#[export] Instance is_u16_dec x : Decision (is_u16 x).
Proof. unfold is_u16. apply _. Defined.
#[export] Instance is_u32_dec x : Decision (is_u32 x).
Proof. unfold is_u32. apply _. Defined.

(** [lia] after unfolding the conversions and eliminating [mod] and [/]. *)
Ltac clia :=
  unfold is_u8, is_u16, is_u32, u8, u16, u32, u64, i8, i16, i32 in *;
  Z.to_euclidean_division_equations; lia.

Lemma u8_range x : is_u8 (u8 x).
Proof. clia. Qed.
Lemma u16_range x : is_u16 (u16 x).
Proof. clia. Qed.
Lemma u32_range x : is_u32 (u32 x).
Proof. clia. Qed.
Lemma u8_small x : is_u8 x -> u8 x = x.
Proof. intros H. apply Z.mod_small, H. Qed.
Lemma u16_small x : is_u16 x -> u16 x = x.
Proof. intros H. apply Z.mod_small, H. Qed.
Lemma u32_small x : is_u32 x -> u32 x = x.
Proof. intros H. apply Z.mod_small, H. Qed.
Lemma i32_small x : -2147483648 <= x < 2147483648 -> i32 x = x.
Proof. intros H. unfold i32. rewrite Z.mod_small; lia. Qed.
Lemma u32_u32_add_l x y : u32 (u32 x + y) = u32 (x + y).
Proof. apply Z.add_mod_idemp_l. lia. Qed.
Lemma u32_u32_add_r x y : u32 (x + u32 y) = u32 (x + y).
Proof. apply Z.add_mod_idemp_r. lia. Qed.

Create HintDb cint.
#[export] Hint Resolve u8_range u16_range u32_range : cint.
Create Rewrite HintDb cintr.
#[export] Hint Rewrite u32_u32_add_l u32_u32_add_r : cintr.

(** Bit operations stay within their width. *)
Lemma log2_lt w x : 0 < w -> 0 <= x < 2 ^ w -> Z.log2 x < w.
Proof.
  intros Hw Hx. destruct (decide (x = 0)) as [-> |]; [cbn; lia |].
  apply Z.log2_lt_pow2; lia.
Qed.

Lemma lxor_bound w x y :
  0 < w -> 0 <= x < 2 ^ w -> 0 <= y < 2 ^ w -> 0 <= Z.lxor x y < 2 ^ w.
Proof.
  intros Hw Hx Hy.
  assert (0 <= Z.lxor x y) as Hn by (apply Z.lxor_nonneg; lia).
  split; [done |]. destruct (decide (Z.lxor x y = 0)) as [-> | Hne]; [lia |].
  apply Z.log2_lt_pow2; [lia |].
  pose proof (Z.log2_lxor x y ltac:(lia) ltac:(lia)).
  pose proof (log2_lt w x Hw Hx). pose proof (log2_lt w y Hw Hy). lia.
Qed.

Lemma lor_bound w x y :
  0 < w -> 0 <= x < 2 ^ w -> 0 <= y < 2 ^ w -> 0 <= Z.lor x y < 2 ^ w.
Proof.
  intros Hw Hx Hy.
  assert (0 <= Z.lor x y) as Hn by (apply Z.lor_nonneg; lia).
  split; [done |]. destruct (decide (Z.lor x y = 0)) as [-> | Hne]; [lia |].
  apply Z.log2_lt_pow2; [lia |]. rewrite Z.log2_lor by lia.
  pose proof (log2_lt w x Hw Hx). pose proof (log2_lt w y Hw Hy). lia.
Qed.

Lemma land_bound x y : 0 <= y -> 0 <= Z.land x y <= y.
Proof.
  intros Hy. split; [apply Z.land_nonneg; lia |].
  assert (Hz : 0 <= Z.land x y) by (apply Z.land_nonneg; lia).
  apply Z.ldiff_le; [done |].
  apply Z.bits_inj_0. intros n.
  rewrite Z.ldiff_spec, Z.land_spec. by destruct (Z.testbit x n), (Z.testbit y n).
Qed.

(** ** Arrays

    A C array of [n] elements is a list of length [n]; an access outside it is
    [Undefined]. *)
Definition in_bounds {A} (l : list A) (i : Z) : bool := (0 <=? i) && (i <? Z.of_nat (length l)).

Definition aget {A} (l : list A) (i : Z) : res A :=
  if in_bounds l i then deref (l !! Z.to_nat i) else Undefined.

Definition aset {A} (l : list A) (i : Z) (x : A) : res (list A) :=
  if in_bounds l i then Val (<[Z.to_nat i := x]> l) else Undefined.

Lemma in_bounds_true {A} (l : list A) i :
  in_bounds l i = true <-> 0 <= i < Z.of_nat (length l).
Proof. unfold in_bounds. rewrite andb_true_iff. lia. Qed.

Lemma aget_Val {A} (l : list A) i x :
  aget l i = Val x <-> 0 <= i /\ l !! Z.to_nat i = Some x.
Proof.
  unfold aget. destruct (in_bounds l i) eqn:E.
  - apply in_bounds_true in E. destruct (l !! Z.to_nat i); cbn; (split; [| intros [_ ?]]); intros; simplify_eq; split; done || lia.
  - split; [done |]. intros [Hi Hx]. apply lookup_lt_Some in Hx.
    apply not_true_iff_false in E. rewrite in_bounds_true in E. lia.
Qed.

Lemma aget_lt {A} (l : list A) i :
  0 <= i < Z.of_nat (length l) -> exists x, aget l i = Val x.
Proof.
  intros Hi. destruct (lookup_lt_is_Some_2 l (Z.to_nat i)) as [x Hx]; [lia |].
  exists x. apply aget_Val. split; [lia | done].
Qed.

Lemma aget_inv {A} (l : list A) i x : aget l i = Val x -> 0 <= i < Z.of_nat (length l).
Proof. rewrite aget_Val. intros [? H]. apply lookup_lt_Some in H. lia. Qed.

Lemma aget_out {A} (l : list A) i : ~ (0 <= i < Z.of_nat (length l)) -> aget l i = Undefined.
Proof.
  intros Hi. unfold aget. destruct (in_bounds l i) eqn:E; [| done].
  apply in_bounds_true in E. lia.
Qed.

Lemma aset_lt {A} (l : list A) i x :
  0 <= i < Z.of_nat (length l) -> aset l i x = Val (<[Z.to_nat i := x]> l).
Proof. intros Hi. unfold aset. by rewrite (proj2 (in_bounds_true l i) Hi). Qed.

Lemma aset_Val {A} (l l' : list A) i x :
  aset l i x = Val l' <-> 0 <= i < Z.of_nat (length l) /\ l' = <[Z.to_nat i := x]> l.
Proof.
  unfold aset. destruct (in_bounds l i) eqn:E.
  - apply in_bounds_true in E. split; [| intros [_ ->]]; intros; simplify_eq; done.
  - apply not_true_iff_false in E. rewrite in_bounds_true in E. split; [done |]. by intros [].
Qed.

Lemma aset_length {A} (l l' : list A) i x : aset l i x = Val l' -> length l' = length l.
Proof. rewrite aset_Val. intros [_ ->]. apply length_insert. Qed.

Lemma aget_insert_eq {A} (l : list A) i x :
  0 <= i < Z.of_nat (length l) -> aget (<[Z.to_nat i := x]> l) i = Val x.
Proof.
  intros Hi. apply aget_Val. split; [lia |]. apply list_lookup_insert_eq. lia.
Qed.

Lemma aget_insert_ne {A} (l : list A) i j x :
  i <> j -> 0 <= i -> aget (<[Z.to_nat i := x]> l) j = aget l j.
Proof.
  intros Hne Hi. unfold aget, in_bounds. rewrite length_insert.
  destruct (0 <=? j) eqn:Hj; [| done]. cbn.
  rewrite list_lookup_insert_ne; [done |]. lia.
Qed.

Lemma alter_as_insert {A} (f : A -> A) (l : list A) i x :
  l !! i = Some x -> alter f i l = <[i := f x]> l.
Proof.
  revert i. induction l as [| y l IH]; intros [| i] H; cbn in *; simplify_eq; [done |].
  f_equal. by apply IH.
Qed.

(** Read-modify-write of one element. *)
Lemma amodify {A} (f : A -> A) (l : list A) i :
  0 <= i < Z.of_nat (length l) ->
  exists x, aget l i = Val x /\ aset l i (f x) = Val (alter f (Z.to_nat i) l).
Proof.
  intros Hi. destruct (aget_lt l i Hi) as [x Hx]. exists x. split; [done |].
  rewrite aset_lt by done. apply aget_Val in Hx as [_ Hx]. by rewrite (alter_as_insert f l _ x).
Qed.

Lemma aget_alter_ne {A} (f : A -> A) (l : list A) i j :
  i <> j -> 0 <= i -> aget (alter f (Z.to_nat i) l) j = aget l j.
Proof.
  intros Hne Hi. unfold aget, in_bounds. rewrite length_alter.
  destruct (Z.leb_spec 0 j); [| done]. cbn. destruct (_ <? _); [| done].
  rewrite list_lookup_alter_ne; [done |]. lia.
Qed.

Create Rewrite HintDb arr.
#[export] Hint Rewrite @length_insert : arr.

(** ** Loops

    [for_each] is a [for] loop over the given index values without an early
    exit; [for_ctl] one whose body may leave it. *)
Inductive ctl (S R : Type) : Type :=
| Next (s : S)
| Brk (r : R).
Arguments Next {S R} s.
Arguments Brk {S R} r.

Fixpoint for_each {I S} (body : I -> S -> res S) (l : list I) (s : S) : res S :=
  match l with
  | [] => Val s
  | i :: l' => s' ← body i s; for_each body l' s'
  end.

Fixpoint for_ctl {I S R} (body : I -> S -> res (ctl S R)) (l : list I) (s : S) : res (ctl S R) :=
  match l with
  | [] => Val (Next s)
  | i :: l' =>
      c ← body i s;
      match c with
      | Next s' => for_ctl body l' s'
      | Brk r => Val (Brk r)
      end
  end.

Lemma for_each_app {I S} (body : I -> S -> res S) l1 l2 s :
  for_each body (l1 ++ l2) s = (s' ← for_each body l1 s; for_each body l2 s').
Proof.
  revert s. induction l1 as [| i l1 IH]; intros s; [done |].
  cbn. destruct (body i s); cbn; auto.
Qed.

(** Invariant rule for [for_each]: [P k s] after [k] iterations. *)
Lemma for_each_inv {I S} (P : list I -> S -> Prop) (body : I -> S -> res S) (l : list I) (s : S) :
  P [] s ->
  (forall done i rest s, l = done ++ i :: rest -> P done s ->
     exists s', body i s = Val s' /\ P (done ++ [i]) s') ->
  exists s', for_each body l s = Val s' /\ P l s'.
Proof.
  intros H0 Hstep.
  enough (forall rest done s, l = done ++ rest -> P done s ->
    exists s', for_each body rest s = Val s' /\ P l s') as Hg by (apply (Hg l [] s); done).
  induction rest as [| i rest IH]; intros dn s1 Hl HP; cbn.
  - rewrite app_nil_r in Hl. subst. eauto.
  - destruct (Hstep dn i rest s1 Hl HP) as (s2 & -> & HP2). cbn.
    apply (IH (dn ++ [i]) s2); [| done]. by rewrite <- app_assoc.
Qed.

(** [while] with a binary fuel of [p] iterations: the fuel costs nothing to
    evaluate when the loop leaves early.  [None] is "out of fuel". *)
Fixpoint while_pos {S R} (body : S -> ctl S R) (p : positive) (s : S) : ctl S R :=
  match p with
  | xH => body s
  | xO p' =>
      match while_pos body p' s with
      | Next s' => while_pos body p' s'
      | Brk r => Brk r
      end
  | xI p' =>
      match body s with
      | Next s' =>
          match while_pos body p' s' with
          | Next s'' => while_pos body p' s''
          | Brk r => Brk r
          end
      | Brk r => Brk r
      end
  end.

(** The same loop with unary fuel, the form the proofs use. *)
Fixpoint while_nat {S R} (body : S -> ctl S R) (n : nat) (s : S) : ctl S R :=
  match n with
  | O => Next s
  | Datatypes.S n' =>
      match body s with
      | Next s' => while_nat body n' s'
      | Brk r => Brk r
      end
  end.

Lemma while_nat_add {S R} (body : S -> ctl S R) n m s :
  while_nat body (n + m) s =
  match while_nat body n s with Next s' => while_nat body m s' | Brk r => Brk r end.
Proof.
  revert s. induction n as [| n IH]; intros s; [done |].
  cbn. destruct (body s); [apply IH | done].
Qed.

Lemma while_pos_nat {S R} (body : S -> ctl S R) p s :
  while_pos body p s = while_nat body (Pos.to_nat p) s.
Proof.
  revert s. induction p as [p IH | p IH |]; intros s.
  - replace (Pos.to_nat p~1) with (1 + (Pos.to_nat p + Pos.to_nat p))%nat by lia.
    rewrite while_nat_add. cbn [while_pos while_nat].
    destruct (body s) as [s1 | r1]; [| reflexivity].
    rewrite while_nat_add, IH. destruct (while_nat body (Pos.to_nat p) s1); [apply IH | done].
  - replace (Pos.to_nat p~0) with (Pos.to_nat p + Pos.to_nat p)%nat by lia.
    rewrite while_nat_add. cbn [while_pos]. rewrite IH.
    destruct (while_nat body (Pos.to_nat p) s); [apply IH | done].
  - change (Pos.to_nat 1) with 1%nat. cbn. by destruct (body s).
Qed.

(** ** Counting the indices that satisfy a test *)
Fixpoint count_if (f : Z -> bool) (l : list Z) : Z :=
  match l with
  | [] => 0
  | i :: l' => (if f i then 1 else 0) + count_if f l'
  end.

Lemma count_if_bounds f l : 0 <= count_if f l <= Z.of_nat (length l).
Proof. induction l as [| i l IH]; cbn; [lia |]. destruct (f i); lia. Qed.

Lemma count_if_app f l1 l2 : count_if f (l1 ++ l2) = count_if f l1 + count_if f l2.
Proof. induction l1 as [| i l IH]; cbn; [done |]. destruct (f i); lia. Qed.

Lemma count_if_ext f g l : (forall i, i ∈ l -> f i = g i) -> count_if f l = count_if g l.
Proof.
  induction l as [| i l IH]; intros H; [done |]. cbn.
  rewrite (H i) by set_solver. rewrite IH; [done |]. set_solver.
Qed.

Lemma count_if_false f l : (forall i, i ∈ l -> f i = false) -> count_if f l = 0.
Proof.
  induction l as [| i l IH]; intros H; [done |]. cbn.
  rewrite (H i) by set_solver. rewrite IH; [done |]. set_solver.
Qed.

Lemma count_if_full f l :
  count_if f l = Z.of_nat (length l) <-> (forall i, i ∈ l -> f i = true).
Proof.
  induction l as [| i l IH]; cbn.
  - split; [set_solver | done].
  - pose proof (count_if_bounds f l). split.
    + intros H1 j Hj. apply elem_of_cons in Hj.
      destruct (f i) eqn:Hi; [| lia].
      destruct Hj as [-> | Hj]; [done |]. apply IH; [lia | done].
    + intros H1. rewrite (H1 i) by set_solver.
      assert (count_if f l = Z.of_nat (length l)) by (apply IH; set_solver). lia.
Qed.

Lemma count_if_lt f l :
  count_if f l < Z.of_nat (length l) -> exists i, i ∈ l /\ f i = false.
Proof.
  induction l as [| i l IH]; cbn; intros Hlt; [lia |].
  destruct (f i) eqn:Hi; [| exists i; set_solver].
  destruct IH as (j & Hj & Hf); [lia |]. exists j. set_solver.
Qed.

Lemma count_if_pos f l i : i ∈ l -> f i = true -> 0 < count_if f l.
Proof.
  induction l as [| j l IH]; cbn; intros Hin Hf; [set_solver |].
  pose proof (count_if_bounds f l). apply elem_of_cons in Hin as [-> | Hin].
  - rewrite Hf. lia.
  - specialize (IH Hin Hf). destruct (f j); lia.
Qed.

(** Changing one index from false to true adds one. *)
Lemma count_if_flip f g l i :
  NoDup l -> i ∈ l -> f i = false -> g i = true -> (forall j, j <> i -> f j = g j) ->
  count_if g l = count_if f l + 1.
Proof.
  induction l as [| k l IH]; intros Hnd Hin Hf Hg Hne; [set_solver |].
  apply NoDup_cons in Hnd as [Hk Hnd]. cbn.
  apply elem_of_cons in Hin as [-> | Hin].
  - rewrite Hf, Hg, (count_if_ext g f); [lia |].
    intros j Hj. symmetry. apply Hne. intros ->. done.
  - rewrite IH, (Hne k); [lia | | done ..]. intros ->. done.
Qed.

(** ** Bytes: object representations (little-endian host) and [memcmp] *)
Fixpoint le_bytes (n : nat) (x : Z) : list Z :=
  match n with
  | O => []
  | S n' => x mod 256 :: le_bytes n' (x / 256)
  end.

Fixpoint le_val (bs : list Z) : Z :=
  match bs with
  | [] => 0
  | b :: bs' => b + 256 * le_val bs'
  end.

Fixpoint be_val_acc (acc : Z) (bs : list Z) : Z :=
  match bs with
  | [] => acc
  | b :: bs' => be_val_acc (256 * acc + b) bs'
  end.

(** Byte order of the network: most significant byte first. *)
Definition be_val (bs : list Z) : Z := be_val_acc 0 bs.

(** The sign of the first differing byte; the standard specifies no more. *)
Fixpoint memcmp (a b : list Z) : Z :=
  match a, b with
  | x :: a', y :: b' => if x =? y then memcmp a' b' else if x <? y then -1 else 1
  | _, _ => 0
  end.

Lemma memcmp_eq a b : length a = length b -> memcmp a b = 0 <-> a = b.
Proof.
  revert b. induction a as [| x a IH]; intros [| y b] Hl; cbn in *; try done.
  destruct (Z.eqb_spec x y) as [-> | Hne].
  - rewrite IH by lia. split; [by intros -> | by injection 1].
  - destruct (x <? y); split; try done; congruence.
Qed.

Lemma length_le_bytes n x : length (le_bytes n x) = n.
Proof. revert x. induction n as [| n IH]; intros x; cbn; auto. Qed.

Lemma le_val_bytes n x : le_val (le_bytes n x) = x mod 256 ^ Z.of_nat n.
Proof.
  revert x. induction n as [| n IH]; intros x; [cbn; by rewrite Z.mod_1_r |].
  cbn [le_bytes le_val]. rewrite IH, Nat2Z.inj_succ, Z.pow_succ_r by lia.
  rewrite Z.rem_mul_r; lia.
Qed.

Lemma le_bytes_inj n x y :
  0 <= x < 256 ^ Z.of_nat n -> 0 <= y < 256 ^ Z.of_nat n ->
  le_bytes n x = le_bytes n y -> x = y.
Proof.
  intros Hx Hy He. apply (f_equal le_val) in He. rewrite !le_val_bytes in He.
  rewrite !Z.mod_small in He; done.
Qed.

(** Case analysis on a bounded number. *)
Lemma forall_below (P : Z -> Prop) n : Forall P (seqZ 0 n) -> forall d, 0 <= d < n -> P d.
Proof. rewrite Forall_seqZ. intros H d Hd. apply H. lia. Qed.

Lemma map_eq_below {A} (f g : Z -> A) n :
  List.map f (seqZ 0 n) = List.map g (seqZ 0 n) -> forall d, 0 <= d < n -> f d = g d.
Proof.
  intros He. apply (forall_below (fun d => f d = g d)).
  induction (seqZ 0 n) as [| x l IH]; [done |]. injection He as Hx Hl. constructor; auto.
Qed.

Lemma forallb_below (f : Z -> bool) n :
  forallb f (seqZ 0 n) = true -> forall d, 0 <= d < n -> f d = true.
Proof.
  intros Hf. apply (forall_below (fun d => f d = true)), Forall_forall.
  intros x Hx%list_elem_of_In. by apply (proj1 (forallb_forall _ _) Hf).
Qed.

(** ** Postconditions

    [yields P m]: if [m] returns, its result satisfies [P].  This is the usual
    reading of a type: what a call that fails would have returned has none.
    [returns P m]: [m] does return, and its result satisfies [P]. *)

Definition yields {A} (P : A -> Prop) (m : res A) : Prop :=
  match m with Val a => P a | _ => True end.

Lemma yields_bind {A B} (P : A -> Prop) (Q : B -> Prop) (m : res A) (f : A -> res B) :
  yields P m -> (forall a, P a -> yields Q (f a)) -> yields Q (m ≫= f).
Proof. destruct m; [| done | done]. intros H Hf. by apply Hf. Qed.

Lemma yields_and {A} (P Q : A -> Prop) (m : res A) : yields P m -> yields Q m -> yields (fun a => P a /\ Q a) m.
Proof. destruct m; cbn; auto. Qed.

Lemma yields_weaken {A} (P Q : A -> Prop) (m : res A) : yields P m -> (forall a, P a -> Q a) -> yields Q m.
Proof. destruct m; cbn; auto. Qed.

Lemma yields_any {A B} (Q : B -> Prop) (m : res A) (f : A -> res B) :
  (forall a, yields Q (f a)) -> yields Q (m ≫= f).
Proof. intros Hf. apply (yields_bind (fun _ => True)); [by destruct m | by intros a _]. Qed.

Lemma yields_assert {A} (Q : A -> Prop) b (k : res A) : yields Q k -> yields Q (c_assert b k).
Proof. by destruct b. Qed.

Lemma yields_for_each {I S} (P : S -> Prop) (body : I -> S -> res S) (l : list I) (s : S) :
  P s -> (forall i s, P s -> yields P (body i s)) -> yields P (for_each body l s).
Proof.
  intros Hs Hb. revert s Hs. induction l as [| i l IH]; intros s Hs; [done |].
  cbn. apply (yields_bind P); [by apply Hb | exact IH].
Qed.

Lemma yields_aget {A} (P : A -> Prop) (l : list A) i : Forall P l -> yields P (aget l i).
Proof.
  intros Hl. destruct (aget l i) as [x | |] eqn:E; [| done | done]. apply aget_Val in E as [_ E].
  exact (Forall_lookup_1 _ _ _ _ Hl E).
Qed.

Lemma yields_aset {A} (P : A -> Prop) (l : list A) i x : Forall P l -> P x -> yields (Forall P) (aset l i x).
Proof.
  intros Hl Hx. unfold aset. destruct (in_bounds l i); [| done]. by apply Forall_insert.
Qed.

Definition returns {A} (P : A -> Prop) (m : res A) : Prop :=
  match m with Val a => P a | _ => False end.

Lemma returns_Val {A} (P : A -> Prop) (m : res A) : returns P m -> exists a, m = Val a /\ P a.
Proof. destruct m as [a | |]; [| done | done]. intros H. by exists a. Qed.

Lemma returns_bind {A B} (P : A -> Prop) (Q : B -> Prop) (m : res A) (f : A -> res B) :
  returns P m -> (forall a, P a -> returns Q (f a)) -> returns Q (m ≫= f).
Proof. destruct m; [| done | done]. intros H Hf. by apply Hf. Qed.

Lemma returns_weaken {A} (P Q : A -> Prop) (m : res A) : returns P m -> (forall a, P a -> Q a) -> returns Q m.
Proof. destruct m; cbn; auto. Qed.

(** A call that returns, with what it then yields. *)
Lemma returns_yields {A} (P Q : A -> Prop) (m : res A) :
  returns P m -> yields Q m -> returns (fun a => P a /\ Q a) m.
Proof. destruct m; cbn; auto. Qed.

Lemma returns_for_each {I S} (P : S -> Prop) (body : I -> S -> res S) (l : list I) (s : S) :
  P s -> (forall i s, i ∈ l -> P s -> returns P (body i s)) -> returns P (for_each body l s).
Proof.
  revert s. induction l as [| i l IH]; intros s Hs Hb; [done |].
  cbn. apply (returns_bind P); [apply Hb; [set_solver | done] |]. intros s' Hs'.
  apply IH; [done |]. intros j s2 Hj. apply Hb. set_solver.
Qed.

Lemma returns_aget {A} (P : A -> Prop) (l : list A) i :
  Forall P l -> 0 <= i < Z.of_nat (length l) -> returns P (aget l i).
Proof.
  intros Hl Hi. destruct (aget_lt l i Hi) as [x E]. pose proof (yields_aget P l i Hl) as H. by rewrite E in *.
Qed.
