(* ===== verification/Structs.v ===== *)
(** The shared data structures: [common/structs.h], [common/tval.h],
    [common/mgainfo.h] and the shared interface [common/sharedif.h].

    A struct is a record with one field per member, prefixed by the struct's
    initials; every member is a [Z] kept in the range of its C type by the
    operations.  [set_f v r] is the assignment [r.f = v].  Arrays are lists
    (see Prelude.v).  [housekeeping_t] is declared in structs.h and used by no
    file, so it has no record here. *)
From S2P Require Import Prelude.

(** [tval_t]: a timestamp (tval.h). *)
Record tval_t := mk_tval_t {
  tv_sec : Z;
  tv_usec : Z
}.

Definition set_tv_sec (v : Z) (r : tval_t) : tval_t :=
  mk_tval_t v (tv_usec r).
Definition set_tv_usec (v : Z) (r : tval_t) : tval_t :=
  mk_tval_t (tv_sec r) v.

(** [mga_info_t]: the run-time part of a managed array (mgainfo.h). *)
Record mga_info_t := mk_mga_info_t {
  mi_num_entries : Z;
  mi_idx_lo : Z;
  mi_idx_hi : Z
}.

Definition set_mi_num_entries (v : Z) (r : mga_info_t) : mga_info_t :=
  mk_mga_info_t v (mi_idx_lo r) (mi_idx_hi r).
Definition set_mi_idx_lo (v : Z) (r : mga_info_t) : mga_info_t :=
  mk_mga_info_t (mi_num_entries r) v (mi_idx_hi r).
Definition set_mi_idx_hi (v : Z) (r : mga_info_t) : mga_info_t :=
  mk_mga_info_t (mi_num_entries r) (mi_idx_lo r) v.

(** [addr_info_t]: statistics of one address; [mac] is the six byte MAC address. *)
Record addr_info_t := mk_addr_info_t {
  ai_tstart : tval_t;
  ai_iid : Z;
  ai_addr_offset : Z;
  ai_isv6 : Z;
  ai_internal : Z;
  ai_resvd : Z;
  ai_resvd2 : Z;
  ai_nstreams : Z;
  ai_nstreams_active : Z;
  ai_txpackets : Z;
  ai_txbytes : Z;
  ai_rxpackets : Z;
  ai_rxbytes : Z;
  ai_txbcastpkt : Z;
  ai_mac : list Z
}.

Definition set_ai_tstart (v : tval_t) (r : addr_info_t) : addr_info_t :=
  mk_addr_info_t v (ai_iid r) (ai_addr_offset r) (ai_isv6 r) (ai_internal r) (ai_resvd r) (ai_resvd2 r)
    (ai_nstreams r) (ai_nstreams_active r) (ai_txpackets r) (ai_txbytes r) (ai_rxpackets r)
    (ai_rxbytes r) (ai_txbcastpkt r) (ai_mac r).
Definition set_ai_iid (v : Z) (r : addr_info_t) : addr_info_t :=
  mk_addr_info_t (ai_tstart r) v (ai_addr_offset r) (ai_isv6 r) (ai_internal r) (ai_resvd r) (ai_resvd2 r)
    (ai_nstreams r) (ai_nstreams_active r) (ai_txpackets r) (ai_txbytes r) (ai_rxpackets r)
    (ai_rxbytes r) (ai_txbcastpkt r) (ai_mac r).
Definition set_ai_addr_offset (v : Z) (r : addr_info_t) : addr_info_t :=
  mk_addr_info_t (ai_tstart r) (ai_iid r) v (ai_isv6 r) (ai_internal r) (ai_resvd r) (ai_resvd2 r)
    (ai_nstreams r) (ai_nstreams_active r) (ai_txpackets r) (ai_txbytes r) (ai_rxpackets r)
    (ai_rxbytes r) (ai_txbcastpkt r) (ai_mac r).
Definition set_ai_isv6 (v : Z) (r : addr_info_t) : addr_info_t :=
  mk_addr_info_t (ai_tstart r) (ai_iid r) (ai_addr_offset r) v (ai_internal r) (ai_resvd r) (ai_resvd2 r)
    (ai_nstreams r) (ai_nstreams_active r) (ai_txpackets r) (ai_txbytes r) (ai_rxpackets r)
    (ai_rxbytes r) (ai_txbcastpkt r) (ai_mac r).
Definition set_ai_internal (v : Z) (r : addr_info_t) : addr_info_t :=
  mk_addr_info_t (ai_tstart r) (ai_iid r) (ai_addr_offset r) (ai_isv6 r) v (ai_resvd r) (ai_resvd2 r)
    (ai_nstreams r) (ai_nstreams_active r) (ai_txpackets r) (ai_txbytes r) (ai_rxpackets r)
    (ai_rxbytes r) (ai_txbcastpkt r) (ai_mac r).
Definition set_ai_resvd (v : Z) (r : addr_info_t) : addr_info_t :=
  mk_addr_info_t (ai_tstart r) (ai_iid r) (ai_addr_offset r) (ai_isv6 r) (ai_internal r) v (ai_resvd2 r)
    (ai_nstreams r) (ai_nstreams_active r) (ai_txpackets r) (ai_txbytes r) (ai_rxpackets r)
    (ai_rxbytes r) (ai_txbcastpkt r) (ai_mac r).
Definition set_ai_resvd2 (v : Z) (r : addr_info_t) : addr_info_t :=
  mk_addr_info_t (ai_tstart r) (ai_iid r) (ai_addr_offset r) (ai_isv6 r) (ai_internal r) (ai_resvd r) v
    (ai_nstreams r) (ai_nstreams_active r) (ai_txpackets r) (ai_txbytes r) (ai_rxpackets r)
    (ai_rxbytes r) (ai_txbcastpkt r) (ai_mac r).
Definition set_ai_nstreams (v : Z) (r : addr_info_t) : addr_info_t :=
  mk_addr_info_t (ai_tstart r) (ai_iid r) (ai_addr_offset r) (ai_isv6 r) (ai_internal r) (ai_resvd r)
    (ai_resvd2 r) v (ai_nstreams_active r) (ai_txpackets r) (ai_txbytes r) (ai_rxpackets r)
    (ai_rxbytes r) (ai_txbcastpkt r) (ai_mac r).
Definition set_ai_nstreams_active (v : Z) (r : addr_info_t) : addr_info_t :=
  mk_addr_info_t (ai_tstart r) (ai_iid r) (ai_addr_offset r) (ai_isv6 r) (ai_internal r) (ai_resvd r)
    (ai_resvd2 r) (ai_nstreams r) v (ai_txpackets r) (ai_txbytes r) (ai_rxpackets r)
    (ai_rxbytes r) (ai_txbcastpkt r) (ai_mac r).
Definition set_ai_txpackets (v : Z) (r : addr_info_t) : addr_info_t :=
  mk_addr_info_t (ai_tstart r) (ai_iid r) (ai_addr_offset r) (ai_isv6 r) (ai_internal r) (ai_resvd r)
    (ai_resvd2 r) (ai_nstreams r) (ai_nstreams_active r) v (ai_txbytes r) (ai_rxpackets r)
    (ai_rxbytes r) (ai_txbcastpkt r) (ai_mac r).
Definition set_ai_txbytes (v : Z) (r : addr_info_t) : addr_info_t :=
  mk_addr_info_t (ai_tstart r) (ai_iid r) (ai_addr_offset r) (ai_isv6 r) (ai_internal r) (ai_resvd r)
    (ai_resvd2 r) (ai_nstreams r) (ai_nstreams_active r) (ai_txpackets r) v (ai_rxpackets r)
    (ai_rxbytes r) (ai_txbcastpkt r) (ai_mac r).
Definition set_ai_rxpackets (v : Z) (r : addr_info_t) : addr_info_t :=
  mk_addr_info_t (ai_tstart r) (ai_iid r) (ai_addr_offset r) (ai_isv6 r) (ai_internal r) (ai_resvd r)
    (ai_resvd2 r) (ai_nstreams r) (ai_nstreams_active r) (ai_txpackets r) (ai_txbytes r) v
    (ai_rxbytes r) (ai_txbcastpkt r) (ai_mac r).
Definition set_ai_rxbytes (v : Z) (r : addr_info_t) : addr_info_t :=
  mk_addr_info_t (ai_tstart r) (ai_iid r) (ai_addr_offset r) (ai_isv6 r) (ai_internal r) (ai_resvd r)
    (ai_resvd2 r) (ai_nstreams r) (ai_nstreams_active r) (ai_txpackets r) (ai_txbytes r)
    (ai_rxpackets r) v (ai_txbcastpkt r) (ai_mac r).
Definition set_ai_txbcastpkt (v : Z) (r : addr_info_t) : addr_info_t :=
  mk_addr_info_t (ai_tstart r) (ai_iid r) (ai_addr_offset r) (ai_isv6 r) (ai_internal r) (ai_resvd r)
    (ai_resvd2 r) (ai_nstreams r) (ai_nstreams_active r) (ai_txpackets r) (ai_txbytes r)
    (ai_rxpackets r) (ai_rxbytes r) v (ai_mac r).
Definition set_ai_mac (v : list Z) (r : addr_info_t) : addr_info_t :=
  mk_addr_info_t (ai_tstart r) (ai_iid r) (ai_addr_offset r) (ai_isv6 r) (ai_internal r) (ai_resvd r)
    (ai_resvd2 r) (ai_nstreams r) (ai_nstreams_active r) (ai_txpackets r) (ai_txbytes r)
    (ai_rxpackets r) (ai_rxbytes r) (ai_txbcastpkt r) v.

(** [stream_info_t]: statistics of one stream. *)
Record stream_info_t := mk_stream_info_t {
  si_tstart : tval_t;
  si_tlast : tval_t;
  si_iid : Z;
  si_idx_left : Z;
  si_idx_right : Z;
  si_idx_proto : Z;
  si_lport : Z;
  si_rport : Z;
  si_ipproto : Z;
  si_tcpflags : Z;
  si_vlan : Z;
  si_flowflags : Z;
  si_packets : Z;
  si_bytes : Z;
  si__packets : Z;
  si__bytes : Z
}.

Definition set_si_tstart (v : tval_t) (r : stream_info_t) : stream_info_t :=
  mk_stream_info_t v (si_tlast r) (si_iid r) (si_idx_left r) (si_idx_right r) (si_idx_proto r) (si_lport r)
    (si_rport r) (si_ipproto r) (si_tcpflags r) (si_vlan r) (si_flowflags r) (si_packets r)
    (si_bytes r) (si__packets r) (si__bytes r).
Definition set_si_tlast (v : tval_t) (r : stream_info_t) : stream_info_t :=
  mk_stream_info_t (si_tstart r) v (si_iid r) (si_idx_left r) (si_idx_right r) (si_idx_proto r) (si_lport r)
    (si_rport r) (si_ipproto r) (si_tcpflags r) (si_vlan r) (si_flowflags r) (si_packets r)
    (si_bytes r) (si__packets r) (si__bytes r).
Definition set_si_iid (v : Z) (r : stream_info_t) : stream_info_t :=
  mk_stream_info_t (si_tstart r) (si_tlast r) v (si_idx_left r) (si_idx_right r) (si_idx_proto r)
    (si_lport r) (si_rport r) (si_ipproto r) (si_tcpflags r) (si_vlan r) (si_flowflags r)
    (si_packets r) (si_bytes r) (si__packets r) (si__bytes r).
Definition set_si_idx_left (v : Z) (r : stream_info_t) : stream_info_t :=
  mk_stream_info_t (si_tstart r) (si_tlast r) (si_iid r) v (si_idx_right r) (si_idx_proto r) (si_lport r)
    (si_rport r) (si_ipproto r) (si_tcpflags r) (si_vlan r) (si_flowflags r) (si_packets r)
    (si_bytes r) (si__packets r) (si__bytes r).
Definition set_si_idx_right (v : Z) (r : stream_info_t) : stream_info_t :=
  mk_stream_info_t (si_tstart r) (si_tlast r) (si_iid r) (si_idx_left r) v (si_idx_proto r) (si_lport r)
    (si_rport r) (si_ipproto r) (si_tcpflags r) (si_vlan r) (si_flowflags r) (si_packets r)
    (si_bytes r) (si__packets r) (si__bytes r).
Definition set_si_idx_proto (v : Z) (r : stream_info_t) : stream_info_t :=
  mk_stream_info_t (si_tstart r) (si_tlast r) (si_iid r) (si_idx_left r) (si_idx_right r) v (si_lport r)
    (si_rport r) (si_ipproto r) (si_tcpflags r) (si_vlan r) (si_flowflags r) (si_packets r)
    (si_bytes r) (si__packets r) (si__bytes r).
Definition set_si_lport (v : Z) (r : stream_info_t) : stream_info_t :=
  mk_stream_info_t (si_tstart r) (si_tlast r) (si_iid r) (si_idx_left r) (si_idx_right r) (si_idx_proto r) v
    (si_rport r) (si_ipproto r) (si_tcpflags r) (si_vlan r) (si_flowflags r) (si_packets r)
    (si_bytes r) (si__packets r) (si__bytes r).
Definition set_si_rport (v : Z) (r : stream_info_t) : stream_info_t :=
  mk_stream_info_t (si_tstart r) (si_tlast r) (si_iid r) (si_idx_left r) (si_idx_right r) (si_idx_proto r)
    (si_lport r) v (si_ipproto r) (si_tcpflags r) (si_vlan r) (si_flowflags r) (si_packets r)
    (si_bytes r) (si__packets r) (si__bytes r).
Definition set_si_ipproto (v : Z) (r : stream_info_t) : stream_info_t :=
  mk_stream_info_t (si_tstart r) (si_tlast r) (si_iid r) (si_idx_left r) (si_idx_right r) (si_idx_proto r)
    (si_lport r) (si_rport r) v (si_tcpflags r) (si_vlan r) (si_flowflags r) (si_packets r)
    (si_bytes r) (si__packets r) (si__bytes r).
Definition set_si_tcpflags (v : Z) (r : stream_info_t) : stream_info_t :=
  mk_stream_info_t (si_tstart r) (si_tlast r) (si_iid r) (si_idx_left r) (si_idx_right r) (si_idx_proto r)
    (si_lport r) (si_rport r) (si_ipproto r) v (si_vlan r) (si_flowflags r) (si_packets r)
    (si_bytes r) (si__packets r) (si__bytes r).
Definition set_si_vlan (v : Z) (r : stream_info_t) : stream_info_t :=
  mk_stream_info_t (si_tstart r) (si_tlast r) (si_iid r) (si_idx_left r) (si_idx_right r) (si_idx_proto r)
    (si_lport r) (si_rport r) (si_ipproto r) (si_tcpflags r) v (si_flowflags r) (si_packets r)
    (si_bytes r) (si__packets r) (si__bytes r).
Definition set_si_flowflags (v : Z) (r : stream_info_t) : stream_info_t :=
  mk_stream_info_t (si_tstart r) (si_tlast r) (si_iid r) (si_idx_left r) (si_idx_right r) (si_idx_proto r)
    (si_lport r) (si_rport r) (si_ipproto r) (si_tcpflags r) (si_vlan r) v (si_packets r)
    (si_bytes r) (si__packets r) (si__bytes r).
Definition set_si_packets (v : Z) (r : stream_info_t) : stream_info_t :=
  mk_stream_info_t (si_tstart r) (si_tlast r) (si_iid r) (si_idx_left r) (si_idx_right r) (si_idx_proto r)
    (si_lport r) (si_rport r) (si_ipproto r) (si_tcpflags r) (si_vlan r) (si_flowflags r) v
    (si_bytes r) (si__packets r) (si__bytes r).
Definition set_si_bytes (v : Z) (r : stream_info_t) : stream_info_t :=
  mk_stream_info_t (si_tstart r) (si_tlast r) (si_iid r) (si_idx_left r) (si_idx_right r) (si_idx_proto r)
    (si_lport r) (si_rport r) (si_ipproto r) (si_tcpflags r) (si_vlan r) (si_flowflags r)
    (si_packets r) v (si__packets r) (si__bytes r).
Definition set_si__packets (v : Z) (r : stream_info_t) : stream_info_t :=
  mk_stream_info_t (si_tstart r) (si_tlast r) (si_iid r) (si_idx_left r) (si_idx_right r) (si_idx_proto r)
    (si_lport r) (si_rport r) (si_ipproto r) (si_tcpflags r) (si_vlan r) (si_flowflags r)
    (si_packets r) (si_bytes r) v (si__bytes r).
Definition set_si__bytes (v : Z) (r : stream_info_t) : stream_info_t :=
  mk_stream_info_t (si_tstart r) (si_tlast r) (si_iid r) (si_idx_left r) (si_idx_right r) (si_idx_proto r)
    (si_lport r) (si_rport r) (si_ipproto r) (si_tcpflags r) (si_vlan r) (si_flowflags r)
    (si_packets r) (si_bytes r) (si__packets r) v.

(** [lan_info_t]: statistics of a vlan or subnet; the program never fills it in. *)
Record lan_info_t := mk_lan_info_t {
  li_mask4 : Z;
  li_vlan : Z;
  li_flowflags : Z;
  li_rsvd : Z;
  li_packets : Z;
  li_bytes : Z;
  li__packets : Z;
  li__bytes : Z
}.

Definition set_li_mask4 (v : Z) (r : lan_info_t) : lan_info_t :=
  mk_lan_info_t v (li_vlan r) (li_flowflags r) (li_rsvd r) (li_packets r) (li_bytes r) (li__packets r)
    (li__bytes r).
Definition set_li_vlan (v : Z) (r : lan_info_t) : lan_info_t :=
  mk_lan_info_t (li_mask4 r) v (li_flowflags r) (li_rsvd r) (li_packets r) (li_bytes r) (li__packets r)
    (li__bytes r).
Definition set_li_flowflags (v : Z) (r : lan_info_t) : lan_info_t :=
  mk_lan_info_t (li_mask4 r) (li_vlan r) v (li_rsvd r) (li_packets r) (li_bytes r) (li__packets r)
    (li__bytes r).
Definition set_li_rsvd (v : Z) (r : lan_info_t) : lan_info_t :=
  mk_lan_info_t (li_mask4 r) (li_vlan r) (li_flowflags r) v (li_packets r) (li_bytes r) (li__packets r)
    (li__bytes r).
Definition set_li_packets (v : Z) (r : lan_info_t) : lan_info_t :=
  mk_lan_info_t (li_mask4 r) (li_vlan r) (li_flowflags r) (li_rsvd r) v (li_bytes r) (li__packets r)
    (li__bytes r).
Definition set_li_bytes (v : Z) (r : lan_info_t) : lan_info_t :=
  mk_lan_info_t (li_mask4 r) (li_vlan r) (li_flowflags r) (li_rsvd r) (li_packets r) v (li__packets r)
    (li__bytes r).
Definition set_li__packets (v : Z) (r : lan_info_t) : lan_info_t :=
  mk_lan_info_t (li_mask4 r) (li_vlan r) (li_flowflags r) (li_rsvd r) (li_packets r) (li_bytes r) v
    (li__bytes r).
Definition set_li__bytes (v : Z) (r : lan_info_t) : lan_info_t :=
  mk_lan_info_t (li_mask4 r) (li_vlan r) (li_flowflags r) (li_rsvd r) (li_packets r) (li_bytes r)
    (li__packets r) v.

(** [flow_stats_t]: packet and byte counters of one flow type. *)
Record flow_stats_t := mk_flow_stats_t {
  fs_packets : Z;
  fs_bytes : Z
}.

Definition set_fs_packets (v : Z) (r : flow_stats_t) : flow_stats_t :=
  mk_flow_stats_t v (fs_bytes r).
Definition set_fs_bytes (v : Z) (r : flow_stats_t) : flow_stats_t :=
  mk_flow_stats_t (fs_packets r) v.

(** [proto_info_t]: counters of one application port. *)
Record proto_info_t := mk_proto_info_t {
  pi_packets : Z;
  pi_bytes : Z;
  pi__packets : Z;
  pi__bytes : Z
}.

Definition set_pi_packets (v : Z) (r : proto_info_t) : proto_info_t :=
  mk_proto_info_t v (pi_bytes r) (pi__packets r) (pi__bytes r).
Definition set_pi_bytes (v : Z) (r : proto_info_t) : proto_info_t :=
  mk_proto_info_t (pi_packets r) v (pi__packets r) (pi__bytes r).
Definition set_pi__packets (v : Z) (r : proto_info_t) : proto_info_t :=
  mk_proto_info_t (pi_packets r) (pi_bytes r) v (pi__bytes r).
Definition set_pi__bytes (v : Z) (r : proto_info_t) : proto_info_t :=
  mk_proto_info_t (pi_packets r) (pi_bytes r) (pi__packets r) v.

(** Flow flags and flow types of structs.h. *)
Definition FLOW_FLAG_WEB : Z := Z.shiftl 1 0.
Definition FLOW_FLAG_IN : Z := Z.shiftl 1 1.
Definition FLOW_FLAG_CLEANUP : Z := Z.shiftl 1 7.
Definition FLOW_TYPE_NONWEB_OUT : Z := 0.
Definition FLOW_TYPE_WEB_OUT : Z := FLOW_FLAG_WEB.
Definition FLOW_TYPE_NONWEB_IN : Z := FLOW_FLAG_IN.
Definition FLOW_TYPE_WEB_IN : Z := Z.lor FLOW_FLAG_WEB FLOW_FLAG_IN.
Definition FLOW_TYPE_INTERNAL : Z := 4.
Definition FLOW_TYPE_TOTAL : Z := 5.

(** Sizes of sharedif.h. *)
Definition SI_NUM_ADDRS : Z := 16 * 1024.
Definition SI_NUM_STREAMS : Z := 32 * 1024.
Definition SI_ADDR6_BYTES : Z := 16 * 32.
Definition SI_NUM_FLOWTYPES : Z := 6.
Definition SI_NUM_LANS : Z := 4.
Definition SI_NUM_TCP_PROTOS : Z := 9110.
Definition SI_NUM_PROTOS : Z := SI_NUM_TCP_PROTOS * 2.
Definition SHAREDIF_MAGIC : Z := 0x466c6f77.

(** [sharedif_t]: the memory shared by the capture and the statistics process. *)
Record sharedif_t := mk_sharedif_t {
  sh_magic : Z;
  sh_lan_struct_len : Z;
  sh_addr_struct_len : Z;
  sh_stream_struct_len : Z;
  sh_proto_struct_len : Z;
  sh_tstart : tval_t;
  sh_tnow : tval_t;
  sh_flow_stats : list flow_stats_t;
  sh_ifdrops : Z;
  sh_kdrops : Z;
  sh_addr_lan_indexes : mga_info_t;
  sh_addr_wan_indexes : mga_info_t;
  sh_stream_indexes : mga_info_t;
  sh_streams : list stream_info_t;
  sh_protos : list proto_info_t;
  sh_addrs : list addr_info_t;
  sh_lans : list lan_info_t;
  sh_addr6mem : list Z
}.

Definition set_sh_magic (v : Z) (r : sharedif_t) : sharedif_t :=
  mk_sharedif_t v (sh_lan_struct_len r) (sh_addr_struct_len r) (sh_stream_struct_len r)
    (sh_proto_struct_len r) (sh_tstart r) (sh_tnow r) (sh_flow_stats r) (sh_ifdrops r)
    (sh_kdrops r) (sh_addr_lan_indexes r) (sh_addr_wan_indexes r) (sh_stream_indexes r)
    (sh_streams r) (sh_protos r) (sh_addrs r) (sh_lans r) (sh_addr6mem r).
Definition set_sh_lan_struct_len (v : Z) (r : sharedif_t) : sharedif_t :=
  mk_sharedif_t (sh_magic r) v (sh_addr_struct_len r) (sh_stream_struct_len r) (sh_proto_struct_len r)
    (sh_tstart r) (sh_tnow r) (sh_flow_stats r) (sh_ifdrops r) (sh_kdrops r)
    (sh_addr_lan_indexes r) (sh_addr_wan_indexes r) (sh_stream_indexes r) (sh_streams r)
    (sh_protos r) (sh_addrs r) (sh_lans r) (sh_addr6mem r).
Definition set_sh_addr_struct_len (v : Z) (r : sharedif_t) : sharedif_t :=
  mk_sharedif_t (sh_magic r) (sh_lan_struct_len r) v (sh_stream_struct_len r) (sh_proto_struct_len r)
    (sh_tstart r) (sh_tnow r) (sh_flow_stats r) (sh_ifdrops r) (sh_kdrops r)
    (sh_addr_lan_indexes r) (sh_addr_wan_indexes r) (sh_stream_indexes r) (sh_streams r)
    (sh_protos r) (sh_addrs r) (sh_lans r) (sh_addr6mem r).
Definition set_sh_stream_struct_len (v : Z) (r : sharedif_t) : sharedif_t :=
  mk_sharedif_t (sh_magic r) (sh_lan_struct_len r) (sh_addr_struct_len r) v (sh_proto_struct_len r)
    (sh_tstart r) (sh_tnow r) (sh_flow_stats r) (sh_ifdrops r) (sh_kdrops r)
    (sh_addr_lan_indexes r) (sh_addr_wan_indexes r) (sh_stream_indexes r) (sh_streams r)
    (sh_protos r) (sh_addrs r) (sh_lans r) (sh_addr6mem r).
Definition set_sh_proto_struct_len (v : Z) (r : sharedif_t) : sharedif_t :=
  mk_sharedif_t (sh_magic r) (sh_lan_struct_len r) (sh_addr_struct_len r) (sh_stream_struct_len r) v
    (sh_tstart r) (sh_tnow r) (sh_flow_stats r) (sh_ifdrops r) (sh_kdrops r)
    (sh_addr_lan_indexes r) (sh_addr_wan_indexes r) (sh_stream_indexes r) (sh_streams r)
    (sh_protos r) (sh_addrs r) (sh_lans r) (sh_addr6mem r).
Definition set_sh_tstart (v : tval_t) (r : sharedif_t) : sharedif_t :=
  mk_sharedif_t (sh_magic r) (sh_lan_struct_len r) (sh_addr_struct_len r) (sh_stream_struct_len r)
    (sh_proto_struct_len r) v (sh_tnow r) (sh_flow_stats r) (sh_ifdrops r) (sh_kdrops r)
    (sh_addr_lan_indexes r) (sh_addr_wan_indexes r) (sh_stream_indexes r) (sh_streams r)
    (sh_protos r) (sh_addrs r) (sh_lans r) (sh_addr6mem r).
Definition set_sh_tnow (v : tval_t) (r : sharedif_t) : sharedif_t :=
  mk_sharedif_t (sh_magic r) (sh_lan_struct_len r) (sh_addr_struct_len r) (sh_stream_struct_len r)
    (sh_proto_struct_len r) (sh_tstart r) v (sh_flow_stats r) (sh_ifdrops r) (sh_kdrops r)
    (sh_addr_lan_indexes r) (sh_addr_wan_indexes r) (sh_stream_indexes r) (sh_streams r)
    (sh_protos r) (sh_addrs r) (sh_lans r) (sh_addr6mem r).
Definition set_sh_flow_stats (v : list flow_stats_t) (r : sharedif_t) : sharedif_t :=
  mk_sharedif_t (sh_magic r) (sh_lan_struct_len r) (sh_addr_struct_len r) (sh_stream_struct_len r)
    (sh_proto_struct_len r) (sh_tstart r) (sh_tnow r) v (sh_ifdrops r) (sh_kdrops r)
    (sh_addr_lan_indexes r) (sh_addr_wan_indexes r) (sh_stream_indexes r) (sh_streams r)
    (sh_protos r) (sh_addrs r) (sh_lans r) (sh_addr6mem r).
Definition set_sh_ifdrops (v : Z) (r : sharedif_t) : sharedif_t :=
  mk_sharedif_t (sh_magic r) (sh_lan_struct_len r) (sh_addr_struct_len r) (sh_stream_struct_len r)
    (sh_proto_struct_len r) (sh_tstart r) (sh_tnow r) (sh_flow_stats r) v (sh_kdrops r)
    (sh_addr_lan_indexes r) (sh_addr_wan_indexes r) (sh_stream_indexes r) (sh_streams r)
    (sh_protos r) (sh_addrs r) (sh_lans r) (sh_addr6mem r).
Definition set_sh_kdrops (v : Z) (r : sharedif_t) : sharedif_t :=
  mk_sharedif_t (sh_magic r) (sh_lan_struct_len r) (sh_addr_struct_len r) (sh_stream_struct_len r)
    (sh_proto_struct_len r) (sh_tstart r) (sh_tnow r) (sh_flow_stats r) (sh_ifdrops r) v
    (sh_addr_lan_indexes r) (sh_addr_wan_indexes r) (sh_stream_indexes r) (sh_streams r)
    (sh_protos r) (sh_addrs r) (sh_lans r) (sh_addr6mem r).
Definition set_sh_addr_lan_indexes (v : mga_info_t) (r : sharedif_t) : sharedif_t :=
  mk_sharedif_t (sh_magic r) (sh_lan_struct_len r) (sh_addr_struct_len r) (sh_stream_struct_len r)
    (sh_proto_struct_len r) (sh_tstart r) (sh_tnow r) (sh_flow_stats r) (sh_ifdrops r)
    (sh_kdrops r) v (sh_addr_wan_indexes r) (sh_stream_indexes r) (sh_streams r) (sh_protos r)
    (sh_addrs r) (sh_lans r) (sh_addr6mem r).
Definition set_sh_addr_wan_indexes (v : mga_info_t) (r : sharedif_t) : sharedif_t :=
  mk_sharedif_t (sh_magic r) (sh_lan_struct_len r) (sh_addr_struct_len r) (sh_stream_struct_len r)
    (sh_proto_struct_len r) (sh_tstart r) (sh_tnow r) (sh_flow_stats r) (sh_ifdrops r)
    (sh_kdrops r) (sh_addr_lan_indexes r) v (sh_stream_indexes r) (sh_streams r) (sh_protos r)
    (sh_addrs r) (sh_lans r) (sh_addr6mem r).
Definition set_sh_stream_indexes (v : mga_info_t) (r : sharedif_t) : sharedif_t :=
  mk_sharedif_t (sh_magic r) (sh_lan_struct_len r) (sh_addr_struct_len r) (sh_stream_struct_len r)
    (sh_proto_struct_len r) (sh_tstart r) (sh_tnow r) (sh_flow_stats r) (sh_ifdrops r)
    (sh_kdrops r) (sh_addr_lan_indexes r) (sh_addr_wan_indexes r) v (sh_streams r)
    (sh_protos r) (sh_addrs r) (sh_lans r) (sh_addr6mem r).
Definition set_sh_streams (v : list stream_info_t) (r : sharedif_t) : sharedif_t :=
  mk_sharedif_t (sh_magic r) (sh_lan_struct_len r) (sh_addr_struct_len r) (sh_stream_struct_len r)
    (sh_proto_struct_len r) (sh_tstart r) (sh_tnow r) (sh_flow_stats r) (sh_ifdrops r)
    (sh_kdrops r) (sh_addr_lan_indexes r) (sh_addr_wan_indexes r) (sh_stream_indexes r) v
    (sh_protos r) (sh_addrs r) (sh_lans r) (sh_addr6mem r).
Definition set_sh_protos (v : list proto_info_t) (r : sharedif_t) : sharedif_t :=
  mk_sharedif_t (sh_magic r) (sh_lan_struct_len r) (sh_addr_struct_len r) (sh_stream_struct_len r)
    (sh_proto_struct_len r) (sh_tstart r) (sh_tnow r) (sh_flow_stats r) (sh_ifdrops r)
    (sh_kdrops r) (sh_addr_lan_indexes r) (sh_addr_wan_indexes r) (sh_stream_indexes r)
    (sh_streams r) v (sh_addrs r) (sh_lans r) (sh_addr6mem r).
Definition set_sh_addrs (v : list addr_info_t) (r : sharedif_t) : sharedif_t :=
  mk_sharedif_t (sh_magic r) (sh_lan_struct_len r) (sh_addr_struct_len r) (sh_stream_struct_len r)
    (sh_proto_struct_len r) (sh_tstart r) (sh_tnow r) (sh_flow_stats r) (sh_ifdrops r)
    (sh_kdrops r) (sh_addr_lan_indexes r) (sh_addr_wan_indexes r) (sh_stream_indexes r)
    (sh_streams r) (sh_protos r) v (sh_lans r) (sh_addr6mem r).
Definition set_sh_lans (v : list lan_info_t) (r : sharedif_t) : sharedif_t :=
  mk_sharedif_t (sh_magic r) (sh_lan_struct_len r) (sh_addr_struct_len r) (sh_stream_struct_len r)
    (sh_proto_struct_len r) (sh_tstart r) (sh_tnow r) (sh_flow_stats r) (sh_ifdrops r)
    (sh_kdrops r) (sh_addr_lan_indexes r) (sh_addr_wan_indexes r) (sh_stream_indexes r)
    (sh_streams r) (sh_protos r) (sh_addrs r) v (sh_addr6mem r).
Definition set_sh_addr6mem (v : list Z) (r : sharedif_t) : sharedif_t :=
  mk_sharedif_t (sh_magic r) (sh_lan_struct_len r) (sh_addr_struct_len r) (sh_stream_struct_len r)
    (sh_proto_struct_len r) (sh_tstart r) (sh_tnow r) (sh_flow_stats r) (sh_ifdrops r)
    (sh_kdrops r) (sh_addr_lan_indexes r) (sh_addr_wan_indexes r) (sh_stream_indexes r)
    (sh_streams r) (sh_protos r) (sh_addrs r) (sh_lans r) v.

(** The all-zero values [memset] and [calloc] leave. *)
Definition zero_tval : tval_t := mk_tval_t 0 0.
Definition zero_mga_info : mga_info_t := mk_mga_info_t 0 0 0.
Definition zero_addr_info : addr_info_t :=
  mk_addr_info_t zero_tval 0 0 0 0 0 0 0 0 0 0 0 0 0 (replicate 6 0).
Definition zero_stream_info : stream_info_t :=
  mk_stream_info_t zero_tval zero_tval 0 0 0 0 0 0 0 0 0 0 0 0 0 0.
Definition zero_lan_info : lan_info_t := mk_lan_info_t 0 0 0 0 0 0 0 0.
Definition zero_flow_stats : flow_stats_t := mk_flow_stats_t 0 0.
Definition zero_proto_info : proto_info_t := mk_proto_info_t 0 0 0 0.
Definition zero_sharedif : sharedif_t :=
  mk_sharedif_t 0 0 0 0 0 zero_tval zero_tval
    (replicate (Z.to_nat SI_NUM_FLOWTYPES) zero_flow_stats) 0 0
    zero_mga_info zero_mga_info zero_mga_info
    (replicate (Z.to_nat SI_NUM_STREAMS) zero_stream_info)
    (replicate (Z.to_nat SI_NUM_PROTOS) zero_proto_info)
    (replicate (Z.to_nat SI_NUM_ADDRS) zero_addr_info)
    (replicate (Z.to_nat SI_NUM_LANS) zero_lan_info)
    (replicate (Z.to_nat SI_ADDR6_BYTES) 0).

#[export] Instance tval_t_eq_dec : EqDecision tval_t.
Proof. solve_decision. Defined.
#[export] Instance mga_info_t_eq_dec : EqDecision mga_info_t.
Proof. solve_decision. Defined.
#[export] Instance addr_info_t_eq_dec : EqDecision addr_info_t.
Proof. solve_decision. Defined.
#[export] Instance stream_info_t_eq_dec : EqDecision stream_info_t.
Proof. solve_decision. Defined.
#[export] Instance flow_stats_t_eq_dec : EqDecision flow_stats_t.
Proof. solve_decision. Defined.
#[export] Instance proto_info_t_eq_dec : EqDecision proto_info_t.
Proof. solve_decision. Defined.
