(* ===== verification/MgArray.v ===== *)
(** Managed arrays, [utils/mgarray.c]: an allocator of the entries
    [idx_min .. idx_max] of a raw array that keeps the taken entries in a
    window around the middle of that range.

    The raw array is a list, [ENTRY_PTR(ma, i)] is index [i] of it, and the
    user's [isempty_func] is the class [MgaEntry], with its documented contract
    (mgarray.h) as [MgaEntryOk].  The run-time part [ma->p] (it lives in the
    shared memory) and the array are the state the operations pass on. *)
From S2P Require Import Prelude Structs.

Inductive mgaop_t : Set := MGA_OP_TST | MGA_OP_SET | MGA_OP_TSTSET | MGA_OP_CLR.
Inductive entry_status_t : Set := ENTRY_AVAIL | ENTRY_TAKEN.

#[export] Instance entry_status_eq_dec : EqDecision entry_status_t.
Proof. solve_decision. Defined.

(** [mga_isempty_func]: performs the operation and returns the previous state. *)
Class MgaEntry (E : Type) := isempty_func : E -> mgaop_t -> E * entry_status_t.

Definition entry_status {E} `{MgaEntry E} (e : E) : entry_status_t :=
  snd (isempty_func e MGA_OP_TST).

Class MgaEntryOk (E : Type) `{MgaEntry E} : Prop := {
  isempty_returns : forall e op, snd (isempty_func e op) = entry_status e;
  isempty_set : forall e, entry_status (fst (isempty_func e MGA_OP_SET)) = ENTRY_TAKEN;
  isempty_tstset_avail : forall e, entry_status e = ENTRY_AVAIL ->
    fst (isempty_func e MGA_OP_TSTSET) = fst (isempty_func e MGA_OP_SET);
  isempty_tstset_taken : forall e, entry_status e = ENTRY_TAKEN ->
    fst (isempty_func e MGA_OP_TSTSET) = e;
  isempty_clr : forall e, entry_status (fst (isempty_func e MGA_OP_CLR)) = ENTRY_AVAIL
}.

(** The static part of [mgarray_t]. *)
Record mgarray_t := mk_mgarray_t {
  total_entries : Z;
  idx_min : Z;
  idx_max : Z
}.

Section MgArray.
Context {E : Type} `{MgaEntry E}.

(** ** Operations *)

Definition mga_init (mga : mgarray_t) (p : mga_info_t) (raw_array_ptr : option (list E))
    (index_min index_max : Z) : mgarray_t * mga_info_t :=
  match raw_array_ptr with
  | None => (mga, p)
  | Some _ =>
      let total := u32 (index_max - index_min + 1) in
      let lo := u32 (index_min + total / 2) in
      (mk_mgarray_t total index_min index_max, mk_mga_info_t 0 lo (u32 (lo + 1)))
  end.

Definition _mga_more_lo_than_hi (ma : mgarray_t) (p : mga_info_t) : bool :=
  let mid := u32 (idx_min ma + total_entries ma / 2) in
  u32 (mi_idx_hi p - 1 - mid) <? u32 (mid - mi_idx_lo p).

Definition mga_get (ma : mgarray_t) (idx : Z) : res Z :=
  c_assert (negb ((idx <? idx_min ma) || (idx_max ma <? idx))) (Val idx).

(** One evaluation of [isempty_func(ENTRY_PTR(ma, i), op)]. *)
Definition entry_op (op : mgaop_t) (arr : list E) (i : Z) : res (list E * entry_status_t) :=
  e ← aget arr i;
  let '(e', status) := isempty_func e op in
  arr' ← aset arr i e';
  Val (arr', status).

Definition ENTRY_IS_FREE (arr : list E) (i : Z) : res bool :=
  e ← aget arr i; Val (bool_decide (entry_status e = ENTRY_AVAIL)).

Definition ENTRY_IS_TAKEN (arr : list E) (i : Z) : res bool :=
  e ← aget arr i; Val (bool_decide (entry_status e = ENTRY_TAKEN)).

(** The search for an interior item: the [for] loop of [mga_alloc_entry]. *)
Definition mga_find_interior (p : mga_info_t) (arr : list E) : res (ctl (list E) (Z * list E)) :=
  for_ctl (fun i arr =>
      '(arr', prev) ← entry_op MGA_OP_TSTSET arr i;
      match prev with
      | ENTRY_AVAIL => Val (Brk (i, arr'))
      | ENTRY_TAKEN => Val (Next arr')
      end)
    (seqZ (u32 (mi_idx_lo p + 1)) (mi_idx_hi p - u32 (mi_idx_lo p + 1))) arr.

(** [None] is the NULL result; [Some i] is the entry at index [i] ( [*idx] ). *)
Definition mga_alloc_entry (ma : mgarray_t) (p : mga_info_t) (arr : list E)
    : res (option Z * mga_info_t * list E) :=
  if total_entries ma <=? mi_num_entries p then Val (None, p, arr) else
  let diff := i32 (u32 (mi_idx_hi p - mi_idx_lo p - 1)) in
  c_assert (0 <=? diff) (
  let p1 := set_mi_num_entries (u32 (mi_num_entries p + 1)) p in
  if mi_num_entries p <? diff then
    c ← mga_find_interior p arr;
    match c with
    | Brk (i, arr') => Val (Some i, p1, arr')
    | Next _ => Asserted
    end
  else if _mga_more_lo_than_hi ma p then
    let idx := mi_idx_hi p in
    '(arr', prev) ← entry_op MGA_OP_TSTSET arr idx;
    c_assert (bool_decide (prev = ENTRY_AVAIL)) (
    let p2 := set_mi_idx_hi (u32 (mi_idx_hi p + 1)) p1 in
    t ← ENTRY_IS_TAKEN arr' idx;
    c_assert t (Val (Some idx, p2, arr')))
  else
    let idx := mi_idx_lo p in
    '(arr', prev) ← entry_op MGA_OP_TSTSET arr idx;
    c_assert (bool_decide (prev = ENTRY_AVAIL)) (
    let p2 := set_mi_idx_lo (u32 (mi_idx_lo p - 1)) p1 in
    t ← ENTRY_IS_TAKEN arr' idx;
    c_assert t (Val (Some idx, p2, arr')))).

(** The two [while] loops of [mga_free_entry].  The fuel is the distance the
    index can move; it is never exhausted ([raise_lo_spec], [lower_hi_spec]). *)
Fixpoint raise_lo (fuel : nat) (mid : Z) (arr : list E) (lo : Z) : res Z :=
  if lo <? mid then
    free ← ENTRY_IS_FREE arr (u32 (lo + 1));
    if (free : bool) then
      match fuel with
      | O => Undefined
      | S fuel' => raise_lo fuel' mid arr (u32 (lo + 1))
      end
    else Val lo
  else Val lo.

Fixpoint lower_hi (fuel : nat) (lo : Z) (arr : list E) (hi : Z) : res Z :=
  if u32 (lo + 1) <? hi then
    free ← ENTRY_IS_FREE arr (u32 (hi - 1));
    if (free : bool) then
      match fuel with
      | O => Undefined
      | S fuel' => lower_hi fuel' lo arr (u32 (hi - 1))
      end
    else Val hi
  else Val hi.

Definition mga_free_entry (ma : mgarray_t) (p : mga_info_t) (arr : list E) (idx : Z)
    : res (mga_info_t * list E) :=
  if (idx <=? mi_idx_lo p) || (mi_idx_hi p <=? idx) then Val (p, arr) else
  free ← ENTRY_IS_FREE arr idx;
  if (free : bool) then Val (p, arr) else
  let p1 := set_mi_num_entries (u32 (mi_num_entries p - 1)) p in
  '(arr', _) ← entry_op MGA_OP_CLR arr idx;
  let mid := u32 (idx_min ma + total_entries ma / 2) in
  lo ← raise_lo (Z.to_nat (mid - mi_idx_lo p)) mid arr' (mi_idx_lo p);
  hi ← lower_hi (Z.to_nat (mi_idx_hi p - lo)) lo arr' (mi_idx_hi p);
  Val (set_mi_idx_hi hi (set_mi_idx_lo lo p1), arr').

(** ** Specification vocabulary *)

(** Entry [i] exists and is taken. *)
Definition taken (arr : list E) (i : Z) : bool :=
  match aget arr i with
  | Val e => bool_decide (entry_status e = ENTRY_TAKEN)
  | _ => false
  end.

(** The middle of the range, where allocation starts. *)
Definition mga_mid (ma : mgarray_t) : Z := idx_min ma + total_entries ma / 2.

(** The static part describes a range of the raw array that fits an [int]. *)
Record mga_wf (ma : mgarray_t) (arr : list E) : Prop := {
  wf_min : 0 <= idx_min ma;
  wf_max : idx_min ma <= idx_max ma < Z.of_nat (length arr);
  wf_int : idx_max ma < 2147483646;
  wf_total : total_entries ma = idx_max ma - idx_min ma + 1
}.

(** All taken entries of the range are strictly between [idx_lo] and [idx_hi],
    which stay around the range's lower half, and [num_entries] counts them. *)
Record mga_inv (ma : mgarray_t) (p : mga_info_t) (arr : list E) : Prop := {
  inv_wf : mga_wf ma arr;
  inv_lo_min : idx_min ma - 1 <= mi_idx_lo p;
  inv_lo_nonneg : 0 <= mi_idx_lo p;
  inv_lo_mid : mi_idx_lo p <= mga_mid ma;
  inv_window : mi_idx_lo p < mi_idx_hi p;
  inv_hi : mi_idx_hi p <= idx_max ma + 1;
  inv_outside : forall i, idx_min ma <= i <= idx_max ma ->
    i <= mi_idx_lo p \/ mi_idx_hi p <= i -> taken arr i = false;
  inv_num : mi_num_entries p =
    count_if (taken arr) (seqZ (idx_min ma) (idx_max ma - idx_min ma + 1))
}.

(** The window also contains the middle, so that [idx_hi - 1 - mid] of
    [_mga_more_lo_than_hi] does not wrap. *)
Definition straddles (ma : mgarray_t) (p : mga_info_t) : Prop := mga_mid ma < mi_idx_hi p.

(** The entry the next allocation takes lies in the range: the window has a
    free entry, or the end that is extended is inside. *)
Definition mga_room (ma : mgarray_t) (p : mga_info_t) : Prop :=
  mi_num_entries p < mi_idx_hi p - mi_idx_lo p - 1 \/
  if _mga_more_lo_than_hi ma p then mi_idx_hi p <= idx_max ma
  else Z.max 1 (idx_min ma) <= mi_idx_lo p.

(** The end of the window that an allocation extends, and the run-time part
    after an allocation. *)
Definition mga_side (ma : mgarray_t) (p : mga_info_t) : Z :=
  if _mga_more_lo_than_hi ma p then mi_idx_hi p else mi_idx_lo p.

Definition mga_next (ma : mgarray_t) (p : mga_info_t) : mga_info_t :=
  let p1 := set_mi_num_entries (mi_num_entries p + 1) p in
  if mi_num_entries p <? mi_idx_hi p - mi_idx_lo p - 1 then p1
  else if _mga_more_lo_than_hi ma p then set_mi_idx_hi (mi_idx_hi p + 1) p1
  else set_mi_idx_lo (mi_idx_lo p - 1) p1.

(** [arr'] is [arr] with entry [i] marked taken ( [b = true] ) or free. *)
Record marked (arr arr' : list E) (i : Z) (b : bool) : Prop := {
  marked_length : length arr' = length arr;
  marked_at : taken arr' i = b;
  marked_other : forall j, j <> i -> aget arr' j = aget arr j
}.

(** [n] successive allocations; the indices they return. *)
Fixpoint mga_alloc_n (n : nat) (ma : mgarray_t) (p : mga_info_t) (arr : list E)
    : res (list Z * mga_info_t * list E) :=
  match n with
  | O => Val ([], p, arr)
  | S n' =>
      '(l, p1, arr1) ← mga_alloc_n n' ma p arr;
      '(o, p2, arr2) ← mga_alloc_entry ma p1 arr1;
      match o with
      | Some i => Val (l ++ [i], p2, arr2)
      | None => Val (l, p2, arr2)
      end
  end.

Definition mga_capacity (ma : mgarray_t) : Z := i32 (total_entries ma).
Definition mga_lo (p : mga_info_t) : Z := mi_idx_lo p.
Definition mga_hi (p : mga_info_t) : Z := mi_idx_hi p.
Definition mga_count (p : mga_info_t) : Z := i32 (mi_num_entries p).

End MgArray.

(** ** Single entries *)
Section EntryProofs.
Context {E : Type} `{MgaEntryOk E}.
Implicit Types arr : list E.

Lemma taken_true_bounds arr i : taken arr i = true -> 0 <= i < Z.of_nat (length arr).
Proof. unfold taken. destruct (aget arr i) eqn:Ha; [| done ..]. by apply aget_inv in Ha. Qed.

Lemma entry_op_Val op arr i :
  0 <= i < Z.of_nat (length arr) ->
  exists e, aget arr i = Val e /\
    entry_op op arr i = Val (<[Z.to_nat i := fst (isempty_func e op)]> arr, entry_status e).
Proof.
  intros Hi. destruct (aget_lt arr i Hi) as [e He]. exists e. split; [done |].
  unfold entry_op. rewrite He. cbn. rewrite <- (isempty_returns e op).
  destruct (isempty_func e op) as [e' st]. by rewrite aset_lt.
Qed.

Lemma marked_insert arr i e b :
  0 <= i < Z.of_nat (length arr) -> bool_decide (entry_status e = ENTRY_TAKEN) = b ->
  marked arr (<[Z.to_nat i := e]> arr) i b.
Proof.
  intros Hi Hb. split.
  - apply length_insert.
  - unfold taken. by rewrite aget_insert_eq.
  - intros j Hj. apply aget_insert_ne; lia.
Qed.

Lemma tstset_free arr i :
  0 <= i < Z.of_nat (length arr) -> taken arr i = false ->
  exists arr', entry_op MGA_OP_TSTSET arr i = Val (arr', ENTRY_AVAIL) /\ marked arr arr' i true.
Proof.
  intros Hi Ht. destruct (entry_op_Val MGA_OP_TSTSET arr i Hi) as (e & He & ->).
  assert (entry_status e = ENTRY_AVAIL) as Hs.
  { unfold taken in Ht. rewrite He in Ht. apply bool_decide_eq_false in Ht.
    destruct (entry_status e); done. }
  rewrite Hs. eexists. split; [done |]. apply marked_insert; [done |].
  rewrite isempty_tstset_avail by done. apply bool_decide_eq_true, isempty_set.
Qed.

Lemma tstset_taken arr i :
  taken arr i = true -> entry_op MGA_OP_TSTSET arr i = Val (arr, ENTRY_TAKEN).
Proof.
  intros Ht. pose proof (taken_true_bounds arr i Ht) as Hi.
  destruct (entry_op_Val MGA_OP_TSTSET arr i Hi) as (e & He & ->).
  unfold taken in Ht. rewrite He in Ht. apply bool_decide_eq_true in Ht.
  rewrite Ht, isempty_tstset_taken by done. apply aget_Val in He as [_ He].
  by rewrite list_insert_id.
Qed.

Lemma clr_entry arr i :
  0 <= i < Z.of_nat (length arr) ->
  exists arr' st, entry_op MGA_OP_CLR arr i = Val (arr', st) /\ marked arr arr' i false.
Proof.
  intros Hi. destruct (entry_op_Val MGA_OP_CLR arr i Hi) as (e & He & ->).
  do 2 eexists. split; [done |]. apply marked_insert; [done |].
  rewrite isempty_clr. done.
Qed.

Lemma entry_is_taken_spec arr i :
  0 <= i < Z.of_nat (length arr) -> ENTRY_IS_TAKEN arr i = Val (taken arr i).
Proof.
  intros Hi. unfold ENTRY_IS_TAKEN, taken. by destruct (aget_lt arr i Hi) as [e ->].
Qed.

Lemma entry_is_free_spec arr i :
  0 <= i < Z.of_nat (length arr) -> ENTRY_IS_FREE arr i = Val (negb (taken arr i)).
Proof.
  intros Hi. unfold ENTRY_IS_FREE, taken. destruct (aget_lt arr i Hi) as [e ->]. cbn.
  f_equal. by destruct (entry_status e).
Qed.

Lemma marked_taken_other arr arr' i b j : marked arr arr' i b -> j <> i -> taken arr' j = taken arr j.
Proof. intros Hm Hj. unfold taken. by rewrite (marked_other _ _ _ _ Hm j Hj). Qed.

Lemma marked_wf ma arr arr' i b : marked arr arr' i b -> mga_wf ma arr -> mga_wf ma arr'.
Proof. intros Hm [? ? ? ?]. split; try done. by rewrite (marked_length _ _ _ _ Hm). Qed.

Lemma for_ctl_find (l : list Z) arr :
  (forall i, i ∈ l -> 0 <= i < Z.of_nat (length arr)) ->
  (exists i, i ∈ l /\ taken arr i = false) ->
  exists i arr',
    for_ctl (fun i arr =>
      '(arr', prev) ← entry_op MGA_OP_TSTSET arr i;
      match prev with
      | ENTRY_AVAIL => Val (Brk (i, arr'))
      | ENTRY_TAKEN => Val (Next arr')
      end) l arr = Val (Brk (i, arr')) /\
    i ∈ l /\ taken arr i = false /\ marked arr arr' i true.
Proof.
  induction l as [| k l IH]; intros Hb (j & Hj & Hf); [set_solver |]. cbn [for_ctl].
  destruct (taken arr k) eqn:Hk.
  - rewrite tstset_taken by done. cbn.
    destruct IH as (i & arr' & Hr & Hi & Hr2); [set_solver | | ].
    + exists j. split; [| done]. apply elem_of_cons in Hj as [-> | Hj]; [congruence | done].
    + exists i, arr'. split; [done |]. split; [set_solver | done].
  - destruct (tstset_free arr k) as (arr' & -> & Hm); [apply Hb; set_solver | done |]. cbn.
    exists k, arr'. split; [done |]. split; [set_solver | done].
Qed.
End EntryProofs.

(** ** The allocator invariant *)
Section MgaProofs.
Context {E : Type} `{MgaEntryOk E}.
Implicit Types arr : list E.

Lemma mga_info_eq n lo hi n' lo' hi' :
  n = n' -> lo = lo' -> hi = hi' -> mk_mga_info_t n lo hi = mk_mga_info_t n' lo' hi'.
Proof. by intros -> -> ->. Qed.

Lemma mid_bounds ma arr : mga_wf ma arr -> idx_min ma <= mga_mid ma <= idx_max ma.
Proof.
  intros Hwf. pose proof (wf_max _ _ Hwf). unfold mga_mid. rewrite (wf_total _ _ Hwf).
  clia.
Qed.

Lemma mid_u32 ma arr : mga_wf ma arr -> u32 (idx_min ma + total_entries ma / 2) = mga_mid ma.
Proof.
  intros Hwf. pose proof (mid_bounds ma arr Hwf). pose proof (wf_int _ _ Hwf).
  pose proof (wf_min _ _ Hwf). unfold mga_mid in *. apply u32_small. unfold is_u32. lia.
Qed.

(** [num_entries] also counts the taken entries of the window alone. *)
Lemma inv_num_window ma p arr :
  mga_inv ma p arr ->
  mi_num_entries p =
    count_if (taken arr) (seqZ (mi_idx_lo p + 1) (mi_idx_hi p - mi_idx_lo p - 1)).
Proof.
  intros Hi. pose proof (inv_wf _ _ _ Hi) as Hwf. destruct Hi as [_ ? ? ? ? ? Hout ->].
  pose proof (mid_bounds ma arr Hwf).
  set (a := idx_min ma) in *. set (z := idx_max ma) in *.
  set (lo := mi_idx_lo p) in *. set (hi := mi_idx_hi p) in *.
  replace (z - a + 1) with ((lo + 1 - a) + ((hi - lo - 1) + (z + 1 - hi))) by lia.
  rewrite (seqZ_app a), (seqZ_app (a + (lo + 1 - a))), !count_if_app by lia.
  replace (a + (lo + 1 - a)) with (lo + 1) by lia.
  replace (lo + 1 + (hi - lo - 1)) with hi by lia.
  rewrite (count_if_false _ (seqZ a _)), (count_if_false _ (seqZ hi _)); [lia | |];
    intros i Hi; apply elem_of_seqZ in Hi; apply Hout; lia.
Qed.

Lemma inv_num_le ma p arr :
  mga_inv ma p arr -> 0 <= mi_num_entries p <= mi_idx_hi p - mi_idx_lo p - 1.
Proof.
  intros Hi. rewrite (inv_num_window _ _ _ Hi). pose proof (inv_window _ _ _ Hi).
  pose proof (count_if_bounds (taken arr)
    (seqZ (mi_idx_lo p + 1) (mi_idx_hi p - mi_idx_lo p - 1))) as Hb.
  rewrite length_seqZ in Hb. lia.
Qed.

(** Taking one free entry [i] of the range and moving the window to contain it
    preserves the invariant. *)
Lemma inv_take ma p p' arr arr' i :
  mga_inv ma p arr -> idx_min ma <= i <= idx_max ma -> taken arr i = false ->
  marked arr arr' i true ->
  mi_num_entries p' = mi_num_entries p + 1 ->
  Z.max 0 (idx_min ma - 1) <= mi_idx_lo p' <= mi_idx_lo p ->
  mi_idx_hi p <= mi_idx_hi p' <= idx_max ma + 1 ->
  mi_idx_lo p' < i < mi_idx_hi p' ->
  mga_inv ma p' arr'.
Proof.
  intros Hinv Hi Hf Hm Hn Hlo Hhi Hw. pose proof (inv_wf _ _ _ Hinv) as Hwf.
  destruct Hinv as [_ ? ? ? ? ? Hout Hnum]. split; try lia.
  - by eapply marked_wf.
  - intros j Hj Hside. rewrite (marked_taken_other _ _ _ _ _ Hm) by lia.
    apply Hout; lia.
  - rewrite Hn, Hnum. symmetry. apply (count_if_flip _ _ _ i); [apply NoDup_seqZ | | done | |].
    + apply elem_of_seqZ. lia.
    + apply (marked_at _ _ _ _ Hm).
    + intros j Hj. symmetry. by eapply marked_taken_other.
Qed.

(** When the window has a free entry, [mga_find_interior] returns one. *)
Lemma find_interior_spec ma p arr :
  mga_inv ma p arr -> mi_num_entries p < mi_idx_hi p - mi_idx_lo p - 1 ->
  exists i arr', mga_find_interior p arr = Val (Brk (i, arr')) /\
    mi_idx_lo p < i < mi_idx_hi p /\ taken arr i = false /\ marked arr arr' i true.
Proof.
  intros Hinv Hlt. pose proof (inv_num_window _ _ _ Hinv) as Hn.
  pose proof (inv_wf _ _ _ Hinv) as Hwf. pose proof (wf_max _ _ Hwf).
  pose proof (wf_int _ _ Hwf). pose proof (mid_bounds _ _ Hwf).
  pose proof (wf_min _ _ Hwf). destruct Hinv as [_ ? ? ? ? ? _ _].
  unfold mga_find_interior. rewrite u32_small by (unfold is_u32; lia).
  replace (mi_idx_hi p - (mi_idx_lo p + 1)) with (mi_idx_hi p - mi_idx_lo p - 1) by lia.
  destruct (for_ctl_find (seqZ (mi_idx_lo p + 1) (mi_idx_hi p - mi_idx_lo p - 1)) arr)
    as (i & arr' & Hr & Hi & Hf & Hm).
  - intros i Hi. apply elem_of_seqZ in Hi. lia.
  - apply count_if_lt. rewrite length_seqZ. lia.
  - exists i, arr'. apply elem_of_seqZ in Hi. split; [done |]. split; [lia | done].
Qed.

Lemma diff_i32 ma p arr :
  mga_inv ma p arr ->
  i32 (u32 (mi_idx_hi p - mi_idx_lo p - 1)) = mi_idx_hi p - mi_idx_lo p - 1.
Proof.
  intros Hi. pose proof (inv_wf _ _ _ Hi) as Hwf. pose proof (wf_int _ _ Hwf).
  pose proof (mid_bounds _ _ Hwf). destruct Hi.
  rewrite u32_small by (unfold is_u32; lia). apply i32_small. lia.
Qed.

(** An allocation with room succeeds. *)
Lemma alloc_ok ma p arr :
  mga_inv ma p arr -> mi_num_entries p < total_entries ma -> mga_room ma p ->
  exists i arr',
    mga_alloc_entry ma p arr = Val (Some i, mga_next ma p, arr') /\
    idx_min ma <= i <= idx_max ma /\ taken arr i = false /\ marked arr arr' i true /\
    (mi_num_entries p = mi_idx_hi p - mi_idx_lo p - 1 -> i = mga_side ma p) /\
    mga_inv ma (mga_next ma p) arr'.
Proof.
  intros Hinv Hfull Hroom. pose proof (inv_wf _ _ _ Hinv) as Hwf.
  pose proof (wf_max _ _ Hwf). pose proof (wf_int _ _ Hwf). pose proof (wf_total _ _ Hwf).
  pose proof (wf_min _ _ Hwf). pose proof (mid_bounds _ _ Hwf).
  pose proof (inv_num_le _ _ _ Hinv). pose proof (inv_lo_min _ _ _ Hinv).
  pose proof (inv_lo_nonneg _ _ _ Hinv). pose proof (inv_lo_mid _ _ _ Hinv).
  pose proof (inv_window _ _ _ Hinv). pose proof (inv_hi _ _ _ Hinv).
  unfold mga_alloc_entry. rewrite (proj2 (Z.leb_gt _ _)) by lia.
  rewrite (diff_i32 _ _ _ Hinv), (proj2 (Z.leb_le 0 _)) by lia. cbn [c_assert].
  assert (u32 (mi_num_entries p + 1) = mi_num_entries p + 1) as Hn1
    by (apply u32_small; unfold is_u32; lia).
  unfold mga_next, mga_side.
  destruct (Z.ltb_spec (mi_num_entries p) (mi_idx_hi p - mi_idx_lo p - 1)) as [Hlt | Hge].
  { destruct (find_interior_spec ma p arr Hinv Hlt) as (i & arr' & -> & Hi & Hf & Hm). cbn.
    rewrite Hn1. do 2 eexists. split; [done |]. do 3 (split; [done || lia |]).
    split; [lia |]. eapply (inv_take ma p _ arr arr' i); cbn; try done || lia. }
  destruct Hroom as [| Hroom]; [lia |].
  assert (forall i, i = mi_idx_lo p \/ i = mi_idx_hi p -> idx_min ma <= i <= idx_max ma ->
    taken arr i = false) as Hout by (intros; apply (inv_outside _ _ _ Hinv); lia).
  destruct (_mga_more_lo_than_hi ma p).
  - destruct (tstset_free arr (mi_idx_hi p)) as (arr' & -> & Hm); [lia | apply Hout; lia |]. cbn.
    rewrite entry_is_taken_spec, (marked_at _ _ _ _ Hm)
      by (rewrite (marked_length _ _ _ _ Hm); lia). cbn.
    rewrite Hn1, u32_small by (unfold is_u32; lia). do 2 eexists. split; [done |].
    split; [lia |]. split; [apply Hout; lia |]. do 2 (split; [done |]).
    apply (inv_take ma p _ arr arr' (mi_idx_hi p)); cbn; try done || lia. apply Hout; lia.
  - destruct (tstset_free arr (mi_idx_lo p)) as (arr' & -> & Hm); [lia | apply Hout; lia |]. cbn.
    rewrite entry_is_taken_spec, (marked_at _ _ _ _ Hm)
      by (rewrite (marked_length _ _ _ _ Hm); lia). cbn.
    rewrite Hn1, u32_small by (unfold is_u32; lia). do 2 eexists. split; [done |].
    split; [lia |]. split; [apply Hout; lia |]. do 2 (split; [done |]).
    apply (inv_take ma p _ arr arr' (mi_idx_lo p)); cbn; try done || lia. apply Hout; lia.
Qed.

Lemma alloc_full ma p arr :
  total_entries ma <= mi_num_entries p -> mga_alloc_entry ma p arr = Val (None, p, arr).
Proof. intros Hf. unfold mga_alloc_entry. by rewrite (proj2 (Z.leb_le _ _)) by lia. Qed.

(** *** Allocation from an empty array *)

Definition all_free ma arr : Prop :=
  forall i, idx_min ma <= i <= idx_max ma -> taken arr i = false.

Lemma init_inv ma p arr p0 :
  mga_init ma p (Some arr) (idx_min ma) (idx_max ma) = (ma, p0) ->
  0 <= idx_min ma -> idx_min ma <= idx_max ma < Z.of_nat (length arr) ->
  idx_max ma < 2147483646 -> all_free ma arr ->
  mga_inv ma p0 arr /\ p0 = mk_mga_info_t 0 (mga_mid ma) (mga_mid ma + 1).
Proof.
  intros Hi Hmin Hmax Hint Hfree. unfold mga_init in Hi. injection Hi as Hma <-.
  assert (u32 (idx_max ma - idx_min ma + 1) = idx_max ma - idx_min ma + 1) as Ht
    by (apply u32_small; unfold is_u32; lia).
  rewrite Ht in *.
  assert (mga_wf ma arr) as Hwf by (split; try done; rewrite <- Hma; done).
  pose proof (mid_bounds _ _ Hwf) as Hb. pose proof (wf_total _ _ Hwf) as Htot.
  rewrite <- Htot, (mid_u32 ma arr Hwf), u32_small by (unfold is_u32; lia).
  split; [| done]. split; cbn; try done || lia.
  - intros i Hi _. by apply Hfree.
  - rewrite count_if_false; [done |]. intros i Hi. apply elem_of_seqZ in Hi. apply Hfree. lia.
Qed.

(** The state after [k] allocations from empty: the window grows alternately
    down and up. *)
Definition fill_info ma (k : Z) : mga_info_t :=
  mk_mga_info_t k (mga_mid ma - (k + 1) / 2) (mga_mid ma + 1 + k / 2).

Lemma fill_more_lo ma arr k :
  mga_wf ma arr -> 0 <= k < total_entries ma ->
  _mga_more_lo_than_hi ma (fill_info ma k) = negb (k mod 2 =? 0).
Proof.
  intros Hwf Hk. pose proof (mid_bounds _ _ Hwf). pose proof (wf_int _ _ Hwf).
  pose proof (wf_total _ _ Hwf). pose proof (wf_min _ _ Hwf).
  unfold _mga_more_lo_than_hi, fill_info. cbn. rewrite (mid_u32 _ _ Hwf).
  rewrite !u32_small by (unfold is_u32; clia).
  destruct (Z.eqb_spec (k mod 2) 0); cbn; [apply Z.ltb_ge | apply Z.ltb_lt]; clia.
Qed.

Lemma fill_room ma arr k :
  mga_wf ma arr -> 0 <= k < total_entries ma - 1 -> mga_room ma (fill_info ma k).
Proof.
  intros Hwf Hk. right. rewrite (fill_more_lo ma arr) by done || lia.
  pose proof (wf_total _ _ Hwf). pose proof (wf_min _ _ Hwf).
  unfold fill_info, mga_mid. cbn. destruct (Z.eqb_spec (k mod 2) 0); cbn; clia.
Qed.

Lemma fill_next ma arr k :
  mga_wf ma arr -> 0 <= k < total_entries ma ->
  mga_next ma (fill_info ma k) = fill_info ma (k + 1).
Proof.
  intros Hwf Hk. unfold mga_next. rewrite (fill_more_lo ma arr) by done.
  rewrite (proj2 (Z.ltb_ge _ _)) by (cbn; clia).
  destruct (Z.eqb_spec (k mod 2) 0); cbn; unfold set_mi_idx_lo, set_mi_idx_hi, fill_info; cbn;
    f_equal; clia.
Qed.

Lemma alloc_n_fill ma arr n :
  mga_inv ma (fill_info ma 0) arr -> Z.of_nat n < total_entries ma ->
  exists l arr',
    mga_alloc_n n ma (fill_info ma 0) arr = Val (l, fill_info ma (Z.of_nat n), arr') /\
    length l = n /\ (forall i, i ∈ l -> idx_min ma <= i <= idx_max ma /\ taken arr' i = true) /\
    NoDup l /\ length arr' = length arr /\
    mga_inv ma (fill_info ma (Z.of_nat n)) arr'.
Proof.
  intros Hinv. induction n as [| n IH]; intros Hn.
  - exists [], arr. split; [done |]. split; [done |]. split; [set_solver |].
    split; [apply NoDup_nil_2 | done].
  - destruct IH as (l & arr1 & Hr & Hlen & Hl & Hnd & Hal & Hinv1); [lia |].
    pose proof (inv_wf _ _ _ Hinv1) as Hwf.
    destruct (alloc_ok ma (fill_info ma (Z.of_nat n)) arr1) as (i & arr2 & Ha & Hi & Hf & Hm & _ & Hinv2);
      [done | cbn; lia | apply (fill_room ma arr1); done || lia |].
    rewrite (fill_next ma arr1) in * by done || lia.
    cbn [mga_alloc_n]. rewrite Hr. cbn. rewrite Ha. cbn.
    replace (Z.of_nat (S n)) with (Z.of_nat n + 1) by lia.
    exists (l ++ [i]), arr2. split; [done |]. rewrite length_app. cbn. split; [lia |].
    assert (i ∉ l) as Hni by (intros Hin; apply Hl in Hin as [_ Ht]; congruence).
    split; [| split; [| split; [| done]]].
    + intros j Hj. apply elem_of_app in Hj as [Hj | ->%list_elem_of_singleton].
      * rewrite (marked_taken_other _ _ _ _ _ Hm) by (intros ->; done). by apply Hl.
      * split; [done |]. apply (marked_at _ _ _ _ Hm).
    + apply NoDup_app. split; [done |]. split; [| apply NoDup_singleton]. set_solver.
    + rewrite (marked_length _ _ _ _ Hm). done.
Qed.

(** *** Releasing entries *)

Lemma raise_lo_spec arr mid fuel lo :
  0 <= lo <= mid -> mid < 4294967295 -> mid < Z.of_nat (length arr) ->
  mid - lo <= Z.of_nat fuel ->
  exists lo', raise_lo fuel mid arr lo = Val lo' /\ lo <= lo' <= mid /\
    (forall j, lo < j <= lo' -> taken arr j = false) /\
    (lo' = mid \/ taken arr (lo' + 1) = true).
Proof.
  revert lo. induction fuel as [| fuel IH]; intros lo Hlo Hm Hlen Hf; cbn [raise_lo];
    (destruct (Z.ltb_spec lo mid) as [Hlt | Hge];
     [| exists lo; split; [done |]; split; [lia |]; split; [lia | left; lia]]); [lia |].
  rewrite u32_small by (unfold is_u32; lia).
  rewrite entry_is_free_spec by lia. cbn. destruct (taken arr (lo + 1)) eqn:Ht; cbn.
  - exists lo. split; [done |]. split; [lia |]. split; [lia | by right].
  - destruct (IH (lo + 1)) as (lo' & Hr & Hb & Hfree & Hend); try lia.
    exists lo'. split; [done |]. split; [lia |]. split; [| done].
    intros j Hj. destruct (decide (j = lo + 1)) as [-> |]; [done |]. apply Hfree. lia.
Qed.

Lemma lower_hi_spec arr lo fuel hi :
  0 <= lo < hi -> hi <= 4294967295 -> hi <= Z.of_nat (length arr) -> hi - lo <= Z.of_nat fuel ->
  exists hi', lower_hi fuel lo arr hi = Val hi' /\ lo < hi' <= hi /\
    (forall j, hi' <= j < hi -> taken arr j = false) /\
    (hi' = lo + 1 \/ taken arr (hi' - 1) = true).
Proof.
  revert hi. induction fuel as [| fuel IH]; intros hi Hhi Hm Hlen Hf; cbn [lower_hi]; [lia |].
  rewrite (u32_small (lo + 1)) by (unfold is_u32; lia).
  destruct (Z.ltb_spec (lo + 1) hi) as [Hlt | Hge];
    [| exists hi; split; [done |]; split; [lia |]; split; [lia | left; lia]].
  rewrite u32_small by (unfold is_u32; lia).
  rewrite entry_is_free_spec by lia. cbn. destruct (taken arr (hi - 1)) eqn:Ht; cbn.
  - exists hi. split; [done |]. split; [lia |]. split; [lia | by right].
  - destruct (IH (hi - 1)) as (hi' & Hr & Hb & Hfree & Hend); try lia.
    exists hi'. split; [done |]. split; [lia |]. split; [| done].
    intros j Hj. destruct (decide (j = hi - 1)) as [-> |]; [done |]. apply Hfree. lia.
Qed.

(** The window is as small as the release loops make it. *)
Definition tight ma p arr : Prop :=
  (mi_idx_lo p = mga_mid ma \/ taken arr (mi_idx_lo p + 1) = true) /\
  (mi_idx_hi p = mi_idx_lo p + 1 \/ taken arr (mi_idx_hi p - 1) = true).

Lemma inv_release ma p p' arr arr' i :
  mga_inv ma p arr -> mi_idx_lo p < i < mi_idx_hi p -> taken arr i = true ->
  marked arr arr' i false ->
  mi_num_entries p' = mi_num_entries p - 1 ->
  mi_idx_lo p <= mi_idx_lo p' <= mga_mid ma ->
  mi_idx_lo p' < mi_idx_hi p' <= mi_idx_hi p ->
  (forall j, mi_idx_lo p < j <= mi_idx_lo p' -> taken arr' j = false) ->
  (forall j, mi_idx_hi p' <= j < mi_idx_hi p -> taken arr' j = false) ->
  mga_inv ma p' arr'.
Proof.
  intros Hinv Hi Ht Hm Hn Hlo Hhi Hl Hh. pose proof (inv_wf _ _ _ Hinv) as Hwf.
  destruct Hinv as [_ ? ? ? ? ? Hout Hnum]. split; try lia.
  - by eapply marked_wf.
  - intros j Hj Hside.
    destruct (decide (j <= mi_idx_lo p \/ mi_idx_hi p <= j)) as [Ho |].
    + rewrite (marked_taken_other _ _ _ _ _ Hm) by lia. apply Hout; lia.
    + destruct Hside; [apply Hl | apply Hh]; lia.
  - rewrite Hn, Hnum, (count_if_flip (taken arr') (taken arr) _ i);
      [lia | apply NoDup_seqZ | | apply (marked_at _ _ _ _ Hm) | done |].
    + apply elem_of_seqZ. lia.
    + intros j Hj. by eapply marked_taken_other.
Qed.

Lemma free_ok ma p arr idx :
  mga_inv ma p arr -> straddles ma p -> mi_idx_lo p < idx < mi_idx_hi p ->
  taken arr idx = true ->
  exists p' arr',
    mga_free_entry ma p arr idx = Val (p', arr') /\ marked arr arr' idx false /\
    mi_num_entries p' = mi_num_entries p - 1 /\
    mi_idx_lo p <= mi_idx_lo p' /\ mi_idx_hi p' <= mi_idx_hi p /\
    tight ma p' arr' /\ mga_inv ma p' arr'.
Proof.
  intros Hinv Hst Hidx Ht. pose proof (inv_wf _ _ _ Hinv) as Hwf.
  pose proof (mid_bounds _ _ Hwf). pose proof (wf_max _ _ Hwf). pose proof (wf_int _ _ Hwf).
  pose proof (wf_total _ _ Hwf). pose proof (wf_min _ _ Hwf).
  pose proof (inv_num_le _ _ _ Hinv). pose proof (inv_lo_mid _ _ _ Hinv).
  pose proof (inv_lo_nonneg _ _ _ Hinv). pose proof (inv_hi _ _ _ Hinv).
  pose proof (inv_lo_min _ _ _ Hinv). unfold straddles in Hst.
  assert (0 < mi_num_entries p) as Hpos.
  { rewrite (inv_num_window _ _ _ Hinv). apply (count_if_pos _ _ idx); [| done].
    apply elem_of_seqZ. lia. }
  unfold mga_free_entry.
  rewrite (proj2 (Z.leb_gt idx _)), (proj2 (Z.leb_gt (mi_idx_hi p) _)) by lia. cbn [orb].
  rewrite entry_is_free_spec, Ht by lia. cbn.
  destruct (clr_entry arr idx) as (arr' & st & -> & Hm); [lia |]. cbn.
  pose proof (marked_length _ _ _ _ Hm). rewrite (mid_u32 _ _ Hwf).
  destruct (raise_lo_spec arr' (mga_mid ma) (Z.to_nat (mga_mid ma - mi_idx_lo p)) (mi_idx_lo p))
    as (lo' & -> & Hlo' & Hlf & Hle); try lia. cbn.
  destruct (lower_hi_spec arr' lo' (Z.to_nat (mi_idx_hi p - lo')) (mi_idx_hi p))
    as (hi' & -> & Hhi' & Hhf & Hhe); try lia. cbn.
  rewrite (u32_small (_ - 1)) by (unfold is_u32; lia).
  do 2 eexists. split; [done |]. split; [done |]. cbn. do 3 (split; [lia |]).
  split; [by split |]. apply (inv_release ma p _ arr arr' idx); cbn; done || lia.
Qed.

Lemma free_noop ma p arr idx :
  idx_max ma < Z.of_nat (length arr) -> idx_min ma <= idx <= idx_max ma -> 0 <= idx_min ma ->
  (mi_idx_lo p < idx < mi_idx_hi p -> taken arr idx = false) ->
  mga_free_entry ma p arr idx = Val (p, arr).
Proof.
  intros Hlen Hi Hmin Hf. unfold mga_free_entry.
  destruct (Z.leb_spec idx (mi_idx_lo p)), (Z.leb_spec (mi_idx_hi p) idx); cbn; try done.
  rewrite entry_is_free_spec by lia. cbn. by rewrite Hf by lia.
Qed.

(** *** Windows that no longer contain the middle *)

Lemma lost_mid_diff ma p arr :
  mga_inv ma p arr -> mi_idx_hi p <= mga_mid ma ->
  i32 (u32 (mi_idx_hi p - mga_mid ma - 1)) < 0.
Proof.
  intros Hi Hh. pose proof (inv_wf _ _ _ Hi) as Hwf. pose proof (wf_int _ _ Hwf).
  pose proof (mid_bounds _ _ Hwf). destruct Hi. clia.
Qed.

Lemma lost_mid_more_lo ma p arr :
  mga_inv ma p arr -> mi_idx_hi p <= mga_mid ma -> _mga_more_lo_than_hi ma p = false.
Proof.
  intros Hi Hh. pose proof (inv_wf _ _ _ Hi) as Hwf. pose proof (wf_int _ _ Hwf).
  pose proof (mid_bounds _ _ Hwf). pose proof (wf_min _ _ Hwf). destruct Hi.
  unfold _mga_more_lo_than_hi. rewrite (mid_u32 _ _ Hwf). apply Z.ltb_ge. clia.
Qed.

Lemma release_last_all_free ma p arr arr' idx :
  mga_inv ma p arr -> mi_num_entries p = 1 -> mi_idx_lo p < idx < mi_idx_hi p ->
  taken arr idx = true -> marked arr arr' idx false -> all_free ma arr'.
Proof.
  intros Hinv Hone Hidx Ht Hm j Hj. pose proof (inv_num _ _ _ Hinv) as Hn.
  pose proof (inv_lo_min _ _ _ Hinv). pose proof (inv_hi _ _ _ Hinv).
  rewrite (count_if_flip (taken arr') (taken arr) _ idx) in Hn;
    [| apply NoDup_seqZ | apply elem_of_seqZ; lia | apply (marked_at _ _ _ _ Hm) | done |
     intros k Hk; by eapply marked_taken_other].
  destruct (taken arr' j) eqn:Hj2; [| done].
  pose proof (count_if_pos (taken arr') (seqZ (idx_min ma) (idx_max ma - idx_min ma + 1)) j) as Hp.
  assert (0 < count_if (taken arr') (seqZ (idx_min ma) (idx_max ma - idx_min ma + 1)))
    by (apply Hp; [apply elem_of_seqZ; lia | done]). lia.
Qed.
End MgaProofs.

(** ** Properties *)
Section MgaTheorems.
Context {E : Type} `{MgaEntryOk E}.
Implicit Types arr : list E.

(** C16: [mga_alloc_entry] under the allocator invariant: a full array gives NULL and
    changes nothing.  Otherwise, when there is a free entry inside the window, or the
    entry next to the end of the window that is extended lies in the range and is not
    the entry with index 0 ([mga_room]; at index 0 the window's low end would wrap below
    0), it returns an index of the range whose entry was free, marks exactly that entry
    taken, counts it, moves the window by at most that entry, and preserves the
    invariant. *)
Theorem mga_alloc_entry_spec ma p arr (Hinv : mga_inv ma p arr) :
  (total_entries ma <= mi_num_entries p -> mga_alloc_entry ma p arr = Val (None, p, arr)) /\
  (mi_num_entries p < total_entries ma -> mga_room ma p ->
   exists i arr',
    mga_alloc_entry ma p arr = Val (Some i, mga_next ma p, arr') /\
    idx_min ma <= i <= idx_max ma /\ taken arr i = false /\ marked arr arr' i true /\
    (mi_num_entries p = mi_idx_hi p - mi_idx_lo p - 1 -> i = mga_side ma p) /\
    mga_inv ma (mga_next ma p) arr').
Proof. split; [apply alloc_full | by apply alloc_ok]. Qed.

(** From [mga_init] on a free array, any number of allocations short of the
    capacity succeeds: the indices are distinct, in the range and taken, they
    are exactly the entries counted, and the window is the one obtained by
    extending it down and up alternately. *)
Theorem mga_fill_in_range ma p0 arr n
    (Hinit : mga_init ma p0 (Some arr) (idx_min ma) (idx_max ma) = (ma, fill_info ma 0))
    (Hrange : 0 <= idx_min ma <= idx_max ma)
    (Hlen : idx_max ma < Z.of_nat (length arr)) (Hint : idx_max ma < 2147483646)
    (Hfree : all_free ma arr) (Hn : Z.of_nat n < total_entries ma) :
  exists l arr',
    mga_alloc_n n ma (fill_info ma 0) arr = Val (l, fill_info ma (Z.of_nat n), arr') /\
    length l = n /\ (forall i, i ∈ l -> idx_min ma <= i <= idx_max ma /\ taken arr' i = true) /\
    NoDup l /\ length arr' = length arr /\
    mga_inv ma (fill_info ma (Z.of_nat n)) arr'.
Proof.
  apply alloc_n_fill; [| done]. eapply init_inv; [exact Hinit | lia ..| done].
Qed.

(** C37: the last allocation of a range.  When the number of entries is odd (and
    the range does not start at index 0) it returns [idx_min] and fills the
    array; when the number is even, as it is for all three arrays of the
    program, it reaches for [idx_max + 1], the first entry past the range. *)
Theorem mga_last_allocation ma arr
    (Hinv : mga_inv ma (fill_info ma (total_entries ma - 1)) arr) :
  (total_entries ma mod 2 = 1 -> 1 <= idx_min ma ->
   exists arr', mga_alloc_entry ma (fill_info ma (total_entries ma - 1)) arr =
     Val (Some (idx_min ma), fill_info ma (total_entries ma), arr') /\
     mga_inv ma (fill_info ma (total_entries ma)) arr') /\
  (total_entries ma mod 2 = 0 ->
   (Z.of_nat (length arr) = idx_max ma + 1 ->
    mga_alloc_entry ma (fill_info ma (total_entries ma - 1)) arr = Undefined) /\
   (idx_max ma + 1 < Z.of_nat (length arr) -> taken arr (idx_max ma + 1) = false ->
    exists arr', mga_alloc_entry ma (fill_info ma (total_entries ma - 1)) arr =
      Val (Some (idx_max ma + 1), fill_info ma (total_entries ma), arr') /\
      marked arr arr' (idx_max ma + 1) true)).
Proof.
  pose proof (inv_wf _ _ _ Hinv) as Hwf. pose proof (wf_total _ _ Hwf).
  pose proof (wf_max _ _ Hwf). pose proof (wf_int _ _ Hwf). pose proof (wf_min _ _ Hwf).
  pose proof (fill_more_lo ma arr (total_entries ma - 1) Hwf ltac:(lia)) as Hml.
  split; intros Hpar.
  - intros Hmin. rewrite (proj2 (Z.eqb_eq _ _)) in Hml by clia.
    destruct (alloc_ok _ _ _ Hinv) as (i & arr' & Ha & Hi & Hf & Hm & Hside & Hinv2).
    { cbn. lia. }
    { right. rewrite Hml. unfold fill_info, mga_mid. cbn. clia. }
    rewrite (fill_next ma arr) in * by done || lia.
    replace (total_entries ma - 1 + 1) with (total_entries ma) in * by lia.
    exists arr'. split; [| done]. rewrite Ha, Hside; [| cbn; clia].
    unfold mga_side. rewrite Hml. cbn. unfold mga_mid. repeat f_equal. clia.
  - rewrite (proj2 (Z.eqb_neq _ _)) in Hml by clia.
    assert (mi_idx_hi (fill_info ma (total_entries ma - 1)) = idx_max ma + 1) as Hhi
      by (cbn; unfold mga_mid; clia).
    unfold mga_alloc_entry. rewrite (diff_i32 _ _ _ Hinv), Hml, Hhi.
    rewrite (proj2 (Z.leb_gt _ _)) by (cbn; lia).
    rewrite (proj2 (Z.leb_le 0 _)) by (cbn; unfold mga_mid; clia).
    rewrite (proj2 (Z.ltb_ge _ _)) by (cbn; unfold mga_mid; clia). cbn [c_assert negb].
    split.
    + intros Hlen. unfold entry_op. by rewrite aget_out by lia.
    + intros Hlen Hf. destruct (tstset_free arr (idx_max ma + 1)) as (arr' & -> & Hm); [lia | done |].
      cbn. rewrite entry_is_taken_spec, (marked_at _ _ _ _ Hm)
        by (rewrite (marked_length _ _ _ _ Hm); lia). cbn.
      exists arr'. split; [| done]. rewrite bool_decide_true by done. unfold c_assert.
      do 3 f_equal. apply mga_info_eq; cbn; unfold mga_mid;
        rewrite ?u32_small by (unfold is_u32, mga_mid; clia); clia.
Qed.

(** C17: [mga_free_entry] under the allocator invariant, while the window's high end is
    above the middle of the range ([straddles]; the release of an entry of a window that
    was pulled to or below the middle is the subject of [mga_window_below_mid_breaks]):
    an index of the range that is outside the window or already free changes nothing; a
    taken entry is released, exactly that entry changes, the count drops by one, the
    window shrinks until its low end is at the middle or next to a taken entry and its
    high end next to the low end or a taken entry, and the invariant is preserved (both
    loops terminate). *)
Theorem mga_free_entry_spec ma p arr idx (Hinv : mga_inv ma p arr) (Hst : straddles ma p)
    (Hidx : idx_min ma <= idx <= idx_max ma) :
  if bool_decide (mi_idx_lo p < idx < mi_idx_hi p) && taken arr idx then
    exists p' arr',
      mga_free_entry ma p arr idx = Val (p', arr') /\ marked arr arr' idx false /\
      mi_num_entries p' = mi_num_entries p - 1 /\
      mi_idx_lo p <= mi_idx_lo p' /\ mi_idx_hi p' <= mi_idx_hi p /\
      tight ma p' arr' /\ mga_inv ma p' arr'
  else mga_free_entry ma p arr idx = Val (p, arr).
Proof.
  pose proof (inv_wf _ _ _ Hinv) as Hwf. pose proof (wf_max _ _ Hwf). pose proof (wf_min _ _ Hwf).
  destruct (bool_decide_reflect (mi_idx_lo p < idx < mi_idx_hi p)) as [Hw | Hw]; cbn.
  - destruct (taken arr idx) eqn:Ht; [by apply free_ok |].
    by apply (free_noop ma); try lia.
  - apply (free_noop ma); try lia.
Qed.

(** C38: once releases have pulled the window's high end below the middle, the
    allocator breaks: releasing the last entry leaves the low end above the high
    end and the next allocation fails its assertion; and when instead the lower
    part fills up, the allocation after that goes to [idx_min - 1], below the
    range, although entries are still free. *)
Theorem mga_window_below_mid_breaks ma p arr (Hinv : mga_inv ma p arr)
    (Hlost : mi_idx_hi p <= mga_mid ma) :
  (forall idx, mi_num_entries p = 1 -> mi_idx_lo p < idx < mi_idx_hi p -> taken arr idx = true ->
   exists p' arr', mga_free_entry ma p arr idx = Val (p', arr') /\
     mi_num_entries p' = 0 /\ mga_alloc_entry ma p' arr' = Asserted) /\
  (mi_idx_lo p = idx_min ma - 1 -> mi_num_entries p = mi_idx_hi p - mi_idx_lo p - 1 ->
   taken arr (idx_min ma - 1) = false ->
   mi_num_entries p < total_entries ma /\
   exists p' arr', mga_alloc_entry ma p arr = Val (Some (idx_min ma - 1), p', arr')).
Proof.
  pose proof (inv_wf _ _ _ Hinv) as Hwf. pose proof (mid_bounds _ _ Hwf).
  pose proof (wf_max _ _ Hwf). pose proof (wf_int _ _ Hwf). pose proof (wf_min _ _ Hwf).
  pose proof (wf_total _ _ Hwf). pose proof (inv_lo_nonneg _ _ _ Hinv).
  pose proof (inv_lo_mid _ _ _ Hinv). pose proof (inv_window _ _ _ Hinv).
  pose proof (inv_lo_min _ _ _ Hinv).
  split.
  - intros idx Hone Hidx Ht. unfold mga_free_entry.
    rewrite (proj2 (Z.leb_gt idx _)), (proj2 (Z.leb_gt (mi_idx_hi p) _)) by lia. cbn [orb].
    rewrite entry_is_free_spec, Ht by lia. cbn.
    destruct (clr_entry arr idx) as (arr' & st & -> & Hm); [lia |]. cbn.
    pose proof (marked_length _ _ _ _ Hm). rewrite (mid_u32 _ _ Hwf).
    pose proof (release_last_all_free _ _ _ _ _ Hinv Hone Hidx Ht Hm) as Hall.
    destruct (raise_lo_spec arr' (mga_mid ma) (Z.to_nat (mga_mid ma - mi_idx_lo p)) (mi_idx_lo p))
      as (lo' & -> & Hlo' & _ & Hle); try lia. cbn.
    assert (lo' = mga_mid ma) as ->.
    { destruct Hle as [| Hle]; [done |]. destruct (decide (lo' = mga_mid ma)); [done |].
      rewrite Hall in Hle by lia. done. }
    replace (lower_hi _ _ _ _) with (Val (A := Z) (mi_idx_hi p)).
    2: { destruct (Z.to_nat _); cbn; rewrite u32_small by (unfold is_u32; lia);
         by rewrite (proj2 (Z.ltb_ge _ _)) by lia. }
    cbn. do 2 eexists. split; [done |]. cbn. rewrite Hone. split; [done |].
    unfold mga_alloc_entry. cbn. change (u32 (1 - 1)) with 0.
    rewrite (proj2 (Z.leb_gt _ 0)) by lia.
    pose proof (lost_mid_diff _ _ _ Hinv Hlost).
    by rewrite (proj2 (Z.leb_gt 0 _)) by lia.
  - intros Hlo Hnum Hf. split; [lia |]. unfold mga_alloc_entry.
    rewrite (diff_i32 _ _ _ Hinv), (lost_mid_more_lo _ _ _ Hinv Hlost).
    rewrite (proj2 (Z.leb_gt _ _)), (proj2 (Z.leb_le 0 _)), (proj2 (Z.ltb_ge _ _)) by lia.
    cbn [c_assert]. rewrite Hlo.
    destruct (tstset_free arr (idx_min ma - 1)) as (arr' & -> & Hm); [lia | done |]. cbn.
    rewrite entry_is_taken_spec, (marked_at _ _ _ _ Hm)
      by (rewrite (marked_length _ _ _ _ Hm); lia). cbn. eauto.
Qed.
End MgaTheorems.

(** ** Deciding the invariant on concrete arrays *)
Section Decide.
Context {E : Type} `{MgaEntry E}.

Definition mga_invb (ma : mgarray_t) (p : mga_info_t) (arr : list E) : bool :=
  (0 <=? idx_min ma) && (idx_min ma <=? idx_max ma) &&
  (idx_max ma <? Z.of_nat (length arr)) && (idx_max ma <? 2147483646) &&
  (total_entries ma =? idx_max ma - idx_min ma + 1) &&
  (idx_min ma - 1 <=? mi_idx_lo p) && (0 <=? mi_idx_lo p) && (mi_idx_lo p <=? mga_mid ma) &&
  (mi_idx_lo p <? mi_idx_hi p) && (mi_idx_hi p <=? idx_max ma + 1) &&
  forallb (fun i => negb (taken arr i) || ((mi_idx_lo p <? i) && (i <? mi_idx_hi p)))
    (seqZ (idx_min ma) (idx_max ma - idx_min ma + 1)) &&
  (mi_num_entries p =?
    count_if (taken arr) (seqZ (idx_min ma) (idx_max ma - idx_min ma + 1))).

Lemma mga_invb_correct ma p arr : mga_invb ma p arr = true -> mga_inv ma p arr.
Proof.
  unfold mga_invb. rewrite !andb_true_iff, forallb_forall. intros Hb.
  decompose [and] Hb. clear Hb. split; try lia; [split; lia |].
  intros i Hi Hside.
  match goal with Hx : forall x, In x _ -> _ |- _ => specialize (Hx i) end.
  destruct (taken arr i); [| done]. cbn in *.
  assert (In i (seqZ (idx_min ma) (idx_max ma - idx_min ma + 1)))
    by (apply list_elem_of_In, elem_of_seqZ; lia).
  intuition lia.
Qed.

Definition all_freeb ma (arr : list E) : bool :=
  forallb (fun i => negb (taken arr i)) (seqZ (idx_min ma) (idx_max ma - idx_min ma + 1)).

Lemma all_freeb_correct ma arr : all_freeb ma arr = true -> all_free ma arr.
Proof.
  unfold all_freeb. rewrite forallb_forall. intros Hb i Hi.
  apply negb_true_iff, Hb, list_elem_of_In, elem_of_seqZ. lia.
Qed.
End Decide.

(** ** The array of test/mga_test.c *)
Module MgaTest.

Record myval_t := mk_myval_t { ts : Z; b : Z; num : Z }.

(** [my_isempty_func], with the clock reading as a parameter. *)
Definition my_isempty_func (now : Z) (entry : myval_t) (op : mgaop_t)
    : myval_t * entry_status_t :=
  let status := if ts entry =? 0 then ENTRY_AVAIL else ENTRY_TAKEN in
  (match op with
   | MGA_OP_SET => mk_myval_t now (b entry) (num entry)
   | MGA_OP_TSTSET =>
       match status with
       | ENTRY_AVAIL => mk_myval_t now (b entry) (num entry)
       | ENTRY_TAKEN => entry
       end
   | MGA_OP_CLR => mk_myval_t 0 (b entry) (num entry)
   | MGA_OP_TST => entry
   end, status).

#[export] Instance my_entry : MgaEntry myval_t := my_isempty_func 1428000000.

#[export] Instance my_entry_ok : MgaEntryOk myval_t.
Proof.
  split; unfold entry_status, isempty_func, my_entry, my_isempty_func; cbn; try done;
    intros e; destruct (ts e =? 0); done.
Qed.

(** An array of 21 entries with the range 9 .. 15, and the same with range
    10 .. 15 (an even number of entries). *)
Definition test_arr : list myval_t := replicate 21 (mk_myval_t 0 0 0).
Definition ma_odd : mgarray_t := mk_mgarray_t 7 9 15.
Definition ma_even : mgarray_t := mk_mgarray_t 6 10 15.

(** The state after some operations ( [inl tt] allocates, [inr i] releases [i] ). *)
Fixpoint run_ops (ma : mgarray_t) (ops : list (unit + Z)) (p : mga_info_t) (arr : list myval_t)
    : res (mga_info_t * list myval_t) :=
  match ops with
  | [] => Val (p, arr)
  | inl _ :: ops' => '(_, p', arr') ← mga_alloc_entry ma p arr; run_ops ma ops' p' arr'
  | inr i :: ops' => '(p', arr') ← mga_free_entry ma p arr i; run_ops ma ops' p' arr'
  end.

Definition run_info (r : res (mga_info_t * list myval_t)) : mga_info_t :=
  match r with Val (p, _) => p | _ => zero_mga_info end.
Definition run_arr (r : res (mga_info_t * list myval_t)) : list myval_t :=
  match r with Val (_, a) => a | _ => [] end.

(** After three allocations, and after releasing the upper two of them. *)
Definition three := run_ops ma_odd [inl tt; inl tt; inl tt] (fill_info ma_odd 0) test_arr.
Definition lowered :=
  run_ops ma_odd [inl tt; inl tt; inl tt; inr 13; inr 12] (fill_info ma_odd 0) test_arr.

Lemma mga_alloc_entry_spec_witness :
  exists i arr', mga_alloc_entry ma_odd (run_info three) (run_arr three) =
    Val (Some i, mga_next ma_odd (run_info three), arr') /\ 9 <= i <= 15.
Proof.
  destruct (mga_alloc_entry_spec ma_odd (run_info three) (run_arr three)) as [_ Ha].
  - apply mga_invb_correct. vm_compute. reflexivity.
  - destruct Ha as (i & arr' & Ha & Hi & _).
    + vm_compute. reflexivity.
    + right. vm_compute. discriminate.
    + exists i, arr'. split; [exact Ha | exact Hi].
Defined.

Lemma mga_fill_in_range_witness :
  exists l arr', mga_alloc_n 6 ma_odd (fill_info ma_odd 0) test_arr =
    Val (l, fill_info ma_odd 6, arr') /\ length l = 6%nat.
Proof.
  destruct (mga_fill_in_range ma_odd zero_mga_info test_arr 6) as (l & arr' & Hr & Hl & _).
  - reflexivity.
  - cbn; lia.
  - cbn; lia.
  - cbn; lia.
  - apply all_freeb_correct. vm_compute. reflexivity.
  - cbn; lia.
  - exists l, arr'. split; [exact Hr | exact Hl].
Defined.

Definition five_even :=
  run_ops ma_even [inl tt; inl tt; inl tt; inl tt; inl tt] (fill_info ma_even 0) test_arr.

(** Six entries, five taken: the sixth allocation returns index 16. *)
Lemma mga_last_allocation_witness :
  exists arr', mga_alloc_entry ma_even (fill_info ma_even 5) (run_arr five_even) =
    Val (Some 16, fill_info ma_even 6, arr').
Proof.
  destruct (mga_last_allocation ma_even (run_arr five_even)) as [_ Heven].
  - apply mga_invb_correct. vm_compute. reflexivity.
  - destruct (proj2 (Heven eq_refl)) as (arr' & Ha & _).
    + vm_compute. reflexivity.
    + vm_compute. reflexivity.
    + exists arr'. exact Ha.
Defined.

Lemma mga_free_entry_spec_witness :
  exists p' arr', mga_free_entry ma_odd (run_info three) (run_arr three) 13 = Val (p', arr') /\
    mi_num_entries p' = 2.
Proof.
  pose proof (mga_free_entry_spec ma_odd (run_info three) (run_arr three) 13) as Hs.
  destruct Hs as (p' & arr' & Hf & _ & Hn & _).
  - apply mga_invb_correct. vm_compute. reflexivity.
  - vm_compute. reflexivity.
  - cbn; lia.
  - exists p', arr'. split; [exact Hf | rewrite Hn; reflexivity].
Defined.

(** Three allocations and three releases, and the fourth allocation aborts. *)
Lemma mga_window_below_mid_breaks_witness :
  exists p' arr', mga_free_entry ma_odd (run_info lowered) (run_arr lowered) 11 = Val (p', arr') /\
    mga_alloc_entry ma_odd p' arr' = Asserted.
Proof.
  destruct (mga_window_below_mid_breaks ma_odd (run_info lowered) (run_arr lowered)) as [Hb _].
  - apply mga_invb_correct. vm_compute. reflexivity.
  - vm_compute. discriminate.
  - destruct (Hb 11) as (p' & arr' & Hf & _ & Ha).
    + vm_compute. reflexivity.
    + vm_compute. split; reflexivity.
    + vm_compute. reflexivity.
    + exists p', arr'. split; [exact Hf | exact Ha].
Defined.

End MgaTest.
