(* ===== verification/Counters.v ===== *)
(** Timestamps and counter differences: [common/tval.c] and
    [statproc/statproc_utils.c]. *)
From S2P Require Import Prelude Structs.

(** ** common/tval.c *)

Definition tval_diff_ms (prev cur : tval_t) : Z :=
  let diff := u32 (u32 (tv_sec cur - tv_sec prev) * 1000) in
  if tv_usec cur <? tv_usec prev
  then u32 (diff + (0x0FFFFFFFF + tv_usec cur - tv_usec prev) / 1000)
  else u32 (diff + (tv_usec cur - tv_usec prev) / 1000).

(** The object representation [memcmp] compares. *)
Definition tval_bytes (t : tval_t) : list Z := le_bytes 4 (tv_sec t) ++ le_bytes 4 (tv_usec t).

Definition tval_cmp (prev cur : tval_t) : Z := memcmp (tval_bytes prev) (tval_bytes cur).

(** ** statproc/statproc_utils.c *)

Definition u32diff (prev cur : Z) : Z :=
  if prev <=? cur then cur - prev
  else u32 (0x0FFFFFFFF + cur - prev).

(** ** Specification *)

Definition tval_wf (t : tval_t) : Prop := is_u32 (tv_sec t) /\ is_u32 (tv_usec t).

(** Microseconds since the epoch of a normalised timestamp. *)
Definition tval_us (t : tval_t) : Z := tv_sec t * 1000000 + tv_usec t.
Definition tval_norm (t : tval_t) : Prop := 0 <= tv_usec t < 1000000 /\ 0 <= tv_sec t.

(** Increments of a 32-bit counter between two readings. *)
Definition counter_increments (prev cur : Z) : Z := (cur - prev) mod 4294967296.

Lemma tval_cmp_eq prev cur : tval_wf prev -> tval_wf cur -> tval_cmp prev cur = 0 <-> prev = cur.
Proof.
  intros [Hp1 Hp2] [Hc1 Hc2]. unfold tval_cmp, tval_bytes, is_u32 in *.
  rewrite memcmp_eq by (rewrite !length_app, !length_le_bytes; done).
  split; [| by intros ->]. intros He.
  apply app_inj_1 in He as [H1 H2]; [| by rewrite !length_le_bytes].
  apply le_bytes_inj in H1, H2; try lia. destruct prev, cur. cbn in *. congruence.
Qed.

(** ** Properties *)

(** [tval_diff_ms] when the microseconds do not borrow: the result is the
    elapsed time in whole milliseconds, as long as that fits 32 bits. *)
Theorem tval_diff_ms_no_borrow prev cur
    (Hp : tval_norm prev) (Hc : tval_norm cur) (Hle : tv_sec prev <= tv_sec cur)
    (Hus : tv_usec prev <= tv_usec cur)
    (Hfit : tval_us cur - tval_us prev < 4294967296000) :
  tval_diff_ms prev cur = (tval_us cur - tval_us prev) / 1000.
Proof.
  unfold tval_diff_ms, tval_norm, tval_us in *.
  rewrite (proj2 (Z.ltb_ge _ _)) by lia.
  replace (tv_sec cur * 1000000 + tv_usec cur - (tv_sec prev * 1000000 + tv_usec prev))
    with ((tv_usec cur - tv_usec prev) + ((tv_sec cur - tv_sec prev) * 1000) * 1000) in * by lia.
  rewrite Z.div_add by lia.
  rewrite (u32_small (_ - _)), (u32_small (_ * 1000)) by (unfold is_u32; lia).
  rewrite u32_small; [lia |]. clia.
Qed.

(** [tval_diff_ms] when the microseconds borrow from the seconds: the
    result is too large by 4294967 or 4294968 milliseconds, because the borrow
    adds 2^32 - 1 instead of one second; it never is below 1000, however little
    time passed. *)
Theorem tval_diff_ms_borrow prev cur
    (Hp : tval_norm prev) (Hc : tval_norm cur) (Hlt : tv_sec prev < tv_sec cur)
    (Hus : tv_usec cur < tv_usec prev)
    (Hfit : (tv_sec cur - tv_sec prev) * 1000 < 4290000000) :
  let elapsed := (tval_us cur - tval_us prev) / 1000 in
  (tval_diff_ms prev cur = elapsed + 4294967 \/ tval_diff_ms prev cur = elapsed + 4294968) /\
  1000 <= tval_diff_ms prev cur.
Proof.
  unfold tval_diff_ms, tval_norm, tval_us in *.
  rewrite (proj2 (Z.ltb_lt _ _)) by lia.
  replace (tv_sec cur * 1000000 + tv_usec cur - (tv_sec prev * 1000000 + tv_usec prev))
    with ((tv_usec cur - tv_usec prev) + ((tv_sec cur - tv_sec prev) * 1000) * 1000) in * by lia.
  rewrite Z.div_add by lia.
  rewrite (u32_small (_ - _)), (u32_small (_ * 1000)) by (unfold is_u32; lia).
  cbv zeta. rewrite u32_small; clia.
Qed.

(** [tval_cmp] is zero exactly for equal timestamps, the only way the
    program uses it. *)
Theorem tval_cmp_zero prev cur (Hp : tval_wf prev) (Hc : tval_wf cur) :
  tval_cmp prev cur = 0 <-> prev = cur.
Proof. by apply tval_cmp_eq. Qed.

(** The order [tval_cmp] documents (-1 if prev is earlier) is not the one it
    computes: [memcmp] sees the least significant byte first. *)
Example tval_cmp_not_chronological :
  let prev := mk_tval_t 255 0 in
  let cur := mk_tval_t 256 0 in
  tval_us prev < tval_us cur /\ tval_cmp prev cur = 1.
Proof. split; vm_compute; reflexivity. Qed.

(** [u32diff] of two readings of a 32-bit counter is the number of
    increments between them if the counter did not wrap, and one less if it
    did. *)
Theorem u32diff_increments prev cur (Hp : is_u32 prev) (Hc : is_u32 cur) :
  u32diff prev cur = counter_increments prev cur - (if cur <? prev then 1 else 0) /\
  is_u32 (u32diff prev cur).
Proof.
  unfold u32diff, counter_increments.
  destruct (Z.leb_spec prev cur), (Z.ltb_spec cur prev); try lia; clia.
Qed.

(** ** Witnesses *)

Lemma tval_diff_ms_no_borrow_witness :
  tval_diff_ms (mk_tval_t 1428000000 100) (mk_tval_t 1428000001 600) = 1000.
Proof.
  rewrite (tval_diff_ms_no_borrow (mk_tval_t 1428000000 100) (mk_tval_t 1428000001 600));
    vm_compute; intuition discriminate.
Defined.

Lemma tval_diff_ms_borrow_witness :
  1000 <= tval_diff_ms (mk_tval_t 1428000000 999999) (mk_tval_t 1428000001 0).
Proof.
  apply (tval_diff_ms_borrow (mk_tval_t 1428000000 999999) (mk_tval_t 1428000001 0));
    vm_compute; intuition discriminate.
Defined.

Lemma tval_cmp_zero_witness :
  tval_cmp (mk_tval_t 1428000000 7) (mk_tval_t 1428000000 7) = 0.
Proof.
  apply (tval_cmp_zero (mk_tval_t 1428000000 7) (mk_tval_t 1428000000 7));
    try reflexivity; vm_compute; intuition discriminate.
Defined.

(** The reading of test/misc.c: 31 increments, reported as 30. *)
Lemma u32diff_increments_witness :
  u32diff 0xFFFFFFF0 0x0F = 30 /\ counter_increments 0xFFFFFFF0 0x0F = 31.
Proof.
  split; [| reflexivity].
  destruct (u32diff_increments 0xFFFFFFF0 0x0F) as [-> _];
    [vm_compute; intuition discriminate .. | reflexivity].
Defined.
