(* ===== verification/Format.v ===== *)
(** Text: the [sprintf] conversions the program uses, as functions to [string].

    [%u] prints an unsigned number in decimal, [%d] a signed one (a 32-bit
    argument is first read as [int]), [%02x] two hexadecimal digits. *)
From stdpp Require Export strings.
From Stdlib Require Export Ascii.
From S2P Require Import Prelude.
#[local] Open Scope Z_scope.

Definition digit_char (d : Z) : ascii := ascii_of_N (Z.to_N (48 + d)).

(** Decimal digits of a non-negative number, most significant first; the fuel
    is the number's bit length, which is at least its number of digits. *)
Fixpoint dec_digits (fuel : nat) (x : Z) (acc : string) : string :=
  let acc' := String (digit_char (x mod 10)) acc in
  match fuel with
  | O => acc'
  | S fuel' => if x <? 10 then acc' else dec_digits fuel' (x / 10) acc'
  end.

Definition fmt_u (x : Z) : string := dec_digits (Z.to_nat (Z.log2 x)) x ""%string.

Definition fmt_d (x : Z) : string :=
  let i := i32 x in if i <? 0 then "-"%string +:+ fmt_u (- i) else fmt_u i.

Definition hex_char (d : Z) : ascii :=
  if d <? 10 then ascii_of_N (Z.to_N (48 + d)) else ascii_of_N (Z.to_N (87 + d)).

Definition fmt_02x (x : Z) : string := String (hex_char (x / 16)) (String (hex_char (x mod 16)) ""%string).

(** Reading a decimal number back: digits are accumulated, anything else ends
    the number. *)
Definition digit_val (c : ascii) : option Z :=
  let n := Z.of_N (N_of_ascii c) in
  if (48 <=? n) && (n <=? 57) then Some (n - 48) else None.

Fixpoint read_dec (s : string) (acc : Z) : Z * string :=
  match s with
  | EmptyString => (acc, s)
  | String c s' =>
      match digit_val c with
      | Some d => read_dec s' (10 * acc + d)
      | None => (acc, s)
      end
  end.

Lemma digit_val_char d : 0 <= d < 10 -> digit_val (digit_char d) = Some d.
Proof.
  apply (forall_below (fun d => digit_val (digit_char d) = Some d)).
  vm_compute seqZ. repeat constructor.
Qed.

Lemma read_dec_digits fuel x acc :
  0 <= x -> x < 10 ^ (Z.of_nat fuel + 1) ->
  exists k, 10 ^ k > x /\ 0 <= k /\ forall a,
    read_dec (dec_digits fuel x acc) a = read_dec acc (a * 10 ^ k + x).
Proof.
  revert x acc. induction fuel as [| fuel IH]; intros x acc Hx Hf.
  - exists 1. cbn in Hf. split; [lia |]. split; [lia |]. intros a. cbn.
    rewrite digit_val_char by (apply Z.mod_pos_bound; lia).
    rewrite Z.mod_small by lia. f_equal. lia.
  - cbn [dec_digits]. destruct (Z.ltb_spec x 10) as [Hs | Hs].
    + exists 1. split; [lia |]. split; [lia |]. intros a. cbn [read_dec].
      rewrite digit_val_char by (apply Z.mod_pos_bound; lia).
      rewrite Z.mod_small by lia. f_equal. lia.
    + destruct (IH (x / 10) (String (digit_char (x mod 10)) acc)) as (k & Hk & Hk0 & Hr).
      * apply Z.div_pos; lia.
      * apply Z.div_lt_upper_bound; [lia |].
        rewrite <- Z.pow_succ_r by lia. replace (Z.succ (Z.of_nat fuel + 1))
          with (Z.of_nat (S fuel) + 1) by lia. done.
      * exists (k + 1). rewrite Z.pow_add_r by lia.
        pose proof (Z.div_mod x 10 ltac:(lia)). pose proof (Z.mod_pos_bound x 10 ltac:(lia)).
        split; [lia |]. split; [lia |]. intros a. rewrite Hr. cbn [read_dec].
        rewrite digit_val_char by (apply Z.mod_pos_bound; lia). f_equal. lia.
Qed.

(** Reading back what [%u] prints. *)
Lemma read_fmt_u x rest :
  0 <= x -> exists k, 10 ^ k > x /\ forall a,
    read_dec (dec_digits (Z.to_nat (Z.log2 x)) x rest) a = read_dec rest (a * 10 ^ k + x).
Proof.
  intros Hx. destruct (read_dec_digits (Z.to_nat (Z.log2 x)) x rest Hx) as (k & Hk & _ & Hr).
  - rewrite Z2Nat.id by apply Z.log2_nonneg. destruct (decide (x = 0)) as [-> |]; [done |].
    pose proof (Z.log2_spec x ltac:(lia)). pose proof (Z.log2_nonneg x).
    apply Z.lt_le_trans with (2 ^ (Z.log2 x + 1)); [rewrite Z.add_1_r; lia |].
    apply Z.pow_le_mono_l. lia.
  - eauto.
Qed.

Lemma dec_digits_app fuel x a b : dec_digits fuel x a +:+ b = dec_digits fuel x (a +:+ b).
Proof.
  revert x a. induction fuel as [| fuel IH]; intros x a; cbn; [done |].
  destruct (x <? 10); [done |]. by rewrite IH.
Qed.

(** A decimal number followed by a non-digit is read back exactly. *)
Lemma read_fmt_u_app x rest :
  0 <= x -> (forall a, read_dec rest a = (a, rest)) -> read_dec (fmt_u x +:+ rest) 0 = (x, rest).
Proof.
  intros Hx Hrest. unfold fmt_u. rewrite dec_digits_app. cbn.
  destruct (read_fmt_u x rest Hx) as (k & _ & Hr). rewrite Hr, Hrest. f_equal.
Qed.

Lemma string_length_app s t : String.length (s +:+ t) = (String.length s + String.length t)%nat.
Proof. induction s as [| c s IH]; [done |].
  change (S (String.length (s +:+ t)) = S (String.length s + String.length t))%nat. by rewrite IH.
Qed.

Lemma string_app_nil_r s : s +:+ "" = s.
Proof.
  induction s as [| c s IH]; [done |].
  change (String c (s +:+ "") = String c s). by rewrite IH.
Qed.

Lemma string_app_assoc s t u : (s +:+ t) +:+ u = s +:+ (t +:+ u).
Proof. induction s as [| c s IH]; [done |]. exact (f_equal (String c) IH). Qed.
