(* ===== verification/IpUtils.v ===== *)
(** Address utilities, [net/iputils.c].

    An IPv4 address is the [uint32_t] loaded from the packet on a little-endian
    host: its least significant byte is the first octet. *)
From S2P Require Import Prelude Format.
#[local] Open Scope Z_scope.

Definition IpQuadTab : list string :=
  ["0"; "1"; "2"; "3"; "4"; "5"; "6"; "7"; "8"; "9"; "10"; "11"; "12"; "13"; "14"; "15"; "16";
   "17"; "18"; "19"; "20"; "21"; "22"; "23"; "24"; "25"; "26"; "27"; "28"; "29"; "30"; "31";
   "32"; "33"; "34"; "35"; "36"; "37"; "38"; "39"; "40"; "41"; "42"; "43"; "44"; "45"; "46";
   "47"; "48"; "49"; "50"; "51"; "52"; "53"; "54"; "55"; "56"; "57"; "58"; "59"; "60"; "61";
   "62"; "63"; "64"; "65"; "66"; "67"; "68"; "69"; "70"; "71"; "72"; "73"; "74"; "75"; "76";
   "77"; "78"; "79"; "80"; "81"; "82"; "83"; "84"; "85"; "86"; "87"; "88"; "89"; "90"; "91";
   "92"; "93"; "94"; "95"; "96"; "97"; "98"; "99"; "100"; "101"; "102"; "103"; "104"; "105";
   "106"; "107"; "108"; "109"; "110"; "111"; "112"; "113"; "114"; "115"; "116"; "117"; "118";
   "119"; "120"; "121"; "122"; "123"; "124"; "125"; "126"; "127"; "128"; "129"; "130"; "131";
   "132"; "133"; "134"; "135"; "136"; "137"; "138"; "139"; "140"; "141"; "142"; "143"; "144";
   "145"; "146"; "147"; "148"; "149"; "150"; "151"; "152"; "153"; "154"; "155"; "156"; "157";
   "158"; "159"; "160"; "161"; "162"; "163"; "164"; "165"; "166"; "167"; "168"; "169"; "170";
   "171"; "172"; "173"; "174"; "175"; "176"; "177"; "178"; "179"; "180"; "181"; "182"; "183";
   "184"; "185"; "186"; "187"; "188"; "189"; "190"; "191"; "192"; "193"; "194"; "195"; "196";
   "197"; "198"; "199"; "200"; "201"; "202"; "203"; "204"; "205"; "206"; "207"; "208"; "209";
   "210"; "211"; "212"; "213"; "214"; "215"; "216"; "217"; "218"; "219"; "220"; "221"; "222";
   "223"; "224"; "225"; "226"; "227"; "228"; "229"; "230"; "231"; "232"; "233"; "234"; "235";
   "236"; "237"; "238"; "239"; "240"; "241"; "242"; "243"; "244"; "245"; "246"; "247"; "248";
   "249"; "250"; "251"; "252"; "253"; "254"; "255"]%string.

(** The four octets [inetntoa] walks through with [*a++]. *)
Definition octets (ipaddr : Z) : list Z := le_bytes 4 ipaddr.

(** [IpQuadTab[b]] *)
Definition IpQuad (b : Z) : res string := aget IpQuadTab b.

Definition inetntoa (a : list Z) : res string :=
  match a with
  | [b0; b1; b2; b3] =>
      n0 ← IpQuad b0; n1 ← IpQuad b1; n2 ← IpQuad b2; n3 ← IpQuad b3;
      Val (n0 +:+ "." +:+ n1 +:+ "." +:+ n2 +:+ "." +:+ n3)%string
  | _ => Undefined
  end.

Definition ip2string (ipaddr : Z) : res string := inetntoa (octets ipaddr).

Definition ipaddr_is_bcast (ipaddr : Z) : Z := if ipaddr =? 0xFFFFFFFF then 1 else 0.

(** The result of the [ip2string] call at its head is not used. *)
Definition ipaddr_is_lan (ipaddr : Z) : res Z :=
  _ ← ip2string ipaddr;
  if Z.land ipaddr 0x0000FFFF =? 0x0000A8C0 then Val 1 else
  if Z.land ipaddr 0x000000FF =? 0x0000000A then Val 1 else
  if Z.land ipaddr 0x00001FFF =? 0x000010AC then Val 1 else
  if ipaddr =? 0x010000E0 then Val 1 else
  if negb (ipaddr_is_bcast ipaddr =? 0) then Val 1 else
  Val 0.

(** ** Specification *)

(** The address with the given octets. *)
Definition ip_of (a b c d : Z) : Z := a + 256 * b + 65536 * c + 16777216 * d.

Definition octet (b : Z) : Prop := 0 <= b < 256.

(** Reading dotted decimal back. *)
Definition read_ip (s : string) : option Z :=
  match read_dec s 0 with
  | (a, String "." s1) =>
    match read_dec s1 0 with
    | (b, String "." s2) =>
      match read_dec s2 0 with
      | (c, String "." s3) =>
        match read_dec s3 0 with
        | (d, EmptyString) => Some (ip_of a b c d)
        | _ => None
        end
      | _ => None
      end
    | _ => None
    end
  | _ => None
  end.

(** What the comments of iputils.c and iputils.h call internal. *)
Definition documented_lan (a b c d : Z) : bool :=
  ((a =? 192) && (b =? 168)) || (a =? 10) || ((a =? 172) && (16 <=? b) && (b <? 32)) ||
  ((a =? 224) && (b =? 0) && (c =? 0) && (d =? 1)) ||
  ((a =? 255) && (b =? 255) && (c =? 255) && (d =? 255)).

Lemma octets_ip_of a b c d :
  octet a -> octet b -> octet c -> octet d -> octets (ip_of a b c d) = [a; b; c; d].
Proof.
  intros Ha Hb Hc Hd. unfold octets, ip_of, octet in *. cbn [le_bytes].
  repeat match goal with |- _ :: _ = _ :: _ => f_equal end; clia.
Qed.

Lemma ip_of_octets ip : is_u32 ip ->
  exists a b c d, octet a /\ octet b /\ octet c /\ octet d /\ ip = ip_of a b c d.
Proof.
  intros Hip. exists (ip mod 256), (ip / 256 mod 256), (ip / 65536 mod 256), (ip / 16777216).
  unfold octet, ip_of. clia.
Qed.

Lemma IpQuad_spec b : octet b -> IpQuad b = Val (fmt_u b).
Proof.
  apply (map_eq_below IpQuad (fun b => Val (fmt_u b)) 256). vm_compute. reflexivity.
Qed.

Lemma ip2string_spec a b c d :
  octet a -> octet b -> octet c -> octet d ->
  ip2string (ip_of a b c d) =
    Val (fmt_u a +:+ "." +:+ fmt_u b +:+ "." +:+ fmt_u c +:+ "." +:+ fmt_u d)%string.
Proof.
  intros Ha Hb Hc Hd. unfold ip2string. rewrite octets_ip_of by done. unfold inetntoa.
  by rewrite !IpQuad_spec by done.
Qed.

Lemma ip2string_total ip : is_u32 ip -> exists s, ip2string ip = Val s.
Proof.
  intros Hip. destruct (ip_of_octets ip Hip) as (a & b & c & d & ? & ? & ? & ? & ->).
  rewrite ip2string_spec by done. eauto.
Qed.

Lemma fmt_u_octet_length b : octet b -> (1 <= String.length (fmt_u b) <= 3)%nat.
Proof.
  intros Hb.
  pose proof (forallb_below (fun b => (Nat.leb 1 (String.length (fmt_u b)) &&
    Nat.leb (String.length (fmt_u b)) 3)) 256 eq_refl b Hb) as Hl.
  apply andb_true_iff in Hl as [?%Nat.leb_le ?%Nat.leb_le]. done.
Qed.

Lemma read_quad b rest :
  octet b -> read_dec (fmt_u b +:+ "." +:+ rest)%string 0 = (b, String "." rest).
Proof. intros Hb. unfold octet in Hb. by apply read_fmt_u_app; [lia |]. Qed.

Lemma land_low_bits x n : 0 <= n -> Z.land x (2 ^ n - 1) = x mod 2 ^ n.
Proof. intros Hn. rewrite <- Z.land_ones by done. by rewrite Z.ones_equiv, <- Z.sub_1_r. Qed.

(** ** Properties *)

(** C39: [ip2string] always succeeds, writes at most 15 characters (so that the
    16 byte buffers of its callers hold it with its terminator), and the dotted
    decimal text determines the address: reading it back gives the address. *)
Theorem ip2string_roundtrip ip (Hip : is_u32 ip) :
  exists s, ip2string ip = Val s /\ read_ip s = Some ip /\
    (7 <= String.length s <= 15)%nat.
Proof.
  destruct (ip_of_octets ip Hip) as (a & b & c & d & Ha & Hb & Hc & Hd & ->).
  eexists. split; [by apply ip2string_spec |]. split.
  - unfold read_ip. rewrite (read_quad a), (read_quad b), (read_quad c) by done.
    pose proof (read_fmt_u_app d "" ltac:(unfold octet in *; lia) (fun _ => eq_refl)) as Hlast.
    replace (fmt_u d +:+ "")%string with (fmt_u d) in Hlast by (symmetry; apply string_app_nil_r).
    by rewrite Hlast.
  - rewrite !string_length_app. cbn [String.length].
    pose proof (fmt_u_octet_length a Ha). pose proof (fmt_u_octet_length b Hb).
    pose proof (fmt_u_octet_length c Hc). pose proof (fmt_u_octet_length d Hd). lia.
Qed.

(** C40: [ipaddr_is_lan] by octets: 192.168/16, 10/8, 224.0.0.1, the broadcast
    address, and the 172 networks whose second octet is 16 modulo 32; it agrees
    with the documented ranges except on 172.x, where the documented 172.16/12
    is recognised only at 172.16 and the public 172.48, 172.80, .. 172.240 are
    taken as internal. *)
Theorem ipaddr_is_lan_octets a b c d
    (Ha : octet a) (Hb : octet b) (Hc : octet c) (Hd : octet d) :
  ipaddr_is_lan (ip_of a b c d) = Val
    (if ((a =? 192) && (b =? 168)) || (a =? 10) || ((a =? 172) && (b mod 32 =? 16)) ||
        ((a =? 224) && (b =? 0) && (c =? 0) && (d =? 1)) ||
        ((a =? 255) && (b =? 255) && (c =? 255) && (d =? 255)) then 1 else 0) /\
  (a <> 172 -> ipaddr_is_lan (ip_of a b c d) = Val (if documented_lan a b c d then 1 else 0)) /\
  (a = 172 -> (ipaddr_is_lan (ip_of a b c d) = Val (if documented_lan a b c d then 1 else 0) <->
     b = 16 \/ (b < 16 \/ 32 <= b) /\ b mod 32 <> 16)).
Proof.
  assert (ipaddr_is_lan (ip_of a b c d) = Val
    (if ((a =? 192) && (b =? 168)) || (a =? 10) || ((a =? 172) && (b mod 32 =? 16)) ||
        ((a =? 224) && (b =? 0) && (c =? 0) && (d =? 1)) ||
        ((a =? 255) && (b =? 255) && (c =? 255) && (d =? 255)) then 1 else 0)) as Heq.
  { unfold ipaddr_is_lan. rewrite ip2string_spec by done. rewrite bind_Val.
    change 0x0000FFFF with (2 ^ 16 - 1). change 0x000000FF with (2 ^ 8 - 1).
    change 0x00001FFF with (2 ^ 13 - 1). rewrite !land_low_bits by lia.
    assert (ip_of a b c d mod 2 ^ 16 = a + 256 * b) as -> by (unfold ip_of, octet in *; clia).
    assert (ip_of a b c d mod 2 ^ 8 = a) as -> by (unfold ip_of, octet in *; clia).
    assert (ip_of a b c d mod 2 ^ 13 = a + 256 * (b mod 32)) as ->
      by (unfold ip_of, octet in *; clia).
    pose proof (Z.mod_pos_bound b 32 ltac:(lia)).
    unfold ipaddr_is_bcast, ip_of, octet in *. repeat case_match; done || lia. }
  split; [done |]. rewrite Heq. unfold documented_lan. split.
  - intros Hne. rewrite (proj2 (Z.eqb_neq a 172)) by done. cbn. done.
  - intros ->. cbn. unfold octet in *.
    destruct (Z.eqb_spec (b mod 32) 16), (Z.leb_spec 16 b), (Z.ltb_spec b 32); cbn;
      (split; [intros; simplify_eq; clia | intros; f_equal; clia]).
Qed.

(** ** Witnesses *)

Lemma ip2string_roundtrip_witness : exists s, ip2string 0x0100A8C0 = Val s /\ read_ip s = Some 0x0100A8C0.
Proof.
  destruct (ip2string_roundtrip 0x0100A8C0) as (s & Hs & Hr & _).
  - vm_compute. intuition discriminate.
  - exists s. split; [exact Hs | exact Hr].
Defined.

(** 172.17.0.1 is documented as internal and is not recognised. *)
Lemma ipaddr_is_lan_octets_witness :
  documented_lan 172 17 0 1 = true /\ ipaddr_is_lan (ip_of 172 17 0 1) = Val 0.
Proof.
  split; [reflexivity |].
  destruct (ipaddr_is_lan_octets 172 17 0 1) as [-> _];
    [vm_compute; intuition discriminate .. | reflexivity].
Defined.
