(* ===== verification/StreamKey.v ===== *)
(** Stream keys, [net/streamkey.c] and [net/streamkey.h]: the direction
    independent identity of a conversation, its comparison and its hash. *)
From S2P Require Import Prelude Format IpUtils.
#[local] Open Scope Z_scope.

(** Protocol numbers of netinet/in.h. *)
Definition IPPROTO_TCP : Z := 6.
Definition IPPROTO_UDP : Z := 17.

(** [get_proto_name] (net/pktinfo.c). *)
Definition get_proto_name (ipproto : Z) : string :=
  if ipproto =? IPPROTO_TCP then "TCP"
  else if ipproto =? IPPROTO_UDP then "UDP"
  else "?".

Record stream4_key_t := mk_stream4_key_t {
  sk_lport : Z;
  sk_rport : Z;
  sk_ipproto : Z;
  sk_vflags : Z;
  sk_pad : Z;
  sk_addrs : list Z
}.

Record stream_key_t := mk_stream_key_t {
  sk_v4 : stream4_key_t;
  sk_addrs2 : list Z
}.

Definition VFLAG_IPV6 : Z := Z.shiftl 1 0.

(** The key [memset] leaves. *)
Definition zero_stream_key : stream_key_t :=
  mk_stream_key_t (mk_stream4_key_t 0 0 0 0 0 (replicate 8 0)) (replicate 24 0).

Definition net_stream_is_v6 (key : stream_key_t) : bool :=
  Z.land (sk_vflags (sk_v4 key)) VFLAG_IPV6 =? VFLAG_IPV6.

Definition net_stream4_is_tcp (key : stream4_key_t) : bool := sk_ipproto key =? IPPROTO_TCP.

Definition net_stream_is_tcp (key : stream_key_t) : bool := net_stream4_is_tcp (sk_v4 key).

Definition set_addrs (a : list Z) (key : stream_key_t) : stream_key_t :=
  let k := sk_v4 key in
  mk_stream_key_t
    (mk_stream4_key_t (sk_lport k) (sk_rport k) (sk_ipproto k) (sk_vflags k) (sk_pad k) a)
    (sk_addrs2 key).

(** The [uint32_t] stores of the macros, into the byte array [addrs]. *)
Definition SET_LEFT (key : stream_key_t) (ipaddr : Z) : stream_key_t :=
  set_addrs (le_bytes 4 ipaddr ++ drop 4 (sk_addrs (sk_v4 key))) key.
Definition SET_RIGHT (key : stream_key_t) (ipaddr : Z) : stream_key_t :=
  set_addrs (take 4 (sk_addrs (sk_v4 key)) ++ le_bytes 4 ipaddr) key.

(** The [uint32_t] at byte offset [off] of a byte array. *)
Definition load32 (bs : list Z) (off : nat) : Z := le_val (take 4 (drop off bs)).

Definition net_stream4_left (key : stream_key_t) : Z := load32 (sk_addrs (sk_v4 key)) 0.
Definition net_stream4_right (key : stream_key_t) : Z := load32 (sk_addrs (sk_v4 key)) 4.

Definition key_ports (key : stream_key_t) (ipproto lport rport : Z) : stream_key_t :=
  let k := sk_v4 key in
  mk_stream_key_t (mk_stream4_key_t lport rport ipproto (sk_vflags k) (sk_pad k) (sk_addrs k))
    (sk_addrs2 key).

(** Returns the flip flag and the key; [ipproto] passes through [int8_t]. *)
Definition net_stream_init_v4 (ipproto srcip dstip sport dport : Z) : Z * stream_key_t :=
  let key := zero_stream_key in
  let ipproto := u8 (i8 ipproto) in
  if (dport <? sport) || ((sport =? dport) && (srcip <? dstip)) then
    (0, SET_RIGHT (SET_LEFT (key_ports key ipproto sport dport) srcip) dstip)
  else
    (1, SET_RIGHT (SET_LEFT (key_ports key ipproto dport sport) dstip) srcip).

(** The 40 byte object representation of a key (the struct has no padding). *)
Definition stream_key_bytes (key : stream_key_t) : list Z :=
  let k := sk_v4 key in
  le_bytes 2 (sk_lport k) ++ le_bytes 2 (sk_rport k) ++ le_bytes 1 (sk_ipproto k) ++
  le_bytes 1 (sk_vflags k) ++ le_bytes 2 (sk_pad k) ++ sk_addrs k ++ sk_addrs2 key.

Definition hcmp_stream_key (k1 k2 : stream_key_t) : Z :=
  memcmp (stream_key_bytes k1) (stream_key_bytes k2).

Definition hash_stream_key (key : stream_key_t) : Z :=
  let val := Z.lxor (net_stream4_left key) (net_stream4_right key) in
  let val := u32 (val * sk_rport (sk_v4 key)) in
  let val := Z.lxor val (sk_lport (sk_v4 key)) in
  if negb (net_stream_is_v6 key) then val else
  let val := Z.lxor val (load32 (sk_addrs2 key) 0) in
  let val := Z.lxor val (load32 (sk_addrs2 key) 4) in
  let val := Z.lxor val (load32 (sk_addrs2 key) 8) in
  let val := Z.lxor val (load32 (sk_addrs2 key) 12) in
  Z.lxor val (load32 (sk_addrs2 key) 16).

Definition streamkey_to_s (key : stream_key_t) : res string :=
  leftip ← ip2string (net_stream4_left key);
  rightip ← ip2string (net_stream4_right key);
  Val (get_proto_name (sk_ipproto (sk_v4 key)) +:+ "_" +:+ leftip +:+ "_" +:+
       fmt_d (sk_lport (sk_v4 key)) +:+ "_" +:+ rightip +:+ "_" +:+
       fmt_d (sk_rport (sk_v4 key)))%string.

(** ** Instances *)

#[export] Instance stream4_key_t_eq_dec : EqDecision stream4_key_t.
Proof. solve_decision. Defined.
#[export] Instance stream_key_t_eq_dec : EqDecision stream_key_t.
Proof. solve_decision. Defined.
#[export] Instance stream_key_t_countable : Countable stream_key_t.
Proof.
  apply (inj_countable'
    (fun k => (sk_lport (sk_v4 k), sk_rport (sk_v4 k), sk_ipproto (sk_v4 k), sk_vflags (sk_v4 k),
               sk_pad (sk_v4 k), sk_addrs (sk_v4 k), sk_addrs2 k))
    (fun '(l, r, i, v, p, a, a2) => mk_stream_key_t (mk_stream4_key_t l r i v p a) a2)).
  by intros [[] ?].
Defined.

(** ** Specification *)

(** Every member is in the range of its type. *)
Record key_wf (key : stream_key_t) : Prop := {
  kw_lport : is_u16 (sk_lport (sk_v4 key));
  kw_rport : is_u16 (sk_rport (sk_v4 key));
  kw_proto : is_u8 (sk_ipproto (sk_v4 key));
  kw_flags : is_u8 (sk_vflags (sk_v4 key));
  kw_pad : is_u16 (sk_pad (sk_v4 key));
  kw_addrs : length (sk_addrs (sk_v4 key)) = 8%nat /\ Forall is_u8 (sk_addrs (sk_v4 key));
  kw_addrs2 : length (sk_addrs2 key) = 24%nat /\ Forall is_u8 (sk_addrs2 key)
}.

(** One end of a conversation. *)
Definition endpoint : Type := Z * Z.
Definition endpoint_wf (e : endpoint) : Prop := is_u32 (fst e) /\ is_u16 (snd e).

(** The key of the packets between two endpoints (address, port). *)
Definition key_between (ipproto : Z) (src dst : endpoint) : stream_key_t :=
  snd (net_stream_init_v4 ipproto (fst src) (fst dst) (snd src) (snd dst)).

Lemma u8_i8 x : is_u8 x -> u8 (i8 x) = x.
Proof. intros. clia. Qed.

Lemma le_bytes_u8 n x : Forall is_u8 (le_bytes n x).
Proof. revert x. induction n as [| n IH]; intros x; cbn; constructor; [clia | apply IH]. Qed.

(** The two outcomes of [net_stream_init_v4], with the byte stores carried out. *)
Definition v4_key (ipproto lport rport left right : Z) : stream_key_t :=
  mk_stream_key_t (mk_stream4_key_t lport rport ipproto 0 0 (le_bytes 4 left ++ le_bytes 4 right))
    (replicate 24 0).

Lemma init_v4_eq ipproto srcip dstip sport dport :
  is_u8 ipproto ->
  net_stream_init_v4 ipproto srcip dstip sport dport =
  if (dport <? sport) || ((sport =? dport) && (srcip <? dstip))
  then (0, v4_key ipproto sport dport srcip dstip)
  else (1, v4_key ipproto dport sport dstip srcip).
Proof. intros Hp. unfold net_stream_init_v4. rewrite u8_i8 by done. by case_match. Qed.

Lemma v4_key_left p lp rp l r : is_u32 l -> net_stream4_left (v4_key p lp rp l r) = l.
Proof. intros Hl. unfold net_stream4_left, load32, v4_key. cbn. clia. Qed.

Lemma v4_key_right p lp rp l r : is_u32 r -> net_stream4_right (v4_key p lp rp l r) = r.
Proof. intros Hr. unfold net_stream4_right, load32, v4_key. cbn. clia. Qed.

Lemma v4_key_inj p lp rp l r p' lp' rp' l' r' :
  is_u32 l -> is_u32 r -> is_u32 l' -> is_u32 r' ->
  v4_key p lp rp l r = v4_key p' lp' rp' l' r' ->
  p = p' /\ lp = lp' /\ rp = rp' /\ l = l' /\ r = r'.
Proof.
  intros Hl Hr Hl' Hr' He.
  pose proof (f_equal net_stream4_left He) as H1. rewrite !v4_key_left in H1 by done.
  pose proof (f_equal net_stream4_right He) as H2. rewrite !v4_key_right in H2 by done.
  injection He as -> -> ->. done.
Qed.

Lemma v4_key_wf p lp rp l r : is_u8 p -> is_u16 lp -> is_u16 rp -> key_wf (v4_key p lp rp l r).
Proof.
  intros. split; cbn; try done.
  - split; [done |]. change (Forall is_u8 (le_bytes 4 l ++ le_bytes 4 r)).
    apply Forall_app. split; apply le_bytes_u8.
  - split; [done |]. repeat constructor; done.
Qed.

Lemma le_bytes_app_inj n x y a b :
  0 <= x < 256 ^ Z.of_nat n -> 0 <= y < 256 ^ Z.of_nat n ->
  le_bytes n x ++ a = le_bytes n y ++ b -> x = y /\ a = b.
Proof.
  intros Hx Hy He. apply app_inj_1 in He as [H1 H2]; [| by rewrite !length_le_bytes].
  by apply le_bytes_inj in H1.
Qed.

Lemma stream_key_bytes_inj k1 k2 :
  key_wf k1 -> key_wf k2 -> stream_key_bytes k1 = stream_key_bytes k2 -> k1 = k2.
Proof.
  intros [H1 H2 H3 H4 H5 [H6 _] _] [I1 I2 I3 I4 I5 [I6 _] _] He.
  unfold is_u8, is_u16 in *. unfold stream_key_bytes in He.
  apply le_bytes_app_inj in He as [? He]; [| cbn; lia ..].
  apply le_bytes_app_inj in He as [? He]; [| cbn; lia ..].
  apply le_bytes_app_inj in He as [? He]; [| cbn; lia ..].
  apply le_bytes_app_inj in He as [? He]; [| cbn; lia ..].
  apply le_bytes_app_inj in He as [? He]; [| cbn; lia ..].
  apply app_inj_1 in He as [? ?]; [| congruence].
  destruct k1 as [[] ?], k2 as [[] ?]. cbn in *. congruence.
Qed.

Lemma length_stream_key_bytes k : key_wf k -> length (stream_key_bytes k) = 40%nat.
Proof.
  intros [_ _ _ _ _ [H1 _] [H2 _]]. unfold stream_key_bytes.
  rewrite !length_app, !length_le_bytes, H1, H2. done.
Qed.

Lemma hcmp_eq k1 k2 : key_wf k1 -> key_wf k2 -> hcmp_stream_key k1 k2 = 0 <-> k1 = k2.
Proof.
  intros Hk1 Hk2. unfold hcmp_stream_key.
  rewrite memcmp_eq by (rewrite !length_stream_key_bytes; done).
  split; [by apply stream_key_bytes_inj | by intros ->].
Qed.

Lemma le_val_bound bs : Forall is_u8 bs -> 0 <= le_val bs < 256 ^ Z.of_nat (length bs).
Proof.
  induction 1 as [| b bs Hb _ IH]; [cbn; lia |]. cbn [le_val length].
  rewrite Nat2Z.inj_succ, Z.pow_succ_r by lia. unfold is_u8 in Hb. lia.
Qed.

Lemma load32_u32 bs off : Forall is_u8 bs -> is_u32 (load32 bs off).
Proof.
  intros Hbs. unfold load32.
  pose proof (le_val_bound (take 4 (drop off bs))) as Hb.
  assert (Forall is_u8 (take 4 (drop off bs))) as Hf by (by apply Forall_take, Forall_drop).
  specialize (Hb Hf). pose proof (length_take (drop off bs) 4) as Hl.
  assert (256 ^ Z.of_nat (length (take 4 (drop off bs))) <= 256 ^ 4)
    by (apply Z.pow_le_mono_r; lia).
  unfold is_u32. cbn in *. lia.
Qed.

Lemma lxor_u32 x y : is_u32 x -> is_u32 y -> is_u32 (Z.lxor x y).
Proof. apply (lxor_bound 32). lia. Qed.

Lemma hash_u32 key : key_wf key -> is_u32 (hash_stream_key key).
Proof.
  intros [Hl Hr _ _ _ [_ Ha] [_ Ha2]]. unfold hash_stream_key.
  assert (is_u32 (Z.lxor (u32 (Z.lxor (net_stream4_left key) (net_stream4_right key) *
    sk_rport (sk_v4 key))) (sk_lport (sk_v4 key)))) as H0
    by (apply lxor_u32; [apply u32_range | unfold is_u16, is_u32 in *; lia]).
  destruct (negb _); [done |].
  repeat (apply lxor_u32; [| by apply load32_u32]). done.
Qed.

(** Splits on the comparisons of ports and addresses. *)
Ltac key_cases :=
  repeat match goal with
  | |- context [Z.ltb ?a ?b] => destruct (Z.ltb_spec a b)
  | |- context [Z.eqb ?a ?b] => destruct (Z.eqb_spec a b)
  end; cbn [orb andb fst snd] in *.

(** ** Properties *)

(** A stream's key does not depend on the direction of the packet it is
    made from, and the flip flag tells the two directions apart whenever the
    endpoints differ. *)
Theorem stream_key_symmetric ipproto srcip dstip sport dport (Hp : is_u8 ipproto) :
  let fwd := net_stream_init_v4 ipproto srcip dstip sport dport in
  let bwd := net_stream_init_v4 ipproto dstip srcip dport sport in
  snd fwd = snd bwd /\
  fst fwd + fst bwd = if decide ((srcip, sport) = (dstip, dport)) then 2 else 1.
Proof.
  cbv zeta. rewrite !init_v4_eq by done.
  case_decide as Hd; [simplify_eq | assert (srcip <> dstip \/ sport <> dport) by
    (destruct (decide (srcip = dstip)), (decide (sport = dport)); subst; tauto || congruence)];
    key_cases; subst; try lia; split; try done; try (f_equal; lia); repeat f_equal; lia.
Qed.

(** C34: two packets get the same key exactly when they have the same protocol
    and the same pair of endpoints, in either direction. *)
Theorem stream_key_identifies p p' src dst src' dst'
    (Hp : is_u8 p) (Hp' : is_u8 p') (Hsrc : endpoint_wf src) (Hdst : endpoint_wf dst)
    (Hsrc' : endpoint_wf src') (Hdst' : endpoint_wf dst') :
  key_between p src dst = key_between p' src' dst' <->
  p = p' /\ ((src = src' /\ dst = dst') \/ (src = dst' /\ dst = src')).
Proof.
  destruct src as [sa sp], dst as [da dp], src' as [sa' sp'], dst' as [da' dp'].
  destruct Hsrc, Hdst, Hsrc', Hdst'. unfold key_between. cbn [fst snd] in *.
  rewrite !init_v4_eq by done. split.
  - key_cases; intros He; apply v4_key_inj in He as (-> & -> & -> & -> & ->); auto.
  - intros [-> [[Hs Hd] | [Hs Hd]]]; simplify_eq; [done |].
    key_cases; subst; try lia; try done; repeat f_equal; lia.
Qed.

(** The key holds the endpoints in canonical order: the left end has the
    larger port, or the smaller address when the ports are equal; the flag says
    whether the left end is the packet's destination; unused members are zero. *)
Theorem stream_key_layout ipproto srcip dstip sport dport
    (Hp : is_u8 ipproto) (Hs : is_u32 srcip) (Hd : is_u32 dstip)
    (Hsp : is_u16 sport) (Hdp : is_u16 dport) :
  let '(flipped, key) := net_stream_init_v4 ipproto srcip dstip sport dport in
  let lp := sk_lport (sk_v4 key) in
  let rp := sk_rport (sk_v4 key) in
  let left := (net_stream4_left key, lp) in
  let right := (net_stream4_right key, rp) in
  (left, right) = (if flipped =? 0 then ((srcip, sport), (dstip, dport))
                   else ((dstip, dport), (srcip, sport))) /\
  (rp < lp \/ rp = lp /\ net_stream4_left key <= net_stream4_right key) /\
  sk_ipproto (sk_v4 key) = ipproto /\ net_stream_is_v6 key = false /\ key_wf key.
Proof.
  rewrite init_v4_eq by done.
  destruct ((dport <? sport) || ((sport =? dport) && (srcip <? dstip))) eqn:Hc;
    cbv zeta; rewrite v4_key_left, v4_key_right by done; cbn [fst snd Z.eqb];
    (split; [done |]; split; [cbn; lia |]; split; [done |]; split; [done |]; by apply v4_key_wf).
Qed.

(** For the hash table, keys compare as equal exactly when they are equal,
    equal keys hash alike, and the hash is a [uint32_t]. *)
Theorem stream_key_hash_table_laws k1 k2 (Hk1 : key_wf k1) (Hk2 : key_wf k2) :
  (hcmp_stream_key k1 k2 = 0 <-> k1 = k2) /\
  (hcmp_stream_key k1 k2 = 0 -> hash_stream_key k1 = hash_stream_key k2) /\
  is_u32 (hash_stream_key k1).
Proof.
  split; [by apply hcmp_eq |]. split; [| by apply hash_u32].
  by intros ->%hcmp_eq.
Qed.

(** ** Witnesses: the keys of test/streamkey_test.c *)

Definition test_src : endpoint := (0x03030A0C, 3333).
Definition test_dst : endpoint := (0x0B0B0103, 80).

Lemma stream_key_symmetric_witness :
  key_between IPPROTO_TCP test_src test_dst = key_between IPPROTO_TCP test_dst test_src.
Proof.
  apply (stream_key_symmetric IPPROTO_TCP (fst test_src) (fst test_dst) (snd test_src) (snd test_dst)).
  vm_compute. intuition discriminate.
Defined.

Lemma stream_key_identifies_witness :
  key_between IPPROTO_TCP test_src test_dst <> key_between IPPROTO_TCP test_src (0x0B0B0103, 443).
Proof.
  intros He.
  apply (stream_key_identifies IPPROTO_TCP IPPROTO_TCP test_src test_dst test_src (0x0B0B0103, 443)) in He.
  - destruct He as [_ [[_ He] | [He _]]]; discriminate He.
  - vm_compute. intuition discriminate.
  - vm_compute. intuition discriminate.
  - vm_compute. intuition discriminate.
  - vm_compute. intuition discriminate.
  - vm_compute. intuition discriminate.
  - vm_compute. intuition discriminate.
Defined.

Lemma stream_key_layout_witness : key_wf (key_between IPPROTO_TCP test_dst test_src).
Proof.
  pose proof (stream_key_layout IPPROTO_TCP (fst test_dst) (fst test_src)
    (snd test_dst) (snd test_src)) as Hl.
  destruct Hl as (_ & _ & _ & _ & Hwf); [vm_compute; intuition discriminate .. | exact Hwf].
Defined.

Lemma stream_key_hash_table_laws_witness :
  is_u32 (hash_stream_key (key_between IPPROTO_TCP test_src test_dst)).
Proof.
  refine (proj2 (proj2 (stream_key_hash_table_laws _ (key_between IPPROTO_TCP test_src test_dst) _ _)));
    apply v4_key_wf; vm_compute; intuition discriminate.
Defined.
