(* ===== verification/Sort.v ===== *)
(** The in-place quicksort of [utils/sort.c].

    The array of pointers is a list, [cmp] a function of two of its elements
    (the objects pointed to do not change while the sort runs); [int] indices
    are [Z].  The fuel of each loop is the number of positions the loop's index
    can move over; [quicksort_sorts] proves it is never exhausted. *)
From S2P Require Import Prelude.

Section Sort.
Context {A : Type} (cmp : A -> A -> Z).

Definition SWAP (l : list A) (idx1 idx2 : Z) : res (list A) :=
  temp ← aget l idx1;
  x2 ← aget l idx2;
  l1 ← aset l idx1 x2;
  aset l1 idx2 temp.

(** [while((i <= n) && (cmp(list[i], key) <= 0)) i++;] *)
Fixpoint scan_up (fuel : nat) (l : list A) (n : Z) (key : A) (i : Z) : res Z :=
  if i <=? n then
    x ← aget l i;
    if cmp x key <=? 0 then
      match fuel with
      | O => Undefined
      | S fuel' => scan_up fuel' l n key (i + 1)
      end
    else Val i
  else Val i.

(** [while((j >= m) && cmp(list[j], key) > 0) j--;] *)
Fixpoint scan_down (fuel : nat) (l : list A) (m : Z) (key : A) (j : Z) : res Z :=
  if m <=? j then
    x ← aget l j;
    if 0 <? cmp x key then
      match fuel with
      | O => Undefined
      | S fuel' => scan_down fuel' l m key (j - 1)
      end
    else Val j
  else Val j.

(** The outer [while(i <= j)] loop. *)
Fixpoint partition_loop (fuel : nat) (l : list A) (m n : Z) (key : A) (i j : Z)
    : res (list A * Z * Z) :=
  if i <=? j then
    match fuel with
    | O => Undefined
    | S fuel' =>
        i' ← scan_up (Z.to_nat (n - i + 1)) l n key i;
        j' ← scan_down (Z.to_nat (j - m + 1)) l m key j;
        l' ← (if i' <? j' then SWAP l i' j' else Val l);
        partition_loop fuel' l' m n key i' j'
    end
  else Val (l, i, j).

Fixpoint quicksort_fuel (fuel : nat) (l : list A) (m n : Z) : res (list A) :=
  if m <? n then
    match fuel with
    | O => Undefined
    | S fuel' =>
        if 2147483647 <? m + n then Undefined else
        let k := Z.quot (m + n) 2 in
        l1 ← SWAP l m k;
        key ← aget l1 m;
        '(l2, _, j) ← partition_loop (Z.to_nat (n - m + 1)) l1 m n key (m + 1) n;
        l3 ← SWAP l2 m j;
        l4 ← quicksort_fuel fuel' l3 m (j - 1);
        quicksort_fuel fuel' l4 (j + 1) n
    end
  else Val l.

Definition quicksort (l : list A) (m n : Z) : res (list A) :=
  quicksort_fuel (Z.to_nat (n - m + 1)) l m n.
End Sort.

(** ** Comparison functions and orders *)

(** [cmp] decides a total preorder by the sign of its result. *)
Class CmpOrder {A} (cmp : A -> A -> Z) : Prop := {
  cmp_refl : forall x, cmp x x <= 0;
  cmp_total : forall x y, 0 < cmp x y -> cmp y x <= 0;
  cmp_trans : forall x y z, cmp x y <= 0 -> cmp y z <= 0 -> cmp x z <= 0
}.

(** Positions [m .. n] of [l] are in order. *)
Definition sorted_range {A} (cmp : A -> A -> Z) (l : list A) (m n : Z) : Prop :=
  forall a b x y, m <= a -> a <= b -> b <= n -> aget l a = Val x -> aget l b = Val y -> cmp x y <= 0.

(** [l'] is [l] with the positions [m .. n] permuted. *)
Record seg_perm {A} (l l' : list A) (m n : Z) : Prop := {
  sp_perm : l ≡ₚ l';
  sp_out : forall x, ~ (m <= x <= n) -> aget l' x = aget l x;
  sp_in : forall x, m <= x <= n -> exists y, m <= y <= n /\ aget l' x = aget l y
}.

Section SegPerm.
Context {A : Type}.
Implicit Types l : list A.

Lemma seg_perm_length l l' m n : seg_perm l l' m n -> length l' = length l.
Proof. intros [Hp _ _]. by rewrite Hp. Qed.

Lemma seg_perm_refl l m n : seg_perm l l m n.
Proof. split; [done | done |]. eauto. Qed.

Lemma seg_perm_trans l1 l2 l3 m n : seg_perm l1 l2 m n -> seg_perm l2 l3 m n -> seg_perm l1 l3 m n.
Proof.
  intros [P1 O1 I1] [P2 O2 I2]. split.
  - by etrans.
  - intros x Hx. by rewrite O2, O1.
  - intros x Hx. destruct (I2 x Hx) as (y & Hy & ->). by apply I1.
Qed.

Lemma seg_perm_widen l l' m n m' n' : m' <= m -> n <= n' -> seg_perm l l' m n -> seg_perm l l' m' n'.
Proof.
  intros Hm Hn [P O I]. split; [done | |].
  - intros x Hx. apply O. lia.
  - intros x Hx. destruct (decide (m <= x <= n)) as [Hi | Ho].
    + destruct (I x Hi) as (y & Hy & ->). exists y. split; [lia | done].
    + exists x. by rewrite O.
Qed.

Lemma seg_perm_all (P : A -> Prop) l l' m n :
  seg_perm l l' m n -> (forall a x, m <= a <= n -> aget l a = Val x -> P x) ->
  forall a x, m <= a <= n -> aget l' a = Val x -> P x.
Proof.
  intros Hs HP a x Ha Hx. destruct (sp_in _ _ _ _ Hs a Ha) as (y & Hy & He).
  rewrite He in Hx. by eapply HP.
Qed.

Lemma SWAP_spec l a b m n x y :
  0 <= m -> m <= a <= n -> m <= b <= n -> aget l a = Val x -> aget l b = Val y ->
  exists l', SWAP l a b = Val l' /\ seg_perm l l' m n /\
    aget l' a = Val y /\ aget l' b = Val x /\
    (forall c, c <> a -> c <> b -> aget l' c = aget l c).
Proof.
  intros Hm Ha Hb Hx Hy. pose proof (aget_inv _ _ _ Hx). pose proof (aget_inv _ _ _ Hy).
  unfold SWAP. rewrite Hx, Hy. cbn. rewrite aset_lt by done. cbn.
  rewrite aset_lt by (rewrite length_insert; lia). eexists. split; [done |].
  set (l' := <[Z.to_nat b := x]> (<[Z.to_nat a := y]> l)).
  assert (aget l' b = Val x) as Hb' by (apply aget_insert_eq; rewrite length_insert; lia).
  assert (aget l' a = Val y) as Ha'.
  { destruct (decide (a = b)) as [-> | Hne]; [congruence |].
    unfold l'. rewrite aget_insert_ne by lia. by apply aget_insert_eq. }
  assert (forall c, c <> a -> c <> b -> aget l' c = aget l c) as Hc.
  { intros c Hca Hcb. unfold l'. by rewrite !aget_insert_ne by lia. }
  split; [| done]. split.
  - apply aget_Val in Hx as [_ Hx], Hy as [_ Hy]. unfold l'.
    apply Permutation_inj. split; [by rewrite !length_insert |].
    exists (fun i => if decide (i = Z.to_nat a) then Z.to_nat b
                     else if decide (i = Z.to_nat b) then Z.to_nat a else i).
    split.
    + intros i j. repeat case_decide; intros; subst; congruence.
    + intros i. destruct (decide (i = Z.to_nat a)) as [-> |]; [| destruct (decide (i = Z.to_nat b)) as [-> |]].
      * rewrite list_lookup_insert_eq by (rewrite length_insert; lia). done.
      * destruct (decide (Z.to_nat a = Z.to_nat b)) as [Hab |]; [congruence |].
        rewrite list_lookup_insert_ne, list_lookup_insert_eq by lia. done.
      * rewrite !list_lookup_insert_ne by done. done.
  - intros c Hcn. apply Hc; lia.
  - intros c Hci. destruct (decide (c = a)) as [-> |]; [exists b; split; [done | congruence] |].
    destruct (decide (c = b)) as [-> |]; [exists a; split; [done | congruence] |].
    exists c. split; [done | by apply Hc].
Qed.
End SegPerm.

(** ** Correctness *)
Section SortProofs.
Context {A : Type} (cmp : A -> A -> Z) `{!CmpOrder cmp}.
Implicit Types l : list A.

(** Every element at the positions [a .. b] is at most / greater than [key]. *)
Definition all_le l a b key : Prop :=
  forall c x, a <= c <= b -> aget l c = Val x -> cmp x key <= 0.
Definition all_gt l a b key : Prop :=
  forall c x, a <= c <= b -> aget l c = Val x -> 0 < cmp x key.

Lemma scan_up_spec l n key fuel i :
  0 <= i <= n + 1 -> n < Z.of_nat (length l) -> n - i + 1 <= Z.of_nat fuel ->
  exists i', scan_up cmp fuel l n key i = Val i' /\ i <= i' <= n + 1 /\
    all_le l i (i' - 1) key /\ (i' <= n -> exists x, aget l i' = Val x /\ 0 < cmp x key).
Proof.
  revert i. induction fuel as [| fuel IH]; intros i Hi Hn Hf; cbn [scan_up].
  - rewrite (proj2 (Z.leb_gt _ _)) by lia. exists i. split; [done |]. split; [lia |].
    split; [intros c x Hc; lia | lia].
  - destruct (Z.leb_spec i n) as [Hin | Hin].
    2: { exists i. split; [done |]. split; [lia |]. split; [intros c x Hc; lia | lia]. }
    destruct (aget_lt l i ltac:(lia)) as [x Hx]. rewrite Hx. cbn.
    destruct (Z.leb_spec (cmp x key) 0) as [Hle | Hgt].
    + destruct (IH (i + 1) ltac:(lia) Hn ltac:(lia)) as (i' & -> & Hb & Hal & Hst).
      exists i'. split; [done |]. split; [lia |]. split; [| done].
      intros c y Hc Hy. destruct (decide (c = i)) as [-> |]; [congruence |]. apply (Hal c); [lia | done].
    + exists i. split; [done |]. split; [lia |]. split; [intros c y Hc; lia | eauto].
Qed.

Lemma scan_down_spec l m key fuel j :
  0 <= m -> m - 1 <= j < Z.of_nat (length l) -> j - m + 1 <= Z.of_nat fuel ->
  exists j', scan_down cmp fuel l m key j = Val j' /\ m - 1 <= j' <= j /\
    all_gt l (j' + 1) j key /\ (m <= j' -> exists x, aget l j' = Val x /\ cmp x key <= 0).
Proof.
  intros Hm. revert j. induction fuel as [| fuel IH]; intros j Hj Hf; cbn [scan_down].
  - rewrite (proj2 (Z.leb_gt _ _)) by lia. exists j. split; [done |]. split; [lia |].
    split; [intros c x Hc; lia | lia].
  - destruct (Z.leb_spec m j) as [Hin | Hin].
    2: { exists j. split; [done |]. split; [lia |]. split; [intros c x Hc; lia | lia]. }
    destruct (aget_lt l j ltac:(lia)) as [x Hx]. rewrite Hx. cbn.
    destruct (Z.ltb_spec 0 (cmp x key)) as [Hgt | Hle].
    + destruct (IH (j - 1) ltac:(lia) ltac:(lia)) as (j' & -> & Hb & Hag & Hst).
      exists j'. split; [done |]. split; [lia |]. split; [| done].
      intros c y Hc Hy. destruct (decide (c = j)) as [-> |]; [congruence |]. apply (Hag c); [lia | done].
    + exists j. split; [done |]. split; [lia |]. split; [intros c y Hc; lia | eauto].
Qed.

(** The state of the partition loop: the pivot is at [m], the positions before
    [i] are at most it and the ones after [j] greater. *)
Record part_inv l0 l m n key i j : Prop := {
  pi_perm : seg_perm l0 l m n;
  pi_key : aget l m = Val key;
  pi_i : m + 1 <= i <= n + 1;
  pi_j : m <= j <= n;
  pi_ij : i <= j + 1;
  pi_le : all_le l m (i - 1) key;
  pi_gt : all_gt l (j + 1) n key
}.

Lemma partition_loop_exit fuel l m n key j :
  partition_loop cmp fuel l m n key (j + 1) j = Val (l, j + 1, j).
Proof. destruct fuel; cbn; by rewrite (proj2 (Z.leb_gt _ _)) by lia. Qed.

(** One swap leaves the partition invariant and puts a small element at [i]. *)
Lemma part_inv_swap l0 l l' m n key i j x y :
  seg_perm l0 l m n -> aget l m = Val key -> m + 1 <= i -> i < j -> j <= n ->
  all_le l m (i - 1) key -> all_gt l (j + 1) n key ->
  aget l i = Val x -> aget l j = Val y -> 0 < cmp x key ->
  seg_perm l l' m n -> aget l' i = Val y -> aget l' j = Val x ->
  (forall c, c <> i -> c <> j -> aget l' c = aget l c) ->
  part_inv l0 l' m n key i j.
Proof.
  intros Hp Hkey Hi Hij Hj Hle Hgt Hx Hy Hxk Hsp Hai Haj Ho. split; try lia.
  - by eapply seg_perm_trans.
  - rewrite Ho by lia. done.
  - intros c z Hc Hz. rewrite Ho in Hz by lia. by apply (Hle c).
  - intros c z Hc Hz. rewrite Ho in Hz by lia. by apply (Hgt c).
Qed.

Lemma partition_loop_spec l0 m n key fuel l i j :
  0 <= m -> n < Z.of_nat (length l0) -> part_inv l0 l m n key i j ->
  (j - i + 2 <= Z.of_nat fuel \/
   j - i + 1 <= Z.of_nat fuel /\ exists x, aget l i = Val x /\ cmp x key <= 0) ->
  exists l' j', partition_loop cmp fuel l m n key i j = Val (l', j' + 1, j') /\
    part_inv l0 l' m n key (j' + 1) j'.
Proof.
  intros Hm Hn. revert l i j. induction fuel as [| fuel IH]; intros l i j Hinv Hf;
    pose proof Hinv as [Hp Hkey Hi Hj Hij Hle Hgt].
  { exists l, j. assert (i = j + 1) as -> by (destruct Hf as [| [? _]]; lia).
    by rewrite partition_loop_exit. }
  destruct (decide (i = j + 1)) as [-> | Hne].
  { exists l, j. by rewrite partition_loop_exit. }
  cbn [partition_loop]. rewrite (proj2 (Z.leb_le i j)) by lia.
  pose proof (seg_perm_length _ _ _ _ Hp).
  destruct (scan_up_spec l n key (Z.to_nat (n - i + 1)) i) as (i' & Hsu & Hi' & Hal & Hsti); [lia .. |].
  destruct (scan_down_spec l m key (Z.to_nat (j - m + 1)) j) as (j' & Hsd & Hj' & Hag & Hstj); [lia .. |].
  rewrite Hsu, bind_Val, Hsd, bind_Val.
  assert (all_le l m (i' - 1) key) as Hle'.
  { intros c x Hcc Hx. destruct (decide (c <= i - 1)); [apply (Hle c) | apply (Hal c)]; done || lia. }
  assert (all_gt l (j' + 1) n key) as Hgt'.
  { intros c x Hcc Hx. destruct (decide (c <= j)); [apply (Hag c) | apply (Hgt c)]; done || lia. }
  assert (m <= j') as Hmj.
  { destruct (Z.le_gt_cases m j'); [done |]. exfalso.
    pose proof (Hgt' m key ltac:(lia) Hkey). pose proof (cmp_refl key). lia. }
  assert (i' <= j' + 1) as Hcross.
  { destruct (Z.le_gt_cases i' (j' + 1)); [done |]. exfalso.
    destruct (aget_lt l (i' - 1) ltac:(lia)) as [x Hx].
    pose proof (Hle' (i' - 1) x ltac:(lia) Hx). pose proof (Hgt' (i' - 1) x ltac:(lia) Hx). lia. }
  destruct Hstj as (y & Hy & Hyk); [lia |].
  destruct (Z.ltb_spec i' j') as [Hsw | Hno].
  - destruct Hsti as (x & Hx & Hxk); [lia |].
    destruct (SWAP_spec l i' j' m n x y) as (l' & -> & Hsp & Hai & Haj & Ho); [lia .. | done | done |].
    rewrite bind_Val. apply IH; [by apply (part_inv_swap l0 l l' m n key i' j' x y); try done; lia |].
    right. split; [| eauto]. destruct Hf as [| [? (z & Hz & Hzk)]]; [lia |].
    destruct (decide (i' = i)) as [-> |]; [| lia]. rewrite Hz in Hx. simplify_eq. lia.
  - rewrite bind_Val. destruct (decide (i' = j')) as [-> |].
    { destruct Hsti as (x & Hx & Hxk); [lia |]. rewrite Hx in Hy. simplify_eq. lia. }
    replace i' with (j' + 1) in * by lia. exists l, j'. rewrite partition_loop_exit.
    split; [done |]. split; done || lia.
Qed.

(** Gluing the sorted halves around the pivot. *)
Lemma sorted_glue l m n j key :
  m <= j <= n -> aget l j = Val key -> all_le l m (j - 1) key -> all_gt l (j + 1) n key ->
  sorted_range cmp l m (j - 1) -> sorted_range cmp l (j + 1) n -> sorted_range cmp l m n.
Proof.
  intros Hj Hk Hle Hgt Hs1 Hs2 a b x y Ha Hab Hb Hx Hy.
  assert (forall z c, m <= c -> c <= j -> aget l c = Val z -> cmp z key <= 0) as Hl.
  { intros z c Hc1 Hc2 Hz. destruct (decide (c = j)) as [-> |]; [| by apply (Hle c); [lia |]].
    rewrite Hk in Hz. simplify_eq. apply cmp_refl. }
  assert (forall z c, j <= c -> c <= n -> aget l c = Val z -> cmp key z <= 0) as Hr.
  { intros z c Hc1 Hc2 Hz. destruct (decide (c = j)) as [-> |].
    - rewrite Hk in Hz. simplify_eq. apply cmp_refl.
    - apply cmp_total. by apply (Hgt c); [lia |]. }
  destruct (Z.lt_trichotomy b j) as [Hbj | [-> | Hbj]].
  - by apply (Hs1 a b); try lia.
  - rewrite Hk in Hy. simplify_eq. by apply (Hl x a).
  - destruct (Z.le_gt_cases a j) as [Haj | Haj].
    + apply (cmp_trans _ key); [by apply (Hl x a) | by apply (Hr y b); lia || done].
    + by apply (Hs2 a b); try lia.
Qed.

Lemma sorted_range_ext l l' m n :
  (forall c, m <= c <= n -> aget l' c = aget l c) -> sorted_range cmp l m n -> sorted_range cmp l' m n.
Proof.
  intros He Hs a b x y Ha Hab Hb Hx Hy. rewrite He in Hx by lia. rewrite He in Hy by lia.
  by apply (Hs a b).
Qed.

Lemma quicksort_fuel_spec fuel l m n :
  0 <= m -> n < Z.of_nat (length l) -> Z.of_nat (length l) <= 1073741824 -> n - m + 1 <= Z.of_nat fuel ->
  exists l', quicksort_fuel cmp fuel l m n = Val l' /\ seg_perm l l' m n /\ sorted_range cmp l' m n.
Proof.
  revert l m n. induction fuel as [| fuel IH]; intros l m n Hm Hn Hlen Hf; cbn [quicksort_fuel].
  { rewrite (proj2 (Z.ltb_ge _ _)) by lia. exists l. split; [done |].
    split; [apply seg_perm_refl | intros a b; lia]. }
  destruct (Z.ltb_spec m n) as [Hmn | Hmn].
  2: { exists l. split; [done |]. split; [apply seg_perm_refl |].
       intros a b x y ? ? ? Hx Hy. replace b with a in * by lia. rewrite Hx in Hy. simplify_eq.
       apply cmp_refl. }
  rewrite (proj2 (Z.ltb_ge _ _)) by lia.
  assert (m <= Z.quot (m + n) 2 <= n) as Hk by (rewrite Z.quot_div_nonneg by lia; clia).
  destruct (aget_lt l m ltac:(lia)) as [x Hx].
  destruct (aget_lt l (Z.quot (m + n) 2) ltac:(lia)) as [key Hkey].
  destruct (SWAP_spec l m _ m n x key Hm ltac:(lia) Hk Hx Hkey) as (l1 & -> & Hs1 & Hm1 & _ & _).
  rewrite bind_Val, Hm1, bind_Val.
  destruct (partition_loop_spec l m n key (Z.to_nat (n - m + 1)) l1 (m + 1) n)
    as (l2 & j & -> & [Hp2 Hk2 _ Hj _ Hle2 Hgt2]); [lia | lia | | left; lia |].
  { split; try done || lia.
    - intros c y Hc Hy. replace c with m in * by lia. rewrite Hm1 in Hy. simplify_eq. apply cmp_refl.
    - intros c y Hc. lia. }
  rewrite bind_Val. pose proof (seg_perm_length _ _ _ _ Hp2).
  destruct (aget_lt l2 j ltac:(lia)) as [z Hz].
  destruct (SWAP_spec l2 m j m n key z Hm ltac:(lia) Hj Hk2 Hz) as (l3 & -> & Hs3 & Hm3 & Hj3 & Ho3).
  rewrite bind_Val. pose proof (seg_perm_length _ _ _ _ Hs3).
  destruct (IH l3 m (j - 1)) as (l4 & -> & Hp4 & Hsort4); [lia .. |]. rewrite bind_Val.
  pose proof (seg_perm_length _ _ _ _ Hp4).
  destruct (IH l4 (j + 1) n) as (l5 & -> & Hp5 & Hsort5); [lia .. |].
  assert (all_le l3 m (j - 1) key) as Hle3.
  { intros c y Hc Hy. destruct (decide (c = m)) as [-> |].
    - rewrite Hm3 in Hy. simplify_eq. apply (Hle2 j); [lia | done].
    - rewrite Ho3 in Hy by lia. apply (Hle2 c); [lia | done]. }
  assert (all_gt l3 (j + 1) n key) as Hgt3.
  { intros c y Hc Hy. rewrite Ho3 in Hy by lia. apply (Hgt2 c); [lia | done]. }
  exists l5. split; [done |]. split.
  - apply (seg_perm_trans _ l2); [done |]. apply (seg_perm_trans _ l3); [done |].
    apply (seg_perm_trans _ l4); [by eapply seg_perm_widen; [| | exact Hp4]; lia |].
    by eapply seg_perm_widen; [| | exact Hp5]; lia.
  - apply (sorted_glue _ m n j key); [lia | | | | | done].
    + rewrite (sp_out _ _ _ _ Hp5), (sp_out _ _ _ _ Hp4) by lia. done.
    + intros c y Hc Hy. rewrite (sp_out _ _ _ _ Hp5) in Hy by lia.
      apply (seg_perm_all (fun y => cmp y key <= 0) _ _ _ _ Hp4 Hle3 c y Hc Hy).
    + assert (all_gt l4 (j + 1) n key) as Hgt4.
      { intros c y Hc Hy. rewrite (sp_out _ _ _ _ Hp4) in Hy by lia. by apply (Hgt3 c y). }
      intros c y Hc Hy.
      apply (seg_perm_all (fun y => 0 < cmp y key) _ _ _ _ Hp5 Hgt4 c y Hc Hy).
    + eapply sorted_range_ext; [| exact Hsort4]. intros c Hc. apply (sp_out _ _ _ _ Hp5). lia.
Qed.
End SortProofs.

(** ** Properties *)

(** C19: [quicksort] of positions [m .. n] of an array terminates without an
    access outside the array and leaves a permutation of it that is ordered by
    [cmp] on [m .. n] and unchanged elsewhere. *)
Theorem quicksort_sorts {A} (cmp : A -> A -> Z) (Hcmp : CmpOrder cmp) (l : list A) m n
    (Hm : 0 <= m) (Hn : n < Z.of_nat (length l)) (Hlen : Z.of_nat (length l) <= 1073741824) :
  exists l', quicksort cmp l m n = Val l' /\ l ≡ₚ l' /\
    (forall x, ~ (m <= x <= n) -> aget l' x = aget l x) /\ sorted_range cmp l' m n.
Proof.
  destruct (quicksort_fuel_spec cmp (Z.to_nat (n - m + 1)) l m n) as (l' & Hr & [Hp Ho _] & Hs);
    [lia .. |]. eauto.
Qed.

(** ** Witness: the data of test/sort_test.c, sorted in reverse *)

Definition sort_test_cmp (a b : Z * Z) : Z :=
  if fst a <? fst b then -1 else if fst b <? fst a then 1 else 0.
Definition sort_test_rcmp (a b : Z * Z) : Z := sort_test_cmp b a.

Definition sort_test_arr : list (Z * Z) :=
  [(555, 5); (111, 1); (888, 8); (777, 7); (222, 2); (333, 3); (999, 9); (444, 4); (666, 6)].

#[export] Instance sort_test_rcmp_order : CmpOrder sort_test_rcmp.
Proof.
  split; unfold sort_test_rcmp, sort_test_cmp; intros; repeat case_match; lia.
Qed.

Lemma quicksort_sorts_witness :
  exists l', quicksort sort_test_rcmp sort_test_arr 0 8 = Val l' /\ aget l' 0 = Val (999, 9).
Proof.
  destruct (quicksort_sorts sort_test_rcmp sort_test_rcmp_order sort_test_arr 0 8) as (l' & Hr & _).
  - lia.
  - cbn; lia.
  - cbn; lia.
  - exists l'. split; [exact Hr |]. vm_compute in Hr. injection Hr as <-. vm_compute. reflexivity.
Defined.
