(* ===== verification/StringBuf.v ===== *)
(** Growing string buffers, [utils/stringbuf.c].

    A heap block is a list of bytes, [None] for a byte that was never written
    (what [malloc] returns); reading such a byte, or writing past the block, is
    [Undefined].  The outcome of each [malloc] is an argument. *)
From S2P Require Import Prelude Format.
#[local] Open Scope Z_scope.

Definition byte_t : Type := ascii.
Definition NUL : byte_t := "000"%char.
Definition block : Type := list (option byte_t).

(** ** The C string functions used *)

Definition malloc (ok : bool) (size : Z) : option block :=
  if ok then Some (replicate (Z.to_nat size) None) else None.

(** [strcpy(dst + off, s)] *)
Definition strcpy (dst : block) (off : Z) (s : string) : res block :=
  let cs := map Some (String.list_ascii_of_string s) ++ [Some NUL] in
  if (0 <=? off) && (off + Z.of_nat (length cs) <=? Z.of_nat (length dst))
  then Val (take (Z.to_nat off) dst ++ cs ++ drop (Z.to_nat off + length cs) dst)
  else Undefined.

(** The [n] bytes [strncpy(dst, src, n)] writes: those of [src] up to its
    terminator, then zeros. *)
Fixpoint strncpy_bytes (src : block) (n : nat) {struct n} : res (list byte_t) :=
  match n with
  | O => Val []
  | S n' =>
      match src with
      | Some c :: src' =>
          if Ascii.eqb c NUL then Val (replicate n NUL)
          else cs ← strncpy_bytes src' n'; Val (c :: cs)
      | _ => Undefined
      end
  end.

(** The C string at the start of a block. *)
Fixpoint c_string (b : block) : res string :=
  match b with
  | Some c :: b' =>
      if Ascii.eqb c NUL then Val ""%string
      else s ← c_string b'; Val (String c s)
  | _ => Undefined
  end.

(** ** utils/stringbuf.c *)

Record sbuf_t := mk_sbuf_t {
  sb_capacity : Z;
  sb_len : Z;
  sb_ptr : block
}.

Definition sbuf_new (ok_ptr ok_obj : bool) (capacity : Z) : option sbuf_t :=
  match malloc ok_ptr capacity with
  | None => None
  | Some ptr => if ok_obj then Some (mk_sbuf_t capacity 0 ptr) else None
  end.

Definition sbuf_remaining (buf : sbuf_t) : Z := sb_capacity buf - sb_len buf - 1.

Definition sbuf_resize (ok : bool) (buf : sbuf_t) (capacity : Z) : res (Z * sbuf_t) :=
  match malloc ok capacity with
  | None => Val (1, buf)
  | Some ptr =>
      cs ← strncpy_bytes (sb_ptr buf) (Z.to_nat (sb_len buf));
      if Z.of_nat (length cs) <=? Z.of_nat (length ptr) then
        Val (0, mk_sbuf_t capacity (sb_len buf) (map Some cs ++ drop (length cs) ptr))
      else Undefined
  end.

Definition sbuf_append (ok : bool) (buf : sbuf_t) (str : string) : res (Z * sbuf_t) :=
  let len_to_add := Z.of_nat (String.length str) in
  '(status, buf) ←
    (if sbuf_remaining buf <? len_to_add then sbuf_resize ok buf (i32 (sb_capacity buf * 2))
     else Val (0, buf));
  if negb (status =? 0) then Val (1, buf) else
  ptr ← strcpy (sb_ptr buf) (sb_len buf) str;
  Val (0, mk_sbuf_t (sb_capacity buf) (sb_len buf + len_to_add) ptr).

Definition sbuf_to_s (buf : sbuf_t) : res string := c_string (sb_ptr buf).

(** ** Specification *)

Definition chars (s : string) : list ascii := String.list_ascii_of_string s.
Definition no_nul (s : string) : Prop := Forall (fun c => c <> NUL) (chars s).

(** The buffer holds the text [t]; [term] says whether it is terminated. *)
Record sbuf_holds (buf : sbuf_t) (t : string) (term : bool) : Prop := {
  sh_cap : Z.of_nat (length (sb_ptr buf)) = sb_capacity buf;
  sh_int : sb_capacity buf <= 1073741823;
  sh_len : sb_len buf = Z.of_nat (String.length t);
  sh_fits : sb_len buf < sb_capacity buf;
  sh_text : exists rest, sb_ptr buf = map Some (chars t) ++ rest /\
    (term = true -> exists rest', rest = Some NUL :: rest');
  sh_no_nul : no_nul t
}.

(** Appending a sequence of strings, every allocation succeeding. *)
Fixpoint sbuf_appends (buf : sbuf_t) (l : list string) : res sbuf_t :=
  match l with
  | [] => Val buf
  | s :: l' => '(_, buf') ← sbuf_append true buf s; sbuf_appends buf' l'
  end.

Fixpoint concat_strings (l : list string) : string :=
  match l with
  | [] => ""%string
  | s :: l' => (s +:+ concat_strings l')%string
  end.

Lemma length_chars s : length (chars s) = String.length s.
Proof. induction s as [| c s IH]; [done |]. exact (f_equal S IH). Qed.

Lemma chars_app s t : chars (s +:+ t) = chars s ++ chars t.
Proof.
  induction s as [| c s IH]; [done |].
  exact (f_equal (cons c) IH).
Qed.

Lemma no_nul_app s t : no_nul s -> no_nul t -> no_nul (s +:+ t).
Proof. intros Hs Ht. unfold no_nul. rewrite chars_app. by apply Forall_app. Qed.

Lemma strncpy_text t rest :
  no_nul t -> strncpy_bytes (map Some (chars t) ++ rest) (String.length t) = Val (chars t).
Proof.
  unfold no_nul. induction t as [| c t IH]; intros Hn; [done |].
  change (chars (String c t)) with (c :: chars t) in *. apply Forall_cons in Hn as [Hc Hn].
  cbn. destruct (Ascii.eqb_spec c NUL); [done |]. by rewrite IH.
Qed.

Lemma c_string_text t rest :
  no_nul t -> c_string (map Some (chars t) ++ Some NUL :: rest) = Val t.
Proof.
  unfold no_nul. induction t as [| c t IH]; intros Hn; [done |].
  change (chars (String c t)) with (c :: chars t) in *. apply Forall_cons in Hn as [Hc Hn].
  cbn. destruct (Ascii.eqb_spec c NUL); [done |]. by rewrite IH.
Qed.

Lemma resize_holds buf t term :
  sbuf_holds buf t term -> 2 * sb_capacity buf <= 1073741823 ->
  exists buf', sbuf_resize true buf (i32 (sb_capacity buf * 2)) = Val (0, buf') /\
    sbuf_holds buf' t false /\ sb_capacity buf' = 2 * sb_capacity buf.
Proof.
  intros [Hcap Hint Hlen Hfits (rest & Hptr & _) Hnn] Hdbl.
  rewrite i32_small by lia. unfold sbuf_resize, malloc.
  rewrite Hptr, Hlen, Nat2Z.id, strncpy_text by done. cbn.
  rewrite length_replicate, length_chars, (proj2 (Z.leb_le _ _)) by lia.
  eexists. split; [done |]. split; [| cbn; lia]. split; cbn; try done || lia.
  - rewrite length_app, length_map, length_chars, length_drop, length_replicate. lia.
  - eexists. split; [done |]. done.
Qed.

Lemma strcpy_holds buf t term s :
  sbuf_holds buf t term -> no_nul s ->
  sb_len buf + Z.of_nat (String.length s) < sb_capacity buf ->
  exists ptr, strcpy (sb_ptr buf) (sb_len buf) s = Val ptr /\
    sbuf_holds (mk_sbuf_t (sb_capacity buf) (sb_len buf + Z.of_nat (String.length s)) ptr)
      (t +:+ s) true.
Proof.
  intros [Hcap Hint Hlen Hfits (rest & Hptr & _) Hnn] Hs Hroom. unfold strcpy.
  fold (chars s). rewrite length_app, length_map, length_chars. cbn [length].
  rewrite (proj2 (Z.leb_le 0 _)), (proj2 (Z.leb_le _ _)) by lia. cbn [andb].
  eexists. split; [done |].
  rewrite Hlen, Nat2Z.id, Hptr, take_app_length' by (by rewrite length_map, length_chars).
  split; cbn; try lia.
  - rewrite Hptr in Hcap. rewrite !length_app, !length_map, !length_chars, length_drop, length_app,
      length_map, length_chars in *. cbn. lia.
  - rewrite string_length_app. lia.
  - eexists. rewrite chars_app, map_app, <- !app_assoc. split; [done |]. intros _. eauto.
  - by apply no_nul_app.
Qed.

Lemma append_ok ok buf t term s :
  sbuf_holds buf t term -> no_nul s -> 4 * sb_capacity buf <= 1073741823 ->
  Z.of_nat (String.length t) + Z.of_nat (String.length s) < 2 * sb_capacity buf ->
  (sbuf_remaining buf < Z.of_nat (String.length s) -> ok = true) ->
  exists buf', sbuf_append ok buf s = Val (0, buf') /\ sbuf_holds buf' (t +:+ s) true /\
    (sb_capacity buf' = sb_capacity buf \/
     sb_capacity buf' = 2 * sb_capacity buf /\
     sb_capacity buf <= Z.of_nat (String.length t) + Z.of_nat (String.length s)).
Proof.
  intros Hh Hs Hint Hfit Hok. pose proof (sh_len _ _ _ Hh). pose proof (sh_fits _ _ _ Hh).
  unfold sbuf_append, sbuf_remaining in *.
  destruct (Z.ltb_spec (sb_capacity buf - sb_len buf - 1) (Z.of_nat (String.length s))) as [Hlt | Hge].
  - rewrite Hok by lia. destruct (resize_holds buf t term Hh ltac:(lia)) as (b1 & -> & Hh1 & Hc1).
    pose proof (sh_len _ _ _ Hh1). rewrite bind_Val. cbn [Z.eqb negb].
    destruct (strcpy_holds b1 t false s Hh1 Hs ltac:(lia)) as (ptr & -> & Hh2).
    rewrite bind_Val. eexists. split; [done |]. split; [done |]. right. cbn. lia.
  - rewrite bind_Val. cbn [Z.eqb negb].
    destruct (strcpy_holds buf t term s Hh Hs ltac:(lia)) as (ptr & -> & Hh2).
    rewrite bind_Val. eexists. split; [done |]. split; [done |]. by left.
Qed.

Lemma appends_ok l buf t term c0 :
  sbuf_holds buf t term -> Forall no_nul l -> 0 < c0 <= sb_capacity buf ->
  Forall (fun s => Z.of_nat (String.length s) <= c0) l ->
  Z.of_nat (String.length (t +:+ concat_strings l)) <= 134217727 ->
  sb_capacity buf <= c0 \/ sb_capacity buf <= 2 * Z.of_nat (String.length t) -> c0 <= 134217727 ->
  exists buf', sbuf_appends buf l = Val buf' /\
    sbuf_holds buf' (t +:+ concat_strings l) (match l with [] => term | _ => true end).
Proof.
  revert buf t term. induction l as [| s l IH]; intros buf t term Hh Hn Hc Hl Htot Hcap H0.
  - exists buf. split; [done |]. cbn. by rewrite string_app_nil_r.
  - apply Forall_cons in Hn as [Hs Hn]. apply Forall_cons in Hl as [Hsl Hl].
    pose proof (sh_len _ _ _ Hh). pose proof (sh_fits _ _ _ Hh).
    cbn [concat_strings] in Htot |- *. rewrite !string_length_app in Htot.
    destruct (append_ok true buf t term s Hh Hs) as (b1 & Hr & Hh1 & Hc1); [lia | lia | done |].
    cbn [sbuf_appends]. rewrite Hr, bind_Val.
    destruct (IH b1 (t +:+ s) true Hh1 Hn) as (b2 & Hr2 & Hh2).
    + lia.
    + done.
    + rewrite !string_length_app. lia.
    + rewrite string_length_app. lia.
    + done.
    + exists b2. split; [done |]. rewrite string_app_assoc in Hh2. by destruct l.
Qed.

Lemma new_holds cap : 0 < cap <= 1073741823 ->
  exists buf, sbuf_new true true cap = Some buf /\ sbuf_holds buf "" false /\ sb_capacity buf = cap.
Proof.
  intros Hc. eexists. split; [done |]. split; [| done]. split; cbn; try done || lia.
  - rewrite length_replicate. lia.
  - eexists. split; done.
  - constructor.
Qed.

(** ** Properties *)

(** [sbuf_append] on a buffer that holds [t].  If the text fits twice the
    capacity and the (at most one) allocation succeeds, the buffer then holds
    [t] followed by the new string and [sbuf_to_s] returns that; if the
    allocation fails the status is 1 and the buffer is unchanged; and a string
    that does not fit even twice the capacity overruns the block. *)
Theorem sbuf_append_spec ok buf t term s
    (Hh : sbuf_holds buf t term) (Hs : no_nul s) (Hint : 4 * sb_capacity buf <= 1073741823) :
  let grows := bool_decide (sbuf_remaining buf < Z.of_nat (String.length s)) in
  if grows && negb ok then sbuf_append ok buf s = Val (1, buf)
  else if bool_decide (Z.of_nat (String.length t) + Z.of_nat (String.length s) < 2 * sb_capacity buf)
  then exists buf', sbuf_append ok buf s = Val (0, buf') /\ sbuf_holds buf' (t +:+ s) true /\
         sbuf_to_s buf' = Val (t +:+ s)%string
  else sbuf_append ok buf s = Undefined.
Proof.
  cbv zeta. pose proof (sh_len _ _ _ Hh) as Hlen. pose proof (sh_fits _ _ _ Hh).
  destruct (bool_decide (sbuf_remaining buf < Z.of_nat (String.length s)) && negb ok) eqn:Hg.
  { apply andb_true_iff in Hg as [Hg ->%negb_true_iff]. apply bool_decide_eq_true in Hg.
    unfold sbuf_append. by rewrite (proj2 (Z.ltb_lt _ _)) by done. }
  destruct (bool_decide_reflect (Z.of_nat (String.length t) + Z.of_nat (String.length s) <
    2 * sb_capacity buf)) as [Hfit | Hfit].
  { destruct (append_ok ok _ _ _ _ Hh Hs Hint Hfit) as (b & Hr & Hb & _).
    { intros Hlt. destruct ok; [done |]. by rewrite bool_decide_true in Hg by done. }
    exists b. split; [exact Hr |]. split; [done |].
    destruct (sh_text _ _ _ Hb) as (rest & Hp & Ht). destruct (Ht eq_refl) as [rest' ->].
    unfold sbuf_to_s. rewrite Hp. apply c_string_text, (sh_no_nul _ _ _ Hb). }
  rewrite bool_decide_true in Hg by (unfold sbuf_remaining; lia).
  apply negb_false_iff in Hg as ->. unfold sbuf_append.
  rewrite (proj2 (Z.ltb_lt _ _)) by (unfold sbuf_remaining; lia).
  destruct (resize_holds buf t term Hh ltac:(lia)) as (b1 & -> & Hh1 & Hc1).
  rewrite bind_Val. cbn [Z.eqb negb]. unfold strcpy.
  rewrite length_app, length_map. fold (chars s). rewrite length_chars. cbn [length].
  pose proof (sh_len _ _ _ Hh1). pose proof (sh_cap _ _ _ Hh1).
  rewrite (proj2 (Z.leb_gt (_ + _) _)) by lia. by rewrite andb_false_r.
Qed.

(** A report written by successive appends is the concatenation of its
    lines, as long as no line is longer than the buffer's initial capacity; but
    a buffer nothing was appended to is not a C string at all: [sbuf_new] does
    not terminate it, and [sbuf_to_s] then reads uninitialised memory. *)
Theorem sbuf_report cap l
    (Hcap : 0 < cap <= 134217727) (Hn : Forall no_nul l)
    (Hl : Forall (fun s => Z.of_nat (String.length s) <= cap) l)
    (Htot : Z.of_nat (String.length (concat_strings l)) <= 134217727) :
  exists buf, sbuf_new true true cap = Some buf /\
    exists buf', sbuf_appends buf l = Val buf' /\
      sbuf_to_s buf' = match l with [] => Undefined | _ => Val (concat_strings l) end.
Proof.
  destruct (new_holds cap ltac:(lia)) as (buf & Hnew & Hh & Hc).
  exists buf. split; [done |].
  destruct (appends_ok l buf "" false cap Hh Hn) as (buf' & Hr & Hh'); try done || lia.
  exists buf'. split; [done |]. destruct l as [| s l].
  - injection Hr as <-. injection Hnew as <-. unfold sbuf_to_s. cbn [sb_ptr].
    destruct (Z.to_nat cap) eqn:Hz; [lia | done].
  - destruct (sh_text _ _ _ Hh') as (rest & Hp & Ht). destruct (Ht eq_refl) as [rest' ->].
    unfold sbuf_to_s. rewrite Hp. apply c_string_text, (sh_no_nul _ _ _ Hh').
Qed.

(** ** Witnesses *)

Definition small_buf : sbuf_t := mk_sbuf_t 4 0 (replicate 4 None).

Lemma small_buf_holds : sbuf_holds small_buf "" false.
Proof. split; cbn; try done. { eexists. split; done. } constructor. Qed.

Lemma sbuf_append_spec_witness :
  exists buf', sbuf_append true small_buf "1,2,3" = Val (0, buf') /\ sbuf_to_s buf' = Val "1,2,3"%string.
Proof.
  destruct (sbuf_append_spec true small_buf "" false "1,2,3" small_buf_holds) as (b & Ha & _ & Hs).
  - repeat constructor; discriminate.
  - cbn; lia.
  - exists b. split; [exact Ha | exact Hs].
Defined.

Lemma sbuf_report_witness :
  exists buf, sbuf_new true true 8 = Some buf /\
    exists buf', sbuf_appends buf ["ab,"; "cd,"; "ef,"]%string = Val buf' /\
      sbuf_to_s buf' = Val "ab,cd,ef,"%string.
Proof.
  apply (sbuf_report 8 ["ab,"; "cd,"; "ef,"]%string).
  - lia.
  - repeat constructor; discriminate.
  - repeat constructor; cbn; lia.
  - vm_compute; discriminate.
Defined.
