(* ===== verification/Float32.v ===== *)
(** The [float] arithmetic of [utils/hashtable.c]: IEEE binary32 (x86-64, where
    [float] operations round to binary32), taken from the Standard Library's
    executable specification of floating point numbers.  The bound lemmas are
    what the hash table needs of its load ratio. *)
From S2P Require Import Prelude.
From Stdlib Require Import Floats.SpecFloat.
#[local] Open Scope Z_scope.

Definition float_t : Type := spec_float.

Definition f_prec : Z := 24.
Definition f_emax : Z := 128.

(** [(float)n] for an integer [n]. *)
Definition f32_of_int (n : Z) : float_t := binary_normalize f_prec f_emax n 0 false.
(** [x / y], [x < y], [x == y] *)
Definition f32_div (x y : float_t) : float_t := SFdiv f_prec f_emax x y.
Definition f32_lt (x y : float_t) : bool := SFltb x y.
Definition f32_eq (x y : float_t) : bool := SFeqb x y.

(** Conversion to [uint32_t]: truncation; a value out of range is undefined. *)
Definition f32_to_u32 (x : float_t) : res Z :=
  match x with
  | S754_zero _ => Val 0
  | S754_finite s m e =>
      let v := Z.shiftl (Zpos m) e in
      if s then (if v =? 0 then Val 0 else Undefined)
      else if v <? 4294967296 then Val v else Undefined
  | _ => Undefined
  end.

(** The constants 3.0, 0.0 and 15.0. *)
Definition f32_zero : float_t := S754_zero false.
Definition f32_three : float_t := Eval vm_compute in f32_of_int 3.
Definition f32_fifteen : float_t := Eval vm_compute in f32_of_int 15.

(** ** Magnitude bounds

    [le_scaled v B]: a finite non-negative [v], at most [B]. *)
Definition f32_le (x : float_t) (B : Z) : Prop :=
  match x with
  | S754_zero _ => True
  | S754_finite false m e => -149 <= e /\ Zpos m * 2 ^ (e + 149) <= B * 2 ^ 149
  | _ => False
  end.

Lemma f32_to_u32_le x B :
  f32_le x B -> 0 <= B < 4294967296 -> exists k, f32_to_u32 x = Val k /\ 0 <= k <= B.
Proof.
  destruct x as [s | s | | [] m e]; cbn [f32_le f32_to_u32]; intros Hx HB; try done.
  { exists 0. split; [done | lia]. }
  destruct Hx as [He Hx].
  assert (0 <= Z.shiftl (Zpos m) e <= B) as Hv.
  { split; [apply Z.shiftl_nonneg; lia |].
    destruct (Z.le_gt_cases 0 e) as [H0 | H0].
    - rewrite Z.shiftl_mul_pow2 by lia.
      rewrite Z.pow_add_r, Z.mul_assoc in Hx by lia.
      apply Z.mul_le_mono_pos_r in Hx; lia.
    - replace e with (- (- e)) by lia. rewrite Z.shiftl_opp_r, Z.shiftr_div_pow2 by lia.
      assert (Zpos m <= B * 2 ^ (- e)).
      { replace 149 with ((e + 149) + (- e)) in Hx at 2 by lia.
        rewrite (Z.pow_add_r 2 (e + 149)), (Z.mul_comm (2 ^ (e + 149))), Z.mul_assoc in Hx by lia.
        apply Z.mul_le_mono_pos_r in Hx; [done |]. apply Z.pow_pos_nonneg; lia. }
      apply Z.div_le_upper_bound; [apply Z.pow_pos_nonneg; lia | lia]. }
  rewrite (proj2 (Z.ltb_lt _ _)) by lia. eauto.
Qed.

(** Shifting right halves the mantissa. *)
Lemma shr_1_m r : 0 <= shr_m r -> shr_m (shr_1 r) = shr_m r / 2.
Proof.
  destruct r as [[| [p | p |] | p] b s]; cbn; intros H; try done || lia;
    Z.to_euclidean_division_equations; lia.
Qed.

Lemma iter_shr_m p r : 0 <= shr_m r -> shr_m (iter_pos shr_1 p r) = shr_m r / 2 ^ Zpos p.
Proof.
  assert (forall x q, 0 <= x -> 0 <= x / 2 ^ Zpos q) as Hn.
  { intros x q Hx. apply Z.div_pos; [done |]. apply Z.pow_pos_nonneg; lia. }
  assert (forall q, 2 ^ Zpos q~0 = 2 ^ Zpos q * 2 ^ Zpos q) as H2.
  { intros q. rewrite <- Z.pow_add_r by lia. f_equal. lia. }
  revert r. induction p as [p IH | p IH |]; intros r Hr; cbn [iter_pos].
  - pose proof (shr_1_m r Hr) as H1.
    assert (0 <= shr_m (shr_1 r)) by (rewrite H1; apply Z.div_pos; lia).
    rewrite IH by (rewrite IH by done; auto). rewrite IH, H1 by done.
    rewrite !Z.div_div by lia. f_equal.
    replace (Zpos p~1) with (1 + Zpos p~0) by lia. rewrite Z.pow_add_r, H2 by lia. ring.
  - rewrite IH by (rewrite IH by done; auto). rewrite IH by done.
    rewrite Z.div_div by lia. by rewrite <- H2.
  - change (2 ^ 1) with 2. by apply shr_1_m.
Qed.

(** A value [m * 2^e] at most [B], with [e] above the least exponent. *)
Definition val_le (m e B : Z) : Prop := 0 <= m /\ -149 <= e /\ m * 2 ^ (e + 149) <= B * 2 ^ 149.

Lemma shr_val_le m e l n B :
  val_le m e B ->
  let '(r, e') := shr (shr_record_of_loc m l) e n in
  val_le (shr_m r) e' B /\ e' = Z.max e (e + n).
Proof.
  intros (Hm & He & HB). assert (shr_m (shr_record_of_loc m l) = m) as Hr by (by destruct l as [| []]).
  destruct n as [| p | p]; cbn [shr]; [rewrite Hr; unfold val_le; lia | |
    rewrite Hr; unfold val_le; lia].
  split; [| lia]. unfold val_le. rewrite iter_shr_m, Hr by lia.
  assert (0 < 2 ^ Zpos p) by (apply Z.pow_pos_nonneg; lia).
  assert (0 < 2 ^ (e + 149)) by (apply Z.pow_pos_nonneg; lia).
  split; [apply Z.div_pos; lia |]. split; [lia |].
  replace (e + Zpos p + 149) with (Zpos p + (e + 149)) by lia. rewrite Z.pow_add_r by lia.
  pose proof (Z.mul_div_le m (2 ^ Zpos p) ltac:(lia)). nia.
Qed.

Lemma digits2_pos_bound p : Zpos p < 2 ^ Zpos (digits2_pos p) <= 2 * Zpos p.
Proof.
  induction p as [p IH | p IH |]; cbn [digits2_pos]; [| | done];
    rewrite Pos2Z.inj_succ, Z.pow_succ_r by lia; lia.
Qed.

(** The exponent the first rounding step works at. *)
Lemma round_exponent m e k B :
  val_le m e B -> 0 < m -> B <= 2 ^ k -> 0 <= k ->
  Z.max e (e + (fexp f_prec f_emax (Zdigits2 m + e) - e)) <= Z.max (Z.max e (k - 23)) (-149).
Proof.
  intros (Hm & He & HB) Hpos Hk H0. destruct m as [| p |]; try lia.
  unfold fexp, emin, f_prec, f_emax. cbn [Zdigits2].
  assert (Zpos (digits2_pos p) + e <= k + 1) as Hd; [| lia].
  pose proof (digits2_pos_bound p) as Hb.
  assert (2 ^ (Zpos (digits2_pos p) + (e + 149)) <= 2 ^ (k + 1 + 149)) as Hle.
  { rewrite (Z.pow_add_r 2 (Zpos _)), (Z.pow_add_r 2 (k + 1)), (Z.pow_add_r 2 k) by lia.
    assert (0 < 2 ^ (e + 149)) by (apply Z.pow_pos_nonneg; lia). nia. }
  apply Z.pow_le_mono_r_iff in Hle; lia.
Qed.

Lemma binary_round_aux_le m e l k B :
  val_le m e B -> B <= 2 ^ k -> 23 <= k <= 64 -> e <= k - 23 ->
  f32_le (binary_round_aux f_prec f_emax false m e l) (B + 2 ^ (k - 23)).
Proof.
  intros Hv Hk Hk64 He. unfold binary_round_aux, shr_fexp.
  pose proof (shr_val_le m e l (fexp f_prec f_emax (Zdigits2 m + e) - e) B Hv) as H1.
  destruct (shr _ _ _) as [r1 e1]. destruct H1 as [Hv1 He1].
  set (m1 := round_nearest_even _ _).
  assert (val_le m1 e1 (B + 2 ^ (k - 23))) as Hm1.
  { assert (shr_m r1 <= m1 <= shr_m r1 + 1) as Hr.
    { subst m1. unfold round_nearest_even.
      destruct (loc_of_shr_record r1) as [| []]; try destruct (Z.even _); lia. }
    assert (e1 <= k - 23 \/ shr_m r1 = m1) as Hor.
    { destruct (decide (0 < m)) as [Hp | Hp].
      - left. rewrite He1. pose proof (round_exponent m e k B Hv Hp Hk ltac:(lia)). lia.
      - left. destruct Hv as (Hv0 & Hv149 & _). assert (m = 0) as -> by lia.
        rewrite He1. unfold fexp, emin, f_prec, f_emax. cbn [Zdigits2]. lia. }
    destruct Hv1 as (Hv1 & Hv2 & Hv3). unfold val_le.
    assert (0 < 2 ^ (k - 23)) by (apply Z.pow_pos_nonneg; lia).
    split; [lia |]. split; [done |]. destruct Hor as [Hor | Hor]; [| rewrite <- Hor; nia].
    assert (2 ^ (e1 + 149) <= 2 ^ (k - 23) * 2 ^ 149) as Hle
      by (rewrite <- Z.pow_add_r by lia; apply Z.pow_le_mono_r; lia).
    assert (0 < 2 ^ (e1 + 149)) by (apply Z.pow_pos_nonneg; lia). nia. }
  pose proof (shr_val_le m1 e1 loc_Exact (fexp f_prec f_emax (Zdigits2 m1 + e1) - e1) _ Hm1) as H2.
  destruct (shr _ _ _) as [r2 e2]. destruct H2 as [(Hv20 & Hv21 & Hv22) _].
  destruct (shr_m r2) as [| p |] eqn:Hp; [done | | lia].
  assert (e2 <= 65) as He2.
  { assert (2 ^ (e2 + 149) <= 2 ^ (65 + 149)) as Hle.
    { assert (2 ^ k <= 2 ^ 64) by (apply Z.pow_le_mono_r; lia).
      assert (2 ^ (k - 23) <= 2 ^ 41) by (apply Z.pow_le_mono_r; lia).
      assert (0 < 2 ^ (e2 + 149)) by (apply Z.pow_pos_nonneg; lia).
      transitivity (Zpos p * 2 ^ (e2 + 149)); nia. }
    apply Z.pow_le_mono_r_iff in Hle; lia. }
  unfold f_prec, f_emax in *. rewrite (proj2 (Z.leb_le _ _)) by lia. by split.
Qed.

Lemma f32_of_int_le n : 0 <= n < 4294967296 -> f32_le (f32_of_int n) 4294967808.
Proof.
  intros Hn. unfold f32_of_int, binary_normalize. destruct n as [| p |]; [done | | lia].
  unfold binary_round, shl_align.
  set (ex := fexp _ _ _). pose proof (digits2_pos_bound p) as Hd.
  assert (-149 <= ex) by (subst ex; unfold fexp, emin, f_prec, f_emax; lia).
  assert (forall q, Zpos (Pos.iter xO p q) = Zpos p * 2 ^ Zpos q) as Hshl.
  { intros q. induction q as [| q IH] using Pos.peano_ind; [cbn; lia |].
    rewrite Pos.iter_succ, Pos2Z.inj_succ, Z.pow_succ_r by lia. lia. }
  change 4294967808 with (4294967296 + 2 ^ (32 - 23)).
  destruct (ex - 0) as [| d | d] eqn:He; (apply binary_round_aux_le; [| lia ..]); unfold val_le.
  - split; [lia |]. split; [lia |]. nia.
  - split; [lia |]. split; [lia |]. nia.
  - rewrite Hshl. split; [lia |]. split; [lia |].
    replace (ex + 149) with (149 - Zpos d) by lia.
    rewrite <- Z.mul_assoc, <- Z.pow_add_r by lia.
    replace (Zpos d + (149 - Zpos d)) with 149 by lia. nia.
Qed.

Lemma f32_div_three_le x : f32_le x 4294967808 -> f32_le (f32_div x f32_three) 1431656192.
Proof.
  unfold f32_div, f32_three. destruct x as [s | s | | [] m e]; cbn [f32_le SFdiv]; try done.
  intros [He Hx]. unfold SFdiv_core_binary.
  set (d1 := Zdigits2 _). set (e' := Z.min _ _). cbn [xorb].
  assert (d1 + e <= 34) as Hd1.
  { subst d1. cbn [Zdigits2]. pose proof (digits2_pos_bound m) as Hb.
    assert (2 ^ (Zpos (digits2_pos m) + (e + 149)) <= 2 ^ (34 + 149)) as Hle.
    { rewrite (Z.pow_add_r 2 (Zpos _)), (Z.pow_add_r 2 34) by lia.
      assert (0 < 2 ^ (e + 149)) by (apply Z.pow_pos_nonneg; lia). nia. }
    apply Z.pow_le_mono_r_iff in Hle; lia. }
  assert (-149 <= e' <= 8) as He'.
  { subst e'. unfold fexp, emin, f_prec, f_emax. cbn [Zdigits2 digits2_pos Pos.succ]. lia. }
  assert (0 <= e + 22 - e') as Hs by (subst e'; lia).
  set (m' := match _ with Z0 => _ | _ => _ end).
  assert (m' = Zpos m * 2 ^ (e + 22 - e')) as Hm'.
  { subst m'. replace (e - -22 - e') with (e + 22 - e') by lia.
    destruct (e + 22 - e') as [| p | p] eqn:Hp; [lia | | lia]. by rewrite Z.shiftl_mul_pow2 by lia. }
  pose proof (Z.div_mul_le m' 12582912) as _.
  destruct (Z.div_eucl m' 12582912) as [q r] eqn:Hq.
  pose proof (Z_div_mod m' 12582912 ltac:(lia)) as Hdm. rewrite Hq in Hdm. destruct Hdm as [Hdm Hr].
  change 1431656192 with (1431655936 + 2 ^ (31 - 23)).
  apply binary_round_aux_le; [| lia ..]. unfold val_le.
  assert (0 <= q) as Hq0 by (assert (0 <= m') by (rewrite Hm'; apply Z.mul_nonneg_nonneg; [lia | apply Z.pow_nonneg; lia]); lia).
  split; [done |]. split; [lia |].
  assert (m' * 2 ^ (e' + 149) <= 4294967808 * 2 ^ (22 + 149)) as Hle.
  { rewrite Hm', <- Z.mul_assoc, <- Z.pow_add_r by lia.
    replace (e + 22 - e' + (e' + 149)) with (e + 149 + 22) by lia.
    rewrite (Z.pow_add_r 2 (e + 149)) by lia. nia. }
  assert (0 < 2 ^ (e' + 149)) by (apply Z.pow_pos_nonneg; lia).
  assert (q * 12582912 * 2 ^ (e' + 149) <= 4294967808 * 2 ^ (22 + 149)) as Hle2 by nia.
  change (2 ^ (22 + 149)) with (4194304 * 2 ^ 149) in Hle2. lia.
Qed.

(** The quotient of an element count by the default ratio is defined. *)
Lemma f32_div_three_to_u32 n :
  0 <= n < 4294967296 ->
  exists k, f32_to_u32 (f32_div (f32_of_int n) f32_three) = Val k /\ 0 <= k <= 1431656192.
Proof.
  intros Hn.
  destruct (f32_to_u32_le _ _ (f32_div_three_le _ (f32_of_int_le n Hn)) ltac:(lia)) as (k & Hk & Hb).
  exists k. split; [done | lia].
Qed.
