(* ===== verification/HashTable.v ===== *)
(** The chained hash table, [utils/hashtable.c].

    A pointer is a number with [NULL = 0].  The table stores the caller's key
    pointers, so the functions it was given read the caller's memory [M]; what a
    key {e is} can change when that memory does.  Values are pointers the table
    only compares ([None] is NULL).  A bucket is the list of its pairs in the
    order of the [next] links.  The outcome of each [malloc] is an argument.
    [int] loop counters bound the bucket count: see [int_indices]. *)
From Stdlib Require Import Znumtheory.
From S2P Require Import Prelude Float32.
#[local] Open Scope Z_scope.

Definition ptr : Type := Z.
Definition NULL : ptr := 0.
Definition INT_MAX : Z := 2147483647.

(** [for (int i=0; i<n; i++)] with an unsigned [n]: past [INT_MAX] the
    increment overflows. *)
Definition int_indices (n : Z) : res (list Z) :=
  if n <=? INT_MAX then Val (seqZ 0 n) else Undefined.

(** ** Bucket counts *)

(** [for (i=3; i<51; i+=2)] *)
Definition probe_divisors : list Z := List.map (fun k => 3 + 2 * k) (seqZ 0 24).

Fixpoint probe (oddNumber : Z) (l : list Z) : bool :=
  match l with
  | [] => true
  | i :: l' =>
      if oddNumber =? i then true
      else if oddNumber mod i =? 0 then false
      else probe oddNumber l'
  end.

Definition isProbablePrime (oddNumber : Z) : bool := probe oddNumber probe_divisors.

(** The [while] of [calculateIdealNumOfBuckets]; the fuel is the number of odd
    32-bit values ([next_probable_prime_spec]: it is never exhausted). *)
Definition next_probable_prime (start : Z) : res Z :=
  match while_pos (fun n => if isProbablePrime n then Brk n else Next (u32 (n + 2)))
          2147483648 start with
  | Brk n => Val n
  | Next _ => Undefined
  end.

(** ** Data *)

Record KeyValuePair (V : Type) := mk_KeyValuePair {
  kv_key : ptr;
  kv_value : V
}.
Arguments mk_KeyValuePair {V}.
Arguments kv_key {V}.
Arguments kv_value {V}.

Record HashTable (M V : Type) := mk_HashTable {
  numOfBuckets : Z;
  numOfElements : Z;
  bucketArray : list (list (KeyValuePair V));
  idealRatio : float_t;
  lowerRehashThreshold : float_t;
  upperRehashThreshold : float_t;
  keycmp : M -> ptr -> ptr -> Z;
  valuecmp : M -> V -> V -> Z;
  hashFunction : M -> ptr -> Z;
  keyDeallocator : option (ptr -> M -> M);
  valueDeallocator : option (V -> M -> M)
}.
Arguments mk_HashTable {M V}.
Arguments numOfBuckets {M V}.
Arguments numOfElements {M V}.
Arguments bucketArray {M V}.
Arguments idealRatio {M V}.
Arguments lowerRehashThreshold {M V}.
Arguments upperRehashThreshold {M V}.
Arguments keycmp {M V}.
Arguments valuecmp {M V}.
Arguments hashFunction {M V}.
Arguments keyDeallocator {M V}.
Arguments valueDeallocator {M V}.

Section HashTable.
Context {M V : Type} `{EqDecision V}.
#[local] Abbreviation pair_t := (KeyValuePair V).
#[local] Abbreviation table := (HashTable M V).

Definition pointercmp {A} `{EqDecision A} (pointer1 pointer2 : A) : Z :=
  if bool_decide (pointer1 = pointer2) then 0 else 1.

Definition pointerHashFunction (pointer : ptr) : Z := Z.shiftr (u32 (u64 pointer)) 4.

(** djb2 over the bytes of a C string (without its terminator). *)
Definition HashTableStringHashFunction (str : list Z) : Z :=
  fold_left (fun hash c => u32 (u32 (hash * 33) + c)) str 5381.

Definition set_buckets (n e : Z) (bs : list (list pair_t)) (ht : table) : table :=
  mk_HashTable n e bs (idealRatio ht) (lowerRehashThreshold ht) (upperRehashThreshold ht)
    (keycmp ht) (valuecmp ht) (hashFunction ht) (keyDeallocator ht) (valueDeallocator ht).

(** ** Operations *)

(** An array of [n] NULL bucket pointers, after its initialising loop. *)
Definition null_buckets (n : Z) : res (list (list pair_t)) :=
  idx ← int_indices n;
  Val (List.map (fun _ => []) idx).

Definition HashTableCreate (ok_table ok_array : bool) (n : Z) : res (option table) :=
  c_assert (0 <? n) (
  if negb ok_table then Val None else
  if negb ok_array then Val None else
  buckets ← null_buckets n;
  Val (Some (mk_HashTable n 0 buckets f32_three f32_zero f32_fifteen
    (fun _ => pointercmp) (fun _ => pointercmp) (fun _ => pointerHashFunction) None None))).

Definition call_keyDeallocator (ht : table) (key : ptr) (m : M) : M :=
  match keyDeallocator ht with Some f => f key m | None => m end.

Definition call_valueDeallocator (ht : table) (value : V) (m : M) : M :=
  match valueDeallocator ht with Some f => f value m | None => m end.

(** The two nested loops every traversal of the table has. *)
Definition for_pairs {S} (body : pair_t -> S -> res S) (ht : table) (s : S) : res S :=
  idx ← int_indices (numOfBuckets ht);
  for_each (fun i s => bucket ← aget (bucketArray ht) i; for_each body bucket s) idx s.

Definition dealloc_pair (ht : table) (pr : pair_t) (m : M) : res M :=
  Val (call_valueDeallocator ht (kv_value pr) (call_keyDeallocator ht (kv_key pr) m)).

Definition HashTableDestroy (ht : table) (m : M) : res M := for_pairs (dealloc_pair ht) ht m.

(** The walk down a chain: the pairs before the match, the match, the rest. *)
Fixpoint find_pair (m : M) (ht : table) (key : ptr) (pairs : list pair_t)
    : option (list pair_t * pair_t * list pair_t) :=
  match pairs with
  | [] => None
  | pr :: next =>
      if keycmp ht m key (kv_key pr) =? 0 then Some ([], pr, next)
      else match find_pair m ht key next with
           | Some (previous, p, rest) => Some (pr :: previous, p, rest)
           | None => None
           end
  end.

Definition bucket_index (m : M) (ht : table) (key : ptr) : Z :=
  hashFunction ht m key mod numOfBuckets ht.

Definition HashTableGet (m : M) (ht : table) (key : ptr) : res (option V) :=
  let hashValue := bucket_index m ht key in
  bucket ← aget (bucketArray ht) hashValue;
  Val (match find_pair m ht key bucket with
       | None => None
       | Some (_, pr, _) => Some (kv_value pr)
       end).

Definition HashTableContainsKey (m : M) (ht : table) (key : ptr) : res bool :=
  v ← HashTableGet m ht key; Val (bool_decide (is_Some v)).

Fixpoint bucket_has_value (m : M) (ht : table) (value : V) (pairs : list pair_t) : bool :=
  match pairs with
  | [] => false
  | pr :: next =>
      if valuecmp ht m value (kv_value pr) =? 0 then true else bucket_has_value m ht value next
  end.

Definition HashTableContainsValue (m : M) (ht : table) (value : V) : res bool :=
  idx ← int_indices (numOfBuckets ht);
  c ← for_ctl (fun i (_ : unit) =>
        bucket ← aget (bucketArray ht) i;
        Val (if bucket_has_value m ht value bucket then Brk true else Next tt)) idx tt;
  Val (match c with Brk b => b | Next _ => false end).

Definition calculateIdealNumOfBuckets (ht : table) : res Z :=
  ideal ← f32_to_u32 (f32_div (f32_of_int (numOfElements ht)) (idealRatio ht));
  next_probable_prime (if ideal <? 5 then 5 else Z.lor ideal 1).

(** Moves one pair to the front of its chain in the new array. *)
Definition rehash_pair (m : M) (ht : table) (n : Z) (pr : pair_t)
    (new : list (list pair_t)) : res (list (list pair_t)) :=
  let hashValue := hashFunction ht m (kv_key pr) mod n in
  chain ← aget new hashValue;
  aset new hashValue (pr :: chain).

Definition HashTableRehash (ok : bool) (m : M) (ht : table) (n : Z) : res table :=
  n ← (if n =? 0 then calculateIdealNumOfBuckets ht else Val n);
  if n =? numOfBuckets ht then Val ht else
  if negb ok then Val ht else
  new ← null_buckets n;
  new ← for_pairs (rehash_pair m ht n) ht new;
  Val (set_buckets n (numOfElements ht) new ht).

Definition load_ratio (ht : table) : float_t :=
  f32_div (f32_of_int (numOfElements ht)) (f32_of_int (numOfBuckets ht)).

(** Status, table and memory (the deallocators may change it). *)
Definition HashTablePut (ok ok_rehash : bool) (m : M) (ht : table) (key : ptr) (value : option V)
    : res (Z * table * M) :=
  c_assert (negb (key =? NULL)) (
  match value with
  | None => Asserted
  | Some value =>
      let hashValue := bucket_index m ht key in
      bucket ← aget (bucketArray ht) hashValue;
      match find_pair m ht key bucket with
      | Some (previous, pr, rest) =>
          let m1 := if negb (kv_key pr =? key) then call_keyDeallocator ht (kv_key pr) m else m in
          let m2 := if negb (bool_decide (kv_value pr = value))
                    then call_valueDeallocator ht (kv_value pr) m1 else m1 in
          buckets ← aset (bucketArray ht) hashValue
            (previous ++ mk_KeyValuePair key value :: rest);
          Val (0, set_buckets (numOfBuckets ht) (numOfElements ht) buckets ht, m2)
      | None =>
          if negb ok then Val (-1, ht, m) else
          buckets ← aset (bucketArray ht) hashValue (mk_KeyValuePair key value :: bucket);
          let ht1 := set_buckets (numOfBuckets ht) (u32 (numOfElements ht + 1)) buckets ht in
          if f32_lt (idealRatio ht) (upperRehashThreshold ht) &&
             f32_lt (upperRehashThreshold ht) (load_ratio ht1)
          then ht2 ← HashTableRehash ok_rehash m ht1 0; Val (0, ht2, m)
          else Val (0, ht1, m)
      end
  end).

Definition HashTableRemove (ok_rehash : bool) (m : M) (ht : table) (key : ptr) : res (table * M) :=
  let hashValue := bucket_index m ht key in
  bucket ← aget (bucketArray ht) hashValue;
  match find_pair m ht key bucket with
  | None => Val (ht, m)
  | Some (previous, pr, rest) =>
      let m1 := call_valueDeallocator ht (kv_value pr) (call_keyDeallocator ht (kv_key pr) m) in
      buckets ← aset (bucketArray ht) hashValue (previous ++ rest);
      let ht1 := set_buckets (numOfBuckets ht) (u32 (numOfElements ht - 1)) buckets ht in
      if f32_lt f32_zero (lowerRehashThreshold ht) &&
         f32_lt (load_ratio ht1) (lowerRehashThreshold ht)
      then ht2 ← HashTableRehash ok_rehash m1 ht1 0; Val (ht2, m1)
      else Val (ht1, m1)
  end.

Definition HashTableRemoveAll (ok_rehash : bool) (m : M) (ht : table) : res (table * M) :=
  m1 ← for_pairs (dealloc_pair ht) ht m;
  buckets ← null_buckets (numOfBuckets ht);
  ht1 ← HashTableRehash ok_rehash m1 (set_buckets (numOfBuckets ht) 0 buckets ht) 5;
  Val (ht1, m1).

Definition HashTableIsEmpty (ht : table) : bool := numOfElements ht =? 0.
Definition HashTableSize (ht : table) : Z := numOfElements ht.
Definition HashTableGetNumBuckets (ht : table) : Z := numOfBuckets ht.

Definition HashTableSetKeyComparisonFunction (ht : table) (f : option (M -> ptr -> ptr -> Z))
    : res table :=
  match f with
  | None => Asserted
  | Some f => Val (mk_HashTable (numOfBuckets ht) (numOfElements ht) (bucketArray ht)
      (idealRatio ht) (lowerRehashThreshold ht) (upperRehashThreshold ht) f (valuecmp ht)
      (hashFunction ht) (keyDeallocator ht) (valueDeallocator ht))
  end.

Definition HashTableSetValueComparisonFunction (ht : table) (f : option (M -> V -> V -> Z))
    : res table :=
  match f with
  | None => Asserted
  | Some f => Val (mk_HashTable (numOfBuckets ht) (numOfElements ht) (bucketArray ht)
      (idealRatio ht) (lowerRehashThreshold ht) (upperRehashThreshold ht) (keycmp ht) f
      (hashFunction ht) (keyDeallocator ht) (valueDeallocator ht))
  end.

Definition HashTableSetHashFunction (ht : table) (f : option (M -> ptr -> Z)) : res table :=
  match f with
  | None => Asserted
  | Some f => Val (mk_HashTable (numOfBuckets ht) (numOfElements ht) (bucketArray ht)
      (idealRatio ht) (lowerRehashThreshold ht) (upperRehashThreshold ht) (keycmp ht)
      (valuecmp ht) f (keyDeallocator ht) (valueDeallocator ht))
  end.

Definition HashTableSetIdealRatio (ht : table) (ideal lower upper : float_t) : res table :=
  c_assert (f32_lt f32_zero ideal) (
  c_assert (f32_lt lower ideal) (
  c_assert (f32_eq upper f32_zero || f32_lt ideal upper) (
  Val (mk_HashTable (numOfBuckets ht) (numOfElements ht) (bucketArray ht) ideal lower upper
    (keycmp ht) (valuecmp ht) (hashFunction ht) (keyDeallocator ht) (valueDeallocator ht))))).

Definition HashTableSetDeallocationFunctions (ht : table) (kd : option (ptr -> M -> M))
    (vd : option (V -> M -> M)) : table :=
  mk_HashTable (numOfBuckets ht) (numOfElements ht) (bucketArray ht)
    (idealRatio ht) (lowerRehashThreshold ht) (upperRehashThreshold ht) (keycmp ht)
    (valuecmp ht) (hashFunction ht) kd vd.

End HashTable.

(** ** The bucket count search *)

Lemma probable_prime_search last fuel start :
  isProbablePrime last = true -> start <= last < 4294967296 -> 0 <= start ->
  Z.odd start = Z.odd last -> last - start < 2 * Z.of_nat fuel ->
  exists r, while_nat (fun n => if isProbablePrime n then Brk n else Next (u32 (n + 2)))
      fuel start = Brk r /\
    start <= r <= last /\ Z.odd r = Z.odd last /\ isProbablePrime r = true /\
    (forall x, start <= x < r -> Z.odd x = Z.odd last -> isProbablePrime x = false).
Proof.
  intros Hlast. revert start. induction fuel as [| fuel IH]; intros start Hs H0 Hodd Hf; [lia |].
  cbn [while_nat]. destruct (isProbablePrime start) eqn:Hp.
  { exists start. repeat split; try done || lia. }
  assert (start + 2 <= last) as Hle.
  { destruct (decide (start = last)) as [-> | Hne]; [congruence |].
    destruct (decide (start + 1 = last)) as [Heq | Hne2]; [| lia].
    rewrite <- Heq, Z.add_1_r, Z.odd_succ, <- Z.negb_odd in Hodd. by destruct (Z.odd start). }
  rewrite u32_small by (unfold is_u32; lia).
  destruct (IH (start + 2)) as (r & Hr & Hb & Ho & Hpr & Hmin); try lia.
  { rewrite Z.odd_add. cbn. by rewrite xorb_false_r. }
  exists r. repeat split; try done || lia.
  intros x Hx Hxo. destruct (decide (x = start)) as [-> | Hne]; [done |].
  apply Hmin; [| done]. destruct (decide (x = start + 1)) as [-> |]; [| lia].
  rewrite Z.add_1_r, Z.odd_succ, <- Z.negb_odd, Hodd in Hxo. by destruct (Z.odd last).
Qed.

Lemma next_probable_prime_spec start :
  5 <= start <= INT_MAX -> Z.odd start = true ->
  exists r, next_probable_prime start = Val r /\ start <= r <= INT_MAX /\ Z.odd r = true /\
    isProbablePrime r = true /\
    (forall x, start <= x < r -> Z.odd x = true -> isProbablePrime x = false).
Proof.
  intros Hs Ho. unfold next_probable_prime. rewrite while_pos_nat.
  destruct (probable_prime_search INT_MAX (Pos.to_nat 2147483648) start) as (r & -> & Hr);
    [reflexivity | unfold INT_MAX in *; lia | lia | by rewrite Ho | rewrite positive_nat_Z; unfold INT_MAX; lia |].
  exists r. by split.
Qed.

(** Trial division: no divisor up to [b], for numbers below the square of [b + 1]. *)
Lemma prime_by_trial n b :
  2 <= n < (b + 1) * (b + 1) -> 0 <= b ->
  (forall d, 2 <= d <= b -> d * d <= n -> n mod d <> 0) -> prime n.
Proof.
  intros Hn Hb Hd. apply prime_alt. split; [lia |]. intros x Hx Hdiv.
  apply Z.mod_divide in Hdiv as Hm; [| lia].
  destruct (Z.le_gt_cases (x * x) n) as [Hle | Hgt].
  - apply (Hd x); [nia | done | done].
  - destruct Hdiv as [y Hy]. assert (1 < y) by nia. assert (y < x) by nia.
    assert (y <= b) by nia. apply (Hd y); [lia | nia |].
    apply Z.mod_divide; [lia |]. exists x. lia.
Qed.

Lemma small_probable_primes n :
  3 <= n < 2809 -> Z.odd n = true -> isProbablePrime n = true ->
  forall d, 2 <= d <= 52 -> d * d <= n -> n mod d <> 0.
Proof.
  intros Hn Ho Hp d Hd Hdd Hm.
  pose proof (forallb_below (fun n => negb (Z.odd n) || negb (3 <=? n) || negb (isProbablePrime n) ||
    forallb (fun d => negb (2 <=? d) || negb (d * d <=? n) || negb (n mod d =? 0)) (seqZ 0 53)) 2809
    ltac:(vm_compute; reflexivity) n ltac:(lia)) as Hc. cbn beta in Hc.
  rewrite Ho, Hp, (proj2 (Z.leb_le 3 n)) in Hc by lia. cbn in Hc.
  pose proof (forallb_below _ _ Hc d ltac:(lia)) as Hc2. cbn beta in Hc2.
  rewrite Hm, (proj2 (Z.leb_le 2 d)), (proj2 (Z.leb_le _ n)) in Hc2 by lia. done.
Qed.

Lemma probe_divisible n l :
  probe n l = false -> exists i, i ∈ l /\ n <> i /\ n mod i = 0.
Proof.
  induction l as [| i l IH]; cbn; [done |].
  destruct (Z.eqb_spec n i); [done |]. destruct (Z.eqb_spec (n mod i) 0).
  - intros _. exists i. split; [left | done].
  - intros (j & Hj & Hr)%IH. exists j. split; [by right | done].
Qed.

Lemma probe_no_divisor n l i : n ∉ l -> probe n l = true -> i ∈ l -> n mod i <> 0.
Proof.
  intros Hn. induction l as [| j l IH]; cbn; intros Hp Hi; [by apply elem_of_nil in Hi |].
  apply not_elem_of_cons in Hn as [Hne Hn].
  rewrite (proj2 (Z.eqb_neq _ _) Hne) in Hp.
  destruct (Z.eqb_spec (n mod j) 0) as [| Hm]; [done |].
  apply elem_of_cons in Hi as [-> | Hi]; auto.
Qed.

(** A prime above 2 is never rejected. *)
Lemma prime_is_probable n : 2 < n -> prime n -> isProbablePrime n = true.
Proof.
  intros Hn Hp. destruct (isProbablePrime n) eqn:He; [done |].
  apply probe_divisible in He as (i & Hi & Hne & Hm).
  apply list_elem_of_In, in_map_iff in Hi as (k & <- & Hk%list_elem_of_In).
  apply elem_of_seqZ in Hk. apply prime_alt in Hp as [_ Hp].
  exfalso. apply (Hp (3 + 2 * k)).
  - apply Z.mod_divide in Hm; [| lia]. apply Z.divide_pos_le in Hm; lia.
  - apply Z.mod_divide; lia.
Qed.

(** ** Specification

    [rd m p] is the key the pointer [p] stands for in memory [m]; [okp m p] says
    [p] points to a well-formed key.  [KeyLaws] is what the table needs of the
    functions its client installs. *)
Class KeyLaws {M K : Type} (rd : M -> ptr -> K) (okp : M -> ptr -> Prop)
    (cmp : M -> ptr -> ptr -> Z) (hash : M -> ptr -> Z) : Prop := {
  key_cmp : forall m p q, okp m p -> okp m q -> cmp m p q = 0 <-> rd m p = rd m q;
  key_hash : forall m m' p q, okp m p -> okp m' q -> rd m p = rd m' q -> hash m p = hash m' q
}.

Section Spec.
Context {M V K : Type} `{EqDecision V} `{Countable K}.
Context (rd : M -> ptr -> K) (okp : M -> ptr -> Prop).
#[local] Abbreviation pair_t := (KeyValuePair V).
#[local] Abbreviation table := (HashTable M V).

Definition all_pairs (ht : table) : list pair_t := concat (bucketArray ht).

Definition pair_key (m : M) (p : pair_t) : K := rd m (kv_key p).

Definition bindings (m : M) (l : list pair_t) : list (K * V) :=
  List.map (fun p => (pair_key m p, kv_value p)) l.

(** Every pair is in the chain its hash selects. *)
Definition well_bucketed (m : M) (hash : M -> ptr -> Z) (n : Z) (bs : list (list pair_t)) : Prop :=
  forall i l p, bs !! i = Some l -> p ∈ l -> hash m (kv_key p) mod n = Z.of_nat i.

(** The configuration the program uses: the default ratio, no deallocators. *)
Definition ht_default (ht : table) : Prop :=
  idealRatio ht = f32_three /\ keyDeallocator ht = None /\ valueDeallocator ht = None.

Record ht_inv (m : M) (ht : table) : Prop := {
  hi_laws : KeyLaws rd okp (keycmp ht) (hashFunction ht);
  hi_default : ht_default ht;
  hi_n : 0 < numOfBuckets ht <= INT_MAX;
  hi_len : Z.of_nat (length (bucketArray ht)) = numOfBuckets ht;
  hi_count : numOfElements ht = Z.of_nat (length (all_pairs ht));
  hi_small : is_u32 (numOfElements ht);
  hi_bucketed : well_bucketed m (hashFunction ht) (numOfBuckets ht) (bucketArray ht);
  hi_okp : Forall (fun p => okp m (kv_key p)) (all_pairs ht);
  hi_nodup : NoDup (List.map (pair_key m) (all_pairs ht))
}.

(** The dictionary a table implements. *)
Definition dict (m : M) (l : list pair_t) : gmap K V := list_to_map (bindings m l).
Definition ht_abs (m : M) (ht : table) : gmap K V := dict m (all_pairs ht).

(** *** Lists of chains *)

Lemma concat_insert (bs : list (list pair_t)) i l l' :
  bs !! i = Some l -> concat (<[i := l']> bs) ++ l ≡ₚ l' ++ concat bs.
Proof.
  revert i. induction bs as [| b bs IH]; intros [| i] Hi; try done; cbn in *.
  - injection Hi as ->. rewrite (Permutation_app_comm l (concat bs)). by rewrite app_assoc.
  - rewrite <- app_assoc, IH by done. rewrite !app_assoc. f_equiv. apply Permutation_app_comm.
Qed.

Lemma concat_replace (bs : list (list pair_t)) i a p b p' :
  bs !! i = Some (a ++ p :: b) ->
  concat bs ≡ₚ p :: concat (<[i := a ++ b]> bs) /\
  concat (<[i := a ++ p' :: b]> bs) ≡ₚ p' :: concat (<[i := a ++ b]> bs).
Proof.
  intros Hi.
  assert (concat bs ≡ₚ p :: concat (<[i := a ++ b]> bs)) as H1.
  { apply (Permutation_app_inv_l (a ++ b)). rewrite <- concat_insert by done.
    rewrite <- Permutation_middle. rewrite Permutation_app_comm.
    by rewrite <- Permutation_middle. }
  split; [exact H1 |].
  apply (Permutation_app_inv_r (a ++ p :: b)). rewrite concat_insert by done.
  rewrite H1. set (C := concat _).
  rewrite <- (Permutation_middle a b p'), <- (Permutation_middle a b p).
  cbn. apply perm_skip. rewrite <- !Permutation_middle. apply perm_skip, Permutation_app_comm.
Qed.

Lemma concat_cons (bs : list (list pair_t)) i l p :
  bs !! i = Some l -> concat (<[i := p :: l]> bs) ≡ₚ p :: concat bs.
Proof.
  intros Hi. apply (Permutation_app_inv_r l). rewrite concat_insert by done.
  cbn. by rewrite Permutation_app_comm.
Qed.

Lemma elem_of_chain (bs : list (list pair_t)) p :
  p ∈ concat bs <-> exists i l, bs !! i = Some l /\ p ∈ l.
Proof.
  rewrite !list_elem_of_In, in_concat. split.
  - intros (l & Hl & Hp). apply list_elem_of_In, list_elem_of_lookup in Hl as [i Hi].
    exists i, l. by rewrite list_elem_of_In.
  - intros (i & l & Hi & Hp). exists l. rewrite <- !list_elem_of_In.
    split; [by eapply list_elem_of_lookup_2 | done].
Qed.

(** *** The dictionary of a list of pairs *)

Lemma bindings_keys m l : (bindings m l).*1 = List.map (pair_key m) l.
Proof. induction l as [| p l IH]; [done |]. exact (f_equal (cons (pair_key m p)) IH). Qed.

Lemma bindings_perm m l l' :
  NoDup (List.map (pair_key m) l) -> l ≡ₚ l' ->
  dict m l = dict m l'.
Proof.
  intros Hnd Hp. apply list_to_map_proper; [by rewrite bindings_keys |].
  by apply Permutation_map.
Qed.

Lemma bindings_lookup m l p :
  NoDup (List.map (pair_key m) l) -> p ∈ l ->
  dict m l !! pair_key m p = Some (kv_value p).
Proof.
  intros Hnd Hp. apply elem_of_list_to_map; [by rewrite bindings_keys |].
  apply list_elem_of_In, in_map_iff. exists p. by rewrite <- list_elem_of_In.
Qed.

Lemma bindings_None m l k :
  (forall p, p ∈ l -> pair_key m p <> k) ->
  dict m l !! k = None.
Proof.
  intros Hk. apply not_elem_of_list_to_map. rewrite bindings_keys.
  intros (p & Hp & Hin)%list_elem_of_In%in_map_iff. apply (Hk p); [by rewrite list_elem_of_In | done].
Qed.

(** *** The chain walk *)

Lemma find_pair_spec m ht key l `{Hl : !KeyLaws rd okp (keycmp ht) (hashFunction ht)} :
  okp m key -> Forall (fun p => okp m (kv_key p)) l ->
  match find_pair m ht key l with
  | None => forall p, p ∈ l -> pair_key m p <> rd m key
  | Some (a, p, b) => l = a ++ p :: b /\ pair_key m p = rd m key
  end.
Proof.
  intros Hk Hf. induction l as [| p l IH]; cbn; [intros p Hp; by apply elem_of_nil in Hp |].
  apply Forall_cons in Hf as [Hp Hf]. specialize (IH Hf).
  pose proof (key_cmp (rd := rd) (okp := okp) m key (kv_key p) Hk Hp) as Hc.
  destruct (Z.eqb_spec (keycmp ht m key (kv_key p)) 0) as [He | He].
  - split; [done |]. symmetry. by apply Hc.
  - destruct (find_pair m ht key l) as [[[a q] b] |].
    + destruct IH as [-> IH]. done.
    + intros q [-> | Hq]%elem_of_cons; [| by apply IH].
      unfold pair_key. intros Heq. apply He, Hc. done.
Qed.

Lemma bucket_index_range m ht key : ht_inv m ht ->
  0 <= bucket_index m ht key < Z.of_nat (length (bucketArray ht)).
Proof.
  intros Hi. rewrite (hi_len _ _ Hi). apply Z.mod_pos_bound. by destruct (hi_n _ _ Hi).
Qed.

Lemma chain_of m ht key :
  ht_inv m ht -> okp m key ->
  exists l, bucketArray ht !! Z.to_nat (bucket_index m ht key) = Some l /\
    aget (bucketArray ht) (bucket_index m ht key) = Val l /\
    match find_pair m ht key l with
    | None => forall p, p ∈ all_pairs ht -> pair_key m p <> rd m key
    | Some (a, p, b) => l = a ++ p :: b /\ pair_key m p = rd m key
    end.
Proof.
  intros Hi Hk. pose proof (bucket_index_range m ht key Hi) as Hr.
  destruct (aget_lt _ _ Hr) as [l Hl]. exists l.
  pose proof Hl as [_ Hlk]%aget_Val. split; [done |]. split; [done |].
  pose proof (hi_laws _ _ Hi) as Hlaws. pose proof (hi_okp _ _ Hi) as Hok.
  rewrite Forall_forall in Hok.
  assert (Forall (fun p => okp m (kv_key p)) l) as Hfl.
  { apply Forall_forall. intros p Hp. apply Hok, elem_of_chain. eauto. }
  pose proof (find_pair_spec m ht key l Hk Hfl) as Hf.
  destruct (find_pair m ht key l) as [[[a q] b] |]; [done |].
  intros p Hp Heq. pose proof Hp as (j & l' & Hj & Hpl)%elem_of_chain.
  pose proof (hi_bucketed _ _ Hi j l' p Hj Hpl) as Hh.
  rewrite (key_hash (rd := rd) (okp := okp) m m (kv_key p) key) in Hh by auto.
  assert (j = Z.to_nat (bucket_index m ht key)) as -> by (unfold bucket_index; lia).
  rewrite Hlk in Hj. injection Hj as ->. by apply (Hf p).
Qed.

Lemma get_lookup m ht key :
  ht_inv m ht -> okp m key -> HashTableGet m ht key = Val (ht_abs m ht !! rd m key).
Proof.
  intros Hi Hk. destruct (chain_of m ht key Hi Hk) as (l & Hl & Hg & Hf).
  unfold HashTableGet, ht_abs. rewrite Hg, bind_Val. f_equal.
  destruct (find_pair m ht key l) as [[[a p] b] |]; [| by rewrite bindings_None].
  destruct Hf as [-> Hf]. rewrite <- Hf. symmetry. apply bindings_lookup; [apply Hi |].
  apply elem_of_chain. exists (Z.to_nat (bucket_index m ht key)), (a ++ p :: b).
  split; [done |]. rewrite elem_of_app, elem_of_cons. auto.
Qed.

(** *** Traversals *)

Lemma for_each_chains {A S} (body : A -> S -> res S) (bs pre : list (list A)) s :
  for_each (fun i s => b ← aget (pre ++ bs) i; for_each body b s)
    (seqZ (Z.of_nat (length pre)) (Z.of_nat (length bs))) s = for_each body (concat bs) s.
Proof.
  revert pre s. induction bs as [| b bs IH]; intros pre s; [done |].
  cbn [length concat]. rewrite seqZ_cons by lia. cbn [for_each].
  rewrite (proj2 (aget_Val _ _ b)).
  2: { split; [lia |]. rewrite Nat2Z.id, lookup_app_r, Nat.sub_diag by lia. done. }
  rewrite bind_Val, for_each_app. destruct (for_each body b s) as [s1 | |]; [| done ..].
  cbn. specialize (IH (pre ++ [b]) s1). rewrite <- app_assoc, length_app in IH. cbn in IH.
  rewrite <- IH. do 2 f_equal; lia.
Qed.

Lemma for_pairs_all {S} (body : pair_t -> S -> res S) ht s :
  numOfBuckets ht <= INT_MAX -> Z.of_nat (length (bucketArray ht)) = numOfBuckets ht ->
  for_pairs body ht s = for_each body (all_pairs ht) s.
Proof.
  intros Hn Hl. unfold for_pairs, int_indices. rewrite (proj2 (Z.leb_le _ _)) by done.
  rewrite bind_Val, <- Hl. apply (for_each_chains body (bucketArray ht) []).
Qed.

Lemma null_buckets_ok n : 0 <= n <= INT_MAX ->
  exists bs : list (list pair_t), null_buckets n = Val bs /\ Z.of_nat (length bs) = n /\ concat bs = [] /\
    forall i l, bs !! i = Some l -> l = [].
Proof.
  intros Hn. unfold null_buckets, int_indices. rewrite (proj2 (Z.leb_le _ _)) by lia.
  rewrite bind_Val. eexists. split; [done |].
  rewrite length_map, length_seqZ. split; [lia |]. split.
  - induction (seqZ 0 n); done.
  - intros i l Hi. apply list_elem_of_lookup_2, list_elem_of_In, in_map_iff in Hi as (x & -> & _). done.
Qed.

(** *** Rehashing *)

Lemma rehash_pairs m ht n :
  0 < n <= INT_MAX -> numOfBuckets ht <= INT_MAX ->
  Z.of_nat (length (bucketArray ht)) = numOfBuckets ht ->
  exists new bs, null_buckets n = Val bs /\ for_pairs (rehash_pair m ht n) ht bs = Val new /\
    Z.of_nat (length new) = n /\ concat new ≡ₚ all_pairs ht /\
    well_bucketed m (hashFunction ht) n new.
Proof.
  intros Hn Hm Hlen. destruct (null_buckets_ok n ltac:(lia)) as (bs & Hbs & Hl & Hc & Hnil).
  destruct (for_each_inv
    (fun dn new => Z.of_nat (length new) = n /\ concat new ≡ₚ dn /\
    well_bucketed m (hashFunction ht) n new)
    (rehash_pair m ht n) (all_pairs ht) bs) as (new & Hnew & H1 & H2 & H3).
  - split; [done |]. split; [by rewrite Hc |].
    intros i l p Hi Hp. rewrite (Hnil i l Hi) in Hp. by apply elem_of_nil in Hp.
  - intros dn p rest s _ (H1 & H2 & H3). unfold rehash_pair.
    set (h := hashFunction ht m (kv_key p) mod n).
    assert (0 <= h < Z.of_nat (length s)) as Hh by (rewrite H1; apply Z.mod_pos_bound; lia).
    destruct (aget_lt s h Hh) as [l Hg]. rewrite Hg, bind_Val, aset_lt by done.
    apply aget_Val in Hg as [_ Hg]. eexists. split; [done |].
    split; [by rewrite length_insert |]. split.
    { rewrite concat_cons, H2 by done. apply Permutation_cons_append. }
    intros i l' q Hi Hq. apply list_lookup_insert_Some in Hi as [(<- & <- & _) | [_ Hi]].
    + apply elem_of_cons in Hq as [-> | Hq]; [fold h; lia | by eapply H3].
    + by eapply H3.
  - exists new, bs. rewrite for_pairs_all by done. done.
Qed.

Lemma lor_1 k : 0 <= k -> Z.odd (Z.lor k 1) = true /\ k <= Z.lor k 1 <= k + 1.
Proof.
  intros Hk. rewrite <- Z.bit0_odd, Z.lor_spec, (Z.bit0_odd k), orb_true_r. split; [done |].
  destruct (Z.odd k) eqn:Ho.
  - replace (Z.lor k 1) with k; [lia |]. apply Z.bits_inj'. intros n Hn.
    rewrite Z.lor_spec. destruct (decide (n = 0)) as [-> |]; [by rewrite Z.bit0_odd, Ho |].
    rewrite (Z.bits_above_log2 1) by (cbn; lia). by rewrite orb_false_r.
  - rewrite <- Z.lxor_lor, <- Z.add_nocarry_lxor; [lia | |];
      (apply Z.bits_inj'; intros n Hn; rewrite Z.land_spec, Z.bits_0;
       destruct (decide (n = 0)) as [-> |]; [by rewrite Z.bit0_odd, Ho |];
       rewrite (Z.bits_above_log2 1) by (cbn; lia); apply andb_false_r).
Qed.

Lemma ideal_buckets (ht : table) :
  idealRatio ht = f32_three -> is_u32 (numOfElements ht) ->
  exists r, calculateIdealNumOfBuckets ht = Val r /\ 5 <= r <= INT_MAX /\ Z.odd r = true /\
    isProbablePrime r = true.
Proof.
  intros Hr Hn. unfold calculateIdealNumOfBuckets. rewrite Hr.
  destruct (f32_div_three_to_u32 (numOfElements ht) Hn) as (k & -> & Hk).
  rewrite bind_Val. destruct (lor_1 k ltac:(lia)) as [Ho Hl].
  destruct (next_probable_prime_spec (if k <? 5 then 5 else Z.lor k 1)) as (r & He & Hb & Hrest).
  - destruct (Z.ltb_spec k 5); unfold INT_MAX; lia.
  - by destruct (k <? 5).
  - exists r. destruct Hrest as (H1 & H2 & _). destruct (Z.ltb_spec k 5); repeat split; done || lia.
Qed.

(** *** Preservation *)

Lemma inv_update m ht n e bs :
  ht_inv m ht -> 0 < n <= INT_MAX -> Z.of_nat (length bs) = n ->
  e = Z.of_nat (length (concat bs)) -> is_u32 e ->
  well_bucketed m (hashFunction ht) n bs ->
  Forall (fun p => okp m (kv_key p)) (concat bs) ->
  NoDup (List.map (pair_key m) (concat bs)) ->
  ht_inv m (set_buckets n e bs ht).
Proof. intros [] ????. by constructor. Qed.

Lemma well_bucketed_insert m hash n (bs : list (list pair_t)) i l l' :
  well_bucketed m hash n bs -> bs !! i = Some l ->
  (forall p, p ∈ l' -> p ∈ l \/ hash m (kv_key p) mod n = Z.of_nat i) ->
  well_bucketed m hash n (<[i := l']> bs).
Proof.
  intros Hw Hi Hl j l1 p Hj Hp. apply list_lookup_insert_Some in Hj as [(<- & <- & _) | [_ Hj]].
  - destruct (Hl p Hp) as [Hin | He]; [by eapply Hw | done].
  - by eapply Hw.
Qed.

(** Keys and well-formedness of a permuted list of pairs. *)
Lemma perm_keys m l l' : l ≡ₚ l' ->
  NoDup (List.map (pair_key m) l) <-> NoDup (List.map (pair_key m) l').
Proof. intros Hp. by rewrite (Permutation_map (pair_key m) Hp). Qed.

Lemma rehash_ok ok m ht n :
  ht_inv m ht -> n = 0 \/ 0 < n <= INT_MAX ->
  exists ht', HashTableRehash ok m ht n = Val ht' /\ ht_inv m ht' /\ ht_abs m ht' = ht_abs m ht /\
    numOfElements ht' = numOfElements ht /\ all_pairs ht' ≡ₚ all_pairs ht.
Proof.
  intros Hi Hn. unfold HashTableRehash.
  assert (exists n', (if n =? 0 then calculateIdealNumOfBuckets ht else Val n) = Val n' /\
    0 < n' <= INT_MAX) as (n' & -> & Hn').
  { destruct (Z.eqb_spec n 0) as [-> | H0]; [| exists n; split; [done | lia]].
    destruct (ideal_buckets ht) as (r & Hr & Hb & _); [apply Hi | apply Hi |].
    exists r. split; [done | lia]. }
  rewrite bind_Val.
  destruct (n' =? numOfBuckets ht); [exists ht; done |].
  destruct ok; [cbn [negb] | exists ht; done].
  destruct (rehash_pairs m ht n') as (new & bs & -> & Hf & H1 & H2 & H3); [done | apply Hi | apply Hi |].
  rewrite bind_Val, Hf, bind_Val. eexists. split; [done |].
  pose proof (hi_okp _ _ Hi) as Hok. pose proof (hi_nodup _ _ Hi) as Hnd.
  split; [| split; [| by split]].
  - apply inv_update; try done.
    + by rewrite H2, (hi_count _ _ Hi).
    + apply Hi.
    + by rewrite H2.
    + by rewrite (perm_keys m _ _ H2).
  - unfold ht_abs. apply bindings_perm; [| done]. by rewrite (perm_keys m _ _ H2).
Qed.

(** Splitting the pairs of a table at the one the walk found. *)
Lemma found_split m ht key a p b :
  ht_inv m ht -> bucketArray ht !! Z.to_nat (bucket_index m ht key) = Some (a ++ p :: b) ->
  let rest := concat (<[Z.to_nat (bucket_index m ht key) := a ++ b]> (bucketArray ht)) in
  all_pairs ht ≡ₚ p :: rest /\ dict m rest !! pair_key m p = None /\
  NoDup (List.map (pair_key m) rest) /\ Forall (fun p => okp m (kv_key p)) rest /\
  ht_abs m ht = <[pair_key m p := kv_value p]> (dict m rest).
Proof.
  intros Hi Hl rest.
  destruct (concat_replace _ _ a p b p Hl) as [Hp _]. fold rest (all_pairs ht) in Hp.
  pose proof (hi_nodup _ _ Hi) as Hnd. rewrite (perm_keys m _ _ Hp) in Hnd.
  pose proof (hi_okp _ _ Hi) as Hok. rewrite Hp in Hok.
  cbn in Hnd. apply NoDup_cons in Hnd as [Hni Hnd]. apply Forall_cons in Hok as [_ Hok].
  repeat split; try done.
  - apply bindings_None. intros q Hq He. apply Hni. rewrite <- He.
    apply list_elem_of_In, in_map. by apply list_elem_of_In.
  - unfold ht_abs. rewrite (bindings_perm m _ (p :: rest)); [done | apply Hi | done].
Qed.

Lemma put_ok ok ok_rehash m ht key v :
  ht_inv m ht -> okp m key -> key <> NULL -> numOfElements ht < 4294967295 ->
  ok = true \/ is_Some (ht_abs m ht !! rd m key) ->
  exists ht', HashTablePut ok ok_rehash m ht key (Some v) = Val (0, ht', m) /\
    ht_inv m ht' /\ ht_abs m ht' = <[rd m key := v]> (ht_abs m ht) /\
    (forall q, q ∈ all_pairs ht' -> kv_key q = key \/ exists q0, q0 ∈ all_pairs ht /\ kv_key q0 = kv_key q).
Proof.
  intros Hi Hk Hn Hs Hmal. destruct (chain_of m ht key Hi Hk) as (l & Hl & Hg & Hf).
  pose proof (bucket_index_range m ht key Hi) as Hrange.
  unfold HashTablePut. rewrite (proj2 (Z.eqb_neq _ _) Hn). cbn [negb c_assert].
  rewrite Hg, bind_Val. destruct (find_pair m ht key l) as [[[a p] b] |].
  - destruct Hf as [-> Hf]. rewrite aset_lt, bind_Val by done.
    destruct (hi_default _ _ Hi) as (Hr & Hkd & Hvd).
    unfold call_keyDeallocator, call_valueDeallocator. rewrite Hkd, Hvd.
    eexists. split; [by destruct (negb _), (negb _) |].
    destruct (found_split m ht key a p b Hi Hl) as (Hp & Hno & Hnd & Hok & Habs).
    destruct (concat_replace _ _ a p b (mk_KeyValuePair key v) Hl) as [_ Hp'].
    fold (all_pairs ht) in Hp'. set (rest := concat (<[_ := a ++ b]> _)) in *.
    assert (NoDup (List.map (pair_key m) (mk_KeyValuePair key v :: rest))) as Hnd'.
    { pose proof (hi_nodup _ _ Hi) as H1. rewrite (perm_keys m _ _ Hp) in H1. cbn in *.
      unfold pair_key at 1. cbn. by rewrite <- Hf. }
    split.
    + apply inv_update; try apply Hi.
      * rewrite length_insert. apply Hi.
      * rewrite Hp'. rewrite (hi_count _ _ Hi), Hp. done.
      * eapply well_bucketed_insert; [apply Hi | exact Hl |].
        intros q [Hq | [-> | Hq]%elem_of_cons]%elem_of_app; [left; set_solver | right | left; set_solver].
        cbn. fold (bucket_index m ht key). lia.
      * rewrite Hp'. by constructor.
      * by rewrite (perm_keys m _ _ Hp').
    + unfold ht_abs at 1. rewrite (bindings_perm m _ (mk_KeyValuePair key v :: rest));
        [| by rewrite (perm_keys m _ _ Hp') | done].
      rewrite Habs, Hf, insert_insert_eq. split; [done |].
      intros q Hq. change (all_pairs _) with (concat (<[Z.to_nat (bucket_index m ht key) :=
        a ++ mk_KeyValuePair key v :: b]> (bucketArray ht))) in Hq.
      rewrite Hp' in Hq. apply elem_of_cons in Hq as [-> | Hq]; [by left | right].
      exists q. rewrite Hp. split; [by right | done].
  - destruct Hmal as [-> | [v' Hv']].
    2: { unfold ht_abs in Hv'. by rewrite bindings_None in Hv'. }
    cbn [negb]. rewrite aset_lt, bind_Val by done.
    set (bs := <[_ := _]> _). set (ht1 := set_buckets _ _ bs ht).
    assert (concat bs ≡ₚ mk_KeyValuePair key v :: all_pairs ht) as Hp by (by apply concat_cons).
    pose proof (hi_small _ _ Hi) as Hsm. pose proof (hi_count _ _ Hi) as Hcnt.
    assert (NoDup (List.map (pair_key m) (mk_KeyValuePair key v :: all_pairs ht))) as Hnd.
    { cbn. apply NoDup_cons. split; [| apply Hi].
      intros (q & Hq & Hin)%list_elem_of_In%in_map_iff. apply (Hf q); [by apply list_elem_of_In | done]. }
    assert (ht_inv m ht1) as Hi1.
    { apply inv_update; try apply Hi.
      - unfold bs. rewrite length_insert. apply Hi.
      - rewrite Hp, u32_small by clia. cbn. lia.
      - apply u32_range.
      - eapply well_bucketed_insert; [apply Hi | exact Hl |].
        intros q [-> | Hq]%elem_of_cons; [right | by left]. cbn. fold (bucket_index m ht key). lia.
      - rewrite Hp. constructor; [done | apply Hi].
      - by rewrite (perm_keys m _ _ Hp). }
    assert (ht_abs m ht1 = <[rd m key := v]> (ht_abs m ht)) as Ha.
    { unfold ht_abs at 1. rewrite (bindings_perm m _ (mk_KeyValuePair key v :: all_pairs ht));
        [done | exact (proj2 (perm_keys m _ _ Hp) Hnd) | done]. }
    assert (forall q, q ∈ all_pairs ht1 -> kv_key q = key \/
      exists q0, q0 ∈ all_pairs ht /\ kv_key q0 = kv_key q) as Hkeys.
    { intros q Hq. change (all_pairs ht1) with (concat bs) in Hq. rewrite Hp in Hq.
      apply elem_of_cons in Hq as [-> | Hq]; [by left | right; by exists q]. }
    destruct (_ && _); [| by exists ht1].
    destruct (rehash_ok ok_rehash m ht1 0 Hi1 ltac:(lia)) as (ht2 & -> & Hi2 & Ha2 & _ & Hp2).
    exists ht2. rewrite Ha2. split; [done |]. split; [done |]. split; [done |].
    intros q Hq. rewrite Hp2 in Hq. by apply Hkeys.
Qed.

Lemma remove_ok ok_rehash m ht key :
  ht_inv m ht -> okp m key ->
  exists ht', HashTableRemove ok_rehash m ht key = Val (ht', m) /\
    ht_inv m ht' /\ ht_abs m ht' = delete (rd m key) (ht_abs m ht).
Proof.
  intros Hi Hk. destruct (chain_of m ht key Hi Hk) as (l & Hl & Hg & Hf).
  pose proof (bucket_index_range m ht key Hi) as Hrange.
  unfold HashTableRemove. rewrite Hg, bind_Val.
  destruct (find_pair m ht key l) as [[[a p] b] |].
  2: { exists ht. split; [done |]. split; [done |]. rewrite delete_id; [done |].
       by apply bindings_None. }
  destruct Hf as [-> Hf]. rewrite aset_lt, bind_Val by done.
  destruct (hi_default _ _ Hi) as (Hr & Hkd & Hvd).
  unfold call_keyDeallocator, call_valueDeallocator. rewrite Hkd, Hvd.
  destruct (found_split m ht key a p b Hi Hl) as (Hp & Hno & Hnd & Hok & Habs).
  set (bs := <[_ := _]> _) in *. set (ht1 := set_buckets _ _ bs ht).
  pose proof (hi_small _ _ Hi) as Hsm. pose proof (hi_count _ _ Hi) as Hcnt.
  rewrite Hp in Hcnt. cbn in Hcnt.
  assert (ht_inv m ht1) as Hi1.
  { apply inv_update; try apply Hi; try done.
    - unfold bs. rewrite length_insert. apply Hi.
    - rewrite u32_small by clia. lia.
    - apply u32_range.
    - eapply well_bucketed_insert; [apply Hi | exact Hl |].
      intros q [Hq | Hq]%elem_of_app; left; set_solver. }
  assert (ht_abs m ht1 = delete (rd m key) (ht_abs m ht)) as Ha.
  { rewrite Habs, Hf, delete_insert_id; [done | by rewrite <- Hf]. }
  destruct (_ && _); [| by exists ht1].
  destruct (rehash_ok ok_rehash m ht1 0 Hi1 ltac:(lia)) as (ht2 & -> & Hi2 & Ha2 & _).
  exists ht2. rewrite Ha2. done.
Qed.

Lemma removeall_ok ok_rehash m ht :
  ht_inv m ht ->
  exists ht', HashTableRemoveAll ok_rehash m ht = Val (ht', m) /\
    ht_inv m ht' /\ ht_abs m ht' = ∅ /\ numOfElements ht' = 0.
Proof.
  intros Hi. unfold HashTableRemoveAll.
  destruct (hi_default _ _ Hi) as (Hr & Hkd & Hvd).
  assert (for_pairs (dealloc_pair ht) ht m = Val m) as ->.
  { rewrite for_pairs_all by apply Hi. induction (all_pairs ht) as [| p l IH]; [done |].
    cbn. unfold call_keyDeallocator, call_valueDeallocator. by rewrite Hkd, Hvd. }
  rewrite bind_Val. pose proof (hi_n _ _ Hi) as Hn.
  destruct (null_buckets_ok (numOfBuckets ht)) as (bs & -> & Hl & Hc & Hnil); [lia |].
  rewrite bind_Val. set (ht1 := set_buckets _ _ bs ht).
  assert (ht_inv m ht1) as Hi1.
  { apply inv_update; try done.
    - by rewrite Hc.
    - intros i l p Hil Hpl. rewrite (Hnil i l Hil) in Hpl. by apply elem_of_nil in Hpl.
    - by rewrite Hc.
    - rewrite Hc. constructor. }
  destruct (rehash_ok ok_rehash m ht1 5 Hi1 ltac:(unfold INT_MAX; lia)) as (ht2 & -> & Hi2 & Ha2 & He & _).
  exists ht2. rewrite bind_Val, Ha2, He. split; [done |]. split; [done |]. split; [| done].
  unfold ht_abs. change (all_pairs ht1) with (concat bs). by rewrite Hc.
Qed.

(** The operations keep the table's functions. *)
Lemma rehash_fns ok (m : M) (ht : table) n (t : table) :
  HashTableRehash ok m ht n = Val t -> keycmp t = keycmp ht /\ hashFunction t = hashFunction ht.
Proof.
  unfold HashTableRehash. intros Hr. apply bind_Val_inv in Hr as (k & _ & Hr).
  destruct (k =? numOfBuckets ht); [by injection Hr as <- |].
  destruct (negb ok); [by injection Hr as <- |]. res_inv. done.
Qed.

Lemma put_fns ok ok_rehash (m : M) (ht : table) key v r (t : table) m' :
  HashTablePut ok ok_rehash m ht key v = Val (r, t, m') ->
  keycmp t = keycmp ht /\ hashFunction t = hashFunction ht.
Proof.
  unfold HashTablePut. intros Hp. apply c_assert_inv in Hp as [_ Hp]. destruct v as [v |]; [| done].
  apply bind_Val_inv in Hp as (l & _ & Hp). destruct (find_pair m ht key l) as [[[a p] b] |].
  - apply bind_Val_inv in Hp as (bs & _ & Hp). by injection Hp as _ <- _.
  - destruct (negb ok); [by injection Hp as _ <- _ |]. apply bind_Val_inv in Hp as (bs & _ & Hp).
    destruct (_ && _); [| by injection Hp as _ <- _].
    apply bind_Val_inv in Hp as (t2 & Hr & Hp). injection Hp as _ <- _. by apply rehash_fns in Hr.
Qed.

Lemma size_ok m ht : ht_inv m ht -> HashTableSize ht = Z.of_nat (size (ht_abs m ht)).
Proof.
  intros Hi. unfold HashTableSize. rewrite (hi_count _ _ Hi). unfold ht_abs, dict.
  rewrite map_size_list_to_map by (rewrite bindings_keys; apply Hi).
  unfold bindings. by rewrite length_map.
Qed.

Lemma bucket_has_value_spec m (ht : table) v l :
  bucket_has_value m ht v l = true <-> exists p, p ∈ l /\ valuecmp ht m v (kv_value p) = 0.
Proof.
  induction l as [| q l IH]; cbn.
  - split; [done |]. intros (p & Hp & _). by apply elem_of_nil in Hp.
  - destruct (Z.eqb_spec (valuecmp ht m v (kv_value q)) 0) as [He | He].
    + split; [| done]. intros _. exists q. split; [left | done].
    + rewrite IH. split; intros (p & Hp & Hv); exists p; (split; [| done]); [by right |].
      apply elem_of_cons in Hp as [-> | Hp]; [done | done].
Qed.

Lemma contains_value_scan m (ht : table) v bs pre :
  exists b, for_ctl (fun i (_ : unit) => bucket ← aget (pre ++ bs) i;
      Val (if bucket_has_value m ht v bucket then Brk true else Next tt))
      (seqZ (Z.of_nat (length pre)) (Z.of_nat (length bs))) tt =
    Val (if bucket_has_value m ht v (concat bs) then Brk true else b) /\
    (bucket_has_value m ht v (concat bs) = false -> b = Next tt).
Proof.
  revert pre. induction bs as [| b bs IH]; intros pre; [exists (Next tt); done |].
  cbn [length concat]. rewrite seqZ_cons by lia. cbn [for_ctl].
  rewrite (proj2 (aget_Val _ _ b)).
  2: { split; [lia |]. rewrite Nat2Z.id, lookup_app_r, Nat.sub_diag by lia. done. }
  rewrite !bind_Val.
  assert (bucket_has_value m ht v (b ++ concat bs) =
    bucket_has_value m ht v b || bucket_has_value m ht v (concat bs)) as ->.
  { induction b as [| q b IHb]; [done |]. cbn. by destruct (_ =? 0). }
  destruct (bucket_has_value m ht v b); cbn [orb]; [exists (Next tt); done |].
  destruct (IH (pre ++ [b])) as (c & Hc & Hn). exists c. split; [| done].
  rewrite <- app_assoc, length_app in Hc. cbn in Hc. rewrite <- Hc. do 2 f_equal; lia.
Qed.

Lemma contains_value_ok m ht v :
  ht_inv m ht ->
  exists b, HashTableContainsValue m ht v = Val b /\
    (b = true <-> exists k v', ht_abs m ht !! k = Some v' /\ valuecmp ht m v v' = 0).
Proof.
  intros Hi. unfold HashTableContainsValue, int_indices.
  rewrite (proj2 (Z.leb_le _ _)) by apply Hi. rewrite bind_Val, <- (hi_len _ _ Hi).
  destruct (contains_value_scan m ht v (bucketArray ht) []) as (c & Hc & Hn).
  change ([] ++ bucketArray ht) with (bucketArray ht) in Hc. change (Z.of_nat (length [])) with 0 in Hc.
  rewrite Hc, bind_Val. fold (all_pairs ht) in *.
  exists (bucket_has_value m ht v (all_pairs ht)). split.
  { destruct (bucket_has_value m ht v (all_pairs ht)); [done |]. by rewrite Hn. }
  rewrite bucket_has_value_spec. split.
  - intros (p & Hp & Hv). exists (pair_key m p), (kv_value p). split; [| done].
    apply bindings_lookup; [apply Hi | done].
  - intros (k & v' & Hk & Hv). apply elem_of_list_to_map_2, list_elem_of_In, in_map_iff in Hk
      as (p & He & Hp). injection He as <- <-. exists p. by rewrite list_elem_of_In.
Qed.

Lemma create_ok n :
  0 < n <= INT_MAX ->
  exists ht : table, HashTableCreate true true n = Val (Some ht) /\ numOfBuckets ht = n /\
    numOfElements ht = 0 /\ ht_default ht /\ all_pairs ht = [] /\
    Z.of_nat (length (bucketArray ht)) = n /\
    (forall i l, bucketArray ht !! i = Some l -> l = []) /\ upperRehashThreshold ht = f32_fifteen.
Proof.
  intros Hn. unfold HashTableCreate. rewrite (proj2 (Z.ltb_lt _ _)) by lia. cbn [c_assert negb].
  destruct (null_buckets_ok n ltac:(lia)) as (bs & -> & Hl & Hc & Hnil).
  rewrite bind_Val. eexists. split; [done |]. repeat split; done.
Qed.

(** An empty table is a table for any key functions. *)
Lemma empty_inv m ht :
  KeyLaws rd okp (keycmp ht) (hashFunction ht) -> ht_default ht ->
  0 < numOfBuckets ht <= INT_MAX -> Z.of_nat (length (bucketArray ht)) = numOfBuckets ht ->
  numOfElements ht = 0 -> all_pairs ht = [] ->
  (forall i l, bucketArray ht !! i = Some l -> l = []) ->
  ht_inv m ht /\ ht_abs m ht = ∅.
Proof.
  intros Hl Hd Hn Hlen He Ha Hnil. split; [| unfold ht_abs; by rewrite Ha].
  constructor; try done.
  - by rewrite He, Ha.
  - by rewrite He.
  - intros i l p Hil Hp. rewrite (Hnil i l Hil) in Hp. by apply elem_of_nil in Hp.
  - by rewrite Ha.
  - rewrite Ha. constructor.
Qed.

(** An empty dictionary is an empty table. *)
Lemma abs_empty m ht : ht_inv m ht -> ht_abs m ht = ∅ -> all_pairs ht = [] /\ numOfElements ht = 0.
Proof.
  intros Hi Ha. pose proof (size_ok m ht Hi) as Hs. rewrite Ha, map_size_empty in Hs.
  unfold HashTableSize in Hs. pose proof (hi_count _ _ Hi) as Hc.
  split; [| done]. destruct (all_pairs ht); [done | cbn in Hc; lia].
Qed.

(** The table only depends on what its key pointers read. *)
Lemma abs_frame m m' ht :
  ht_inv m ht ->
  (forall p, p ∈ all_pairs ht -> okp m' (kv_key p) /\ rd m' (kv_key p) = rd m (kv_key p)) ->
  ht_inv m' ht /\ ht_abs m' ht = ht_abs m ht.
Proof.
  intros Hi Hf.
  assert (List.map (pair_key m') (all_pairs ht) = List.map (pair_key m) (all_pairs ht)) as Hk.
  { apply map_ext_in. intros p Hp%list_elem_of_In. by apply Hf. }
  split.
  - destruct Hi as [Hl ? ? ? ? ? Hb Hok Hnd]. constructor; try done.
    + intros i l p Hil Hp. assert (p ∈ all_pairs ht) as Hin by (apply elem_of_chain; eauto).
      destruct (Hf p Hin) as [H1 H2]. rewrite Forall_forall in Hok. specialize (Hok p Hin).
      rewrite (key_hash (rd := rd) (okp := okp) m' m (kv_key p) (kv_key p)) by done. by eapply Hb.
    + apply Forall_forall. intros p Hp. by apply Hf.
    + by rewrite Hk.
  - unfold ht_abs, dict. f_equal. apply map_ext_in. intros p Hp%list_elem_of_In.
    f_equal. by apply Hf.
Qed.

(** ** Properties *)

(** C35: the observers read the dictionary the table implements:
    [HashTableGet] is lookup, [HashTableContainsKey] membership,
    [HashTableSize] and [HashTableIsEmpty] its size, and
    [HashTableContainsValue] finds a value equal under the comparison installed. *)
Theorem hashtable_observers m ht key v (Hi : ht_inv m ht) (Hk : okp m key) :
  HashTableGet m ht key = Val (ht_abs m ht !! rd m key) /\
  HashTableContainsKey m ht key = Val (bool_decide (is_Some (ht_abs m ht !! rd m key))) /\
  HashTableSize ht = Z.of_nat (size (ht_abs m ht)) /\
  (HashTableIsEmpty ht = true <-> ht_abs m ht = ∅) /\
  exists b, HashTableContainsValue m ht v = Val b /\
    (b = true <-> exists k v', ht_abs m ht !! k = Some v' /\ valuecmp ht m v v' = 0).
Proof.
  pose proof (get_lookup m ht key Hi Hk) as Hg. pose proof (size_ok m ht Hi) as Hs.
  repeat split; [done | by unfold HashTableContainsKey; rewrite Hg | done | | |
    by apply contains_value_ok]; unfold HashTableSize, HashTableIsEmpty in *.
  - rewrite Hs, Z.eqb_eq. intros. by apply map_size_empty_iff; lia.
  - intros He. rewrite Hs, He. done.
Qed.

(** C11: [HashTablePut] with a non-NULL key and value is insertion in the
    dictionary, automatic rehash included (whether or not its allocation
    succeeds); only when the pair of a {e new} key cannot be allocated it returns
    -1 and leaves the table as it was. *)
Theorem hashtable_put_refines ok ok_rehash m ht key v
    (Hi : ht_inv m ht) (Hk : okp m key) (Hn : key <> NULL) (Hs : numOfElements ht < 4294967295) :
  if negb ok && bool_decide (ht_abs m ht !! rd m key = None)
  then HashTablePut ok ok_rehash m ht key (Some v) = Val (-1, ht, m)
  else exists ht', HashTablePut ok ok_rehash m ht key (Some v) = Val (0, ht', m) /\
    ht_inv m ht' /\ ht_abs m ht' = <[rd m key := v]> (ht_abs m ht).
Proof.
  destruct (negb ok && _) eqn:Hb.
  - apply andb_true_iff in Hb as [->%negb_true_iff Hb%bool_decide_eq_true].
    destruct (chain_of m ht key Hi Hk) as (l & Hl & Hg & Hf).
    unfold HashTablePut. rewrite (proj2 (Z.eqb_neq _ _) Hn). cbn [negb c_assert].
    rewrite Hg, bind_Val. destruct (find_pair m ht key l) as [[[a p] b] |]; [| done].
    destruct Hf as [-> Hf]. destruct (found_split m ht key a p b Hi Hl) as (_ & _ & _ & _ & Habs).
    rewrite Habs, <- Hf, lookup_insert_eq in Hb. done.
  - destruct (put_ok ok ok_rehash m ht key v) as (ht' & H1 & H2 & H3 & _); try done.
    { apply andb_false_iff in Hb as [Hb%negb_false_iff | Hb]; [by left | right].
      apply bool_decide_eq_false in Hb. by destruct (ht_abs m ht !! rd m key). }
    by exists ht'.
Qed.

(** C12: [HashTableRemove] deletes the key from the dictionary and changes
    nothing when it is absent. *)
Theorem hashtable_remove_refines ok_rehash m ht key (Hi : ht_inv m ht) (Hk : okp m key) :
  exists ht', HashTableRemove ok_rehash m ht key = Val (ht', m) /\
    ht_inv m ht' /\ ht_abs m ht' = delete (rd m key) (ht_abs m ht) /\
    (ht_abs m ht !! rd m key = None -> ht' = ht).
Proof.
  destruct (remove_ok ok_rehash m ht key Hi Hk) as (ht' & Hr & Hi' & Ha).
  exists ht'. split; [done |]. split; [done |]. split; [done |]. intros Hno.
  destruct (chain_of m ht key Hi Hk) as (l & Hl & Hg & Hf).
  unfold HashTableRemove in Hr. rewrite Hg, bind_Val in Hr.
  destruct (find_pair m ht key l) as [[[a q] b] |]; [| by injection Hr].
  destruct Hf as [-> Hf]. destruct (found_split m ht key a q b Hi Hl) as (_ & _ & _ & _ & Habs).
  by rewrite Habs, <- Hf, lookup_insert_eq in Hno.
Qed.

(** C13: rehashing (to a given or to the ideal bucket count, allocation
    succeeding or not) keeps the dictionary, and [HashTableRemoveAll] empties it. *)
Theorem hashtable_rehash_refines ok m ht n (Hi : ht_inv m ht) (Hn : n = 0 \/ 0 < n <= INT_MAX) :
  (exists ht', HashTableRehash ok m ht n = Val ht' /\ ht_inv m ht' /\ ht_abs m ht' = ht_abs m ht /\
    (ok = true -> 0 < n -> numOfBuckets ht' = n)) /\
  (exists ht', HashTableRemoveAll ok m ht = Val (ht', m) /\ ht_inv m ht' /\ ht_abs m ht' = ∅).
Proof.
  split.
  - destruct (rehash_ok ok m ht n Hi Hn) as (ht' & Hr & Hi' & Ha & _).
    exists ht'. split; [done |]. split; [done |]. split; [done |]. intros -> H0. unfold HashTableRehash in Hr.
    rewrite (proj2 (Z.eqb_neq n 0)), bind_Val in Hr by lia.
    destruct (Z.eqb_spec n (numOfBuckets ht)) as [-> |]; [by injection Hr as -> |].
    cbn [negb] in Hr. apply bind_Val_inv in Hr as (bs & _ & Hr).
    apply bind_Val_inv in Hr as (new & _ & Hr). by injection Hr as <-.
  - destruct (removeall_ok ok m ht Hi) as (ht' & Hr & Hi' & Ha & _). by exists ht'.
Qed.

(** With the default ratio the ideal bucket count is found for every
    element count: the [while] loop ends, the result is odd, fits an [int], has
    no odd divisor from 3 to 49 when it is above 49, and below 2809 it is a prime. *)
Theorem ideal_buckets_prime (ht : table)
    (Hr : idealRatio ht = f32_three) (Hn : is_u32 (numOfElements ht)) :
  exists r, calculateIdealNumOfBuckets ht = Val r /\ 5 <= r <= INT_MAX /\ Z.odd r = true /\
    (49 < r -> forall i, i ∈ probe_divisors -> r mod i <> 0) /\ (r < 2809 -> prime r).
Proof.
  destruct (ideal_buckets ht Hr Hn) as (r & He & Hb & Ho & Hpr).
  exists r. split; [done |]. split; [done |]. split; [done |]. split.
  - intros H49 i Hi. apply (probe_no_divisor r probe_divisors); try done.
    intros (k & Hk & Hin%list_elem_of_In%elem_of_seqZ)%list_elem_of_In%in_map_iff. lia.
  - intros Hlt. apply (prime_by_trial r 52); [lia | lia |].
    by apply small_probable_primes; [lia | |].
Qed.
End Spec.

(** ** Witnesses: a table whose keys are numbers read through pointers *)
Module HtTest.

Definition rd (m : ptr -> Z) (p : ptr) : Z := m p.
Definition okp (m : ptr -> Z) (p : ptr) : Prop := True.
Definition cmp (m : ptr -> Z) (p q : ptr) : Z := pointercmp (m p) (m q).
Definition hash (m : ptr -> Z) (p : ptr) : Z := u32 (m p).

#[export] Instance test_laws : KeyLaws rd okp cmp hash.
Proof.
  split; unfold rd, cmp, hash, pointercmp.
  - intros m p q _ _. by case_bool_decide.
  - intros m m' p q _ _ He. by rewrite He.
Qed.

Definition mem0 (p : ptr) : Z := if p =? 100 then 7 else if p =? 200 then 12 else p.

(** Two buckets, the keys 7 and 12 stored through the pointers 100 and 200. *)
Definition tbl : HashTable (ptr -> Z) Z :=
  mk_HashTable 2 2 [[mk_KeyValuePair 200 22]; [mk_KeyValuePair 100 11]]
    f32_three f32_zero f32_fifteen cmp (fun _ => pointercmp) hash None None.

Lemma tbl_inv : ht_inv rd okp mem0 tbl.
Proof.
  constructor.
  - apply test_laws.
  - split; [reflexivity |]. by split.
  - cbn. unfold INT_MAX. lia.
  - reflexivity.
  - reflexivity.
  - cbn. unfold is_u32. lia.
  - intros [| [| i]] l p Hi Hp; [| | done]; injection Hi as <-; set_unfold in Hp;
      destruct Hp as [-> | []]; reflexivity.
  - repeat constructor.
  - apply (bool_decide_unpack _). vm_compute. exact I.
Qed.

Lemma hashtable_observers_witness :
  HashTableGet mem0 tbl 100 = Val (Some 11) /\ HashTableGet mem0 tbl 5 = Val None.
Proof.
  pose proof (hashtable_observers rd okp mem0 tbl 100 11 tbl_inv I) as (H1 & _).
  pose proof (hashtable_observers rd okp mem0 tbl 5 11 tbl_inv I) as (H2 & _).
  split; [rewrite H1 | rewrite H2]; vm_compute; reflexivity.
Defined.

Lemma hashtable_put_refines_witness :
  exists ht', HashTablePut true false mem0 tbl 9 (Some 33) = Val (0, ht', mem0) /\
    HashTableGet mem0 ht' 9 = Val (Some 33).
Proof.
  destruct (hashtable_put_refines rd okp true false mem0 tbl 9 33 tbl_inv I) as (ht' & H1 & H2 & H3);
    [discriminate | reflexivity |].
  exists ht'. split; [exact H1 |].
  rewrite (get_lookup rd okp) by done. rewrite H3. by rewrite lookup_insert_eq.
Defined.

Lemma hashtable_remove_refines_witness :
  exists ht', HashTableRemove false mem0 tbl 100 = Val (ht', mem0) /\
    HashTableGet mem0 ht' 100 = Val None.
Proof.
  destruct (hashtable_remove_refines rd okp false mem0 tbl 100 tbl_inv I) as (ht' & H1 & H2 & H3 & _).
  exists ht'. split; [exact H1 |].
  rewrite (get_lookup rd okp) by (try exact H2; exact I). rewrite H3. by rewrite lookup_delete_eq.
Defined.

Lemma hashtable_rehash_refines_witness :
  exists ht', HashTableRehash true mem0 tbl 3 = Val ht' /\ numOfBuckets ht' = 3 /\
    HashTableGet mem0 ht' 100 = Val (Some 11).
Proof.
  destruct (hashtable_rehash_refines rd okp true mem0 tbl 3 tbl_inv) as [(ht' & H1 & H2 & H3 & H4) _].
  { right. vm_compute. intuition discriminate. }
  exists ht'. split; [exact H1 |]. split; [by apply H4 |].
  rewrite (get_lookup rd okp) by done. rewrite H3. vm_compute. reflexivity.
Defined.

Lemma ideal_buckets_prime_witness :
  calculateIdealNumOfBuckets tbl = Val 5 /\ prime 5.
Proof.
  destruct (ideal_buckets_prime tbl eq_refl) as (r & H1 & _ & _ & _ & H2).
  { vm_compute. intuition discriminate. }
  vm_compute in H1. injection H1 as <-. split; [vm_compute; reflexivity | by apply H2].
Defined.

End HtTest.
