(* ===== verification/Packet.v ===== *)
(** Packet headers: [net/pktinfo.c], [net/parse.c] and the header structs of
    net/ether.h, net/ip.h, net/tcp.h and net/udp.h.

    A packet buffer is the list of its bytes (what was captured and whatever the
    buffer holds after it); a header pointer is an offset into it, [None] is
    NULL; reading past the end of the list is [Undefined]. *)
From S2P Require Import Prelude Format IpUtils StreamKey.
#[local] Open Scope Z_scope.

(** ** Constants *)

Definition ETHERMTU : Z := 1500.
Definition ETHER_ADDR_LEN : Z := 6.
Definition ETHER_HDRLEN : Z := 14.
Definition ETHERTYPE_IP : Z := 0x0800.
Definition ETHERTYPE_VLAN : Z := 0x8100.
Definition ETHERTYPE_VLAN2 : Z := 0x88a8.
Definition TH_FIN : Z := 1.
Definition TH_RST : Z := 4.
Definition PARSE_ERR_OK : Z := 0.
Definition PARSE_ERR_INCOMPLETE : Z := -1.
Definition PARSE_ERR_UNSUPPORTED : Z := -2.
(** [sizeof(ip_hdr_t)] *)
Definition SIZEOF_IP_HDR : Z := 20.

(** ** Loads *)

Definition ntohs16 (buf : list Z) (off : Z) : res Z :=
  hi ← aget buf off; lo ← aget buf (off + 1); Val (256 * hi + lo).

(** A [uint32_t] in the byte order of the host. *)
Definition load_u32 (buf : list Z) (off : Z) : res Z :=
  b0 ← aget buf off; b1 ← aget buf (off + 1); b2 ← aget buf (off + 2); b3 ← aget buf (off + 3);
  Val (le_val [b0; b1; b2; b3]).

(** Members of the header structs, by their offsets. *)
Definition ether_type (buf : list Z) (ep : Z) : res Z := ntohs16 buf (ep + 12).
Definition ip_vhl (buf : list Z) (ip : Z) : res Z := aget buf ip.
Definition ip_len (buf : list Z) (ip : Z) : res Z := ntohs16 buf (ip + 2).
Definition ip_off (buf : list Z) (ip : Z) : res Z := ntohs16 buf (ip + 6).
Definition ip_p (buf : list Z) (ip : Z) : res Z := aget buf (ip + 9).
Definition ip_src (buf : list Z) (ip : Z) : res Z := load_u32 buf (ip + 12).
Definition ip_dst (buf : list Z) (ip : Z) : res Z := load_u32 buf (ip + 16).
Definition th_sport (buf : list Z) (tcp : Z) : res Z := ntohs16 buf tcp.
Definition th_dport (buf : list Z) (tcp : Z) : res Z := ntohs16 buf (tcp + 2).
Definition th_flags (buf : list Z) (tcp : Z) : res Z := aget buf (tcp + 13).
Definition uh_sport (buf : list Z) (udp : Z) : res Z := ntohs16 buf udp.
Definition uh_dport (buf : list Z) (udp : Z) : res Z := ntohs16 buf (udp + 2).

(** ** net/pktinfo.h, net/pktinfo.c *)

(** [pi_l4] is the union of [tcp] and [udp], [pi_ip] that of [ip4] and [ip6]. *)
Record pktinfo_t := mk_pktinfo_t {
  pi_ether : option Z;
  pi_ip : option Z;
  pi_l4 : option Z;
  payload_position : Z;
  payload_len : Z;
  isv6 : Z;
  istcp : Z;
  tcpflags : Z;
  isfin : Z
}.

Definition pkt_init : pktinfo_t := mk_pktinfo_t None None None 0 0 0 0 0 0.

Definition set_ether (e : Z) (p : pktinfo_t) : pktinfo_t :=
  mk_pktinfo_t (Some e) (pi_ip p) (pi_l4 p) (payload_position p) (payload_len p) (isv6 p)
    (istcp p) (tcpflags p) (isfin p).
Definition set_ip4 (i : Z) (p : pktinfo_t) : pktinfo_t :=
  mk_pktinfo_t (pi_ether p) (Some i) (pi_l4 p) (payload_position p) (payload_len p) (isv6 p)
    (istcp p) (tcpflags p) (isfin p).
Definition set_l4 (l : Z) (p : pktinfo_t) : pktinfo_t :=
  mk_pktinfo_t (pi_ether p) (pi_ip p) (Some l) (payload_position p) (payload_len p) (isv6 p)
    (istcp p) (tcpflags p) (isfin p).
Definition set_tcp_info (t f n : Z) (p : pktinfo_t) : pktinfo_t :=
  mk_pktinfo_t (pi_ether p) (pi_ip p) (pi_l4 p) (payload_position p) (payload_len p) (isv6 p) t f n.

Definition pkt_get_vlan (buf : list Z) (pkt : pktinfo_t) : res Z :=
  ep ← deref (pi_ether pkt);
  ethertype ← ether_type buf ep;
  if ethertype =? ETHERTYPE_VLAN then v ← ntohs16 buf (ep + 14); Val (i16 v)
  else if ethertype =? ETHERTYPE_VLAN2 then v ← ntohs16 buf (ep + 14 + 4); Val (i16 v)
  else Val (-1).

Definition pkt_get_vlan2 (buf : list Z) (pkt : pktinfo_t) : res Z :=
  ep ← deref (pi_ether pkt);
  ethertype ← ether_type buf ep;
  if ethertype =? ETHERTYPE_VLAN2 then v ← ntohs16 buf (ep + 14); Val (i16 v)
  else Val (-1).

Definition pkt_is_v6 (pkt : pktinfo_t) : Z := isv6 pkt.

Definition pkt_get_ports_v4 (buf : list Z) (pkt : pktinfo_t) (ipproto : Z) : res (Z * Z) :=
  if ipproto =? IPPROTO_TCP then
    tcp ← deref (pi_l4 pkt);
    sport ← th_sport buf tcp; dport ← th_dport buf tcp; Val (sport, dport)
  else
    udp ← deref (pi_l4 pkt);
    sport ← uh_sport buf udp; dport ← uh_dport buf udp; Val (sport, dport).

(** The flip flag and the key. *)
Definition pkt_init_key (buf : list Z) (pkt : pktinfo_t) : res (Z * stream_key_t) :=
  if negb (pkt_is_v6 pkt =? 0) then Val (0, zero_stream_key) else
  ip ← deref (pi_ip pkt);
  ipproto ← ip_p buf ip;
  '(sport, dport) ← pkt_get_ports_v4 buf pkt ipproto;
  src ← ip_src buf ip;
  dst ← ip_dst buf ip;
  Val (net_stream_init_v4 ipproto src dst sport dport).

Definition pkt_tcp_flags (pkt : pktinfo_t) : Z := tcpflags pkt.

Definition pkt_to_s (buf : list Z) (pkt : pktinfo_t) : res string :=
  if negb (pkt_is_v6 pkt =? 0) then Val "IPV6 STREAM HERE"%string else
  ip ← deref (pi_ip pkt);
  ipproto ← ip_p buf ip;
  '(sport, dport) ← pkt_get_ports_v4 buf pkt ipproto;
  src ← ip_src buf ip; srcip ← ip2string src;
  dst ← ip_dst buf ip; dstip ← ip2string dst;
  Val (get_proto_name ipproto +:+ "_" +:+ srcip +:+ "_" +:+ fmt_d sport +:+ "_" +:+
       dstip +:+ "_" +:+ fmt_d dport)%string.

(** Pointers to the six bytes of an address. *)
Definition pkt_src_mac (pkt : pktinfo_t) : res Z := ep ← deref (pi_ether pkt); Val (ep + 6).
Definition pkt_dst_mac (pkt : pktinfo_t) : res Z := deref (pi_ether pkt).

(** ** net/parse.c *)

(** The inner ethertype and the number of bytes the tags take. *)
Definition _ether_skip_vlan (buf : list Z) (ep : Z) : res (Z * Z) :=
  ethertype ← ether_type buf ep;
  if ethertype =? ETHERTYPE_VLAN2 then t ← ntohs16 buf (ep + 14 + 8 - 2); Val (t, 8)
  else if ethertype =? ETHERTYPE_VLAN then t ← ntohs16 buf (ep + 14 + 4 - 2); Val (t, 4)
  else Val (ethertype, 0).

Definition IP_HL (vhl : Z) : Z := Z.land vhl 0x0f.

Definition ip_get_hlen (buf : list Z) (ip : Z) : res Z := vhl ← ip_vhl buf ip; Val (IP_HL vhl * 4).

Definition _udp4_parse (buf : list Z) (pos : Z) (pkt : pktinfo_t) (remaining : Z)
    : res (Z * pktinfo_t) := Val (0, set_l4 pos pkt).

Definition _tcp4_parse (buf : list Z) (pos : Z) (pkt : pktinfo_t) (remaining : Z)
    : res (Z * pktinfo_t) :=
  flags ← th_flags buf pos;
  Val (0, set_tcp_info 1 flags (if Z.land flags (Z.lor TH_FIN TH_RST) =? 0 then 0 else 1)
            (set_l4 pos pkt)).

(** [remaining] is an [int]; against [sizeof] it is compared as a [size_t]. *)
Definition _ip_parse (buf : list Z) (pos : Z) (pkt : pktinfo_t) (remaining : Z)
    : res (Z * pktinfo_t) :=
  if u64 remaining <? SIZEOF_IP_HDR then Val (PARSE_ERR_INCOMPLETE, pkt) else
  let pkt := set_ip4 pos pkt in
  hlen ← ip_get_hlen buf pos;
  l ← ip_len buf pos;
  let len := i16 l in
  if (SIZEOF_IP_HDR <? u64 hlen) && (remaining <? hlen) then Val (PARSE_ERR_INCOMPLETE, pkt) else
  off ← ip_off buf pos;
  if Z.land off 0x1fff =? 0 then
    p ← ip_p buf pos;
    if p =? IPPROTO_TCP then _tcp4_parse buf (pos + hlen) pkt (Z.min remaining len - hlen)
    else if p =? IPPROTO_UDP then _udp4_parse buf (pos + hlen) pkt (Z.min remaining len - hlen)
    else Val (PARSE_ERR_UNSUPPORTED, pkt)
  else Val (PARSE_ERR_UNSUPPORTED, pkt).

(** [pktinfo] is the caller's struct before the call. *)
Definition net_parse (caplen : Z) (buf : list Z) (pktinfo : pktinfo_t) : res (Z * pktinfo_t) :=
  if caplen <? ETHER_HDRLEN then Val (PARSE_ERR_INCOMPLETE, pktinfo) else
  let pkt := set_ether 0 pkt_init in
  '(ether_type, offset) ← _ether_skip_vlan buf 0;
  if ether_type <=? ETHERMTU then Val (PARSE_ERR_UNSUPPORTED, pkt) else
  if ether_type =? ETHERTYPE_IP then
    _ip_parse buf (ETHER_HDRLEN + offset) pkt (i32 (u32 (caplen - ETHER_HDRLEN - offset)))
  else Val (PARSE_ERR_UNSUPPORTED, pkt).

(** ** Loads within the buffer *)

(** The byte at an offset, and the 16-bit number in network order. *)
Definition b8 (buf : list Z) (i : Z) : Z := default 0 (buf !! Z.to_nat i).
Definition b16 (buf : list Z) (i : Z) : Z := 256 * b8 buf i + b8 buf (i + 1).
Definition b32 (buf : list Z) (i : Z) : Z :=
  le_val [b8 buf i; b8 buf (i + 1); b8 buf (i + 2); b8 buf (i + 3)].

Lemma aget_b8 buf i : 0 <= i < Z.of_nat (length buf) -> aget buf i = Val (b8 buf i).
Proof.
  intros Hi. destruct (aget_lt buf i Hi) as [x Hx]. rewrite Hx. apply aget_Val in Hx as [_ Hx].
  unfold b8. by rewrite Hx.
Qed.

Lemma ntohs16_b16 buf i : 0 <= i -> i + 1 < Z.of_nat (length buf) -> ntohs16 buf i = Val (b16 buf i).
Proof. intros. unfold ntohs16. by rewrite !aget_b8 by lia. Qed.

Lemma load_u32_b32 buf i : 0 <= i -> i + 3 < Z.of_nat (length buf) -> load_u32 buf i = Val (b32 buf i).
Proof. intros. unfold load_u32. by rewrite !aget_b8 by lia. Qed.

Lemma b8_u8 buf i : Forall is_u8 buf -> is_u8 (b8 buf i).
Proof.
  intros Hb. unfold b8. destruct (buf !! Z.to_nat i) eqn:E; cbn; [| unfold is_u8; lia].
  by eapply Forall_lookup_1.
Qed.

Lemma b16_u16 buf i : Forall is_u8 buf -> is_u16 (b16 buf i).
Proof.
  intros Hb. pose proof (b8_u8 buf i Hb). pose proof (b8_u8 buf (i + 1) Hb).
  unfold b16, is_u8, is_u16 in *. lia.
Qed.

Lemma b32_u32 buf i : Forall is_u8 buf -> is_u32 (b32 buf i).
Proof.
  intros Hb. pose proof (b8_u8 buf i Hb). pose proof (b8_u8 buf (i + 1) Hb).
  pose proof (b8_u8 buf (i + 2) Hb). pose proof (b8_u8 buf (i + 3) Hb).
  unfold b32, is_u8, is_u32 in *. cbn. lia.
Qed.

Lemma IP_HL_range vhl : 0 <= IP_HL vhl <= 15.
Proof. apply land_bound. lia. Qed.

(** ** What the parser computes

    The length of the VLAN tags, the ethertype after them and the header length,
    read off the bytes; and the frames the parser accepts. *)
Definition tag_len (buf : list Z) : Z :=
  if b16 buf 12 =? ETHERTYPE_VLAN2 then 8 else if b16 buf 12 =? ETHERTYPE_VLAN then 4 else 0.
Definition inner_type (buf : list Z) : Z := b16 buf (12 + tag_len buf).
Definition ip_pos (buf : list Z) : Z := 14 + tag_len buf.
Definition header_len (buf : list Z) : Z := 4 * (b8 buf (ip_pos buf) mod 16).
Definition proto_of (buf : list Z) : Z := b8 buf (ip_pos buf + 9).
Definition first_fragment (buf : list Z) : Prop := b16 buf (ip_pos buf + 6) mod 8192 = 0.
Definition l4_pos (buf : list Z) : Z := ip_pos buf + header_len buf.

(** Enough for every header the parser reads: 14 + 8 bytes of ethernet header
    and tags, 60 of IP header, 14 of TCP header. *)
Definition HEADER_BYTES : Z := 96.

Record parsed (buf : list Z) (pkt : pktinfo_t) : Prop := {
  pd_ether : pi_ether pkt = Some 0;
  pd_ip : pi_ip pkt = Some (ip_pos buf);
  pd_l4 : pi_l4 pkt = Some (l4_pos buf);
  pd_v4 : isv6 pkt = 0;
  pd_tcp : istcp pkt = (if proto_of buf =? IPPROTO_TCP then 1 else 0);
  pd_flags : tcpflags pkt = (if proto_of buf =? IPPROTO_TCP then b8 buf (l4_pos buf + 13) else 0);
  pd_fin : isfin pkt = (if proto_of buf =? IPPROTO_TCP then
    if Z.land (b8 buf (l4_pos buf + 13)) 5 =? 0 then 0 else 1 else 0)
}.

(** [remaining] is what is left of the captured bytes at the IP header. *)
Definition accepts (caplen : Z) (buf : list Z) : Prop :=
  let remaining := caplen - ip_pos buf in
  14 <= caplen /\ inner_type buf = ETHERTYPE_IP /\
  (20 <= remaining \/ remaining < 0) /\
  (header_len buf <= 20 \/ header_len buf <= remaining) /\
  first_fragment buf /\ (proto_of buf = IPPROTO_TCP \/ proto_of buf = IPPROTO_UDP).

Lemma land_low x k : 0 <= k -> Z.land x (2 ^ k - 1) = x mod 2 ^ k.
Proof. intros Hk. rewrite <- Z.land_ones by done. by rewrite Z.ones_equiv, Z.sub_1_r. Qed.

Lemma tag_len_range buf : 0 <= tag_len buf <= 8.
Proof. unfold tag_len. repeat case_match; lia. Qed.

Lemma header_len_range buf : 0 <= header_len buf <= 60.
Proof. unfold header_len. pose proof (Z.mod_pos_bound (b8 buf (ip_pos buf)) 16). lia. Qed.

Lemma skip_vlan_eq buf :
  HEADER_BYTES <= Z.of_nat (length buf) ->
  _ether_skip_vlan buf 0 = Val (inner_type buf, tag_len buf).
Proof.
  intros Hl. unfold HEADER_BYTES in Hl. unfold _ether_skip_vlan, ether_type, inner_type, tag_len.
  rewrite (ntohs16_b16 buf (0 + 12)), bind_Val by lia. change (0 + 12) with 12.
  destruct (b16 buf 12 =? ETHERTYPE_VLAN2); [rewrite ntohs16_b16 by lia; reflexivity |].
  destruct (b16 buf 12 =? ETHERTYPE_VLAN); [rewrite ntohs16_b16 by lia; reflexivity | reflexivity].
Qed.

Lemma ip_parse_eq buf pkt remaining :
  HEADER_BYTES <= Z.of_nat (length buf) -> Forall is_u8 buf ->
  -2147483648 <= remaining < 2147483648 ->
  pi_ether pkt = Some 0 -> isv6 pkt = 0 -> istcp pkt = 0 -> tcpflags pkt = 0 -> isfin pkt = 0 ->
  exists st pkt', _ip_parse buf (ip_pos buf) pkt remaining = Val (st, pkt') /\
    (st = PARSE_ERR_OK \/ st = PARSE_ERR_INCOMPLETE \/ st = PARSE_ERR_UNSUPPORTED) /\
    (st = PARSE_ERR_OK <->
      (20 <= remaining \/ remaining < 0) /\
      (header_len buf <= 20 \/ header_len buf <= remaining) /\
      first_fragment buf /\ (proto_of buf = IPPROTO_TCP \/ proto_of buf = IPPROTO_UDP)) /\
    (st = PARSE_ERR_OK -> parsed buf pkt').
Proof.
  intros Hl Hb Hr He H6 Ht Hf Hfin. unfold HEADER_BYTES in Hl.
  pose proof (tag_len_range buf) as Htag. pose proof (header_len_range buf) as Hhl.
  assert ((u64 remaining <? SIZEOF_IP_HDR) = bool_decide (0 <= remaining < 20)) as Hu.
  { unfold SIZEOF_IP_HDR, u64. destruct (Z.ltb_spec (remaining mod 18446744073709551616) 20);
      case_bool_decide; done || (exfalso; Z.to_euclidean_division_equations; lia). }
  unfold _ip_parse. rewrite Hu. case_bool_decide as Hs.
  { do 2 eexists. split; [done |]. split; [auto |]. split; [| done].
    split; [done | intros [? _]; lia]. }
  unfold ip_get_hlen, ip_vhl, ip_len, ip_off, ip_p.
  rewrite (aget_b8 buf (ip_pos buf)), (ntohs16_b16 buf (ip_pos buf + 2)), !bind_Val
    by (unfold ip_pos in *; lia).
  assert (IP_HL (b8 buf (ip_pos buf)) * 4 = header_len buf) as ->.
  { unfold IP_HL, header_len. change 0x0f with (2 ^ 4 - 1). rewrite land_low by lia.
    change (2 ^ 4) with 16. lia. }
  assert ((SIZEOF_IP_HDR <? u64 (header_len buf)) && (remaining <? header_len buf) =
    negb (bool_decide (header_len buf <= 20 \/ header_len buf <= remaining))) as ->.
  { unfold SIZEOF_IP_HDR, u64. rewrite Z.mod_small by lia.
    case_bool_decide; destruct (Z.ltb_spec 20 (header_len buf)), (Z.ltb_spec remaining (header_len buf)); done || lia. }
  case_bool_decide as Hh; cbn [negb].
  2: { do 2 eexists. split; [done |]. split; [auto |]. split; [| done].
       split; [done | intros (_ & ? & _); done]. }
  rewrite (ntohs16_b16 buf (ip_pos buf + 6)), bind_Val by (unfold ip_pos in *; lia).
  change 0x1fff with (2 ^ 13 - 1). rewrite land_low by lia. change (2 ^ 13) with 8192.
  fold (first_fragment buf). destruct (Z.eqb_spec (b16 buf (ip_pos buf + 6) mod 8192) 0) as [Hff | Hff].
  2: { do 2 eexists. split; [done |]. split; [auto |]. split; [| done].
       split; [done | intros (_ & _ & ? & _); done]. }
  rewrite (aget_b8 buf (ip_pos buf + 9)), bind_Val by (unfold ip_pos in *; lia). fold (proto_of buf).
  destruct (Z.eqb_spec (proto_of buf) IPPROTO_TCP) as [Hp | Hp].
  { unfold _tcp4_parse, th_flags. rewrite aget_b8, bind_Val by (unfold ip_pos in *; lia).
    do 2 eexists. split; [done |]. split; [auto |]. split.
    { split; [intros _ | done]. repeat split; auto. lia. }
    intros _. split; cbn; rewrite ?Hp; try done. }
  destruct (Z.eqb_spec (proto_of buf) IPPROTO_UDP) as [Hp2 | Hp2].
  - do 2 eexists. split; [done |]. split; [auto |]. split.
    { split; [intros _ | done]. repeat split; auto. lia. }
    intros _. split; cbn; rewrite ?Hp2; done.
  - do 2 eexists. split; [done |]. split; [auto |]. split; [| done].
    split; [done | intros (_ & _ & _ & [? | ?]); done].
Qed.

Lemma net_parse_eq caplen buf pkt :
  HEADER_BYTES <= Z.of_nat (length buf) -> Forall is_u8 buf -> 0 <= caplen < 2147483648 ->
  exists st pkt', net_parse caplen buf pkt = Val (st, pkt') /\
    (st = PARSE_ERR_OK \/ st = PARSE_ERR_INCOMPLETE \/ st = PARSE_ERR_UNSUPPORTED) /\
    (st = PARSE_ERR_OK <-> accepts caplen buf) /\ (st = PARSE_ERR_OK -> parsed buf pkt').
Proof.
  intros Hl Hb Hc. unfold net_parse, accepts, ETHER_HDRLEN.
  destruct (Z.ltb_spec caplen 14) as [Hlt | Hge].
  { do 2 eexists. split; [done |]. split; [auto |]. split; [| done].
    split; [done | intros [? _]; lia]. }
  rewrite skip_vlan_eq, bind_Val by done. unfold ETHERMTU.
  destruct (Z.leb_spec (inner_type buf) 1500) as [Hmtu | Hmtu].
  { do 2 eexists. split; [done |]. split; [auto |]. split; [| done].
    unfold ETHERTYPE_IP in *. split; [done | intros (_ & ? & _); lia]. }
  destruct (Z.eqb_spec (inner_type buf) ETHERTYPE_IP) as [Hip | Hip].
  2: { do 2 eexists. split; [done |]. split; [auto |]. split; [| done].
       split; [done | intros (_ & ? & _); done]. }
  pose proof (tag_len_range buf) as Htag.
  assert (i32 (u32 (caplen - 14 - tag_len buf)) = caplen - ip_pos buf) as ->.
  { unfold ip_pos. clia. }
  destruct (ip_parse_eq buf (set_ether 0 pkt_init) (caplen - ip_pos buf)) as (st & pkt' & H1 & H2 & H3 & H4);
    try done; [unfold ip_pos; lia |].
  exists st, pkt'. split; [exact H1 |]. split; [done |]. split; [| done]. rewrite H3. tauto.
Qed.

(** ** Frames

    An encoder for the frames the parser is meant for: ethernet II with up to two
    VLAN tags, IPv4 with options, TCP or UDP. *)
Inductive vlan_tags : Type :=
| NoTag
| Tag (tci : Z)
| TwoTags (outer inner : Z).

Inductive l4_hdr : Type :=
| Tcp (sport dport : Z) (seq_ack : list Z) (offx2 flags : Z) (rest : list Z)
| Udp (sport dport : Z) (rest : list Z).

Record frame := mk_frame {
  f_dmac : Z * Z * Z * Z * Z * Z;
  f_smac : Z * Z * Z * Z * Z * Z;
  f_tags : vlan_tags;
  f_tos : Z; f_len : Z; f_id : Z; f_flags : Z; f_ttl : Z; f_sum : Z;
  f_src : Z; f_dst : Z;
  f_options : list Z;
  f_l4 : l4_hdr
}.

Definition be16 (x : Z) : list Z := [x / 256; x mod 256].
Definition mac_bytes (m : Z * Z * Z * Z * Z * Z) : list Z :=
  let '(a, b, c, d, e, f) := m in [a; b; c; d; e; f].

Definition tag_bytes (t : vlan_tags) : list Z :=
  match t with
  | NoTag => []
  | Tag tci => [0x81; 0x00] ++ be16 tci
  | TwoTags outer inner => [0x88; 0xa8] ++ be16 outer ++ [0x81; 0x00] ++ be16 inner
  end.

Definition l4_bytes (l : l4_hdr) : list Z :=
  match l with
  | Tcp sport dport seq_ack offx2 flags rest =>
      be16 sport ++ be16 dport ++ seq_ack ++ [offx2; flags] ++ rest
  | Udp sport dport rest => be16 sport ++ be16 dport ++ rest
  end.

Definition l4_proto (l : l4_hdr) : Z := match l with Tcp _ _ _ _ _ _ => IPPROTO_TCP | Udp _ _ _ => IPPROTO_UDP end.
Definition l4_ports (l : l4_hdr) : Z * Z :=
  match l with Tcp s d _ _ _ _ => (s, d) | Udp s d _ => (s, d) end.

(** The header length is in the low half of [ip_vhl], in units of four bytes;
    the fragment offset is zero, [f_flags] are the three bits above it. *)
Definition ip_bytes (f : frame) : list Z :=
  [64 + (5 + Z.of_nat (length (f_options f)) / 4); f_tos f] ++ be16 (f_len f) ++ be16 (f_id f) ++
  [32 * f_flags f; 0; f_ttl f; l4_proto (f_l4 f)] ++ be16 (f_sum f) ++
  le_bytes 4 (f_src f) ++ le_bytes 4 (f_dst f).

Definition encode_frame (f : frame) : list Z :=
  mac_bytes (f_dmac f) ++ mac_bytes (f_smac f) ++ tag_bytes (f_tags f) ++ [0x08; 0x00] ++
  ip_bytes f ++ f_options f ++ l4_bytes (f_l4 f).

Definition l4_wf (l : l4_hdr) : Prop :=
  is_u16 (fst (l4_ports l)) /\ is_u16 (snd (l4_ports l)) /\
  match l with
  | Tcp _ _ seq_ack _ flags rest => length seq_ack = 8%nat /\ is_u8 flags
  | Udp _ _ _ => True
  end.

Record frame_wf (f : frame) : Prop := {
  fw_src : is_u32 (f_src f);
  fw_dst : is_u32 (f_dst f);
  fw_flags : 0 <= f_flags f < 8;
  fw_options : exists k, (length (f_options f) = 4 * k /\ k <= 10)%nat;
  fw_l4 : l4_wf (f_l4 f);
  fw_bytes : Forall is_u8 (encode_frame f);
  fw_long : HEADER_BYTES <= Z.of_nat (length (encode_frame f)) < 2147483648
}.

(** The bytes of a frame's headers that were captured. *)
Definition frame_headers (f : frame) : Z :=
  14 + Z.of_nat (length (tag_bytes (f_tags f))) + 20 + Z.of_nat (length (f_options f)).

Definition vlan_of (t : vlan_tags) : Z :=
  match t with NoTag => -1 | Tag tci => i16 tci | TwoTags _ inner => i16 inner end.

Lemma b8_app_r a b i : 0 <= i -> b8 (a ++ b) (Z.of_nat (length a) + i) = b8 b i.
Proof.
  intros Hi. unfold b8. rewrite lookup_app_r by lia. f_equal. f_equal. lia.
Qed.

Lemma b16_app_r a b i : 0 <= i -> b16 (a ++ b) (Z.of_nat (length a) + i) = b16 b i.
Proof. intros Hi. unfold b16. rewrite <- Z.add_assoc, !b8_app_r by lia. done. Qed.

Lemma b32_app_r a b i : 0 <= i -> b32 (a ++ b) (Z.of_nat (length a) + i) = b32 b i.
Proof. intros Hi. unfold b32. rewrite <- !Z.add_assoc, !b8_app_r by lia. done. Qed.

(** A frame as the bytes before the IP header and those from it on. *)
Definition eth_part (f : frame) : list Z :=
  mac_bytes (f_dmac f) ++ mac_bytes (f_smac f) ++ tag_bytes (f_tags f) ++ [0x08; 0x00].
Definition ip_part (f : frame) : list Z := ip_bytes f ++ f_options f ++ l4_bytes (f_l4 f).

Lemma encode_parts f : encode_frame f = eth_part f ++ ip_part f.
Proof. unfold encode_frame, eth_part, ip_part. by rewrite <- !app_assoc. Qed.

Lemma frame_eth f (rest : list Z) :
  Forall is_u8 (encode_frame f) ->
  tag_len (eth_part f ++ rest) = Z.of_nat (length (tag_bytes (f_tags f))) /\
  inner_type (eth_part f ++ rest) = ETHERTYPE_IP /\
  ip_pos (eth_part f ++ rest) = Z.of_nat (length (eth_part f)).
Proof.
  intros _. unfold ip_pos.
  destruct f as [[[[[[? ?] ?] ?] ?] ?] [[[[[? ?] ?] ?] ?] ?] [| tci | o i] ? ? ? ? ? ? ? ? ? ?];
    repeat split.
Qed.

Lemma frame_ip f :
  frame_wf f ->
  b8 (ip_part f) 0 mod 16 = 5 + Z.of_nat (length (f_options f)) / 4 /\
  b16 (ip_part f) 6 mod 8192 = 0 /\ b8 (ip_part f) 9 = l4_proto (f_l4 f) /\
  b32 (ip_part f) 12 = f_src f /\ b32 (ip_part f) 16 = f_dst f /\
  header_len (encode_frame f) = 20 + Z.of_nat (length (f_options f)).
Proof.
  intros [Hs Hd Hf (k & Hk & Hk10) Hl Hb Hlong].
  assert (Z.of_nat (length (f_options f)) = 4 * Z.of_nat k) as Ho by lia.
  assert (b8 (ip_part f) 0 = 64 + (5 + Z.of_nat (length (f_options f)) / 4)) as H0 by done.
  assert (b8 (ip_part f) 0 mod 16 = 5 + Z.of_nat (length (f_options f)) / 4) as H1.
  { rewrite H0, Ho. Z.to_euclidean_division_equations; lia. }
  split; [done |]. split.
  { change (b16 (ip_part f) 6) with (256 * (32 * f_flags f) + 0). Z.to_euclidean_division_equations; lia. }
  split; [done |]. split.
  { change (b32 (ip_part f) 12) with (le_val (le_bytes 4 (f_src f))).
    rewrite le_val_bytes, Z.mod_small; [done | exact Hs]. }
  split.
  { change (b32 (ip_part f) 16) with (le_val (le_bytes 4 (f_dst f))).
    rewrite le_val_bytes, Z.mod_small; [done | exact Hd]. }
  unfold header_len. rewrite encode_parts.
  destruct (frame_eth f (ip_part f) Hb) as (_ & _ & ->).
  replace (Z.of_nat (length (eth_part f))) with (Z.of_nat (length (eth_part f)) + 0) by lia.
  rewrite b8_app_r, H1 by lia. rewrite Ho. Z.to_euclidean_division_equations; lia.
Qed.

Lemma be16_val x : is_u16 x -> 256 * (x / 256) + x mod 256 = x.
Proof. intros. clia. Qed.

Lemma frame_l4 f :
  frame_wf f ->
  let l4 := l4_pos (encode_frame f) in
  b16 (encode_frame f) l4 = fst (l4_ports (f_l4 f)) /\
  b16 (encode_frame f) (l4 + 2) = snd (l4_ports (f_l4 f)) /\
  (forall s d sa x fl r, f_l4 f = Tcp s d sa x fl r -> b8 (encode_frame f) (l4 + 13) = fl).
Proof.
  intros Hwf. destruct (frame_ip f Hwf) as (_ & _ & _ & _ & _ & Hh).
  destruct Hwf as [Hs Hd Hf Hopt (Hsp & Hdp & Hl) Hb Hlong].
  set (pre := eth_part f ++ ip_bytes f ++ f_options f).
  assert (encode_frame f = pre ++ l4_bytes (f_l4 f)) as He
    by (unfold pre; rewrite encode_parts; unfold ip_part; by rewrite <- !app_assoc).
  assert (l4_pos (encode_frame f) = Z.of_nat (length pre)) as Hp.
  { unfold l4_pos. rewrite Hh. rewrite encode_parts at 1.
    destruct (frame_eth f (ip_part f) Hb) as (_ & _ & ->). unfold pre.
    rewrite !length_app. change (length (ip_bytes f)) with 20%nat. lia. }
  cbv zeta. rewrite Hp, He.
  replace (Z.of_nat (length pre)) with (Z.of_nat (length pre) + 0) at 1 by lia.
  rewrite !b16_app_r by lia.
  destruct (f_l4 f) as [sp dp sa x fl r | sp dp r]; cbn [l4_ports fst snd] in *.
  - split; [exact (be16_val sp Hsp) |]. split; [exact (be16_val dp Hdp) |].
    intros s' d' sa' x' fl' r' Heq. injection Heq as <- <- <- <- <- <-. rewrite b8_app_r by lia.
    destruct Hl as [Hsa _].
    do 8 (destruct sa as [| ? sa]; [done |]). by destruct sa.
  - split; [exact (be16_val sp Hsp) |]. split; [exact (be16_val dp Hdp) | done].
Qed.

Lemma frame_accepted f caplen :
  frame_wf f -> frame_headers f <= caplen < 2147483648 -> accepts caplen (encode_frame f).
Proof.
  intros Hwf Hc. destruct (frame_ip f Hwf) as (_ & Hff & Hp & _ & _ & Hh).
  pose proof (fw_bytes _ Hwf) as Hb. destruct (frame_eth f (ip_part f) Hb) as (Ht & Hi & Hpos).
  rewrite <- encode_parts in *. unfold accepts, first_fragment, proto_of. rewrite Hh.
  unfold frame_headers in Hc.
  assert (ip_pos (encode_frame f) = 14 + Z.of_nat (length (tag_bytes (f_tags f)))) as Hip
    by (unfold ip_pos; by rewrite Ht).
  split; [lia |]. split; [done |]. split; [lia |]. split; [lia |].
  rewrite Hpos, encode_parts, b16_app_r, b8_app_r by lia. split; [done |].
  rewrite Hp. destruct (f_l4 f); auto.
Qed.

Lemma frame_tag f pkt :
  frame_wf f -> pi_ether pkt = Some 0 ->
  (forall tci, f_tags f = Tag tci -> is_u16 tci) ->
  (forall o i, f_tags f = TwoTags o i -> is_u16 o /\ is_u16 i) ->
  pkt_get_vlan (encode_frame f) pkt = Val (vlan_of (f_tags f)) /\
  pkt_get_vlan2 (encode_frame f) pkt =
    Val (match f_tags f with TwoTags o _ => i16 o | _ => -1 end).
Proof.
  intros Hwf He H1 H2. pose proof (fw_long _ Hwf) as Hl. unfold HEADER_BYTES in Hl.
  unfold pkt_get_vlan, pkt_get_vlan2, ether_type. rewrite He, encode_parts in *. cbn [deref].
  rewrite !bind_Val, (ntohs16_b16 _ (0 + 12)), !bind_Val by lia.
  rewrite (ntohs16_b16 _ (0 + 14)), (ntohs16_b16 _ (0 + 14 + 4)), !bind_Val by lia.
  destruct f as [[[[[[? ?] ?] ?] ?] ?] [[[[[? ?] ?] ?] ?] ?] tags ? ? ? ? ? ? ? ? ? ?].
  cbn [f_tags] in *. destruct tags as [| tci | o i].
  - split; reflexivity.
  - specialize (H1 tci eq_refl). unfold b16, b8, ETHERTYPE_VLAN, ETHERTYPE_VLAN2. cbn.
    split; [| done]. do 2 f_equal. by apply be16_val.
  - destruct (H2 o i eq_refl) as [Ho Hi]. unfold b16, b8, ETHERTYPE_VLAN, ETHERTYPE_VLAN2. cbn.
    split; do 2 f_equal; by apply be16_val.
Qed.

(** The key of a parsed packet. *)
Definition packet_key (buf : list Z) : Z * stream_key_t :=
  net_stream_init_v4 (proto_of buf) (b32 buf (ip_pos buf + 12)) (b32 buf (ip_pos buf + 16))
    (b16 buf (l4_pos buf)) (b16 buf (l4_pos buf + 2)).

Lemma parsed_key buf pkt :
  HEADER_BYTES <= Z.of_nat (length buf) -> parsed buf pkt ->
  pkt_init_key buf pkt = Val (packet_key buf).
Proof.
  intros Hl [He Hi H4 H6 Ht Hf Hfin]. unfold HEADER_BYTES in Hl.
  pose proof (tag_len_range buf) as Htag. pose proof (header_len_range buf) as Hhl.
  unfold pkt_init_key, pkt_is_v6, pkt_get_ports_v4, ip_p, ip_src, ip_dst, th_sport, th_dport,
    uh_sport, uh_dport. rewrite H6, Hi, H4. cbn [Z.eqb negb deref]. rewrite !bind_Val.
  unfold l4_pos, ip_pos in *.
  rewrite aget_b8, bind_Val by lia.
  destruct (_ =? IPPROTO_TCP); rewrite !ntohs16_b16, !bind_Val by lia;
    by rewrite !load_u32_b32, !bind_Val by lia.
Qed.

Lemma packet_key_wf buf :
  Forall is_u8 buf ->
  key_wf (snd (packet_key buf)) /\ (fst (packet_key buf) = 0 \/ fst (packet_key buf) = 1).
Proof.
  intros Hb. unfold packet_key.
  pose proof (b8_u8 buf (ip_pos buf + 9) Hb). pose proof (b16_u16 buf (l4_pos buf) Hb).
  pose proof (b16_u16 buf (l4_pos buf + 2) Hb).
  rewrite init_v4_eq by done. destruct (_ || _); (split; [by apply v4_key_wf | auto]).
Qed.

Lemma parsed_vlan buf pkt :
  HEADER_BYTES <= Z.of_nat (length buf) -> pi_ether pkt = Some 0 ->
  exists v, pkt_get_vlan buf pkt = Val v.
Proof.
  intros Hl He. unfold HEADER_BYTES in Hl. unfold pkt_get_vlan, ether_type. rewrite He. cbn [deref].
  rewrite bind_Val, (ntohs16_b16 buf (0 + 12)), bind_Val by lia.
  destruct (_ =? ETHERTYPE_VLAN).
  { rewrite (ntohs16_b16 buf (0 + 14)), bind_Val by lia. eauto. }
  destruct (_ =? ETHERTYPE_VLAN2); [| eauto].
  rewrite (ntohs16_b16 buf (0 + 14 + 4)), bind_Val by lia. eauto.
Qed.

(** ** Properties *)

(** C14: parsing inverts encoding: a well-formed frame whose headers were
    captured is accepted, and the key, its direction, the TCP flags, the VLAN
    numbers and the addresses' positions are those of the frame. *)
Theorem parse_encode_roundtrip f caplen pkt
    (Hwf : frame_wf f) (Hc : frame_headers f <= caplen < 2147483648)
    (H1 : forall tci, f_tags f = Tag tci -> is_u16 tci)
    (H2 : forall o i, f_tags f = TwoTags o i -> is_u16 o /\ is_u16 i) :
  let buf := encode_frame f in
  exists pkt', net_parse caplen buf pkt = Val (PARSE_ERR_OK, pkt') /\
    pkt_init_key buf pkt' = Val (net_stream_init_v4 (l4_proto (f_l4 f)) (f_src f) (f_dst f)
      (fst (l4_ports (f_l4 f))) (snd (l4_ports (f_l4 f)))) /\
    (forall s d sa x fl r, f_l4 f = Tcp s d sa x fl r -> istcp pkt' = 1 /\ pkt_tcp_flags pkt' = fl) /\
    (forall s d r, f_l4 f = Udp s d r -> istcp pkt' = 0) /\
    pkt_get_vlan buf pkt' = Val (vlan_of (f_tags f)) /\
    pkt_get_vlan2 buf pkt' = Val (match f_tags f with TwoTags o _ => i16 o | _ => -1 end) /\
    pkt_dst_mac pkt' = Val 0 /\ pkt_src_mac pkt' = Val 6.
Proof.
  cbv zeta. pose proof (frame_accepted f caplen Hwf Hc) as Ha.
  pose proof (fw_bytes _ Hwf) as Hb. pose proof (fw_long _ Hwf) as Hl.
  assert (0 <= caplen < 2147483648) as Hcap by (unfold frame_headers in Hc; lia).
  destruct (net_parse_eq caplen (encode_frame f) pkt (proj1 Hl) Hb Hcap) as (st & pkt' & He & _ & Hiff & Hp).
  apply Hiff in Ha as ->. specialize (Hp eq_refl).
  exists pkt'. split; [exact He |].
  destruct (frame_ip f Hwf) as (_ & _ & Hpr & Hs & Hd & _).
  destruct (frame_l4 f Hwf) as (Hsp & Hdp & Hfl).
  destruct (frame_eth f (ip_part f) Hb) as (_ & _ & Hpos). rewrite <- encode_parts in Hpos.
  assert (proto_of (encode_frame f) = l4_proto (f_l4 f)) as Hproto
    by (unfold proto_of; by rewrite Hpos, encode_parts, b8_app_r).
  split.
  { rewrite (parsed_key _ _ (proj1 Hl) Hp). unfold packet_key.
    rewrite Hsp, Hdp, Hproto, Hpos. rewrite encode_parts at 1 2. by rewrite !b32_app_r, Hs, Hd by lia. }
  destruct (frame_tag f pkt' Hwf (pd_ether _ _ Hp) H1 H2) as [Hv1 Hv2].
  unfold pkt_tcp_flags, pkt_dst_mac, pkt_src_mac.
  rewrite (pd_tcp _ _ Hp), (pd_flags _ _ Hp), Hproto, (pd_ether _ _ Hp).
  repeat split; try done; intros; destruct (f_l4 f); try discriminate; try done.
  cbn. by eapply Hfl.
Qed.


(** A tagged frame cut off inside its tag is accepted although no byte of
    its IP header was captured: the headers are then whatever the buffer holds
    from an earlier packet.  [remaining] is negative, and compared with [sizeof]
    as a [size_t] it is not too small. *)
Theorem net_parse_truncated_tag caplen buf pkt
    (Hl : HEADER_BYTES <= Z.of_nat (length buf)) (Hb : Forall is_u8 buf)
    (Hc : 14 <= caplen < 14 + tag_len buf) (Htype : inner_type buf = ETHERTYPE_IP)
    (Hh : header_len buf <= 20) (Hff : first_fragment buf)
    (Hp : proto_of buf = IPPROTO_TCP \/ proto_of buf = IPPROTO_UDP) :
  caplen < ip_pos buf /\
  exists pkt', net_parse caplen buf pkt = Val (PARSE_ERR_OK, pkt') /\
    pkt_init_key buf pkt' = Val (packet_key buf).
Proof.
  pose proof (tag_len_range buf). split; [unfold ip_pos; lia |].
  destruct (net_parse_eq caplen buf pkt Hl Hb ltac:(lia)) as (st & pkt' & He & _ & Hiff & Hpd).
  assert (st = PARSE_ERR_OK) as ->.
  { apply Hiff. unfold accepts. split; [lia |]. split; [done |]. split; [unfold ip_pos; lia |]. auto. }
  exists pkt'. split; [done |]. by apply parsed_key, Hpd.
Qed.

(** ** Witnesses *)
Module PacketTest.

Definition mac (x : Z) : Z * Z * Z * Z * Z * Z := (x, 1, 2, 3, 4, 5).

(** A SYN from 10.0.0.1:4000 to 8.8.8.8:443 on VLAN 7, with one IP option word. *)
Definition syn : frame :=
  mk_frame (mac 16) (mac 32) (Tag 7) 0 64 1 2 64 0
    (ip_of 10 0 0 1) (ip_of 8 8 8 8) [1; 1; 1; 1]
    (Tcp 4000 443 (replicate 8 9) 80 2 (replicate 64 0)).

Lemma all_u8 (l : list Z) : forallb (fun x => (0 <=? x) && (x <? 256)) l = true -> Forall is_u8 l.
Proof.
  intros Hf. apply Forall_forall. intros x Hx%list_elem_of_In.
  pose proof (proj1 (forallb_forall _ _) Hf x Hx) as H. cbn beta in H.
  apply andb_true_iff in H as [H1 H2]. unfold is_u8. lia.
Qed.

Lemma syn_wf : frame_wf syn.
Proof.
  split; try (vm_compute; intuition discriminate).
  - exists 1%nat. cbn. lia.
  - apply all_u8. vm_compute. reflexivity.
Qed.

Lemma parse_encode_roundtrip_witness :
  exists pkt', net_parse 58 (encode_frame syn) pkt_init = Val (PARSE_ERR_OK, pkt') /\
    pkt_get_vlan (encode_frame syn) pkt' = Val 7.
Proof.
  destruct (parse_encode_roundtrip syn 58 pkt_init syn_wf) as (pkt' & H1 & _ & _ & _ & H2 & _).
  - vm_compute. intuition discriminate.
  - intros tci Ht. injection Ht as <-. vm_compute. intuition discriminate.
  - intros o i Ht. discriminate Ht.
  - exists pkt'. split; [exact H1 | exact H2].
Defined.


(** The SYN without its option, of which 15 bytes were captured. *)
Definition syn20 : frame :=
  mk_frame (mac 16) (mac 32) (Tag 7) 0 64 1 2 64 0
    (ip_of 10 0 0 1) (ip_of 8 8 8 8) []
    (Tcp 4000 443 (replicate 8 9) 80 2 (replicate 64 0)).

Lemma net_parse_truncated_tag_witness :
  exists pkt', net_parse 15 (encode_frame syn20) pkt_init = Val (PARSE_ERR_OK, pkt').
Proof.
  destruct (net_parse_truncated_tag 15 (encode_frame syn20) pkt_init) as (_ & pkt' & H1 & _).
  - vm_compute. discriminate.
  - apply all_u8. vm_compute. reflexivity.
  - vm_compute. intuition discriminate.
  - vm_compute. reflexivity.
  - vm_compute. discriminate.
  - vm_compute. reflexivity.
  - left. vm_compute. reflexivity.
  - exists pkt'. exact H1.
Defined.

End PacketTest.
