(* ===== verification/Cleanup.v ===== *)
(** The cleanup lists of [capture/cleanup.c]: streams that finished or expired,
    to be freed once the statistics process has had a chance to see them.

    A [stream_info_t *] is the index of the stream's entry.  The processing of
    the lists, [cleanup_expired_streams], is in the file Capture: it works on the
    state of [common/shmdata.c]. *)
From S2P Require Import Prelude Structs.

Definition STAT_PROCESS_TIME_SEC : Z := 15.

(** [entries] has [num_entries] elements, of which the first [i] are used. *)
Record alist_t := mk_alist_t {
  al_entries : list Z;
  al_i : Z;
  al_num_entries : Z
}.

(** The array [calloc] returns is zero: NULL pointers, written 0 here; only the
    first [i] elements are ever read. *)
Definition alist_alloc (num_entries : Z) : alist_t :=
  mk_alist_t (replicate (Z.to_nat num_entries) 0) 0 num_entries.

Record cleanup_t := mk_cleanup_t {
  cleanup_streams_list : alist_t;
  cleanup_streams_wait : alist_t
}.

Definition cleanup_init : cleanup_t :=
  mk_cleanup_t (alist_alloc (SI_NUM_STREAMS / 10)) (alist_alloc (SI_NUM_STREAMS / 20)).

Definition LIST_ADD (l : alist_t) (val : Z) : res alist_t :=
  if al_num_entries l <=? al_i l then Val l
  else
    entries ← aset (al_entries l) (al_i l) val;
    Val (mk_alist_t entries (u32 (al_i l + 1)) (al_num_entries l)).

Definition alist_is_empty (l : alist_t) : bool := al_i l =? 0.

Definition alist_reset (l : alist_t) : alist_t := mk_alist_t (al_entries l) 0 (al_num_entries l).

Definition add_stream_to_cleanup_list (tv_sec : Z) (ss : Z) (c : cleanup_t) : res cleanup_t :=
  let seconds_inside_minute := tv_sec mod 60 in
  if (seconds_inside_minute <? STAT_PROCESS_TIME_SEC) || (55 <=? seconds_inside_minute) then
    l ← LIST_ADD (cleanup_streams_list c) ss;
    Val (mk_cleanup_t l (cleanup_streams_wait c))
  else
    w ← LIST_ADD (cleanup_streams_wait c) ss;
    Val (mk_cleanup_t (cleanup_streams_list c) w).

(** The move of the waiting items into the list and the two resets, the end of
    [cleanup_expired_streams]. *)
Definition move_wait (c : cleanup_t) : res cleanup_t :=
  let l0 := alist_reset (cleanup_streams_list c) in
  l ← for_each (fun i l =>
        ss ← aget (al_entries (cleanup_streams_wait c)) i;
        LIST_ADD l ss)
      (seqZ 0 (al_i (cleanup_streams_wait c))) l0;
  Val (mk_cleanup_t l (alist_reset (cleanup_streams_wait c))).

(** ** Specification *)

(** The streams a list holds, in the order they were added. *)
Definition items (l : alist_t) : list Z := take (Z.to_nat (al_i l)) (al_entries l).

Record alist_inv (l : alist_t) : Prop := {
  ali_len : Z.of_nat (length (al_entries l)) = al_num_entries l;
  ali_i : 0 <= al_i l <= al_num_entries l;
  ali_small : al_num_entries l < 4294967296
}.

Record cleanup_inv (c : cleanup_t) : Prop := {
  ci_list : alist_inv (cleanup_streams_list c);
  ci_wait : alist_inv (cleanup_streams_wait c);
  ci_sizes : al_num_entries (cleanup_streams_list c) = SI_NUM_STREAMS / 10 /\
             al_num_entries (cleanup_streams_wait c) = SI_NUM_STREAMS / 20
}.

Lemma alloc_inv n : 0 <= n < 4294967296 -> alist_inv (alist_alloc n) /\ items (alist_alloc n) = [].
Proof.
  intros Hn. split; [| done]. split; cbn; try lia. rewrite length_replicate. lia.
Qed.

Lemma length_items l : alist_inv l -> Z.of_nat (length (items l)) = al_i l.
Proof. intros [H1 H2 H3]. unfold items. rewrite length_take. lia. Qed.

(** Appending, or dropping the item when the list is full. *)
Lemma list_add_ok l x :
  alist_inv l ->
  exists l', LIST_ADD l x = Val l' /\ alist_inv l' /\ al_num_entries l' = al_num_entries l /\
    items l' = (if bool_decide (al_i l < al_num_entries l) then items l ++ [x] else items l).
Proof.
  intros [H1 H2 H3]. unfold LIST_ADD.
  destruct (Z.leb_spec (al_num_entries l) (al_i l)) as [Hf | Hf].
  { rewrite bool_decide_false by lia. exists l. done. }
  rewrite bool_decide_true by lia. rewrite aset_lt by lia. rewrite bind_Val.
  eexists. split; [done |]. rewrite u32_small by (unfold is_u32; lia).
  split; [| split; [done |]].
  - split; cbn; [by rewrite length_insert | lia | done].
  - unfold items. cbn. replace (Z.to_nat (al_i l + 1)) with (S (Z.to_nat (al_i l))) by lia.
    erewrite take_S_r by (apply list_lookup_insert_eq; lia).
    by rewrite take_insert_ge by lia.
Qed.

Lemma reset_ok l : alist_inv l -> alist_inv (alist_reset l) /\ items (alist_reset l) = [] /\
  al_num_entries (alist_reset l) = al_num_entries l.
Proof. intros [H1 H2 H3]. split; [| done]. split; cbn; try done. lia. Qed.

Lemma cleanup_init_inv : cleanup_inv cleanup_init.
Proof.
  split; [apply alloc_inv; vm_compute; intuition discriminate .. | done].
Qed.

Lemma move_wait_ok c :
  cleanup_inv c ->
  exists c', move_wait c = Val c' /\ cleanup_inv c' /\
    items (cleanup_streams_list c') = items (cleanup_streams_wait c) /\
    items (cleanup_streams_wait c') = [].
Proof.
  intros [Hl Hw [Hs1 Hs2]]. unfold move_wait.
  destruct (reset_ok _ Hl) as (Hr1 & Hr2 & Hr3). destruct (reset_ok _ Hw) as (Hw1 & Hw2 & Hw3).
  pose proof (length_items _ Hw) as Hlen. pose proof (ali_i _ Hw) as Hi. pose proof (ali_len _ Hw) as Hle.
  assert (al_num_entries (cleanup_streams_wait c) <= al_num_entries (cleanup_streams_list c)) as Hsz
    by (rewrite Hs1, Hs2; vm_compute; discriminate).
  destruct (for_each_inv (fun dn l => alist_inv l /\ al_num_entries l = al_num_entries (cleanup_streams_list c) /\
      al_i l = Z.of_nat (length dn) /\ items l = take (length dn) (al_entries (cleanup_streams_wait c)))
    (fun i l => ss ← aget (al_entries (cleanup_streams_wait c)) i; LIST_ADD l ss)
    (seqZ 0 (al_i (cleanup_streams_wait c))) (alist_reset (cleanup_streams_list c)))
    as (l & Hf & H1 & H2 & H3 & H4).
  - rewrite Hr2. done.
  - intros dn i rest s Hsplit (H1 & H2 & H3 & H4).
    assert (i = Z.of_nat (length dn) /\ (length dn < Z.to_nat (al_i (cleanup_streams_wait c)))%nat) as [-> Hlt].
    { pose proof (f_equal (fun l => l !! length dn) Hsplit) as Hk. cbn in Hk.
      rewrite list_lookup_middle in Hk by done. pose proof (lookup_lt_Some _ _ _ Hk) as Hb.
      rewrite length_seqZ in Hb. apply lookup_seqZ in Hk. lia. }
    destruct (aget_lt (al_entries (cleanup_streams_wait c)) (Z.of_nat (length dn))) as [x Hx]; [lia |].
    rewrite Hx, bind_Val. apply aget_Val in Hx as [_ Hx]. rewrite Nat2Z.id in Hx.
    destruct (list_add_ok s x H1) as (s' & -> & Hs' & Hn & Hit). exists s'. split; [done |].
    rewrite bool_decide_true in Hit by lia. rewrite Hit, H4, Hn, length_app. cbn.
    split; [done |]. split; [done |]. split.
    { pose proof (length_items _ Hs') as Hl'. pose proof (length_items _ H1) as Hl1. rewrite Hit, H4 in Hl'.
      rewrite length_app, length_take in Hl'. cbn in Hl'. lia. }
    replace (length dn + 1)%nat with (S (length dn)) by lia. by erewrite <- take_S_r.
  - rewrite Hf, bind_Val. eexists. split; [done |]. 
    cbn [cleanup_streams_list cleanup_streams_wait]. split; [by split; cbn [cleanup_streams_list cleanup_streams_wait]; rewrite ?H2, ?Hw3 |].
    split; [| done]. rewrite H4, length_seqZ, Z.sub_0_r || rewrite H4, length_seqZ. done.
Qed.

(** What a full list does: it keeps its first [n] items. *)
Lemma list_add_take l x :
  alist_inv l ->
  exists l', LIST_ADD l x = Val l' /\ alist_inv l' /\ al_num_entries l' = al_num_entries l /\
    items l' = take (Z.to_nat (al_num_entries l)) (items l ++ [x]).
Proof.
  intros Hl. destruct (list_add_ok l x Hl) as (l' & H1 & H2 & H3 & H4).
  exists l'. repeat (split; [done |]). pose proof (length_items l Hl) as Hlen. pose proof (ali_i _ Hl).
  rewrite H4. case_bool_decide.
  - rewrite take_ge; [done |]. rewrite length_app. cbn. lia.
  - rewrite take_app_length' by lia. done.
Qed.

Lemma take_take_app {A} n (a b : list A) : take n (take n a ++ b) = take n (a ++ b).
Proof.
  destruct (decide (n <= length a)%nat).
  - rewrite take_app_le by (rewrite length_take; lia). rewrite take_take, Nat.min_id.
    by rewrite take_app_le by lia.
  - by rewrite (take_ge a) by lia.
Qed.

(** The list a stream found at second [tv] is put on: the one that is processed
    next, outside the seconds 15 to 54 of a minute, else the waiting one. *)
Definition immediate (tv : Z) : bool := bool_decide (tv mod 60 < 15 \/ 55 <= tv mod 60).

Definition list_items (c : cleanup_t) : list Z := items (cleanup_streams_list c).
Definition wait_items (c : cleanup_t) : list Z := items (cleanup_streams_wait c).

Lemma add_stream_take tv ss c :
  cleanup_inv c ->
  exists c', add_stream_to_cleanup_list tv ss c = Val c' /\ cleanup_inv c' /\
    (list_items c', wait_items c') =
    (if immediate tv then (take 3276 (list_items c ++ [ss]), wait_items c)
     else (list_items c, take 1638 (wait_items c ++ [ss]))).
Proof.
  intros [Hl Hw [Hs1 Hs2]]. unfold add_stream_to_cleanup_list, STAT_PROCESS_TIME_SEC, immediate.
  assert ((tv mod 60 <? 15) || (55 <=? tv mod 60) = bool_decide (tv mod 60 < 15 \/ 55 <= tv mod 60)) as ->.
  { destruct (Z.ltb_spec (tv mod 60) 15), (Z.leb_spec 55 (tv mod 60)); case_bool_decide; done || lia. }
  unfold list_items, wait_items.
  case_bool_decide.
  - destruct (list_add_take _ ss Hl) as (l & -> & Hl' & Hn & Hi). rewrite bind_Val.
    eexists. split; [done |]. cbn [cleanup_streams_list cleanup_streams_wait].
    split; [by split; cbn [cleanup_streams_list cleanup_streams_wait]; rewrite ?Hn |].
    by rewrite Hi, Hs1.
  - destruct (list_add_take _ ss Hw) as (l & -> & Hl' & Hn & Hi). rewrite bind_Val.
    eexists. split; [done |]. cbn [cleanup_streams_list cleanup_streams_wait].
    split; [by split; cbn [cleanup_streams_list cleanup_streams_wait]; rewrite ?Hn |].
    by rewrite Hi, Hs2.
Qed.
