(* ===== verification/ShmData.v ===== *)
(** The shared data and its lookup tables, [common/shmdata.c].

    [shm_t] is the file's static state: the shared block [g_shm], the two hash
    tables, the three managed arrays and the two id counters.  An
    [addr_info_t *] or [stream_info_t *] into the block is the entry's index.

    The tables' keys are pointers, so the state also holds the memory they point
    to: [km_stream] for objects of type [stream_key_t], [km_addr] for objects of
    type [addr_key_t].  Addresses are those the caller or [malloc] provides: a
    pointer argument [key] is the address of the caller's key object, [pkey] the
    result of the [malloc] of an address key, [local] that of a local variable. *)
From stdpp Require Export functions.
From S2P Require Import Prelude Structs Format MgArray IpUtils StreamKey Float32 HashTable Cleanup.
#[local] Open Scope Z_scope.

Definition STREAM_EXPIRED_SEC : Z := 30.

(** [addr_key_t]: the four words [a[4]]. *)
Definition addr_key_t : Type := list Z.
Definition zero_addr : addr_key_t := [0; 0; 0; 0].
Definition addr_key_init_v4 (addr : Z) : addr_key_t := <[0%nat := addr]> zero_addr.

Record keymem := mk_keymem {
  km_stream : ptr -> stream_key_t;
  km_addr : ptr -> addr_key_t
}.

(** ** Callbacks *)

Definition hcmp_v4addr_key (k1 k2 : addr_key_t) : Z :=
  memcmp (flat_map (le_bytes 4) k1) (flat_map (le_bytes 4) k2).

Definition hash_v4addr_key (key : addr_key_t) : Z :=
  Z.lxor (Z.lxor (Z.lxor (key !!! 0%nat) (key !!! 1%nat)) (key !!! 2%nat)) (key !!! 3%nat).

Definition stream_keycmp (m : keymem) (p q : ptr) : Z := hcmp_stream_key (km_stream m p) (km_stream m q).
Definition stream_hash (m : keymem) (p : ptr) : Z := hash_stream_key (km_stream m p).
Definition addr_keycmp (m : keymem) (p q : ptr) : Z := hcmp_v4addr_key (km_addr m p) (km_addr m q).
Definition addr_hash (m : keymem) (p : ptr) : Z := hash_v4addr_key (km_addr m p).

#[export] Instance addr_isempty_func : MgaEntry addr_info_t := fun entry op =>
  let status := if tv_sec (ai_tstart entry) =? 0 then ENTRY_AVAIL else ENTRY_TAKEN in
  (match op with
   | MGA_OP_SET => set_ai_tstart (set_tv_sec 1 (ai_tstart entry)) entry
   | MGA_OP_TSTSET =>
       match status with
       | ENTRY_AVAIL => set_ai_tstart (set_tv_sec 1 (ai_tstart entry)) entry
       | ENTRY_TAKEN => entry
       end
   | MGA_OP_CLR => set_ai_tstart (set_tv_sec 0 (ai_tstart entry)) entry
   | MGA_OP_TST => entry
   end, status).

#[export] Instance stream_isempty_func : MgaEntry stream_info_t := fun entry op =>
  let status := if tv_sec (si_tstart entry) =? 0 then ENTRY_AVAIL else ENTRY_TAKEN in
  (match op with
   | MGA_OP_SET => set_si_tstart (set_tv_sec 1 (si_tstart entry)) entry
   | MGA_OP_TSTSET =>
       match status with
       | ENTRY_AVAIL => set_si_tstart (set_tv_sec 1 (si_tstart entry)) entry
       | ENTRY_TAKEN => entry
       end
   | MGA_OP_CLR => set_si_tstart (set_tv_sec 0 (si_tstart entry)) entry
   | MGA_OP_TST => entry
   end, status).

(** ** State *)

Record shm_t := mk_shm_t {
  g_shm : sharedif_t;
  g_mem : keymem;
  ht_streams : HashTable keymem Z;
  ht_v4addrs : HashTable keymem Z;
  g_lan_addrs : mgarray_t;
  g_wan_addrs : mgarray_t;
  g_streams : mgarray_t;
  gAddrCount : Z;
  gStreamCount : Z
}.

Definition set_g_shm (v : sharedif_t) (s : shm_t) : shm_t :=
  mk_shm_t v (g_mem s) (ht_streams s) (ht_v4addrs s) (g_lan_addrs s) (g_wan_addrs s) (g_streams s)
    (gAddrCount s) (gStreamCount s).
Definition set_g_mem (v : keymem) (s : shm_t) : shm_t :=
  mk_shm_t (g_shm s) v (ht_streams s) (ht_v4addrs s) (g_lan_addrs s) (g_wan_addrs s) (g_streams s)
    (gAddrCount s) (gStreamCount s).
Definition set_ht_streams (v : HashTable keymem Z) (s : shm_t) : shm_t :=
  mk_shm_t (g_shm s) (g_mem s) v (ht_v4addrs s) (g_lan_addrs s) (g_wan_addrs s) (g_streams s)
    (gAddrCount s) (gStreamCount s).
Definition set_ht_v4addrs (v : HashTable keymem Z) (s : shm_t) : shm_t :=
  mk_shm_t (g_shm s) (g_mem s) (ht_streams s) v (g_lan_addrs s) (g_wan_addrs s) (g_streams s)
    (gAddrCount s) (gStreamCount s).
Definition set_gAddrCount (v : Z) (s : shm_t) : shm_t :=
  mk_shm_t (g_shm s) (g_mem s) (ht_streams s) (ht_v4addrs s) (g_lan_addrs s) (g_wan_addrs s)
    (g_streams s) v (gStreamCount s).
Definition set_gStreamCount (v : Z) (s : shm_t) : shm_t :=
  mk_shm_t (g_shm s) (g_mem s) (ht_streams s) (ht_v4addrs s) (g_lan_addrs s) (g_wan_addrs s)
    (g_streams s) (gAddrCount s) v.

(** Stores to key objects. *)
Definition store_stream_key (p : ptr) (k : stream_key_t) (s : shm_t) : shm_t :=
  set_g_mem (mk_keymem (<[p := k]> (km_stream (g_mem s))) (km_addr (g_mem s))) s.
Definition store_addr_key (p : ptr) (k : addr_key_t) (s : shm_t) : shm_t :=
  set_g_mem (mk_keymem (km_stream (g_mem s)) (<[p := k]> (km_addr (g_mem s)))) s.

(** Read-modify-write of an entry through a pointer to it. *)
Definition upd_addr (idx : Z) (f : addr_info_t -> addr_info_t) (s : shm_t) : res shm_t :=
  e ← aget (sh_addrs (g_shm s)) idx;
  arr ← aset (sh_addrs (g_shm s)) idx (f e);
  Val (set_g_shm (set_sh_addrs arr (g_shm s)) s).
Definition upd_stream (idx : Z) (f : stream_info_t -> stream_info_t) (s : shm_t) : res shm_t :=
  e ← aget (sh_streams (g_shm s)) idx;
  arr ← aset (sh_streams (g_shm s)) idx (f e);
  Val (set_g_shm (set_sh_streams arr (g_shm s)) s).
Definition upd_flow (i : Z) (f : flow_stats_t -> flow_stats_t) (s : shm_t) : res shm_t :=
  e ← aget (sh_flow_stats (g_shm s)) i;
  l ← aset (sh_flow_stats (g_shm s)) i (f e);
  Val (set_g_shm (set_sh_flow_stats l (g_shm s)) s).
Definition upd_proto (i : Z) (f : proto_info_t -> proto_info_t) (s : shm_t) : res shm_t :=
  e ← aget (sh_protos (g_shm s)) i;
  l ← aset (sh_protos (g_shm s)) i (f e);
  Val (set_g_shm (set_sh_protos l (g_shm s)) s).

(** ** Counters *)

(** [x++] and [x += n] on a [uint32_t]; [n] is an [int]. *)
Definition add_flow (len : Z) (fs : flow_stats_t) : flow_stats_t :=
  mk_flow_stats_t (u32 (fs_packets fs + 1)) (u32 (fs_bytes fs + len)).

Definition shm_stats_print (s : shm_t) : res string :=
  t ← aget (sh_flow_stats (g_shm s)) FLOW_TYPE_TOTAL;
  Val ("G pkt=" +:+ fmt_d (fs_packets t) +:+ " bytes=" +:+ fmt_d (fs_bytes t) +:+
       " streams=" +:+ fmt_d (mi_num_entries (sh_stream_indexes (g_shm s))) +:+
       " lan_addrs=" +:+ fmt_d (mi_num_entries (sh_addr_lan_indexes (g_shm s))) +:+
       " wan_addrs=" +:+ fmt_d (mi_num_entries (sh_addr_wan_indexes (g_shm s))) +:+
       String (ascii_of_nat 10) "")%string.

Definition shm_inc_global (ts : tval_t) (pktlen : Z) (s : shm_t) : res shm_t :=
  s ← upd_flow FLOW_TYPE_TOTAL (add_flow pktlen) s;
  let s := set_g_shm (set_sh_tnow ts (g_shm s)) s in
  Val (if tv_sec (sh_tstart (g_shm s)) =? 0 then set_g_shm (set_sh_tstart ts (g_shm s)) s else s).

Definition shm_inc_flow_stats (ss : Z) (len : Z) (s : shm_t) : res shm_t :=
  e ← aget (sh_streams (g_shm s)) ss;
  let i := Z.land (si_flowflags e) 0x07 in
  c_assert (i <? SI_NUM_FLOWTYPES) (upd_flow i (add_flow len) s).

Definition shm_update_capstats (recv ifdrops kdrops : Z) (s : shm_t) : shm_t :=
  let s := set_g_shm (set_sh_ifdrops (u32 ifdrops) (g_shm s)) s in
  set_g_shm (set_sh_ifdrops (u32 kdrops) (g_shm s)) s.

(** [None] is NULL; the entry is an index of [protos]. *)
Definition shm_get_protocol (ipproto rport : Z) : option Z :=
  if SI_NUM_TCP_PROTOS <=? rport then None
  else
    let rport := if ipproto =? IPPROTO_UDP then u16 (rport + SI_NUM_TCP_PROTOS) else rport in
    Some rport.

(** ** Initialisation *)

(** The outcomes of the calls that can fail: shared memory creation and mapping
    (only used live), the [calloc] of the block, and the two table creations. *)
Record init_env := mk_init_env {
  ie_handle : Z;
  ie_mapped : bool;
  ie_calloc : bool;
  ie_streams_tbl : bool;
  ie_addrs_tbl : bool
}.

Definition shm_data_init (use_shm : bool) (env : init_env) (mem : keymem) : res (option shm_t) :=
  if (if use_shm then (ie_handle env <? 0) || negb (ie_mapped env) else negb (ie_calloc env))
  then Val None
  else
  let shm := set_sh_magic SHAREDIF_MAGIC zero_sharedif in
  t ← HashTableCreate (ie_streams_tbl env) true (SI_NUM_STREAMS / 5);
  t ← deref t;
  t ← HashTableSetKeyComparisonFunction t (Some stream_keycmp);
  streams ← HashTableSetHashFunction t (Some stream_hash);
  t ← HashTableCreate (ie_addrs_tbl env) true (SI_NUM_ADDRS / 5);
  t ← deref t;
  t ← HashTableSetKeyComparisonFunction t (Some addr_keycmp);
  addrs ← HashTableSetHashFunction t (Some addr_hash);
  let zero_mga := mk_mgarray_t 0 0 0 in
  let '(lan, lan_p) := mga_init zero_mga (sh_addr_lan_indexes shm) (Some (sh_addrs shm)) 0 255 in
  let '(wan, wan_p) :=
    mga_init zero_mga (sh_addr_wan_indexes shm) (Some (sh_addrs shm)) 256 (SI_NUM_ADDRS - 1) in
  let '(strm, strm_p) :=
    mga_init zero_mga (sh_stream_indexes shm) (Some (sh_streams shm)) 0 (SI_NUM_STREAMS - 1) in
  let shm := set_sh_stream_indexes strm_p (set_sh_addr_wan_indexes wan_p
               (set_sh_addr_lan_indexes lan_p shm)) in
  Val (Some (mk_shm_t shm mem streams addrs lan wan strm 0 0)).

(** ** Addresses *)

Definition _check_addr_index (idx : Z) : res Z :=
  if idx <? SI_NUM_ADDRS then Val idx else Asserted.

Definition shm_addr_get (index : Z) : res Z := _check_addr_index index.

(** The entry and the index written through [idx]. *)
Definition shm_addr_lookup_v4 (local : ptr) (ipaddr : Z) (s : shm_t) : res (option Z * Z * shm_t) :=
  let s := store_addr_key local (addr_key_init_v4 ipaddr) s in
  ai ← HashTableGet (g_mem s) (ht_v4addrs s) local;
  match ai with
  | None => Val (None, 0, s)
  | Some ai => Val (Some ai, ai, s)
  end.

(** [idx] is unsigned, [total_entries] too. *)
Definition shm_addr_free (idx : Z) (s : shm_t) : res shm_t :=
  if total_entries (g_lan_addrs s) <=? idx then
    '(p, arr) ← mga_free_entry (g_wan_addrs s) (sh_addr_wan_indexes (g_shm s)) (sh_addrs (g_shm s)) idx;
    Val (set_g_shm (set_sh_addrs arr (set_sh_addr_wan_indexes p (g_shm s))) s)
  else
    '(p, arr) ← mga_free_entry (g_lan_addrs s) (sh_addr_lan_indexes (g_shm s)) (sh_addrs (g_shm s)) idx;
    Val (set_g_shm (set_sh_addrs arr (set_sh_addr_lan_indexes p (g_shm s))) s).

(** The assignments to a new address, in their order. *)
Definition init_addr (iid ipaddr : Z) (mac : list Z) (addr : addr_info_t) : addr_info_t :=
  set_ai_mac mac (set_ai_txbcastpkt 0 (set_ai_rxpackets 0 (set_ai_txpackets 0 (set_ai_txbytes 0
    (set_ai_nstreams_active 0 (set_ai_nstreams 0 (set_ai_addr_offset ipaddr
      (set_ai_resvd2 0 (set_ai_resvd 0 (set_ai_isv6 0 (set_ai_iid iid addr))))))))))).

(** [pkey] is the result of [malloc], which the code does not check; [ok_pair]
    and [ok_rehash] are the outcomes of the allocations of [HashTablePut]. *)
Definition shm_addr_alloc_v4 (pkey : ptr) (ok_pair ok_rehash : bool) (ipaddr : Z) (mac_addr : list Z)
    (s : shm_t) : res (option Z * Z * shm_t) :=
  lan ← ipaddr_is_lan ipaddr;
  '(addr, s) ←
    (if negb (lan =? 0) then
      '(addr, p, arr) ← mga_alloc_entry (g_lan_addrs s) (sh_addr_lan_indexes (g_shm s)) (sh_addrs (g_shm s));
      let s := set_g_shm (set_sh_addrs arr (set_sh_addr_lan_indexes p (g_shm s))) s in
      match addr with
      | Some i => s ← upd_addr i (set_ai_internal 1) s; Val (addr, s)
      | None => Val (addr, s)
      end
    else
      '(addr, p, arr) ← mga_alloc_entry (g_wan_addrs s) (sh_addr_wan_indexes (g_shm s)) (sh_addrs (g_shm s));
      let s := set_g_shm (set_sh_addrs arr (set_sh_addr_wan_indexes p (g_shm s))) s in
      match addr with
      | Some i => s ← upd_addr i (set_ai_internal 0) s; Val (addr, s)
      | None => Val (addr, s)
      end);
  match addr with
  | None => Val (None, 0, s)
  | Some i =>
      s ← upd_addr i (init_addr (gAddrCount s) ipaddr mac_addr) s;
      let s := set_gAddrCount (u32 (gAddrCount s + 1)) s in
      if pkey =? NULL then Undefined else
      let s := store_addr_key pkey (addr_key_init_v4 ipaddr) s in
      '(_, ht, m) ← HashTablePut ok_pair ok_rehash (g_mem s) (ht_v4addrs s) pkey (Some i);
      Val (Some i, i, set_g_mem m (set_ht_v4addrs ht s))
  end.

(** ** Streams *)

(** [key] is a [stream_key_t *]. *)
Definition shm_stream_lookup (key : ptr) (s : shm_t) : res (option Z) :=
  HashTableGet (g_mem s) (ht_streams s) key.

Definition shm_stream_lookup_free (ok_rehash : bool) (key : ptr) (s : shm_t) : res shm_t :=
  '(ht, m) ← HashTableRemove ok_rehash (g_mem s) (ht_streams s) key;
  Val (set_g_mem m (set_ht_streams ht s)).

Definition init_stream (iid : Z) (val : stream_info_t) : stream_info_t :=
  set_si__bytes 0 (set_si__packets 0 (set_si_bytes 0 (set_si_packets 0 (set_si_vlan 0
    (set_si_tcpflags 0 (set_si_flowflags 0 (set_si_iid iid val))))))).

Definition shm_stream_alloc (ok_pair ok_rehash : bool) (key : ptr) (s : shm_t)
    : res (option Z * shm_t) :=
  '(val, p, arr) ← mga_alloc_entry (g_streams s) (sh_stream_indexes (g_shm s)) (sh_streams (g_shm s));
  let s := set_g_shm (set_sh_streams arr (set_sh_stream_indexes p (g_shm s))) s in
  match val with
  | None => Val (None, s)
  | Some i =>
      '(_, ht, m) ← HashTablePut ok_pair ok_rehash (g_mem s) (ht_streams s) key (Some i);
      let s := set_g_mem m (set_ht_streams ht s) in
      s ← upd_stream i (init_stream (gStreamCount s)) s;
      Val (Some i, set_gStreamCount (u32 (gStreamCount s + 1)) s)
  end.

(** The flip flag is not used. *)
Definition stream_init_key_from_stream (stream : Z) (s : shm_t) : res stream_key_t :=
  ss ← aget (sh_streams (g_shm s)) stream;
  l ← shm_addr_get (si_idx_left ss);
  r ← shm_addr_get (si_idx_right ss);
  laddr ← aget (sh_addrs (g_shm s)) l;
  raddr ← aget (sh_addrs (g_shm s)) r;
  if negb (ai_isv6 laddr =? 0) then Asserted
  else Val (snd (net_stream_init_v4 (si_ipproto ss) (ai_addr_offset laddr) (ai_addr_offset raddr)
                   (si_lport ss) (si_rport ss))).

Definition is_addr_slot_empty (entry : addr_info_t) : Z :=
  if tv_sec (ai_tstart entry) =? 0 then 1 else 0.
Definition is_stream_slot_empty (entry : stream_info_t) : Z :=
  if tv_sec (si_tstart entry) =? 0 then 1 else 0.

Definition set_stream_slot_empty (idx : Z) (s : shm_t) : res shm_t :=
  '(p, arr) ← mga_free_entry (g_streams s) (sh_stream_indexes (g_shm s)) (sh_streams (g_shm s)) idx;
  Val (set_g_shm (set_sh_streams arr (set_sh_stream_indexes p (g_shm s))) s).

Definition find_expired_streams (tv : Z) (s : shm_t) (c : cleanup_t) : res cleanup_t :=
  let p := sh_stream_indexes (g_shm s) in
  for_each (fun i c =>
      idx ← mga_get (g_streams s) i;
      ss ← aget (sh_streams (g_shm s)) idx;
      if negb (is_stream_slot_empty ss =? 0) then Val c
      else if STREAM_EXPIRED_SEC <? u32 (tv - tv_sec (si_tlast ss))
      then add_stream_to_cleanup_list tv idx c
      else Val c)
    (seqZ (i32 (u32 (mi_idx_lo p + 1))) (mi_idx_hi p - u32 (mi_idx_lo p + 1))) c.

(** ** Text *)

Definition addr_info_to_s (addr : addr_info_t) : res string :=
  if negb (ai_isv6 addr =? 0) then Val "V6 TODO"%string else ip2string (ai_addr_offset addr).

(** A NULL address is replaced by the one of the stream's index in the block. *)
Definition stream_info_to_s (shm : sharedif_t) (stream : stream_info_t) (aleft aright : option addr_info_t)
    : res string :=
  aleft ← match aleft with
          | Some a => Val a
          | None => i ← shm_addr_get (si_idx_left stream); aget (sh_addrs shm) i
          end;
  aright ← match aright with
           | Some a => Val a
           | None => i ← shm_addr_get (si_idx_right stream); aget (sh_addrs shm) i
           end;
  left ← addr_info_to_s aleft;
  right ← addr_info_to_s aright;
  Val (get_proto_name (si_ipproto stream) +:+ "|" +:+ left +:+ ":" +:+ fmt_d (si_lport stream) +:+
       "|" +:+ right +:+ ":" +:+ fmt_d (si_rport stream))%string.

Definition stream_info_to_s2 (stream : stream_info_t) : string :=
  ((if (si_ipproto stream =? IPPROTO_TCP)%Z then "TCP" else "?") +:+ "_idx=" +:+
   fmt_d (si_idx_left stream) +:+ "_" +:+ fmt_d (si_lport stream) +:+ "|idx=" +:+
   fmt_d (si_idx_right stream) +:+ "_" +:+ fmt_d (si_rport stream))%string.

Definition addr_mac_to_s (addr : addr_info_t) : res string :=
  let m := ai_mac addr in
  a ← aget m 0; b ← aget m 1; c ← aget m 2; d ← aget m 3; e ← aget m 4; f ← aget m 5;
  Val (fmt_02x a +:+ ":" +:+ fmt_02x b +:+ ":" +:+ fmt_02x c +:+ ":" +:+ fmt_02x d +:+ ":" +:+
       fmt_02x e +:+ ":" +:+ fmt_02x f)%string.

(** ** Interfaces the components below are used through *)

#[export] Instance addr_entry_ok : MgaEntryOk addr_info_t.
Proof.
  split; unfold entry_status, isempty_func, addr_isempty_func; cbn.
  - done.
  - done.
  - intros e. by destruct (tv_sec (ai_tstart e) =? 0).
  - intros e. by destruct (tv_sec (ai_tstart e) =? 0).
  - done.
Qed.

#[export] Instance stream_entry_ok : MgaEntryOk stream_info_t.
Proof.
  split; unfold entry_status, isempty_func, stream_isempty_func; cbn.
  - done.
  - done.
  - intros e. by destruct (tv_sec (si_tstart e) =? 0).
  - intros e. by destruct (tv_sec (si_tstart e) =? 0).
  - done.
Qed.

Definition addr_key_wf (k : addr_key_t) : Prop :=
  exists a b c d, k = [a; b; c; d] /\ is_u32 a /\ is_u32 b /\ is_u32 c /\ is_u32 d.

Definition stream_okp (m : keymem) (p : ptr) : Prop := key_wf (km_stream m p).
Definition addr_okp (m : keymem) (p : ptr) : Prop := addr_key_wf (km_addr m p).

#[export] Instance stream_key_laws : KeyLaws km_stream stream_okp stream_keycmp stream_hash.
Proof.
  split; unfold stream_okp, stream_keycmp, stream_hash.
  - intros m p q. apply hcmp_eq.
  - intros m m' p q _ _ He. by rewrite He.
Qed.

Lemma addr_key_cmp k1 k2 : addr_key_wf k1 -> addr_key_wf k2 -> hcmp_v4addr_key k1 k2 = 0 <-> k1 = k2.
Proof.
  intros (a & b & c & d & -> & Ha & Hb & Hc & Hd) (a' & b' & c' & d' & -> & Ha' & Hb' & Hc' & Hd').
  unfold hcmp_v4addr_key, is_u32 in *. rewrite memcmp_eq by done. split; [| by intros ->].
  cbn [flat_map]. intros He.
  apply le_bytes_app_inj in He as [-> He]; [| cbn; lia ..].
  apply le_bytes_app_inj in He as [-> He]; [| cbn; lia ..].
  apply le_bytes_app_inj in He as [-> He]; [| cbn; lia ..].
  apply le_bytes_app_inj in He as [-> _]; [done | cbn; lia ..].
Qed.

#[export] Instance addr_key_laws : KeyLaws km_addr addr_okp addr_keycmp addr_hash.
Proof.
  split; unfold addr_okp, addr_keycmp, addr_hash.
  - intros m p q. apply addr_key_cmp.
  - intros m m' p q _ _ He. by rewrite He.
Qed.

Lemma addr_key_init_wf ip : is_u32 ip -> addr_key_wf (addr_key_init_v4 ip).
Proof. intros Hip. exists ip, 0, 0, 0. split; [done |]. unfold is_u32 in *. lia. Qed.

Lemma addr_key_init_inj ip ip' : addr_key_init_v4 ip = addr_key_init_v4 ip' -> ip = ip'.
Proof. by injection 1. Qed.

(** ** Invariant *)

Definition lan_mga : mgarray_t := mk_mgarray_t 256 0 255.
Definition wan_mga : mgarray_t := mk_mgarray_t 16128 256 16383.
Definition streams_mga : mgarray_t := mk_mgarray_t 32768 0 32767.

(** The dictionary of known addresses: key to entry index. *)
Definition addr_dict (s : shm_t) : gmap addr_key_t Z := ht_abs km_addr (g_mem s) (ht_v4addrs s).
Definition stream_dict (s : shm_t) : gmap stream_key_t Z := ht_abs km_stream (g_mem s) (ht_streams s).

Definition addr_tbl_inv (s : shm_t) : Prop := ht_inv km_addr addr_okp (g_mem s) (ht_v4addrs s).
Definition stream_tbl_inv (s : shm_t) : Prop := ht_inv km_stream stream_okp (g_mem s) (ht_streams s).

Record shm_inv (s : shm_t) : Prop := {
  sv_flow : length (sh_flow_stats (g_shm s)) = Z.to_nat SI_NUM_FLOWTYPES;
  sv_protos : length (sh_protos (g_shm s)) = Z.to_nat SI_NUM_PROTOS;
  sv_addrs : length (sh_addrs (g_shm s)) = Z.to_nat SI_NUM_ADDRS;
  sv_streams : length (sh_streams (g_shm s)) = Z.to_nat SI_NUM_STREAMS;
  sv_statics : g_lan_addrs s = lan_mga /\ g_wan_addrs s = wan_mga /\ g_streams s = streams_mga;
  sv_lan : mga_inv lan_mga (sh_addr_lan_indexes (g_shm s)) (sh_addrs (g_shm s));
  sv_wan : mga_inv wan_mga (sh_addr_wan_indexes (g_shm s)) (sh_addrs (g_shm s));
  sv_str : mga_inv streams_mga (sh_stream_indexes (g_shm s)) (sh_streams (g_shm s));
  sv_tbl : addr_tbl_inv s;
  sv_vals : map_Forall (fun _ i => 0 <= i < SI_NUM_ADDRS) (addr_dict s)
}.

(** Managed arrays only see which entries of their range are taken. *)
Lemma mga_inv_frame {E} `{MgaEntry E} ma p (arr arr' : list E) :
  length arr' = length arr ->
  (forall j, idx_min ma <= j <= idx_max ma -> taken arr' j = taken arr j) ->
  mga_inv ma p arr -> mga_inv ma p arr'.
Proof.
  intros Hl Ht [[? ? ? ?] ? ? ? ? ? Hout Hnum]. split; try done.
  - split; try done. by rewrite Hl.
  - intros i Hi Hside. rewrite Ht by done. by apply Hout.
  - rewrite Hnum. apply count_if_ext. intros i Hi%elem_of_seqZ. symmetry. apply Ht. lia.
Qed.

(** Rewriting an entry without touching its free mark. *)
Lemma taken_update {E} `{MgaEntry E} (arr : list E) i e e' j :
  aget arr i = Val e -> entry_status e' = entry_status e ->
  taken (<[Z.to_nat i := e']> arr) j = taken arr j.
Proof.
  intros Ha Hs. pose proof (aget_inv _ _ _ Ha) as Hb. unfold taken.
  destruct (decide (i = j)) as [<- | Hne].
  - rewrite aget_insert_eq by done. by rewrite Ha, Hs.
  - by rewrite aget_insert_ne by lia.
Qed.

Lemma upd_addr_ok idx f s :
  0 <= idx < Z.of_nat (length (sh_addrs (g_shm s))) ->
  exists e, aget (sh_addrs (g_shm s)) idx = Val e /\
    upd_addr idx f s =
      Val (set_g_shm (set_sh_addrs (<[Z.to_nat idx := f e]> (sh_addrs (g_shm s))) (g_shm s)) s).
Proof.
  intros Hi. destruct (aget_lt _ _ Hi) as [e He]. exists e. split; [done |].
  unfold upd_addr. by rewrite He, bind_Val, aset_lt by done.
Qed.

Lemma upd_stream_ok idx f s :
  0 <= idx < Z.of_nat (length (sh_streams (g_shm s))) ->
  exists e, aget (sh_streams (g_shm s)) idx = Val e /\
    upd_stream idx f s =
      Val (set_g_shm (set_sh_streams (<[Z.to_nat idx := f e]> (sh_streams (g_shm s))) (g_shm s)) s).
Proof.
  intros Hi. destruct (aget_lt _ _ Hi) as [e He]. exists e. split; [done |].
  unfold upd_stream. by rewrite He, bind_Val, aset_lt by done.
Qed.

(** ** Initialisation *)

Lemma all_zero_free {E} `{MgaEntry E} (e : E) n i :
  entry_status e = ENTRY_AVAIL -> taken (replicate n e) i = false.
Proof.
  intros He. unfold taken. destruct (aget (replicate n e) i) as [e' | |] eqn:Ha; [| done ..].
  apply aget_Val in Ha as [_ Ha]. apply lookup_replicate in Ha as [-> _]. by rewrite He.
Qed.

(** A table just created, with the key functions installed. *)
Lemma fresh_table {K} `{Countable K} (rd : keymem -> ptr -> K) okp cmp hash n mem
    `{!KeyLaws rd okp cmp hash} :
  0 < n <= INT_MAX ->
  exists t0 t1 t, HashTableCreate (M := keymem) (V := Z) true true n = Val (Some t0) /\
    HashTableSetKeyComparisonFunction t0 (Some cmp) = Val t1 /\
    HashTableSetHashFunction t1 (Some hash) = Val t /\
    ht_inv rd okp mem t /\ ht_abs rd mem t = ∅ /\ keycmp t = cmp /\ hashFunction t = hash /\
    numOfBuckets t = n /\ idealRatio t = f32_three /\ upperRehashThreshold t = f32_fifteen.
Proof.
  intros Hn. destruct (create_ok (M := keymem) (V := Z) n Hn) as (t0 & Hc & Hnb & Hne & Hd & Hall & Hlen & Hnil & Hup).
  do 3 eexists. split; [exact Hc |]. split; [done |]. split; [done |].
  set (t := mk_HashTable _ _ _ _ _ _ _ _ _ _ _).
  destruct (empty_inv rd okp mem t) as [Hi Ha]; try done; cbn; try (rewrite Hnb; done).
  split; [exact Hi |]. split; [exact Ha |]. do 2 (split; [reflexivity |]). split; [exact Hnb |]. split; [apply Hd | exact Hup].
Qed.

Lemma init_mga {E} `{MgaEntryOk E} (arr : list E) p lo hi ma :
  0 <= lo -> lo <= hi < Z.of_nat (length arr) -> hi < 2147483646 ->
  (forall i, taken arr i = false) -> ma = mk_mgarray_t (hi - lo + 1) lo hi ->
  exists q, mga_init (mk_mgarray_t 0 0 0) p (Some arr) lo hi = (ma, q) /\ mga_inv ma q arr /\
    q = fill_info ma 0.
Proof.
  intros H1 H2 H3 Hf ->. eexists.
  assert (mga_init (mk_mgarray_t 0 0 0) p (Some arr) lo hi =
    (mk_mgarray_t (hi - lo + 1) lo hi, snd (mga_init (mk_mgarray_t 0 0 0) p (Some arr) lo hi))) as He.
  { unfold mga_init. cbn [snd]. by rewrite (u32_small (hi - lo + 1)) by (unfold is_u32; lia). }
  split; [exact He |].
  destruct (init_inv (mk_mgarray_t (hi - lo + 1) lo hi) p arr
    (snd (mga_init (mk_mgarray_t 0 0 0) p (Some arr) lo hi))) as [Hi Hq]; try done.
  - intros i _. apply Hf.
  - split; [exact Hi |]. rewrite Hq. unfold fill_info.
    change ((0 + 1) / 2) with 0. change (0 / 2) with 0. f_equal; lia.
Qed.

Lemma shm_init_ok (use_shm : bool) env mem :
  (if use_shm then 0 <= ie_handle env /\ ie_mapped env = true else ie_calloc env = true) ->
  ie_streams_tbl env = true -> ie_addrs_tbl env = true ->
  exists s, shm_data_init use_shm env mem = Val (Some s) /\ shm_inv s /\ stream_tbl_inv s /\
    addr_dict s = ∅ /\ stream_dict s = ∅ /\ g_mem s = mem /\
    sh_addr_lan_indexes (g_shm s) = fill_info lan_mga 0 /\
    sh_addr_wan_indexes (g_shm s) = fill_info wan_mga 0 /\
    sh_stream_indexes (g_shm s) = fill_info streams_mga 0 /\
    keycmp (ht_streams s) = stream_keycmp /\ hashFunction (ht_streams s) = stream_hash /\
    numOfBuckets (ht_streams s) = SI_NUM_STREAMS / 5 /\ idealRatio (ht_streams s) = f32_three /\
    upperRehashThreshold (ht_streams s) = f32_fifteen.
Proof.
  intros He Hs Ha. unfold shm_data_init.
  assert ((if use_shm then (ie_handle env <? 0) || negb (ie_mapped env) else negb (ie_calloc env)) = false) as ->.
  { destruct use_shm; [destruct He as [H1 ->]; rewrite (proj2 (Z.ltb_ge _ _)) by lia | rewrite He]; done. }
  rewrite Hs, Ha.
  destruct (fresh_table km_stream stream_okp stream_keycmp stream_hash (SI_NUM_STREAMS / 5) mem)
    as (a0 & a1 & a & Ha0 & Ha1 & Ha2 & Hai & Haa & Hac & Hah & Han & Har & Hau); [vm_compute; intuition discriminate |].
  rewrite Ha0, bind_Val. cbn [deref]. rewrite bind_Val, Ha1, bind_Val, Ha2, bind_Val.
  destruct (fresh_table km_addr addr_okp addr_keycmp addr_hash (SI_NUM_ADDRS / 5) mem)
    as (b0 & b1 & b & Hb0 & Hb1 & Hb2 & Hbi & Hba & _); [vm_compute; intuition discriminate |].
  rewrite Hb0, bind_Val. cbn [deref]. rewrite bind_Val, Hb1, bind_Val, Hb2, bind_Val.
  assert (length (sh_addrs (set_sh_magic SHAREDIF_MAGIC zero_sharedif)) = Z.to_nat SI_NUM_ADDRS) as Hla
    by apply length_replicate.
  assert (length (sh_streams (set_sh_magic SHAREDIF_MAGIC zero_sharedif)) = Z.to_nat SI_NUM_STREAMS) as Hls
    by apply length_replicate.
  assert (forall i, taken (sh_addrs (set_sh_magic SHAREDIF_MAGIC zero_sharedif)) i = false) as Hfa
    by (intros i; by apply all_zero_free).
  assert (forall i, taken (sh_streams (set_sh_magic SHAREDIF_MAGIC zero_sharedif)) i = false) as Hfs
    by (intros i; by apply all_zero_free).
  assert (length (sh_flow_stats (set_sh_magic SHAREDIF_MAGIC zero_sharedif)) = Z.to_nat SI_NUM_FLOWTYPES)
    as Hlf by apply length_replicate.
  assert (length (sh_protos (set_sh_magic SHAREDIF_MAGIC zero_sharedif)) = Z.to_nat SI_NUM_PROTOS) as Hlp
    by apply length_replicate.
  generalize dependent (set_sh_magic SHAREDIF_MAGIC zero_sharedif). intros shm Hla Hls Hfa Hfs Hlf Hlp.
  unfold SI_NUM_ADDRS, SI_NUM_STREAMS in *.
  destruct (init_mga (sh_addrs shm) (sh_addr_lan_indexes shm) 0 255 lan_mga)
    as (ql & -> & Hql & Hql2); [lia | rewrite Hla; lia | lia | done | done |].
  destruct (init_mga (sh_addrs shm) (sh_addr_wan_indexes shm) 256 (16 * 1024 - 1) wan_mga)
    as (qw & -> & Hqw & Hqw2); [lia | rewrite Hla; lia | lia | done | done |].
  destruct (init_mga (sh_streams shm) (sh_stream_indexes shm) 0 (32 * 1024 - 1) streams_mga)
    as (qs & -> & Hqs & Hqs2); [lia | rewrite Hls; lia | lia | done | done |].
  eexists. split; [reflexivity |]. split; [| by repeat (split; [assumption || reflexivity |])].
  split; cbn [g_shm g_lan_addrs g_wan_addrs g_streams set_sh_stream_indexes set_sh_addr_wan_indexes
    set_sh_addr_lan_indexes sh_flow_stats sh_protos sh_addrs sh_streams sh_addr_lan_indexes
    sh_addr_wan_indexes sh_stream_indexes]; try assumption.
  - by repeat split.
  - unfold addr_dict. cbn [g_mem ht_v4addrs]. rewrite Hba. apply map_Forall_empty.
Qed.

(** ** Allocation of addresses *)

(** What an allocation writes: the operation's result on the entry, no more. *)
Lemma entry_op_content {E} `{MgaEntry E} op (arr arr' : list E) i st :
  entry_op op arr i = Val (arr', st) ->
  exists e, aget arr i = Val e /\ st = snd (isempty_func e op) /\
    arr' = <[Z.to_nat i := fst (isempty_func e op)]> arr.
Proof.
  unfold entry_op. intros Ho. res_inv. exists r. split; [done |].
  destruct (isempty_func r op) as [e' st']. res_inv. apply aset_Val in Hr0 as [_ ->]. done.
Qed.

Lemma find_content {E} `{MgaEntryOk E} (l : list Z) (arr arr' : list E) i :
  for_ctl (fun i arr =>
      '(arr', prev) ← entry_op MGA_OP_TSTSET arr i;
      match prev with
      | ENTRY_AVAIL => Val (Brk (i, arr'))
      | ENTRY_TAKEN => Val (Next arr')
      end) l arr = Val (Brk (i, arr')) ->
  exists e, aget arr i = Val e /\ arr' = <[Z.to_nat i := fst (isempty_func e MGA_OP_TSTSET)]> arr.
Proof.
  induction l as [| k l IH]; cbn; [done |]. intros Hf. apply bind_Val_inv in Hf as (c & Hc & Hf).
  apply bind_Val_inv in Hc as ([arr1 st] & Ho & Hc).
  destruct (entry_op_content _ _ _ _ _ Ho) as (e & He & Hst & Harr).
  destruct st.
  - injection Hc as <-. injection Hf as <- <-. eauto.
  - injection Hc as <-. assert (arr1 = arr) as ->; [| by apply IH].
    rewrite Harr, isempty_tstset_taken by (rewrite <- (isempty_returns e MGA_OP_TSTSET); done).
    apply aget_Val in He as [_ He]. by apply list_insert_id.
Qed.

Lemma alloc_content {E} `{MgaEntryOk E} ma p (arr arr' : list E) i p' :
  mga_alloc_entry ma p arr = Val (Some i, p', arr') ->
  exists e, aget arr i = Val e /\ arr' = <[Z.to_nat i := fst (isempty_func e MGA_OP_TSTSET)]> arr.
Proof.
  unfold mga_alloc_entry. destruct (_ <=? _); [done |]. intros Ha.
  apply c_assert_inv in Ha as [_ Ha]. destruct (_ <? _).
  - unfold mga_find_interior in Ha. apply bind_Val_inv in Ha as ([s' | [k arr1]] & Hf & Ha); [done |].
    injection Ha as -> _ ->. by eapply find_content.
  - destruct (_mga_more_lo_than_hi ma p); apply bind_Val_inv in Ha as ([arr1 st] & Ho & Ha);
      apply c_assert_inv in Ha as [_ Ha]; apply bind_Val_inv in Ha as (t & _ & Ha);
      apply c_assert_inv in Ha as [_ Ha]; injection Ha as <- _ <-;
      destruct (entry_op_content _ _ _ _ _ Ho) as (e & He & _ & ->); eauto.
Qed.

(** The range an address is allocated from, and that part of the state. *)
Definition side_mga (lan : bool) : mgarray_t := if lan then lan_mga else wan_mga.
Definition side_idx (lan : bool) (s : shm_t) : mga_info_t :=
  if lan then sh_addr_lan_indexes (g_shm s) else sh_addr_wan_indexes (g_shm s).
Definition set_side (lan : bool) (p : mga_info_t) (r : sharedif_t) : sharedif_t :=
  if lan then set_sh_addr_lan_indexes p r else set_sh_addr_wan_indexes p r.

Lemma side_inv lan s : shm_inv s -> mga_inv (side_mga lan) (side_idx lan s) (sh_addrs (g_shm s)).
Proof. intros Hi. destruct lan; apply Hi. Qed.

(** An address entry after its allocation, before and after the caller sets
    [tstart]. *)
Definition new_addr (s : shm_t) (lan : bool) (ip : Z) (mac : list Z) (old : addr_info_t) : addr_info_t :=
  init_addr (gAddrCount s) ip mac
    (set_ai_internal (if lan then 1 else 0) (set_ai_tstart (set_tv_sec 1 (ai_tstart old)) old)).

(** Replacing the taken mark of one entry of one side keeps the other side. *)
Lemma side_update lan s p e i :
  shm_inv s -> idx_min (side_mga lan) <= i <= idx_max (side_mga lan) ->
  mga_inv (side_mga lan) p (<[Z.to_nat i := e]> (sh_addrs (g_shm s))) ->
  let arr := <[Z.to_nat i := e]> (sh_addrs (g_shm s)) in
  let shm := set_sh_addrs arr (set_side lan p (g_shm s)) in
  mga_inv lan_mga (sh_addr_lan_indexes shm) (sh_addrs shm) /\
  mga_inv wan_mga (sh_addr_wan_indexes shm) (sh_addrs shm).
Proof.
  intros Hi Hr Hp. cbv zeta. pose proof (sv_addrs _ Hi) as Hlen.
  assert (forall ma q, mga_inv ma q (sh_addrs (g_shm s)) ->
    (i < idx_min ma \/ idx_max ma < i) ->
    mga_inv ma q (<[Z.to_nat i := e]> (sh_addrs (g_shm s)))) as Hother.
  { intros ma q Hq Ho. eapply mga_inv_frame; [apply length_insert | | exact Hq].
    intros j Hj. unfold taken. rewrite aget_insert_ne; [done | lia |].
    destruct lan; cbn in Hr; lia. }
  destruct lan; cbn; (split; [try exact Hp | try exact Hp]); apply Hother; try apply Hi; cbn in *; lia.
Qed.

(** No stored key object lives at this address. *)
Definition fresh_key (p : ptr) (s : shm_t) : Prop :=
  Forall (fun q => kv_key q <> p) (all_pairs (ht_v4addrs s)).

Lemma store_addr_frame p k s :
  addr_tbl_inv s -> fresh_key p s ->
  addr_tbl_inv (store_addr_key p k s) /\ addr_dict (store_addr_key p k s) = addr_dict s.
Proof.
  intros Hi Hf. unfold fresh_key in Hf. rewrite Forall_forall in Hf.
  apply (abs_frame km_addr addr_okp (g_mem s)); [exact Hi |].
  intros q Hq. assert (km_addr (g_mem (store_addr_key p k s)) (kv_key q) = km_addr (g_mem s) (kv_key q)) as He
    by (apply fn_lookup_insert_ne; intros Hn; by apply (Hf q)).
  pose proof (hi_okp _ _ _ _ Hi) as Hok. rewrite Forall_forall in Hok. specialize (Hok q Hq).
  unfold addr_okp in *. split; [by rewrite He | done].
Qed.

Lemma lookup_addr_ok local ip s :
  addr_tbl_inv s -> fresh_key local s -> is_u32 ip ->
  shm_addr_lookup_v4 local ip s =
    Val (addr_dict s !! addr_key_init_v4 ip, default 0 (addr_dict s !! addr_key_init_v4 ip),
         store_addr_key local (addr_key_init_v4 ip) s).
Proof.
  intros Hi Hf Hip. unfold shm_addr_lookup_v4.
  destruct (store_addr_frame local (addr_key_init_v4 ip) s Hi Hf) as [Hi' Hd].
  assert (km_addr (g_mem (store_addr_key local (addr_key_init_v4 ip) s)) local = addr_key_init_v4 ip) as Hr
    by apply fn_lookup_insert.
  set (s' := store_addr_key _ _ _) in *.
  rewrite (get_lookup km_addr addr_okp (g_mem s') (ht_v4addrs s') local);
    [| exact Hi' | unfold addr_okp; rewrite Hr; by apply addr_key_init_wf].
  rewrite bind_Val, Hr. fold (addr_dict s'). rewrite Hd.
  by destruct (addr_dict s !! addr_key_init_v4 ip).
Qed.

Lemma addr_put_ok okr pkey ip i s :
  addr_tbl_inv s -> fresh_key pkey s -> is_u32 ip -> pkey <> NULL ->
  numOfElements (ht_v4addrs s) < 4294967295 ->
  let s1 := store_addr_key pkey (addr_key_init_v4 ip) s in
  exists ht, HashTablePut true okr (g_mem s1) (ht_v4addrs s1) pkey (Some i) = Val (0, ht, g_mem s1) /\
    let s2 := set_g_mem (g_mem s1) (set_ht_v4addrs ht s1) in
    addr_tbl_inv s2 /\ addr_dict s2 = <[addr_key_init_v4 ip := i]> (addr_dict s) /\
    (forall p, p <> pkey -> fresh_key p s -> fresh_key p s2).
Proof.
  intros Hi Hf Hip Hn Hs. cbv zeta.
  destruct (store_addr_frame pkey (addr_key_init_v4 ip) s Hi Hf) as [Hi' Hd].
  assert (km_addr (g_mem (store_addr_key pkey (addr_key_init_v4 ip) s)) pkey = addr_key_init_v4 ip) as Hr
    by apply fn_lookup_insert.
  set (s' := store_addr_key _ _ _) in *.
  destruct (put_ok km_addr addr_okp true okr (g_mem s') (ht_v4addrs s') pkey i) as (ht & Hp & Hi2 & Ha & Hks);
    [exact Hi' | unfold addr_okp; rewrite Hr; by apply addr_key_init_wf | done | done | by left |].
  exists ht. split; [exact Hp |]. rewrite Hr in Ha. fold (addr_dict s') in Ha. rewrite Hd in Ha.
  split; [done |]. split; [done |]. intros p Hpn Hpf. unfold fresh_key in *.
  apply Forall_forall. intros q Hq. destruct (Hks q Hq) as [-> | (q0 & Hq0 & <-)]; [congruence |].
  rewrite Forall_forall in Hpf. by apply Hpf.
Qed.

Definition is_lan (ip : Z) : bool := match ipaddr_is_lan ip with Val l => negb (l =? 0) | _ => false end.

Lemma ipaddr_is_lan_total ip : is_u32 ip -> exists l, ipaddr_is_lan ip = Val l /\ negb (l =? 0) = is_lan ip.
Proof.
  intros Hip. assert (exists str, ip2string ip = Val str) as [str Hs].
  { destruct (ip2string ip) eqn:E; [eauto | |]; exfalso;
      pose proof (ip2string_total ip Hip) as [str Hs]; congruence. }
  unfold is_lan, ipaddr_is_lan. rewrite Hs. cbn. repeat case_match; simplify_eq; eexists; split; done.
Qed.

Lemma addr_tstset_free (e : addr_info_t) :
  entry_status e <> ENTRY_TAKEN ->
  fst (isempty_func e MGA_OP_TSTSET) = set_ai_tstart (set_tv_sec 1 (ai_tstart e)) e.
Proof.
  intros Ht. rewrite isempty_tstset_avail; [done |]. by destruct (entry_status e).
Qed.

Lemma upd_addr_inserted i f e arr (s : shm_t) :
  sh_addrs (g_shm s) = <[Z.to_nat i := e]> arr -> 0 <= i < Z.of_nat (length arr) ->
  upd_addr i f s = Val (set_g_shm (set_sh_addrs (<[Z.to_nat i := f e]> arr) (g_shm s)) s).
Proof.
  intros Ha Hb. destruct (upd_addr_ok i f s) as (e' & He & ->); [by rewrite Ha, length_insert |].
  rewrite Ha, aget_insert_eq in He by done. injection He as <-.
  by rewrite Ha, list_insert_insert_eq.
Qed.

(** The state after the allocation of entry [i]. *)
Definition after_alloc (lan : bool) (i : Z) (e : addr_info_t) (s : shm_t) : sharedif_t :=
  set_sh_addrs (<[Z.to_nat i := e]> (sh_addrs (g_shm s)))
    (set_side lan (mga_next (side_mga lan) (side_idx lan s)) (g_shm s)).

Lemma shm_addr_full pkey okp okr ip mac s :
  shm_inv s -> is_u32 ip ->
  total_entries (side_mga (is_lan ip)) <= mi_num_entries (side_idx (is_lan ip) s) ->
  exists s', shm_addr_alloc_v4 pkey okp okr ip mac s = Val (None, 0, s') /\ s' = s.
Proof.
  intros Hi Hip Hfull. destruct (ipaddr_is_lan_total ip Hip) as (l & Hl & Hlan).
  unfold shm_addr_alloc_v4. rewrite Hl, bind_Val, Hlan.
  destruct (sv_statics _ Hi) as (H1 & H2 & H3). rewrite H1, H2.
  destruct (is_lan ip); cbn [side_mga side_idx] in *; rewrite alloc_full by done;
    rewrite !bind_Val; eexists; (split; [done |]);
    destruct s as [[] ? ? ? ? ? ? ? ?]; done.
Qed.

Lemma shm_addr_alloc_ok pkey okr ip mac s :
  shm_inv s -> is_u32 ip -> pkey <> NULL -> fresh_key pkey s ->
  numOfElements (ht_v4addrs s) < 4294967295 ->
  mi_num_entries (side_idx (is_lan ip) s) < total_entries (side_mga (is_lan ip)) ->
  mga_room (side_mga (is_lan ip)) (side_idx (is_lan ip) s) ->
  exists i old s', shm_addr_alloc_v4 pkey true okr ip mac s = Val (Some i, i, s') /\
    idx_min (side_mga (is_lan ip)) <= i <= idx_max (side_mga (is_lan ip)) /\
    taken (sh_addrs (g_shm s)) i = false /\ aget (sh_addrs (g_shm s)) i = Val old /\
    g_shm s' = after_alloc (is_lan ip) i (new_addr s (is_lan ip) ip mac old) s /\
    addr_dict s' = <[addr_key_init_v4 ip := i]> (addr_dict s) /\
    gAddrCount s' = u32 (gAddrCount s + 1) /\ shm_inv s' /\
    ht_streams s' = ht_streams s /\ km_stream (g_mem s') = km_stream (g_mem s) /\
    gStreamCount s' = gStreamCount s /\
    (forall p, p <> pkey -> fresh_key p s -> fresh_key p s').
Proof.
  intros Hi Hip Hpk Hfr Hcnt Hfull Hroom.
  destruct (ipaddr_is_lan_total ip Hip) as (l & Hl & Hlan).
  pose proof (side_inv (is_lan ip) s Hi) as Hside.
  destruct (alloc_ok _ _ _ Hside Hfull Hroom) as (i & arr & Hal & Hr & Hfree & Hm & _ & Hinv').
  destruct (alloc_content _ _ _ _ _ _ Hal) as (old & Hold & Harr).
  pose proof (aget_inv _ _ _ Hold) as Hb.
  exists i, old. unfold shm_addr_alloc_v4. rewrite Hl, bind_Val, Hlan.
  destruct (sv_statics _ Hi) as (H1 & H2 & H3). rewrite H1, H2.
  rewrite addr_tstset_free in Harr by (intros Ht; unfold taken in Hfree;
    rewrite Hold, Ht in Hfree; done).
  set (e1 := set_ai_tstart _ old) in *. set (lan := is_lan ip) in *.
  set (e2 := init_addr (gAddrCount s) ip mac (set_ai_internal (if lan then 1 else 0) e1)).
  set (s1 := set_g_shm (after_alloc lan i e2 s) s).
  (* the allocation and the two updates of the entry *)
  match goal with |- context [?b ≫= _] => assert (
    b = Val (Some i, set_g_shm (after_alloc lan i (set_ai_internal (if lan then 1 else 0) e1) s) s)) as -> end.
  { destruct lan; cbn [side_mga side_idx] in Hal; rewrite Hal, bind_Val;
      (erewrite upd_addr_inserted; [| exact Harr | exact Hb]); done. }
  rewrite bind_Val.
  erewrite upd_addr_inserted; [| reflexivity | exact Hb].
  rewrite bind_Val, (proj2 (Z.eqb_neq _ _) Hpk).
  set (s2 := set_gAddrCount (u32 (gAddrCount s + 1)) s1).
  destruct (addr_put_ok okr pkey ip i s2 (sv_tbl _ Hi) Hfr Hip Hpk Hcnt) as (ht & Hput & Htbl & Hdict & Hkeep).
  exists (set_g_mem (g_mem (store_addr_key pkey (addr_key_init_v4 ip) s2))
    (set_ht_v4addrs ht (store_addr_key pkey (addr_key_init_v4 ip) s2))).
  change (addr_dict s2) with (addr_dict s) in Hdict.
  split.
  { assert (set_g_shm (set_sh_addrs (<[Z.to_nat i := e2]> (sh_addrs (g_shm s)))
      (g_shm (set_g_shm (after_alloc lan i (set_ai_internal (if lan then 1 else 0) e1) s) s)))
      (set_g_shm (after_alloc lan i (set_ai_internal (if lan then 1 else 0) e1) s) s) = s1) as Hs1
      by (by destruct lan).
    unfold e2 in Hs1. cbn [gAddrCount set_g_shm] in *. cbn [gAddrCount] in *.
    rewrite Hs1. change (gAddrCount s1) with (gAddrCount s). fold s2.
    rewrite Hput. done. }
  split; [done |]. split; [done |]. split; [done |]. split; [done |]. split; [exact Hdict |].
  split; [done |]. split; [| done].
  assert (mga_inv (side_mga lan) (mga_next (side_mga lan) (side_idx lan s))
    (<[Z.to_nat i := e2]> (sh_addrs (g_shm s)))) as Hmga.
  { eapply mga_inv_frame; [| | exact Hinv']; [by rewrite Harr, !length_insert |].
    intros j _. rewrite Harr. unfold taken. destruct (decide (i = j)) as [<- | Hne].
    - by rewrite !aget_insert_eq by done.
    - by rewrite !aget_insert_ne by lia. }
  destruct (side_update lan s (mga_next (side_mga lan) (side_idx lan s)) e2 i Hi Hr Hmga) as [Hl1 Hw1].
  pose proof (sv_addrs _ Hi) as Hlen.
  split; try exact Htbl; try exact Hl1; try exact Hw1.
  - destruct lan; apply Hi.
  - destruct lan; apply Hi.
  - etransitivity; [apply length_insert | exact Hlen].
  - destruct lan; apply Hi.
  - apply Hi.
  - destruct lan; apply Hi.
  - rewrite Hdict. apply map_Forall_insert_2; [| apply Hi].
    rewrite Hlen in Hb. unfold SI_NUM_ADDRS in *. lia.
Qed.

(** ** Streams whose keys share one object

    The table as the packet handler uses it: every key pointer is the address of
    the handler's local variable. *)
Definition shared_key (p : ptr) (s : shm_t) : Prop :=
  Forall (fun q => kv_key q = p) (all_pairs (ht_streams s)).

Record stream_tbl_shape (s : shm_t) : Prop := {
  ts_n : 0 < numOfBuckets (ht_streams s);
  ts_len : Z.of_nat (length (bucketArray (ht_streams s))) = numOfBuckets (ht_streams s);
  ts_cmp : keycmp (ht_streams s) = stream_keycmp;
  ts_hash : hashFunction (ht_streams s) = stream_hash
}.

(** The chain a key hashes to. *)
Definition stream_chain (s : shm_t) (k : stream_key_t) : list (KeyValuePair Z) :=
  bucketArray (ht_streams s) !!! Z.to_nat (hash_stream_key k mod numOfBuckets (ht_streams s)).

Lemma memcmp_refl l : memcmp l l = 0.
Proof. by apply memcmp_eq. Qed.

Lemma shared_lookup p k s :
  shared_key p s -> stream_tbl_shape s ->
  shm_stream_lookup p (store_stream_key p k s) = Val (kv_value <$> head (stream_chain s k)).
Proof.
  intros Hsh [Hn Hl Hc Hh]. unfold shm_stream_lookup, HashTableGet, bucket_index, stream_chain.
  change (ht_streams (store_stream_key p k s)) with (ht_streams s).
  set (m := g_mem (store_stream_key p k s)).
  assert (km_stream m p = k) as Hk by apply fn_lookup_insert.
  rewrite Hh. unfold stream_hash. rewrite Hk.
  set (h := hash_stream_key k mod numOfBuckets (ht_streams s)).
  assert (0 <= h < Z.of_nat (length (bucketArray (ht_streams s)))) as Hb
    by (rewrite Hl; apply Z.mod_pos_bound; lia).
  destruct (aget_lt _ _ Hb) as [l Hg]. rewrite Hg, bind_Val. apply aget_Val in Hg as [_ Hg].
  rewrite (list_lookup_total_correct _ _ _ Hg). f_equal.
  destruct l as [| q l]; [done |]. cbn [find_pair head].
  assert (kv_key q = p) as ->.
  { unfold shared_key in Hsh. rewrite Forall_forall in Hsh. apply Hsh, elem_of_chain.
    exists (Z.to_nat h), (q :: l). split; [done | left]. }
  rewrite Hc. unfold stream_keycmp, hcmp_stream_key. by rewrite memcmp_refl.
Qed.

(** ** Properties *)

(** C36: initialisation, live or from a file, gives a state in which the managed
    arrays and both tables satisfy their invariants, nothing is known, and the
    three windows are empty at the middle of their ranges; when the block cannot
    be had it returns NULL. *)
Theorem shm_data_init_spec (use_shm : bool) env mem
    (Hs : ie_streams_tbl env = true) (Ha : ie_addrs_tbl env = true) :
  if (if use_shm then bool_decide (0 <= ie_handle env) && ie_mapped env else ie_calloc env)
  then exists s, shm_data_init use_shm env mem = Val (Some s) /\ shm_inv s /\ stream_tbl_inv s /\
    addr_dict s = ∅ /\ stream_dict s = ∅ /\
    sh_addr_lan_indexes (g_shm s) = mk_mga_info_t 0 128 129 /\
    sh_addr_wan_indexes (g_shm s) = mk_mga_info_t 0 8320 8321 /\
    sh_stream_indexes (g_shm s) = mk_mga_info_t 0 16384 16385
  else shm_data_init use_shm env mem = Val None.
Proof.
  destruct (if use_shm then _ else _) eqn:He.
  - destruct (shm_init_ok use_shm env mem) as (s & H1 & H2 & H3 & H4 & H5 & _ & H6 & H7 & H8 & _); try done.
    { destruct use_shm; [| done]. apply andb_true_iff in He as [He1%bool_decide_eq_true He2]. done. }
    exists s. repeat (split; [assumption |]). assumption.
  - unfold shm_data_init.
    assert ((if use_shm then (ie_handle env <? 0) || negb (ie_mapped env) else negb (ie_calloc env)) = true)
      as ->; [| done].
    destruct use_shm; [| by rewrite He].
    apply andb_false_iff in He as [He%bool_decide_eq_false | ->]; [| apply orb_true_r].
    by rewrite (proj2 (Z.ltb_lt _ _)) by lia.
Qed.

(** C18: [shm_addr_alloc_v4] under the invariant [shm_inv], with a pointer for the new
    key that is not NULL and not in the table of addresses, when the pair can be
    allocated and the table's count of elements does not wrap: a full side gives NULL
    and changes nothing.  While the side is not full and its allocator has room - a free
    entry inside the window, or in the range next to it ([mga_room]; the last allocation
    of a side has none, and goes to the entry past the range) - a new address gets an
    entry of its side: index 0..255 exactly for LAN addresses, 256..16383 for the
    others.  The entry was free; it is initialised (its [rxbytes] excepted, which keeps
    the value of the entry's last owner); all other entries, streams and counters are
    unchanged; the address is then found at that index; and the invariant is preserved. *)
Theorem shm_addr_alloc_v4_spec pkey okr ip mac s
    (Hi : shm_inv s) (Hip : is_u32 ip) (Hpk : pkey <> NULL) (Hfr : fresh_key pkey s)
    (Hcnt : numOfElements (ht_v4addrs s) < 4294967295) :
  let lan := is_lan ip in
  (total_entries (side_mga lan) <= mi_num_entries (side_idx lan s) ->
   shm_addr_alloc_v4 pkey true okr ip mac s = Val (None, 0, s)) /\
  (mi_num_entries (side_idx lan s) < total_entries (side_mga lan) ->
   mga_room (side_mga lan) (side_idx lan s) ->
   exists i old s', shm_addr_alloc_v4 pkey true okr ip mac s = Val (Some i, i, s') /\
     (if lan then 0 <= i <= 255 else 256 <= i <= 16383) /\
     aget (sh_addrs (g_shm s)) i = Val old /\ tv_sec (ai_tstart old) = 0 /\
     sh_addrs (g_shm s') = <[Z.to_nat i :=
       mk_addr_info_t (mk_tval_t 1 (tv_usec (ai_tstart old))) (gAddrCount s) ip 0 (if lan then 1 else 0)
         0 0 0 0 0 0 0 (ai_rxbytes old) 0 mac]> (sh_addrs (g_shm s)) /\
     sh_streams (g_shm s') = sh_streams (g_shm s) /\ sh_flow_stats (g_shm s') = sh_flow_stats (g_shm s) /\
     addr_dict s' = <[addr_key_init_v4 ip := i]> (addr_dict s) /\ shm_inv s').
Proof.
  cbv zeta. split.
  - intros Hfull. destruct (shm_addr_full pkey true okr ip mac s Hi Hip Hfull) as (s' & Hr & ->). done.
  - intros Hlt Hroom.
    destruct (shm_addr_alloc_ok pkey okr ip mac s Hi Hip Hpk Hfr Hcnt Hlt Hroom)
      as (i & old & s' & H1 & H2 & H3 & H4 & H5 & H6 & _ & H7 & _).
    exists i, old, s'. split; [exact H1 |]. split; [by destruct (is_lan ip) |]. split; [done |].
    split.
    { unfold taken in H3. rewrite H4 in H3. apply bool_decide_eq_false in H3.
      unfold entry_status, isempty_func, addr_isempty_func in H3. cbn in H3.
      by destruct (Z.eqb_spec (tv_sec (ai_tstart old)) 0). }
    rewrite H5. split; [destruct (is_lan ip), old; done |].
    split; [by destruct (is_lan ip) |]. split; [by destruct (is_lan ip) |]. done.
Qed.

(** Freeing an address frees its entry but leaves it in the lookup table: the
    address is still found, at an entry that is free (and that the next new
    address of the range may be given). *)
Theorem shm_addr_free_stale_lookup local ip i s
    (Hi : shm_inv s) (Hip : is_u32 ip) (Hf : fresh_key local s)
    (Hd : addr_dict s !! addr_key_init_v4 ip = Some i) (Hr : i <= 255)
    (Hst : straddles lan_mga (sh_addr_lan_indexes (g_shm s)))
    (Ht : taken (sh_addrs (g_shm s)) i = true) :
  exists s', shm_addr_free i s = Val s' /\ taken (sh_addrs (g_shm s')) i = false /\
    exists s2, shm_addr_lookup_v4 local ip s' = Val (Some i, i, s2).
Proof.
  pose proof (map_Forall_lookup_1 _ _ _ _ (sv_vals _ Hi) Hd) as Hb. cbn in Hb.
  destruct (sv_statics _ Hi) as (H1 & H2 & H3).
  pose proof (sv_lan _ Hi) as Hl.
  assert (mi_idx_lo (sh_addr_lan_indexes (g_shm s)) < i < mi_idx_hi (sh_addr_lan_indexes (g_shm s))) as Hw.
  { pose proof (inv_outside _ _ _ Hl i) as Ho. cbn in Ho.
    destruct (decide (mi_idx_lo (sh_addr_lan_indexes (g_shm s)) < i)), (decide (i < mi_idx_hi (sh_addr_lan_indexes (g_shm s))));
      [done | rewrite Ho in Ht; done || lia ..]. }
  destruct (free_ok _ _ _ _ Hl Hst Hw Ht) as (p & arr & Hfree & Hm & _).
  unfold shm_addr_free. rewrite H1, (proj2 (Z.leb_gt _ _)) by (cbn; lia).
  rewrite Hfree, bind_Val. eexists. split; [done |]. split; [apply Hm |].
  set (s' := set_g_shm _ s).
  pose proof (lookup_addr_ok local ip s' (sv_tbl _ Hi) Hf Hip) as Hlk.
  change (addr_dict s') with (addr_dict s) in Hlk. rewrite Hd in Hlk. eauto.
Qed.

(** Protocol counters: a port below 9110 has an entry, inside the array, the
    UDP ones in the second half; different (protocol class, port) pairs have
    different entries; larger ports have none. *)
Theorem shm_get_protocol_index ipproto rport (Hr : is_u16 rport) :
  (SI_NUM_TCP_PROTOS <= rport -> shm_get_protocol ipproto rport = None) /\
  (rport < SI_NUM_TCP_PROTOS -> exists i, shm_get_protocol ipproto rport = Some i /\
    0 <= i < SI_NUM_PROTOS /\ (SI_NUM_TCP_PROTOS <= i <-> ipproto = IPPROTO_UDP) /\
    forall ipproto' rport', 0 <= rport' -> shm_get_protocol ipproto' rport' = Some i ->
      rport' = rport /\ (ipproto' = IPPROTO_UDP <-> ipproto = IPPROTO_UDP)).
Proof.
  assert (forall p r, 0 <= r < 9110 ->
    (if p =? IPPROTO_UDP then u16 (r + 9110) else r) = if bool_decide (p = IPPROTO_UDP) then r + 9110 else r)
    as Hidx.
  { intros p r Hr'. destruct (Z.eqb_spec p IPPROTO_UDP); [rewrite bool_decide_true by done | by rewrite bool_decide_false].
    apply u16_small. unfold is_u16. lia. }
  unfold shm_get_protocol, SI_NUM_PROTOS, SI_NUM_TCP_PROTOS, is_u16 in *. split; intros Hlt.
  - by rewrite (proj2 (Z.leb_le _ _)).
  - rewrite (proj2 (Z.leb_gt _ _)), Hidx by lia. eexists. split; [done |].
    split; [case_bool_decide; lia |]. split; [case_bool_decide; split; done || lia |].
    intros p' r' H0 He. destruct (Z.leb_spec 9110 r'); [done |]. rewrite Hidx in He by lia.
    injection He as He. do 2 case_bool_decide; split; done || lia.
Qed.

(** When all keys of the stream table are the same pointer - the address of
    the packet handler's local key, as [on_packet] passes it - a lookup returns
    the first stream of the chain its hash selects, whatever key that stream was
    stored under: the streams of a chain are one. *)
Theorem stream_lookup_shared_key p k k' s
    (Hsh : shared_key p s) (Hshape : stream_tbl_shape s)
    (Hh : hash_stream_key k mod numOfBuckets (ht_streams s) = hash_stream_key k' mod numOfBuckets (ht_streams s)) :
  shm_stream_lookup p (store_stream_key p k s) = shm_stream_lookup p (store_stream_key p k' s) /\
  shm_stream_lookup p (store_stream_key p k s) = Val (kv_value <$> head (stream_chain s k)).
Proof.
  rewrite !shared_lookup by done. split; [| done]. unfold stream_chain. by rewrite Hh.
Qed.

(** [shm_update_capstats] reports the kernel's drops as the interface's and
    never sets [kdrops]: its first assignment is overwritten. *)
Theorem shm_update_capstats_drops recv ifdrops kdrops s :
  shm_update_capstats recv ifdrops kdrops s = shm_update_capstats recv 0 kdrops s /\
  sh_ifdrops (g_shm (shm_update_capstats recv ifdrops kdrops s)) = u32 kdrops /\
  sh_kdrops (g_shm (shm_update_capstats recv ifdrops kdrops s)) = sh_kdrops (g_shm s).
Proof. by repeat split. Qed.

(** ** Witnesses *)
Module ShmTest.

Definition env_ok : init_env := mk_init_env 0 true true true true.
Definition mem0 : keymem := mk_keymem (fun _ => zero_stream_key) (fun _ => zero_addr).
Definition mac0 : list Z := [2; 0; 0; 0; 0; 1].
Definition lan_host : Z := ip_of 10 0 0 1.

(** The initial state, through the lemma. *)
Lemma init_state : exists s, shm_data_init false env_ok mem0 = Val (Some s) /\ shm_inv s /\
  addr_dict s = ∅ /\ (forall p, fresh_key p s) /\ numOfElements (ht_v4addrs s) = 0 /\
  sh_addr_lan_indexes (g_shm s) = fill_info lan_mga 0.
Proof.
  destruct (shm_init_ok false env_ok mem0) as (s & H1 & H2 & _ & H3 & _ & _ & H4 & _); [reflexivity .. |].
  destruct (abs_empty km_addr addr_okp (g_mem s) (ht_v4addrs s) (sv_tbl _ H2) H3) as [H5 H6].
  exists s. repeat (split; [assumption |]). split; [| by split].
  intros p. unfold fresh_key. by rewrite H5.
Qed.

Lemma lan_room : mga_room lan_mga (fill_info lan_mga 0).
Proof. right. vm_compute. discriminate. Qed.

(** 10.0.0.1 allocated, as the packet handler leaves it: entry 128. *)
Lemma one_host : exists s, shm_inv s /\ (forall p, p <> 1 -> fresh_key p s) /\
  addr_dict s !! addr_key_init_v4 lan_host = Some 128 /\
  taken (sh_addrs (g_shm s)) 128 = true /\
  sh_addr_lan_indexes (g_shm s) = mk_mga_info_t 1 127 129.
Proof.
  destruct init_state as (s & _ & H2 & H3 & H4 & H5 & H6).
  assert (is_lan lan_host = true) as Hlan by reflexivity.
  destruct (shm_addr_alloc_ok 1 true lan_host mac0 s H2) as (i & old & s' & G1 & G2 & G3 & G4 & G5 & G6 & _ & G7 & _ & _ & _ & G8).
  - vm_compute. intuition discriminate.
  - discriminate.
  - apply H4.
  - rewrite H5. reflexivity.
  - rewrite Hlan. cbn [side_idx side_mga]. rewrite H6. reflexivity.
  - rewrite Hlan. cbn [side_idx side_mga]. rewrite H6. apply lan_room.
  - rewrite Hlan in *. cbn [side_mga] in *.
    assert (i = 128) as ->.
    { pose proof (sv_lan _ H2) as Hl. rewrite H6 in Hl.
      pose proof (alloc_ok lan_mga (fill_info lan_mga 0) (sh_addrs (g_shm s)) Hl eq_refl lan_room)
        as (j & arr & Ha & _ & _ & _ & Hj & _).
      specialize (Hj eq_refl). change (mga_side lan_mga (fill_info lan_mga 0)) with 128 in Hj. subst j.
      unfold shm_addr_alloc_v4 in G1. change (ipaddr_is_lan lan_host) with (Val 1) in G1.
      destruct (sv_statics _ H2) as (Hs & _ & _). rewrite bind_Val, Hs, H6, Ha in G1. cbn [Z.eqb negb] in G1.
      rewrite bind_Val in G1. apply bind_Val_inv in G1 as ([[k|] sk] & Hk & G1); [| done].
      apply bind_Val_inv in Hk as (s1 & _ & Hk). injection Hk as <- <-.
      apply bind_Val_inv in G1 as (s2 & _ & G1). cbn [Z.eqb NULL] in G1.
      apply bind_Val_inv in G1 as ([[st ht] m] & _ & G1). by injection G1. }
    exists s'. split; [done |]. split; [intros p Hp; by apply G8 |].
    split; [rewrite G6; apply lookup_insert_eq |].
    pose proof (aget_inv _ _ _ G4) as Hb.
    pose proof (aget_insert_eq (sh_addrs (g_shm s)) 128 (new_addr s true lan_host mac0 old) Hb) as Hg.
    rewrite G5. split.
    + unfold taken. change (sh_addrs (after_alloc _ _ _ _)) with
        (<[Z.to_nat 128 := new_addr s true lan_host mac0 old]> (sh_addrs (g_shm s))). by rewrite Hg.
    + change (sh_addr_lan_indexes (after_alloc _ _ _ _)) with
        (mga_next lan_mga (sh_addr_lan_indexes (g_shm s))). rewrite H6. reflexivity.
Qed.

Lemma shm_data_init_spec_witness :
  exists s, shm_data_init true env_ok mem0 = Val (Some s) /\ shm_inv s.
Proof.
  destruct (shm_data_init_spec true env_ok mem0 eq_refl eq_refl) as (s & H1 & H2 & _).
  exists s. split; [exact H1 | exact H2].
Defined.

Lemma shm_addr_alloc_v4_spec_witness :
  exists s, shm_data_init false env_ok mem0 = Val (Some s) /\
    exists i s', shm_addr_alloc_v4 1 true true lan_host mac0 s = Val (Some i, i, s') /\ 0 <= i <= 255 /\
      addr_dict s' !! addr_key_init_v4 lan_host = Some i.
Proof.
  destruct init_state as (s & H1 & H2 & H3 & H4 & H5 & H6). exists s. split; [exact H1 |].
  destruct (shm_addr_alloc_v4_spec 1 true lan_host mac0 s H2) as [_ Ha].
  - vm_compute. intuition discriminate.
  - discriminate.
  - apply H4.
  - rewrite H5. reflexivity.
  - destruct Ha as (i & old & s' & G1 & G2 & _ & _ & _ & _ & _ & G3 & _).
    + cbn [is_lan side_idx side_mga]. change (is_lan lan_host) with true. cbn [side_idx side_mga].
      rewrite H6. reflexivity.
    + change (is_lan lan_host) with true. cbn [side_idx side_mga]. rewrite H6. apply lan_room.
    + exists i, s'. split; [exact G1 |]. split; [exact G2 |]. rewrite G3. apply lookup_insert_eq.
Defined.

Lemma shm_addr_free_stale_lookup_witness :
  exists s s', addr_dict s !! addr_key_init_v4 lan_host = Some 128 /\ shm_addr_free 128 s = Val s' /\
    taken (sh_addrs (g_shm s')) 128 = false /\
    exists s2, shm_addr_lookup_v4 7 lan_host s' = Val (Some 128, 128, s2).
Proof.
  destruct one_host as (s & H1 & H2 & H3 & H4 & H5).
  destruct (shm_addr_free_stale_lookup 7 lan_host 128 s H1) as (s' & G1 & G2 & G3).
  - vm_compute. intuition discriminate.
  - apply H2. discriminate.
  - exact H3.
  - lia.
  - rewrite H5. reflexivity.
  - exact H4.
  - exists s, s'. repeat (split; [assumption |]). exact G3.
Defined.

Lemma shm_get_protocol_index_witness :
  shm_get_protocol IPPROTO_UDP 53 = Some 9163 /\ shm_get_protocol IPPROTO_TCP 10000 = None.
Proof.
  split.
  - destruct (proj2 (shm_get_protocol_index IPPROTO_UDP 53 ltac:(unfold is_u16; lia))) as (i & Hi & _);
      [reflexivity | rewrite Hi; vm_compute in Hi; congruence].
  - apply (shm_get_protocol_index IPPROTO_TCP 10000 ltac:(unfold is_u16; lia)). vm_compute. discriminate.
Defined.

(** Two streams of the same endpoints, TCP and UDP: different keys, one chain. *)
Definition tcp_key : stream_key_t := key_between IPPROTO_TCP (lan_host, 4000) (ip_of 8 8 8 8, 53).
Definition udp_key : stream_key_t := key_between IPPROTO_UDP (lan_host, 4000) (ip_of 8 8 8 8, 53).

Definition one_stream (s : shm_t) : shm_t :=
  set_ht_streams (mk_HashTable 2 1
    (if hash_stream_key tcp_key mod 2 =? 0 then [[mk_KeyValuePair 5 77]; []] else [[]; [mk_KeyValuePair 5 77]])
    Float32.f32_three Float32.f32_zero Float32.f32_fifteen stream_keycmp (fun _ => pointercmp)
    stream_hash None None) s.

Lemma stream_lookup_shared_key_witness :
  tcp_key <> udp_key /\
  exists s, shm_stream_lookup 5 (store_stream_key 5 tcp_key s) = Val (Some 77) /\
    shm_stream_lookup 5 (store_stream_key 5 udp_key s) = Val (Some 77).
Proof.
  split; [intros He; vm_compute in He; discriminate He |].
  destruct init_state as (s0 & _). exists (one_stream s0).
  destruct (stream_lookup_shared_key 5 tcp_key udp_key (one_stream s0)) as [H1 H2].
  - unfold shared_key. repeat constructor.
  - split; reflexivity.
  - vm_compute. reflexivity.
  - split; [exact H2 | rewrite <- H1; exact H2].
Defined.

End ShmTest.
