(* ===== verification/Export.v ===== *)
(** The report of a statistics period, [export/export.c].

    The lists of addresses and streams already described hold pointers into the
    block the statistics process works on: indices here, and the block is an
    argument ([sh]).  [ok] is the outcome of the allocations of a call.  What
    [printf] and [puts] write is the text [out]. *)
From S2P Require Import Prelude Structs Format StringBuf IpUtils StreamKey ShmData.
#[local] Open Scope Z_scope.

Inductive SortBy : Set :=
| SortByNone | SortByPkt | SortByBytes | SortByTxPkt | SortByTxBytes | SortByRxPkt | SortByRxBytes
| SortByScannedPorts | SortByServedPorts | SortByMax.

Definition SORT_NAMES : list string := ["?"; "P"; "B"; "TXP"; "TB"; "RXP"; "RB"; "#P>"; "#P<"]%string.

Definition SortBy_int (s : SortBy) : Z :=
  match s with
  | SortByNone => 0 | SortByPkt => 1 | SortByBytes => 2 | SortByTxPkt => 3 | SortByTxBytes => 4
  | SortByRxPkt => 5 | SortByRxBytes => 6 | SortByScannedPorts => 7 | SortByServedPorts => 8
  | SortByMax => 9
  end.

Definition sort_name (sortby : SortBy) : res string :=
  if (SortBy_int sortby <? 0) || (SortBy_int SortByMax <=? SortBy_int sortby)
  then aget SORT_NAMES 0
  else aget SORT_NAMES (SortBy_int sortby).

(** ** State *)

Definition MAX_SEEN : Z := 1024.

Record export_t := mk_export_t {
  ex_streams : list Z;
  ex_num_streams : Z;
  ex_addrs : list Z;
  ex_num_addrs : Z;
  sbuf_addrs : option sbuf_t;
  sbuf_streams : option sbuf_t;
  sbuf_stats : option sbuf_t;
  ex_initialized : Z;
  out : string
}.

Definition export_init : export_t :=
  mk_export_t (replicate (Z.to_nat MAX_SEEN) 0) 0 (replicate (Z.to_nat MAX_SEEN) 0) 0
    None None None 0 "".

Definition newline : string := String (ascii_of_nat 10) "".

Definition set_out (o : string) (x : export_t) : export_t :=
  mk_export_t (ex_streams x) (ex_num_streams x) (ex_addrs x) (ex_num_addrs x) (sbuf_addrs x)
    (sbuf_streams x) (sbuf_stats x) (ex_initialized x) o.
Definition print (s : string) (x : export_t) : export_t := set_out (out x +:+ s)%string x.
Definition puts (s : string) (x : export_t) : export_t := print (s +:+ newline)%string x.

Definition set_seen_streams (l : list Z) (n : Z) (x : export_t) : export_t :=
  mk_export_t l n (ex_addrs x) (ex_num_addrs x) (sbuf_addrs x) (sbuf_streams x) (sbuf_stats x)
    (ex_initialized x) (out x).
Definition set_seen_addrs (l : list Z) (n : Z) (x : export_t) : export_t :=
  mk_export_t (ex_streams x) (ex_num_streams x) l n (sbuf_addrs x) (sbuf_streams x) (sbuf_stats x)
    (ex_initialized x) (out x).
Definition set_sbufs (a s t : option sbuf_t) (x : export_t) : export_t :=
  mk_export_t (ex_streams x) (ex_num_streams x) (ex_addrs x) (ex_num_addrs x) a s t
    (ex_initialized x) (out x).

(** [sbuf_append] to one of the buffers; its status is ignored. *)
Definition append_addrs (ok : bool) (line : string) (x : export_t) : res export_t :=
  b ← deref (sbuf_addrs x);
  '(_, b') ← sbuf_append ok b line;
  Val (set_sbufs (Some b') (sbuf_streams x) (sbuf_stats x) x).
Definition append_streams (ok : bool) (line : string) (x : export_t) : res export_t :=
  b ← deref (sbuf_streams x);
  '(_, b') ← sbuf_append ok b line;
  Val (set_sbufs (sbuf_addrs x) (Some b') (sbuf_stats x) x).
Definition append_stats (ok : bool) (line : string) (x : export_t) : res export_t :=
  b ← deref (sbuf_stats x);
  '(_, b') ← sbuf_append ok b line;
  Val (set_sbufs (sbuf_addrs x) (sbuf_streams x) (Some b') x).

(** ** Operations *)

Definition on_stat_period_open (ok : bool) (ts period_seconds : Z) (x : export_t) : export_t :=
  let x := if ex_initialized x =? 0
           then set_sbufs (sbuf_new ok ok 8192) (sbuf_new ok ok 8192) (sbuf_new ok ok 8192) x
           else x in
  let x := print ("===,START," +:+ fmt_u ts +:+ "," +:+ fmt_d period_seconds +:+ newline)%string x in
  set_seen_addrs (ex_addrs x) 0 (set_seen_streams (ex_streams x) 0 x).

Definition puts_sbuf (b : option sbuf_t) (x : export_t) : res export_t :=
  b ← deref b; s ← sbuf_to_s b; Val (puts s x).

Definition on_stat_period_close (period_seconds : Z) (x : export_t) : res export_t :=
  let x := print ("_ADDR_,_IID_,_Internal_,_Label_,_MAC_,_____" +:+ newline)%string x in
  x ← puts_sbuf (sbuf_addrs x) x;
  let x := print ("_STRM_,_IID_,_FlowFlags_,_IpProto_,_LAddrIID_,_LPort_,_RAddrIID_,_RPort_,_Label_,_____" +:+ newline)%string x in
  x ← puts_sbuf (sbuf_streams x) x;
  x ← puts_sbuf (sbuf_stats x) x;
  Val (print ("===,END," +:+ fmt_d period_seconds +:+ newline)%string x).

(** [for (i=0; i<n; i++) if (ids(seen[i]) == id) return 1;] *)
Definition seen_scan (ids : Z -> res Z) (seen : list Z) (n id : Z) : res bool :=
  c ← for_ctl (fun i (_ : unit) =>
        p ← aget seen i; k ← ids p;
        Val (if k =? id then Brk true else Next tt)) (seqZ 0 n) tt;
  Val (match c with Brk b => b | Next _ => false end).

Definition addr_iid (sh : sharedif_t) (p : Z) : res Z := a ← aget (sh_addrs sh) p; Val (ai_iid a).
Definition stream_iid (sh : sharedif_t) (p : Z) : res Z := s ← aget (sh_streams sh) p; Val (si_iid s).

Definition seen_addr (sh : sharedif_t) (addr : Z) (x : export_t) : res (bool * export_t) :=
  id ← addr_iid sh addr;
  b ← seen_scan (addr_iid sh) (ex_addrs x) (ex_num_addrs x) id;
  if (b : bool) then Val (true, x) else
  l ← aset (ex_addrs x) (ex_num_addrs x) addr;
  Val (false, set_seen_addrs l (ex_num_addrs x + 1) x).

Definition seen_stream (sh : sharedif_t) (stream : Z) (x : export_t) : res (bool * export_t) :=
  id ← stream_iid sh stream;
  b ← seen_scan (stream_iid sh) (ex_streams x) (ex_num_streams x) id;
  if (b : bool) then Val (true, x) else
  l ← aset (ex_streams x) (ex_num_streams x) stream;
  Val (false, set_seen_streams l (ex_num_streams x + 1) x).

Definition addr_line (a : addr_info_t) : res string :=
  pbuf ← addr_info_to_s a;
  mbuf ← (if negb (ai_internal a =? 0) then addr_mac_to_s a else Val ""%string);
  Val ("ADDR," +:+ fmt_u (ai_iid a) +:+ "," +:+ fmt_d (ai_internal a) +:+ "," +:+ pbuf +:+ "," +:+
       mbuf +:+ "," +:+ newline)%string.

Definition on_new_addr (ok : bool) (sh : sharedif_t) (addr : Z) (x : export_t) : res export_t :=
  a ← aget (sh_addrs sh) addr;
  line ← addr_line a;
  append_addrs ok line x.

(** [if (!seen_addr(addr)) on_new_addr(addr);] *)
Definition note_addr (ok : bool) (sh : sharedif_t) (addr : Z) (x : export_t) : res export_t :=
  '(seen, x) ← seen_addr sh addr x;
  if (seen : bool) then Val x else on_new_addr ok sh addr x.

Definition on_new_stream (ok : bool) (sh : sharedif_t) (stream aleft aright : Z) (x : export_t)
    : res export_t :=
  x ← note_addr ok sh aleft x;
  x ← note_addr ok sh aright x;
  s ← aget (sh_streams sh) stream;
  l ← aget (sh_addrs sh) aleft;
  r ← aget (sh_addrs sh) aright;
  pbuf ← stream_info_to_s sh s (Some l) (Some r);
  append_streams ok
    ("STRM," +:+ fmt_u (si_iid s) +:+ "," +:+ fmt_d (si_flowflags s) +:+ "," +:+
     fmt_d (si_ipproto s) +:+ "," +:+ fmt_u (ai_iid l) +:+ "," +:+ fmt_d (si_lport s) +:+ "," +:+
     fmt_u (ai_iid r) +:+ "," +:+ fmt_d (si_rport s) +:+ "," +:+ pbuf +:+ newline)%string x.

Definition on_topn_stream (ok : bool) (sh : sharedif_t) (ts : Z) (sortby : SortBy) (flowflags i : Z)
    (stream aleft aright : Z) (x : export_t) : res export_t :=
  x ← (if i =? 0 then append_stats ok
         ("_TSTR_,_SortBy_,_FlowFlags_,_Idx_,_Packets_,_Bytes_,_Stream_,_____" +:+ newline)%string x
       else Val x);
  '(seen, x) ← seen_stream sh stream x;
  x ← (if (seen : bool) then Val x else on_new_stream ok sh stream aleft aright x);
  s ← aget (sh_streams sh) stream;
  name ← sort_name sortby;
  append_stats ok
    ("TSTR," +:+ name +:+ "," +:+ fmt_d flowflags +:+ "," +:+ fmt_d i +:+ "," +:+
     fmt_u (si_packets s) +:+ "," +:+ fmt_u (si_bytes s) +:+ "," +:+ fmt_u (si_iid s) +:+ newline)%string x.

Definition on_topn_protocol (ok : bool) (ts : Z) (sortby : SortBy) (flowflags i port ipproto : Z)
    (proto : proto_info_t) (x : export_t) : res export_t :=
  x ← (if i =? 0 then append_stats ok
         ("_PORT_,_SortBy_,_FlowFlags_,_Idx_,_Port_,_IpProto_,_Packets_,_Bytes_,_____" +:+ newline)%string x
       else Val x);
  name ← sort_name sortby;
  append_stats ok
    ("PORT," +:+ name +:+ "," +:+ fmt_d flowflags +:+ "," +:+ fmt_d i +:+ "," +:+ fmt_u port +:+ "," +:+
     fmt_u ipproto +:+ "," +:+ fmt_u (pi_packets proto) +:+ "," +:+ fmt_u (pi_bytes proto) +:+ newline)%string x.

Definition on_topn_address (ok : bool) (sh : sharedif_t) (ts : Z) (sortby : SortBy) (flowflags i : Z)
    (addr : Z) (x : export_t) : res export_t :=
  x ← (if i =? 0 then append_stats ok
         ("_TADR_,_SortBy_,_FlowFlags_,_Idx_,_Address_,_TxPackets_,_TxBytes_,_RxPackets_,_RxBytes_,____" +:+ newline)%string x
       else Val x);
  x ← note_addr ok sh addr x;
  a ← aget (sh_addrs sh) addr;
  name ← sort_name sortby;
  append_stats ok
    ("TADR," +:+ name +:+ "," +:+ fmt_d flowflags +:+ "," +:+ fmt_d i +:+ "," +:+ fmt_u (ai_iid a) +:+ "," +:+
     fmt_u (ai_txpackets a) +:+ "," +:+ fmt_u (ai_txbytes a) +:+ "," +:+ fmt_u (ai_rxpackets a) +:+ "," +:+
     fmt_u (ai_rxbytes a) +:+ newline)%string x.
