(* ===== verification/StatProc.v ===== *)
(** The statistics process: [statproc/statproc_handlers.c] and
    [statproc/statproc_sim.c].

    [sp_copy] and [sp_last] are the working copy of the shared block and the
    previous one ([shm_copy], [shm_last]: NULL until the first second); a pointer
    into the copy is an index, [None] NULL.  [now0], [now1] are the results of
    the two [time(NULL)] calls of a report (profiling only), [ok] the outcome of
    its allocations. *)
From S2P Require Import Prelude Structs Counters Format StreamKey Sort ShmData Export.
#[local] Open Scope Z_scope.

Definition TOPN_PROTOS : Z := 20.
Definition NUM_TOPN_STREAMS : Z := 20.
Definition SUSPICIOUS_PORTS_MIN : Z := 10.

(** The file's own definitions of these two names. *)
Definition SP_IPPROTO_UDP : Z := 6.
Definition SP_IPPROTO_TCP : Z := 17.

(** ** Port bit masks ([net/ports.h]) *)

Definition port_bit (port : Z) : Z :=
  if port =? 21 then Z.shiftl 1 0
  else if port =? 22 then Z.shiftl 1 1
  else if port =? 23 then Z.shiftl 1 2
  else if port =? 53 then Z.shiftl 1 3
  else if port =? 80 then Z.shiftl 1 4
  else if port =? 123 then Z.shiftl 1 5
  else if port =? 135 then Z.shiftl 1 6
  else if port =? 137 then Z.shiftl 1 7
  else if port =? 138 then Z.shiftl 1 8
  else if port =? 161 then Z.shiftl 1 9
  else if port =? 162 then Z.shiftl 1 10
  else if port =? 389 then Z.shiftl 1 11
  else if port =? 443 then Z.shiftl 1 12
  else if port =? 445 then Z.shiftl 1 13
  else if port =? 37 then Z.shiftl 1 14
  else if port =? 8080 then Z.shiftl 1 15
  else 0.

Definition _set_port_bit (bitmask port : Z) : Z := Z.lor bitmask (port_bit port).

Definition mark_dest_port (port : Z) (addr : addr_info_t) : addr_info_t :=
  set_ai_resvd (_set_port_bit (ai_resvd addr) port) addr.
Definition mark_serve_port (port : Z) (addr : addr_info_t) : addr_info_t :=
  set_ai_resvd2 (_set_port_bit (ai_resvd2 addr) port) addr.

Definition count_bits16 (val : Z) : Z :=
  fst (fold_left (fun '(num, val) (_ : Z) =>
    (u16 (num + Z.land val 1), Z.shiftr val 1)) (seqZ 0 16) (0, val)).

(** ** Comparators *)

Definition cmp_field (x y : Z) : Z := if x <? y then -1 else if y <? x then 1 else 0.

Definition cmp_protos_pkt (a b : proto_info_t) : Z := cmp_field (pi_packets a) (pi_packets b).
Definition rcmp_protos_pkt (a b : proto_info_t) : Z := cmp_protos_pkt b a.
Definition cmp_addr_txpkt (a b : addr_info_t) : Z := cmp_field (ai_txpackets a) (ai_txpackets b).
Definition rcmp_addr_txpkt (a b : addr_info_t) : Z := cmp_addr_txpkt b a.
Definition cmp_addr_port_scan_src (a b : addr_info_t) : Z := cmp_field (ai_resvd a) (ai_resvd b).
Definition rcmp_addr_scanned_ports (a b : addr_info_t) : Z := cmp_addr_port_scan_src b a.
Definition cmp_addr_port_scan_target (a b : addr_info_t) : Z := cmp_field (ai_resvd2 a) (ai_resvd2 b).
Definition rcmp_addr_served_ports (a b : addr_info_t) : Z := cmp_addr_port_scan_target b a.
Definition cmp_stream_pkt (a b : stream_info_t) : Z := cmp_field (si_packets a) (si_packets b).
Definition rcmp_stream_pkt (a b : stream_info_t) : Z := cmp_stream_pkt b a.
Definition cmp_stream_bytes (a b : stream_info_t) : Z := cmp_field (si_bytes a) (si_bytes b).
Definition rcmp_stream_bytes (a b : stream_info_t) : Z := cmp_stream_bytes b a.

(** A comparator applied to two pointers into an array; the sorts only compare
    pointers to entries of it. *)
Definition at_ptr {A} (arr : list A) (p : option Z) : option A :=
  match p with Some i => arr !! Z.to_nat i | None => None end.
Definition via {A} (arr : list A) (cmp : A -> A -> Z) (p q : option Z) : Z :=
  match at_ptr arr p, at_ptr arr q with
  | Some a, Some b => cmp a b
  | None, None => 0
  | None, Some _ => -1
  | Some _, None => 1
  end.

(** ** State *)

Record second_stats_t := mk_second_stats_t {
  ss_flow_stats : list flow_stats_t;
  ss_ifdrops : Z;
  ss_kdrops : Z;
  ss_addr_lan_indexes : mga_info_t;
  ss_addr_wan_indexes : mga_info_t;
  ss_stream_indexes : mga_info_t
}.

(** The members from [flow_stats] on, as one [second_stats_t]. *)
Definition second_stats (sh : sharedif_t) : second_stats_t :=
  mk_second_stats_t (sh_flow_stats sh) (sh_ifdrops sh) (sh_kdrops sh) (sh_addr_lan_indexes sh)
    (sh_addr_wan_indexes sh) (sh_stream_indexes sh).

Definition zero_second_stats : second_stats_t :=
  mk_second_stats_t (replicate 6 zero_flow_stats) 0 0 zero_mga_info zero_mga_info zero_mga_info.

Record statproc_t := mk_statproc_t {
  sec_flows : list (list flow_stats_t);
  sec_i : Z;
  stats_last_sec : second_stats_t;
  stats_cur_sec : second_stats_t;
  initialized : Z;
  tlast_min : Z;
  last_min_packets : Z;
  last_min_bytes : Z;
  gProfileNumMins : Z;
  gProfileSumSeconds : Z;
  sp_copy : option sharedif_t;
  sp_last : option sharedif_t;
  stream_ptrs : list (option Z);
  addr_ptrs : list (option Z);
  proto_ptrs : list (option Z);
  addr_ptrs_scanners : list (option Z);
  addr_ptrs_targets : list (option Z);
  sp_export : export_t
}.

Definition statproc_init : statproc_t :=
  mk_statproc_t (replicate 6 (replicate 68 zero_flow_stats)) 0 zero_second_stats zero_second_stats
    0 0 0 0 0 0 None None [] [] [] [] [] export_init.

Definition set_sec_flows (v : list (list flow_stats_t)) (r : statproc_t) : statproc_t :=
  mk_statproc_t v (sec_i r) (stats_last_sec r) (stats_cur_sec r) (initialized r) (tlast_min r)
    (last_min_packets r) (last_min_bytes r) (gProfileNumMins r) (gProfileSumSeconds r) (sp_copy
    r) (sp_last r) (stream_ptrs r) (addr_ptrs r) (proto_ptrs r) (addr_ptrs_scanners r)
    (addr_ptrs_targets r) (sp_export r).
Definition set_sec_i (v : Z) (r : statproc_t) : statproc_t :=
  mk_statproc_t (sec_flows r) v (stats_last_sec r) (stats_cur_sec r) (initialized r)
    (tlast_min r) (last_min_packets r) (last_min_bytes r) (gProfileNumMins r)
    (gProfileSumSeconds r) (sp_copy r) (sp_last r) (stream_ptrs r) (addr_ptrs r) (proto_ptrs r)
    (addr_ptrs_scanners r) (addr_ptrs_targets r) (sp_export r).
Definition set_stats_last_sec (v : second_stats_t) (r : statproc_t) : statproc_t :=
  mk_statproc_t (sec_flows r) (sec_i r) v (stats_cur_sec r) (initialized r) (tlast_min r)
    (last_min_packets r) (last_min_bytes r) (gProfileNumMins r) (gProfileSumSeconds r) (sp_copy
    r) (sp_last r) (stream_ptrs r) (addr_ptrs r) (proto_ptrs r) (addr_ptrs_scanners r)
    (addr_ptrs_targets r) (sp_export r).
Definition set_stats_cur_sec (v : second_stats_t) (r : statproc_t) : statproc_t :=
  mk_statproc_t (sec_flows r) (sec_i r) (stats_last_sec r) v (initialized r) (tlast_min r)
    (last_min_packets r) (last_min_bytes r) (gProfileNumMins r) (gProfileSumSeconds r) (sp_copy
    r) (sp_last r) (stream_ptrs r) (addr_ptrs r) (proto_ptrs r) (addr_ptrs_scanners r)
    (addr_ptrs_targets r) (sp_export r).
Definition set_initialized (v : Z) (r : statproc_t) : statproc_t :=
  mk_statproc_t (sec_flows r) (sec_i r) (stats_last_sec r) (stats_cur_sec r) v (tlast_min r)
    (last_min_packets r) (last_min_bytes r) (gProfileNumMins r) (gProfileSumSeconds r) (sp_copy
    r) (sp_last r) (stream_ptrs r) (addr_ptrs r) (proto_ptrs r) (addr_ptrs_scanners r)
    (addr_ptrs_targets r) (sp_export r).
Definition set_tlast_min (v : Z) (r : statproc_t) : statproc_t :=
  mk_statproc_t (sec_flows r) (sec_i r) (stats_last_sec r) (stats_cur_sec r) (initialized r) v
    (last_min_packets r) (last_min_bytes r) (gProfileNumMins r) (gProfileSumSeconds r) (sp_copy
    r) (sp_last r) (stream_ptrs r) (addr_ptrs r) (proto_ptrs r) (addr_ptrs_scanners r)
    (addr_ptrs_targets r) (sp_export r).
Definition set_last_min_packets (v : Z) (r : statproc_t) : statproc_t :=
  mk_statproc_t (sec_flows r) (sec_i r) (stats_last_sec r) (stats_cur_sec r) (initialized r)
    (tlast_min r) v (last_min_bytes r) (gProfileNumMins r) (gProfileSumSeconds r) (sp_copy r)
    (sp_last r) (stream_ptrs r) (addr_ptrs r) (proto_ptrs r) (addr_ptrs_scanners r)
    (addr_ptrs_targets r) (sp_export r).
Definition set_last_min_bytes (v : Z) (r : statproc_t) : statproc_t :=
  mk_statproc_t (sec_flows r) (sec_i r) (stats_last_sec r) (stats_cur_sec r) (initialized r)
    (tlast_min r) (last_min_packets r) v (gProfileNumMins r) (gProfileSumSeconds r) (sp_copy r)
    (sp_last r) (stream_ptrs r) (addr_ptrs r) (proto_ptrs r) (addr_ptrs_scanners r)
    (addr_ptrs_targets r) (sp_export r).
Definition set_gProfileNumMins (v : Z) (r : statproc_t) : statproc_t :=
  mk_statproc_t (sec_flows r) (sec_i r) (stats_last_sec r) (stats_cur_sec r) (initialized r)
    (tlast_min r) (last_min_packets r) (last_min_bytes r) v (gProfileSumSeconds r) (sp_copy r)
    (sp_last r) (stream_ptrs r) (addr_ptrs r) (proto_ptrs r) (addr_ptrs_scanners r)
    (addr_ptrs_targets r) (sp_export r).
Definition set_gProfileSumSeconds (v : Z) (r : statproc_t) : statproc_t :=
  mk_statproc_t (sec_flows r) (sec_i r) (stats_last_sec r) (stats_cur_sec r) (initialized r)
    (tlast_min r) (last_min_packets r) (last_min_bytes r) (gProfileNumMins r) v (sp_copy r)
    (sp_last r) (stream_ptrs r) (addr_ptrs r) (proto_ptrs r) (addr_ptrs_scanners r)
    (addr_ptrs_targets r) (sp_export r).
Definition set_sp_copy (v : option sharedif_t) (r : statproc_t) : statproc_t :=
  mk_statproc_t (sec_flows r) (sec_i r) (stats_last_sec r) (stats_cur_sec r) (initialized r)
    (tlast_min r) (last_min_packets r) (last_min_bytes r) (gProfileNumMins r)
    (gProfileSumSeconds r) v (sp_last r) (stream_ptrs r) (addr_ptrs r) (proto_ptrs r)
    (addr_ptrs_scanners r) (addr_ptrs_targets r) (sp_export r).
Definition set_sp_last (v : option sharedif_t) (r : statproc_t) : statproc_t :=
  mk_statproc_t (sec_flows r) (sec_i r) (stats_last_sec r) (stats_cur_sec r) (initialized r)
    (tlast_min r) (last_min_packets r) (last_min_bytes r) (gProfileNumMins r)
    (gProfileSumSeconds r) (sp_copy r) v (stream_ptrs r) (addr_ptrs r) (proto_ptrs r)
    (addr_ptrs_scanners r) (addr_ptrs_targets r) (sp_export r).
Definition set_stream_ptrs (v : list (option Z)) (r : statproc_t) : statproc_t :=
  mk_statproc_t (sec_flows r) (sec_i r) (stats_last_sec r) (stats_cur_sec r) (initialized r)
    (tlast_min r) (last_min_packets r) (last_min_bytes r) (gProfileNumMins r)
    (gProfileSumSeconds r) (sp_copy r) (sp_last r) v (addr_ptrs r) (proto_ptrs r)
    (addr_ptrs_scanners r) (addr_ptrs_targets r) (sp_export r).
Definition set_addr_ptrs (v : list (option Z)) (r : statproc_t) : statproc_t :=
  mk_statproc_t (sec_flows r) (sec_i r) (stats_last_sec r) (stats_cur_sec r) (initialized r)
    (tlast_min r) (last_min_packets r) (last_min_bytes r) (gProfileNumMins r)
    (gProfileSumSeconds r) (sp_copy r) (sp_last r) (stream_ptrs r) v (proto_ptrs r)
    (addr_ptrs_scanners r) (addr_ptrs_targets r) (sp_export r).
Definition set_proto_ptrs (v : list (option Z)) (r : statproc_t) : statproc_t :=
  mk_statproc_t (sec_flows r) (sec_i r) (stats_last_sec r) (stats_cur_sec r) (initialized r)
    (tlast_min r) (last_min_packets r) (last_min_bytes r) (gProfileNumMins r)
    (gProfileSumSeconds r) (sp_copy r) (sp_last r) (stream_ptrs r) (addr_ptrs r) v
    (addr_ptrs_scanners r) (addr_ptrs_targets r) (sp_export r).
Definition set_addr_ptrs_scanners (v : list (option Z)) (r : statproc_t) : statproc_t :=
  mk_statproc_t (sec_flows r) (sec_i r) (stats_last_sec r) (stats_cur_sec r) (initialized r)
    (tlast_min r) (last_min_packets r) (last_min_bytes r) (gProfileNumMins r)
    (gProfileSumSeconds r) (sp_copy r) (sp_last r) (stream_ptrs r) (addr_ptrs r) (proto_ptrs r)
    v (addr_ptrs_targets r) (sp_export r).
Definition set_addr_ptrs_targets (v : list (option Z)) (r : statproc_t) : statproc_t :=
  mk_statproc_t (sec_flows r) (sec_i r) (stats_last_sec r) (stats_cur_sec r) (initialized r)
    (tlast_min r) (last_min_packets r) (last_min_bytes r) (gProfileNumMins r)
    (gProfileSumSeconds r) (sp_copy r) (sp_last r) (stream_ptrs r) (addr_ptrs r) (proto_ptrs r)
    (addr_ptrs_scanners r) v (sp_export r).
Definition set_sp_export (v : export_t) (r : statproc_t) : statproc_t :=
  mk_statproc_t (sec_flows r) (sec_i r) (stats_last_sec r) (stats_cur_sec r) (initialized r)
    (tlast_min r) (last_min_packets r) (last_min_bytes r) (gProfileNumMins r)
    (gProfileSumSeconds r) (sp_copy r) (sp_last r) (stream_ptrs r) (addr_ptrs r) (proto_ptrs r)
    (addr_ptrs_scanners r) (addr_ptrs_targets r) v.

(** ** Working copies *)

Definition IS_EMPTY_SLOT (t : tval_t) : bool := tv_sec t =? 0.

(** [memcpy] of the entries [lo .. hi - 1] of an array into another. *)
Definition copy_range {A} (dst src : list A) (lo hi : Z) : res (list A) :=
  if (0 <=? lo) && (lo <=? hi) && (hi <=? Z.of_nat (length src)) && (hi <=? Z.of_nat (length dst))
  then Val (take (Z.to_nat lo) dst ++ take (Z.to_nat (hi - lo)) (drop (Z.to_nat lo) src) ++
            drop (Z.to_nat hi) dst)
  else Undefined.

(** The copies at the start of a report: indexes, live ranges, protocols. *)
Definition take_copy (copy g_shm : sharedif_t) : res sharedif_t :=
  let copy := set_sh_addr_lan_indexes (sh_addr_lan_indexes g_shm)
                (set_sh_addr_wan_indexes (sh_addr_wan_indexes g_shm)
                  (set_sh_stream_indexes (sh_stream_indexes g_shm) copy)) in
  let s := sh_stream_indexes copy in
  let l := sh_addr_lan_indexes copy in
  let w := sh_addr_wan_indexes copy in
  streams ← copy_range (sh_streams copy) (sh_streams g_shm) (mi_idx_lo s) (mi_idx_hi s);
  addrs ← copy_range (sh_addrs copy) (sh_addrs g_shm) (mi_idx_lo l) (mi_idx_hi l);
  addrs ← copy_range addrs (sh_addrs g_shm) (mi_idx_lo w) (mi_idx_hi w);
  protos ← copy_range (sh_protos copy) (sh_protos g_shm) 0 SI_NUM_PROTOS;
  Val (set_sh_protos protos (set_sh_addrs addrs (set_sh_streams streams copy))).

(** ** Streams *)

(** The entry of the copy becomes the difference to the last report when that
    had the same stream (by its start time), and the last values are updated. *)
Definition diff_stream (last stream : stream_info_t) : stream_info_t * stream_info_t :=
  if tval_cmp (si_tstart stream) (si_tstart last) =? 0 then
    let dpackets := u32diff (si_packets last) (si_packets stream) in
    let dbytes := u32diff (si_bytes last) (si_bytes stream) in
    (set_si_bytes (si_bytes stream) (set_si_packets (si_packets stream) last),
     set_si_bytes dbytes (set_si_packets dpackets stream))
  else (stream, stream).

Definition upd_at {A} (l : list A) (i : Z) (f : A -> A) : res (list A) :=
  x ← aget l i; aset l i (f x).

(** The loop's variables: the two blocks, the pointers collected, their number. *)
Record gather := mk_gather {
  ga_copy : sharedif_t;
  ga_last : sharedif_t;
  ga_ptrs : list (option Z);
  ga_num : Z
}.

Definition process_stream (i : Z) (g : gather) : res gather :=
  stream ← aget (sh_streams (ga_copy g)) i;
  if IS_EMPTY_SLOT (si_tstart stream) then Val g else
  old ← aget (sh_streams (ga_last g)) i;
  let '(last', cur') := diff_stream old stream in
  lasts ← aset (sh_streams (ga_last g)) i last';
  streams ← aset (sh_streams (ga_copy g)) i cur';
  aleft ← aget (sh_addrs (ga_copy g)) (si_idx_left stream);
  addrs ← (if negb (ai_internal aleft =? 0)
           then upd_at (sh_addrs (ga_copy g)) (si_idx_left stream) (mark_dest_port (si_rport stream))
           else Val (sh_addrs (ga_copy g)));
  aright ← aget addrs (si_idx_right stream);
  addrs ← (if negb (ai_internal aright =? 0)
           then upd_at addrs (si_idx_right stream) (mark_serve_port (si_rport stream))
           else Val addrs);
  ptrs ← aset (ga_ptrs g) (ga_num g) (Some i);
  Val (mk_gather (set_sh_addrs addrs (set_sh_streams streams (ga_copy g)))
         (set_sh_streams lasts (ga_last g)) ptrs (u32 (ga_num g + 1))).

(** Indices of a managed array's window, as the loops visit them. *)
Definition window (p : mga_info_t) : list Z :=
  seqZ (u32 (mi_idx_lo p + 1)) (mi_idx_hi p - u32 (mi_idx_lo p + 1)).

(** [for (i=0; i<min(n, num); i++) if (ptrs[i] != NULL) report(i, ptrs[i])] *)
Definition report_top {X} (n num : Z) (ptrs : list (option Z)) (report : Z -> Z -> X -> res X) (x : X)
    : res X :=
  for_each (fun i x =>
      p ← aget ptrs i;
      match p with None => Val x | Some q => report i q x end)
    (seqZ 0 (Z.min n num)) x.

Definition report_stream (ok : bool) (copy : sharedif_t) (ts : Z) (sortby : SortBy) (i p : Z)
    (x : export_t) : res export_t :=
  s ← aget (sh_streams copy) p;
  on_topn_stream ok copy ts sortby 0 i p (si_idx_left s) (si_idx_right s) x.

(** [copy], [last], the pointer array and the export state are threaded. *)
Definition _process_streams (ok : bool) (ts : Z) (copy last : sharedif_t) (ptrs : list (option Z))
    (x : export_t) : res (sharedif_t * sharedif_t * list (option Z) * export_t) :=
  g ← for_each process_stream (window (sh_stream_indexes copy)) (mk_gather copy last ptrs 0);
  let num := ga_num g in
  let streams := sh_streams (ga_copy g) in
  ptrs ← quicksort (via streams rcmp_stream_pkt) (ga_ptrs g) 0 (i32 (u32 (num - 1)));
  x ← report_top NUM_TOPN_STREAMS num ptrs (report_stream ok (ga_copy g) ts SortByPkt) x;
  ptrs ← quicksort (via streams rcmp_stream_bytes) ptrs 0 (i32 (u32 (num - 1)));
  x ← report_top NUM_TOPN_STREAMS num ptrs (report_stream ok (ga_copy g) ts SortByBytes) x;
  Val (ga_copy g, ga_last g, ptrs, x).

(** ** Protocols *)

Definition process_protocol (i : Z) (g : gather) : res gather :=
  cur ← aget (sh_protos (ga_copy g)) i;
  if pi_packets cur =? 0 then Val g else
  old ← aget (sh_protos (ga_last g)) i;
  if pi_packets cur =? pi_packets old then Val g else
  let dpackets := u32diff (pi_packets old) (pi_packets cur) in
  let dbytes := u32diff (pi_bytes old) (pi_bytes cur) in
  lasts ← aset (sh_protos (ga_last g)) i (set_pi_bytes (pi_bytes cur) (set_pi_packets (pi_packets cur) old));
  curs ← aset (sh_protos (ga_copy g)) i (set_pi_bytes dbytes (set_pi_packets dpackets cur));
  ptrs ← aset (ga_ptrs g) (ga_num g) (Some i);
  Val (mk_gather (set_sh_protos curs (ga_copy g)) (set_sh_protos lasts (ga_last g)) ptrs
         (u32 (ga_num g + 1))).

(** The port and protocol a pointer's offset stands for. *)
Definition proto_of_ptr (p : Z) : Z * Z :=
  let port := u16 p in
  if SI_NUM_TCP_PROTOS <=? port then (u16 (port - SI_NUM_TCP_PROTOS), SP_IPPROTO_UDP)
  else (port, SP_IPPROTO_TCP).

Definition report_protocol (ok : bool) (copy : sharedif_t) (ts : Z) (i p : Z) (x : export_t) : res export_t :=
  proto ← aget (sh_protos copy) p;
  let '(port, ipproto) := proto_of_ptr p in
  on_topn_protocol ok ts SortByPkt 0 i port ipproto proto x.

Definition _process_protocols (ok : bool) (ts : Z) (copy last : sharedif_t) (ptrs : list (option Z))
    (x : export_t) : res (sharedif_t * sharedif_t * list (option Z) * export_t) :=
  g ← for_each process_protocol (seqZ 0 SI_NUM_PROTOS) (mk_gather copy last ptrs 0);
  let num := ga_num g in
  ptrs ← quicksort (via (sh_protos (ga_copy g)) rcmp_protos_pkt) (ga_ptrs g) 0 (i32 (u32 (num - 1)));
  x ← report_top TOPN_PROTOS num ptrs (report_protocol ok (ga_copy g) ts) x;
  Val (ga_copy g, ga_last g, ptrs, x).

(** ** Addresses *)

Definition diff_addr (last addr : addr_info_t) : addr_info_t * addr_info_t :=
  if tval_cmp (ai_tstart addr) (ai_tstart last) =? 0 then
    let dtxpackets := u32diff (ai_txpackets last) (ai_txpackets addr) in
    let dtxbytes := u32diff (ai_txbytes last) (ai_txbytes addr) in
    let drxpackets := u32diff (ai_rxpackets last) (ai_rxpackets addr) in
    let drxbytes := u32diff (ai_rxbytes last) (ai_rxbytes addr) in
    (set_ai_rxbytes (ai_rxbytes addr) (set_ai_rxpackets (ai_rxpackets addr)
       (set_ai_txbytes (ai_txbytes addr) (set_ai_txpackets (ai_txpackets addr) last))),
     set_ai_rxbytes drxbytes (set_ai_rxpackets drxpackets
       (set_ai_txbytes dtxbytes (set_ai_txpackets dtxpackets addr))))
  else (addr, addr).

(** The loop's variables; the suspects are the LAN addresses with many ports. *)
Record gather_addrs := mk_gather_addrs {
  gd_copy : sharedif_t;
  gd_last : sharedif_t;
  gd_ptrs : list (option Z);
  gd_num : Z;
  gd_scanners : list (option Z);
  gd_num_scanners : Z;
  gd_targets : list (option Z);
  gd_num_targets : Z
}.

Definition process_addr (flowflags : Z) (i : Z) (g : gather_addrs) : res gather_addrs :=
  addr ← aget (sh_addrs (gd_copy g)) i;
  if IS_EMPTY_SLOT (ai_tstart addr) then Val g else
  let lan := flowflags =? FLOW_TYPE_INTERNAL in
  let addr := if lan
              then set_ai_resvd2 (count_bits16 (ai_resvd2 addr)) (set_ai_resvd (count_bits16 (ai_resvd addr)) addr)
              else addr in
  '(scanners, ns) ← (if lan && (SUSPICIOUS_PORTS_MIN <? ai_resvd addr)
     then l ← aset (gd_scanners g) (gd_num_scanners g) (Some i); Val (l, u32 (gd_num_scanners g + 1))
     else Val (gd_scanners g, gd_num_scanners g));
  '(targets, nt) ← (if lan && (SUSPICIOUS_PORTS_MIN <? ai_resvd2 addr)
     then l ← aset (gd_targets g) (gd_num_targets g) (Some i); Val (l, u32 (gd_num_targets g + 1))
     else Val (gd_targets g, gd_num_targets g));
  old ← aget (sh_addrs (gd_last g)) i;
  let '(last', cur') := diff_addr old addr in
  lasts ← aset (sh_addrs (gd_last g)) i last';
  addrs ← aset (sh_addrs (gd_copy g)) i cur';
  ptrs ← aset (gd_ptrs g) (gd_num g) (Some i);
  Val (mk_gather_addrs (set_sh_addrs addrs (gd_copy g)) (set_sh_addrs lasts (gd_last g)) ptrs
         (u32 (gd_num g + 1)) scanners ns targets nt).

Definition report_suspects (ok : bool) (copy : sharedif_t) (ts flowflags num : Z) (sortby : SortBy)
    (cmp : addr_info_t -> addr_info_t -> Z) (ptrs : list (option Z)) (x : export_t)
    : res (list (option Z) * export_t) :=
  if 0 <? num then
    ptrs ← quicksort (via (sh_addrs copy) cmp) ptrs 0 (i32 (u32 (num - 1)));
    x ← report_top 10 num ptrs (on_topn_address ok copy ts sortby flowflags) x;
    Val (ptrs, x)
  else Val (ptrs, x).

Definition _process_addrs2 (ok : bool) (ts flowflags : Z) (indexes : mga_info_t) (g0 : gather_addrs)
    (x : export_t) : res (gather_addrs * export_t) :=
  g ← for_each (process_addr flowflags) (window indexes)
        (mk_gather_addrs (gd_copy g0) (gd_last g0) (gd_ptrs g0) 0 (gd_scanners g0) 0 (gd_targets g0) 0);
  let copy := gd_copy g in
  ptrs ← quicksort (via (sh_addrs copy) rcmp_addr_txpkt) (gd_ptrs g) 0 (i32 (u32 (gd_num g - 1)));
  x ← report_top 10 (gd_num g) ptrs (on_topn_address ok copy ts SortByTxPkt flowflags) x;
  '(scanners, x) ← report_suspects ok copy ts flowflags (gd_num_scanners g) SortByScannedPorts
      rcmp_addr_scanned_ports (gd_scanners g) x;
  '(targets, x) ← report_suspects ok copy ts flowflags (gd_num_targets g) SortByServedPorts
      rcmp_addr_served_ports (gd_targets g) x;
  Val (mk_gather_addrs copy (gd_last g) ptrs (gd_num g) scanners (gd_num_scanners g) targets
         (gd_num_targets g), x).

Definition _process_addrs (ok : bool) (ts : Z) (g : gather_addrs) (x : export_t)
    : res (gather_addrs * export_t) :=
  '(g, x) ← _process_addrs2 ok ts FLOW_TYPE_INTERNAL (sh_addr_lan_indexes (gd_copy g)) g x;
  _process_addrs2 ok ts 0 (sh_addr_wan_indexes (gd_copy g)) g x.

(** ** Reports *)

Definition PRINT_SEC (T : Z) (sp : statproc_t) (x : export_t) : res export_t :=
  row ← aget (sec_flows sp) T;
  let x := print ("STAT,S" +:+ fmt_d T +:+ ",")%string x in
  x ← for_each (fun i x =>
        f ← aget row i;
        Val (print (fmt_u (fs_packets f) +:+ "," +:+ fmt_u (fs_bytes f) +:+ ",")%string x)) (seqZ 0 60) x;
  Val (print newline x).

Definition check_minute (ok : bool) (now0 now1 ts : Z) (g_shm : sharedif_t) (sp : statproc_t)
    : res statproc_t :=
  let sp := set_gProfileNumMins (u32 (gProfileNumMins sp + 1)) sp in
  let ts := if ts =? 0 then u32 (tlast_min sp + 60) else ts in
  let x := on_stat_period_open ok ts (sec_i sp) (sp_export sp) in
  let x := print ("STAT,T," +:+ fmt_u (last_min_packets sp) +:+ "," +:+ fmt_u (last_min_bytes sp) +:+
                  newline)%string x in
  x ← PRINT_SEC FLOW_TYPE_WEB_IN sp x;
  x ← PRINT_SEC FLOW_TYPE_WEB_OUT sp x;
  x ← PRINT_SEC FLOW_TYPE_NONWEB_IN sp x;
  x ← PRINT_SEC FLOW_TYPE_NONWEB_OUT sp x;
  x ← PRINT_SEC FLOW_TYPE_INTERNAL sp x;
  copy ← deref (sp_copy sp);
  copy ← take_copy copy g_shm;
  let x := print ("STAT,I,streams:" +:+ fmt_d (mi_num_entries (sh_stream_indexes copy)) +:+
                  ",lanaddrs:" +:+ fmt_d (mi_num_entries (sh_addr_lan_indexes copy)) +:+
                  ",wanaddrs:" +:+ fmt_d (mi_num_entries (sh_addr_wan_indexes copy)) +:+ newline)%string x in
  last ← deref (sp_last sp);
  '(copy, last, sptrs, x) ← _process_streams ok ts copy last (stream_ptrs sp) x;
  '(copy, last, pptrs, x) ← _process_protocols ok ts copy last (proto_ptrs sp) x;
  '(g, x) ← _process_addrs ok ts
      (mk_gather_addrs copy last (addr_ptrs sp) 0 (addr_ptrs_scanners sp) 0 (addr_ptrs_targets sp) 0) x;
  x ← on_stat_period_close 60 x;
  Val (set_sp_export x (set_addr_ptrs_targets (gd_targets g) (set_addr_ptrs_scanners (gd_scanners g)
    (set_addr_ptrs (gd_ptrs g) (set_proto_ptrs pptrs (set_stream_ptrs sptrs
      (set_sp_last (Some (gd_last g)) (set_sp_copy (Some (gd_copy g))
        (set_gProfileSumSeconds (u32 (gProfileSumSeconds sp + (now1 - now0)))
          (set_sec_i (ts mod 60) (set_tlast_min (ts / 60 * 60)
            (set_last_min_bytes 0 (set_last_min_packets 0 sp))))))))))))).

(** [ok i]: whether the [i]-th [calloc] succeeds; the results are not tested. *)
Definition _init_state (ok : Z -> bool) (ts : tval_t) (g_shm : sharedif_t) (sp : statproc_t) : statproc_t :=
  let block i := if ok i then Some zero_sharedif else None in
  let ptrs i n := if ok i then replicate (Z.to_nat n) None else [] in
  set_addr_ptrs_targets (ptrs 6 (SI_NUM_ADDRS / 2)) (set_addr_ptrs_scanners (ptrs 5 (SI_NUM_ADDRS / 2))
    (set_proto_ptrs (ptrs 4 SI_NUM_PROTOS) (set_addr_ptrs (ptrs 3 SI_NUM_ADDRS)
      (set_stream_ptrs (ptrs 2 SI_NUM_STREAMS) (set_sp_last (block 1) (set_sp_copy (block 0)
        (set_stats_last_sec (second_stats g_shm)
          (set_sec_i (tv_sec ts mod 60) (set_tlast_min (tv_sec ts / 60 * 60)
            (set_initialized 1 sp)))))))))).

(** One row of the per second table, and the minute totals. *)
Definition second_row (i : Z) (sp : statproc_t) : res statproc_t :=
  last ← aget (ss_flow_stats (stats_last_sec sp)) i;
  cur ← aget (ss_flow_stats (stats_cur_sec sp)) i;
  let d := mk_flow_stats_t (u32diff (fs_packets last) (fs_packets cur))
             (u32diff (fs_bytes last) (fs_bytes cur)) in
  row ← aget (sec_flows sp) i;
  row ← aset row (sec_i sp) d;
  rows ← aset (sec_flows sp) i row;
  let sp := set_sec_flows rows sp in
  Val (if i =? FLOW_TYPE_TOTAL
       then set_last_min_bytes (u64 (last_min_bytes sp + fs_bytes d))
              (set_last_min_packets (u64 (last_min_packets sp + fs_packets d)) sp)
       else sp).

(** [ok]: whether memory can be had in this second.  [ts.tv_sec - tlast_min] is unsigned. *)
Definition every_second (ok : bool) (now0 now1 : Z) (ts : tval_t) (g_shm : sharedif_t) (sp : statproc_t)
    : res statproc_t :=
  if initialized sp =? 0 then Val (_init_state (fun _ => ok) ts g_shm sp) else
  let sp := set_stats_cur_sec (second_stats g_shm) sp in
  sp ← for_each second_row (seqZ 0 SI_NUM_FLOWTYPES) sp;
  let sp := set_sec_i (sec_i sp + 1) sp in
  c_assert (sec_i sp <=? 60) (
  let sp := set_stats_last_sec (stats_cur_sec sp) sp in
  if 60 <=? u32 (tv_sec ts - tlast_min sp)
  then check_minute ok now0 now1 (tv_sec ts) g_shm sp
  else Val sp).

Definition sim_finish (ok : bool) (now0 now1 : Z) (tv_sec : Z) (g_shm : sharedif_t) (sp : statproc_t)
    : res statproc_t := check_minute ok now0 now1 tv_sec g_shm sp.

(** ** statproc/statproc_sim.c: [last_sec] is its static variable *)

Definition sim_before_packet (ok : bool) (now0 now1 : Z) (ts : tval_t) (g_shm : sharedif_t)
    (last_sec : tval_t) (sp : statproc_t) : res (tval_t * statproc_t) :=
  if tv_sec last_sec =? 0 then Val (ts, sp) else
  let ms := tval_diff_ms last_sec ts in
  if 1000 <=? ms then
    sp ← every_second ok now0 now1 ts g_shm sp;
    Val (ts, sp)
  else Val (last_sec, sp).

Definition sim_after_packet := sim_before_packet.
