(* ===== verification/Capture.v ===== *)
(** The capture process: [capture/main.c], the processing of the cleanup lists
    of [capture/cleanup.c], [capture/readcap.c] and the callback of
    [capture/capmain.c].

    What a packet's processing needs from outside is a [pkt_env]: the addresses of
    the local key objects, the results of [malloc], the outcomes of the other
    allocations, the clock. *)
From S2P Require Import Prelude Structs Format MgArray IpUtils StreamKey HashTable Packet Cleanup ShmData Export StatProc.
#[local] Open Scope Z_scope.

Record pkt_env := mk_pkt_env {
  pe_key : ptr;
  pe_lookup_key : ptr;
  pe_cleanup_key : ptr;
  pe_malloc_left : ptr;
  pe_malloc_right : ptr;
  pe_ok_pair : bool;
  pe_ok_rehash : bool;
  pe_ok_report : bool;
  pe_now0 : Z;
  pe_now1 : Z
}.

Inductive PktDir : Set := LEFT_TO_RIGHT | RIGHT_TO_LEFT | DIR_NONE.

#[export] Instance PktDir_eq_dec : EqDecision PktDir.
Proof. solve_decision. Defined.

Record pcap_pkthdr32_t := mk_pcap_pkthdr32_t {
  hdr_ts : tval_t;
  hdr_caplen : Z;
  hdr_len : Z
}.

(** ** Counters *)

Definition inc_addr_tx (pktlen : Z) (a : addr_info_t) : addr_info_t :=
  set_ai_txbytes (u32 (ai_txbytes a + pktlen)) (set_ai_txpackets (u32 (ai_txpackets a + 1)) a).
Definition inc_addr_rx (pktlen : Z) (a : addr_info_t) : addr_info_t :=
  set_ai_rxbytes (u32 (ai_rxbytes a + pktlen)) (set_ai_rxpackets (u32 (ai_rxpackets a + 1)) a).

Definition inc_addr_ctrs (left right : Z) (dir : PktDir) (pktlen : Z) (s : shm_t) : res shm_t :=
  match dir with
  | LEFT_TO_RIGHT => s ← upd_addr left (inc_addr_tx pktlen) s; upd_addr right (inc_addr_rx pktlen) s
  | _ => s ← upd_addr right (inc_addr_tx pktlen) s; upd_addr left (inc_addr_rx pktlen) s
  end.

Definition inc_nstreams (a : addr_info_t) : addr_info_t := set_ai_nstreams (u16 (ai_nstreams a + 1)) a.
Definition inc_nstreams_active (a : addr_info_t) : addr_info_t :=
  set_ai_nstreams_active (u16 (ai_nstreams_active a + 1)) a.
Definition dec_nstreams_active (a : addr_info_t) : addr_info_t :=
  set_ai_nstreams_active (u16 (ai_nstreams_active a - 1)) a.

Definition inc_stream (pktlen : Z) (si : stream_info_t) : stream_info_t :=
  set_si_bytes (u32 (si_bytes si + pktlen)) (set_si_packets (u32 (si_packets si + 1)) si).

Definition inc_stream_counters (si : Z) (dir : PktDir) (pktlen : Z) (s : shm_t) : res shm_t :=
  s ← upd_stream si (inc_stream pktlen) s;
  e ← aget (sh_streams (g_shm s)) si;
  addr_left ← shm_addr_get (si_idx_left e);
  addr_right ← shm_addr_get (si_idx_right e);
  s ← (if si_packets e =? 1 then
         s ← upd_addr addr_left inc_nstreams s;
         s ← upd_addr addr_right inc_nstreams s;
         s ← upd_addr addr_left inc_nstreams_active s;
         upd_addr addr_right inc_nstreams_active s
       else Val s);
  inc_addr_ctrs addr_left addr_right dir pktlen s.

Definition inc_proto (dir : PktDir) (len : Z) (p : proto_info_t) : proto_info_t :=
  let p := set_pi_bytes (u32 (pi_bytes p + len)) (set_pi_packets (u32 (pi_packets p + 1)) p) in
  if bool_decide (dir = RIGHT_TO_LEFT)
  then set_pi__bytes (u32 (pi__bytes p + len)) (set_pi__packets (u32 (pi__packets p + 1)) p)
  else p.

Definition inc_protocol_counters (ipproto rport : Z) (dir : PktDir) (len : Z) (s : shm_t) : res shm_t :=
  match shm_get_protocol ipproto rport with
  | None => Val s
  | Some i => upd_proto i (inc_proto dir len) s
  end.

Definition is_web (port : Z) : Z := if (port =? 80) || (port =? 443) || (port =? 8080) then 1 else 0.

(** The flow flags of a new stream between two addresses; [None] is a NULL
    address pointer. *)
Definition stream_flow_flags (left right : addr_info_t) (ss : stream_info_t) : stream_info_t :=
  if negb (ai_internal left =? 0) && negb (ai_internal right =? 0)
  then set_si_flowflags FLOW_TYPE_INTERNAL ss
  else
    let ss := if negb (is_web (si_rport ss) =? 0)
              then set_si_flowflags (Z.lor (si_flowflags ss) FLOW_FLAG_WEB) ss else ss in
    if negb (ai_internal right =? 0)
    then set_si_flowflags (Z.lor (si_flowflags ss) FLOW_FLAG_IN) ss else ss.

Definition set_stream_flow_flags (ss : Z) (shm_left shm_right : option Z) (s : shm_t) : res shm_t :=
  l ← deref shm_left;
  r ← deref shm_right;
  left ← aget (sh_addrs (g_shm s)) l;
  right ← aget (sh_addrs (g_shm s)) r;
  upd_stream ss (stream_flow_flags left right) s.

(** ** capture/cleanup.c *)

(** One iteration of the loop of [cleanup_expired_streams]. *)
Definition cleanup_stream (env : pkt_env) (ss : Z) (s : shm_t) : res shm_t :=
  key ← stream_init_key_from_stream ss s;
  let s := store_stream_key (pe_cleanup_key env) key s in
  s ← shm_stream_lookup_free (pe_ok_rehash env) (pe_cleanup_key env) s;
  e ← aget (sh_streams (g_shm s)) ss;
  aleft ← shm_addr_get (si_idx_left e);
  aright ← shm_addr_get (si_idx_right e);
  s ← upd_addr aleft dec_nstreams_active s;
  s ← upd_addr aright dec_nstreams_active s;
  l ← aget (sh_addrs (g_shm s)) aleft;
  s ← (if ai_nstreams_active l =? 0 then shm_addr_free (si_idx_left e) s else Val s);
  r ← aget (sh_addrs (g_shm s)) aright;
  s ← (if ai_nstreams_active r =? 0 then shm_addr_free (si_idx_right e) s else Val s);
  set_stream_slot_empty ss s.

Definition cleanup_expired_streams (env : pkt_env) (tv : Z) (s : shm_t) (c : cleanup_t)
    : res (shm_t * cleanup_t) :=
  let seconds_inside_minute := tv mod 60 in
  if (seconds_inside_minute <? STAT_PROCESS_TIME_SEC) || alist_is_empty (cleanup_streams_list c)
  then Val (s, c)
  else
    c ← find_expired_streams tv s c;
    s ← for_each (fun i s =>
          ss ← aget (al_entries (cleanup_streams_list c)) i;
          cleanup_stream env ss s)
        (seqZ 0 (al_i (cleanup_streams_list c))) s;
    c ← move_wait c;
    Val (s, c).

(** ** capture/main.c *)

Record capture_t := mk_capture_t {
  cp_shm : shm_t;
  cp_cleanup : cleanup_t;
  cp_last_sec : Z;
  cp_sim_last : tval_t;
  cp_statproc : statproc_t
}.

(** Six bytes of a packet, for [memcpy(addr->mac, mac_addr, 6)]. *)
Definition mac_at (buf : list Z) (off : Z) : res (list Z) :=
  a ← aget buf off; b ← aget buf (off + 1); c ← aget buf (off + 2);
  d ← aget buf (off + 3); e ← aget buf (off + 4); f ← aget buf (off + 5);
  Val [a; b; c; d; e; f].

(** Look an address up and allocate it when it is new; the caller sets [tstart]. *)
Definition addr_for (env : pkt_env) (pkey : ptr) (ts : tval_t) (ipaddr : Z) (mac : res Z)
    (buf : list Z) (s : shm_t) : res (option Z * Z * shm_t) :=
  '(a, idx, s) ← shm_addr_lookup_v4 (pe_lookup_key env) ipaddr s;
  match a with
  | Some _ => Val (a, idx, s)
  | None =>
      off ← mac;
      m ← mac_at buf off;
      '(a, idx, s) ← shm_addr_alloc_v4 pkey (pe_ok_pair env) (pe_ok_rehash env) ipaddr m s;
      match a with
      | Some i => s ← upd_addr i (set_ai_tstart ts) s; Val (a, idx, s)
      | None => Val (a, idx, s)
      end
  end.

(** The assignments that complete a new stream. *)
Definition fill_stream (key : stream_key_t) (idx_left idx_right : Z) (ts : tval_t)
    (ss : stream_info_t) : stream_info_t :=
  set_si_tstart ts (set_si_idx_right (u16 idx_right) (set_si_idx_left (u16 idx_left)
    (set_si_rport (sk_rport (sk_v4 key)) (set_si_lport (sk_lport (sk_v4 key))
      (set_si_ipproto (sk_ipproto (sk_v4 key)) ss))))).

(** A stream not seen before; [None] when there is no room for it. *)
Definition new_stream (env : pkt_env) (hdr : pcap_pkthdr32_t) (buf : list Z) (pkt : pktinfo_t)
    (is_flipped : Z) (key : stream_key_t) (s : shm_t) : res (option Z * shm_t) :=
  '(ss, s) ← shm_stream_alloc (pe_ok_pair env) (pe_ok_rehash env) (pe_key env) s;
  match ss with
  | None => Val (None, s)
  | Some ss =>
      let mac_left := if is_flipped =? 0 then pkt_src_mac pkt else pkt_dst_mac pkt in
      let mac_right := if is_flipped =? 0 then pkt_dst_mac pkt else pkt_src_mac pkt in
      '(shm_left, idx_left, s) ←
        addr_for env (pe_malloc_left env) (hdr_ts hdr) (net_stream4_left key) mac_left buf s;
      '(shm_right, idx_right, s) ←
        addr_for env (pe_malloc_right env) (hdr_ts hdr) (net_stream4_right key) mac_right buf s;
      s ← upd_stream ss (fill_stream key idx_left idx_right (hdr_ts hdr)) s;
      s ← set_stream_flow_flags ss shm_left shm_right s;
      Val (Some ss, s)
  end.

(** What is done with the TCP flags of a packet of a stream. *)
Definition tcp_update (hdr : pcap_pkthdr32_t) (pkt : pktinfo_t) (ss : Z) (s : shm_t) (c : cleanup_t)
    : res (shm_t * cleanup_t) :=
  if istcp pkt =? 0 then Val (s, c) else
  s ← upd_stream ss (fun e => set_si_tcpflags (Z.lor (si_tcpflags e) (tcpflags pkt)) e) s;
  e ← aget (sh_streams (g_shm s)) ss;
  if negb (isfin pkt =? 0) && (Z.land (si_flowflags e) FLOW_FLAG_CLEANUP =? 0) then
    c ← add_stream_to_cleanup_list (tv_sec (hdr_ts hdr)) ss c;
    s ← upd_stream ss (fun e => set_si_flowflags (Z.lor (si_flowflags e) FLOW_FLAG_CLEANUP) e) s;
    Val (s, c)
  else Val (s, c).

(** The packet of a known stream: everything after the lookup. *)
Definition stream_packet (hdr : pcap_pkthdr32_t) (buf : list Z) (pkt : pktinfo_t) (dir : PktDir)
    (ss : Z) (s : shm_t) (c : cleanup_t) : res (shm_t * cleanup_t) :=
  let len := i32 (hdr_len hdr) in
  s ← upd_stream ss (set_si_tlast (hdr_ts hdr)) s;
  '(s, c) ← tcp_update hdr pkt ss s c;
  e ← aget (sh_streams (g_shm s)) ss;
  s ← (if si_packets e =? 1
       then v ← pkt_get_vlan buf pkt; upd_stream ss (set_si_vlan (u8 v)) s
       else Val s);
  s ← inc_stream_counters ss dir len s;
  s ← shm_inc_flow_stats ss len s;
  e ← aget (sh_streams (g_shm s)) ss;
  s ← inc_protocol_counters (si_ipproto e) (si_rport e) dir len s;
  Val (s, c).

(** The simulated statistics process runs inside the capture when a file is read. *)
Definition run_sim (read_from_file : bool) (env : pkt_env) (ts : tval_t) (st : capture_t)
    : res capture_t :=
  if read_from_file then
    '(last, sp) ← sim_before_packet (pe_ok_report env) (pe_now0 env) (pe_now1 env) ts
        (g_shm (cp_shm st)) (cp_sim_last st) (cp_statproc st);
    Val (mk_capture_t (cp_shm st) (cp_cleanup st) (cp_last_sec st) last sp)
  else Val st.

Definition set_cp_shm (s : shm_t) (st : capture_t) : capture_t :=
  mk_capture_t s (cp_cleanup st) (cp_last_sec st) (cp_sim_last st) (cp_statproc st).

(** The packet's effect on the shared data, between the two simulation steps:
    [None] for a packet that is not counted on a stream. *)
Definition packet_step (env : pkt_env) (hdr : pcap_pkthdr32_t) (buf : list Z) (s : shm_t) (c : cleanup_t)
    : res (bool * shm_t * cleanup_t) :=
  '(status, pkt) ← net_parse (hdr_caplen hdr) buf pkt_init;
  if negb (status =? PARSE_ERR_OK) then Val (false, s, c) else
  '(flipped, key) ← pkt_init_key buf pkt;
  let is_flipped := i8 flipped in
  let s := store_stream_key (pe_key env) key s in
  let dir := if negb (is_flipped =? 0) then RIGHT_TO_LEFT else LEFT_TO_RIGHT in
  if (net_stream4_left key =? 0) || (net_stream4_right key =? 0) then Val (false, s, c) else
  s ← shm_inc_global (hdr_ts hdr) (i32 (hdr_len hdr)) s;
  if negb (pkt_is_v6 pkt =? 0) then Val (false, s, c) else
  found ← shm_stream_lookup (pe_key env) s;
  '(ss, s) ← match found with
             | Some ss => Val (Some ss, s)
             | None => new_stream env hdr buf pkt is_flipped key s
             end;
  match ss with
  | None => Val (false, s, c)
  | Some ss =>
      '(s, c) ← stream_packet hdr buf pkt dir ss s c;
      Val (true, s, c)
  end.

Definition on_packet (read_from_file : bool) (env : pkt_env) (hdr : pcap_pkthdr32_t) (buf : list Z)
    (st : capture_t) : res (Z * capture_t) :=
  st ← run_sim read_from_file env (hdr_ts hdr) st;
  '(counted, s, c) ← packet_step env hdr buf (cp_shm st) (cp_cleanup st);
  let st := mk_capture_t s c (cp_last_sec st) (cp_sim_last st) (cp_statproc st) in
  if negb (counted : bool) then Val (0, st) else
  st ← run_sim read_from_file env (hdr_ts hdr) st;
  if 0 <? u32 (tv_sec (hdr_ts hdr) - cp_last_sec st) then
    '(s, c) ← cleanup_expired_streams env (tv_sec (hdr_ts hdr)) (cp_shm st) (cp_cleanup st);
    Val (0, mk_capture_t s c (tv_sec (hdr_ts hdr)) (cp_sim_last st) (cp_statproc st))
  else Val (0, st).

(** ** capture/readcap.c *)

Definition MAX_PKT_BYTES : Z := 1700.
(** [sizeof(struct pcap_file_header)] and [sizeof(struct pcap_pkthdr32)] *)
Definition SIZEOF_FILE_HEADER : nat := 24.
Definition SIZEOF_PKTHDR : nat := 16.

(** [read(fd, buf, n)] on a regular file: the bytes there are, up to [n]; the
    file position is the list of the bytes left. *)
Definition read_file (file : list Z) (n : nat) : list Z * list Z := (take n file, drop n file).

Definition decode_pkthdr (h : list Z) : pcap_pkthdr32_t :=
  mk_pcap_pkthdr32_t (mk_tval_t (le_val (take 4 h)) (le_val (take 4 (drop 4 h))))
    (le_val (take 4 (drop 8 h))) (le_val (take 4 (drop 12 h))).

(** A failed [open] is [None]. *)
Definition open_pcap (file : option (list Z)) : option (list Z) := drop SIZEOF_FILE_HEADER <$> file.

(** [tmpbuf] keeps what earlier reads left in it.  Every iteration but the last
    reads 16 bytes or more, so the file's length is enough fuel. *)
Fixpoint read_pcap_loop {S} (cb : pcap_pkthdr32_t -> list Z -> Z -> S -> res (Z * S)) (fuel : nat)
    (file tmpbuf : list Z) (pktnum : Z) (st : S) : res (Z * S) :=
  match fuel with
  | O => Undefined
  | Datatypes.S fuel' =>
      let '(h, file) := read_file file SIZEOF_PKTHDR in
      if Z.of_nat (length h) <? Z.of_nat SIZEOF_PKTHDR then Val (-1, st) else
      let hdr := decode_pkthdr h in
      let '(data, file) := read_file file (Z.to_nat (hdr_caplen hdr)) in
      if MAX_PKT_BYTES <? Z.of_nat (length data) then Undefined else
      let tmpbuf := data ++ drop (length data) tmpbuf in
      if u32 (Z.of_nat (length data)) <? hdr_caplen hdr then Val (-2, st) else
      let pktnum := i32 (pktnum + 1) in
      '(r, st) ← cb hdr tmpbuf pktnum st;
      if negb (r =? 0) then Val (-3, st) else
      read_pcap_loop cb fuel' file tmpbuf pktnum st
  end.

(** The value returned, with the text printed before the reports. *)
Definition main_file (env : Z -> pkt_env) (filename : string) (file : option (list Z)) (tmpbuf : list Z) (st : capture_t)
    : res (Z * string * capture_t) :=
  match open_pcap file with
  | None => Val (-1, "ERROR: unable to open " +:+ filename +:+ newline, st)
  | Some bytes =>
      '(_, st) ← read_pcap_loop (fun hdr buf n => on_packet true (env n) hdr buf)
                   (Datatypes.S (length bytes)) bytes tmpbuf 0 st;
      let e := env 0 in
      sp ← sim_finish (pe_ok_report e) (pe_now0 e) (pe_now1 e) 0 (g_shm (cp_shm st)) (cp_statproc st);
      Val (0, ""%string, mk_capture_t (cp_shm st) (cp_cleanup st) (cp_last_sec st) (cp_sim_last st) sp)
  end.

(** ** capture/capmain.c *)

(** The counters libpcap keeps, [None] when [pcap_stats] fails. *)
Definition get_libpcap_stats (stat : option (Z * Z * Z)) : Z * Z * Z :=
  match stat with
  | None => (0, 0, 0)
  | Some (ps_recv, ps_drop, ps_ifdrop) => (i32 ps_recv, i32 ps_ifdrop, i32 ps_drop)
  end.

(** [tlast_report] and the capture state; the header's fields are already those
    of the 32-bit copy.  [h->ts.tv_sec] is a [time_t]: the difference is signed. *)
Definition callback (env : pkt_env) (stat : option (Z * Z * Z)) (h : pcap_pkthdr32_t) (tv_sec64 : Z)
    (bytes : list Z) (tlast_report : Z) (st : capture_t) : res (Z * capture_t) :=
  let '(tlast_report, st) :=
    if tlast_report =? 0 then (u32 tv_sec64, st)
    else if 1 <=? tv_sec64 - tlast_report then
      let '(recv, ifdrops, kdrops) := get_libpcap_stats stat in
      (u32 tv_sec64, set_cp_shm (shm_update_capstats recv ifdrops kdrops (cp_shm st)) st)
    else (tlast_report, st) in
  '(_, st) ← on_packet false env h bytes st;
  Val (tlast_report, st).

(** ** Expired streams *)

(** A live stream without a packet for more than 30 seconds. *)
Definition expired (tv : Z) (streams : list stream_info_t) (i : Z) : bool :=
  match aget streams i with
  | Val e => negb (tv_sec (si_tstart e) =? 0) && (30 <? u32 (tv - tv_sec (si_tlast e)))
  | _ => false
  end.

(** The entries strictly inside the window of a managed array. *)
Definition inside (p : mga_info_t) : list Z := seqZ (mi_idx_lo p + 1) (mi_idx_hi p - mi_idx_lo p - 1).

Definition queue_add (tv : Z) (l : list Z) (q : list Z * list Z) : list Z * list Z :=
  if immediate tv then (take 3276 (fst q ++ l), snd q) else (fst q, take 1638 (snd q ++ l)).

Definition queues (c : cleanup_t) : list Z * list Z := (list_items c, wait_items c).

Lemma queue_add_app tv a b q : queue_add tv b (queue_add tv a q) = queue_add tv (a ++ b) q.
Proof.
  unfold queue_add. destruct (immediate tv); cbn [fst snd]; by rewrite take_take_app, <- app_assoc.
Qed.

Lemma queues_bound c : cleanup_inv c ->
  (length (list_items c) <= 3276)%nat /\ (length (wait_items c) <= 1638)%nat.
Proof.
  intros [Hl Hw [H1 H2]]. unfold list_items, wait_items.
  pose proof (length_items _ Hl). pose proof (length_items _ Hw).
  pose proof (ali_i _ Hl) as Hi. pose proof (ali_i _ Hw) as Hi2.
  rewrite H1 in Hi. rewrite H2 in Hi2.
  change (SI_NUM_STREAMS / 10) with 3276 in Hi. change (SI_NUM_STREAMS / 20) with 1638 in Hi2. lia.
Qed.

Lemma queue_add_nil tv c : cleanup_inv c -> queue_add tv [] (queues c) = queues c.
Proof.
  intros Hc. destruct (queues_bound c Hc). unfold queue_add, queues. cbn [fst snd].
  by destruct (immediate tv); rewrite app_nil_r, take_ge by lia.
Qed.

Lemma find_expired_ok tv s c :
  shm_inv s -> cleanup_inv c ->
  exists c', find_expired_streams tv s c = Val c' /\ cleanup_inv c' /\
    queues c' = queue_add tv (List.filter (expired tv (sh_streams (g_shm s)))
                  (inside (sh_stream_indexes (g_shm s)))) (queues c).
Proof.
  intros Hs Hc. unfold find_expired_streams, STREAM_EXPIRED_SEC.
  destruct (sv_statics _ Hs) as (_ & _ & Hst). rewrite Hst.
  pose proof (sv_str _ Hs) as Hm. pose proof (sv_streams _ Hs) as Hlen.
  set (p := sh_stream_indexes (g_shm s)) in *. set (arr := sh_streams (g_shm s)) in *.
  pose proof (inv_lo_min _ _ _ Hm) as H1. pose proof (inv_lo_nonneg _ _ _ Hm) as H2.
  pose proof (inv_lo_mid _ _ _ Hm) as H3. pose proof (inv_window _ _ _ Hm) as H4.
  pose proof (inv_hi _ _ _ Hm) as H5. change (mga_mid streams_mga) with 16384 in H3.
  cbn [idx_min idx_max streams_mga] in *. unfold SI_NUM_STREAMS in Hlen.
  rewrite (u32_small (mi_idx_lo p + 1)), i32_small by (unfold is_u32; lia).
  replace (mi_idx_hi p - (mi_idx_lo p + 1)) with (mi_idx_hi p - mi_idx_lo p - 1) by lia. fold (inside p).
  destruct (for_each_inv (fun dn c' => cleanup_inv c' /\
      queues c' = queue_add tv (List.filter (expired tv arr) dn) (queues c))
    (fun i c => idx ← mga_get streams_mga i; ss ← aget arr idx;
      if negb (is_stream_slot_empty ss =? 0) then Val c
      else if 30 <? u32 (tv - tv_sec (si_tlast ss)) then add_stream_to_cleanup_list tv idx c else Val c)
    (inside p) c) as (c' & Hf & Hc' & Hq); [| | by exists c'].
  - split; [done |]. by rewrite queue_add_nil.
  - intros dn i rest c1 Hsp (Hc1 & Hq1).
    assert (i ∈ inside p) as Hi by (rewrite Hsp; set_solver).
    apply elem_of_seqZ in Hi. unfold mga_get. cbn [idx_min idx_max streams_mga].
    rewrite (proj2 (Z.ltb_ge _ _)), (proj2 (Z.ltb_ge _ _)) by lia. cbn [orb negb c_assert].
    rewrite bind_Val. destruct (aget_lt arr i) as [e He]; [lia |]. rewrite He, bind_Val.
    rewrite List.filter_app. cbn [List.filter]. unfold expired at 2. rewrite He. unfold is_stream_slot_empty.
    destruct (tv_sec (si_tstart e) =? 0); cbn [Z.eqb negb andb].
    { exists c1. by rewrite app_nil_r. }
    destruct (30 <? u32 (tv - tv_sec (si_tlast e))).
    + destruct (add_stream_take tv i c1 Hc1) as (c2 & -> & Hc2 & Hq2). exists c2. split; [done |].
      split; [done |]. rewrite <- queue_add_app, <- Hq1. unfold queues at 1. rewrite Hq2.
      unfold queue_add, queues. by destruct (immediate tv).
    + exists c1. by rewrite app_nil_r.
Qed.

(** ** Updates of single entries *)

Definition stream_at (s : shm_t) (i : Z) (e : stream_info_t) : Prop := aget (sh_streams (g_shm s)) i = Val e.
Definition addr_at (s : shm_t) (i : Z) (a : addr_info_t) : Prop := aget (sh_addrs (g_shm s)) i = Val a.

Definition put_stream (i : Z) (e : stream_info_t) (s : shm_t) : shm_t :=
  set_g_shm (set_sh_streams (<[Z.to_nat i := e]> (sh_streams (g_shm s))) (g_shm s)) s.
Definition put_addr (i : Z) (a : addr_info_t) (s : shm_t) : shm_t :=
  set_g_shm (set_sh_addrs (<[Z.to_nat i := a]> (sh_addrs (g_shm s))) (g_shm s)) s.

Lemma upd_stream_at i e f s :
  stream_at s i e -> upd_stream i f s = Val (put_stream i (f e) s) /\ stream_at (put_stream i (f e) s) i (f e).
Proof.
  intros He. pose proof (aget_inv _ _ _ He) as Hb. split.
  - unfold upd_stream. rewrite He, bind_Val, aset_lt by done. done.
  - unfold stream_at, put_stream. cbn. by rewrite aget_insert_eq.
Qed.

Lemma upd_addr_at i a f s :
  addr_at s i a -> upd_addr i f s = Val (put_addr i (f a) s) /\ addr_at (put_addr i (f a) s) i (f a).
Proof.
  intros He. pose proof (aget_inv _ _ _ He) as Hb. split.
  - unfold upd_addr. rewrite He, bind_Val, aset_lt by done. done.
  - unfold addr_at, put_addr. cbn. by rewrite aget_insert_eq.
Qed.

Lemma put_stream_ne i j e e' s : i <> j -> 0 <= i -> stream_at s j e' -> stream_at (put_stream i e s) j e'.
Proof. intros Hne H0 He. unfold stream_at, put_stream. cbn. by rewrite aget_insert_ne. Qed.

Lemma put_addr_ne i j a a' s : i <> j -> 0 <= i -> addr_at s j a' -> addr_at (put_addr i a s) j a'.
Proof. intros Hne H0 He. unfold addr_at, put_addr. cbn. by rewrite aget_insert_ne. Qed.

(** What an operation on the counters may touch: everything but the streams'
    and addresses' entries, and all entries but the ones named, is as before. *)
Record counters_frame (s s' : shm_t) (streams addrs : list Z) : Prop := {
  cf_streams : forall j e, j ∉ streams -> stream_at s j e -> stream_at s' j e;
  cf_addrs : forall j a, j ∉ addrs -> addr_at s j a -> addr_at s' j a;
  cf_idx : sh_stream_indexes (g_shm s') = sh_stream_indexes (g_shm s) /\
           sh_addr_lan_indexes (g_shm s') = sh_addr_lan_indexes (g_shm s) /\
           sh_addr_wan_indexes (g_shm s') = sh_addr_wan_indexes (g_shm s);
  cf_tbls : ht_streams s' = ht_streams s /\ ht_v4addrs s' = ht_v4addrs s /\ g_mem s' = g_mem s;
  cf_statics : g_lan_addrs s' = g_lan_addrs s /\ g_wan_addrs s' = g_wan_addrs s /\ g_streams s' = g_streams s;
  cf_len : length (sh_streams (g_shm s')) = length (sh_streams (g_shm s)) /\
           length (sh_addrs (g_shm s')) = length (sh_addrs (g_shm s)) /\
           length (sh_flow_stats (g_shm s')) = length (sh_flow_stats (g_shm s)) /\
           length (sh_protos (g_shm s')) = length (sh_protos (g_shm s))
}.

Lemma frame_refl s l k : counters_frame s s l k.
Proof. by split. Qed.

Lemma frame_trans s1 s2 s3 l k :
  counters_frame s1 s2 l k -> counters_frame s2 s3 l k -> counters_frame s1 s3 l k.
Proof.
  intros [A1 A2 A3 A4 A5 A6] [B1 B2 B3 B4 B5 B6].
  split; [by eauto .. | | | |]; intuition congruence.
Qed.

Lemma frame_weaken s s' l k l' k' :
  counters_frame s s' l k -> l ⊆ l' -> k ⊆ k' -> counters_frame s s' l' k'.
Proof.
  intros [H1 H2 H3 H4 H5 H6] Hl Hk. split; [| | done ..].
  - intros j e Hj. apply H1. set_solver.
  - intros j a Hj. apply H2. set_solver.
Qed.

Lemma length_insert_streams i e s : length (sh_streams (g_shm (put_stream i e s))) = length (sh_streams (g_shm s)).
Proof. apply length_insert. Qed.
Lemma length_insert_addrs i a s : length (sh_addrs (g_shm (put_addr i a s))) = length (sh_addrs (g_shm s)).
Proof. apply length_insert. Qed.

Lemma frame_put_stream i e s l k : 0 <= i -> i ∈ l -> counters_frame s (put_stream i e s) l k.
Proof.
  intros H0 Hi. split; try done; [| by rewrite length_insert_streams].
  intros j e' Hj He. apply put_stream_ne; try done. by intros ->.
Qed.

Lemma frame_put_addr i a s l k : 0 <= i -> i ∈ k -> counters_frame s (put_addr i a s) l k.
Proof.
  intros H0 Hi. split; try done; [| by rewrite length_insert_addrs].
  intros j e' Hj He. apply put_addr_ne; try done. by intros ->.
Qed.

(** Another entry after an update. *)
Ltac put_ne :=
  first [apply put_addr_ne | apply put_stream_ne];
  [solve [congruence | lia] | lia | assumption].

(** ** Address counters *)

Definition ends_of (dir : PktDir) (l r : Z) : Z * Z :=
  match dir with LEFT_TO_RIGHT => (l, r) | _ => (r, l) end.

Lemma inc_addr_ctrs_ok l r dir len s al ar :
  addr_at s l al -> addr_at s r ar -> l <> r ->
  exists s', inc_addr_ctrs l r dir len s = Val s' /\
    (let '(a1, a2) := match dir with
       | LEFT_TO_RIGHT => (inc_addr_tx len al, inc_addr_rx len ar)
       | _ => (inc_addr_rx len al, inc_addr_tx len ar)
       end in addr_at s' l a1 /\ addr_at s' r a2) /\
    sh_streams (g_shm s') = sh_streams (g_shm s) /\ sh_flow_stats (g_shm s') = sh_flow_stats (g_shm s) /\
    sh_protos (g_shm s') = sh_protos (g_shm s) /\
    forall k, counters_frame s s' k [l; r].
Proof.
  intros Hl Hr Hne. pose proof (aget_inv _ _ _ Hl). pose proof (aget_inv _ _ _ Hr).
  assert (forall i j f g ai aj, addr_at s i ai -> addr_at s j aj -> i <> j -> 0 <= i -> 0 <= j ->
    i ∈ [l; r] -> j ∈ [l; r] ->
    exists s', (s1 ← upd_addr i f s; upd_addr j g s1) = Val s' /\ addr_at s' i (f ai) /\ addr_at s' j (g aj) /\
      sh_streams (g_shm s') = sh_streams (g_shm s) /\ sh_flow_stats (g_shm s') = sh_flow_stats (g_shm s) /\
      sh_protos (g_shm s') = sh_protos (g_shm s) /\ forall k, counters_frame s s' k [l; r]) as Htwo.
  { intros i j f g ai aj Hi Hj Hij H0i H0j Hin Hjn.
    destruct (upd_addr_at i ai f s Hi) as [-> H1]. rewrite bind_Val.
    destruct (upd_addr_at j aj g (put_addr i (f ai) s)) as [-> H2]; [by apply put_addr_ne |].
    eexists. split; [done |]. split; [by apply put_addr_ne |]. split; [done |].
    repeat (split; [done |]). intros k. eapply frame_trans; by apply frame_put_addr. }
  unfold inc_addr_ctrs. destruct dir.
  - destruct (Htwo l r (inc_addr_tx len) (inc_addr_rx len) al ar) as (s' & -> & H1 & H2 & Hrest); [done || lia || set_solver .. |].
    exists s'. split; [done |]. by split.
  - destruct (Htwo r l (inc_addr_tx len) (inc_addr_rx len) ar al) as (s' & -> & H1 & H2 & Hrest); [done || lia || set_solver .. |].
    exists s'. split; [done |]. by split.
  - destruct (Htwo r l (inc_addr_tx len) (inc_addr_rx len) ar al) as (s' & -> & H1 & H2 & Hrest); [done || lia || set_solver .. |].
    exists s'. split; [done |]. by split.
Qed.

(** An address when a stream of it starts. *)
Definition start_stream (first : bool) (a : addr_info_t) : addr_info_t :=
  if first then inc_nstreams_active (inc_nstreams a) else a.

Lemma start_stream_ok (first : bool) l r s al ar :
  addr_at s l al -> addr_at s r ar -> l <> r ->
  exists s', (if first then
       s ← upd_addr l inc_nstreams s;
       s ← upd_addr r inc_nstreams s;
       s ← upd_addr l inc_nstreams_active s;
       upd_addr r inc_nstreams_active s
     else Val s) = Val s' /\
    addr_at s' l (start_stream first al) /\ addr_at s' r (start_stream first ar) /\
    sh_streams (g_shm s') = sh_streams (g_shm s) /\ sh_flow_stats (g_shm s') = sh_flow_stats (g_shm s) /\
    sh_protos (g_shm s') = sh_protos (g_shm s) /\ forall k, counters_frame s s' k [l; r].
Proof.
  intros Hl Hr Hne. pose proof (aget_inv _ _ _ Hl). pose proof (aget_inv _ _ _ Hr).
  destruct first; [| exists s; repeat (split; [done |]); intros k; apply frame_refl].
  destruct (upd_addr_at l al inc_nstreams s Hl) as [-> H1]. rewrite bind_Val.
  set (s1 := put_addr l _ s) in *.
  assert (addr_at s1 r ar) as Hr1 by put_ne.
  destruct (upd_addr_at r ar inc_nstreams s1 Hr1) as [-> H2]. rewrite bind_Val.
  set (s2 := put_addr r _ s1) in *.
  assert (addr_at s2 l (inc_nstreams al)) as Hl2 by put_ne.
  destruct (upd_addr_at l _ inc_nstreams_active s2 Hl2) as [-> H3]. rewrite bind_Val.
  set (s3 := put_addr l _ s2) in *.
  assert (addr_at s3 r (inc_nstreams ar)) as Hr3 by put_ne.
  destruct (upd_addr_at r _ inc_nstreams_active s3 Hr3) as [-> H4].
  eexists. split; [done |]. split; [put_ne |]. split; [done |].
  repeat (split; [done |]). intros k.
  repeat (eapply frame_trans; [| apply frame_put_addr; [lia | set_solver]]). apply frame_refl.
Qed.

Definition end_counters (dir : PktDir) (len : Z) (al ar : addr_info_t) : addr_info_t * addr_info_t :=
  match dir with
  | LEFT_TO_RIGHT => (inc_addr_tx len al, inc_addr_rx len ar)
  | _ => (inc_addr_rx len al, inc_addr_tx len ar)
  end.

Lemma inc_stream_counters_ok ss dir len s e al ar :
  let l := si_idx_left e in
  let r := si_idx_right e in
  stream_at s ss e -> addr_at s l al -> addr_at s r ar -> l <> r ->
  l < SI_NUM_ADDRS -> r < SI_NUM_ADDRS ->
  exists s', inc_stream_counters ss dir len s = Val s' /\
    stream_at s' ss (inc_stream len e) /\
    (let first := u32 (si_packets e + 1) =? 1 in
     let '(a1, a2) := end_counters dir len (start_stream first al) (start_stream first ar) in
     addr_at s' l a1 /\ addr_at s' r a2) /\
    sh_flow_stats (g_shm s') = sh_flow_stats (g_shm s) /\ sh_protos (g_shm s') = sh_protos (g_shm s) /\
    counters_frame s s' [ss] [l; r].
Proof.
  intros l r Hs Hl Hr Hne Hlb Hrb. pose proof (aget_inv _ _ _ Hs). unfold inc_stream_counters.
  destruct (upd_stream_at ss e (inc_stream len) s Hs) as [-> H1]. rewrite bind_Val.
  set (s1 := put_stream ss _ s) in *. rewrite H1, bind_Val.
  change (si_idx_left (inc_stream len e)) with l. change (si_idx_right (inc_stream len e)) with r.
  unfold shm_addr_get, _check_addr_index.
  rewrite (proj2 (Z.ltb_lt _ _) Hlb), (proj2 (Z.ltb_lt _ _) Hrb), !bind_Val.
  change (si_packets (inc_stream len e)) with (u32 (si_packets e + 1)).
  set (first := u32 (si_packets e + 1) =? 1).
  destruct (start_stream_ok first l r s1 al ar Hl Hr Hne) as (s2 & -> & Hl2 & Hr2 & E1 & E2 & E3 & Hf2).
  rewrite bind_Val.
  destruct (inc_addr_ctrs_ok l r dir len s2 _ _ Hl2 Hr2 Hne) as (s3 & -> & Hends & G1 & G2 & G3 & Hf3).
  exists s3. split; [done |].
  split; [unfold stream_at; by rewrite G1, E1 |]. split; [exact Hends |].
  split; [by rewrite G2, E2 |]. split; [by rewrite G3, E3 |].
  apply (frame_trans _ s2); [apply (frame_trans _ s1) |]; [| apply Hf2 | apply Hf3].
  apply frame_put_stream; [lia | set_solver].
Qed.

(** ** A packet of a stream *)

(** The class of a stream is one of the flow counters. *)
Definition flow_class (e : stream_info_t) : Z := Z.land (si_flowflags e) 7.

Lemma upd_flow_ok i f s :
  0 <= i < Z.of_nat (length (sh_flow_stats (g_shm s))) ->
  upd_flow i f s = Val (set_g_shm (set_sh_flow_stats (alter f (Z.to_nat i) (sh_flow_stats (g_shm s))) (g_shm s)) s).
Proof.
  intros Hi. destruct (amodify f _ i Hi) as (x & Hx & Ha). unfold upd_flow. by rewrite Hx, bind_Val, Ha.
Qed.

Lemma cleanup_flag_class f : Z.land (Z.lor f FLOW_FLAG_CLEANUP) 7 = Z.land f 7.
Proof. rewrite Z.land_lor_distr_l. change (Z.land FLOW_FLAG_CLEANUP 7) with 0. apply Z.lor_0_r. Qed.

(** The packet ends the connection and the stream is not marked for cleanup yet. *)
Definition finishing (pkt : pktinfo_t) (e : stream_info_t) : bool :=
  negb (istcp pkt =? 0) && negb (isfin pkt =? 0) && (Z.land (si_flowflags e) FLOW_FLAG_CLEANUP =? 0).

(** A packet with FIN or RST, and a stream that had one. *)
Definition ends_connection (pkt : pktinfo_t) : bool := negb (istcp pkt =? 0) && negb (isfin pkt =? 0).
Definition marked (e : stream_info_t) : bool := negb (Z.land (si_flowflags e) FLOW_FLAG_CLEANUP =? 0).

Lemma finishing_marked pkt e : finishing pkt e = ends_connection pkt && negb (marked e).
Proof. unfold finishing, ends_connection, marked. by rewrite negb_involutive. Qed.

Lemma ends_connection_not pkt : istcp pkt = 0 \/ isfin pkt = 0 -> ends_connection pkt = false.
Proof. unfold ends_connection. intros [-> | ->]; [done | apply andb_false_r]. Qed.

Definition tcp_entry (pkt : pktinfo_t) (e : stream_info_t) : stream_info_t :=
  let e1 := if istcp pkt =? 0 then e else set_si_tcpflags (Z.lor (si_tcpflags e) (tcpflags pkt)) e in
  if finishing pkt e then set_si_flowflags (Z.lor (si_flowflags e) FLOW_FLAG_CLEANUP) e1 else e1.

Lemma tcp_entry_class pkt e : flow_class (tcp_entry pkt e) = flow_class e.
Proof.
  unfold tcp_entry, flow_class. destruct (finishing pkt e); [cbn; apply cleanup_flag_class |].
  by destruct (istcp pkt =? 0).
Qed.

Lemma tcp_update_ok hdr pkt ss s c e :
  stream_at s ss e -> cleanup_inv c ->
  exists s' c', tcp_update hdr pkt ss s c = Val (s', c') /\ stream_at s' ss (tcp_entry pkt e) /\
    sh_addrs (g_shm s') = sh_addrs (g_shm s) /\ sh_flow_stats (g_shm s') = sh_flow_stats (g_shm s) /\
    sh_protos (g_shm s') = sh_protos (g_shm s) /\ (forall k, counters_frame s s' [ss] k) /\
    cleanup_inv c' /\
    queues c' = (if finishing pkt e then queue_add (tv_sec (hdr_ts hdr)) [ss] (queues c) else queues c).
Proof.
  intros Hs Hc. pose proof (aget_inv _ _ _ Hs) as Hb. unfold tcp_update, tcp_entry, finishing.
  destruct (istcp pkt =? 0); cbn [negb andb].
  { exists s, c. repeat (split; [done || (intros k; apply frame_refl) |]). done. }
  destruct (upd_stream_at ss e (fun e => set_si_tcpflags (Z.lor (si_tcpflags e) (tcpflags pkt)) e) s Hs) as [-> H1].
  rewrite bind_Val, H1, bind_Val. set (e1 := set_si_tcpflags _ e) in *. set (s1 := put_stream ss _ s) in *.
  assert (forall k, counters_frame s s1 [ss] k) as Hf1 by (intros k; apply frame_put_stream; [lia | set_solver]).
  change (si_flowflags e1) with (si_flowflags e). destruct (negb (isfin pkt =? 0) && _).
  2: { exists s1, c. repeat (split; [done || exact Hf1 |]). done. }
  destruct (add_stream_take (tv_sec (hdr_ts hdr)) ss c Hc) as (c' & -> & Hc' & Hq). rewrite bind_Val.
  destruct (upd_stream_at ss e1 (fun e => set_si_flowflags (Z.lor (si_flowflags e) FLOW_FLAG_CLEANUP) e) s1 H1)
    as [-> H2]. rewrite bind_Val.
  do 2 eexists. split; [done |]. split; [exact H2 |].
  repeat (split; [done |]). split; [| split; [done |]].
  - intros k. apply (frame_trans _ s1); [apply Hf1 |]. apply frame_put_stream; [lia | set_solver].
  - unfold queues at 1. rewrite Hq. unfold queue_add, queues. by destruct (immediate _).
Qed.

Lemma inc_flow_stats_ok ss len s e :
  stream_at s ss e -> 0 <= flow_class e < 6 -> length (sh_flow_stats (g_shm s)) = Z.to_nat SI_NUM_FLOWTYPES ->
  exists s', shm_inc_flow_stats ss len s = Val s' /\
    sh_flow_stats (g_shm s') = alter (add_flow len) (Z.to_nat (flow_class e)) (sh_flow_stats (g_shm s)) /\
    sh_streams (g_shm s') = sh_streams (g_shm s) /\ sh_addrs (g_shm s') = sh_addrs (g_shm s) /\
    sh_protos (g_shm s') = sh_protos (g_shm s) /\ forall l k, counters_frame s s' l k.
Proof.
  intros Hs Hc Hf. unfold shm_inc_flow_stats. rewrite Hs, bind_Val. fold (flow_class e).
  rewrite (proj2 (Z.ltb_lt _ _)) by (apply Hc). cbn [c_assert].
  rewrite upd_flow_ok by (rewrite Hf; unfold SI_NUM_FLOWTYPES; lia).
  eexists. split; [done |]. repeat (split; [done |]). intros l k. split; try done.
  repeat (split; [done |]). split; [apply length_alter | done].
Qed.

Lemma inc_protocol_ok ipproto rport dir len s :
  length (sh_protos (g_shm s)) = Z.to_nat SI_NUM_PROTOS -> is_u16 rport ->
  exists s', inc_protocol_counters ipproto rport dir len s = Val s' /\
    sh_protos (g_shm s') = (match shm_get_protocol ipproto rport with
      | None => sh_protos (g_shm s)
      | Some i => alter (inc_proto dir len) (Z.to_nat i) (sh_protos (g_shm s))
      end) /\
    sh_streams (g_shm s') = sh_streams (g_shm s) /\ sh_addrs (g_shm s') = sh_addrs (g_shm s) /\
    sh_flow_stats (g_shm s') = sh_flow_stats (g_shm s) /\ forall l k, counters_frame s s' l k.
Proof.
  intros Hlen Hr. unfold inc_protocol_counters.
  destruct (shm_get_protocol ipproto rport) as [i |] eqn:Hi.
  2: { exists s. repeat (split; [done |]). intros l k. apply frame_refl. }
  assert (0 <= i < SI_NUM_PROTOS) as Hb.
  { unfold shm_get_protocol, SI_NUM_PROTOS, SI_NUM_TCP_PROTOS, is_u16 in *.
    destruct (Z.leb_spec 9110 rport); [done |]. injection Hi as <-.
    destruct (_ =? _); [| lia]. rewrite u16_small by (unfold is_u16; lia). lia. }
  destruct (amodify (inc_proto dir len) (sh_protos (g_shm s)) i) as (x & Hx & Ha);
    [unfold SI_NUM_PROTOS, SI_NUM_TCP_PROTOS in *; lia |].
  unfold upd_proto. rewrite Hx, bind_Val, Ha, bind_Val.
  eexists. split; [done |]. repeat (split; [done |]). intros l k. split; try done.
  repeat (split; [done |]). apply length_alter.
Qed.

(** The entry of a stream after one of its packets. *)
Definition counted_stream (hdr : pcap_pkthdr32_t) (vlan : Z) (pkt : pktinfo_t) (e : stream_info_t) : stream_info_t :=
  let e := tcp_entry pkt (set_si_tlast (hdr_ts hdr) e) in
  inc_stream (i32 (hdr_len hdr)) (if si_packets e =? 1 then set_si_vlan (u8 vlan) e else e).

Lemma counted_marked hdr vlan pkt e : marked (counted_stream hdr vlan pkt e) = marked e || ends_connection pkt.
Proof.
  assert (forall f, Z.land (Z.lor f FLOW_FLAG_CLEANUP) FLOW_FLAG_CLEANUP = FLOW_FLAG_CLEANUP) as Hf.
  { intros f. rewrite Z.land_lor_distr_l, Z.land_diag. apply Z.bits_inj'. intros n _. rewrite Z.lor_spec, Z.land_spec. by destruct (Z.testbit _ _), (Z.testbit _ _). }
  assert (marked (tcp_entry pkt (set_si_tlast (hdr_ts hdr) e)) = marked e || ends_connection pkt) as H.
  { unfold tcp_entry. rewrite finishing_marked. change (marked (set_si_tlast (hdr_ts hdr) e)) with (marked e).
    destruct (ends_connection pkt), (marked e) eqn:Hm; cbn [andb negb orb];
      try (destruct (istcp pkt =? 0); exact Hm). destruct (istcp pkt =? 0); unfold marked; cbn; by rewrite Hf. }
  unfold counted_stream. cbv zeta. rewrite <- H. by case_match.
Qed.

(** Everything a counted packet does to its stream, the stream's two addresses
    and the counters of its flow type and service port, and nothing else. *)
Record counted (hdr : pcap_pkthdr32_t) (vlan : Z) (pkt : pktinfo_t) (dir : PktDir) (ss : Z)
    (e : stream_info_t) (al ar : addr_info_t) (s s' : shm_t) : Prop := {
  ct_stream : stream_at s' ss (counted_stream hdr vlan pkt e);
  ct_addrs : let first := u32 (si_packets e + 1) =? 1 in
    let '(al', ar') := end_counters dir (i32 (hdr_len hdr)) (start_stream first al) (start_stream first ar) in
    addr_at s' (si_idx_left e) al' /\ addr_at s' (si_idx_right e) ar';
  ct_flow : sh_flow_stats (g_shm s') =
    alter (add_flow (i32 (hdr_len hdr))) (Z.to_nat (flow_class e)) (sh_flow_stats (g_shm s));
  ct_proto : sh_protos (g_shm s') = match shm_get_protocol (si_ipproto e) (si_rport e) with
    | None => sh_protos (g_shm s)
    | Some i => alter (inc_proto dir (i32 (hdr_len hdr))) (Z.to_nat i) (sh_protos (g_shm s))
    end;
  ct_frame : counters_frame s s' [ss] [si_idx_left e; si_idx_right e]
}.

(** Fields of the entry the rest of the handler reads. *)
Lemma tcp_entry_fields pkt e :
  si_packets (tcp_entry pkt e) = si_packets e /\ si_idx_left (tcp_entry pkt e) = si_idx_left e /\
  si_idx_right (tcp_entry pkt e) = si_idx_right e /\ si_ipproto (tcp_entry pkt e) = si_ipproto e /\
  si_rport (tcp_entry pkt e) = si_rport e.
Proof. unfold tcp_entry. by destruct (finishing pkt e), (istcp pkt =? 0). Qed.

(** Entries that keep their free mark keep the block's invariant. *)
Lemma taken_same {E} `{MgaEntry E} (arr arr' : list E) :
  length arr' = length arr ->
  (forall j e, aget arr j = Val e -> exists e', aget arr' j = Val e' /\ entry_status e' = entry_status e) ->
  forall j, taken arr' j = taken arr j.
Proof.
  intros Hl He j. unfold taken.
  destruct (decide (0 <= j < Z.of_nat (length arr))) as [Hj | Hj].
  - destruct (aget_lt arr j Hj) as [e Hae]. destruct (He j e Hae) as (e' & -> & Hs). by rewrite Hae, Hs.
  - by rewrite !aget_out by (rewrite ?Hl; done).
Qed.

Lemma frame_inv s s' l k :
  shm_inv s -> counters_frame s s' l k ->
  (forall j e, j ∈ l -> stream_at s j e -> exists e', stream_at s' j e' /\ si_tstart e' = si_tstart e) ->
  (forall j a, j ∈ k -> addr_at s j a -> exists a', addr_at s' j a' /\ ai_tstart a' = ai_tstart a) ->
  shm_inv s'.
Proof.
  intros Hi [F1 F2 [F3 [F4 F5]] [F6 [F7 F8]] [F9 [F10 F11]] [F12 [F13 [F14 F15]]]] Hs Ha.
  assert (forall j, taken (sh_streams (g_shm s')) j = taken (sh_streams (g_shm s)) j) as Hts.
  { apply taken_same; [done |]. intros j e He. destruct (decide (j ∈ l)) as [Hj | Hj].
    - destruct (Hs j e Hj He) as (e' & He' & Ht). exists e'. split; [done |].
      unfold entry_status, isempty_func, stream_isempty_func. cbn. by rewrite Ht.
    - exists e. split; [by apply F1 | done]. }
  assert (forall j, taken (sh_addrs (g_shm s')) j = taken (sh_addrs (g_shm s)) j) as Hta.
  { apply taken_same; [done |]. intros j a He. destruct (decide (j ∈ k)) as [Hj | Hj].
    - destruct (Ha j a Hj He) as (a' & He' & Ht). exists a'. split; [done |].
      unfold entry_status, isempty_func, addr_isempty_func. cbn. by rewrite Ht.
    - exists a. split; [by apply F2 | done]. }
  destruct Hi. split; try congruence; unfold addr_tbl_inv, addr_dict in *;
    rewrite ?F9, ?F10, ?F11, ?F3, ?F4, ?F5, ?F7, ?F8; try done;
    (eapply mga_inv_frame; [eassumption | intros; first [apply Hta | apply Hts] | eassumption]).
Qed.

Lemma counted_tstart hdr vlan pkt e : si_tstart (counted_stream hdr vlan pkt e) = si_tstart e.
Proof.
  unfold counted_stream, tcp_entry. cbv zeta.
  by destruct (finishing _ _), (istcp _ =? 0); cbn; case_match.
Qed.

Lemma ends_tstart dir len (first : bool) al ar :
  let '(a1, a2) := end_counters dir len (start_stream first al) (start_stream first ar) in
  ai_tstart a1 = ai_tstart al /\ ai_tstart a2 = ai_tstart ar.
Proof. by destruct dir, first. Qed.

Lemma counted_inv hdr vlan pkt dir ss e al ar s s' :
  stream_at s ss e -> addr_at s (si_idx_left e) al -> addr_at s (si_idx_right e) ar ->
  counted hdr vlan pkt dir ss e al ar s s' -> shm_inv s -> shm_inv s'.
Proof.
  intros Hs Hl Hr [C1 C2 _ _ C5] Hi. eapply frame_inv; [exact Hi | exact C5 | |].
  - intros j x ->%list_elem_of_singleton Hx. eexists. split; [exact C1 |].
    rewrite counted_tstart. unfold stream_at in *. congruence.
  - cbv zeta in C2. set (first := _ =? 1) in C2.
    pose proof (ends_tstart dir (i32 (hdr_len hdr)) first al ar) as Ht.
    destruct (end_counters _ _ _ _) as [a1 a2]. destruct C2 as [C2 C2']. destruct Ht as [Ht1 Ht2].
    intros j x [-> | ->%list_elem_of_singleton]%elem_of_cons Hx; unfold addr_at in *.
    + exists a1. split; [done | congruence].
    + exists a2. split; [done | congruence].
Qed.

Lemma stream_packet_ok hdr buf pkt vlan dir ss s c e al ar :
  shm_inv s ->
  stream_at s ss e -> addr_at s (si_idx_left e) al -> addr_at s (si_idx_right e) ar ->
  si_idx_left e <> si_idx_right e -> is_u16 (si_rport e) -> 0 <= flow_class e < 6 -> cleanup_inv c ->
  pkt_get_vlan buf pkt = Val vlan ->
  exists s' c', stream_packet hdr buf pkt dir ss s c = Val (s', c') /\
    counted hdr vlan pkt dir ss e al ar s s' /\ shm_inv s' /\ cleanup_inv c' /\
    queues c' = (if finishing pkt e then queue_add (tv_sec (hdr_ts hdr)) [ss] (queues c) else queues c).
Proof.
  intros Hi Hs Hl Hr Hne Hport Hcl Hc Hv. pose proof (aget_inv _ _ _ Hs) as Hb. unfold stream_packet.
  pose proof (aget_inv _ _ _ Hl) as Hlb. pose proof (aget_inv _ _ _ Hr) as Hrb.
  rewrite (sv_addrs _ Hi) in Hlb, Hrb. unfold SI_NUM_ADDRS in Hlb, Hrb.
  set (len := i32 (hdr_len hdr)).
  destruct (upd_stream_at ss e (set_si_tlast (hdr_ts hdr)) s Hs) as [-> H1]. rewrite bind_Val.
  set (e1 := set_si_tlast _ e) in *. set (s1 := put_stream ss _ s) in *.
  assert (counters_frame s s1 [ss] []) as F1 by (apply frame_put_stream; [lia | set_solver]).
  destruct (tcp_update_ok hdr pkt ss s1 c e1 H1 Hc) as (s2 & c' & -> & H2 & A2 & Fl2 & P2 & F2 & Hc' & Hq').
  rewrite bind_Val, H2, bind_Val. set (e2 := tcp_entry pkt e1) in *.
  destruct (tcp_entry_fields pkt e1) as (Ep & El & Er & Ei & Eport). pose proof (tcp_entry_class pkt e1) as Ec.
  fold e2 in Ep, El, Er, Ei, Eport, Ec.
  set (e3 := if si_packets e2 =? 1 then set_si_vlan (u8 vlan) e2 else e2).
  assert (exists s3, (if si_packets e2 =? 1 then v ← pkt_get_vlan buf pkt; upd_stream ss (set_si_vlan (u8 v)) s2
      else Val s2) = Val s3 /\ stream_at s3 ss e3 /\ sh_addrs (g_shm s3) = sh_addrs (g_shm s2) /\
    sh_flow_stats (g_shm s3) = sh_flow_stats (g_shm s2) /\ sh_protos (g_shm s3) = sh_protos (g_shm s2) /\
    counters_frame s2 s3 [ss] []) as (s3 & -> & H3 & A3 & Fl3 & P3 & F3).
  { unfold e3. destruct (si_packets e2 =? 1).
    - rewrite Hv, bind_Val. destruct (upd_stream_at ss e2 (set_si_vlan (u8 vlan)) s2 H2) as [-> H3].
      eexists. split; [done |]. split; [exact H3 |]. repeat (split; [done |]).
      apply frame_put_stream; [lia | set_solver].
    - exists s2. repeat (split; [done |]). apply frame_refl. }
  rewrite bind_Val.
  assert (si_idx_left e3 = si_idx_left e /\ si_idx_right e3 = si_idx_right e /\ si_packets e3 = si_packets e /\
    si_ipproto e3 = si_ipproto e /\ si_rport e3 = si_rport e /\ flow_class e3 = flow_class e)
    as (Ll & Lr & Lp & Li & Lport & Lc).
  { unfold e3. by destruct (si_packets e2 =? 1). }
  destruct (inc_stream_counters_ok ss dir len s3 e3 al ar) as (s4 & -> & H4 & A4 & Fl4 & P4 & F4);
    rewrite ?Ll, ?Lr; try done; [unfold addr_at; rewrite A3, A2; done .. | apply Hlb | apply Hrb |].
  rewrite Ll, Lr, Lp in *. rewrite bind_Val.
  destruct (inc_flow_stats_ok ss len s4 (inc_stream len e3) H4) as (s5 & -> & Fl5 & S5 & A5 & P5 & F5).
  { change (0 <= flow_class e3 < 6). by rewrite Lc. }
  { rewrite Fl4, Fl3, Fl2. apply (sv_flow _ Hi). }
  change (flow_class (inc_stream len e3)) with (flow_class e3) in Fl5. rewrite Lc in Fl5.
  rewrite bind_Val, S5, H4, bind_Val.
  change (si_ipproto (inc_stream len e3)) with (si_ipproto e3).
  change (si_rport (inc_stream len e3)) with (si_rport e3). rewrite Li, Lport.
  destruct (inc_protocol_ok (si_ipproto e) (si_rport e) dir len s5) as (s6 & -> & P6 & S6 & A6 & Fl6 & F6);
    [rewrite P5, P4, P3, P2; apply (sv_protos _ Hi) | done |].
  rewrite bind_Val. exists s6, c'. split; [done |].
  assert (counted hdr vlan pkt dir ss e al ar s s6) as Hct; [| split; [exact Hct |]; split; [| by split]].
  2: { eapply counted_inv; [exact Hs | exact Hl | exact Hr | exact Hct | exact Hi]. }
  split.
  - unfold stream_at. rewrite S6, S5. exact H4.
  - cbv zeta in A4 |- *. unfold addr_at in *. rewrite A6, A5. exact A4.
  - rewrite Fl6, Fl5, Fl4, Fl3, Fl2. done.
  - rewrite P6, P5, P4, P3, P2. done.
  - apply (frame_trans _ s5); [| apply F6]. apply (frame_trans _ s4); [| apply F5].
    apply (frame_trans _ s3); [| exact F4].
    eapply (frame_weaken _ _ [ss] []); [| done | set_solver].
    apply (frame_trans _ s2); [| exact F3]. apply (frame_trans _ s1); [exact F1 | apply F2].
Qed.

(** ** From the bytes of a packet *)

(** The direction of a packet, from its key. *)
Definition packet_dir (buf : list Z) : PktDir :=
  if negb (i8 (fst (packet_key buf)) =? 0) then RIGHT_TO_LEFT else LEFT_TO_RIGHT.

(** The state after the global counters of a packet. *)
Definition global_counted (hdr : pcap_pkthdr32_t) (s : shm_t) : shm_t :=
  let s := set_g_shm (set_sh_flow_stats (alter (add_flow (i32 (hdr_len hdr))) (Z.to_nat FLOW_TYPE_TOTAL)
    (sh_flow_stats (g_shm s))) (g_shm s)) s in
  let s := set_g_shm (set_sh_tnow (hdr_ts hdr) (g_shm s)) s in
  if tv_sec (sh_tstart (g_shm s)) =? 0 then set_g_shm (set_sh_tstart (hdr_ts hdr) (g_shm s)) s else s.

Lemma inc_global_ok hdr s :
  length (sh_flow_stats (g_shm s)) = Z.to_nat SI_NUM_FLOWTYPES ->
  shm_inc_global (hdr_ts hdr) (i32 (hdr_len hdr)) s = Val (global_counted hdr s).
Proof.
  intros Hf. unfold shm_inc_global. by rewrite upd_flow_ok by (rewrite Hf; vm_compute; intuition discriminate).
Qed.

Lemma global_counted_rest hdr s :
  let s' := global_counted hdr s in
  sh_streams (g_shm s') = sh_streams (g_shm s) /\ sh_addrs (g_shm s') = sh_addrs (g_shm s) /\
  sh_protos (g_shm s') = sh_protos (g_shm s) /\
  sh_flow_stats (g_shm s') = alter (add_flow (i32 (hdr_len hdr))) (Z.to_nat FLOW_TYPE_TOTAL)
    (sh_flow_stats (g_shm s)) /\
  ht_streams s' = ht_streams s /\ g_mem s' = g_mem s /\ ht_v4addrs s' = ht_v4addrs s /\
  sh_tnow (g_shm s') = hdr_ts hdr /\ gStreamCount s' = gStreamCount s /\ addr_dict s' = addr_dict s.
Proof. cbv zeta. unfold global_counted. by destruct (_ =? 0). Qed.

Lemma global_inv hdr s : shm_inv s -> shm_inv (global_counted hdr s).
Proof.
  intros Hi. assert (shm_inv (set_g_shm (set_sh_tnow (hdr_ts hdr) (set_sh_flow_stats
    (alter (add_flow (i32 (hdr_len hdr))) (Z.to_nat FLOW_TYPE_TOTAL) (sh_flow_stats (g_shm s))) (g_shm s))) s)) as H1.
  { destruct Hi as [Hf]. split; try done. etransitivity; [apply length_alter | exact Hf]. }
  unfold global_counted. cbv zeta. destruct (_ =? 0); [| exact H1]. destruct H1. split; done.
Qed.

Lemma store_stream_inv p k s : shm_inv s -> shm_inv (store_stream_key p k s).
Proof.
  intros Hi. destruct Hi as [? ? ? ? ? ? ? ? Ht Hv]. split; try done.
  apply (abs_frame km_addr addr_okp (g_mem s)); [exact Ht |].
  intros q Hq. pose proof (hi_okp _ _ _ _ Ht) as Hok. rewrite list.Forall_forall in Hok.
  split; [exact (Hok q Hq) | done].
Qed.

(** What the handler does with a packet the parser accepts, up to the lookup. *)
Lemma packet_front env hdr buf s c :
  HEADER_BYTES <= Z.of_nat (length buf) -> Forall is_u8 buf -> 0 <= hdr_caplen hdr < 2147483648 ->
  accepts (hdr_caplen hdr) buf ->
  exists pkt, parsed buf pkt /\
    let key := snd (packet_key buf) in
    let s0 := store_stream_key (pe_key env) key s in
    packet_step env hdr buf s c =
      if (net_stream4_left key =? 0) || (net_stream4_right key =? 0) then Val (false, s0, c) else
      s1 ← shm_inc_global (hdr_ts hdr) (i32 (hdr_len hdr)) s0;
      found ← shm_stream_lookup (pe_key env) s1;
      '(ss, s2) ← match found with
                  | Some ss => Val (Some ss, s1)
                  | None => new_stream env hdr buf pkt (i8 (fst (packet_key buf))) key s1
                  end;
      match ss with
      | None => Val (false, s2, c)
      | Some ss => '(s, c) ← stream_packet hdr buf pkt (packet_dir buf) ss s2 c; Val (true, s, c)
      end.
Proof.
  intros Hl Hb Hc Ha.
  destruct (net_parse_eq (hdr_caplen hdr) buf pkt_init Hl Hb Hc) as (st & pkt & He & _ & Hiff & Hp).
  apply Hiff in Ha as ->. specialize (Hp eq_refl). exists pkt. split; [done |]. cbv zeta.
  unfold packet_step. rewrite He, bind_Val. cbn [Z.eqb PARSE_ERR_OK negb].
  rewrite parsed_key, bind_Val by done. destruct (packet_key buf) as [flipped key] eqn:Hk. cbn [fst snd].
  unfold packet_dir. rewrite Hk. cbn [fst]. unfold pkt_is_v6. rewrite (pd_v4 _ _ Hp). done.
Qed.

(** The flow type of a stream between two addresses. *)
Definition flow_of (left right : addr_info_t) (rport : Z) : Z :=
  if negb (ai_internal left =? 0) && negb (ai_internal right =? 0) then FLOW_TYPE_INTERNAL
  else (if negb (is_web rport =? 0) then 1 else 0) + (if negb (ai_internal right =? 0) then 2 else 0).

Lemma flow_of_class left right e : si_flowflags e = 0 ->
  flow_class (stream_flow_flags left right e) = flow_of left right (si_rport e) /\
  0 <= flow_of left right (si_rport e) < FLOW_TYPE_TOTAL.
Proof.
  intros Hnew. unfold stream_flow_flags, flow_class, flow_of.
  destruct (ai_internal left =? 0), (ai_internal right =? 0), (is_web (si_rport e) =? 0);
    cbn; rewrite ?Hnew; cbn; done || (split; [done | done]).
Qed.

(** ** Properties *)

(** The TCP information of an accepted packet, as [net_parse] leaves it. *)
Definition packet_info (buf : list Z) : pktinfo_t :=
  mk_pktinfo_t (Some 0) (Some (ip_pos buf)) (Some (l4_pos buf)) 0 0 0
    (if proto_of buf =? IPPROTO_TCP then 1 else 0)
    (if proto_of buf =? IPPROTO_TCP then b8 buf (l4_pos buf + 13) else 0)
    (if proto_of buf =? IPPROTO_TCP then if Z.land (b8 buf (l4_pos buf + 13)) 5 =? 0 then 0 else 1 else 0).

(** The handler only uses these members. *)
Lemma counted_info hdr vlan pkt buf e :
  parsed buf pkt -> counted_stream hdr vlan pkt e = counted_stream hdr vlan (packet_info buf) e /\
  finishing pkt e = finishing (packet_info buf) e.
Proof.
  intros [He Hi H4 H6 Ht Hf Hfin]. unfold counted_stream, tcp_entry, finishing.
  by rewrite Ht, Hf, Hfin.
Qed.

Lemma packet_known_ok env hdr buf s c ss e al ar
    (Hlen : HEADER_BYTES <= Z.of_nat (length buf)) (Hbytes : Forall is_u8 buf)
    (Hcap : 0 <= hdr_caplen hdr < 2147483648) (Hacc : accepts (hdr_caplen hdr) buf)
    (Hkey : net_stream4_left (snd (packet_key buf)) <> 0 /\ net_stream4_right (snd (packet_key buf)) <> 0)
    (Hlook : shm_stream_lookup (pe_key env) (store_stream_key (pe_key env) (snd (packet_key buf)) s) = Val (Some ss))
    (Hi : shm_inv s) (Hc : cleanup_inv c)
    (Hs : stream_at s ss e) (Hl : addr_at s (si_idx_left e) al) (Hr : addr_at s (si_idx_right e) ar)
    (Hne : si_idx_left e <> si_idx_right e) (Hport : is_u16 (si_rport e))
    (Hcl : 0 <= flow_class e < FLOW_TYPE_TOTAL) :
  exists s' c' vlan, packet_step env hdr buf s c = Val (true, s', c') /\
    pkt_get_vlan buf (packet_info buf) = Val vlan /\
    counted hdr vlan (packet_info buf) (packet_dir buf) ss e al ar
      (global_counted hdr (store_stream_key (pe_key env) (snd (packet_key buf)) s)) s' /\
    shm_inv s' /\ cleanup_inv c' /\
    queues c' = (if finishing (packet_info buf) e
                 then queue_add (tv_sec (hdr_ts hdr)) [ss] (queues c) else queues c).
Proof.
  destruct (packet_front env hdr buf s c Hlen Hbytes Hcap Hacc) as (pkt & Hp & ->). cbv zeta.
  rewrite (proj2 (Z.eqb_neq _ _) (proj1 Hkey)), (proj2 (Z.eqb_neq _ _) (proj2 Hkey)). cbn [orb].
  set (s0 := store_stream_key _ _ s) in *.
  assert (shm_inv s0) as Hi0 by (by apply store_stream_inv).
  rewrite (inc_global_ok hdr s0 (sv_flow _ Hi0)), bind_Val.
  destruct (global_counted_rest hdr s0) as (G1 & G2 & G3 & G4 & G5 & G6 & _).
  apply (global_inv hdr) in Hi0. set (s1 := global_counted hdr s0) in *.
  assert (shm_stream_lookup (pe_key env) s1 = Val (Some ss)) as ->
    by (unfold shm_stream_lookup in *; by rewrite G5, G6).
  rewrite !bind_Val.
  destruct (parsed_vlan buf pkt Hlen (pd_ether _ _ Hp)) as [vlan Hv].
  destruct (stream_packet_ok hdr buf pkt vlan (packet_dir buf) ss s1 c e al ar Hi0)
    as (s' & c' & -> & Hct & Hi' & Hc' & Hq); try done.
  - unfold stream_at. by rewrite G1.
  - unfold addr_at. by rewrite G2.
  - unfold addr_at. by rewrite G2.
  - unfold FLOW_TYPE_TOTAL in Hcl. lia.
  - rewrite bind_Val. exists s', c', vlan. split; [done |].
    destruct (counted_info hdr vlan pkt buf e Hp) as [E1 E2]. rewrite E2 in Hq.
    split; [| split; [| by split]].
    + rewrite <- Hv. unfold pkt_get_vlan. by rewrite (pd_ether _ _ Hp).
    + destruct Hct as [C1 C2 C3 C4 C5]. split; try done. by rewrite <- E1.
Qed.

(** C9: a packet of a known stream.  If the parser accepts the bytes, neither
    address is zero, and the lookup of its key gives the stream's entry, the
    handler returns after adding the packet once to the global counters, to the
    stream, as sent to one end and as received to the other (as a new stream on
    both when it is the stream's first packet), to the flow type of the stream and
    to its service port; it queues the stream for cleanup exactly when the packet
    ends the connection for the first time; all other entries, the indexes and the
    tables are as before, and the invariants hold again. *)
Theorem packet_step_known_stream env hdr buf s c ss e al ar
    (Hlen : HEADER_BYTES <= Z.of_nat (length buf)) (Hbytes : Forall is_u8 buf)
    (Hcap : 0 <= hdr_caplen hdr < 2147483648) (Hacc : accepts (hdr_caplen hdr) buf)
    (Hkey : net_stream4_left (snd (packet_key buf)) <> 0 /\ net_stream4_right (snd (packet_key buf)) <> 0)
    (Hlook : shm_stream_lookup (pe_key env) (store_stream_key (pe_key env) (snd (packet_key buf)) s) = Val (Some ss))
    (Hi : shm_inv s) (Hc : cleanup_inv c)
    (Hs : stream_at s ss e) (Hl : addr_at s (si_idx_left e) al) (Hr : addr_at s (si_idx_right e) ar)
    (Hne : si_idx_left e <> si_idx_right e) (Hport : is_u16 (si_rport e))
    (Hcl : 0 <= flow_class e < FLOW_TYPE_TOTAL) :
  exists s' c' vlan, packet_step env hdr buf s c = Val (true, s', c') /\
    pkt_get_vlan buf (packet_info buf) = Val vlan /\
    counted hdr vlan (packet_info buf) (packet_dir buf) ss e al ar
      (global_counted hdr (store_stream_key (pe_key env) (snd (packet_key buf)) s)) s' /\
    shm_inv s' /\ cleanup_inv c' /\
    queues c' = (if finishing (packet_info buf) e
                 then queue_add (tv_sec (hdr_ts hdr)) [ss] (queues c) else queues c).
Proof. by apply packet_known_ok. Qed.

(** Packets that are not counted on a stream: one the parser rejects leaves
    the shared data and the cleanup lists as they are; one with a zero address only
    overwrites the handler's local key. *)
Theorem packet_step_ignored env hdr buf s c
    (Hlen : HEADER_BYTES <= Z.of_nat (length buf)) (Hbytes : Forall is_u8 buf)
    (Hcap : 0 <= hdr_caplen hdr < 2147483648) :
  (~ accepts (hdr_caplen hdr) buf -> packet_step env hdr buf s c = Val (false, s, c)) /\
  (accepts (hdr_caplen hdr) buf ->
   net_stream4_left (snd (packet_key buf)) = 0 \/ net_stream4_right (snd (packet_key buf)) = 0 ->
   packet_step env hdr buf s c =
     Val (false, store_stream_key (pe_key env) (snd (packet_key buf)) s, c)).
Proof.
  split.
  - intros Ha. destruct (net_parse_eq (hdr_caplen hdr) buf pkt_init Hlen Hbytes Hcap)
      as (st & pkt & He & _ & Hiff & _).
    unfold packet_step. rewrite He, bind_Val. destruct (Z.eqb_spec st PARSE_ERR_OK); [| done].
    by destruct Ha; apply Hiff.
  - intros Ha Hz. destruct (packet_front env hdr buf s c Hlen Hbytes Hcap Ha) as (pkt & _ & ->). cbv zeta.
    destruct Hz as [-> | ->]; [done | by rewrite orb_true_r].
Qed.

(** The flow type of a new stream: internal when both ends are; otherwise bit
    0 says the service port is a web port and bit 1 that the server is internal.
    All types are below the total's index, so counting it never asserts, and the
    stream is not marked for cleanup. *)
Theorem stream_flow_flags_class left right e (Hnew : si_flowflags e = 0) :
  flow_class (stream_flow_flags left right e) = flow_of left right (si_rport e) /\
  0 <= flow_of left right (si_rport e) < FLOW_TYPE_TOTAL /\
  Z.land (si_flowflags (stream_flow_flags left right e)) FLOW_FLAG_CLEANUP = 0.
Proof.
  destruct (flow_of_class left right e Hnew) as [H1 H2]. split; [exact H1 |]. split; [exact H2 |].
  unfold stream_flow_flags.
  destruct (ai_internal left =? 0), (ai_internal right =? 0), (is_web (si_rport e) =? 0);
    cbn; rewrite ?Hnew; done.
Qed.

(** [find_expired_streams] queues, in the order of their indexes, all live
    streams inside the window without a packet for more than 30 seconds - those
    that are queued already included - as far as the list of the moment has room
    (3276 places in the first 15 and last 5 seconds of a minute, else the 1638 of
    the waiting list). *)
Theorem find_expired_streams_spec tv s c (Hs : shm_inv s) (Hc : cleanup_inv c) :
  exists c', find_expired_streams tv s c = Val c' /\ cleanup_inv c' /\
    queues c' = queue_add tv (List.filter (expired tv (sh_streams (g_shm s)))
                  (inside (sh_stream_indexes (g_shm s)))) (queues c).
Proof. by apply find_expired_ok. Qed.
