(* ===== verification/Lifecycle.v ===== *)
(** The life of the entries of the shared block under the capture process: the
    release of addresses, and what freeing an expired stream does. *)
From S2P Require Import Prelude Structs MgArray IpUtils StreamKey Float32 HashTable Packet Cleanup ShmData Capture.
#[local] Open Scope Z_scope.

(** ** Updates that keep the invariant *)

Lemma put_addr_inv i a a' s :
  shm_inv s -> addr_at s i a -> entry_status a' = entry_status a -> shm_inv (put_addr i a' s).
Proof.
  intros Hi Ha Hst. pose proof (aget_inv _ _ _ Ha) as Hb. pose proof (sv_addrs _ Hi) as Hlen.
  assert (forall ma p, mga_inv ma p (sh_addrs (g_shm s)) ->
    mga_inv ma p (<[Z.to_nat i := a']> (sh_addrs (g_shm s)))) as Hm.
  { intros ma p Hp. eapply mga_inv_frame; [apply length_insert | | exact Hp].
    intros j _. by eapply taken_update. }
  destruct Hi. split; try done; [| by apply Hm ..]. etransitivity; [apply length_insert | exact Hlen].
Qed.

Lemma put_stream_inv i e e' s :
  shm_inv s -> stream_at s i e -> entry_status e' = entry_status e -> shm_inv (put_stream i e' s).
Proof.
  intros Hi He Hst. pose proof (aget_inv _ _ _ He) as Hb. pose proof (sv_streams _ Hi) as Hlen.
  destruct Hi as [? ? ? ? ? ? ? Hp]. split; try done; [etransitivity; [apply length_insert | exact Hlen] |].
  eapply mga_inv_frame; [apply length_insert | | exact Hp]. intros j _. by eapply taken_update.
Qed.

Lemma bind_step {A B C} (m : res A) (f : A -> res B) (g : B -> res C) b :
  (m ≫= f) = Val b -> (m ≫= fun a => f a ≫= g) = g b.
Proof. rewrite <- bind_assoc. by intros ->. Qed.

(** The windows of the three arrays contain the middle of their ranges. *)
Record windows (s : shm_t) : Prop := {
  wi_lan : straddles lan_mga (sh_addr_lan_indexes (g_shm s));
  wi_wan : straddles wan_mga (sh_addr_wan_indexes (g_shm s));
  wi_str : straddles streams_mga (sh_stream_indexes (g_shm s))
}.

Lemma straddles_next ma p : straddles ma p -> straddles ma (mga_next ma p).
Proof. unfold straddles, mga_next. repeat case_match; cbn; lia. Qed.

(** ** Releasing an entry *)

Lemma free_content {E} `{MgaEntryOk E} ma p (arr arr' : list E) i p' :
  mga_free_entry ma p arr i = Val (p', arr') -> arr' <> arr ->
  exists e, aget arr i = Val e /\ arr' = <[Z.to_nat i := fst (isempty_func e MGA_OP_CLR)]> arr.
Proof.
  unfold mga_free_entry. intros Hf Hne. destruct (_ || _); [by injection Hf as _ <- |].
  apply bind_Val_inv in Hf as ([] & _ & Hf); [by injection Hf as _ <- |].
  apply bind_Val_inv in Hf as ([arr1 st] & Ho & Hf).
  apply bind_Val_inv in Hf as (lo & _ & Hf). apply bind_Val_inv in Hf as (hi & _ & Hf).
  injection Hf as _ <-. destruct (entry_op_content _ _ _ _ _ Ho) as (e & He & _ & ->). eauto.
Qed.

Definition addr_side (i : Z) : bool := i <=? 255.

Definition freed_addr (a : addr_info_t) : addr_info_t := set_ai_tstart (set_tv_sec 0 (ai_tstart a)) a.
Definition freed_stream (e : stream_info_t) : stream_info_t := set_si_tstart (set_tv_sec 0 (si_tstart e)) e.

(** A live entry lies inside the window of its side. *)
Lemma live_inside {E} `{MgaEntry E} ma p (arr : list E) i :
  mga_inv ma p arr -> idx_min ma <= i <= idx_max ma -> taken arr i = true -> mi_idx_lo p < i < mi_idx_hi p.
Proof.
  intros Hi Hr Ht. pose proof (inv_outside _ _ _ Hi i Hr) as Ho.
  destruct (decide (mi_idx_lo p < i)), (decide (i < mi_idx_hi p)); [done | rewrite Ho in Ht; done || lia ..].
Qed.

(** What the release of an address entry leaves. *)
Record addr_freed (i : Z) (a : addr_info_t) (s s' : shm_t) : Prop := {
  af_inv : shm_inv s';
  af_addrs : sh_addrs (g_shm s') = <[Z.to_nat i := freed_addr a]> (sh_addrs (g_shm s));
  af_other : side_idx (negb (addr_side i)) s' = side_idx (negb (addr_side i)) s;
  af_streams : sh_streams (g_shm s') = sh_streams (g_shm s) /\
    sh_stream_indexes (g_shm s') = sh_stream_indexes (g_shm s);
  af_tbls : ht_streams s' = ht_streams s /\ ht_v4addrs s' = ht_v4addrs s /\ g_mem s' = g_mem s;
  af_counters : sh_flow_stats (g_shm s') = sh_flow_stats (g_shm s) /\ sh_protos (g_shm s') = sh_protos (g_shm s)
}.

Lemma addr_free_ok i a s :
  shm_inv s -> addr_at s i a -> tv_sec (ai_tstart a) <> 0 -> straddles (side_mga (addr_side i)) (side_idx (addr_side i) s) ->
  exists s', shm_addr_free i s = Val s' /\ addr_freed i a s s'.
Proof.
  intros Hi Ha Hlive Hst. pose proof (aget_inv _ _ _ Ha) as Hb. pose proof (sv_addrs _ Hi) as Hlen.
  unfold SI_NUM_ADDRS in Hlen. set (side := addr_side i) in *.
  assert (idx_min (side_mga side) <= i <= idx_max (side_mga side)) as Hr.
  { unfold side, addr_side. destruct (Z.leb_spec i 255); cbn; lia. }
  assert (taken (sh_addrs (g_shm s)) i = true) as Ht.
  { unfold taken. unfold addr_at in Ha. rewrite Ha. apply bool_decide_eq_true. unfold entry_status, isempty_func, addr_isempty_func.
    cbn. by rewrite (proj2 (Z.eqb_neq _ _)). }
  pose proof (side_inv side s Hi) as Hside.
  destruct (free_ok _ _ _ _ Hside Hst (live_inside _ _ _ _ Hside Hr Ht) Ht)
    as (p & arr & Hf & Hm & _ & _ & _ & _ & Hinv).
  assert (arr = <[Z.to_nat i := freed_addr a]> (sh_addrs (g_shm s))) as ->.
  { destruct (free_content _ _ _ _ _ _ Hf) as (e & He & ->).
    - intros ->. destruct Hm as [_ Hm' _]. congruence.
    - unfold addr_at in Ha. assert (e = a) as -> by congruence. done. }
  destruct (side_update side s p (freed_addr a) i Hi Hr Hinv) as [Hl Hw].
  destruct (sv_statics _ Hi) as (H1 & H2 & _).
  assert (shm_addr_free i s = Val (set_g_shm (set_sh_addrs (<[Z.to_nat i := freed_addr a]> (sh_addrs (g_shm s)))
    (set_side side p (g_shm s))) s)) as ->.
  { unfold shm_addr_free. rewrite H1, H2. change (total_entries lan_mga) with 256. unfold side, addr_side in *.
    destruct (Z.leb_spec 256 i), (Z.leb_spec i 255); try lia; cbn [side_mga side_idx] in Hf; by rewrite Hf. }
  eexists. split; [done |]. split; [| unfold side; by destruct (addr_side i) ..].
  destruct Hi. split; try (unfold side; by destruct (addr_side i)); try exact Hl; try exact Hw.
  etransitivity; [apply length_insert | exact Hlen].
Qed.

(** ** One iteration of [cleanup_expired_streams] *)

(** The key [stream_init_key_from_stream] rebuilds. *)
Definition key_of_stream (e : stream_info_t) (al ar : addr_info_t) : stream_key_t :=
  snd (net_stream_init_v4 (si_ipproto e) (ai_addr_offset al) (ai_addr_offset ar) (si_lport e) (si_rport e)).

(** An address when one of its streams is freed. *)
Definition release (a : addr_info_t) : addr_info_t :=
  let a := dec_nstreams_active a in if ai_nstreams_active a =? 0 then freed_addr a else a.

Lemma stream_free_ok i e s :
  shm_inv s -> stream_at s i e -> tv_sec (si_tstart e) <> 0 -> straddles streams_mga (sh_stream_indexes (g_shm s)) ->
  exists s', set_stream_slot_empty i s = Val s' /\ shm_inv s' /\
    sh_streams (g_shm s') = <[Z.to_nat i := freed_stream e]> (sh_streams (g_shm s)) /\
    sh_addrs (g_shm s') = sh_addrs (g_shm s) /\
    sh_flow_stats (g_shm s') = sh_flow_stats (g_shm s) /\ sh_protos (g_shm s') = sh_protos (g_shm s) /\
    ht_streams s' = ht_streams s /\ ht_v4addrs s' = ht_v4addrs s /\ g_mem s' = g_mem s.
Proof.
  intros Hi He Hlive Hst. pose proof (aget_inv _ _ _ He) as Hb. pose proof (sv_streams _ Hi) as Hlen.
  unfold SI_NUM_STREAMS in Hlen.
  assert (idx_min streams_mga <= i <= idx_max streams_mga) as Hr by (cbn; lia).
  assert (taken (sh_streams (g_shm s)) i = true) as Ht.
  { unfold taken. unfold stream_at in He. rewrite He. apply bool_decide_eq_true.
    unfold entry_status, isempty_func, stream_isempty_func. cbn. by rewrite (proj2 (Z.eqb_neq _ _)). }
  pose proof (sv_str _ Hi) as Hm0.
  destruct (free_ok _ _ _ _ Hm0 Hst (live_inside _ _ _ _ Hm0 Hr Ht) Ht)
    as (p & arr & Hf & Hm & _ & _ & _ & _ & Hinv).
  assert (arr = <[Z.to_nat i := freed_stream e]> (sh_streams (g_shm s))) as ->.
  { destruct (free_content _ _ _ _ _ _ Hf) as (e' & He' & ->).
    - intros ->. destruct Hm as [_ Hm' _]. congruence.
    - unfold stream_at in He. assert (e' = e) as -> by congruence. done. }
  destruct (sv_statics _ Hi) as (_ & _ & H3).
  unfold set_stream_slot_empty. rewrite H3, Hf, bind_Val. eexists. split; [done |].
  split; [| by repeat split].
  destruct Hi. split; try done. etransitivity; [apply length_insert | exact Hlen].
Qed.

Lemma dec_addr_ok i a s :
  shm_inv s -> addr_at s i a ->
  upd_addr i dec_nstreams_active s = Val (put_addr i (dec_nstreams_active a) s) /\
  shm_inv (put_addr i (dec_nstreams_active a) s) /\ addr_at (put_addr i (dec_nstreams_active a) s) i (dec_nstreams_active a).
Proof.
  intros Hi Ha. destruct (upd_addr_at i a dec_nstreams_active s Ha) as [-> H1].
  split; [done |]. split; [by eapply put_addr_inv | done].
Qed.

(** What the release of one end leaves: the entry itself, the streams, the
    tables and the other side are as they were. *)
Record end_released (i : Z) (a : addr_info_t) (s s' : shm_t) : Prop := {
  er_inv : shm_inv s';
  er_addr : addr_at s' i (if ai_nstreams_active a =? 0 then freed_addr a else a);
  er_addrs : forall j b, j <> i -> addr_at s j b -> addr_at s' j b;
  er_other : side_idx (negb (addr_side i)) s' = side_idx (negb (addr_side i)) s;
  er_streams : sh_streams (g_shm s') = sh_streams (g_shm s) /\
    sh_stream_indexes (g_shm s') = sh_stream_indexes (g_shm s);
  er_tbls : ht_streams s' = ht_streams s /\ ht_v4addrs s' = ht_v4addrs s /\ g_mem s' = g_mem s;
  er_counters : sh_flow_stats (g_shm s') = sh_flow_stats (g_shm s) /\ sh_protos (g_shm s') = sh_protos (g_shm s)
}.

Lemma end_release_ok i a s :
  shm_inv s -> addr_at s i a ->
  (ai_nstreams_active a = 0 -> tv_sec (ai_tstart a) <> 0 /\ straddles (side_mga (addr_side i)) (side_idx (addr_side i) s)) ->
  exists s', (x ← aget (sh_addrs (g_shm s)) i; if ai_nstreams_active x =? 0 then shm_addr_free i s else Val s) = Val s' /\
    end_released i a s s'.
Proof.
  intros Hi Ha Hrel. pose proof (aget_inv _ _ _ Ha) as Hb. pose proof Ha as Ha'. unfold addr_at in Ha'.
  rewrite Ha', bind_Val. destruct (ai_nstreams_active a =? 0) eqn:Hz.
  - destruct (Hrel (proj1 (Z.eqb_eq _ _) Hz)) as [Hlive Hst].
    destruct (addr_free_ok i a s Hi Ha Hlive Hst) as (s' & -> & [G1 G2 G3 [G4 G5] [G6 [G7 Gm]] [G8 G9]]).
    exists s'. split; [done |]. split; try done.
    + rewrite Hz. unfold addr_at. by rewrite G2, aget_insert_eq.
    + intros j b Hj Hjb. unfold addr_at in *. by rewrite G2, aget_insert_ne by lia.
  - exists s. split; [done |]. split; try done. by rewrite Hz.
Qed.

(** An end can lose a stream: if it was the last one, its entry can be freed. *)
Definition releasable (i : Z) (a : addr_info_t) (s : shm_t) : Prop :=
  ai_nstreams_active (dec_nstreams_active a) = 0 ->
  tv_sec (ai_tstart a) <> 0 /\ straddles (side_mga (addr_side i)) (side_idx (addr_side i) s).

(** The other end can be released after the left one: the window of its side still
    contains the middle of its range, because the ends are of different sides or because
    of a live entry beyond it that the release of the left end leaves. *)
Definition right_open (l : Z) (al : addr_info_t) (r : Z) (s : shm_t) : Prop :=
  addr_side l <> addr_side r \/
  exists k a, addr_side k = addr_side r /\ mga_mid (side_mga (addr_side r)) <= k /\ addr_at s k a /\
    tv_sec (ai_tstart a) <> 0 /\ (k = l -> ai_nstreams_active (dec_nstreams_active al) <> 0).

Lemma addr_taken s i a : addr_at s i a -> taken (sh_addrs (g_shm s)) i = bool_decide (tv_sec (ai_tstart a) <> 0).
Proof.
  intros Ha. unfold taken. unfold addr_at in Ha. rewrite Ha. unfold entry_status, isempty_func, addr_isempty_func. cbn [snd].
  apply bool_decide_ext. by destruct (Z.eqb_spec (tv_sec (ai_tstart a)) 0).
Qed.

Lemma addr_side_range i s : shm_inv s -> 0 <= i < Z.of_nat (length (sh_addrs (g_shm s))) ->
  idx_min (side_mga (addr_side i)) <= i <= idx_max (side_mga (addr_side i)).
Proof. intros Hi Hb. rewrite (sv_addrs _ Hi) in Hb. unfold SI_NUM_ADDRS in Hb. unfold addr_side. destruct (Z.leb_spec i 255); cbn; lia. Qed.

(** A live entry beyond the middle keeps the middle inside the window. *)
Lemma live_straddles s k a : shm_inv s -> addr_at s k a -> tv_sec (ai_tstart a) <> 0 -> mga_mid (side_mga (addr_side k)) <= k ->
  straddles (side_mga (addr_side k)) (side_idx (addr_side k) s).
Proof.
  intros Hi Ha Hz Hk. pose proof (addr_side_range k s Hi (aget_inv _ _ _ Ha)) as Hr.
  pose proof (live_inside _ _ _ k (side_inv (addr_side k) s Hi) Hr) as H. rewrite (addr_taken s k a Ha), bool_decide_true in H by done.
  specialize (H eq_refl). unfold straddles. lia.
Qed.

(** The iteration after the stream's key is removed from the table, up to the release
    of the stream's own entry. *)
Lemma cleanup_ends_ok env ss s e al ar ht :
  let l := si_idx_left e in
  let r := si_idx_right e in
  let s0 := store_stream_key (pe_cleanup_key env) (key_of_stream e al ar) s in
  shm_inv s -> stream_at s ss e -> addr_at s l al -> addr_at s r ar -> releasable l al s -> releasable r ar s ->
  l <> r -> right_open l al r s -> ai_isv6 al = 0 ->
  HashTableRemove (pe_ok_rehash env) (g_mem s0) (ht_streams s) (pe_cleanup_key env) = Val (ht, g_mem s0) ->
  exists s', cleanup_stream env ss s = set_stream_slot_empty ss s' /\ shm_inv s' /\ ht_streams s' = ht /\
    ht_v4addrs s' = ht_v4addrs s /\
    sh_streams (g_shm s') = sh_streams (g_shm s) /\ sh_stream_indexes (g_shm s') = sh_stream_indexes (g_shm s) /\
    addr_at s' l (release al) /\ addr_at s' r (release ar) /\
    (forall j a, j <> l -> j <> r -> addr_at s j a -> addr_at s' j a) /\
    sh_flow_stats (g_shm s') = sh_flow_stats (g_shm s) /\ sh_protos (g_shm s') = sh_protos (g_shm s) /\ g_mem s' = g_mem s0.
Proof.
  cbv zeta. set (l := si_idx_left e). set (r := si_idx_right e).
  intros Hi Hs Hl Hr Hal Har Hne Hopen Hv6 Hrm.
  pose proof (aget_inv _ _ _ Hl) as Hlb. pose proof (aget_inv _ _ _ Hr) as Hrb. rewrite (sv_addrs _ Hi) in Hlb, Hrb.
  unfold SI_NUM_ADDRS in Hlb, Hrb.
  assert (forall i, i < 16384 -> shm_addr_get i = Val i) as Hget.
  { intros i H. unfold shm_addr_get, _check_addr_index. by rewrite (proj2 (Z.ltb_lt _ _)). }
  unfold cleanup_stream.
  assert (stream_init_key_from_stream ss s = Val (key_of_stream e al ar)) as ->.
  { unfold stream_init_key_from_stream. pose proof Hs as Hs'. unfold stream_at in Hs'. rewrite Hs', bind_Val.
    fold l r. rewrite !Hget, !bind_Val by lia. unfold addr_at in Hl, Hr. rewrite Hl, Hr, !bind_Val, Hv6. done. }
  rewrite bind_Val. set (s0 := store_stream_key _ _ s) in *.
  unfold shm_stream_lookup_free. change (ht_streams s0) with (ht_streams s). rewrite Hrm, !bind_Val.
  set (s1 := set_g_mem _ _). assert (shm_inv s1) as Hi1.
  { pose proof (store_stream_inv (pe_cleanup_key env) (key_of_stream e al ar) s Hi) as H0.
    destruct H0. split; done. }
  change (sh_streams (g_shm s1)) with (sh_streams (g_shm s)). pose proof Hs as Hs'. unfold stream_at in Hs'.
  rewrite Hs', bind_Val. fold l r. rewrite !Hget, !bind_Val by lia.
  destruct (dec_addr_ok l al s1 Hi1 Hl) as (-> & Hi2 & Hl2). rewrite bind_Val. set (s2 := put_addr l _ s1) in *.
  assert (addr_at s2 r ar) as Hr2 by put_ne.
  destruct (dec_addr_ok r ar s2 Hi2 Hr2) as (-> & Hi3 & Hr3). rewrite bind_Val. set (s3 := put_addr r _ s2) in *.
  assert (addr_at s3 l (dec_nstreams_active al)) as Hl3 by put_ne.
  assert (forall i a, releasable i a s -> ai_nstreams_active (dec_nstreams_active a) = 0 ->
    tv_sec (ai_tstart (dec_nstreams_active a)) <> 0 /\ straddles (side_mga (addr_side i)) (side_idx (addr_side i) s3)) as Hstr
    by (intros i a Hrel Hz; destruct (Hrel Hz); by destruct (addr_side i)).
  destruct (end_release_ok l _ s3 Hi3 Hl3 (Hstr l al Hal)) as (s4 & He4 & [A1 A2 A3 A4 [A5 A6] (A7 & A8 & A11) [A9 A10]]).
  rewrite (bind_step _ _ _ s4 He4).
  assert (addr_at s4 r (dec_nstreams_active ar)) as Hr4 by (apply A3; [congruence | exact Hr3]).
  assert (ai_nstreams_active (dec_nstreams_active ar) = 0 -> tv_sec (ai_tstart (dec_nstreams_active ar)) <> 0 /\
    straddles (side_mga (addr_side r)) (side_idx (addr_side r) s4)) as Hst4.
  { intros Hz. destruct (Hstr r ar Har Hz) as [Hlive Hs3]. split; [exact Hlive |].
    destruct Hopen as [Hside | (k & a & Hk & Hmid & Ha & Hza & Hkl)].
    - assert (addr_side r = negb (addr_side l)) as E by (destruct (addr_side r), (addr_side l); done).
      rewrite E in Hs3 |- *. by rewrite A4.
    - assert (exists a', addr_at s4 k a' /\ tv_sec (ai_tstart a') <> 0) as (a' & Ha' & Hza').
      { destruct (decide (k = l)) as [-> |].
        - exists (dec_nstreams_active al). rewrite (proj2 (Z.eqb_neq _ _) (Hkl eq_refl)) in A2. split; [exact A2 |].
          assert (a = al) as <- by (unfold addr_at in *; congruence). exact Hza.
        - destruct (decide (k = r)) as [-> |]; [by exists (dec_nstreams_active ar) |]. exists a. split; [| exact Hza].
          apply A3; [done |]. unfold s3, s2. do 2 (apply put_addr_ne; [congruence | lia |]). exact Ha. }
      rewrite <- Hk in Hmid |- *. by apply (live_straddles s4 k a'). }
  destruct (end_release_ok r _ s4 A1 Hr4 Hst4) as (s5 & He5 & [B1 B2 B3 B4 [B5 B6] (B7 & B8 & B11) [B9 B10]]).
  rewrite (bind_step _ _ _ s5 He5). exists s5. split; [done |]. split; [exact B1 |].
  split; [by rewrite B7, A7 |]. split; [by rewrite B8, A8 |]. split; [by rewrite B5, A5 |]. split; [by rewrite B6, A6 |].
  split; [apply B3; [done | exact A2] |]. split; [exact B2 |].
  split; [| split; [by rewrite B9, A9 | split; [by rewrite B10, A10 | by rewrite B11, A11]]].
  intros j a Hjl Hjr Hja. apply B3; [done |]. apply A3; [done |].
  unfold s3, s2. do 2 (apply put_addr_ne; [congruence | lia |]). exact Hja.
Qed.

(** The iteration for a stream in use. *)
Lemma cleanup_stream_ok env ss s e al ar ht :
  let l := si_idx_left e in
  let r := si_idx_right e in
  let s0 := store_stream_key (pe_cleanup_key env) (key_of_stream e al ar) s in
  shm_inv s -> stream_at s ss e -> tv_sec (si_tstart e) <> 0 ->
  straddles streams_mga (sh_stream_indexes (g_shm s)) ->
  addr_at s l al -> addr_at s r ar -> releasable l al s -> releasable r ar s ->
  l <> r -> right_open l al r s -> ai_isv6 al = 0 ->
  HashTableRemove (pe_ok_rehash env) (g_mem s0) (ht_streams s) (pe_cleanup_key env) = Val (ht, g_mem s0) ->
  exists s', cleanup_stream env ss s = Val s' /\ shm_inv s' /\ ht_streams s' = ht /\
    ht_v4addrs s' = ht_v4addrs s /\
    sh_streams (g_shm s') = <[Z.to_nat ss := freed_stream e]> (sh_streams (g_shm s)) /\
    addr_at s' l (release al) /\ addr_at s' r (release ar) /\
    (forall j a, j <> l -> j <> r -> addr_at s j a -> addr_at s' j a) /\
    sh_flow_stats (g_shm s') = sh_flow_stats (g_shm s) /\ sh_protos (g_shm s') = sh_protos (g_shm s) /\ g_mem s' = g_mem s0.
Proof.
  cbv zeta. intros Hi Hs Hlive Hst Hl Hr Hal Har Hne Hopen Hv6 Hrm.
  destruct (cleanup_ends_ok env ss s e al ar ht Hi Hs Hl Hr Hal Har Hne Hopen Hv6 Hrm)
    as (s5 & -> & B1 & B2 & B3 & B4 & B5 & B6 & B7 & B8 & B9 & B10 & B11).
  destruct (stream_free_ok ss e s5 B1) as (s6 & -> & C1 & C2 & C3 & C4 & C5 & C6 & C7 & C8);
    [unfold stream_at; by rewrite B4 | done | by rewrite B5 |].
  exists s6. split; [done |]. split; [exact C1 |]. split; [by rewrite C6 |]. split; [by rewrite C7 |].
  split; [by rewrite C2, B4 |].
  assert (forall j a, addr_at s5 j a -> addr_at s6 j a) as H56 by (intros j a; unfold addr_at; by rewrite C3).
  split; [by apply H56 |]. split; [by apply H56 |].
  split; [intros j a ? ? ?; by apply H56, B8 | split; [by rewrite C4 | split; [by rewrite C5 | by rewrite C8]]].
Qed.

(** The iteration for a stream that is free already: its ends lose a stream all the same. *)
Lemma cleanup_freed_ok env ss s e al ar ht :
  let l := si_idx_left e in
  let r := si_idx_right e in
  let s0 := store_stream_key (pe_cleanup_key env) (key_of_stream e al ar) s in
  shm_inv s -> stream_at s ss e -> tv_sec (si_tstart e) = 0 ->
  addr_at s l al -> addr_at s r ar -> releasable l al s -> releasable r ar s ->
  addr_side l <> addr_side r -> ai_isv6 al = 0 ->
  HashTableRemove (pe_ok_rehash env) (g_mem s0) (ht_streams s) (pe_cleanup_key env) = Val (ht, g_mem s0) ->
  exists s', cleanup_stream env ss s = Val s' /\ shm_inv s' /\ ht_streams s' = ht /\
    sh_streams (g_shm s') = sh_streams (g_shm s) /\
    addr_at s' l (release al) /\ addr_at s' r (release ar).
Proof.
  cbv zeta. intros Hi Hs Hfree Hl Hr Hal Har Hside Hv6 Hrm.
  assert (si_idx_left e <> si_idx_right e) as Hne by congruence.
  destruct (cleanup_ends_ok env ss s e al ar ht Hi Hs Hl Hr Hal Har Hne (or_introl Hside) Hv6 Hrm)
    as (s5 & -> & B1 & B2 & _ & B4 & B5 & B6 & B7 & _).
  assert (mga_free_entry (g_streams s5) (sh_stream_indexes (g_shm s5)) (sh_streams (g_shm s5)) ss =
    Val (sh_stream_indexes (g_shm s5), sh_streams (g_shm s5))) as Hf.
  { unfold mga_free_entry. destruct (_ || _); [done |]. unfold ENTRY_IS_FREE. rewrite B4.
    pose proof Hs as Hs'. unfold stream_at in Hs'. rewrite Hs', bind_Val.
    unfold entry_status, isempty_func, stream_isempty_func. cbn [snd]. by rewrite (proj2 (Z.eqb_eq _ _) Hfree). }
  unfold set_stream_slot_empty. rewrite Hf, bind_Val. eexists. split; [done |].
  split; [destruct B1; by split |]. by repeat (split; [assumption |]).
Qed.

(** ** New streams *)

Definition new_stream_entry (iid : Z) (old : stream_info_t) : stream_info_t :=
  init_stream iid (set_si_tstart (set_tv_sec 1 (si_tstart old)) old).

Lemma stream_alloc_ok okp okr key s ht :
  shm_inv s -> mi_num_entries (sh_stream_indexes (g_shm s)) < total_entries streams_mga ->
  mga_room streams_mga (sh_stream_indexes (g_shm s)) ->
  (forall i, HashTablePut okp okr (g_mem s) (ht_streams s) key (Some i) = Val (0, ht i, g_mem s)) ->
  exists i old s', shm_stream_alloc okp okr key s = Val (Some i, s') /\ shm_inv s' /\
    stream_at s i old /\ tv_sec (si_tstart old) = 0 /\
    sh_streams (g_shm s') = <[Z.to_nat i := new_stream_entry (gStreamCount s) old]> (sh_streams (g_shm s)) /\
    sh_stream_indexes (g_shm s') = mga_next streams_mga (sh_stream_indexes (g_shm s)) /\
    sh_addrs (g_shm s') = sh_addrs (g_shm s) /\
    (forall lan, side_idx lan s' = side_idx lan s) /\
    sh_flow_stats (g_shm s') = sh_flow_stats (g_shm s) /\ sh_protos (g_shm s') = sh_protos (g_shm s) /\
    ht_streams s' = ht i /\ ht_v4addrs s' = ht_v4addrs s /\ g_mem s' = g_mem s /\
    gStreamCount s' = u32 (gStreamCount s + 1).
Proof.
  intros Hi Hn Hroom Hput. destruct (sv_statics _ Hi) as (_ & _ & H3).
  destruct (alloc_ok _ _ _ (sv_str _ Hi) Hn Hroom) as (i & arr & Ha & Hr & Hfree & Hm & _ & Hinv).
  destruct (alloc_content _ _ _ _ _ _ Ha) as (old & Hold & Harr). pose proof (aget_inv _ _ _ Hold) as Hb.
  assert (tv_sec (si_tstart old) = 0) as Hz.
  { unfold taken in Hfree. rewrite Hold in Hfree. apply bool_decide_eq_false in Hfree.
    unfold entry_status, isempty_func, stream_isempty_func in Hfree. cbn in Hfree.
    by destruct (Z.eqb_spec (tv_sec (si_tstart old)) 0). }
  assert (arr = <[Z.to_nat i := set_si_tstart (set_tv_sec 1 (si_tstart old)) old]> (sh_streams (g_shm s))) as Harr'.
  { rewrite Harr, isempty_tstset_avail; [done |]. unfold entry_status, isempty_func, stream_isempty_func.
    cbn. by rewrite Hz. }
  unfold shm_stream_alloc. rewrite H3, Ha, bind_Val. cbn [g_mem ht_streams set_g_shm].
  rewrite Hput, bind_Val.
  match goal with |- context [upd_stream i ?f ?st] =>
    destruct (upd_stream_ok i f st) as (e' & He' & ->); [cbn; by rewrite Harr', length_insert |] end.
  cbn in He'. rewrite Harr', aget_insert_eq in He' by done. injection He' as <-. rewrite bind_Val.
  exists i, old. eexists. split; [done |]. cbn. rewrite Harr', list_insert_insert_eq.
  split; [| by repeat (split; [assumption || done |])].
  destruct Hi as [? ? ? Hlen ? ? ? ? ? ?]. split; try done; cbn.
  - etransitivity; [apply length_insert | exact Hlen].
  - eapply mga_inv_frame; [| | exact Hinv]; [by rewrite Harr', !length_insert |].
    intros j _. rewrite Harr'. unfold taken. destruct (decide (i = j)) as [<- | Hne].
    + by rewrite !aget_insert_eq by done.
    + by rewrite !aget_insert_ne by lia.
Qed.

Lemma store_addr_inv p k s : shm_inv s -> fresh_key p s ->
  shm_inv (store_addr_key p k s) /\ addr_dict (store_addr_key p k s) = addr_dict s.
Proof.
  intros Hi Hf. destruct (store_addr_frame p k s (sv_tbl _ Hi) Hf) as [Ht Hd]. split; [| exact Hd].
  destruct Hi. split; try done. by rewrite Hd.
Qed.

(** There is an entry for a new address. *)
Definition addr_room (ip : Z) (s : shm_t) : Prop :=
  mi_num_entries (side_idx (is_lan ip) s) < total_entries (side_mga (is_lan ip)) /\
  mga_room (side_mga (is_lan ip)) (side_idx (is_lan ip) s).

(** There are entries for two new addresses of a side. *)
Definition room_for_two (lan : bool) (s : shm_t) : Prop :=
  let p := mga_next (side_mga lan) (side_idx lan s) in
  mi_num_entries p < total_entries (side_mga lan) /\ mga_room (side_mga lan) p.

Definition known (ip : Z) (s : shm_t) : Prop := is_Some (addr_dict s !! addr_key_init_v4 ip).

(** What finding or allocating an address leaves; [a] is its entry. *)
Record addr_ready (lookup pkey : ptr) (ts : tval_t) (ip : Z) (mac : list Z) (i : Z) (a : addr_info_t)
    (s s' : shm_t) : Prop := {
  ar_inv : shm_inv s';
  ar_range : 0 <= i < SI_NUM_ADDRS;
  ar_dict : addr_dict s' = <[addr_key_init_v4 ip := i]> (addr_dict s);
  ar_at : addr_at s' i a;
  ar_known : known ip s -> addr_dict s !! addr_key_init_v4 ip = Some i /\ addr_at s i a;
  ar_new : ~ known ip s -> exists old, addr_at s i old /\ tv_sec (ai_tstart old) = 0 /\
    a = set_ai_tstart ts (new_addr s (is_lan ip) ip mac old) /\ addr_side i = is_lan ip;
  ar_others : forall j b, j <> i -> addr_at s j b -> addr_at s' j b;
  ar_sides : forall lan, known ip s \/ lan <> is_lan ip -> side_idx lan s' = side_idx lan s;
  ar_next : ~ known ip s -> side_idx (is_lan ip) s' = mga_next (side_mga (is_lan ip)) (side_idx (is_lan ip) s);
  ar_rest : sh_streams (g_shm s') = sh_streams (g_shm s) /\
    sh_stream_indexes (g_shm s') = sh_stream_indexes (g_shm s) /\
    sh_flow_stats (g_shm s') = sh_flow_stats (g_shm s) /\ sh_protos (g_shm s') = sh_protos (g_shm s) /\
    ht_streams s' = ht_streams s /\ km_stream (g_mem s') = km_stream (g_mem s);
  ar_win : windows s -> windows s';
  ar_fresh : forall p, p <> pkey -> fresh_key p s -> fresh_key p s';
  ar_count : numOfElements (ht_v4addrs s') <= numOfElements (ht_v4addrs s) + 1
}.

Lemma dict_size s : addr_tbl_inv s -> numOfElements (ht_v4addrs s) = Z.of_nat (size (addr_dict s)).
Proof. apply size_ok. Qed.

Lemma insert_size {K V} `{Countable K} (m : gmap K V) k v : (size (<[k := v]> m) <= S (size m))%nat.
Proof.
  rewrite map_size_insert. destruct (m !! k); cbn; lia.
Qed.

Lemma addr_for_ok env pkey ts ip mac off m buf s :
  shm_inv s -> is_u32 ip -> fresh_key (pe_lookup_key env) s -> tv_sec ts <> 0 ->
  mac = Val off -> mac_at buf off = Val m ->
  known ip s \/ addr_room ip s /\ pkey <> NULL /\ fresh_key pkey s /\ pe_ok_pair env = true /\
    numOfElements (ht_v4addrs s) < 4294967295 ->
  exists i a s', addr_for env pkey ts ip mac buf s = Val (Some i, i, s') /\
    addr_ready (pe_lookup_key env) pkey ts ip m i a s s'.
Proof.
  intros Hi Hip Hf Hts Hmac Hm Hor. unfold addr_for.
  rewrite (lookup_addr_ok _ _ _ (sv_tbl _ Hi) Hf Hip), bind_Val.
  destruct (store_addr_inv (pe_lookup_key env) (addr_key_init_v4 ip) s Hi Hf) as [Hi1 Hd1].
  set (s1 := store_addr_key _ _ s) in *.
  destruct (addr_dict s !! addr_key_init_v4 ip) as [i |] eqn:Hk.
  { pose proof (map_Forall_lookup_1 _ _ _ _ (sv_vals _ Hi) Hk) as Hb. cbn in Hb.
    destruct (aget_lt (sh_addrs (g_shm s)) i) as [a Ha]; [rewrite (sv_addrs _ Hi); unfold SI_NUM_ADDRS in *; lia |].
    exists i, a, s1. split; [done |]. split; try done.
    - by rewrite Hd1, insert_id.
    - intros Hn. destruct Hn. eexists. exact Hk.
    - intros Hn. destruct Hn. eexists. exact Hk.
    - intros [W1 W2 W3]. by split.
    - change (ht_v4addrs s1) with (ht_v4addrs s). lia. }
  destruct Hor as [[? Hk'] | (Hroom & Hpk & Hfp & Hokp & Hcnt)]; [congruence |].
  rewrite Hmac, bind_Val, Hm, bind_Val, Hokp.
  destruct (shm_addr_alloc_ok pkey (pe_ok_rehash env) ip m s1 Hi1 Hip Hpk Hfp Hcnt (proj1 Hroom) (proj2 Hroom))
    as (i & old & s2 & Ha & Hr & Hfree & Hold & G & Hd2 & _ & Hi2 & Hts2 & Hkm & _ & Hfresh).
  rewrite Ha, bind_Val. pose proof (aget_inv _ _ _ Hold) as Hb.
  set (a2 := new_addr s1 (is_lan ip) ip m old) in *.
  assert (addr_at s2 i a2) as Ha2.
  { unfold addr_at. rewrite G. unfold after_alloc. cbn. by rewrite aget_insert_eq. }
  destruct (upd_addr_at i a2 (set_ai_tstart ts) s2 Ha2) as [-> H3]. rewrite bind_Val.
  exists i, (set_ai_tstart ts a2), (put_addr i (set_ai_tstart ts a2) s2). split; [done |].
  assert (tv_sec (ai_tstart old) = 0) as Hz.
  { unfold taken in Hfree. rewrite Hold in Hfree. apply bool_decide_eq_false in Hfree.
    unfold entry_status, isempty_func, addr_isempty_func in Hfree. cbn in Hfree.
    by destruct (Z.eqb_spec (tv_sec (ai_tstart old)) 0). }
  split.
  - eapply put_addr_inv; [done | exact Ha2 |]. unfold entry_status, isempty_func, addr_isempty_func. cbn.
    by rewrite (proj2 (Z.eqb_neq _ _) Hts).
  - change (sh_addrs (g_shm s1)) with (sh_addrs (g_shm s)) in Hb. rewrite (sv_addrs _ Hi) in Hb.
    unfold SI_NUM_ADDRS in *. lia.
  - change (addr_dict (put_addr _ _ s2)) with (addr_dict s2). by rewrite Hd2, Hd1.
  - exact H3.
  - intros [? Hk']. congruence.
  - intros _. exists old. repeat (split; [done |]). unfold addr_side.
    destruct (is_lan ip); cbn in Hr; destruct (Z.leb_spec i 255); done || lia.
  - intros j b Hj Hjb. apply put_addr_ne; [congruence | lia |]. unfold addr_at. rewrite G.
    unfold after_alloc. cbn. rewrite aget_insert_ne by (congruence || lia). exact Hjb.
  - intros lan [[? Hk'] | Hlan]; [congruence |]. transitivity (side_idx lan s2); [by destruct lan |].
    unfold side_idx at 1. rewrite G. by destruct lan, (is_lan ip).
  - intros _. transitivity (side_idx (is_lan ip) s2); [by destruct (is_lan ip) |].
    unfold side_idx at 1. rewrite G. unfold after_alloc. destruct (is_lan ip); reflexivity.
  - cbn [put_addr g_shm set_g_shm set_sh_addrs sh_streams sh_stream_indexes sh_flow_stats sh_protos]. rewrite G.
    split; [by destruct (is_lan ip) |]. split; [by destruct (is_lan ip) |].
    split; [by destruct (is_lan ip) |]. split; [by destruct (is_lan ip) |].
    split; [exact Hts2 | exact Hkm].
  - intros [W1 W2 W3]. split; cbn [put_addr g_shm set_g_shm set_sh_addrs sh_stream_indexes sh_addr_lan_indexes
      sh_addr_wan_indexes]; rewrite G; unfold after_alloc; destruct (is_lan ip); cbn; try done;
      by apply straddles_next.
  - intros p Hp Hpf. exact (Hfresh p Hp Hpf).
  - change (ht_v4addrs (put_addr _ _ s2)) with (ht_v4addrs s2).
    rewrite (dict_size s2) by apply Hi2. rewrite (dict_size s) by apply Hi. rewrite Hd2, Hd1.
    pose proof (insert_size (addr_dict s) (addr_key_init_v4 ip) i). lia.
Qed.

(** No address was freed so far: the dictionary maps every address to a live
    entry of its own. *)
Record dict_live (s : shm_t) : Prop := {
  dl_live : forall k i a, addr_dict s !! k = Some i -> addr_at s i a -> tv_sec (ai_tstart a) <> 0;
  dl_inj : forall k k' i, addr_dict s !! k = Some i -> addr_dict s !! k' = Some i -> k = k'
}.

(** What a lookup or the allocation of [ip] may need. *)
Definition addr_supply (env : pkt_env) (pkey : ptr) (ip : Z) (s : shm_t) : Prop :=
  known ip s \/ addr_room ip s /\ pkey <> NULL /\ fresh_key pkey s /\ pe_ok_pair env = true.

Lemma key_ne ip ip' : ip <> ip' -> addr_key_init_v4 ip <> addr_key_init_v4 ip'.
Proof. intros Hne He. by apply Hne, addr_key_init_inj. Qed.

(** The entries of two different addresses are different. *)
Lemma ready_pair lookup pl pr ts lip rip ml mr il ir al ar s s1 s2 :
  tv_sec ts <> 0 -> lip <> rip -> dict_live s ->
  addr_ready lookup pl ts lip ml il al s s1 -> addr_ready lookup pr ts rip mr ir ar s1 s2 -> il <> ir.
Proof.
  intros Hts Hne [Hlive Hinj] HL HR ->. pose proof (key_ne _ _ Hne) as Hk.
  assert (tv_sec (ai_tstart al) <> 0) as Hal.
  { destruct (decide (known lip s)) as [Hkn | Hkn].
    - destruct (ar_known _ _ _ _ _ _ _ _ _ HL Hkn) as [Hd Ha]. by eapply Hlive.
    - destruct (ar_new _ _ _ _ _ _ _ _ _ HL Hkn) as (old & _ & _ & -> & _). exact Hts. }
  destruct (decide (known rip s1)) as [Hr | Hr].
  - destruct (ar_known _ _ _ _ _ _ _ _ _ HR Hr) as [Hd _].
    rewrite (ar_dict _ _ _ _ _ _ _ _ _ HL), lookup_insert_ne in Hd by done.
    destruct (decide (known lip s)) as [Hkn | Hkn].
    + destruct (ar_known _ _ _ _ _ _ _ _ _ HL Hkn) as [Hd' _]. apply Hk. by eapply Hinj.
    + destruct (ar_new _ _ _ _ _ _ _ _ _ HL Hkn) as (old & Hold & Hz & _). by apply (Hlive _ _ _ Hd Hold).
  - destruct (ar_new _ _ _ _ _ _ _ _ _ HR Hr) as (old & Hold & Hz & _).
    pose proof (ar_at _ _ _ _ _ _ _ _ _ HL) as Ha. unfold addr_at in *. congruence.
Qed.

(** The right address after the left one. *)
Lemma supply_after env pl pr ts lip rip ml il al s s1 :
  lip <> rip -> pl <> pr -> known lip s \/ known rip s \/ is_lan lip <> is_lan rip \/ room_for_two (is_lan rip) s ->
  addr_ready (pe_lookup_key env) pl ts lip ml il al s s1 -> addr_supply env pr rip s -> addr_supply env pr rip s1.
Proof.
  intros Hne Hp Hs HL [Hk | (Hroom & Hn & Hf & Ho)].
  - left. unfold known in *. by rewrite (ar_dict _ _ _ _ _ _ _ _ _ HL), lookup_insert_ne by (by apply key_ne).
  - destruct (decide (known rip s)) as [Hk |].
    { left. unfold known in *. by rewrite (ar_dict _ _ _ _ _ _ _ _ _ HL), lookup_insert_ne by (by apply key_ne). }
    right. split; [| split; [done |]; split; [| done]].
    + unfold addr_room in *. destruct (decide (known lip s \/ is_lan rip <> is_lan lip)) as [Hd | Hd].
      * by rewrite (ar_sides _ _ _ _ _ _ _ _ _ HL).
      * assert (~ known lip s /\ is_lan lip = is_lan rip) as [Hl He]
          by (split; [tauto |]; destruct (decide (is_lan rip = is_lan lip)); [done | tauto]).
        rewrite <- He, (ar_next _ _ _ _ _ _ _ _ _ HL Hl). destruct Hs as [| [| [|]]]; [done .. |]. by rewrite He.
    + apply (ar_fresh _ _ _ _ _ _ _ _ _ HL); [congruence | done].
Qed.

(** The bytes of the MAC address of an end. *)
Definition end_mac (pkt : pktinfo_t) (buf : list Z) (left : bool) (is_flipped : Z) (m : list Z) : Prop :=
  exists off, (if left then if is_flipped =? 0 then pkt_src_mac pkt else pkt_dst_mac pkt
               else if is_flipped =? 0 then pkt_dst_mac pkt else pkt_src_mac pkt) = Val off /\
    mac_at buf off = Val m.

Lemma upd_flags_ok ss e l r al ar s :
  stream_at s ss e -> addr_at s l al -> addr_at s r ar ->
  set_stream_flow_flags ss (Some l) (Some r) s = Val (put_stream ss (stream_flow_flags al ar e) s).
Proof.
  intros Hs Hl Hr. unfold set_stream_flow_flags, addr_at in *. cbn [deref]. rewrite !bind_Val, Hl, Hr, !bind_Val.
  by apply upd_stream_at.
Qed.

Lemma flags_status left right e : entry_status (stream_flow_flags left right e) = entry_status e.
Proof. unfold stream_flow_flags. by repeat case_match. Qed.

(** The array of a side after an address was looked up or allocated. *)
Definition side_after (ip : Z) (s : shm_t) (lan : bool) (p : mga_info_t) : mga_info_t :=
  if bool_decide (known ip s \/ lan <> is_lan ip) then p else mga_next (side_mga lan) p.

(** What is left of the state when the entries of a new stream's ends [il] and [ir] were
    found or allocated. *)
Record ends_made (env : pkt_env) (lip rip il ir : Z) (s s' : shm_t) : Prop := {
  em_others : forall j b, j <> il -> j <> ir -> addr_at s j b -> addr_at s' j b;
  em_left : ~ known lip s -> exists old, addr_at s il old /\ tv_sec (ai_tstart old) = 0;
  em_right : ~ known rip s -> exists old, addr_at s ir old /\ tv_sec (ai_tstart old) = 0;
  em_fresh : forall p, p <> pe_malloc_left env -> p <> pe_malloc_right env -> fresh_key p s -> fresh_key p s';
  em_sides : forall lan, side_idx lan s' = side_after rip s lan (side_after lip s lan (side_idx lan s))
}.

Lemma ends_made_ok env ts lip rip ml mr il ir al ar s s1 s2 :
  shm_inv s -> lip <> rip -> il <> ir ->
  addr_ready (pe_lookup_key env) (pe_malloc_left env) ts lip ml il al s s1 ->
  addr_ready (pe_lookup_key env) (pe_malloc_right env) ts rip mr ir ar s1 s2 ->
  ends_made env lip rip il ir s s2.
Proof.
  intros Hi Hne Hil HL HR.
  assert (known rip s1 <-> known rip s) as Hk.
  { unfold known. by rewrite (ar_dict _ _ _ _ _ _ _ _ _ HL), lookup_insert_ne by (by apply key_ne). }
  split.
  - intros j b Hl Hr Hb. by apply (ar_others _ _ _ _ _ _ _ _ _ HR), (ar_others _ _ _ _ _ _ _ _ _ HL).
  - intros Hn. destruct (ar_new _ _ _ _ _ _ _ _ _ HL Hn) as (old & H1 & H2 & _). by exists old.
  - intros Hn. destruct (ar_new _ _ _ _ _ _ _ _ _ HR) as (old & H1 & H2 & _); [tauto |].
    pose proof (ar_range _ _ _ _ _ _ _ _ _ HR) as Hb.
    destruct (aget_lt (sh_addrs (g_shm s)) ir) as [b Hbi]; [rewrite (sv_addrs _ Hi); unfold SI_NUM_ADDRS in *; lia |].
    pose proof (ar_others _ _ _ _ _ _ _ _ _ HL ir b ltac:(congruence) Hbi) as Hb1. exists b. split; [exact Hbi |].
    unfold addr_at in *. congruence.
  - intros p Hl Hr Hf. by apply (ar_fresh _ _ _ _ _ _ _ _ _ HR), (ar_fresh _ _ _ _ _ _ _ _ _ HL).
  - intros lan.
    assert (forall lk pk i m' a' x y ip, addr_ready lk pk ts ip m' i a' x y ->
      side_idx lan y = side_after ip x lan (side_idx lan x)) as Hone.
    { intros lk pk i m' a' x y ip H. unfold side_after. case_bool_decide as Hd; [by apply (ar_sides _ _ _ _ _ _ _ _ _ H) |].
      assert (~ known ip x /\ lan = is_lan ip) as [Hx ->]
        by (split; [tauto |]; destruct (decide (lan = is_lan ip)); [done | tauto]).
      apply (ar_next _ _ _ _ _ _ _ _ _ H Hx). }
    rewrite (Hone _ _ _ _ _ _ _ _ HR), (Hone _ _ _ _ _ _ _ _ HL). unfold side_after at 1 3.
    by rewrite (bool_decide_ext (known rip s1 \/ lan <> is_lan rip) (known rip s \/ lan <> is_lan rip)) by tauto.
Qed.

Lemma new_stream_ok env hdr buf pkt flip key s ht ml mr :
  let lip := net_stream4_left key in
  let rip := net_stream4_right key in
  shm_inv s -> tv_sec (hdr_ts hdr) <> 0 ->
  mi_num_entries (sh_stream_indexes (g_shm s)) < total_entries streams_mga ->
  mga_room streams_mga (sh_stream_indexes (g_shm s)) ->
  (forall i, HashTablePut (pe_ok_pair env) (pe_ok_rehash env) (g_mem s) (ht_streams s) (pe_key env) (Some i) =
    Val (0, ht i, g_mem s)) ->
  dict_live s -> fresh_key (pe_lookup_key env) s -> pe_lookup_key env <> pe_malloc_left env ->
  pe_malloc_left env <> pe_malloc_right env -> numOfElements (ht_v4addrs s) < 4294967294 ->
  end_mac pkt buf true flip ml -> end_mac pkt buf false flip mr ->
  is_u32 lip -> is_u32 rip -> lip <> rip ->
  known lip s \/ known rip s \/ is_lan lip <> is_lan rip \/ room_for_two (is_lan rip) s ->
  addr_supply env (pe_malloc_left env) lip s -> addr_supply env (pe_malloc_right env) rip s ->
  exists ss old il ir al ar s0 s1 s2 s', new_stream env hdr buf pkt flip key s = Val (Some ss, s') /\
    stream_at s ss old /\ tv_sec (si_tstart old) = 0 /\
    addr_dict s0 = addr_dict s /\ sh_addrs (g_shm s0) = sh_addrs (g_shm s) /\
    addr_ready (pe_lookup_key env) (pe_malloc_left env) (hdr_ts hdr) lip ml il al s0 s1 /\
    addr_ready (pe_lookup_key env) (pe_malloc_right env) (hdr_ts hdr) rip mr ir ar s1 s2 /\
    shm_inv s' /\ addr_at s' il al /\ addr_at s' ir ar /\ il <> ir /\
    addr_dict s' = <[addr_key_init_v4 rip := ir]> (<[addr_key_init_v4 lip := il]> (addr_dict s)) /\
    sh_streams (g_shm s') = <[Z.to_nat ss := stream_flow_flags al ar
      (fill_stream key il ir (hdr_ts hdr) (new_stream_entry (gStreamCount s) old))]> (sh_streams (g_shm s)) /\
    ht_streams s' = ht ss /\ km_stream (g_mem s') = km_stream (g_mem s) /\ (windows s -> windows s') /\
    sh_flow_stats (g_shm s') = sh_flow_stats (g_shm s) /\ sh_protos (g_shm s') = sh_protos (g_shm s) /\
    sh_stream_indexes (g_shm s') = mga_next streams_mga (sh_stream_indexes (g_shm s)) /\
    ends_made env lip rip il ir s s'.
Proof.
  cbv zeta. set (lip := net_stream4_left key). set (rip := net_stream4_right key).
  intros Hi Hts Hn Hroom Hput Hdl Hfl Hll Hlr Hcnt (ol & Hol & Hml) (orr & Hor & Hmr) Hlip Hrip Hne Hside HL HR.
  unfold new_stream.
  destruct (stream_alloc_ok (pe_ok_pair env) (pe_ok_rehash env) (pe_key env) s ht Hi Hn Hroom Hput)
    as (ss & old & s0 & -> & Hi0 & Hold & Hz & S0 & I0 & A0 & D0 & F0 & P0 & T0 & V0 & M0 & _).
  rewrite bind_Val. fold lip rip.
  assert (addr_dict s0 = addr_dict s) as Hd0 by (unfold addr_dict; by rewrite V0, M0).
  assert (dict_live s0) as Hdl0.
  { destruct Hdl as [H1 H2]. split; unfold addr_at in *; rewrite Hd0; [rewrite A0 |]; done. }
  assert (forall p, fresh_key p s -> fresh_key p s0) as Hfr by (intros p; unfold fresh_key; by rewrite V0).
  assert (forall pk ip, addr_supply env pk ip s -> addr_supply env pk ip s0) as Hsup.
  { intros pk ip. unfold addr_supply, known, addr_room. rewrite Hd0, D0. intros [Hk | (Hr0 & ? & ? & ?)]; [by left | right].
    split; [exact Hr0 |]. split; [done |]. split; [by apply Hfr | done]. }
  assert (known lip s0 \/ known rip s0 \/ is_lan lip <> is_lan rip \/ room_for_two (is_lan rip) s0) as Hside0
    by (unfold known, room_for_two in *; by rewrite Hd0, D0).
  assert (numOfElements (ht_v4addrs s0) < 4294967294) as Hcnt0 by (by rewrite V0).
  destruct (addr_for_ok env (pe_malloc_left env) (hdr_ts hdr) lip _ ol ml buf s0 Hi0 Hlip (Hfr _ Hfl) Hts Hol Hml)
    as (il & al & s1 & -> & RL).
  { destruct (Hsup _ _ HL) as [| (? & ? & ? & ?)]; [by left | right]. repeat (split; [done |]). lia. }
  rewrite bind_Val. pose proof (ar_count _ _ _ _ _ _ _ _ _ RL) as Hcnt1.
  destruct (addr_for_ok env (pe_malloc_right env) (hdr_ts hdr) rip _ orr mr buf s1 (ar_inv _ _ _ _ _ _ _ _ _ RL) Hrip
    (ar_fresh _ _ _ _ _ _ _ _ _ RL _ Hll (Hfr _ Hfl)) Hts Hor Hmr) as (ir & ar & s2 & -> & RR).
  { destruct (supply_after env _ _ _ _ _ _ _ _ _ _ Hne Hlr Hside0 RL (Hsup _ _ HR)) as [| (? & ? & ? & ?)];
      [by left | right]. repeat (split; [done |]). lia. }
  rewrite bind_Val. pose proof (ready_pair _ _ _ _ _ _ _ _ _ _ _ _ _ _ _ Hts Hne Hdl0 RL RR) as Hil.
  destruct (ar_rest _ _ _ _ _ _ _ _ _ RL) as (L1 & _ & L3 & L4 & L5 & L6).
  destruct (ar_rest _ _ _ _ _ _ _ _ _ RR) as (R1 & _ & R3 & R4 & R5 & R6).
  pose proof (aget_inv _ _ _ Hold) as Hb.
  set (e0 := new_stream_entry (gStreamCount s) old) in *.
  assert (stream_at s2 ss e0) as He2 by (unfold stream_at; by rewrite R1, L1, S0, aget_insert_eq).
  destruct (upd_stream_at ss e0 (fill_stream key il ir (hdr_ts hdr)) s2 He2) as [-> He3]. rewrite bind_Val.
  set (e3 := fill_stream key il ir (hdr_ts hdr) e0) in *. set (s3 := put_stream ss e3 s2) in *.
  assert (entry_status e3 = ENTRY_TAKEN) as Hst3.
  { unfold entry_status, isempty_func, stream_isempty_func. cbn. by rewrite (proj2 (Z.eqb_neq _ _) Hts). }
  assert (addr_at s2 il al) as Hal by (apply (ar_others _ _ _ _ _ _ _ _ _ RR); [done | apply RL]).
  pose proof (ar_at _ _ _ _ _ _ _ _ _ RR) as Har.
  rewrite (upd_flags_ok ss e3 il ir al ar s3 He3 Hal Har), bind_Val.
  exists ss, old, il, ir, al, ar, s0, s1, s2. eexists. split; [done |].
  split; [exact Hold |]. split; [exact Hz |]. split; [exact Hd0 |]. split; [exact A0 |].
  split; [exact RL |]. split; [exact RR |].
  assert (entry_status e0 = ENTRY_TAKEN) as Hst0.
  { unfold entry_status, isempty_func, stream_isempty_func. done. }
  split.
  { eapply put_stream_inv; [| exact He3 | apply flags_status].
    eapply put_stream_inv; [apply RR | exact He2 | congruence]. }
  split; [exact Hal |]. split; [exact Har |]. split; [exact Hil |].
  split. { change (addr_dict (put_stream _ _ s3)) with (addr_dict s2).
    by rewrite (ar_dict _ _ _ _ _ _ _ _ _ RR), (ar_dict _ _ _ _ _ _ _ _ _ RL), Hd0. }
  split. { cbn. by rewrite R1, L1, S0, !list_insert_insert_eq. }
  split; [by rewrite <- T0, <- L5, <- R5 |]. split; [by rewrite <- M0, <- L6, <- R6 |].
  split. { intros [W1 W2 W3]. assert (windows s2) as [U1 U2 U3]; [| by split].
    apply (ar_win _ _ _ _ _ _ _ _ _ RR), (ar_win _ _ _ _ _ _ _ _ _ RL). pose proof (D0 true) as D1. pose proof (D0 false) as D2. cbn in D1, D2.
    split; [by rewrite D1 | by rewrite D2 | rewrite I0; by apply straddles_next]. }
  split; [cbn; by rewrite R3, L3, F0 |]. split; [cbn; by rewrite R4, L4, P0 |].
  destruct (ar_rest _ _ _ _ _ _ _ _ _ RL) as (_ & L2 & _). destruct (ar_rest _ _ _ _ _ _ _ _ _ RR) as (_ & R2 & _).
  split; [cbn; by rewrite R2, L2, I0 |].
  destruct (ends_made_ok _ _ _ _ _ _ _ _ _ _ _ _ _ Hi0 Hne Hil RL RR) as [M1 M2 M3 M4 M5].
  unfold known, side_after, known, addr_at in M1, M2, M3, M5. rewrite Hd0, A0 in *.
  split; [exact M1 | exact M2 | exact M3 | intros p ? ? ?; by apply M4, Hfr |].
  intros lan. unfold side_after, known. rewrite <- (D0 lan). rewrite <- M5. by destruct lan.
Qed.

(** ** Properties *)

Lemma packet_macs buf pkt left flip :
  HEADER_BYTES <= Z.of_nat (length buf) -> parsed buf pkt -> exists m, end_mac pkt buf left flip m.
Proof.
  intros Hl Hp. unfold HEADER_BYTES in Hl.
  assert (forall off, 0 <= off <= 6 -> exists m, mac_at buf off = Val m) as Hm.
  { intros off Ho. unfold mac_at. rewrite !aget_b8 by lia. eexists. reflexivity. }
  destruct (Hm 0) as [m0 H0]; [lia |]. destruct (Hm 6) as [m6 H6]; [lia |].
  unfold end_mac, pkt_src_mac, pkt_dst_mac. rewrite (pd_ether _ _ Hp). cbn [deref]. rewrite !bind_Val.
  destruct left, (flip =? 0); eauto.
Qed.

(** An address when the packet handler has made it one of a new stream's ends. *)
Definition fresh_end (ip : Z) (ts : tval_t) (a : addr_info_t) : Prop :=
  ai_addr_offset a = ip /\ ai_tstart a = ts /\ ai_isv6 a = 0 /\ ai_internal a = (if is_lan ip then 1 else 0) /\
  ai_nstreams a = 0 /\ ai_nstreams_active a = 0 /\ ai_txpackets a = 0 /\ ai_rxpackets a = 0 /\ ai_txbytes a = 0.

Lemma ready_entry lookup pkey ts ip m i a s0 s1 s :
  addr_dict s0 = addr_dict s -> sh_addrs (g_shm s0) = sh_addrs (g_shm s) ->
  addr_ready lookup pkey ts ip m i a s0 s1 ->
  if bool_decide (known ip s) then addr_dict s !! addr_key_init_v4 ip = Some i /\ addr_at s i a
  else fresh_end ip ts a /\ addr_side i = is_lan ip.
Proof.
  intros Hd Ha HR. assert (known ip s0 <-> known ip s) as Hk by (unfold known; by rewrite Hd).
  case_bool_decide as Hkn.
  - destruct (ar_known _ _ _ _ _ _ _ _ _ HR (proj2 Hk Hkn)) as [H1 H2]. unfold addr_at in *.
    by rewrite <- Hd, <- Ha.
  - destruct (ar_new _ _ _ _ _ _ _ _ _ HR) as (old & _ & _ & -> & Hs); [tauto |]. split; [| exact Hs].
    unfold fresh_end, new_addr. cbn. by destruct (is_lan ip).
Qed.

Lemma ready_entry_right lookup pkey ts lip rip m i a il s1 s2 s :
  shm_inv s -> lip <> rip -> i <> il ->
  addr_dict s1 = <[addr_key_init_v4 lip := il]> (addr_dict s) ->
  (forall j b, j <> il -> addr_at s j b -> addr_at s1 j b) ->
  addr_ready lookup pkey ts rip m i a s1 s2 ->
  if bool_decide (known rip s) then addr_dict s !! addr_key_init_v4 rip = Some i /\ addr_at s i a
  else fresh_end rip ts a /\ addr_side i = is_lan rip.
Proof.
  intros Hinv Hne Hi Hd Ho HR.
  assert (addr_dict s1 !! addr_key_init_v4 rip = addr_dict s !! addr_key_init_v4 rip) as Hr
    by (rewrite Hd; apply lookup_insert_ne; by apply key_ne).
  case_bool_decide as Hkn.
  - destruct (ar_known _ _ _ _ _ _ _ _ _ HR) as [H1 H2]; [unfold known in *; by rewrite Hr |].
    rewrite Hr in H1. split; [done |].
    pose proof (map_Forall_lookup_1 _ _ _ _ (sv_vals _ Hinv) H1) as Hb. cbn in Hb.
    destruct (aget_lt (sh_addrs (g_shm s)) i) as [b Hbi]; [rewrite (sv_addrs _ Hinv); unfold SI_NUM_ADDRS in *; lia |].
    pose proof (Ho i b Hi Hbi) as Hb1. unfold addr_at in *. congruence.
  - destruct (ar_new _ _ _ _ _ _ _ _ _ HR) as (old & _ & _ & -> & Hs); [unfold known in *; by rewrite Hr |].
    split; [| exact Hs].
    unfold fresh_end, new_addr. cbn. by destruct (is_lan rip).
Qed.

(** Everything a new stream of the packet needs. *)
Record can_start (env : pkt_env) (hdr : pcap_pkthdr32_t) (key : stream_key_t) (s : shm_t)
    (ht : Z -> HashTable keymem Z) : Prop := {
  cs_time : tv_sec (hdr_ts hdr) <> 0;
  cs_num : mi_num_entries (sh_stream_indexes (g_shm s)) < total_entries streams_mga;
  cs_room : mga_room streams_mga (sh_stream_indexes (g_shm s));
  cs_put : forall i, HashTablePut (pe_ok_pair env) (pe_ok_rehash env) (g_mem s) (ht_streams s) (pe_key env) (Some i) =
    Val (0, ht i, g_mem s);
  cs_live : dict_live s;
  cs_fresh : fresh_key (pe_lookup_key env) s;
  cs_ptrs : pe_lookup_key env <> pe_malloc_left env /\ pe_malloc_left env <> pe_malloc_right env;
  cs_count : numOfElements (ht_v4addrs s) < 4294967294;
  cs_sides : known (net_stream4_left key) s \/ known (net_stream4_right key) s \/
    is_lan (net_stream4_left key) <> is_lan (net_stream4_right key) \/ room_for_two (is_lan (net_stream4_right key)) s;
  cs_left : addr_supply env (pe_malloc_left env) (net_stream4_left key) s;
  cs_right : addr_supply env (pe_malloc_right env) (net_stream4_right key) s
}.

Lemma key_addrs_u32 key : key_wf key -> is_u32 (net_stream4_left key) /\ is_u32 (net_stream4_right key).
Proof. intros [_ _ _ _ _ [Hl Hf] _]. split; apply load32_u32; done || lia. Qed.

Lemma global_can_start env hdr key s ht :
  can_start env hdr key s ht -> can_start env hdr key (global_counted hdr s) ht.
Proof.
  unfold global_counted. cbv zeta. intros [A1 A2 A3 A4 [B1 B2] A6 A7 A8 A9 A10 A11].
  destruct (_ =? 0); split; done || (split; done).
Qed.

(** The entry of a stream before its first packet is counted. *)
Lemma new_entry_fields al ar key il ir ts e0 :
  0 <= il < 16 * 1024 -> 0 <= ir < 16 * 1024 -> si_packets e0 = 0 -> si_bytes e0 = 0 ->
  let e := stream_flow_flags al ar (fill_stream key il ir ts e0) in
  (si_idx_left e = il /\ si_idx_right e = ir /\ si_rport e = sk_rport (sk_v4 key) /\ si_packets e = 0 /\
   si_bytes e = 0) /\
  si_lport e = sk_lport (sk_v4 key) /\ si_ipproto e = sk_ipproto (sk_v4 key) /\ si_tstart e = ts.
Proof.
  intros Hl Hr Hp Hb. cbv zeta. set (P e := (si_idx_left e = il /\ si_idx_right e = ir /\
    si_rport e = sk_rport (sk_v4 key) /\ si_packets e = 0 /\ si_bytes e = 0) /\
    si_lport e = sk_lport (sk_v4 key) /\ si_ipproto e = sk_ipproto (sk_v4 key) /\ si_tstart e = ts).
  assert (forall f, P (set_si_flowflags f (fill_stream key il ir ts e0))) as H.
  { intros f. unfold P. cbn. by rewrite !u16_small by (unfold is_u16; lia). }
  change (P (stream_flow_flags al ar (fill_stream key il ir ts e0))).
  unfold stream_flow_flags. repeat case_match; try apply H; apply (H (si_flowflags e0)).
Qed.

(** Fields no packet changes. *)
Lemma counted_fields hdr vlan pkt e :
  let e' := counted_stream hdr vlan pkt e in
  si_idx_left e' = si_idx_left e /\ si_idx_right e' = si_idx_right e /\ si_lport e' = si_lport e /\
  si_rport e' = si_rport e /\ si_ipproto e' = si_ipproto e /\ si_tstart e' = si_tstart e /\
  flow_class e' = flow_class e.
Proof.
  cbv zeta. unfold counted_stream. set (e1 := set_si_tlast (hdr_ts hdr) e).
  pose proof (tcp_entry_class pkt e1) as Kc. change (flow_class e1) with (flow_class e) in Kc. rewrite <- Kc.
  unfold tcp_entry. destruct (finishing pkt e1), (istcp pkt =? 0); cbv zeta; by case_match.
Qed.

(** The stream's own counters. *)
Lemma counted_numbers hdr vlan pkt e :
  si_packets (counted_stream hdr vlan pkt e) = u32 (si_packets e + 1) /\
  si_bytes (counted_stream hdr vlan pkt e) = u32 (si_bytes e + i32 (hdr_len hdr)).
Proof.
  unfold counted_stream. set (e1 := set_si_tlast (hdr_ts hdr) e). destruct (tcp_entry_fields pkt e1) as (Kp & _).
  assert (si_bytes (tcp_entry pkt e1) = si_bytes e) as Kb by (unfold tcp_entry; by destruct (finishing _ _), (istcp _ =? 0)).
  change (si_packets e) with (si_packets e1). rewrite <- Kp, <- Kb. cbv zeta. by case_match.
Qed.

(** Counting the first packet. *)
Lemma counted_first hdr vlan pkt e :
  si_packets e = 0 -> si_bytes e = 0 ->
  si_packets (counted_stream hdr vlan pkt e) = 1 /\ si_bytes (counted_stream hdr vlan pkt e) = u32 (i32 (hdr_len hdr)) /\
  flow_class (counted_stream hdr vlan pkt e) = flow_class e.
Proof.
  intros Ep Eb. unfold counted_stream. set (e1 := set_si_tlast (hdr_ts hdr) e).
  pose proof (tcp_entry_class pkt e1) as Kc. destruct (tcp_entry_fields pkt e1) as (Kp & _).
  assert (si_bytes (tcp_entry pkt e1) = 0) as Kb
    by (unfold tcp_entry; by destruct (finishing _ _), (istcp _ =? 0)).
  change (si_packets e1) with (si_packets e) in Kp. rewrite Ep in Kp. rewrite Kp. cbn [Z.eqb].
  change (u32 (si_packets (tcp_entry pkt e1) + 1) = 1 /\
    u32 (si_bytes (tcp_entry pkt e1) + i32 (hdr_len hdr)) = u32 (i32 (hdr_len hdr)) /\
    flow_class (tcp_entry pkt e1) = flow_class e).
  by rewrite Kp, Kb, Kc.
Qed.

Lemma flow_flags_unmarked al ar e : si_flowflags e = 0 -> marked (stream_flow_flags al ar e) = false.
Proof.
  intros H. unfold marked, stream_flow_flags. destruct (_ && _); [done |]. rewrite H.
  destruct (is_web _ =? 0), (ai_internal ar =? 0); cbn [negb]; cbn; rewrite ?H; done.
Qed.

(** The state after the first packet of a conversation: entry [ss] is the new
    stream, [il] and [ir] the entries of its ends, [al] and [ar] their contents
    before the packet is counted. *)
Record started (hdr : pcap_pkthdr32_t) (buf : list Z) (ht : Z -> HashTable keymem Z) (vlan ss il ir : Z)
    (old : stream_info_t) (al ar : addr_info_t) (s s' : shm_t) : Prop := {
  st_free : stream_at s ss old /\ tv_sec (si_tstart old) = 0;
  st_stream : let key := snd (packet_key buf) in
    let e := counted_stream hdr vlan (packet_info buf) (stream_flow_flags al ar
      (fill_stream key il ir (hdr_ts hdr) (new_stream_entry (gStreamCount s) old))) in
    stream_at s' ss e /\ si_packets e = 1 /\ si_bytes e = u32 (i32 (hdr_len hdr)) /\
    flow_class e = flow_of al ar (sk_rport (sk_v4 key));
  st_others : forall j b, j <> ss -> stream_at s j b -> stream_at s' j b;
  st_table : ht_streams s' = ht ss;
  st_dict : let key := snd (packet_key buf) in
    addr_dict s' = <[addr_key_init_v4 (net_stream4_right key) := ir]>
      (<[addr_key_init_v4 (net_stream4_left key) := il]> (addr_dict s)) /\ il <> ir;
  st_left : let ip := net_stream4_left (snd (packet_key buf)) in
    if bool_decide (known ip s) then addr_dict s !! addr_key_init_v4 ip = Some il /\ addr_at s il al
    else fresh_end ip (hdr_ts hdr) al /\ addr_side il = is_lan ip;
  st_right : let ip := net_stream4_right (snd (packet_key buf)) in
    if bool_decide (known ip s) then addr_dict s !! addr_key_init_v4 ip = Some ir /\ addr_at s ir ar
    else fresh_end ip (hdr_ts hdr) ar /\ addr_side ir = is_lan ip;
  st_ends : let '(al', ar') := end_counters (packet_dir buf) (i32 (hdr_len hdr))
      (start_stream true al) (start_stream true ar) in
    addr_at s' il al' /\ addr_at s' ir ar';
  st_flow : sh_flow_stats (g_shm s') =
    alter (add_flow (i32 (hdr_len hdr))) (Z.to_nat (flow_of al ar (sk_rport (sk_v4 (snd (packet_key buf))))))
      (alter (add_flow (i32 (hdr_len hdr))) (Z.to_nat FLOW_TYPE_TOTAL) (sh_flow_stats (g_shm s)));
  st_inv : shm_inv s' /\ (windows s -> windows s')
}.

Lemma packet_new_ok env hdr buf s c ht :
  let key := snd (packet_key buf) in
  let s0 := store_stream_key (pe_key env) key s in
  HEADER_BYTES <= Z.of_nat (length buf) -> Forall is_u8 buf -> 0 <= hdr_caplen hdr < 2147483648 ->
  accepts (hdr_caplen hdr) buf -> shm_inv s -> cleanup_inv c ->
  net_stream4_left key <> 0 -> net_stream4_right key <> 0 -> net_stream4_left key <> net_stream4_right key ->
  shm_stream_lookup (pe_key env) s0 = Val None -> can_start env hdr key s0 ht ->
  exists vlan ss il ir old al ar s' c', packet_step env hdr buf s c = Val (true, s', c') /\
    pkt_get_vlan buf (packet_info buf) = Val vlan /\
    started hdr buf ht vlan ss il ir old al ar s s' /\ cleanup_inv c' /\
    queues c' = (if ends_connection (packet_info buf) then queue_add (tv_sec (hdr_ts hdr)) [ss] (queues c) else queues c) /\
    sh_stream_indexes (g_shm s') = mga_next streams_mga (sh_stream_indexes (g_shm s)) /\
    ends_made env (net_stream4_left key) (net_stream4_right key) il ir s s' /\
    km_stream (g_mem s') = km_stream (g_mem s0) /\
    sh_protos (g_shm s') = match shm_get_protocol (sk_ipproto (sk_v4 key)) (sk_rport (sk_v4 key)) with
      | None => sh_protos (g_shm s)
      | Some i => alter (inc_proto (packet_dir buf) (i32 (hdr_len hdr))) (Z.to_nat i) (sh_protos (g_shm s))
      end.
Proof.
  cbv zeta. set (key := snd (packet_key buf)). set (lip := net_stream4_left key).
  set (rip := net_stream4_right key). set (s0 := store_stream_key (pe_key env) key s). set (len := i32 (hdr_len hdr)).
  intros Hlen Hbytes Hcap Hacc Hi Hc Hl0 Hr0 Hne Hlook Hcan.
  destruct (packet_front env hdr buf s c Hlen Hbytes Hcap Hacc) as (pkt & Hp & ->). cbv zeta. fold key lip rip s0 len.
  rewrite (proj2 (Z.eqb_neq _ _) Hl0), (proj2 (Z.eqb_neq _ _) Hr0). cbn [orb].
  assert (shm_inv s0) as Hi0 by (by apply store_stream_inv).
  pose proof (inc_global_ok hdr s0 (sv_flow _ Hi0)) as Hg. fold len in Hg. rewrite Hg, bind_Val. clear Hg.
  destruct (global_counted_rest hdr s0) as (G1 & G2 & G3 & G4 & G5 & G6 & G7 & _ & Hgc & Hd1).
  pose proof (global_inv hdr s0 Hi0) as Hi1. apply (global_can_start env hdr) in Hcan.
  set (s1 := global_counted hdr s0) in *. change (gStreamCount s0) with (gStreamCount s) in Hgc.
  assert (shm_stream_lookup (pe_key env) s1 = Val None) as ->
    by (unfold shm_stream_lookup in *; by rewrite G5, G6).
  rewrite bind_Val. destruct (packet_key_wf buf Hbytes) as [Hkw _]. fold key in Hkw.
  destruct (key_addrs_u32 key Hkw) as [Hlu Hru]. fold lip rip in Hlu, Hru.
  destruct (packet_macs buf pkt true (i8 (fst (packet_key buf))) Hlen Hp) as [ml Hml].
  destruct (packet_macs buf pkt false (i8 (fst (packet_key buf))) Hlen Hp) as [mr Hmr].
  destruct Hcan as [A1 A2 A3 A4 A5 A6 [A7 A7'] A8 A9 A10 A11].
  destruct (new_stream_ok env hdr buf pkt (i8 (fst (packet_key buf))) key s1 ht ml mr Hi1 A1 A2 A3 A4 A5 A6 A7 A7' A8
    Hml Hmr Hlu Hru Hne A9 A10 A11)
    as (ss & old & il & ir & al & ar & sa & sb & sc & s2 & -> & Hold & Hz & Hda & Haa & RL & RR & Hi2 & Hal & Har & Hil &
      Hd2 & Hst2 & Ht2 & Hk2 & Hw2 & Hf2 & Hp2 & Hx2 & Hm2).
  rewrite bind_Val. rewrite Hgc in Hst2. set (e := stream_flow_flags al ar _) in *.
  pose proof (aget_inv _ _ _ Hold) as Hbss.
  pose proof (ar_range _ _ _ _ _ _ _ _ _ RL) as Hrl. pose proof (ar_range _ _ _ _ _ _ _ _ _ RR) as Hrr.
  unfold SI_NUM_ADDRS in Hrl, Hrr.
  assert (stream_at s2 ss e) as Hse by (unfold stream_at; by rewrite Hst2, aget_insert_eq).
  destruct (new_entry_fields al ar key il ir (hdr_ts hdr) (new_stream_entry (gStreamCount s) old) Hrl Hrr eq_refl eq_refl)
    as [(E1 & E2 & E3 & E4 & E5) (_ & E6 & _)]. fold e in E1, E2, E3, E4, E5, E6.
  destruct (flow_of_class al ar (fill_stream key il ir (hdr_ts hdr) (new_stream_entry (gStreamCount s) old)) eq_refl)
    as [Hcls Hcb]. fold e in Hcls. change (si_rport (fill_stream _ _ _ _ _)) with (sk_rport (sk_v4 key)) in Hcls, Hcb.
  destruct (parsed_vlan buf pkt Hlen (pd_ether _ _ Hp)) as [vlan Hv].
  destruct (stream_packet_ok hdr buf pkt vlan (packet_dir buf) ss s2 c e al ar Hi2)
    as (s' & c' & -> & Hct & Hi' & Hc' & Hq); try done;
    [by rewrite E1 | by rewrite E2 | by rewrite E1, E2 | rewrite E3; apply Hkw | unfold FLOW_TYPE_TOTAL in Hcb; lia |].
  rewrite bind_Val. destruct Hct as [C1 C2 C3 C4 [C5 C6 [W1 [W2 W3]] [C7 [C8 C9]] _ _]].
  exists vlan, ss, il, ir, old, al, ar, s', c'. split; [done |].
  assert (stream_at s ss old) as Hold' by (unfold stream_at in *; rewrite G1 in Hold; exact Hold).
  destruct (counted_info hdr vlan pkt buf e Hp) as [Hce Hcf]. rewrite Hcf in Hq.
  destruct (counted_first hdr vlan pkt e E4 E5) as (K1 & K2 & K3).
  split; [rewrite <- Hv; unfold pkt_get_vlan; by rewrite (pd_ether _ _ Hp) |].
  split; [| split; [exact Hc' | split; [| split; [| split; [| split]]]]].
  5: { by rewrite C9, Hk2, G6. }
  5: { rewrite C4, E3, E6, Hp2. by rewrite G3. }
  3: { rewrite W1, Hx2. unfold s1, global_counted. by destruct (_ =? 0). }
  3: { assert (forall lan, side_idx lan s1 = side_idx lan s) as Hsi
      by (intros []; unfold s1, global_counted; by destruct (_ =? 0)).
    destruct Hm2 as [M1 M2 M3 M4 M5]. unfold known, side_after, known, addr_at in *. rewrite Hd1, G2 in *. split.
    - intros j b Hl Hr Hb. apply C6; [| by apply M1].
      rewrite E1, E2. by intros [<- | [<- | []]]%list_elem_of_In.
    - exact M2.
    - exact M3.
    - intros p Hpl Hpr Hf. assert (fresh_key p s2) as Hf2' by (apply M4; [done | done | unfold fresh_key in *; by rewrite G7]).
      unfold fresh_key in *. by rewrite C8.
    - intros lan. unfold side_after, known.
      transitivity (side_idx lan s2); [destruct lan; [exact W2 | exact W3] |]. by rewrite M5, Hsi. }
  2: { rewrite Hq, finishing_marked. unfold e. by rewrite flow_flags_unmarked, andb_true_r. }
  split.
  - split; [exact Hold' | exact Hz].
  - cbv zeta. fold key e. rewrite <- Hce. split; [exact C1 |]. split; [exact K1 |]. split; [exact K2 |].
    by rewrite K3.
  - intros j b Hj Hb. apply C5; [by intros ->%list_elem_of_singleton |]. unfold stream_at in *.
    rewrite Hst2, aget_insert_ne by (congruence || lia). by rewrite G1.
  - by rewrite C7.
  - cbv zeta. assert (addr_dict s' = addr_dict s2) as -> by (unfold addr_dict; by rewrite C8, C9).
    split; [by rewrite Hd2, Hd1 | exact Hil].
  - eapply (ready_entry _ _ _ lip _ il al sa sb s); [by rewrite Hda, Hd1 | by rewrite Haa, G2 | exact RL].
  - eapply (ready_entry_right _ _ _ lip rip _ _ _ il sb sc s); [exact Hi | exact Hne | congruence | | | exact RR].
    + rewrite (ar_dict _ _ _ _ _ _ _ _ _ RL), Hda, Hd1. done.
    + intros j b Hj Hb. apply (ar_others _ _ _ _ _ _ _ _ _ RL); [done |]. unfold addr_at in *. by rewrite Haa, G2.
  - rewrite E1, E2, E4 in C2. exact C2.
  - by rewrite C3, Hcls, Hf2, G4.
  - split; [exact Hi' |]. intros [V1 V2 V3]. destruct Hw2 as [U1 U2 U3];
      [unfold s1, global_counted; destruct (_ =? 0); by split |].
    split; [by rewrite W2 | by rewrite W3 | by rewrite W1].
Qed.

(** C10: the first packet of a conversation.  If the lookup of its key finds
    nothing and there is room, the handler makes a stream: a free entry gets the
    key's ports and protocol, the packet's time, its flow type, one packet and the
    packet's length; the two addresses get an entry each - the one they had or a new
    one with cleared counters - that the dictionary leads to, and count the stream
    and the packet; the packet is added to the totals and to the flow type; the
    other streams and the invariants are kept. *)
Theorem packet_step_new_stream env hdr buf s c ht
    (Hlen : HEADER_BYTES <= Z.of_nat (length buf)) (Hbytes : Forall is_u8 buf)
    (Hcap : 0 <= hdr_caplen hdr < 2147483648) (Hacc : accepts (hdr_caplen hdr) buf)
    (Hi : shm_inv s) (Hc : cleanup_inv c)
    (Hl0 : net_stream4_left (snd (packet_key buf)) <> 0) (Hr0 : net_stream4_right (snd (packet_key buf)) <> 0)
    (Hne : net_stream4_left (snd (packet_key buf)) <> net_stream4_right (snd (packet_key buf)))
    (Hlook : shm_stream_lookup (pe_key env) (store_stream_key (pe_key env) (snd (packet_key buf)) s) = Val None)
    (Hcan : can_start env hdr (snd (packet_key buf)) (store_stream_key (pe_key env) (snd (packet_key buf)) s) ht) :
  exists vlan ss il ir old al ar s' c', packet_step env hdr buf s c = Val (true, s', c') /\
    pkt_get_vlan buf (packet_info buf) = Val vlan /\
    started hdr buf ht vlan ss il ir old al ar s s' /\ cleanup_inv c'.
Proof.
  destruct (packet_new_ok env hdr buf s c ht) as (vlan & ss & il & ir & old & al & ar & s' & c' & H1 & H2 & H3 & H4 & _); try assumption.
  by exists vlan, ss, il, ir, old, al, ar, s', c'.
Qed.

(** Removing with a key no stored pair's current contents equal changes nothing:
    the keys of all pairs are read from the one shared object. *)
Lemma shared_remove okr p q s :
  shared_key p s -> stream_tbl_shape s ->
  hcmp_stream_key (km_stream (g_mem s) q) (km_stream (g_mem s) p) <> 0 ->
  HashTableRemove okr (g_mem s) (ht_streams s) q = Val (ht_streams s, g_mem s).
Proof.
  intros Hsh [Hn Hl Hc Hh] Hne. unfold HashTableRemove, bucket_index.
  set (h := _ mod _). assert (0 <= h < Z.of_nat (length (bucketArray (ht_streams s)))) as Hb
    by (rewrite Hl; apply Z.mod_pos_bound; lia).
  destruct (aget_lt _ _ Hb) as [l Hg]. rewrite Hg, bind_Val. apply aget_Val in Hg as [_ Hg].
  assert (forall pr, pr ∈ l -> kv_key pr = p) as Hp.
  { intros pr Hpr. unfold shared_key in Hsh. rewrite list.Forall_forall in Hsh. apply Hsh, elem_of_chain.
    by exists (Z.to_nat h), l. }
  assert (find_pair (g_mem s) (ht_streams s) q l = None) as ->; [| done].
  clear Hg. induction l as [| pr l IH]; [done |]. cbn [find_pair]. rewrite Hc, (Hp pr) by set_solver.
  unfold stream_keycmp. rewrite (proj2 (Z.eqb_neq _ _) Hne), IH; [done |]. intros pr' H. apply Hp. set_solver.
Qed.

Lemma freed_keeps_pair env ss s e al ar
    (Hi : shm_inv s) (Hs : stream_at s ss e) (Hlive : tv_sec (si_tstart e) <> 0)
    (Hl : addr_at s (si_idx_left e) al) (Hr : addr_at s (si_idx_right e) ar)
    (Hal : tv_sec (ai_tstart al) <> 0) (Har : tv_sec (ai_tstart ar) <> 0) (Hv4 : ai_isv6 al = 0)
    (Hside : addr_side (si_idx_left e) <> addr_side (si_idx_right e))
    (Hwin : windows s)
    (Hsh : shared_key (pe_key env) s) (Hshape : stream_tbl_shape s) (Hptr : pe_cleanup_key env <> pe_key env)
    (Hne : hcmp_stream_key (key_of_stream e al ar) (km_stream (g_mem s) (pe_key env)) <> 0) :
  exists s', cleanup_stream env ss s = Val s' /\ shm_inv s' /\ ht_streams s' = ht_streams s /\
    sh_streams (g_shm s') = <[Z.to_nat ss := freed_stream e]> (sh_streams (g_shm s)) /\
    addr_at s' (si_idx_left e) (release al) /\ addr_at s' (si_idx_right e) (release ar) /\
    (forall j a, j <> si_idx_left e -> j <> si_idx_right e -> addr_at s j a -> addr_at s' j a) /\
    ht_v4addrs s' = ht_v4addrs s /\
    sh_flow_stats (g_shm s') = sh_flow_stats (g_shm s) /\ sh_protos (g_shm s') = sh_protos (g_shm s).
Proof.
  set (s0 := store_stream_key (pe_cleanup_key env) (key_of_stream e al ar) s).
  assert (HashTableRemove (pe_ok_rehash env) (g_mem s0) (ht_streams s) (pe_cleanup_key env) =
    Val (ht_streams s, g_mem s0)) as Hrm.
  { apply (shared_remove _ (pe_key env) _ s0); [done | by destruct Hshape |].
    unfold s0. cbn. rewrite fn_lookup_insert, fn_lookup_insert_ne by done. exact Hne. }
  assert (forall i a, tv_sec (ai_tstart a) <> 0 -> releasable i a s) as Hrel
    by (intros i a Ha _; split; [exact Ha |]; destruct Hwin; by destruct (addr_side i)).
  destruct (cleanup_stream_ok env ss s e al ar (ht_streams s) Hi Hs Hlive (wi_str _ Hwin) Hl Hr
    (Hrel _ _ Hal) (Hrel _ _ Har) ltac:(congruence) (or_introl Hside) Hv4 Hrm)
    as (s' & H1 & H2 & H3 & H4 & H5 & H6 & H7 & H8 & H9 & H10 & _).
  exists s'. repeat (split; [assumption |]). assumption.
Qed.

(** Freeing a stream of the cleanup list, with the handler's one key object:
    unless the packet being handled happens to have the key of the stream, its pair
    stays in the table, which still leads lookups to the entry just freed.  The entry
    is freed, both ends count one active stream less, and an end without active
    streams is freed; everything else is as before and the block's invariant is
    kept. *)
Theorem cleanup_stream_keeps_pair env ss s e al ar
    (Hi : shm_inv s) (Hs : stream_at s ss e) (Hlive : tv_sec (si_tstart e) <> 0)
    (Hl : addr_at s (si_idx_left e) al) (Hr : addr_at s (si_idx_right e) ar)
    (Hal : tv_sec (ai_tstart al) <> 0) (Har : tv_sec (ai_tstart ar) <> 0) (Hv4 : ai_isv6 al = 0)
    (Hside : addr_side (si_idx_left e) <> addr_side (si_idx_right e))
    (Hwin : windows s)
    (Hsh : shared_key (pe_key env) s) (Hshape : stream_tbl_shape s) (Hptr : pe_cleanup_key env <> pe_key env)
    (Hne : hcmp_stream_key (key_of_stream e al ar) (km_stream (g_mem s) (pe_key env)) <> 0) :
  exists s', cleanup_stream env ss s = Val s' /\ shm_inv s' /\ ht_streams s' = ht_streams s /\
    sh_streams (g_shm s') = <[Z.to_nat ss := freed_stream e]> (sh_streams (g_shm s)) /\
    addr_at s' (si_idx_left e) (release al) /\ addr_at s' (si_idx_right e) (release ar) /\
    (forall j a, j <> si_idx_left e -> j <> si_idx_right e -> addr_at s j a -> addr_at s' j a) /\
    ht_v4addrs s' = ht_v4addrs s /\
    sh_flow_stats (g_shm s') = sh_flow_stats (g_shm s) /\ sh_protos (g_shm s') = sh_protos (g_shm s).
Proof. exact (freed_keeps_pair env ss s e al ar Hi Hs Hlive Hl Hr Hal Har Hv4 Hside Hwin Hsh Hshape Hptr Hne). Qed.


(** Before any allocation no stream is in use. *)
Lemma streams_free s j b :
  shm_inv s -> sh_stream_indexes (g_shm s) = fill_info streams_mga 0 -> stream_at s j b -> tv_sec (si_tstart b) = 0.
Proof.
  intros Hi Hx Hb. pose proof (aget_inv _ _ _ Hb) as Hj. rewrite (sv_streams _ Hi) in Hj. unfold SI_NUM_STREAMS in Hj.
  pose proof (inv_outside _ _ _ (sv_str _ Hi) j ltac:(cbn; lia)) as Ho. rewrite Hx in Ho.
  assert (taken (sh_streams (g_shm s)) j = false) as Ht.
  { apply Ho. change (mi_idx_lo (fill_info streams_mga 0)) with 16384. change (mi_idx_hi (fill_info streams_mga 0)) with 16385. lia. }
  unfold taken in Ht. unfold stream_at in Hb. rewrite Hb in Ht. apply bool_decide_eq_false in Ht.
  unfold entry_status, isempty_func, stream_isempty_func in Ht. cbn in Ht. by destruct (Z.eqb_spec (tv_sec (si_tstart b)) 0).
Qed.

(** ** Witnesses *)
Module LifeTest.
Import ShmTest PacketTest.

Definition env0 : pkt_env := mk_pkt_env 5 6 7 8 9 true true true 0 0.
Definition syn_hdr : pcap_pkthdr32_t := mk_pcap_pkthdr32_t (mk_tval_t 1000 0) 142 142.
Definition syn_buf : list Z := encode_frame syn.
Definition syn_key : stream_key_t := snd (packet_key syn_buf).

(** The initial state, and all that is known of it. *)
Record ready (s : shm_t) : Prop := {
  rd_inv : shm_inv s;
  rd_tbl : stream_tbl_inv s;
  rd_dict : addr_dict s = ∅;
  rd_streams : stream_dict s = ∅;
  rd_pairs : all_pairs (ht_streams s) = [];
  rd_fresh : forall p, fresh_key p s;
  rd_count : numOfElements (ht_v4addrs s) = 0;
  rd_scount : numOfElements (ht_streams s) = 0;
  rd_fns : keycmp (ht_streams s) = stream_keycmp /\ hashFunction (ht_streams s) = stream_hash;
  rd_lan : sh_addr_lan_indexes (g_shm s) = fill_info lan_mga 0;
  rd_wan : sh_addr_wan_indexes (g_shm s) = fill_info wan_mga 0;
  rd_str : sh_stream_indexes (g_shm s) = fill_info streams_mga 0;
  rd_cap : numOfBuckets (ht_streams s) = SI_NUM_STREAMS / 5 /\ idealRatio (ht_streams s) = f32_three /\
    upperRehashThreshold (ht_streams s) = f32_fifteen
}.

Lemma init_ready use_shm : exists s, shm_data_init use_shm env_ok mem0 = Val (Some s) /\ ready s.
Proof.
  destruct (shm_init_ok use_shm env_ok mem0) as (s & H1 & H2 & H3 & H4 & H5 & _ & H6 & H7 & H8 & Hf1 & Hf2 & Hcap);
    [destruct use_shm; [split; [discriminate |] |]; reflexivity | reflexivity .. |].
  destruct (abs_empty km_addr addr_okp (g_mem s) (ht_v4addrs s) (sv_tbl _ H2) H4) as [H9 H10].
  destruct (abs_empty km_stream stream_okp (g_mem s) (ht_streams s) H3 H5) as [H11 H12].
  exists s. split; [exact H1 |]. split; try assumption; [| by split]. intros p. unfold fresh_key. by rewrite H9.
Qed.

Lemma ready_state : exists s, ready s.
Proof. destruct (init_ready false) as (s & _ & Hr). by exists s. Qed.

Lemma ready_store s p k : ready s -> ready (store_stream_key p k s).
Proof.
  intros [? Ht ? Hd Hp ? ? ? ? ? ? ? ?].
  destruct (abs_frame km_stream stream_okp (g_mem s) (g_mem (store_stream_key p k s)) (ht_streams s)) as [H1 H2];
    [exact Ht | rewrite Hp; set_solver |].
  split; try done; [by apply store_stream_inv | unfold stream_dict; by rewrite <- Hd].
Qed.

Lemma syn_key_wf : key_wf syn_key.
Proof. apply packet_key_wf, all_u8. vm_compute. reflexivity. Qed.

(** The table after the insertion of the packet's key. *)
Definition put_tbl (s : shm_t) (i : Z) : HashTable keymem Z :=
  match HashTablePut true true (g_mem s) (ht_streams s) 5 (Some i) with
  | Val (_, t, _) => t
  | _ => ht_streams s
  end.

Lemma put_tbl_ok s i : ready s ->
  let s0 := store_stream_key 5 syn_key s in
  HashTablePut true true (g_mem s0) (ht_streams s0) 5 (Some i) = Val (0, put_tbl s0 i, g_mem s0) /\
  ht_inv km_stream stream_okp (g_mem s0) (put_tbl s0 i) /\
  ht_abs km_stream (g_mem s0) (put_tbl s0 i) = {[ syn_key := i ]} /\
  (forall q, q ∈ all_pairs (put_tbl s0 i) -> kv_key q = 5) /\
  keycmp (put_tbl s0 i) = stream_keycmp /\ hashFunction (put_tbl s0 i) = stream_hash.
Proof.
  intros Hr. cbv zeta. apply (ready_store s 5 syn_key) in Hr as [_ Ht _ Hd Hp _ _ Hn Hfns _ _ _ _].
  set (s0 := store_stream_key 5 syn_key s) in *.
  assert (km_stream (g_mem s0) 5 = syn_key) as Hk by apply fn_lookup_insert.
  destruct (put_ok km_stream stream_okp true true (g_mem s0) (ht_streams s0) 5 i) as (t & Hput & Hi & Ha & Hq);
    [exact Ht | unfold stream_okp; rewrite Hk; apply syn_key_wf | discriminate | by rewrite Hn | by left |].
  unfold put_tbl. rewrite Hput. split; [done |]. split; [exact Hi |].
  split; [rewrite Ha, Hk; fold (stream_dict s0); by rewrite Hd |].
  split; [| destruct (put_fns _ _ _ _ _ _ _ _ _ Hput) as [-> ->]; exact Hfns]. intros q Hin. destruct (Hq q Hin) as [| (q0 & Hq0 & _)]; [done |]. rewrite Hp in Hq0. by apply not_elem_of_nil in Hq0.
Qed.

Lemma syn_can_start s : ready s ->
  can_start env0 syn_hdr syn_key (store_stream_key 5 syn_key s) (put_tbl (store_stream_key 5 syn_key s)) /\
  shm_stream_lookup 5 (store_stream_key 5 syn_key s) = Val None.
Proof.
  intros Hr. pose proof (ready_store s 5 syn_key Hr) as [R1 R2 R3 R4 R5 R6 R7 R8 _ R9 R10 R11 _].
  set (s0 := store_stream_key 5 syn_key s) in *.
  assert (km_stream (g_mem s0) 5 = syn_key) as Hk by apply fn_lookup_insert.
  assert (forall ip pk, pk <> NULL -> (addr_room ip s0) -> addr_supply env0 pk ip s0) as Hsup
    by (intros ip pk Hpk Hroom; right; split; [exact Hroom | split; [exact Hpk | split; [apply R6 | reflexivity]]]).
  split.
  - split.
    + vm_compute. discriminate.
    + by rewrite R11.
    + rewrite R11. right. vm_compute. discriminate.
    + intros i. apply (put_tbl_ok s i Hr).
    + split; intros k; rewrite R3; [intros i a | intros k' i]; by rewrite lookup_empty.
    + apply R6.
    + split; discriminate.
    + by rewrite R7.
    + right. right. left. vm_compute. discriminate.
    + apply Hsup; [done |]. change (net_stream4_left syn_key) with (ip_of 10 0 0 1). unfold addr_room.
      change (is_lan (ip_of 10 0 0 1)) with true. cbn [side_idx side_mga]. rewrite R9. split; [done | apply lan_room].
    + apply Hsup; [done |]. change (net_stream4_right syn_key) with (ip_of 8 8 8 8). unfold addr_room.
      change (is_lan (ip_of 8 8 8 8)) with false. cbn [side_idx side_mga]. rewrite R10. split; [done |].
      right. vm_compute. discriminate.
  - unfold shm_stream_lookup. rewrite (get_lookup km_stream stream_okp);
      [| exact R2 | unfold stream_okp; rewrite Hk; apply syn_key_wf].
    fold (stream_dict s0). by rewrite R4, lookup_empty.
Qed.

Lemma syn_accepted : accepts 142 syn_buf.
Proof. apply frame_accepted; [exact syn_wf | vm_compute; intuition discriminate]. Qed.

Lemma syn_bytes : HEADER_BYTES <= Z.of_nat (length syn_buf) /\ Forall is_u8 syn_buf.
Proof. split; [vm_compute; discriminate | apply all_u8; vm_compute; reflexivity]. Qed.

Lemma packet_step_new_stream_witness :
  exists s s' c', packet_step env0 syn_hdr syn_buf s cleanup_init = Val (true, s', c') /\ shm_inv s'.
Proof.
  destruct ready_state as [s Hr]. destruct (syn_can_start s Hr) as [Hcan Hlook]. destruct syn_bytes as [Hb1 Hb2].
  destruct (packet_step_new_stream env0 syn_hdr syn_buf s cleanup_init (put_tbl (store_stream_key 5 syn_key s)))
    as (vlan & ss & il & ir & old & al & ar & s' & c' & Hp & _ & Hst & _).
  - exact Hb1.
  - exact Hb2.
  - vm_compute. intuition discriminate.
  - exact syn_accepted.
  - exact (rd_inv _ Hr).
  - exact cleanup_init_inv.
  - vm_compute. discriminate.
  - vm_compute. discriminate.
  - vm_compute. discriminate.
  - exact Hlook.
  - exact Hcan.
  - exists s, s', c'. split; [exact Hp | exact (proj1 (st_inv _ _ _ _ _ _ _ _ _ _ _ _ Hst))].
Defined.

(** The state after the packet: one stream, from entry [il] to entry [ir]. *)
Record after_syn (s' : shm_t) (ss il ir : Z) (e : stream_info_t) (al ar : addr_info_t) : Prop := {
  as_inv : shm_inv s' /\ windows s';
  as_stream : stream_at s' ss e;
  as_fields : si_idx_left e = il /\ si_idx_right e = ir /\ si_lport e = 4000 /\ si_rport e = 443 /\
    si_ipproto e = 6 /\ tv_sec (si_tstart e) = 1000 /\ 0 <= flow_class e < FLOW_TYPE_TOTAL;
  as_left : addr_at s' il al /\ tv_sec (ai_tstart al) = 1000 /\ ai_isv6 al = 0 /\ ai_nstreams_active al = 1 /\
    ai_addr_offset al = ip_of 10 0 0 1;
  as_right : addr_at s' ir ar /\ tv_sec (ai_tstart ar) = 1000 /\ ai_nstreams_active ar = 1 /\
    ai_addr_offset ar = ip_of 8 8 8 8;
  as_sides : addr_side il = true /\ addr_side ir = false;
  as_tbl : exists s, ready s /\ ht_streams s' = put_tbl (store_stream_key 5 syn_key s) ss;
  as_idle : tv_sec (si_tlast e) = 1000;
  as_others : forall j b, j <> ss -> stream_at s' j b -> tv_sec (si_tstart b) = 0
}.

Lemma counted_tlast hdr vlan pkt e : si_tlast (counted_stream hdr vlan pkt e) = hdr_ts hdr.
Proof.
  unfold counted_stream, tcp_entry. destruct (istcp pkt =? 0), (finishing pkt _); cbv zeta; by case_match.
Qed.

Lemma ready_free s j b : ready s -> stream_at s j b -> tv_sec (si_tstart b) = 0.
Proof. intros Hr. apply streams_free; apply Hr. Qed.

Lemma syn_first : exists s' ss il ir e al ar, after_syn s' ss il ir e al ar.
Proof.
  destruct ready_state as [s Hr]. destruct (syn_can_start s Hr) as [Hcan Hlook]. destruct syn_bytes as [Hb1 Hb2].
  destruct (packet_new_ok env0 syn_hdr syn_buf s cleanup_init (put_tbl (store_stream_key 5 syn_key s)))
    as (vlan & ss & il & ir & old & al & ar & s' & c' & _ & _ & [S1 (S2 & _ & _ & S3) S4 S5 [S6 S7] SL SR SE SF [SI SW]] & _);
    [exact Hb1 | exact Hb2 | vm_compute; intuition discriminate | exact syn_accepted | exact (rd_inv _ Hr) |
     exact cleanup_init_inv | vm_compute; discriminate .. | exact Hlook | exact Hcan |].
  cbv zeta in SL, SR. change (net_stream4_left (snd (packet_key syn_buf))) with (ip_of 10 0 0 1) in SL.
  change (net_stream4_right (snd (packet_key syn_buf))) with (ip_of 8 8 8 8) in SR.
  rewrite bool_decide_false in SL, SR by (unfold known; rewrite (rd_dict _ Hr), lookup_empty; by intros [? ?]).
  destruct SL as [(L1 & L2 & L3 & L4 & L5 & L6 & _) SL], SR as [(R1 & R2 & R3 & R4 & R5 & R6 & _) SR].
  change (packet_dir syn_buf) with RIGHT_TO_LEFT in SE || change (packet_dir syn_buf) with LEFT_TO_RIGHT in SE.
  cbn [end_counters start_stream] in SE. destruct SE as [SE1 SE2].
  set (e := counted_stream syn_hdr vlan (packet_info syn_buf) _) in *.
  destruct (counted_fields syn_hdr vlan (packet_info syn_buf) (stream_flow_flags al ar
    (fill_stream (snd (packet_key syn_buf)) il ir (hdr_ts syn_hdr) (new_stream_entry (gStreamCount s) old))))
    as (F1 & F2 & F3 & F4 & F5 & F6 & F7). fold e in F1, F2, F3, F4, F5, F6, F7.
  assert (0 <= ir < SI_NUM_ADDRS) as Hir
    by (apply (map_Forall_lookup_1 _ _ (addr_key_init_v4 (ip_of 8 8 8 8)) _ (sv_vals _ SI)); rewrite S6; apply lookup_insert_eq).
  assert (0 <= il < SI_NUM_ADDRS) as Hil.
  { apply (map_Forall_lookup_1 _ _ (addr_key_init_v4 (ip_of 10 0 0 1)) _ (sv_vals _ SI)). rewrite S6.
    rewrite lookup_insert_ne; [apply lookup_insert_eq | apply key_ne; vm_compute; discriminate]. }
  exists s', ss, il, ir, e. do 2 eexists. split.
  - split; [exact SI | apply SW; destruct Hr as [_ _ _ _ _ _ _ _ _ H1 H2 H3 _]; split; rewrite ?H1, ?H2, ?H3; done].
  - exact S2.
  - rewrite F1, F2, F3, F4, F5, F6, F7.
    destruct (new_entry_fields al ar (snd (packet_key syn_buf)) il ir (hdr_ts syn_hdr)
      (new_stream_entry (gStreamCount s) old)) as [(-> & -> & -> & _) (-> & -> & ->)]; [exact Hil | exact Hir | done | done |].
    do 6 (split; [done |]).
    match goal with |- context [flow_class (stream_flow_flags ?a ?b ?e0)] =>
      destruct (flow_of_class a b e0 eq_refl) as [-> Hb] end. exact Hb.
  - split; [exact SE1 |]. cbn. by rewrite L2, L3, L6, L1.
  - split; [exact SE2 |]. cbn. by rewrite R2, R6, R1.
  - by rewrite SL, SR.
  - exists s. by split.
  - unfold e. by rewrite counted_tlast.
  - intros j b Hj Hb. pose proof (aget_inv _ _ _ Hb) as Hjb. rewrite (sv_streams _ SI) in Hjb.
    destruct (aget_lt (sh_streams (g_shm s)) j) as [b' Hb']; [by rewrite (sv_streams _ (rd_inv _ Hr)) |].
    pose proof (S4 j b' Hj Hb') as Hbs2. unfold stream_at in Hb, Hbs2. assert (b = b') as -> by congruence. exact (ready_free s j b' Hr Hb').
Qed.

(** The table of that state, read with the packet's key in the shared object. *)
Lemma syn_table s' ss : (exists s, ready s /\ ht_streams s' = put_tbl (store_stream_key 5 syn_key s) ss) ->
  shared_key 5 s' /\ stream_tbl_shape s' /\
  shm_stream_lookup 5 (store_stream_key 5 syn_key s') = Val (Some ss).
Proof.
  intros (s & Hr & Ht). destruct (put_tbl_ok s ss Hr) as (_ & Hi & Ha & Hk & Hc & Hh).
  assert (forall q, q ∈ all_pairs (ht_streams s') -> kv_key q = 5) as Hk' by (intros q; rewrite Ht; apply Hk).
  split; [apply list.Forall_forall, Hk' |]. split; [split; rewrite Ht; [apply Hi | apply Hi | exact Hc | exact Hh] |].
  unfold shm_stream_lookup. set (m := g_mem (store_stream_key 5 syn_key s')).
  change (ht_streams (store_stream_key 5 syn_key s')) with (ht_streams s'). rewrite Ht.
  assert (km_stream m 5 = syn_key) as Hm by apply fn_lookup_insert.
  destruct (abs_frame km_stream stream_okp _ m _ Hi) as [Hi' Ha'].
  { intros q Hq. rewrite (Hk q Hq). unfold stream_okp. rewrite Hm. split; [apply syn_key_wf |].
    symmetry. apply fn_lookup_insert. }
  rewrite (get_lookup km_stream stream_okp); [| exact Hi' | unfold stream_okp; rewrite Hm; apply syn_key_wf].
  by rewrite Ha', Ha, Hm, lookup_singleton_eq.
Qed.

Lemma packet_step_known_stream_witness :
  exists s s' c', packet_step env0 syn_hdr syn_buf s cleanup_init = Val (true, s', c') /\ shm_inv s'.
Proof.
  destruct syn_first as (s & ss & il & ir & e & al & ar & [A1 A2 (F1 & F2 & _ & F4 & _ & _ & F7) [A4 _] [A5 _] [A6 A6'] A7 _ _]).
  destruct (syn_table s ss A7) as (_ & _ & Hlook). destruct syn_bytes as [Hb1 Hb2].
  destruct (packet_step_known_stream env0 syn_hdr syn_buf s cleanup_init ss e al ar)
    as (s' & c' & vlan & Hp & _ & _ & Hi & _).
  - exact Hb1.
  - exact Hb2.
  - vm_compute. intuition discriminate.
  - exact syn_accepted.
  - split; vm_compute; discriminate.
  - exact Hlook.
  - exact (proj1 A1).
  - exact cleanup_init_inv.
  - exact A2.
  - rewrite F1. exact A4.
  - rewrite F2. exact A5.
  - rewrite F1, F2. intros ->. congruence.
  - rewrite F4. vm_compute. intuition discriminate.
  - exact F7.
  - exists s, s', c'. split; [exact Hp | exact Hi].
Defined.

(** While another packet (here with an empty key) is handled, the stream is freed:
    the lookup of its key still leads to its entry. *)
Lemma cleanup_stream_keeps_pair_witness :
  exists s s' ss, cleanup_stream env0 ss s = Val s' /\ taken (sh_streams (g_shm s')) ss = false /\
    shm_stream_lookup 5 (store_stream_key 5 syn_key s') = Val (Some ss).
Proof.
  destruct syn_first as (s0 & ss & il & ir & e & al & ar & [[A1 [W1 W2 W3]] A2
    (F1 & F2 & F3 & F4 & F5 & F6 & F7) (A4 & L1 & L2 & L3 & L4) (A5 & R1 & R3 & R4) [A6 A6'] A7 _ _]).
  set (s := store_stream_key 5 zero_stream_key s0).
  destruct (syn_table s ss A7) as (Hsh & Hshape & Hlook).
  destruct (cleanup_stream_keeps_pair env0 ss s e al ar) as (s' & Hc & _ & Ht & Hs & _).
  - exact (store_stream_inv _ _ _ A1).
  - exact A2.
  - rewrite F6. discriminate.
  - rewrite F1. exact A4.
  - rewrite F2. exact A5.
  - rewrite L1. discriminate.
  - rewrite R1. discriminate.
  - exact L2.
  - rewrite F1, F2, A6, A6'. discriminate.
  - split; [exact W1 | exact W2 | exact W3].
  - exact Hsh.
  - exact Hshape.
  - discriminate.
  - assert (km_stream (g_mem s) (pe_key env0) = zero_stream_key) as -> by apply fn_lookup_insert.
    unfold key_of_stream. rewrite F3, F4, F5, L4, R4. vm_compute. discriminate.
  - exists s, s', ss. split; [exact Hc |]. split.
    + pose proof (aget_inv _ _ _ A2) as Hb. unfold taken. rewrite Hs, aget_insert_eq by exact Hb. reflexivity.
    + assert (exists s1, ready s1 /\ ht_streams s' = put_tbl (store_stream_key 5 syn_key s1) ss) as A7'
        by (rewrite Ht; exact A7).
      exact (proj2 (proj2 (syn_table s' ss A7'))).
Defined.

Lemma packet_step_ignored_witness : exists s,
  packet_step env0 (mk_pcap_pkthdr32_t (mk_tval_t 1000 0) 13 142) syn_buf s cleanup_init = Val (false, s, cleanup_init).
Proof.
  destruct ready_state as [s _]. exists s. destruct syn_bytes as [Hb1 Hb2].
  apply (packet_step_ignored env0 (mk_pcap_pkthdr32_t (mk_tval_t 1000 0) 13 142) syn_buf s cleanup_init Hb1 Hb2).
  - vm_compute. intuition discriminate.
  - intros [H _]. vm_compute in H. apply H. reflexivity.
Defined.

Lemma stream_flow_flags_class_witness :
  flow_class (stream_flow_flags (set_ai_internal 1 zero_addr_info) zero_addr_info (set_si_rport 443 zero_stream_info)) = 1.
Proof.
  destruct (stream_flow_flags_class (set_ai_internal 1 zero_addr_info) zero_addr_info
    (set_si_rport 443 zero_stream_info) eq_refl) as [H _]. exact H.
Defined.

Lemma find_expired_streams_spec_witness :
  exists s c, find_expired_streams 1031 s cleanup_init = Val c /\
    list_items c = take 3276 (List.filter (expired 1031 (sh_streams (g_shm s))) (inside (sh_stream_indexes (g_shm s)))).
Proof.
  destruct syn_first as (s & ss & il & ir & e & al & ar & [[A1 _] _ _ _ _ _ _ _ _]).
  destruct (find_expired_streams_spec 1031 s cleanup_init A1 cleanup_init_inv) as (c & H1 & _ & H2).
  exists s, c. split; [exact H1 |]. change (list_items c) with (fst (queues c)). rewrite H2. reflexivity.
Defined.

End LifeTest.
