(* ===== verification/Replay.v ===== *)
(** Reading capture files: what [read_pcap_loop] of [capture/readcap.c] hands to
    its callback, for every file content. *)
From S2P Require Import Prelude Structs Packet Capture.
#[local] Open Scope Z_scope.

(** ** The format *)

Definition hdr_wf (h : pcap_pkthdr32_t) : Prop :=
  is_u32 (tv_sec (hdr_ts h)) /\ is_u32 (tv_usec (hdr_ts h)) /\ is_u32 (hdr_caplen h) /\ is_u32 (hdr_len h).

Definition encode_hdr (h : pcap_pkthdr32_t) : list Z :=
  le_bytes 4 (tv_sec (hdr_ts h)) ++ le_bytes 4 (tv_usec (hdr_ts h)) ++
  le_bytes 4 (hdr_caplen h) ++ le_bytes 4 (hdr_len h).

Definition encode_record (r : pcap_pkthdr32_t * list Z) : list Z := encode_hdr (fst r) ++ snd r.

(** A packet the loop can hold: its header's length is that of the data. *)
Definition record_wf (r : pcap_pkthdr32_t * list Z) : Prop :=
  hdr_wf (fst r) /\ hdr_caplen (fst r) = Z.of_nat (length (snd r)) /\ hdr_caplen (fst r) <= MAX_PKT_BYTES.

Lemma length_encode_hdr h : length (encode_hdr h) = SIZEOF_PKTHDR.
Proof. unfold encode_hdr. by rewrite !length_app, !length_le_bytes. Qed.

Lemma decode_encode_hdr h : hdr_wf h -> decode_pkthdr (encode_hdr h) = h.
Proof.
  intros (H1 & H2 & H3 & H4). unfold is_u32 in *. destruct h as [[s us] cl len]. cbn in H1, H2, H3, H4.
  unfold decode_pkthdr, encode_hdr. cbn [hdr_ts tv_sec tv_usec hdr_caplen hdr_len].
  rewrite take_app_length', drop_app_length', take_app_length' by (by rewrite length_le_bytes).
  assert (forall a b c d : list Z, length a = 4%nat -> length b = 4%nat -> length c = 4%nat ->
    drop 8 (a ++ b ++ c ++ d) = c ++ d /\ drop 12 (a ++ b ++ c ++ d) = d) as Hd.
  { intros a b c d Ha Hb Hc. split.
    - change 8%nat with (4 + 4)%nat. rewrite <- drop_drop, !drop_app_length' by done. done.
    - change 12%nat with (4 + (4 + 4))%nat. rewrite <- !drop_drop, !drop_app_length' by done. done. }
  destruct (Hd (le_bytes 4 s) (le_bytes 4 us) (le_bytes 4 cl) (le_bytes 4 len)) as [-> ->];
    [apply length_le_bytes .. |].
  rewrite take_app_length' by (by rewrite length_le_bytes). rewrite (take_ge (le_bytes 4 len)) by (by rewrite length_le_bytes).
  rewrite !le_val_bytes. change (256 ^ Z.of_nat 4) with 4294967296. rewrite !Z.mod_small by lia. done.
Qed.

(** What the callback gets: every packet in order, with its number, in a buffer
    that keeps the end of what was in it before. *)
Fixpoint feed {S} (cb : pcap_pkthdr32_t -> list Z -> Z -> S -> res (Z * S)) (fin : Z)
    (recs : list (pcap_pkthdr32_t * list Z)) (tmpbuf : list Z) (pktnum : Z) (st : S) : res (Z * S) :=
  match recs with
  | [] => Val (fin, st)
  | (h, data) :: recs =>
      let tmpbuf := data ++ drop (length data) tmpbuf in
      let pktnum := i32 (pktnum + 1) in
      '(r, st) ← cb h tmpbuf pktnum st;
      if negb (r =? 0) then Val (-3, st) else feed cb fin recs tmpbuf pktnum st
  end.

(** The end of a file: too few bytes for a header, or for the packet announced. *)
Inductive file_end : list Z -> Z -> Prop :=
| End_short tail : (length tail < SIZEOF_PKTHDR)%nat -> file_end tail (-1)
| End_cut h data : hdr_wf h -> Z.of_nat (length data) < hdr_caplen h -> Z.of_nat (length data) <= MAX_PKT_BYTES ->
    file_end (encode_hdr h ++ data) (-2).

Lemma read_hdr h rest : read_file (encode_hdr h ++ rest) SIZEOF_PKTHDR = (encode_hdr h, rest).
Proof. unfold read_file. by rewrite take_app_length', drop_app_length' by (by rewrite length_encode_hdr). Qed.

Lemma read_end {S} (cb : pcap_pkthdr32_t -> list Z -> Z -> S -> res (Z * S)) fuel tail fin tmpbuf n st :
  (0 < fuel)%nat -> file_end tail fin -> read_pcap_loop cb fuel tail tmpbuf n st = Val (fin, st).
Proof.
  intros Hf [t Ht | h data Hh Hlt Hmax]; (destruct fuel as [| fuel]; [lia |]); cbn [read_pcap_loop].
  - unfold read_file. rewrite length_take, (proj2 (Z.ltb_lt _ _)) by lia. done.
  - rewrite read_hdr, length_encode_hdr, Z.ltb_irrefl, decode_encode_hdr by done.
    destruct Hh as (_ & _ & Hc & _). unfold is_u32, MAX_PKT_BYTES in *. unfold read_file.
    rewrite take_ge by lia. rewrite (proj2 (Z.ltb_ge 1700 _)), u32_small by (unfold is_u32; lia).
    by rewrite (proj2 (Z.ltb_lt _ _)).
Qed.

Lemma read_records {S} (cb : pcap_pkthdr32_t -> list Z -> Z -> S -> res (Z * S)) recs tail fin :
  Forall record_wf recs -> file_end tail fin ->
  forall fuel tmpbuf n st, (length (concat (List.map encode_record recs) ++ tail) < fuel)%nat ->
  read_pcap_loop cb fuel (concat (List.map encode_record recs) ++ tail) tmpbuf n st = feed cb fin recs tmpbuf n st.
Proof.
  intros Hrec Hend. induction Hrec as [| [h data] recs (Hh & Hcl & Hmax) Hrec IH]; intros fuel tmpbuf n st Hf.
  { apply read_end; [lia | done]. }
  cbn [fst snd] in Hh, Hcl, Hmax. destruct fuel as [| fuel]; [lia |]. cbn [read_pcap_loop feed List.map concat].
  unfold encode_record at 1. cbn [fst snd]. rewrite <- !app_assoc.
  rewrite read_hdr, length_encode_hdr, Z.ltb_irrefl, decode_encode_hdr by done.
  assert (Z.to_nat (hdr_caplen h) = length data) as Hn by lia.
  unfold read_file. rewrite Hn, take_app_length, drop_app_length.
  rewrite (proj2 (Z.ltb_ge MAX_PKT_BYTES _)) by (unfold MAX_PKT_BYTES in *; lia).
  rewrite <- Hcl, u32_small, Z.ltb_irrefl by apply Hh.
  destruct (cb h _ _ st) as [[r st'] | |]; [| done ..]. cbn [mbind res_bind].
  destruct (negb (r =? 0)); [done |]. apply IH.
  cbn [List.map concat] in Hf. unfold encode_record in Hf at 1. cbn [fst snd] in Hf.
  rewrite !length_app, length_encode_hdr in Hf. unfold SIZEOF_PKTHDR in Hf. rewrite length_app. lia.
Qed.

(** ** Properties *)

(** C31: reading a capture file of packets of at most 1700 captured bytes each, the size
    of [tmpbuf] (a longer one overruns it: [read_pcap_loop_overflows]): after the 24
    bytes of its header, the callback gets every packet of the file once, in order, with
    the packet's header as it was written and the packet's bytes at the start of the
    buffer, until it returns a value other than 0; the loop ends with -1 at the end of
    the file and with -2 in a packet cut short.  It terminates: the file's length is
    enough fuel. *)
Theorem read_pcap_loop_records {S} (cb : pcap_pkthdr32_t -> list Z -> Z -> S -> res (Z * S))
    fh recs tail fin tmpbuf st
    (Hfh : length fh = SIZEOF_FILE_HEADER) (Hrec : Forall record_wf recs) (Hend : file_end tail fin) :
  exists bytes, open_pcap (Some (fh ++ concat (List.map encode_record recs) ++ tail)) = Some bytes /\
    forall fuel, (length bytes < fuel)%nat ->
      read_pcap_loop cb fuel bytes tmpbuf 0 st = feed cb fin recs tmpbuf 0 st.
Proof.
  exists (concat (List.map encode_record recs) ++ tail). split.
  - unfold open_pcap. cbn [fmap option_fmap option_map]. by rewrite drop_app_length'.
  - intros fuel Hf. by apply read_records.
Qed.

(** A packet longer than the buffer: [read] is asked for as many bytes as the
    packet's header says, whatever the buffer's size, so a file with a record of more
    than 1700 bytes writes beyond [tmpbuf]. *)
Theorem read_pcap_loop_overflows {S} (cb : pcap_pkthdr32_t -> list Z -> Z -> S -> res (Z * S))
    h data rest fuel tmpbuf n st
    (Hh : hdr_wf h) (Hcl : hdr_caplen h = Z.of_nat (length data)) (Hbig : MAX_PKT_BYTES < hdr_caplen h) :
  read_pcap_loop cb (Datatypes.S fuel) (encode_record (h, data) ++ rest) tmpbuf n st = Undefined.
Proof.
  cbn [read_pcap_loop]. unfold encode_record. cbn [fst snd].
  rewrite <- app_assoc, read_hdr, length_encode_hdr, Z.ltb_irrefl, decode_encode_hdr by done.
  unfold read_file. rewrite Hcl, Nat2Z.id, take_app_length. by rewrite (proj2 (Z.ltb_lt MAX_PKT_BYTES _)) by lia.
Qed.

(** ** Witnesses *)
Module ReplayTest.

Definition hdr3 : pcap_pkthdr32_t := mk_pcap_pkthdr32_t (mk_tval_t 1000 5) 3 60.
(** A callback that collects the packets and stops at the third. *)
Definition collect (h : pcap_pkthdr32_t) (buf : list Z) (n : Z) (st : list (list Z)) : res (Z * list (list Z)) :=
  Val (if n =? 3 then 1 else 0, st ++ [take (Z.to_nat (hdr_caplen h)) buf]).

Lemma read_pcap_loop_records_witness :
  exists bytes, open_pcap (Some (replicate 24 0 ++ encode_record (hdr3, [7; 8; 9]) ++
      encode_record (hdr3, [1; 2; 3]) ++ [0; 0])) = Some bytes /\
    read_pcap_loop collect 100 bytes [] 0 [] = Val (-1, [[7; 8; 9]; [1; 2; 3]]).
Proof.
  destruct (read_pcap_loop_records collect (replicate 24 0) [(hdr3, [7; 8; 9]); (hdr3, [1; 2; 3])] [0; 0] (-1) [] [])
    as (bytes & H1 & H2).
  - reflexivity.
  - repeat constructor; vm_compute; intuition discriminate.
  - constructor. vm_compute. lia.
  - exists bytes. split; [exact H1 |]. rewrite H2; [reflexivity |].
    vm_compute in H1. injection H1 as <-. vm_compute. lia.
Defined.

Lemma read_pcap_loop_overflows_witness :
  read_pcap_loop collect 1 (encode_record (mk_pcap_pkthdr32_t (mk_tval_t 1000 5) 1701 1701, replicate 1701 0) ++ [])
    [] 0 [] = Undefined.
Proof.
  apply (read_pcap_loop_overflows collect (mk_pcap_pkthdr32_t (mk_tval_t 1000 5) 1701 1701) (replicate 1701 0) [] 0 [] 0 []);
    vm_compute; intuition discriminate.
Defined.

End ReplayTest.
