(* ===== verification/Conversation.v ===== *)
(** A conversation from end to end: what the capture process has counted after any
    number of packets of a stream it knows. *)
From S2P Require Import Prelude Structs IpUtils StreamKey HashTable StatProc Packet Cleanup ShmData Capture Lifecycle.
From stdpp Require Import list.
#[local] Open Scope Z_scope.

Record packet := mk_packet { pk_env : pkt_env; pk_hdr : pcap_pkthdr32_t; pk_buf : list Z }.

Definition pk_key (p : packet) : stream_key_t := snd (packet_key (pk_buf p)).
Definition pk_len (p : packet) : Z := i32 (hdr_len (pk_hdr p)).
Definition pk_ltr (p : packet) : bool := bool_decide (packet_dir (pk_buf p) = LEFT_TO_RIGHT).

(** The live capture, one packet after the other. *)
Definition handle (l : list packet) (st : capture_t) : res capture_t :=
  for_each (fun p st => '(_, st) ← on_packet false (pk_env p) (pk_hdr p) (pk_buf p) st; Val st) l st.

(** ** Sums *)

Definition count (l : list packet) : Z := Z.of_nat (length l).
Definition total_len (l : list packet) : Z := foldr (fun p n => pk_len p + n) 0 l.
Definition sent_left (l : list packet) : list packet := List.filter pk_ltr l.
Definition sent_right (l : list packet) : list packet := List.filter (fun p => negb (pk_ltr p)) l.

Lemma count_app l l' : count (l ++ l') = count l + count l'.
Proof. unfold count. rewrite length_app. lia. Qed.

Lemma total_len_app l l' : total_len (l ++ l') = total_len l + total_len l'.
Proof. unfold total_len. induction l as [| p l IH]; [done |]. cbn. rewrite IH. lia. Qed.

(** [y] is the 32-bit counter [x] after [n] more. *)
Definition adds (x n y : Z) : Prop := u32 y = u32 (x + n).

Lemma adds_zero x : adds x 0 x.
Proof. unfold adds. by rewrite Z.add_0_r. Qed.

Lemma adds_u32 x n : adds x n (u32 (x + n)).
Proof. unfold adds, u32. by rewrite Z.mod_mod by lia. Qed.

Lemma adds_trans x y z m n : adds x m y -> adds y n z -> adds x (m + n) z.
Proof.
  unfold adds, u32. intros H1 H2. rewrite H2, <- Zplus_mod_idemp_l, H1, Zplus_mod_idemp_l. f_equal. lia.
Qed.

Lemma adds_small x n y : adds x n y -> is_u32 y -> 0 <= x + n < 4294967296 -> y = x + n.
Proof. unfold adds, is_u32. intros H Hy Hx. by rewrite !u32_small in H by (unfold is_u32; lia). Qed.

(** ** The packets of a stream *)

Section Conversation.
Context (k : ptr) (ss : Z) (ht : HashTable keymem Z).

(** A packet the handler counts on entry [ss]: accepted, with addresses, and of a key
    whose chain in the table starts with that entry; not the end of a connection. *)
Record stream_packet_in (s : shm_t) (p : packet) : Prop := {
  sp_bytes : HEADER_BYTES <= Z.of_nat (length (pk_buf p)) /\ Forall is_u8 (pk_buf p);
  sp_cap : 0 <= hdr_caplen (pk_hdr p) < 2147483648 /\ accepts (hdr_caplen (pk_hdr p)) (pk_buf p);
  sp_addrs : net_stream4_left (pk_key p) <> 0 /\ net_stream4_right (pk_key p) <> 0;
  sp_env : pe_key (pk_env p) = k;
  sp_chain : kv_value <$> head (stream_chain s (pk_key p)) = Some ss;
  sp_open : istcp (packet_info (pk_buf p)) = 0 \/ isfin (packet_info (pk_buf p)) = 0
}.

(** The state a conversation goes on from. *)
Record talking (st : capture_t) (e : stream_info_t) (al ar : addr_info_t) : Prop := {
  tk_inv : shm_inv (cp_shm st);
  tk_cleanup : cleanup_inv (cp_cleanup st) /\ list_items (cp_cleanup st) = [];
  tk_stream : stream_at (cp_shm st) ss e;
  tk_left : addr_at (cp_shm st) (si_idx_left e) al;
  tk_right : addr_at (cp_shm st) (si_idx_right e) ar;
  tk_fields : si_idx_left e <> si_idx_right e /\ is_u16 (si_rport e) /\ 0 <= flow_class e < FLOW_TYPE_TOTAL;
  tk_packets : is_u32 (si_packets e);
  tk_tbl : shared_key k (cp_shm st) /\ stream_tbl_shape (cp_shm st)
}.

(** What the counters of one end have seen. *)
Definition end_adds (tx rx : list packet) (a a' : addr_info_t) : Prop :=
  adds (ai_txpackets a) (count tx) (ai_txpackets a') /\ adds (ai_txbytes a) (total_len tx) (ai_txbytes a') /\
  adds (ai_rxpackets a) (count rx) (ai_rxpackets a') /\ adds (ai_rxbytes a) (total_len rx) (ai_rxbytes a') /\
  ai_nstreams a' = ai_nstreams a /\ ai_nstreams_active a' = ai_nstreams_active a.

Definition flow_adds (l : list packet) (s s' : shm_t) (i : Z) : Prop :=
  exists f f', aget (sh_flow_stats (g_shm s)) i = Val f /\ aget (sh_flow_stats (g_shm s')) i = Val f' /\
    adds (fs_packets f) (count l) (fs_packets f') /\ adds (fs_bytes f) (total_len l) (fs_bytes f').

(** What a list of packets has done. *)
Record talked (l : list packet) (s s' : shm_t) (e e' : stream_info_t) (al al' ar ar' : addr_info_t) : Prop := {
  td_stream : adds (si_packets e) (count l) (si_packets e') /\ adds (si_bytes e) (total_len l) (si_bytes e');
  td_same : si_idx_left e' = si_idx_left e /\ si_idx_right e' = si_idx_right e /\ si_lport e' = si_lport e /\
    si_rport e' = si_rport e /\ si_ipproto e' = si_ipproto e /\ si_tstart e' = si_tstart e /\ flow_class e' = flow_class e;
  td_left : end_adds (sent_left l) (sent_right l) al al';
  td_right : end_adds (sent_right l) (sent_left l) ar ar';
  td_total : flow_adds l s s' FLOW_TYPE_TOTAL;
  td_class : flow_adds l s s' (flow_class e);
  td_others : forall j b, j <> ss -> stream_at s j b -> stream_at s' j b;
  td_tbls : ht_streams s' = ht_streams s /\ ht_v4addrs s' = ht_v4addrs s
}.

Lemma end_adds_trans tx rx tx' rx' a b c :
  end_adds tx rx a b -> end_adds tx' rx' b c -> end_adds (tx ++ tx') (rx ++ rx') a c.
Proof.
  intros (A1 & A2 & A3 & A4 & A5 & A6) (B1 & B2 & B3 & B4 & B5 & B6). unfold end_adds.
  rewrite !count_app, !total_len_app, B5, B6. repeat (split; [by eapply adds_trans |]). done.
Qed.

Lemma flow_adds_trans l l' s1 s2 s3 i : flow_adds l s1 s2 i -> flow_adds l' s2 s3 i -> flow_adds (l ++ l') s1 s3 i.
Proof.
  intros (f1 & f2 & A1 & A2 & A3 & A4) (g2 & f3 & B1 & B2 & B3 & B4). rewrite A2 in B1. injection B1 as <-.
  exists f1, f3. rewrite count_app, total_len_app. split; [done |]. split; [done |]. split; by eapply adds_trans.
Qed.

Lemma aget_alter_eq {A} (f : A -> A) (l : list A) i x : aget l i = Val x -> aget (alter f (Z.to_nat i) l) i = Val (f x).
Proof.
  intros H. pose proof (aget_inv _ _ _ H). apply aget_Val in H as [H1 H2]. apply aget_Val. split; [done |].
  by rewrite list_lookup_alter, decide_True, H2.
Qed.

(** One packet on the flow counters: the total, and the class of the stream. *)
Lemma flow_step p s s' cls :
  shm_inv s -> 0 <= cls < FLOW_TYPE_TOTAL ->
  sh_flow_stats (g_shm s') = alter (add_flow (pk_len p)) (Z.to_nat cls)
    (alter (add_flow (pk_len p)) (Z.to_nat FLOW_TYPE_TOTAL) (sh_flow_stats (g_shm s))) ->
  flow_adds [p] s s' FLOW_TYPE_TOTAL /\ flow_adds [p] s s' cls.
Proof.
  intros Hi Hc Hf. pose proof (sv_flow _ Hi) as Hlen. unfold FLOW_TYPE_TOTAL in *. change (Z.to_nat SI_NUM_FLOWTYPES) with 6%nat in Hlen.
  destruct (aget_lt (sh_flow_stats (g_shm s)) 5 ltac:(lia)) as [f Hf5].
  destruct (aget_lt (sh_flow_stats (g_shm s)) cls ltac:(lia)) as [h Hh].
  assert (forall x, adds x (count [p]) (u32 (x + 1))) as Hone by (intros x; apply (adds_u32 x 1)).
  assert (forall x, adds x (total_len [p]) (u32 (x + pk_len p))) as Hlen1.
  { intros x. replace (total_len [p]) with (pk_len p) by (cbn; lia). apply adds_u32. }
  split.
  - exists f, (add_flow (pk_len p) f). rewrite Hf. split; [done |].
    split; [rewrite aget_alter_ne by lia; by apply aget_alter_eq | by split].
  - exists h, (add_flow (pk_len p) h). rewrite Hf. split; [done |].
    split; [apply aget_alter_eq; by rewrite aget_alter_ne by lia | by split].
Qed.

(** One packet on the two ends. *)
Lemma ends_step p al ar al' ar' :
  end_counters (packet_dir (pk_buf p)) (pk_len p) al ar = (al', ar') ->
  end_adds (sent_left [p]) (sent_right [p]) al al' /\ end_adds (sent_right [p]) (sent_left [p]) ar ar'.
Proof.
  unfold sent_left, sent_right, pk_ltr. cbn [List.filter].
  assert (forall x, adds x (count [p]) (u32 (x + 1))) as Hone by (intros x; apply (adds_u32 x 1)).
  assert (forall x, adds x (total_len [p]) (u32 (x + pk_len p))) as Hlen1.
  { intros x. replace (total_len [p]) with (pk_len p) by (cbn; lia). apply adds_u32. }
  pose proof adds_zero as Hz.
  destruct (packet_dir (pk_buf p)) eqn:E; intros [= <- <-]; unfold end_adds; cbn; by repeat split.
Qed.

Lemma list_empty c : cleanup_inv c -> list_items c = [] -> alist_is_empty (cleanup_streams_list c) = true.
Proof.
  intros Hc Hl. pose proof (length_items _ (ci_list _ Hc)) as H. pose proof (ali_i _ (ci_list _ Hc)).
  unfold list_items in Hl. rewrite Hl in H. cbn in H. unfold alist_is_empty. apply Z.eqb_eq. lia.
Qed.

Lemma talk_step p st e al ar :
  talking st e al ar -> stream_packet_in (cp_shm st) p -> 1 <= si_packets e -> si_packets e + 1 < 4294967296 ->
  exists st' e' al' ar', handle [p] st = Val st' /\ talking st' e' al' ar' /\
    talked [p] (cp_shm st) (cp_shm st') e e' al al' ar ar'.
Proof.
  intros [Hi [Hc Hq] Hs Hl Hr (Hne & Hport & Hcl) Hu [Hsh Hshape]] [[B1 B2] [B3 B4] B5 Henv Hchain Hopen] Hp1 Hp2.
  pose proof (shared_lookup k (pk_key p) _ Hsh Hshape) as Hlook. rewrite Hchain in Hlook. rewrite <- Henv in Hlook.
  destruct (packet_known_ok (pk_env p) (pk_hdr p) (pk_buf p) (cp_shm st) (cp_cleanup st) ss e al ar
    B1 B2 B3 B4 B5 Hlook Hi Hc Hs Hl Hr Hne Hport Hcl) as (s' & c' & vlan & Hstep & _ & [C1 C2 C3 C4 C5] & Hi' & Hc' & Hq').
  assert (finishing (packet_info (pk_buf p)) e = false) as Hfin.
  { unfold finishing. destruct Hopen as [-> | ->]; cbn; by rewrite ?andb_false_r. }
  rewrite Hfin in Hq'. injection Hq' as Hq' _. rewrite Hq in Hq'.
  destruct (counted_fields (pk_hdr p) vlan (packet_info (pk_buf p)) e) as (F1 & F2 & F3 & F4 & F5 & F6 & F7).
  set (e' := counted_stream _ _ _ e) in *. set (s0 := store_stream_key _ _ (cp_shm st)) in *.
  destruct (global_counted_rest (pk_hdr p) s0) as (G1 & G2 & _ & G4 & G5 & _ & G7 & _).
  rewrite (proj2 (Z.eqb_neq _ _)) in C2 by (rewrite u32_small; unfold is_u32; lia). cbn [start_stream] in C2.
  destruct (end_counters (packet_dir (pk_buf p)) (pk_len p) al ar) as [al' ar'] eqn:Eends.
  fold (pk_len p) in C2. rewrite Eends in C2. destruct C2 as [C2 C2'].
  set (st1 := mk_capture_t s' c' (cp_last_sec st) (cp_sim_last st) (cp_statproc st)).
  assert (exists st', handle [p] st = Val st' /\ cp_shm st' = s' /\ cp_cleanup st' = c') as (st' & Hh & E1 & E2).
  { unfold handle. cbn [for_each]. unfold on_packet. cbn [run_sim]. rewrite bind_Val, Hstep, bind_Val. cbn [negb]. rewrite bind_Val.
    fold st1. destruct (0 <? _); [| by exists st1].
    unfold cleanup_expired_streams. change (cp_cleanup st1) with c'. rewrite (list_empty c' Hc' Hq'), orb_true_r. rewrite !bind_Val.
    eexists. split; [reflexivity | done]. }
  assert (si_packets e' = u32 (si_packets e + 1) /\ si_bytes e' = u32 (si_bytes e + pk_len p)) as [P1 P2].
  { unfold e', counted_stream, tcp_entry. change (finishing _ (set_si_tlast _ e)) with (finishing (packet_info (pk_buf p)) e).
    rewrite Hfin. destruct (istcp _ =? 0); cbv zeta; destruct (si_packets _ =? 1); (split; reflexivity). }
  destruct C5 as [K1 K2 _ (T1 & T2 & T3) _ _].
  exists st', e', al', ar'. rewrite E1. split; [exact Hh |]. split.
  - split; rewrite ?E1, ?E2; [exact Hi' | done | exact C1 | by rewrite F1 | by rewrite F2 | by rewrite F1, F2, F4, F7 | rewrite P1; apply u32_range |].
    split; [unfold shared_key in *; by rewrite T1, G5 |]. destruct Hshape. split; by rewrite T1, G5.
  - destruct (ends_step p al ar al' ar' Eends) as [A1 A2].
    destruct (flow_step p (cp_shm st) s' (flow_class e) Hi Hcl) as [A3 A4]; [rewrite C3, G4; reflexivity |].
    split; [| exact (conj F1 (conj F2 (conj F3 (conj F4 (conj F5 (conj F6 F7)))))) | exact A1 | exact A2 | exact A3 | exact A4 | | rewrite T1, T2, G5, G7; by split].
    + rewrite P1, P2. split; [apply (adds_u32 _ 1) |]. replace (total_len [p]) with (pk_len p) by (cbn; lia). apply adds_u32.
    + intros j b Hj Hb. apply K1; [by rewrite list_elem_of_singleton |]. unfold stream_at in *. by rewrite G1.
Qed.

Lemma count_ok l : 0 <= count l.
Proof. unfold count. lia. Qed.

Lemma stream_packet_in_tbl s s' p : ht_streams s' = ht_streams s -> stream_packet_in s p -> stream_packet_in s' p.
Proof. intros H []. split; try assumption. unfold stream_chain in *. by rewrite H. Qed.

Lemma talked_nil st e al ar : talking st e al ar -> talked [] (cp_shm st) (cp_shm st) e e al al ar ar.
Proof.
  intros [Hi _ _ _ _ (_ & _ & Hcl) _ _]. pose proof adds_zero as Hz. pose proof (sv_flow _ Hi) as Hlen.
  change (Z.to_nat SI_NUM_FLOWTYPES) with 6%nat in Hlen. unfold FLOW_TYPE_TOTAL in Hcl.
  assert (forall i, 0 <= i < 6 -> flow_adds [] (cp_shm st) (cp_shm st) i) as Hf.
  { intros i Hi'. destruct (aget_lt (sh_flow_stats (g_shm (cp_shm st))) i ltac:(lia)) as [f E]. exists f, f. by repeat (split; [exact E || apply Hz |]). }
  split; [split; apply Hz | done | by repeat split | by repeat split | apply Hf; unfold FLOW_TYPE_TOTAL; lia | apply Hf; lia | done | done].
Qed.

Lemma talked_cons p l s1 s2 s3 e1 e2 e3 al1 al2 al3 ar1 ar2 ar3 :
  talked [p] s1 s2 e1 e2 al1 al2 ar1 ar2 -> talked l s2 s3 e2 e3 al2 al3 ar2 ar3 ->
  talked (p :: l) s1 s3 e1 e3 al1 al3 ar1 ar3.
Proof.
  intros [[A1 A2] (A3 & A4 & A5 & A6 & A7 & A8 & A9) A10 A11 A12 A13 A14 [A15 A16]]
         [[B1 B2] (B3 & B4 & B5 & B6 & B7 & B8 & B9) B10 B11 B12 B13 B14 [B15 B16]].
  change (p :: l) with ([p] ++ l). unfold sent_left, sent_right in *.
  split; [| | | | | | | split; congruence].
  - rewrite count_app, total_len_app. split; by eapply adds_trans.
  - rewrite B3, B4, B5, B6, B7, B8, B9. repeat (split; [assumption |]). assumption.
  - unfold sent_left, sent_right. rewrite !List.filter_app. by eapply end_adds_trans.
  - unfold sent_left, sent_right. rewrite !List.filter_app. by eapply end_adds_trans.
  - by eapply flow_adds_trans.
  - eapply flow_adds_trans; [exact A13 | by rewrite A9 in B13].
  - intros j b Hj Hb. by apply B14, A14.
Qed.

Lemma talk_all l st e al ar :
  talking st e al ar -> Forall (stream_packet_in (cp_shm st)) l -> 1 <= si_packets e ->
  si_packets e + count l < 4294967296 ->
  exists st' e' al' ar', handle l st = Val st' /\ talking st' e' al' ar' /\
    talked l (cp_shm st) (cp_shm st') e e' al al' ar ar'.
Proof.
  revert st e al ar. induction l as [| p l IH]; intros st e al ar Ht Hl H1 H2.
  { exists st, e, al, ar. split; [done |]. split; [done | by apply talked_nil]. }
  apply Forall_cons in Hl as [Hp Hl]. pose proof (count_ok l) as Hc0.
  assert (count (p :: l) = 1 + count l) as Hc by (unfold count; cbn [length]; lia). rewrite Hc in H2.
  destruct (talk_step p st e al ar Ht Hp H1 ltac:(lia)) as (st1 & e1 & al1 & ar1 & Hh1 & Ht1 & Hd1).
  pose proof (adds_small _ 1 _ (proj1 (td_stream _ _ _ _ _ _ _ _ _ Hd1)) (tk_packets _ _ _ _ Ht1) ltac:(lia)) as E1.
  assert (Forall (stream_packet_in (cp_shm st1)) l) as Hl1.
  { eapply Forall_impl; [exact Hl |]. intros q. apply stream_packet_in_tbl, (td_tbls _ _ _ _ _ _ _ _ _ Hd1). }
  destruct (IH st1 e1 al1 ar1 Ht1 Hl1 ltac:(lia) ltac:(lia)) as (st2 & e2 & al2 & ar2 & Hh2 & Ht2 & Hd2).
  exists st2, e2, al2, ar2. split; [| split; [exact Ht2 | by eapply talked_cons]].
  change (p :: l) with ([p] ++ l). unfold handle in *. by rewrite for_each_app, Hh1, bind_Val.
Qed.
End Conversation.

(** ** From the first packet *)

(** One end after a new stream with these packets sent and received. *)
Definition end_counted (tx rx : list packet) (a a' : addr_info_t) : Prop :=
  adds (ai_txpackets a) (count tx) (ai_txpackets a') /\ adds (ai_txbytes a) (total_len tx) (ai_txbytes a') /\
  adds (ai_rxpackets a) (count rx) (ai_rxpackets a') /\ adds (ai_rxbytes a) (total_len rx) (ai_rxbytes a') /\
  ai_nstreams a' = u16 (ai_nstreams a + 1) /\ ai_nstreams_active a' = u16 (ai_nstreams_active a + 1).

Lemma end_started tx rx a a' : end_adds tx rx (start_stream true a) a' -> end_counted tx rx a a'.
Proof. done. Qed.

(** The entry an address has when the stream starts: the one it had, or a new one
    with cleared counters. *)
Definition end_of (ip : Z) (ts : tval_t) (s : shm_t) (i : Z) (a : addr_info_t) : Prop :=
  if bool_decide (known ip s) then addr_dict s !! addr_key_init_v4 ip = Some i /\ addr_at s i a
  else fresh_end ip ts a /\ addr_side i = is_lan ip.

(** The first packet can start a stream: it is accepted, is not the end of a
    connection, its key is not found, and there is room. *)
Record opens (k : ptr) (ht : Z -> HashTable keymem Z) (st : capture_t) (p : packet) : Prop := {
  op_bytes : HEADER_BYTES <= Z.of_nat (length (pk_buf p)) /\ Forall is_u8 (pk_buf p);
  op_cap : 0 <= hdr_caplen (pk_hdr p) < 2147483648 /\ accepts (hdr_caplen (pk_hdr p)) (pk_buf p);
  op_addrs : net_stream4_left (pk_key p) <> 0 /\ net_stream4_right (pk_key p) <> 0 /\
    net_stream4_left (pk_key p) <> net_stream4_right (pk_key p);
  op_env : pe_key (pk_env p) = k;
  op_open : istcp (packet_info (pk_buf p)) = 0 \/ isfin (packet_info (pk_buf p)) = 0;
  op_new : shm_stream_lookup k (store_stream_key k (pk_key p) (cp_shm st)) = Val None;
  op_room : can_start (pk_env p) (pk_hdr p) (pk_key p) (store_stream_key k (pk_key p) (cp_shm st)) ht
}.

(** The table after the insertion: all its pairs have the handler's key object, and the
    chain of the key starts with the new pair. *)
Definition inserted (k : ptr) (ht : Z -> HashTable keymem Z) (key : stream_key_t) : Prop :=
  forall i s, ht_streams s = ht i ->
    shared_key k s /\ stream_tbl_shape s /\ kv_value <$> head (stream_chain s key) = Some i.

(** The packets after the first. *)
Record follows (k : ptr) (key : stream_key_t) (p : packet) : Prop := {
  fo_bytes : HEADER_BYTES <= Z.of_nat (length (pk_buf p)) /\ Forall is_u8 (pk_buf p);
  fo_cap : 0 <= hdr_caplen (pk_hdr p) < 2147483648 /\ accepts (hdr_caplen (pk_hdr p)) (pk_buf p);
  fo_key : pk_key p = key;
  fo_env : pe_key (pk_env p) = k;
  fo_open : istcp (packet_info (pk_buf p)) = 0 \/ isfin (packet_info (pk_buf p)) = 0
}.

Lemma start_ok k ht st p :
  shm_inv (cp_shm st) -> cleanup_inv (cp_cleanup st) -> list_items (cp_cleanup st) = [] ->
  opens k ht st p -> inserted k ht (pk_key p) ->
  exists st1 ss il ir al ar e al1 ar1, handle [p] st = Val st1 /\ talking k ss st1 e al1 ar1 /\
    si_packets e = 1 /\ si_bytes e = u32 (pk_len p) /\ si_idx_left e = il /\ si_idx_right e = ir /\
    si_lport e = sk_lport (sk_v4 (pk_key p)) /\ si_rport e = sk_rport (sk_v4 (pk_key p)) /\
    si_ipproto e = sk_ipproto (sk_v4 (pk_key p)) /\ si_tstart e = hdr_ts (pk_hdr p) /\
    end_of (net_stream4_left (pk_key p)) (hdr_ts (pk_hdr p)) (cp_shm st) il al /\
    end_of (net_stream4_right (pk_key p)) (hdr_ts (pk_hdr p)) (cp_shm st) ir ar /\
    end_adds (sent_left [p]) (sent_right [p]) (start_stream true al) al1 /\
    end_adds (sent_right [p]) (sent_left [p]) (start_stream true ar) ar1 /\
    flow_adds [p] (cp_shm st) (cp_shm st1) FLOW_TYPE_TOTAL /\ flow_adds [p] (cp_shm st) (cp_shm st1) (flow_class e) /\
    kv_value <$> head (stream_chain (cp_shm st1) (pk_key p)) = Some ss.
Proof.
  intros Hi Hc Hq [[B1 B2] [B3 B4] (B5 & B6 & B7) Henv Hopen Hnew Hroom] Hins. rewrite <- Henv in Hnew, Hroom.
  destruct (packet_new_ok (pk_env p) (pk_hdr p) (pk_buf p) (cp_shm st) (cp_cleanup st) ht B1 B2 B3 B4 Hi Hc B5 B6 B7 Hnew Hroom)
    as (vlan & ss & il & ir & old & al & ar & s' & c' & Hstep & _ & [_ S2 S3 S4 S5 SL SR SE SF [SI _]] & Hc' & Hqc & _).
  cbv zeta in *. fold (pk_key p) in *. rewrite (ends_connection_not _ Hopen) in Hqc. injection Hqc as Hq' _. rewrite Hq in Hq'.
  set (e0 := fill_stream _ _ _ _ _) in S2. set (e := counted_stream _ _ _ _) in S2. destruct S2 as (E1 & E2 & E3 & E4).
  destruct (counted_fields (pk_hdr p) vlan (packet_info (pk_buf p)) (stream_flow_flags al ar e0)) as (F1 & F2 & F3 & F4 & F5 & F6 & F7).
  fold e in F1, F2, F3, F4, F5, F6, F7. destruct S5 as [S5 Hil].
  destruct (packet_key_wf (pk_buf p) B2) as [Hkw _]. fold (pk_key p) in Hkw.
  assert (0 <= ir < SI_NUM_ADDRS) as Hir
    by (apply (map_Forall_lookup_1 _ _ (addr_key_init_v4 (net_stream4_right (pk_key p))) _ (sv_vals _ SI)); rewrite S5; apply lookup_insert_eq).
  assert (0 <= il < SI_NUM_ADDRS) as Hilr.
  { apply (map_Forall_lookup_1 _ _ (addr_key_init_v4 (net_stream4_left (pk_key p))) _ (sv_vals _ SI)). rewrite S5.
    destruct (key_addrs_u32 _ Hkw). rewrite lookup_insert_ne; [apply lookup_insert_eq | by apply key_ne]. }
  destruct (new_entry_fields al ar (pk_key p) il ir (hdr_ts (pk_hdr p)) (new_stream_entry (gStreamCount (cp_shm st)) old)
    Hilr Hir eq_refl eq_refl) as [(N1 & N2 & N3 & _) (N4 & N5 & N6)]. fold e0 in N1, N2, N3, N4, N5, N6.
  rewrite <- F1 in N1. rewrite <- F2 in N2. rewrite <- F4 in N3. rewrite <- F3 in N4. rewrite <- F5 in N5. rewrite <- F6 in N6.
  destruct (flow_of_class al ar e0 eq_refl) as [Hcls Hcb]. rewrite <- F7, E4 in Hcls. rewrite <- Hcls, <- E4 in Hcb.
  fold (pk_len p) in SE, SF, E3. destruct (end_counters _ _ _ _) as [al1 ar1] eqn:Eends. destruct SE as [SE1 SE2].
  set (st1 := mk_capture_t s' c' (cp_last_sec st) (cp_sim_last st) (cp_statproc st)).
  assert (exists st', handle [p] st = Val st' /\ cp_shm st' = s' /\ cp_cleanup st' = c') as (st' & Hh & G1 & G2).
  { unfold handle. cbn [for_each]. unfold on_packet. cbn [run_sim]. rewrite bind_Val, Hstep, bind_Val. cbn [negb]. rewrite bind_Val.
    fold st1. destruct (0 <? _); [| by exists st1].
    unfold cleanup_expired_streams. change (cp_cleanup st1) with c'. rewrite (list_empty c' Hc' Hq'), orb_true_r. rewrite !bind_Val.
    eexists. split; [reflexivity | done]. }
  destruct (Hins ss s' S4) as (T1 & T2 & T3).
  destruct (ends_step p _ _ al1 ar1 Eends) as [A1 A2].
  exists st', ss, il, ir, al, ar, e, al1, ar1. split; [exact Hh |]. rewrite G1.
  assert (flow_adds [p] (cp_shm st) s' FLOW_TYPE_TOTAL /\ flow_adds [p] (cp_shm st) s' (flow_class e)) as [A3 A4].
  { apply flow_step; [exact Hi | exact Hcb | by rewrite SF, E4]. }
  split; [| repeat (split; [assumption |]); assumption].
  split; rewrite ?G1, ?G2; [exact SI | done | exact E1 | by rewrite N1 | by rewrite N2 | | rewrite E2; done | done].
  rewrite N1, N2, N3. split; [exact Hil |]. split; [apply Hkw | exact Hcb].
Qed.

(** What [handle (p0 :: l)] leaves behind for the stream the first packet starts. *)
Record conversed (p0 : packet) (l : list packet) (s s' : shm_t) (ss : Z) (e : stream_info_t)
    (al ar al' ar' : addr_info_t) : Prop := {
  cv_inv : shm_inv s';
  cv_stream : stream_at s' ss e;
  cv_key : si_lport e = sk_lport (sk_v4 (pk_key p0)) /\ si_rport e = sk_rport (sk_v4 (pk_key p0)) /\
    si_ipproto e = sk_ipproto (sk_v4 (pk_key p0)) /\ si_tstart e = hdr_ts (pk_hdr p0);
  cv_counts : si_packets e = count (p0 :: l) /\ adds 0 (total_len (p0 :: l)) (si_bytes e);
  cv_left : end_of (net_stream4_left (pk_key p0)) (hdr_ts (pk_hdr p0)) s (si_idx_left e) al /\
    addr_at s' (si_idx_left e) al' /\ end_counted (sent_left (p0 :: l)) (sent_right (p0 :: l)) al al';
  cv_right : end_of (net_stream4_right (pk_key p0)) (hdr_ts (pk_hdr p0)) s (si_idx_right e) ar /\
    addr_at s' (si_idx_right e) ar' /\ end_counted (sent_right (p0 :: l)) (sent_left (p0 :: l)) ar ar';
  cv_flow : flow_adds (p0 :: l) s s' FLOW_TYPE_TOTAL /\ flow_adds (p0 :: l) s s' (flow_class e)
}.

Lemma follows_in k ss s p0 p :
  net_stream4_left (pk_key p0) <> 0 /\ net_stream4_right (pk_key p0) <> 0 ->
  kv_value <$> head (stream_chain s (pk_key p0)) = Some ss -> follows k (pk_key p0) p -> stream_packet_in k ss s p.
Proof. intros H1 H2 [? ? F ? ?]. split; rewrite ?F; assumption. Qed.

Lemma conversation_ok k ht st p0 l
    (Hi : shm_inv (cp_shm st)) (Hc : cleanup_inv (cp_cleanup st)) (Hq : list_items (cp_cleanup st) = [])
    (Ho : opens k ht st p0) (Hins : inserted k ht (pk_key p0))
    (Hl : Forall (follows k (pk_key p0)) l) (Hn : 1 + count l < 4294967296) :
  exists st' ss e al ar al' ar', handle (p0 :: l) st = Val st' /\
    conversed p0 l (cp_shm st) (cp_shm st') ss e al ar al' ar'.
Proof.
  destruct (start_ok k ht st p0 Hi Hc Hq Ho Hins) as (st1 & ss & il & ir & al & ar & e1 & al1 & ar1 & Hh1 & Ht1 & P1 & P2 &
    I1 & I2 & K1 & K2 & K3 & K4 & EL & ER & A1 & A2 & FT & FC & Hch).
  pose proof (op_addrs _ _ _ _ Ho) as (B1 & B2 & _).
  assert (Forall (stream_packet_in k ss (cp_shm st1)) l) as Hl1.
  { eapply Forall_impl; [exact Hl |]. intros q. by apply follows_in. }
  pose proof (count_ok l) as Hc0.
  destruct (talk_all k ss l st1 e1 al1 ar1 Ht1 Hl1) as (st2 & e2 & al2 & ar2 & Hh2 & [T1 _ T3 T4 T5 _ T7 _] & D); [lia .. |].
  destruct D as [[D1 D2] (S1 & S2 & S3 & S4 & S5 & S6 & S7) D3 D4 D5 D6 _ _].
  exists st2, ss, e2, al, ar, al2, ar2.
  split; [change (p0 :: l) with ([p0] ++ l); unfold handle in *; by rewrite for_each_app, Hh1, bind_Val |].
  assert (total_len [p0] = pk_len p0) as Hlen by (cbn; lia).
  split; change (p0 :: l) with ([p0] ++ l); unfold sent_left, sent_right in *; rewrite ?List.filter_app.
  - exact T1.
  - exact T3.
  - rewrite S3, S4, S5, S6. exact (conj K1 (conj K2 (conj K3 K4))).
  - rewrite count_app, total_len_app, Hlen. split.
    + rewrite P1 in D1. apply (adds_small 1 (count l)); [exact D1 | exact T7 | lia].
    + apply (adds_trans 0 (si_bytes e1)); [| exact D2]. rewrite P2. apply adds_u32.
  - rewrite S1, I1. split; [exact EL |]. split; [rewrite <- I1, <- S1; exact T4 |].
    apply end_started. by eapply end_adds_trans.
  - rewrite S2, I2. split; [exact ER |]. split; [rewrite <- I2, <- S2; exact T5 |].
    apply end_started. by eapply end_adds_trans.
  - rewrite S7. split; by eapply flow_adds_trans.
Qed.

(** A conversation from its first packet on. Suppose the first packet starts a
    stream (accepted, both addresses present, not the end of a connection, its key not
    found, and room in the arrays and tables) and every packet after it has the same key,
    is accepted and does not end the connection. Then the capture handles them all; the
    stream's entry, with the key's ports and protocol and the time of the first packet,
    has counted exactly the packets of the list and, modulo 2^32, their bytes; each of
    its two ends, found in the table or newly made, has one more stream and active
    stream, and has counted as sent the packets in its direction and as received those in
    the other; the total and the stream's flow class have counted every packet; and the
    shared block keeps its invariant. *)
Theorem conversation_counts k ht st p0 l
    (Hi : shm_inv (cp_shm st)) (Hc : cleanup_inv (cp_cleanup st)) (Hq : list_items (cp_cleanup st) = [])
    (Ho : opens k ht st p0) (Hins : inserted k ht (pk_key p0))
    (Hl : Forall (follows k (pk_key p0)) l) (Hn : 1 + count l < 4294967296) :
  exists st' ss e al ar al' ar', handle (p0 :: l) st = Val st' /\
    conversed p0 l (cp_shm st) (cp_shm st') ss e al ar al' ar'.
Proof. exact (conversation_ok k ht st p0 l Hi Hc Hq Ho Hins Hl Hn). Qed.

(** ** An example: a packet and two answers *)

Module ConversationTest.
Import ShmTest PacketTest LifeTest.

Definition reply : frame :=
  mk_frame (mac 32) (mac 16) (Tag 7) 0 64 1 2 64 0
    (ip_of 8 8 8 8) (ip_of 10 0 0 1) [1; 1; 1; 1]
    (Tcp 443 4000 (replicate 8 9) 80 16 (replicate 64 0)).

Lemma reply_wf : frame_wf reply.
Proof.
  split; try (vm_compute; intuition discriminate).
  - exists 1%nat. vm_compute. lia.
  - apply all_u8. vm_compute. reflexivity.
Qed.

Definition first : packet := mk_packet env0 syn_hdr syn_buf.
Definition answer : packet := mk_packet env0 syn_hdr (encode_frame reply).

Lemma answer_follows : follows 5 (pk_key first) answer.
Proof.
  split.
  - split; [vm_compute; discriminate | apply all_u8; vm_compute; reflexivity].
  - split; [vm_compute; intuition discriminate |]. apply frame_accepted; [exact reply_wf | vm_compute; intuition discriminate].
  - vm_compute. reflexivity.
  - reflexivity.
  - right. vm_compute. reflexivity.
Qed.

(** The state after the initialisation, and the two packets in it. *)
Definition start_of (s : shm_t) : capture_t := mk_capture_t s cleanup_init 0 zero_tval statproc_init.

Lemma first_opens s : ready s -> opens 5 (put_tbl (store_stream_key 5 syn_key s)) (start_of s) first.
Proof.
  intros Hr. destruct (syn_can_start s Hr) as [Hcan Hlook]. split.
  - exact syn_bytes.
  - split; [vm_compute; intuition discriminate | exact syn_accepted].
  - split; [vm_compute; discriminate |]. split; vm_compute; discriminate.
  - reflexivity.
  - right. vm_compute. reflexivity.
  - exact Hlook.
  - exact Hcan.
Qed.

Lemma first_inserted s : ready s -> inserted 5 (put_tbl (store_stream_key 5 syn_key s)) (pk_key first).
Proof.
  intros Hr i s' Ht. destruct (syn_table s' i) as (H1 & H2 & H3); [by exists s |].
  split; [exact H1 |]. split; [exact H2 |]. change (pk_key first) with syn_key.
  pose proof (shared_lookup 5 syn_key s' H1 H2) as H4. rewrite H3 in H4. by injection H4 as <-.
Qed.

Lemma conversation_counts_witness : exists st st' ss e, handle [first; answer; answer] st = Val st' /\
  stream_at (cp_shm st') ss e /\ si_packets e = 3 /\ u32 (si_bytes e) = 426.
Proof.
  destruct ready_state as [s Hr].
  destruct (conversation_counts 5 (put_tbl (store_stream_key 5 syn_key s)) (start_of s) first [answer; answer])
    as (st' & ss & e & al & ar & al' & ar' & Hh & Hcv).
  - exact (rd_inv _ Hr).
  - exact cleanup_init_inv.
  - reflexivity.
  - exact (first_opens s Hr).
  - exact (first_inserted s Hr).
  - constructor; [exact answer_follows |]. constructor; [exact answer_follows | constructor].
  - reflexivity.
  - exists (start_of s), st', ss, e. split; [exact Hh |]. destruct (cv_counts _ _ _ _ _ _ _ _ _ _ Hcv) as [H1 H2].
    split; [exact (cv_stream _ _ _ _ _ _ _ _ _ _ Hcv) |]. split; [exact H1 | exact H2].
Defined.

(** The same run, with what later examples need of it. *)
Lemma three_packets use_shm : exists s st' ss e, shm_data_init use_shm env_ok mem0 = Val (Some s) /\
  handle [first; answer; answer] (start_of s) = Val st' /\ shm_inv (cp_shm st') /\
  stream_at (cp_shm st') ss e /\ si_tstart e = mk_tval_t 1000 0.
Proof.
  destruct (init_ready use_shm) as (s & Hinit & Hr).
  destruct (conversation_ok 5 (put_tbl (store_stream_key 5 syn_key s)) (start_of s) first [answer; answer])
    as (st' & ss & e & al & ar & al' & ar' & Hh & [C1 C2 (_ & _ & _ & C3) _ _ _ _]).
  - exact (rd_inv _ Hr).
  - exact cleanup_init_inv.
  - reflexivity.
  - exact (first_opens s Hr).
  - exact (first_inserted s Hr).
  - constructor; [exact answer_follows |]. constructor; [exact answer_follows | constructor].
  - reflexivity.
  - exists s, st', ss, e. exact (conj Hinit (conj Hh (conj C1 (conj C2 C3)))).
Qed.
End ConversationTest.
