(* ===== verification/Flows.v ===== *)
(** The accounting of packets: for every call of the packet handler, from any state,
    which of the flow counters move.  A packet that is heard moves the total once, and
    the class of its stream at most once; nothing else moves them. *)
From S2P Require Import Prelude Structs MgArray StreamKey HashTable Packet Cleanup ShmData Capture Lifecycle Conversation.
From stdpp Require Import list.
#[local] Open Scope Z_scope.

(** ** What leaves the flow counters alone *)

(** A stream's flow type is one of the five classes, not the total. *)
Definition class_ok (e : stream_info_t) : Prop := 0 <= flow_class e < FLOW_TYPE_TOTAL.

(** The flow counters are [F], and every stream has a class. *)
Definition flows_at (F : list flow_stats_t) (s : shm_t) : Prop :=
  sh_flow_stats (g_shm s) = F /\ Forall class_ok (sh_streams (g_shm s)).

(** Neither the flow counters nor the streams have changed since [s]. *)
Definition quiet (s s' : shm_t) : Prop :=
  sh_flow_stats (g_shm s') = sh_flow_stats (g_shm s) /\ sh_streams (g_shm s') = sh_streams (g_shm s).

Lemma quiet_refl s : quiet s s.
Proof. done. Qed.

Lemma quiet_trans s s1 s2 : quiet s s1 -> quiet s1 s2 -> quiet s s2.
Proof. intros [H1 H2] [H3 H4]. split; congruence. Qed.

Lemma quiet_flows F s s' : flows_at F s -> quiet s s' -> flows_at F s'.
Proof. intros [H1 H2] [H3 H4]. split; by rewrite ?H3, ?H4. Qed.

Lemma upd_addr_quiet i f s s0 : quiet s0 s -> yields (quiet s0) (upd_addr i f s).
Proof. intros H. unfold upd_addr. by do 2 (apply yields_any; intros ?). Qed.

Lemma addr_alloc_quiet pkey okp okr ip m s s0 :
  quiet s0 s -> yields (fun r => quiet s0 (snd r)) (shm_addr_alloc_v4 pkey okp okr ip m s).
Proof.
  intros H. unfold shm_addr_alloc_v4. apply yields_any. intros lan. apply (yields_bind (fun r => quiet s0 (snd r))).
  - destruct (negb _); apply yields_any; intros [[[i |] p] arr]; cbv zeta; try done;
      (apply (yields_bind (quiet s0)); [by apply upd_addr_quiet | done]).
  - intros [[i |] s1] H1; [| done]. apply (yields_bind (quiet s0)); [by apply upd_addr_quiet |].
    intros s2 H2. cbv zeta. destruct (_ =? _); [done |]. by apply yields_any; intros [[st ht] mm].
Qed.

Lemma addr_for_quiet env pkey ts ip mac buf s s0 :
  quiet s0 s -> yields (fun r => quiet s0 (snd r)) (addr_for env pkey ts ip mac buf s).
Proof.
  intros H. unfold addr_for. apply (yields_bind (fun r => quiet s0 (snd r))).
  { unfold shm_addr_lookup_v4. cbv zeta. apply yields_any. by intros [i |]. }
  intros [[[a |] idx] s1] H1; [done |]. apply yields_any. intros off. apply yields_any. intros m.
  apply (yields_bind _ _ _ _ (addr_alloc_quiet pkey _ _ ip m s1 s0 H1)). intros [[[i |] idx'] s2] H2; [| done].
  apply (yields_bind (quiet s0)); [by apply upd_addr_quiet | done].
Qed.

Lemma addr_free_quiet i s s0 : quiet s0 s -> yields (quiet s0) (shm_addr_free i s).
Proof. intros H. unfold shm_addr_free. by destruct (_ <=? _); apply yields_any; intros [p arr]. Qed.

Lemma inc_addr_ctrs_quiet l r dir len s s0 : quiet s0 s -> yields (quiet s0) (inc_addr_ctrs l r dir len s).
Proof.
  intros H. unfold inc_addr_ctrs.
  destruct dir; (apply (yields_bind (quiet s0)); [by apply upd_addr_quiet | intros s1; apply upd_addr_quiet]).
Qed.

Lemma protocol_quiet p r dir len s s0 : quiet s0 s -> yields (quiet s0) (inc_protocol_counters p r dir len s).
Proof.
  intros H. unfold inc_protocol_counters. destruct (shm_get_protocol p r); [| done].
  unfold upd_proto. by do 2 (apply yields_any; intros ?).
Qed.

(** An update of one stream that leaves it with a class. *)
Lemma upd_stream_flows i f F s :
  flows_at F s -> (forall e, stream_at s i e -> class_ok e -> class_ok (f e)) ->
  yields (fun s' => flows_at F s' /\ forall e, stream_at s i e -> stream_at s' i (f e)) (upd_stream i f s).
Proof.
  intros [H1 H2] Hf. unfold upd_stream, stream_at in *. destruct (aget (sh_streams (g_shm s)) i) as [e | |] eqn:E; [| done ..].
  rewrite bind_Val. pose proof (aget_inv _ _ _ E) as Hb. rewrite aset_lt, bind_Val by done. cbn [yields].
  assert (class_ok e) as He by (apply aget_Val in E as [_ E]; by apply (Forall_lookup_1 _ _ _ _ H2 E)).
  split; [split; [exact H1 | apply Forall_insert; [done | by apply Hf]] |].
  intros e' [= <-]. cbn. by apply aget_insert_eq.
Qed.

(** The same for an update that keeps every entry's class. *)
Lemma upd_stream_keeps i f F s :
  flows_at F s -> (forall e, flow_class (f e) = flow_class e) -> yields (flows_at F) (upd_stream i f s).
Proof.
  intros H Hf. pose proof (upd_stream_flows i f F s H) as Hu.
  destruct (upd_stream i f s) as [s' | |]; [| done ..]. apply Hu. intros e _. unfold class_ok. by rewrite Hf.
Qed.

(** *** Managed arrays *)

Lemma stream_op_class op e : flow_class (fst (stream_isempty_func e op)) = flow_class e.
Proof. unfold stream_isempty_func. cbn [fst]. destruct op; try done. by destruct (_ =? 0). Qed.

Lemma alloc_none {E} `{MgaEntry E} ma p (arr arr' : list E) p' :
  mga_alloc_entry ma p arr = Val (None, p', arr') -> arr' = arr.
Proof.
  unfold mga_alloc_entry. intros Ha. destruct (_ <=? _); [congruence |]. apply c_assert_inv in Ha as [_ Ha].
  destruct (_ <? _); [by apply bind_Val_inv in Ha as ([a | [j a]] & _ & Ha) |].
  destruct (_mga_more_lo_than_hi _ _); apply bind_Val_inv in Ha as ([arr1 st] & _ & Ha);
    apply c_assert_inv in Ha as [_ Ha]; apply bind_Val_inv in Ha as (b & _ & Ha); by apply c_assert_inv in Ha as [_ Ha].
Qed.

Lemma stream_alloc_flows okp okr key F s :
  flows_at F s ->
  yields (fun r => flows_at F (snd r) /\
      forall i, fst r = Some i -> exists e, stream_at (snd r) i e /\ si_flowflags e = 0)
    (shm_stream_alloc okp okr key s).
Proof.
  intros [H1 H2]. unfold shm_stream_alloc.
  destruct (mga_alloc_entry _ _ _) as [[[[i |] p] arr] | |] eqn:Ha; [| | done | done]; rewrite bind_Val; cbv zeta.
  - destruct (alloc_content _ _ _ _ _ _ Ha) as (e & He & ->). set (e1 := fst _). set (arr := <[_ := e1]> _).
    assert (Forall class_ok arr) as Harr.
    { apply Forall_insert; [done |]. unfold class_ok, e1. rewrite stream_op_class.
      apply aget_Val in He as [_ He]. by apply (Forall_lookup_1 _ _ _ _ H2 He). }
    apply yields_any. intros [[st ht] m]. set (s1 := set_g_mem m _).
    assert (flows_at F s1) as Hs1 by (by split).
    assert (stream_at s1 i e1) as Hat by (apply aget_insert_eq; by apply aget_inv in He).
    apply (yields_bind _ _ _ _ (upd_stream_flows i (init_stream (gStreamCount s1)) F s1 Hs1 ltac:(by intros e' _ _))).
    intros s2 [H3 H4]. cbn [yields fst snd]. split; [exact H3 |]. intros j [= <-].
    exists (init_stream (gStreamCount s1) e1). split; [exact (H4 e1 Hat) | done].
  - rewrite (alloc_none _ _ _ _ _ Ha). by split.
Qed.

Lemma stream_free_flows i F s : flows_at F s -> yields (flows_at F) (set_stream_slot_empty i s).
Proof.
  intros [H1 H2]. unfold set_stream_slot_empty.
  destruct (mga_free_entry _ _ _ _) as [[p arr] | |] eqn:Hf; [| done ..]. rewrite bind_Val. split; [exact H1 |]. cbn.
  destruct (decide (arr = sh_streams (g_shm s))) as [-> | Hne]; [done |].
  destruct (free_content _ _ _ _ _ _ Hf Hne) as (e & He & ->). apply Forall_insert; [done |].
  unfold class_ok. rewrite stream_op_class. apply aget_Val in He as [_ He]. by apply (Forall_lookup_1 _ _ _ _ H2 He).
Qed.

(** ** The operations of the packet handler *)

(** Completing a new stream: its flags are set on an entry without flags. *)
Lemma set_flags_flows ss l r F s :
  flows_at F s -> (exists e, stream_at s ss e /\ si_flowflags e = 0) -> yields (flows_at F) (set_stream_flow_flags ss l r s).
Proof.
  intros H (e & He & Hz). unfold set_stream_flow_flags. do 2 (apply yields_any; intros ?).
  apply yields_any. intros al. apply yields_any. intros ar.
  pose proof (upd_stream_flows ss (stream_flow_flags al ar) F s H) as Hu.
  destruct (upd_stream ss _ s) as [s' | |]; [| done ..]. apply Hu. intros e' He' _. unfold stream_at in *.
  assert (e' = e) as -> by congruence. unfold class_ok. destruct (flow_of_class al ar e Hz) as [-> Hb]. exact Hb.
Qed.

Lemma new_stream_flows env hdr buf pkt fl key F s :
  flows_at F s -> yields (fun r => flows_at F (snd r)) (new_stream env hdr buf pkt fl key s).
Proof.
  intros H. unfold new_stream. apply (yields_bind _ _ _ _ (stream_alloc_flows _ _ _ F s H)).
  intros [[ss |] s1] [H1 Hss]; [| exact H1]. cbn [fst snd] in *. destruct (Hss ss eq_refl) as (e & He & Hz). cbv zeta.
  apply (yields_bind _ _ _ _ (addr_for_quiet env _ _ _ _ buf s1 s1 (quiet_refl s1))). intros [[al il] s2] Q2. cbn [snd] in Q2.
  apply (yields_bind _ _ _ _ (addr_for_quiet env _ _ _ _ buf s2 s1 Q2)). intros [[ar ir] s3] Q3. cbn [snd] in Q3.
  assert (stream_at s3 ss e) as He3 by (unfold stream_at; by rewrite (proj2 Q3)).
  apply (yields_bind _ _ _ _ (upd_stream_flows ss (fill_stream key il ir (hdr_ts hdr)) F s3 (quiet_flows F s1 s3 H1 Q3) (fun e' _ Hc => Hc))).
  intros s4 [H4 Hat]. apply (yields_bind (flows_at F)); [| done].
  apply set_flags_flows; [exact H4 |]. exists (fill_stream key il ir (hdr_ts hdr) e). split; [by apply Hat | exact Hz].
Qed.

Lemma tcp_update_flows hdr pkt ss F s c :
  flows_at F s -> yields (fun r => flows_at F (fst r)) (tcp_update hdr pkt ss s c).
Proof.
  intros H. unfold tcp_update. destruct (_ =? 0); [done |].
  apply (yields_bind (flows_at F)); [by apply upd_stream_keeps |]. intros s1 H1. apply yields_any. intros e.
  destruct (_ && _); [| done]. apply yields_any. intros c'. apply (yields_bind (flows_at F)); [| done].
  apply upd_stream_keeps; [done |]. intros e'. apply cleanup_flag_class.
Qed.

Lemma inc_stream_flows ss dir len F s : flows_at F s -> yields (flows_at F) (inc_stream_counters ss dir len s).
Proof.
  intros H. unfold inc_stream_counters. apply (yields_bind (flows_at F)); [by apply upd_stream_keeps |].
  intros s1 H1. do 3 (apply yields_any; intros ?).
  assert (forall m, yields (quiet s1) m -> yields (flows_at F) m) as Hq.
  { intros m Hm. destruct m; [| done ..]. by apply (quiet_flows F s1). }
  apply Hq. apply (yields_bind (quiet s1)); [| intros s2; apply inc_addr_ctrs_quiet].
  destruct (_ =? 1); [| done]. repeat (apply (yields_bind (quiet s1)); [by apply upd_addr_quiet | intros ? ?]). by apply upd_addr_quiet.
Qed.

(** One more packet of this length on the counters of a flow type. *)
Definition bump (len i : Z) (F : list flow_stats_t) : list flow_stats_t := alter (add_flow len) (Z.to_nat i) F.

Lemma upd_flow_flows i len F s :
  flows_at F s -> yields (fun s' => flows_at (bump len i F) s' /\ 0 <= i < Z.of_nat (length F)) (upd_flow i (add_flow len) s).
Proof.
  intros [H1 H2]. unfold upd_flow. rewrite H1. destruct (aget F i) as [f | |] eqn:E; [| done ..]. rewrite bind_Val.
  pose proof (aget_inv _ _ _ E) as Hb. rewrite aset_lt, bind_Val by done. split; [| done]. split; [| exact H2].
  cbn. unfold bump. apply aget_Val in E as [_ E]. apply list_eq. intros j.
  destruct (decide (j = Z.to_nat i)) as [-> | Hj].
  - rewrite list_lookup_insert_eq by lia. rewrite list_lookup_alter, decide_True by done. by rewrite E.
  - rewrite list_lookup_insert_ne by done. by rewrite list_lookup_alter, decide_False.
Qed.

Lemma inc_flow_stats_flows ss len F s :
  flows_at F s ->
  yields (fun s' => exists cls, 0 <= cls < FLOW_TYPE_TOTAL /\ flows_at (bump len cls F) s') (shm_inc_flow_stats ss len s).
Proof.
  intros H. unfold shm_inc_flow_stats. apply (yields_bind class_ok); [apply yields_aget, H |]. intros e He. cbv zeta.
  apply yields_assert. pose proof (upd_flow_flows (flow_class e) len F s H) as Hu. unfold flow_class in Hu at 2.
  destruct (upd_flow _ _ _) as [s' | |]; [| done ..]. exists (flow_class e). split; [exact He | apply Hu].
Qed.

Lemma stream_packet_flows hdr buf pkt dir ss F s c :
  flows_at F s ->
  yields (fun r => exists cls, 0 <= cls < FLOW_TYPE_TOTAL /\ flows_at (bump (i32 (hdr_len hdr)) cls F) (fst r))
    (stream_packet hdr buf pkt dir ss s c).
Proof.
  intros H. unfold stream_packet. cbv zeta. apply (yields_bind (flows_at F)); [by apply upd_stream_keeps |]. intros s1 H1.
  apply (yields_bind _ _ _ _ (tcp_update_flows hdr pkt ss F s1 c H1)). intros [s2 c2] H2. cbn [fst] in H2.
  apply yields_any. intros e. apply (yields_bind (flows_at F)).
  { destruct (_ =? 1); [| done]. apply yields_any. intros v. by apply upd_stream_keeps. }
  intros s3 H3. apply (yields_bind _ _ _ _ (inc_stream_flows ss dir _ F s3 H3)). intros s4 H4.
  apply (yields_bind _ _ _ _ (inc_flow_stats_flows ss _ F s4 H4)). intros s5 (cls & Hc & H5).
  apply yields_any. intros e'. apply (yields_bind _ _ _ _ (protocol_quiet _ _ dir _ s5 s5 (quiet_refl s5))).
  intros s6 Q6. exists cls. split; [exact Hc | by apply (quiet_flows _ s5)].
Qed.

(** ** One packet *)

(** The packets the handler counts: accepted by the parser, with two addresses. *)
Definition heard (hdr : pcap_pkthdr32_t) (buf : list Z) : Prop :=
  accepts (hdr_caplen hdr) buf /\
  net_stream4_left (snd (packet_key buf)) <> 0 /\ net_stream4_right (snd (packet_key buf)) <> 0.

#[export] Instance heard_dec hdr buf : Decision (heard hdr buf).
Proof. unfold heard, accepts, first_fragment. cbv zeta. apply _. Defined.

(** A packet as the parser needs it. *)
Definition packet_ok (hdr : pcap_pkthdr32_t) (buf : list Z) : Prop :=
  HEADER_BYTES <= Z.of_nat (length buf) /\ Forall is_u8 buf /\ 0 <= hdr_caplen hdr < 2147483648.

(** The counters after a packet of this length that was counted on the class, if on any. *)
Definition tallied (x : Z * option Z) (F : list flow_stats_t) : list flow_stats_t :=
  let F := bump (fst x) FLOW_TYPE_TOTAL F in
  match snd x with Some cls => bump (fst x) cls F | None => F end.

Definition cls_ok (x : Z * option Z) : Prop :=
  match snd x with Some cls => 0 <= cls < FLOW_TYPE_TOTAL | None => True end.

(** What handling the packet has made of the counters. *)
Definition moved (hdr : pcap_pkthdr32_t) (buf : list Z) (F : list flow_stats_t) (s : shm_t) : Prop :=
  if bool_decide (heard hdr buf)
  then exists cls, cls_ok (i32 (hdr_len hdr), cls) /\ flows_at (tallied (i32 (hdr_len hdr), cls) F) s
  else flows_at F s.

Lemma inc_global_flows ts len F s : flows_at F s -> yields (flows_at (bump len FLOW_TYPE_TOTAL F)) (shm_inc_global ts len s).
Proof.
  intros H. unfold shm_inc_global. apply (yields_bind _ _ _ _ (upd_flow_flows FLOW_TYPE_TOTAL len F s H)).
  intros s1 [[H1 H2] _]. cbv zeta. by destruct (_ =? 0).
Qed.

Lemma packet_step_flows env hdr buf s c F :
  packet_ok hdr buf -> flows_at F s -> yields (fun r => moved hdr buf F (snd (fst r))) (packet_step env hdr buf s c).
Proof.
  intros (Hl & Hb & Hc) H. unfold packet_step, moved.
  destruct (net_parse_eq (hdr_caplen hdr) buf pkt_init Hl Hb Hc) as (st & pkt & -> & _ & Hst & Hpd). rewrite bind_Val.
  assert (heard hdr buf <-> st = PARSE_ERR_OK /\ net_stream4_left (snd (packet_key buf)) <> 0 /\
    net_stream4_right (snd (packet_key buf)) <> 0) as Hh by (unfold heard; tauto).
  destruct (Z.eqb_spec st PARSE_ERR_OK) as [-> | Hne]; cbn [negb].
  2: { cbn [yields fst snd]. by rewrite bool_decide_false by tauto. }
  specialize (Hpd eq_refl). rewrite (parsed_key buf pkt Hl Hpd), bind_Val.
  destruct (packet_key buf) as [fl key] eqn:Ekey. cbv zeta. cbn [snd] in Hh |- *.
  destruct (Z.eqb_spec (net_stream4_left key) 0) as [Hz | Hl0]; [cbn [orb yields fst snd]; by rewrite bool_decide_false by tauto |].
  destruct (Z.eqb_spec (net_stream4_right key) 0) as [Hz | Hr0]; [cbn [orb yields fst snd]; by rewrite bool_decide_false by tauto |].
  cbn [orb]. rewrite bool_decide_true by tauto.
  apply (yields_bind _ _ _ _ (inc_global_flows _ _ F _ (H : flows_at F (store_stream_key (pe_key env) key s)))). intros s1 H1.
  destruct (negb _); [exists None; by split |]. apply yields_any. intros found.
  apply (yields_bind (fun r => flows_at (bump (i32 (hdr_len hdr)) FLOW_TYPE_TOTAL F) (snd r))).
  { destruct found; [exact H1 | by apply new_stream_flows]. }
  intros [[ss |] s2] H2; cbn [snd] in H2; [| exists None; by split].
  apply (yields_bind _ _ _ _ (stream_packet_flows hdr buf pkt _ ss _ s2 c H2)). intros [s3 c3] (cls & Hcls & H3).
  exists (Some cls). by split.
Qed.

Lemma cleanup_stream_flows env ss F s : flows_at F s -> yields (flows_at F) (cleanup_stream env ss s).
Proof.
  intros H. unfold cleanup_stream. apply yields_any. intros key. cbv zeta. apply (yields_bind (flows_at F)).
  { apply yields_any. by intros [ht m]. }
  intros s1 H1. do 3 (apply yields_any; intros ?).
  assert (forall (m : res shm_t) (k : shm_t -> res shm_t), yields (quiet s1) m ->
    (forall s', quiet s1 s' -> yields (flows_at F) (k s')) -> yields (flows_at F) (m ≫= k)) as Hstep
    by (intros m k Hm Hk; by apply (yields_bind (quiet s1))).
  apply Hstep; [by apply upd_addr_quiet |]. intros s2 Q2. apply Hstep; [by apply upd_addr_quiet |]. intros s3 Q3.
  apply yields_any. intros l. apply Hstep; [destruct (_ =? 0); [by apply addr_free_quiet | done] |]. intros s4 Q4.
  apply yields_any. intros r. apply Hstep; [destruct (_ =? 0); [by apply addr_free_quiet | done] |]. intros s5 Q5.
  apply stream_free_flows. by apply (quiet_flows F s1).
Qed.

Lemma cleanup_flows env tv F s c : flows_at F s -> yields (fun r => flows_at F (fst r)) (cleanup_expired_streams env tv s c).
Proof.
  intros H. unfold cleanup_expired_streams. cbv zeta. destruct (_ || _); [done |]. apply yields_any. intros c1.
  apply (yields_bind (flows_at F)).
  { apply yields_for_each; [done |]. intros i s1 H1. apply yields_any. intros ss. by apply cleanup_stream_flows. }
  intros s1 H1. by apply yields_any.
Qed.

Lemma run_sim_shm rff env ts st : yields (fun st' => cp_shm st' = cp_shm st) (run_sim rff env ts st).
Proof. unfold run_sim. destruct rff; [| done]. apply yields_any. by intros [last sp]. Qed.

Lemma on_packet_flows rff env hdr buf st F :
  packet_ok hdr buf -> flows_at F (cp_shm st) -> yields (fun r => moved hdr buf F (cp_shm (snd r))) (on_packet rff env hdr buf st).
Proof.
  intros Hp H. unfold on_packet. apply (yields_bind _ _ _ _ (run_sim_shm rff env (hdr_ts hdr) st)). intros st1 E1. rewrite E1.
  apply (yields_bind _ _ _ _ (packet_step_flows env hdr buf (cp_shm st) (cp_cleanup st1) F Hp H)).
  intros [[counted s] c] Hm. cbv zeta. cbn [fst snd] in Hm. destruct (negb counted); [exact Hm |].
  apply (yields_bind _ _ _ _ (run_sim_shm rff env (hdr_ts hdr) _)). cbn [cp_shm]. intros st3 E3.
  destruct (_ <? _); [| cbn [yields snd]; by rewrite E3].
  apply (yields_bind (fun r => moved hdr buf F (fst r))); [| by intros [s4 c4]]. rewrite E3. unfold moved in *.
  case_bool_decide; [destruct Hm as (cls & Hc & Hm) |];
    (pose proof (cleanup_flows env (tv_sec (hdr_ts hdr)) _ s (cp_cleanup st3) Hm) as Hcl;
     destruct (cleanup_expired_streams _ _ _ _) as [[s' c'] | |]; [| done ..]); [by exists cls | exact Hcl].
Qed.

Lemma callback_flows env stat h tv64 buf tl st F :
  packet_ok h buf -> flows_at F (cp_shm st) ->
  yields (fun r => moved h buf F (cp_shm (snd r))) (callback env stat h tv64 buf tl st).
Proof.
  intros Hp H. unfold callback.
  assert (forall p : Z * capture_t, flows_at F (cp_shm (snd p)) ->
    yields (fun r => moved h buf F (cp_shm (snd r)))
      (let '(t, st1) := p in '(_, st2) ← on_packet false env h buf st1; Val (t, st2))) as Hk.
  { intros [t st1] H1. apply (yields_bind _ _ _ _ (on_packet_flows false env h buf st1 F Hp H1)). by intros [r st2] H2. }
  apply Hk. destruct (_ =? 0); [exact H |]. destruct (_ <=? _); [| exact H]. by destruct (get_libpcap_stats stat) as [[r i] k].
Qed.

Lemma init_flows use_shm env mem :
  yields (fun r => match r with Some s => flows_at (replicate 6 zero_flow_stats) s | None => True end)
    (shm_data_init use_shm env mem).
Proof.
  unfold shm_data_init. destruct (if use_shm then _ else _); [done |]. cbv zeta. do 7 (apply yields_any; intros ?).
  destruct (mga_init _ _ _ 0 255) as [lan p1]. destruct (mga_init _ _ _ 256 _) as [wan p2].
  destruct (mga_init _ _ _ _ (SI_NUM_STREAMS - 1)) as [strm p3].
  split; [reflexivity |]. apply Forall_replicate. split; [discriminate | reflexivity].
Qed.

(** ** Many packets *)

Definition heard_of (l : list (pcap_pkthdr32_t * list Z)) : list (pcap_pkthdr32_t * list Z) :=
  List.filter (fun p => bool_decide (heard (fst p) (snd p))) l.

(** What became of a list of packets: each that is heard is on the list [xs], with its
    length and the class it was counted on. *)
Definition accounted (l : list (pcap_pkthdr32_t * list Z)) (xs : list (Z * option Z)) (F : list flow_stats_t) (s : shm_t) : Prop :=
  List.map fst xs = List.map (fun p => i32 (hdr_len (fst p))) (heard_of l) /\ Forall cls_ok xs /\
  flows_at (foldl (fun F x => tallied x F) F xs) s.

Lemma accounted_nil F s : flows_at F s -> accounted [] [] F s.
Proof. intros H. split; [done |]. split; [constructor | exact H]. Qed.

Lemma accounted_snoc l xs F s hdr buf s' :
  accounted l xs F s -> moved hdr buf (foldl (fun F x => tallied x F) F xs) s' ->
  exists xs', accounted (l ++ [(hdr, buf)]) xs' F s'.
Proof.
  intros (H1 & H2 & H3) Hm. unfold moved in Hm. unfold accounted, heard_of. rewrite List.filter_app. cbn [List.filter fst snd].
  case_bool_decide as Hh.
  - destruct Hm as (cls & Hc & Hm). exists (xs ++ [(i32 (hdr_len hdr), cls)]).
    split; [rewrite !List.map_app, H1; reflexivity |]. split; [apply Forall_app; split; [done | by constructor] |].
    by rewrite foldl_app.
  - exists xs. rewrite app_nil_r. done.
Qed.

(** The packets that moved the counters of a flow type. *)
Definition hits (i : Z) (x : Z * option Z) : bool := (i =? FLOW_TYPE_TOTAL) || bool_decide (snd x = Some i).

Definition lens (xs : list (Z * option Z)) : Z := foldr (fun x n => fst x + n) 0 xs.

Definition grown (i : Z) (xs : list (Z * option Z)) (F F' : list flow_stats_t) : Prop :=
  let ys := List.filter (hits i) xs in
  exists f f', aget F i = Val f /\ aget F' i = Val f' /\
    adds (fs_packets f) (Z.of_nat (length ys)) (fs_packets f') /\ adds (fs_bytes f) (lens ys) (fs_bytes f').

Lemma bump_other len i j F : 0 <= i -> i <> j -> aget (bump len i F) j = aget F j.
Proof. intros Hi Hne. unfold bump. apply aget_alter_ne; lia. Qed.

Lemma bump_same len i F f : aget F i = Val f -> aget (bump len i F) i = Val (add_flow len f).
Proof. apply aget_alter_eq. Qed.

Lemma tallied_grown i x F : length F = 6%nat -> 0 <= i < 6 -> cls_ok x -> length (tallied x F) = 6%nat /\ grown i [x] F (tallied x F).
Proof.
  intros Hl Hi Hc. destruct x as [len cls]. unfold tallied. cbn [fst snd]. unfold cls_ok, FLOW_TYPE_TOTAL in *. cbn [snd] in Hc.
  split; [unfold bump; destruct cls; by rewrite !length_alter |]. unfold grown.
  destruct (aget_lt F i ltac:(lia)) as [f Hf]. exists f.
  assert (forall y, adds y 1 (u32 (y + 1)) /\ adds y (len + 0) (u32 (y + len))) as Ha.
  { intros y. rewrite Z.add_0_r. split; apply adds_u32. }
  assert (adds (fs_packets f) 0 (fs_packets f) /\ adds (fs_bytes f) 0 (fs_bytes f)) as H0 by (split; apply adds_zero).
  cbn [List.filter]. unfold hits. cbn [snd]. unfold FLOW_TYPE_TOTAL.
  destruct cls as [cls |].
  - destruct (Z.eqb_spec i 5) as [-> | Hne]; cbn [orb].
    + exists (add_flow len f). split; [done |]. split; [rewrite bump_other by lia; by apply bump_same |]. split; apply Ha.
    + destruct (decide (cls = i)) as [-> | Hci].
      * rewrite bool_decide_true by done. exists (add_flow len f). split; [done |].
        split; [apply bump_same; rewrite bump_other by lia; done |]. split; apply Ha.
      * rewrite bool_decide_false by congruence. exists f. split; [done |]. split; [rewrite !bump_other by lia; done | exact H0].
  - destruct (Z.eqb_spec i 5) as [-> | Hne]; cbn [orb].
    + exists (add_flow len f). split; [done |]. split; [by apply bump_same |]. split; apply Ha.
    + rewrite bool_decide_false by done. exists f. split; [done |]. split; [rewrite bump_other by lia; done | exact H0].
Qed.

Lemma lens_app xs ys : lens (xs ++ ys) = lens xs + lens ys.
Proof. induction xs as [| x xs IH]; [done |]. cbn. unfold lens in *. rewrite IH. lia. Qed.

Lemma grown_trans i xs ys F1 F2 F3 : grown i xs F1 F2 -> grown i ys F2 F3 -> grown i (xs ++ ys) F1 F3.
Proof.
  intros (f1 & f2 & A1 & A2 & A3 & A4) (g2 & f3 & B1 & B2 & B3 & B4). rewrite A2 in B1. injection B1 as <-.
  unfold grown. rewrite List.filter_app, length_app, lens_app, Nat2Z.inj_add.
  exists f1, f3. split; [done |]. split; [done |]. split; by eapply adds_trans.
Qed.

Lemma tally_grown i xs F : length F = 6%nat -> 0 <= i < 6 -> Forall cls_ok xs ->
  grown i xs F (foldl (fun F x => tallied x F) F xs).
Proof.
  intros Hl Hi Hx. revert F Hl. induction Hx as [| x xs Hx Hxs IH]; intros F Hl.
  - destruct (aget_lt F i ltac:(lia)) as [f Hf]. exists f, f. split; [done |]. split; [done |]. split; apply adds_zero.
  - destruct (tallied_grown i x F Hl Hi Hx) as [Hl' H1]. change (x :: xs) with ([x] ++ xs).
    eapply grown_trans; [exact H1 | by apply IH].
Qed.

(** The total grows with every packet that is heard. *)
Lemma total_grown l xs F s :
  length F = 6%nat -> accounted l xs F s ->
  exists f f', aget F FLOW_TYPE_TOTAL = Val f /\ aget (sh_flow_stats (g_shm s)) FLOW_TYPE_TOTAL = Val f' /\
    adds (fs_packets f) (Z.of_nat (length (heard_of l))) (fs_packets f') /\
    adds (fs_bytes f) (foldr (fun p n => i32 (hdr_len (fst p)) + n) 0 (heard_of l)) (fs_bytes f').
Proof.
  intros Hl (H1 & H2 & H3 & _). rewrite H3. destruct (tally_grown FLOW_TYPE_TOTAL xs F Hl ltac:(unfold FLOW_TYPE_TOTAL; lia) H2) as (f & f' & A & B & C & D).
  exists f, f'. split; [exact A |]. split; [exact B |].
  assert (List.filter (hits FLOW_TYPE_TOTAL) xs = xs) as E by (clear; induction xs as [| x xs IH]; [done | cbn; by rewrite IH]).
  rewrite E in C, D. apply (f_equal (@length Z)) in H1 as Hlen. rewrite !List.length_map in Hlen. rewrite <- Hlen.
  split; [exact C |]. replace (foldr _ 0 (heard_of l)) with (lens xs); [exact D |].
  clear -H1. unfold lens. revert xs H1. induction (heard_of l) as [| p ps IH]; intros [| x xs] He; try done.
  cbn [List.map foldr] in *. injection He as Hx He. by rewrite (IH xs He), Hx.
Qed.
