(* ===== verification/StreamIds.v ===== *)
(** The ids of streams: [shm_stream_alloc] takes the next number, and nothing else the
    packet handler does changes the number or the id of an entry. *)
From S2P Require Import Prelude Structs MgArray IpUtils StreamKey HashTable StatProc Packet Cleanup ShmData Capture Lifecycle.
From stdpp Require Import list.
#[local] Open Scope Z_scope.

(** A statement that leaves the state with the number [n]. *)
Definition numbered (n : Z) (m : res shm_t) : Prop := yields (fun s => gStreamCount s = n) m.

Lemma upd_addr_numbered i f n s : gStreamCount s = n -> numbered n (upd_addr i f s).
Proof. intros H. unfold numbered, upd_addr. do 2 (apply yields_any; intros ?). exact H. Qed.

Lemma upd_stream_numbered i f n s : gStreamCount s = n -> numbered n (upd_stream i f s).
Proof. intros H. unfold numbered, upd_stream. do 2 (apply yields_any; intros ?). exact H. Qed.

Lemma upd_flow_numbered i f n s : gStreamCount s = n -> numbered n (upd_flow i f s).
Proof. intros H. unfold numbered, upd_flow. do 2 (apply yields_any; intros ?). exact H. Qed.

Lemma upd_proto_numbered i f n s : gStreamCount s = n -> numbered n (upd_proto i f s).
Proof. intros H. unfold numbered, upd_proto. do 2 (apply yields_any; intros ?). exact H. Qed.

#[local] Hint Resolve upd_addr_numbered upd_stream_numbered upd_flow_numbered upd_proto_numbered : core.

Lemma numbered_bind {A} n (m : res shm_t) (f : shm_t -> res A) (Q : A -> Prop) :
  numbered n m -> (forall s, gStreamCount s = n -> yields Q (f s)) -> yields Q (m ≫= f).
Proof. intros Hm Hf. exact (yields_bind _ _ _ _ Hm Hf). Qed.

(** Through the statements of a function, one after the other. *)
Ltac numbered_step :=
  match goal with
  | H : gStreamCount ?s = ?n |- yields _ (upd_addr _ _ _ ≫= _) => apply (numbered_bind n); [by auto |]; clear H; intros ? H
  | H : gStreamCount ?s = ?n |- yields _ (upd_stream _ _ _ ≫= _) => apply (numbered_bind n); [by auto |]; clear H; intros ? H
  | H : gStreamCount ?s = ?n |- yields _ (upd_flow _ _ _ ≫= _) => apply (numbered_bind n); [by auto |]; clear H; intros ? H
  | |- yields _ (upd_addr _ _ _) => apply upd_addr_numbered
  | |- yields _ (upd_stream _ _ _) => apply upd_stream_numbered
  | |- yields _ (upd_flow _ _ _) => apply upd_flow_numbered
  | |- yields _ (upd_proto _ _ _) => apply upd_proto_numbered
  | |- yields _ (_ ≫= _) => apply yields_any; intros ?
  end.

Lemma inc_stream_counters_numbered i dir len n s : gStreamCount s = n -> numbered n (inc_stream_counters i dir len s).
Proof.
  intros H. unfold numbered, inc_stream_counters. do 4 numbered_step.
  apply (numbered_bind n).
  - unfold numbered. destruct (_ =? 1); [| exact H]. do 4 numbered_step. exact H.
  - clear H. intros s1 H. unfold inc_addr_ctrs. destruct dir; do 2 numbered_step; exact H.
Qed.

Lemma stream_packet_numbered hdr buf pkt dir i n s c : gStreamCount s = n ->
  yields (fun r => gStreamCount (fst r) = n) (stream_packet hdr buf pkt dir i s c).
Proof.
  intros H. unfold stream_packet. numbered_step. apply (yields_bind (fun r => gStreamCount (fst r) = n)).
  { unfold tcp_update. destruct (istcp pkt =? 0); [exact H |]. do 2 numbered_step. destruct (_ && _); [| exact H].
    apply yields_any. intros c'. numbered_step. exact H. }
  clear H. intros [s1 c1] H. cbn [fst] in H. apply yields_any. intros e. apply (numbered_bind n).
  { unfold numbered. destruct (_ =? 1); [| exact H]. do 2 numbered_step. exact H. }
  clear H. intros s2 H. apply (numbered_bind n); [by apply inc_stream_counters_numbered |].
  clear H. intros s3 H. apply (numbered_bind n).
  { unfold numbered, shm_inc_flow_stats. apply yields_any. intros e'. apply yields_assert. by apply upd_flow_numbered. }
  clear H. intros s4 H. apply yields_any. intros e'. apply (numbered_bind n).
  { unfold numbered, inc_protocol_counters. destruct (shm_get_protocol _ _); [by apply upd_proto_numbered | exact H]. }
  by intros s5 H5.
Qed.

Lemma addr_for_numbered env pkey ts ip mac buf n s : gStreamCount s = n ->
  yields (fun r => gStreamCount (snd r) = n) (addr_for env pkey ts ip mac buf s).
Proof.
  intros H. unfold addr_for, shm_addr_lookup_v4. apply (yields_bind (fun r => gStreamCount (snd r) = n)).
  { apply yields_any. intros [a |]; exact H. }
  clear H. intros [[a i] s1] H. cbn [snd] in H. destruct a as [a |]; [exact H |].
  do 2 (apply yields_any; intros ?). apply (yields_bind (fun r => gStreamCount (snd r) = n)).
  - unfold shm_addr_alloc_v4. apply yields_any. intros lan. apply (yields_bind (fun r => gStreamCount (snd r) = n)).
    { destruct (negb _); apply yields_any; intros [[[j |] p] arr]; try exact H; (apply (numbered_bind n); [by apply upd_addr_numbered |]; by intros s2 H2). }
    clear H. intros [[j |] s2] H; cbn [snd] in H; [| exact H]. numbered_step. destruct (pkey =? NULL); [done |].
    apply yields_any. intros [[r ht] m]. exact H.
  - clear H. intros [[[j |] i'] s2] H; cbn [snd] in H; [| exact H]. numbered_step. exact H.
Qed.

Lemma new_stream_numbered env hdr buf pkt fl key n s : gStreamCount s = n ->
  yields (fun r => is_Some (fst r) -> gStreamCount (snd r) = u32 (n + 1)) (new_stream env hdr buf pkt fl key s).
Proof.
  intros H. unfold new_stream. apply (yields_bind (fun r => is_Some (fst r) -> gStreamCount (snd r) = u32 (n + 1))).
  { unfold shm_stream_alloc. apply yields_any. intros [[[j |] p] arr]; [| by intros [? ?]]. apply yields_any. intros [[r ht] m].
    apply (numbered_bind n); [by apply upd_stream_numbered |]. intros s1 H1 _. cbn [snd gStreamCount set_gStreamCount]. by rewrite H1. }
  clear H. intros [[ss |] s1] H; cbn [fst snd] in H; [| by intros [? ?]]. specialize (H (mk_is_Some _ _ eq_refl)).
  apply (yields_bind (fun r => gStreamCount (snd r) = u32 (n + 1))); [by apply addr_for_numbered |]. clear H. intros [[l il] s2] H. cbn [snd] in H.
  apply (yields_bind (fun r => gStreamCount (snd r) = u32 (n + 1))); [by apply addr_for_numbered |]. clear H. intros [[r ir] s3] H. cbn [snd] in H.
  numbered_step. unfold set_stream_flow_flags. apply (numbered_bind (u32 (n + 1))).
  { unfold numbered. do 4 (apply yields_any; intros ?). by apply upd_stream_numbered. }
  by intros s4 H4 _.
Qed.

(** The packet handler: the number goes up with a stream that was not found. *)
Lemma packet_step_numbered env hdr buf s c r :
  HEADER_BYTES <= Z.of_nat (length buf) -> Forall is_u8 buf -> 0 <= hdr_caplen hdr < 2147483648 -> accepts (hdr_caplen hdr) buf -> shm_inv s ->
  shm_stream_lookup (pe_key env) (store_stream_key (pe_key env) (snd (packet_key buf)) s) = Val r ->
  yields (fun x => fst (fst x) = true ->
      gStreamCount (snd (fst x)) = match r with Some _ => gStreamCount s | None => u32 (gStreamCount s + 1) end)
    (packet_step env hdr buf s c).
Proof.
  intros H1 H2 H3 H4 Hi Hlook. destruct (packet_front env hdr buf s c H1 H2 H3 H4) as (pkt & _ & ->). cbv zeta.
  set (s0 := store_stream_key _ _ s) in *. assert (shm_inv s0) as Hi0 by (by apply store_stream_inv).
  destruct (_ || _); [done |]. rewrite (inc_global_ok hdr s0 (sv_flow _ Hi0)), bind_Val.
  destruct (global_counted_rest hdr s0) as (_ & _ & _ & _ & G5 & G6 & _ & _ & Hgc & _).
  assert (shm_stream_lookup (pe_key env) (global_counted hdr s0) = Val r) as -> by (unfold shm_stream_lookup in *; by rewrite G5, G6).
  rewrite bind_Val. change (gStreamCount s0) with (gStreamCount s) in Hgc. set (s1 := global_counted hdr s0) in *.
  set (n := match r with Some _ => _ | None => _ end).
  apply (yields_bind (fun r => is_Some (fst r) -> gStreamCount (snd r) = n)).
  { destruct r as [ss |]; [by intros _ |]. by apply new_stream_numbered. }
  intros [[ss |] s2] H; [| by intros]. cbn [fst snd] in H. specialize (H (mk_is_Some _ _ eq_refl)).
  apply (yields_bind (fun r => gStreamCount (fst r) = n)); [by apply stream_packet_numbered |]. intros [s3 c3] E. by intros _.
Qed.

(** The id of an entry. *)
Lemma counted_iid hdr vlan pkt e : si_iid (counted_stream hdr vlan pkt e) = si_iid e.
Proof. unfold counted_stream, tcp_entry. cbv zeta. destruct (finishing _ _), (istcp pkt =? 0); by case_match. Qed.

Lemma flags_iid al ar e : si_iid (stream_flow_flags al ar e) = si_iid e.
Proof. unfold stream_flow_flags. by repeat case_match. Qed.

(** The id of a stream that has just started. *)
Lemma started_iid hdr vlan pkt al ar key il ir ts n old :
  si_iid (counted_stream hdr vlan pkt (stream_flow_flags al ar (fill_stream key il ir ts (new_stream_entry n old)))) = n.
Proof. by rewrite counted_iid, flags_iid. Qed.
