(* ===== verification/FlowTable.v ===== *)
(** What the packet handler promises, without its arrays, windows, tables and pointers: a
    table of conversations, a table of peers, and counters.  [Bookkeeping] shows that the
    capture process keeps exactly these books.

    The stream table stores the address of one key object for all streams
    ([stream_lookup_shared_key]), so what it tells apart is not the conversations but
    the buckets of their keys: a conversation of the abstract table is a bucket. *)
From S2P Require Import Prelude Structs IpUtils StreamKey HashTable StatProc Packet ShmData Capture Lifecycle Conversation Flows.
From stdpp Require Import list gmap.
#[local] Open Scope Z_scope.

(** The buckets of the stream table. *)
Definition SLOTS : Z := SI_NUM_STREAMS / 5.
Definition slot (key : stream_key_t) : Z := hash_stream_key key mod SLOTS.

(** ** State *)

(** A conversation has the key and the time of its first packet. *)
Record conv := mk_conv { cv_key : stream_key_t; cv_start : tval_t; cv_id : Z; cv_packets : Z; cv_bytes : Z }.

(** An address that took part in a conversation. *)
Record peer := mk_peer { pr_tx_packets : Z; pr_tx_bytes : Z; pr_rx_packets : Z; pr_streams : Z }.

(** A port of a protocol; the last two count the packets sent by its servers. *)
Record service := mk_service { srv_packets : Z; srv_bytes : Z; srv_up_packets : Z; srv_up_bytes : Z }.

Record flow_table := mk_flow_table {
  ft_convs : gmap Z conv;
  ft_peers : gmap Z peer;
  ft_services : gmap Z service;
  ft_flows : list (Z * Z);   (* packets and bytes of the five classes, and of all *)
  ft_ended : bool            (* some connection has ended *)
}.

Definition empty_table : flow_table := mk_flow_table ∅ ∅ ∅ (replicate 6 (0, 0)) false.

(** ** One packet *)

Definition conv_left (c : conv) : Z := net_stream4_left (cv_key c).
Definition conv_right (c : conv) : Z := net_stream4_right (cv_key c).

(** The class of a conversation: internal, or by its service and where its server is. *)
Definition conv_class (key : stream_key_t) : Z :=
  if is_lan (net_stream4_left key) && is_lan (net_stream4_right key) then FLOW_TYPE_INTERNAL
  else (if negb (is_web (sk_rport (sk_v4 key)) =? 0) then 1 else 0) + (if is_lan (net_stream4_right key) then 2 else 0).

Lemma conv_class_small key : 0 <= conv_class key < FLOW_TYPE_TOTAL.
Proof. unfold conv_class, FLOW_TYPE_TOTAL, FLOW_TYPE_INTERNAL. by repeat case_match. Qed.

Definition conv_service (key : stream_key_t) : option Z :=
  shm_get_protocol (sk_ipproto (sk_v4 key)) (sk_rport (sk_v4 key)).

Definition new_peer : peer := mk_peer 0 0 0 0.
Definition enrol (p : peer) : peer := mk_peer (pr_tx_packets p) (pr_tx_bytes p) (pr_rx_packets p) (pr_streams p + 1).
Definition enrols (ip : Z) (m : gmap Z peer) : gmap Z peer := <[ip := enrol (default new_peer (m !! ip))]> m.

Definition sends (len : Z) (p : peer) : peer :=
  mk_peer (pr_tx_packets p + 1) (pr_tx_bytes p + len) (pr_rx_packets p) (pr_streams p).
Definition receives (p : peer) : peer :=
  mk_peer (pr_tx_packets p) (pr_tx_bytes p) (pr_rx_packets p + 1) (pr_streams p).

Definition count_flow (len : Z) (f : Z * Z) : Z * Z := (fst f + 1, snd f + len).
Definition count_conv (len : Z) (c : conv) : conv := mk_conv (cv_key c) (cv_start c) (cv_id c) (cv_packets c + 1) (cv_bytes c + len).
Definition count_service (up : bool) (len : Z) (v : service) : service :=
  mk_service (srv_packets v + 1) (srv_bytes v + len)
    (if up then srv_up_packets v + 1 else srv_up_packets v) (if up then srv_up_bytes v + len else srv_up_bytes v).

Definition new_service : service := mk_service 0 0 0 0.
Definition serve (up : bool) (len : Z) (o : option Z) (m : gmap Z service) : gmap Z service :=
  match o with Some i => <[i := count_service up len (default new_service (m !! i))]> m | None => m end.

(** The first packet of a conversation enters it, and its two peers; conversations are
    numbered in the order of their first packets. *)
Definition new_conv (p : packet) (t : flow_table) : conv :=
  mk_conv (pk_key p) (hdr_ts (pk_hdr p)) (Z.of_nat (size (ft_convs t))) 0 0.
Definition enter (p : packet) (t : flow_table) : flow_table :=
  mk_flow_table (<[slot (pk_key p) := new_conv p t]> (ft_convs t))
    (enrols (net_stream4_right (pk_key p)) (enrols (net_stream4_left (pk_key p)) (ft_peers t)))
    (ft_services t) (ft_flows t) (ft_ended t).

(** The packet that ends a connection. *)
Definition final (p : packet) : bool :=
  negb (istcp (packet_info (pk_buf p)) =? 0) && negb (isfin (packet_info (pk_buf p)) =? 0).

(** A packet of the conversation [c] of its bucket: the peers are those of the
    conversation, the direction is the packet's. *)
Definition tally (p : packet) (c : conv) (t : flow_table) : flow_table :=
  let len := pk_len p in
  let send ltr := if Bool.eqb (pk_ltr p) ltr then sends len else receives in
  mk_flow_table (<[slot (pk_key p) := count_conv len c]> (ft_convs t))
    (alter (send false) (conv_right c) (alter (send true) (conv_left c) (ft_peers t)))
    (serve (negb (pk_ltr p)) len (conv_service (cv_key c)) (ft_services t))
    (alter (count_flow len) (Z.to_nat (conv_class (cv_key c))) (alter (count_flow len) (Z.to_nat FLOW_TYPE_TOTAL) (ft_flows t)))
    (ft_ended t || final p).

Definition pk_heard (p : packet) : bool := bool_decide (heard (pk_hdr p) (pk_buf p)).

Definition book (p : packet) (t : flow_table) : flow_table :=
  if pk_heard p then
    let t := match ft_convs t !! slot (pk_key p) with Some _ => t | None => enter p t end in
    match ft_convs t !! slot (pk_key p) with Some c => tally p c t | None => t end
  else t.

Definition book_all (l : list packet) (t : flow_table) : flow_table := foldl (fun t p => book p t) t l.

(** ** What the implementation needs of the packets *)

(** The known addresses of a side. *)
Definition peers_of (lan : bool) (t : flow_table) : Z :=
  Z.of_nat (size (filter (fun ip => is_lan ip = lan) (dom (ft_peers t)))).

(** The result of [malloc] is the address of no object in use; the two local key
    objects are objects of their own. *)
Record pointers_ok (k : ptr) (used : gset ptr) (e : pkt_env) : Prop := {
  po_key : pe_key e = k;
  po_new : (pe_malloc_left e ∉ used) /\ (pe_malloc_right e ∉ used) /\ pe_malloc_left e <> pe_malloc_right e;
  po_ok : pe_malloc_left e <> NULL /\ pe_malloc_right e <> NULL /\ pe_ok_pair e = true;
  po_local : (pe_lookup_key e ∉ used) /\ pe_lookup_key e <> pe_malloc_left e
}.

Definition used_after (e : pkt_env) (used : gset ptr) : gset ptr := {[ pe_malloc_left e; pe_malloc_right e ]} ∪ used.

(** A packet that can be booked: the bytes are there; a new conversation has two
    different ends, a time, and room for two addresses on each side; the count of packets
    of a conversation stays below 2^32; and once a connection has ended, packets come in
    the first fifteen seconds of a minute, when no stream is freed. *)
Record bookable (p : packet) (t : flow_table) : Prop := {
  bo_packet : packet_ok (pk_hdr p) (pk_buf p);
  bo_enter : pk_heard p = true -> ft_convs t !! slot (pk_key p) = None ->
    net_stream4_left (pk_key p) <> net_stream4_right (pk_key p) /\ tv_sec (hdr_ts (pk_hdr p)) <> 0 /\
    peers_of true t < 254 /\ peers_of false t < 16126;
  bo_tally : forall c, ft_convs t !! slot (pk_key p) = Some c -> cv_packets c + 1 < 4294967296;
  bo_calm : ft_ended (book p t) = true -> tv_sec (hdr_ts (pk_hdr p)) mod 60 < 15
}.

(** A packet that can be booked, whenever it comes. *)
Record entered_ok (p : packet) (t : flow_table) : Prop := {
  eo_packet : packet_ok (pk_hdr p) (pk_buf p);
  eo_enter : pk_heard p = true -> ft_convs t !! slot (pk_key p) = None ->
    net_stream4_left (pk_key p) <> net_stream4_right (pk_key p) /\ tv_sec (hdr_ts (pk_hdr p)) <> 0 /\
    peers_of true t < 254 /\ peers_of false t < 16126;
  eo_tally : forall c, ft_convs t !! slot (pk_key p) = Some c -> cv_packets c + 1 < 4294967296
}.

Lemma bookable_entered p t : bookable p t -> entered_ok p t.
Proof. intros []. by split. Qed.

Fixpoint bookable_all (k : ptr) (used : gset ptr) (l : list packet) (t : flow_table) : Prop :=
  match l with
  | [] => True
  | p :: l => pointers_ok k used (pk_env p) /\ bookable p t /\ bookable_all k (used_after (pk_env p) used) l (book p t)
  end.

(** ** The same conditions, executable *)

Definition packet_okb (p : packet) : bool :=
  (HEADER_BYTES <=? Z.of_nat (length (pk_buf p))) && forallb (fun x => (0 <=? x) && (x <? 256)) (pk_buf p) &&
  (0 <=? hdr_caplen (pk_hdr p)) && (hdr_caplen (pk_hdr p) <? 2147483648).

Definition entered_okb (p : packet) (t : flow_table) : bool :=
  packet_okb p &&
  match ft_convs t !! slot (pk_key p) with
  | Some c => cv_packets c + 1 <? 4294967296
  | None => implb (pk_heard p)
      (negb (net_stream4_left (pk_key p) =? net_stream4_right (pk_key p)) && negb (tv_sec (hdr_ts (pk_hdr p)) =? 0) &&
       (peers_of true t <? 254) && (peers_of false t <? 16126))
  end.

Definition bookableb (p : packet) (t : flow_table) : bool :=
  entered_okb p t && implb (ft_ended (book p t)) (tv_sec (hdr_ts (pk_hdr p)) mod 60 <? 15).

Definition pointers_okb (k : ptr) (used : gset ptr) (e : pkt_env) : bool :=
  (pe_key e =? k) && bool_decide (pe_malloc_left e ∉ used) && bool_decide (pe_malloc_right e ∉ used) &&
  negb (pe_malloc_left e =? pe_malloc_right e) && negb (pe_malloc_left e =? NULL) && negb (pe_malloc_right e =? NULL) && pe_ok_pair e &&
  bool_decide (pe_lookup_key e ∉ used) && negb (pe_lookup_key e =? pe_malloc_left e).

Fixpoint bookable_allb (k : ptr) (used : gset ptr) (l : list packet) (t : flow_table) : bool :=
  match l with
  | [] => true
  | p :: l => pointers_okb k used (pk_env p) && bookableb p t && bookable_allb k (used_after (pk_env p) used) l (book p t)
  end.

Lemma packet_okb_sound p : packet_okb p = true -> packet_ok (pk_hdr p) (pk_buf p).
Proof.
  unfold packet_okb, packet_ok. rewrite !andb_true_iff, !Z.leb_le, Z.ltb_lt. intros [[[H1 H2] H3] H4].
  split; [exact H1 |]. split; [by apply PacketTest.all_u8 | lia].
Qed.

Lemma entered_okb_sound p t : entered_okb p t = true -> entered_ok p t.
Proof.
  unfold entered_okb. rewrite andb_true_iff. intros [H1 H2]. split.
  - by apply packet_okb_sound.
  - intros Hh Hn. rewrite Hn, Hh in H2. cbn [implb] in H2. rewrite !andb_true_iff, !negb_true_iff, !Z.eqb_neq, !Z.ltb_lt in H2. tauto.
  - intros c Hc. rewrite Hc in H2. by apply Z.ltb_lt.
Qed.

Lemma bookableb_sound p t : bookableb p t = true -> bookable p t.
Proof.
  unfold bookableb. rewrite andb_true_iff. intros [[H1 H2 H3]%entered_okb_sound H4]. split; try assumption.
  intros He. rewrite He in H4. by apply Z.ltb_lt.
Qed.

Lemma pointers_okb_sound k used e : pointers_okb k used e = true -> pointers_ok k used e.
Proof.
  unfold pointers_okb. rewrite !andb_true_iff, !negb_true_iff, !Z.eqb_neq, !bool_decide_eq_true, Z.eqb_eq. intros H. split; tauto.
Qed.

Lemma bookable_allb_sound k l : forall used t, bookable_allb k used l t = true -> bookable_all k used l t.
Proof.
  induction l as [| p l IH]; intros used t; [done |]. cbn [bookable_allb bookable_all]. rewrite !andb_true_iff. intros [[H1 H2] H3].
  split; [by apply pointers_okb_sound |]. split; [by apply bookableb_sound | by apply IH].
Qed.
