(* ===== verification/FlowViews.v ===== *)
(** The tables of [FlowTable] are views of its conversations: what the classes, the
    services and the peers count is what the conversations count, so the books balance. *)
From S2P Require Import Prelude Structs IpUtils StreamKey HashTable StatProc Packet ShmData Capture Conversation Flows FlowTable.
From stdpp Require Import list gmap.
#[local] Open Scope Z_scope.

(** ** Sums over a table *)

Definition msum {A} (f : A -> Z) (m : gmap Z A) : Z := map_fold (fun _ x n => f x + n) 0 m.

Lemma msum_empty {A} (f : A -> Z) : msum f ∅ = 0.
Proof. apply map_fold_empty. Qed.

Lemma msum_new {A} (f : A -> Z) m k x : m !! k = None -> msum f (<[k := x]> m) = msum f m + f x.
Proof. intros H. unfold msum. rewrite map_fold_insert_L by (done || (intros; lia)). lia. Qed.

Lemma msum_update {A} (f : A -> Z) m k x y : m !! k = Some x -> msum f (<[k := y]> m) = msum f m + f y - f x.
Proof.
  intros H. rewrite <- (insert_id m k x H) at 2. rewrite <- (insert_delete_eq m k x), <- (insert_delete_eq m k y).
  rewrite !msum_new by apply lookup_delete_eq. lia.
Qed.

Lemma msum_insert {A} (f : A -> Z) m k y : msum f (<[k := y]> m) = msum f m + f y - from_option f 0 (m !! k).
Proof. destruct (m !! k) eqn:H; cbn; [by apply msum_update | rewrite (msum_new _ _ _ _ H); lia]. Qed.

Lemma msum_alter {A} (f : A -> Z) m k g x : m !! k = Some x -> msum f (alter g k m) = msum f m + f (g x) - f x.
Proof.
  intros H. rewrite <- (msum_update f m k x (g x) H). f_equal. apply map_eq. intros j. destruct (decide (k = j)) as [<- |].
  - by rewrite lookup_alter_eq, lookup_insert_eq, H.
  - by rewrite lookup_alter_ne, lookup_insert_ne by done.
Qed.

(** ** The views *)

Definition of_class (i : Z) (f : conv -> Z) (c : conv) : Z := if conv_class (cv_key c) =? i then f c else 0.
Definition of_service (i : Z) (f : conv -> Z) (c : conv) : Z := if bool_decide (conv_service (cv_key c) = Some i) then f c else 0.
Definition of_peer (ip : Z) (f : conv -> Z) (c : conv) : Z := if bool_decide (ip = conv_left c \/ ip = conv_right c) then f c else 0.

Definition peer_of (t : flow_table) (ip : Z) : peer := default new_peer (ft_peers t !! ip).
Definition service_of (t : flow_table) (i : Z) : service := default new_service (ft_services t !! i).

Record views (t : flow_table) : Prop := {
  vw_ends : forall b c, ft_convs t !! b = Some c ->
    conv_left c <> conv_right c /\ is_Some (ft_peers t !! conv_left c) /\ is_Some (ft_peers t !! conv_right c);
  vw_total : ft_flows t !! Z.to_nat FLOW_TYPE_TOTAL = Some (msum cv_packets (ft_convs t), msum cv_bytes (ft_convs t));
  vw_classes : forall i, 0 <= i < FLOW_TYPE_TOTAL -> ft_flows t !! Z.to_nat i =
    Some (msum (of_class i cv_packets) (ft_convs t), msum (of_class i cv_bytes) (ft_convs t));
  vw_services : forall i, srv_packets (service_of t i) = msum (of_service i cv_packets) (ft_convs t) /\
    srv_bytes (service_of t i) = msum (of_service i cv_bytes) (ft_convs t);
  vw_peers : forall ip, pr_tx_packets (peer_of t ip) + pr_rx_packets (peer_of t ip) = msum (of_peer ip cv_packets) (ft_convs t) /\
    pr_streams (peer_of t ip) = msum (of_peer ip (fun _ => 1)) (ft_convs t);
  vw_sent : msum pr_tx_packets (ft_peers t) = msum cv_packets (ft_convs t) /\
    msum pr_tx_bytes (ft_peers t) = msum cv_bytes (ft_convs t) /\ msum pr_rx_packets (ft_peers t) = msum cv_packets (ft_convs t)
}.

Lemma views_empty : views empty_table.
Proof.
  split; cbn [empty_table ft_convs ft_peers ft_services ft_flows]; unfold peer_of, service_of; cbn [empty_table ft_convs ft_peers ft_services ft_flows].
  - intros b c. by rewrite lookup_empty.
  - by rewrite !msum_empty.
  - intros i Hi. rewrite !msum_empty. apply lookup_replicate_2. unfold FLOW_TYPE_TOTAL in Hi. lia.
  - intros i. by rewrite lookup_empty, !msum_empty.
  - intros ip. by rewrite lookup_empty, !msum_empty.
  - by rewrite !msum_empty.
Qed.

(** ** A packet keeps the views *)

(** What a packet adds to a sum over the conversations. *)
Lemma counted_convs f t b c len d : ft_convs t !! b = Some c -> f (count_conv len c) = f c + d ->
  msum f (<[b := count_conv len c]> (ft_convs t)) = msum f (ft_convs t) + d.
Proof. intros Hc Hf. rewrite (msum_update f _ b c _ Hc). lia. Qed.

Lemma flow_rows (F : list (Z * Z)) len cls tot i x y : F !! i = Some (x, y) -> i <> tot ->
  alter (count_flow len) cls (alter (count_flow len) tot F) !! i = Some (if decide (cls = i) then (x + 1, y + len) else (x, y)).
Proof.
  intros H Hne. destruct (decide (cls = i)) as [-> |].
  - rewrite list_lookup_alter_eq, list_lookup_alter_ne by congruence. by rewrite H.
  - by rewrite !list_lookup_alter_ne by congruence.
Qed.

Lemma served up len o (m : gmap Z service) i :
  default new_service (serve up len o m !! i) =
    if bool_decide (o = Some i) then count_service up len (default new_service (m !! i)) else default new_service (m !! i).
Proof.
  destruct o as [j |]; cbn [serve]; [| done]. case_bool_decide as E.
  - injection E as ->. by rewrite lookup_insert_eq.
  - by rewrite lookup_insert_ne by congruence.
Qed.

(** The peers after a packet from one end to the other. *)
Definition exchanged (len : Z) (ltr : bool) (l r : Z) (m : gmap Z peer) : gmap Z peer :=
  alter (if Bool.eqb ltr false then sends len else receives) r (alter (if Bool.eqb ltr true then sends len else receives) l m).

Lemma exchanged_peer len ltr l r (m : gmap Z peer) ip p : l <> r -> m !! ip = Some p ->
  exists p', exchanged len ltr l r m !! ip = Some p' /\ pr_streams p' = pr_streams p /\
    pr_tx_packets p' + pr_rx_packets p' = pr_tx_packets p + pr_rx_packets p + (if bool_decide (ip = l \/ ip = r) then 1 else 0).
Proof.
  intros Hne H. unfold exchanged. case_bool_decide as E.
  - destruct E as [-> | ->].
    + rewrite lookup_alter_ne, lookup_alter_eq, H by congruence. eexists. split; [reflexivity |]. destruct ltr; cbn; lia.
    + rewrite lookup_alter_eq, lookup_alter_ne, H by congruence. eexists. split; [reflexivity |]. destruct ltr; cbn; lia.
  - rewrite !lookup_alter_ne, H by (intros ->; tauto). exists p. split; [done |]. lia.
Qed.

Lemma exchanged_sum f len ltr l r (m : gmap Z peer) pl pr : l <> r -> m !! l = Some pl -> m !! r = Some pr ->
  msum f (exchanged len ltr l r m) = msum f m + (f ((if ltr then sends len else receives) pl) - f pl) + (f ((if ltr then receives else sends len) pr) - f pr).
Proof.
  intros Hne Hl Hr. unfold exchanged. rewrite (msum_alter _ _ _ _ pr), (msum_alter _ _ _ _ pl) by (done || by rewrite lookup_alter_ne).
  destruct ltr; cbn; lia.
Qed.

Lemma exchanged_none len ltr l r (m : gmap Z peer) ip : is_Some (m !! l) -> is_Some (m !! r) -> m !! ip = None ->
  exchanged len ltr l r m !! ip = None /\ ~ (ip = l \/ ip = r).
Proof.
  intros [pl Hl] [pr Hr] H. assert (~ (ip = l \/ ip = r)) as Hn by (intros [-> | ->]; congruence).
  split; [| exact Hn]. unfold exchanged. by rewrite !lookup_alter_ne by (intros ->; tauto).
Qed.

Lemma exchanged_some len ltr l r (m : gmap Z peer) ip : is_Some (exchanged len ltr l r m !! ip) <-> is_Some (m !! ip).
Proof. rewrite <- !elem_of_dom. unfold exchanged. by rewrite !dom_alter_L. Qed.

Lemma tally_views p c t : views t -> ft_convs t !! slot (pk_key p) = Some c -> views (tally p c t).
Proof.
  intros [Ve Vt Vc Vs Vp (V1 & V2 & V3)] Hc. destruct (Ve _ _ Hc) as (Hne & Hl & Hr).
  assert (ft_peers (tally p c t) = exchanged (pk_len p) (pk_ltr p) (conv_left c) (conv_right c) (ft_peers t)) as HP by reflexivity.
  split; unfold peer_of, service_of; rewrite ?HP; cbn [tally ft_convs ft_services ft_flows].
  - intros b c' Hb. rewrite !exchanged_some. apply lookup_insert_Some in Hb as [[<- <-] | [_ Hb]]; [by split | by apply (Ve b)].
  - rewrite list_lookup_alter_ne by (pose proof (conv_class_small (cv_key c)); unfold FLOW_TYPE_TOTAL in *; lia).
    rewrite list_lookup_alter_eq, Vt. cbn. by rewrite (counted_convs cv_packets t _ c (pk_len p) 1 Hc), (counted_convs cv_bytes t _ c (pk_len p) (pk_len p) Hc).
  - intros i Hi. rewrite (flow_rows _ _ _ _ _ _ _ (Vc i Hi)) by (unfold FLOW_TYPE_TOTAL in *; lia).
    pose proof (conv_class_small (cv_key c)) as Hs. destruct (decide (conv_class (cv_key c) = i)) as [E | E].
    + rewrite decide_True by congruence. rewrite (counted_convs _ t _ c (pk_len p) 1 Hc), (counted_convs _ t _ c (pk_len p) (pk_len p) Hc); [done | |];
        unfold of_class; cbn; rewrite (proj2 (Z.eqb_eq _ _) E); lia.
    + rewrite decide_False by (unfold FLOW_TYPE_TOTAL in *; lia).
      rewrite (counted_convs _ t _ c (pk_len p) 0 Hc), (counted_convs _ t _ c (pk_len p) 0 Hc), !Z.add_0_r; [done | |];
        unfold of_class; cbn; rewrite (proj2 (Z.eqb_neq _ _) E); lia.
  - intros i. rewrite served. destruct (Vs i) as [S1 S2]. unfold service_of in S1, S2. case_bool_decide as E.
    + cbn [count_service srv_packets srv_bytes]. rewrite S1, S2. rewrite (counted_convs _ t _ c (pk_len p) 1 Hc), (counted_convs _ t _ c (pk_len p) (pk_len p) Hc); [done | |];
        unfold of_service; cbn; rewrite bool_decide_eq_true_2 by exact E; lia.
    + rewrite S1, S2. rewrite (counted_convs _ t _ c (pk_len p) 0 Hc), (counted_convs _ t _ c (pk_len p) 0 Hc), !Z.add_0_r; [done | |];
        unfold of_service; cbn; rewrite bool_decide_eq_false_2 by exact E; lia.
  - intros ip. destruct (Vp ip) as [P1 P2]. unfold peer_of in P1, P2.
    rewrite (counted_convs (of_peer ip cv_packets) t _ c (pk_len p) (if bool_decide (ip = conv_left c \/ ip = conv_right c) then 1 else 0) Hc),
      (counted_convs (of_peer ip (fun _ => 1)) t _ c (pk_len p) 0 Hc), <- P1, <- P2
      by (unfold of_peer, conv_left, conv_right; cbn; case_bool_decide; lia).
    destruct (ft_peers t !! ip) as [q |] eqn:Hq.
    + destruct (exchanged_peer (pk_len p) (pk_ltr p) _ _ _ _ _ Hne Hq) as (q' & -> & Q1 & Q2). cbn. lia.
    + destruct (exchanged_none (pk_len p) (pk_ltr p) _ _ _ _ Hl Hr Hq) as [-> Hn]. rewrite bool_decide_eq_false_2 by exact Hn. cbn. lia.
  - destruct Hl as [pl Hl], Hr as [pr Hr]. rewrite !(exchanged_sum _ _ _ _ _ _ _ _ Hne Hl Hr), V1, V2, V3.
    rewrite (counted_convs cv_packets t _ c (pk_len p) 1 Hc), (counted_convs cv_bytes t _ c (pk_len p) (pk_len p) Hc) by done.
    destruct (pk_ltr p); cbn; lia.
Qed.

(** A conversation of no packets yet. *)
Lemma entered_convs f t b c : ft_convs t !! b = None -> msum f (<[b := c]> (ft_convs t)) = msum f (ft_convs t) + f c.
Proof. apply msum_new. Qed.

Lemma enrols_peer ip l (m : gmap Z peer) :
  default new_peer (enrols l m !! ip) = (if decide (ip = l) then enrol else id) (default new_peer (m !! ip)).
Proof. unfold enrols. case_decide as E; [subst; by rewrite lookup_insert_eq | by rewrite lookup_insert_ne by congruence]. Qed.

Lemma enrols_some ip l (m : gmap Z peer) : is_Some (m !! ip) \/ ip = l -> is_Some (enrols l m !! ip).
Proof. unfold enrols. destruct (decide (ip = l)) as [-> |]; [rewrite lookup_insert_eq; by eexists |]. rewrite lookup_insert_ne by congruence. naive_solver. Qed.

(** Enrolling changes no count of packets or bytes. *)
Lemma enrols_sum f l (m : gmap Z peer) : f new_peer = 0 -> (forall q, f (enrol q) = f q) -> msum f (enrols l m) = msum f m.
Proof.
  intros H0 H. unfold enrols. rewrite msum_insert, H. destruct (m !! l); cbn; lia.
Qed.

Lemma enter_views p t : views t -> ft_convs t !! slot (pk_key p) = None ->
  net_stream4_left (pk_key p) <> net_stream4_right (pk_key p) -> views (enter p t).
Proof.
  intros [Ve Vt Vc Vs Vp (V1 & V2 & V3)] Hn Hne.
  split; unfold peer_of, service_of; cbn [enter ft_convs ft_peers ft_services ft_flows].
  - intros b c' Hb. apply lookup_insert_Some in Hb as [[<- <-] | [_ Hb]]; unfold conv_left, conv_right in *; cbn [cv_key].
    + split; [exact Hne |]. split; apply enrols_some; [left; apply enrols_some |]; by right.
    + destruct (Ve b c' Hb) as (E1 & E2 & E3). split; [exact E1 |]. split; apply enrols_some; left; apply enrols_some; by left.
  - by rewrite !entered_convs, !Z.add_0_r by done.
  - intros i Hi. rewrite !entered_convs by done. unfold of_class at 2 4. cbn. destruct (_ =? i); rewrite !Z.add_0_r; by apply Vc.
  - intros i. rewrite !entered_convs by done. unfold of_service at 2 4. cbn. case_bool_decide; rewrite !Z.add_0_r; by apply Vs.
  - intros ip. rewrite !entered_convs by done. destruct (Vp ip) as [P1 P2]. unfold peer_of in P1, P2. rewrite <- P1, <- P2.
    rewrite !enrols_peer. unfold of_peer, conv_left, conv_right. cbn [cv_key cv_packets].
    destruct (decide (ip = net_stream4_right (pk_key p))), (decide (ip = net_stream4_left (pk_key p))); [congruence | | |].
    + rewrite bool_decide_eq_true_2 by (by right). cbn. lia.
    + rewrite bool_decide_eq_true_2 by (by left). cbn. lia.
    + rewrite bool_decide_eq_false_2 by tauto. cbn. lia.
  - rewrite !entered_convs by done. rewrite !enrols_sum by done. cbn. lia.
Qed.

(** The packets that count, and their length. *)
Definition heard_count (l : list packet) : Z := count (List.filter pk_heard l).
Definition heard_len (l : list packet) : Z := total_len (List.filter pk_heard l).

Lemma book_views p t : views t -> entered_ok p t -> views (book p t).
Proof.
  intros H [_ Henter _]. unfold book. destruct (pk_heard p); [| done]. destruct (ft_convs t !! slot (pk_key p)) as [c |] eqn:Hc.
  - rewrite Hc. by apply tally_views.
  - destruct (Henter eq_refl eq_refl) as (Hne & _). cbn [enter ft_convs]. rewrite lookup_insert_eq.
    apply tally_views; [by apply enter_views | apply lookup_insert_eq].
Qed.

(** The row of all packets. *)
Definition total_row (t : flow_table) : option (Z * Z) := ft_flows t !! Z.to_nat FLOW_TYPE_TOTAL.

Lemma tally_total p c t : total_row (tally p c t) = count_flow (pk_len p) <$> total_row t.
Proof.
  unfold total_row. cbn [tally ft_flows]. pose proof (conv_class_small (cv_key c)).
  rewrite list_lookup_alter_ne by (unfold FLOW_TYPE_TOTAL in *; lia). apply list_lookup_alter_eq.
Qed.

Lemma book_total p t : total_row (book p t) = (if pk_heard p then count_flow (pk_len p) else id) <$> total_row t.
Proof.
  unfold book. destruct (pk_heard p); [| by destruct (total_row t)]. destruct (ft_convs t !! slot (pk_key p)) as [c |] eqn:Hc.
  - rewrite Hc. apply tally_total.
  - cbn [enter ft_convs]. rewrite lookup_insert_eq. apply (tally_total p _ (enter p t)).
Qed.

Lemma book_all_total l : forall t x y, total_row t = Some (x, y) -> total_row (book_all l t) = Some (x + heard_count l, y + heard_len l).
Proof.
  unfold heard_count, heard_len. induction l as [| p l IH]; intros t x y H; [cbn; by rewrite H, !Z.add_0_r |].
  cbn [book_all foldl]. change (foldl _ _ _) with (book_all l (book p t)). pose proof (book_total p t) as Hb. rewrite H in Hb. cbn [List.filter].
  destruct (pk_heard p); cbn [fmap option_fmap option_map] in Hb; rewrite (IH _ _ _ Hb); [| done].
  unfold count in *. cbn [length count_flow fst snd total_len foldr]. fold (total_len (List.filter pk_heard l)). do 2 f_equal; lia.
Qed.

Lemma book_all_views k l : forall used t, views t -> bookable_all k used l t -> views (book_all l t).
Proof.
  induction l as [| p l IH]; intros used t H Hl; [done |]. destruct Hl as (_ & Hb & Hl). exact (IH _ _ (book_views p t H (bookable_entered p t Hb)) Hl).
Qed.

(** ** What a conversation counts *)

(** The packets of a bucket. *)
Definition in_slot (b : Z) (p : packet) : bool := pk_heard p && (slot (pk_key p) =? b).
Definition slot_count (l : list packet) (b : Z) : Z := count (List.filter (in_slot b) l).
Definition slot_len (l : list packet) (b : Z) : Z := total_len (List.filter (in_slot b) l).

Definition packets_in (t : flow_table) (b : Z) : Z := from_option cv_packets 0 (ft_convs t !! b).
Definition bytes_in (t : flow_table) (b : Z) : Z := from_option cv_bytes 0 (ft_convs t !! b).

Lemma book_conv p t b : ft_convs (book p t) !! b =
  if in_slot b p then Some (count_conv (pk_len p) (default (new_conv p t) (ft_convs t !! b))) else ft_convs t !! b.
Proof.
  unfold book, in_slot. destruct (pk_heard p); cbn [andb]; [| done]. destruct (ft_convs t !! slot (pk_key p)) as [c |] eqn:Hc.
  - rewrite Hc. cbn [tally ft_convs]. destruct (Z.eqb_spec (slot (pk_key p)) b) as [<- |];
      [by rewrite lookup_insert_eq, Hc | by rewrite lookup_insert_ne].
  - cbn [enter ft_convs]. rewrite lookup_insert_eq. cbn [tally enter ft_convs]. destruct (Z.eqb_spec (slot (pk_key p)) b) as [<- |];
      [by rewrite lookup_insert_eq, Hc | by rewrite !lookup_insert_ne].
Qed.

(** What a run adds to the conversation of a bucket, and that its key and its start stay. *)
Record conv_grew (l : list packet) (b : Z) (o o' : option conv) : Prop := {
  cg_packets : from_option cv_packets 0 o' = from_option cv_packets 0 o + slot_count l b;
  cg_bytes : from_option cv_bytes 0 o' = from_option cv_bytes 0 o + slot_len l b;
  cg_known : forall c, o = Some c -> exists c', o' = Some c' /\ cv_key c' = cv_key c /\ cv_start c' = cv_start c /\ cv_id c' = cv_id c;
  cg_new : o = None -> o' = None <-> slot_count l b = 0
}.

Lemma slot_cons p l b :
  slot_count (p :: l) b = (if in_slot b p then 1 else 0) + slot_count l b /\
  slot_len (p :: l) b = (if in_slot b p then pk_len p else 0) + slot_len l b.
Proof.
  unfold slot_count, slot_len, count. cbn [List.filter]. destruct (in_slot b p); [| done].
  cbn [length total_len foldr]. fold (total_len (List.filter (in_slot b) l)). lia.
Qed.

Lemma slot_count_pos l b : 0 <= slot_count l b.
Proof. unfold slot_count, count. lia. Qed.

Lemma book_all_conv l b : forall t, conv_grew l b (ft_convs t !! b) (ft_convs (book_all l t) !! b).
Proof.
  induction l as [| p l IH]; intros t.
  { change (book_all [] t) with t. split; change (slot_count [] b) with 0; change (slot_len [] b) with 0; [lia | lia | eauto | by intros ->]. }
  change (book_all (p :: l) t) with (book_all l (book p t)). destruct (IH (book p t)) as [H1 H2 H3 H4].
  rewrite book_conv in H1, H2, H3, H4. destruct (slot_cons p l b) as [S1 S2]. pose proof (slot_count_pos l b) as Hpos.
  split; rewrite ?S1, ?S2; destruct (in_slot b p); try done;
    destruct (ft_convs t !! b) as [c |] eqn:Hc; cbn [default from_option count_conv new_conv cv_packets cv_bytes cv_key cv_start cv_id id] in *; try lia.
  - intros c0 [= <-]. destruct (H3 _ eq_refl) as (c' & E1 & E2 & E3 & E4). by exists c'.
  - done.
  - done.
  - intros _. destruct (H3 _ eq_refl) as (c' & E1 & _). rewrite E1. split; [done | lia].
Qed.

Lemma book_all_some l t b : is_Some (ft_convs t !! b) -> is_Some (ft_convs (book_all l t) !! b).
Proof. intros [c Hc]. destruct (cg_known _ _ _ _ (book_all_conv l b t) c Hc) as (c' & Hc' & _). by eexists. Qed.

Lemma book_all_app l l' t : book_all (l ++ l') t = book_all l' (book_all l t).
Proof. apply foldl_app. Qed.

Lemma bookable_app k l l' : forall used t, bookable_all k used (l ++ l') t <->
  bookable_all k used l t /\ bookable_all k (foldl (fun u p => used_after (pk_env p) u) used l) l' (book_all l t).
Proof.
  induction l as [| p l IH]; intros used t; [cbn; tauto |]. cbn [app bookable_all]. rewrite IH. cbn [foldl book_all]. tauto.
Qed.

(** ** What a service counts *)

(** The packets that are counted on a service: those of the conversations it is the
    service of. *)
Definition conv_of (p : packet) (t : flow_table) : conv := default (new_conv p t) (ft_convs t !! slot (pk_key p)).
Definition serves (p : packet) (t : flow_table) (i : Z) : bool :=
  pk_heard p && bool_decide (conv_service (cv_key (conv_of p t)) = Some i).

Fixpoint serv_count (l : list packet) (t : flow_table) (i : Z) : Z :=
  match l with [] => 0 | p :: l => (if serves p t i then 1 else 0) + serv_count l (book p t) i end.
Fixpoint serv_len (l : list packet) (t : flow_table) (i : Z) : Z :=
  match l with [] => 0 | p :: l => (if serves p t i then pk_len p else 0) + serv_len l (book p t) i end.

Lemma book_service p t i :
  srv_packets (service_of (book p t) i) = srv_packets (service_of t i) + (if serves p t i then 1 else 0) /\
  srv_bytes (service_of (book p t) i) = srv_bytes (service_of t i) + (if serves p t i then pk_len p else 0).
Proof.
  assert (forall c t', ft_services t' = ft_services t ->
    srv_packets (service_of (tally p c t') i) = srv_packets (service_of t i) + (if bool_decide (conv_service (cv_key c) = Some i) then 1 else 0) /\
    srv_bytes (service_of (tally p c t') i) = srv_bytes (service_of t i) + (if bool_decide (conv_service (cv_key c) = Some i) then pk_len p else 0)) as Htally.
  { intros c t' E. unfold service_of. cbn [tally ft_services]. rewrite E, served. case_bool_decide; cbn [count_service srv_packets srv_bytes]; lia. }
  unfold book, serves, conv_of. destruct (pk_heard p); cbn [andb]; [| lia]. destruct (ft_convs t !! slot (pk_key p)) as [c |] eqn:Hc.
  - rewrite Hc. by apply Htally.
  - cbn [enter ft_convs]. rewrite lookup_insert_eq. exact (Htally (new_conv p t) (enter p t) eq_refl).
Qed.

Lemma book_all_service l i : forall t,
  srv_packets (service_of (book_all l t) i) = srv_packets (service_of t i) + serv_count l t i /\
  srv_bytes (service_of (book_all l t) i) = srv_bytes (service_of t i) + serv_len l t i.
Proof.
  induction l as [| p l IH]; intros t; [change (book_all [] t) with t; cbn [serv_count serv_len]; lia |].
  change (book_all (p :: l) t) with (book_all l (book p t)). cbn [serv_count serv_len].
  destruct (IH (book p t)) as [-> ->], (book_service p t i) as [-> ->]. lia.
Qed.

(** A service has no more than all packets that are heard. *)
Lemma serv_bounds l i : Forall (fun p => 0 <= pk_len p) l -> forall t,
  0 <= serv_count l t i <= count (List.filter pk_heard l) /\ 0 <= serv_len l t i <= total_len (List.filter pk_heard l).
Proof.
  induction 1 as [| p l Hp H IH]; intros t; [unfold count; cbn; lia |]. cbn [serv_count serv_len List.filter]. specialize (IH (book p t)).
  unfold serves, count in *. destruct (pk_heard p); cbn [andb length total_len foldr]; [| lia].
  fold (total_len (List.filter pk_heard l)). case_bool_decide; lia.
Qed.

Lemma serv_none l i : forall t, serv_count l t i = 0 -> serv_len l t i = 0.
Proof.
  induction l as [| p l IH]; intros t; [done |]. cbn [serv_count serv_len].
  assert (forall l t, 0 <= serv_count l t i) as Hpos by (clear; induction l as [| p l IH]; intros t; cbn [serv_count]; [done | specialize (IH (book p t)); destruct (serves p t i); lia]).
  pose proof (Hpos l (book p t)). destruct (serves p t i); [lia |]. intros E. rewrite IH by lia. done.
Qed.
