(* ===== verification/Bookkeeping.v ===== *)
(** The capture process keeps the books of [FlowTable]: a simulation of the abstract
    table by the packet handler, for any interleaving of conversations. *)
From S2P Require Import Prelude Structs MgArray IpUtils StreamKey Float32 HashTable StatProc Packet Cleanup ShmData Capture Lifecycle Conversation Flows StreamIds FlowTable.
From stdpp Require Import list gmap.
#[local] Open Scope Z_scope.

(** ** The relation *)

(** The stream table: a bucket holds the one pair of its conversation, with the
    handler's key object; [idx] is the entry of the conversation's stream. *)
Record tbl_agrees (k : ptr) (idx : Z -> Z) (m : gmap Z conv) (s : shm_t) : Prop := {
  ta_shape : stream_tbl_shape s;
  ta_cap : numOfBuckets (ht_streams s) = SLOTS /\ idealRatio (ht_streams s) = f32_three /\
    upperRehashThreshold (ht_streams s) = f32_fifteen;
  ta_count : numOfElements (ht_streams s) = Z.of_nat (size m);
  ta_chain : forall b, 0 <= b < SLOTS -> bucketArray (ht_streams s) !! Z.to_nat b =
    Some (match m !! b with Some _ => [mk_KeyValuePair k (idx b)] | None => [] end)
}.

(** The entry of a conversation's stream, given the dictionary of addresses. *)
Record conv_entry (D : gmap addr_key_t Z) (c : conv) (e : stream_info_t) : Prop := {
  ce_key : key_wf (cv_key c) /\ conv_left c <> conv_right c /\ tv_sec (cv_start c) <> 0;
  ce_left : D !! addr_key_init_v4 (conv_left c) = Some (si_idx_left e);
  ce_right : D !! addr_key_init_v4 (conv_right c) = Some (si_idx_right e);
  ce_ports : si_lport e = sk_lport (sk_v4 (cv_key c)) /\ si_rport e = sk_rport (sk_v4 (cv_key c)) /\
    si_ipproto e = sk_ipproto (sk_v4 (cv_key c)) /\ si_tstart e = cv_start c;
  ce_class : flow_class e = conv_class (cv_key c);
  ce_packets : 1 <= cv_packets c < 4294967296 /\ si_packets e = cv_packets c;
  ce_bytes : si_bytes e = u32 (cv_bytes c);
  ce_iid : si_iid e = cv_id c
}.

Record convs_agree (idx : Z -> Z) (m : gmap Z conv) (s : shm_t) : Prop := {
  ca_entry : forall b c, m !! b = Some c -> 0 <= b < SLOTS /\ exists e, stream_at s (idx b) e /\ conv_entry (addr_dict s) c e;
  ca_inj : forall b b' c c', m !! b = Some c -> m !! b' = Some c' -> idx b = idx b' -> b = b';
  ca_live : forall j e, stream_at s j e -> tv_sec (si_tstart e) <> 0 -> exists b c, m !! b = Some c /\ idx b = j
}.

(** The entry of an address; [rxbytes] is not reset when an entry is used again. *)
Record peer_entry (ip : Z) (p : peer) (a : addr_info_t) : Prop := {
  pe_addr : ai_addr_offset a = ip /\ ai_internal a = (if is_lan ip then 1 else 0);
  pe_tx : ai_txpackets a = u32 (pr_tx_packets p) /\ ai_txbytes a = u32 (pr_tx_bytes p);
  pe_rx : ai_rxpackets a = u32 (pr_rx_packets p);
  pe_streams : ai_nstreams a = u16 (pr_streams p) /\ ai_nstreams_active a = u16 (pr_streams p);
  pe_v4 : ai_isv6 a = 0
}.

Definition peers_agree (m : gmap Z peer) (s : shm_t) : Prop :=
  forall ip, is_u32 ip -> match m !! ip with
  | Some p => exists i a, addr_dict s !! addr_key_init_v4 ip = Some i /\ addr_at s i a /\ peer_entry ip p a
  | None => addr_dict s !! addr_key_init_v4 ip = None
  end.

Definition flow_row (f : Z * Z) : flow_stats_t := mk_flow_stats_t (u32 (fst f)) (u32 (snd f)).

Definition service_row (v : service) : proto_info_t :=
  mk_proto_info_t (u32 (srv_packets v)) (u32 (srv_bytes v)) (u32 (srv_up_packets v)) (u32 (srv_up_bytes v)).

Definition services_agree (m : gmap Z service) (protos : list proto_info_t) : Prop :=
  forall i, 0 <= i < SI_NUM_PROTOS -> aget protos i = Val (service_row (default new_service (m !! i))).

(** The shared block and the static variables against the abstract table. *)
Record agrees (k : ptr) (used : gset ptr) (idx : Z -> Z) (t : flow_table) (s : shm_t) : Prop := {
  ag_inv : shm_inv s;
  ag_tbl : tbl_agrees k idx (ft_convs t) s;
  ag_convs : convs_agree idx (ft_convs t) s;
  ag_peers : peers_agree (ft_peers t) s;
  ag_live : dict_live s;
  ag_size : size (addr_dict s) = size (ft_peers t);
  ag_str : sh_stream_indexes (g_shm s) = fill_info streams_mga (Z.of_nat (size (ft_convs t)));
  ag_sides : forall lan, side_idx lan s = fill_info (side_mga lan) (peers_of lan t);
  ag_fresh : forall p, p ∉ used -> fresh_key p s;
  ag_flows : sh_flow_stats (g_shm s) = flow_row <$> ft_flows t;
  ag_services : services_agree (ft_services t) (sh_protos (g_shm s));
  ag_count : gStreamCount s = Z.of_nat (size (ft_convs t));
  ag_placed : forall ip i, is_u32 ip -> addr_dict s !! addr_key_init_v4 ip = Some i -> addr_side i = is_lan ip
}.

(** ** Counters *)

Lemma u16_add x n : u16 (u16 x + n) = u16 (x + n).
Proof. unfold u16. by rewrite Zplus_mod_idemp_l. Qed.

Lemma peer_sends ip len p a : peer_entry ip p a -> peer_entry ip (sends len p) (inc_addr_tx len a).
Proof. intros [H1 [H2 H2'] H3 H4 H6]. split; try done. cbn. by rewrite H2, H2', !u32_u32_add_l. Qed.

Lemma peer_receives ip len p a : peer_entry ip p a -> peer_entry ip (receives p) (inc_addr_rx len a).
Proof. intros [H1 H2 H3 H4 H6]. split; try done. cbn. by rewrite H3, u32_u32_add_l. Qed.

Lemma peer_joins ip p a : peer_entry ip p a -> peer_entry ip (enrol p) (start_stream true a).
Proof. intros [H1 H2 H3 [H4 H5] H6]. split; try done. cbn. by rewrite H4, H5, !u16_add. Qed.

Lemma peer_new ip ts a : fresh_end ip ts a -> peer_entry ip new_peer a.
Proof. intros (F1 & F2 & F3 & F4 & F5 & F6 & F7 & F8 & F9). by split. Qed.

(** A packet on the counters of its two ends. *)
Definition send_of (p : packet) (ltr : bool) : peer -> peer :=
  if Bool.eqb (pk_ltr p) ltr then sends (pk_len p) else receives.

Lemma ends_counted p lip rip pl pr al ar al' ar' :
  peer_entry lip pl al -> peer_entry rip pr ar ->
  end_counters (packet_dir (pk_buf p)) (pk_len p) al ar = (al', ar') ->
  peer_entry lip (send_of p true pl) al' /\ peer_entry rip (send_of p false pr) ar'.
Proof.
  intros Hl Hr. unfold send_of, pk_ltr. destruct (packet_dir (pk_buf p)); cbn; intros [= <- <-];
    split; (by apply peer_sends) || (by apply peer_receives).
Qed.

Lemma flow_counted len (i : nat) (l : list (Z * Z)) : alter (add_flow len) i (flow_row <$> l) = flow_row <$> alter (count_flow len) i l.
Proof.
  symmetry. apply list_fmap_alter, list.Forall_forall. intros [x y] _. unfold flow_row, add_flow, count_flow. cbn.
  by rewrite !u32_u32_add_l.
Qed.

Lemma service_counted dir len v : dir <> DIR_NONE ->
  inc_proto dir len (service_row v) = service_row (count_service (negb (bool_decide (dir = LEFT_TO_RIGHT))) len v).
Proof. intros Hd. unfold inc_proto, service_row, count_service. destruct dir; cbn; by rewrite !u32_u32_add_l. Qed.

Lemma packet_dir_either buf : packet_dir buf <> DIR_NONE.
Proof. unfold packet_dir. by destruct (negb _). Qed.

Lemma service_range r q i : is_u16 r -> shm_get_protocol q r = Some i -> 0 <= i < SI_NUM_PROTOS.
Proof.
  unfold shm_get_protocol, SI_NUM_PROTOS, SI_NUM_TCP_PROTOS, is_u16 in *. intros Hr.
  destruct (Z.leb_spec 9110 r); [done |]. intros [= <-]. destruct (_ =? _); [| lia]. rewrite u16_small by (unfold is_u16; lia). lia.
Qed.

Lemma services_step p key m protos : is_u16 (sk_rport (sk_v4 key)) -> services_agree m protos ->
  services_agree (serve (negb (pk_ltr p)) (pk_len p) (conv_service key) m)
    (match conv_service key with
     | None => protos
     | Some i => alter (inc_proto (packet_dir (pk_buf p)) (pk_len p)) (Z.to_nat i) protos
     end).
Proof.
  intros Hr H. unfold conv_service. destruct (shm_get_protocol _ _) as [i |] eqn:E; [| done].
  pose proof (service_range _ _ _ Hr E) as Hi. intros j Hj. cbn [serve]. destruct (decide (i = j)) as [<- | Hne].
  - rewrite lookup_insert_eq. cbn [default id]. rewrite (aget_alter_eq _ _ _ _ (H i Hi)).
    by rewrite service_counted by apply packet_dir_either.
  - rewrite lookup_insert_ne, aget_alter_ne by (done || lia). by apply H.
Qed.

(** ** The stream table *)

Lemma slot_range key : 0 <= slot key < SLOTS.
Proof. apply Z.mod_pos_bound. reflexivity. Qed.

(** There are no more conversations than buckets. *)
Lemma slots_bound {A} (m : gmap Z A) : (forall b x, m !! b = Some x -> 0 <= b < SLOTS) -> Z.of_nat (size m) <= SLOTS.
Proof.
  intros H. assert (dom m ⊆ list_to_set (C := gset Z) (seqZ 0 SLOTS)) as Hs.
  { intros b [x Hb]%elem_of_dom. apply elem_of_list_to_set, elem_of_seqZ. apply H in Hb. lia. }
  apply subseteq_size in Hs. rewrite size_dom in Hs. rewrite size_list_to_set in Hs by apply NoDup_seqZ.
  rewrite length_seqZ in Hs. change SLOTS with 6553 in *. lia.
Qed.

(** A load of at most one pair for each bucket never makes the table grow. *)
Lemma load_small n : 0 <= n <= SLOTS -> f32_lt f32_fifteen (f32_div (f32_of_int n) (f32_of_int SLOTS)) = false.
Proof.
  intros Hn. apply negb_true_iff.
  apply (forallb_below (fun n => negb (f32_lt f32_fifteen (f32_div (f32_of_int n) (f32_of_int SLOTS)))) (SLOTS + 1)); [| lia].
  vm_compute. reflexivity.
Qed.

(** The table with the pair of a new conversation. *)
Definition entered (k : ptr) (b : Z) (ht : HashTable keymem Z) (i : Z) : HashTable keymem Z :=
  set_buckets SLOTS (numOfElements ht + 1) (<[Z.to_nat b := [mk_KeyValuePair k i]]> (bucketArray ht)) ht.

Lemma entered_put k key idx m s okr i :
  tbl_agrees k idx m s -> (forall b c, m !! b = Some c -> 0 <= b < SLOTS) -> m !! slot key = None -> k <> NULL ->
  let s0 := store_stream_key k key s in
  HashTablePut true okr (g_mem s0) (ht_streams s0) k (Some i) = Val (0, entered k (slot key) (ht_streams s) i, g_mem s0).
Proof.
  intros [[_ Hl Hc Hh] (Hn & Hr & Hu) Hnum Hch] Hm Hnone Hk. cbv zeta. set (s0 := store_stream_key k key s).
  change (ht_streams s0) with (ht_streams s). unfold HashTablePut. rewrite (proj2 (Z.eqb_neq _ _) Hk). cbn [negb c_assert].
  assert (bucket_index (g_mem s0) (ht_streams s) k = slot key) as ->.
  { unfold bucket_index. rewrite Hh, Hn. unfold stream_hash, slot. by replace (km_stream (g_mem s0) k) with key by (symmetry; apply fn_lookup_insert). }
  pose proof (slot_range key) as Hb. pose proof (Hch _ Hb) as Hg. rewrite Hnone in Hg.
  assert (Z.of_nat (length (bucketArray (ht_streams s))) = SLOTS) as Hlen by congruence.
  assert (aget (bucketArray (ht_streams s)) (slot key) = Val []) as -> by (apply aget_Val; split; [lia | exact Hg]).
  rewrite bind_Val. cbn [find_pair negb]. rewrite aset_lt, bind_Val by lia.
  assert (Z.of_nat (size m) + 1 <= SLOTS) as Hsz.
  { pose proof (slots_bound (<[slot key := mk_conv key zero_tval 0 0 0]> m)) as H. rewrite map_size_insert_None in H by exact Hnone.
    enough (Z.of_nat (S (size m)) <= SLOTS) by lia. apply H. intros b x [[<- _] | [_ ?]]%lookup_insert_Some; [exact Hb | by eapply Hm]. }
  rewrite u32_small by (change SLOTS with 6553 in *; unfold is_u32; lia). unfold load_ratio. cbn [numOfElements numOfBuckets set_buckets].
  change (upperRehashThreshold (set_buckets _ _ _ _)) with (upperRehashThreshold (ht_streams s)).
  rewrite Hn, Hu, Hnum, load_small, andb_false_r by lia. unfold entered. by rewrite Hnum.
Qed.

(** What the handler finds: the entry of the conversation of the key's bucket. *)
Lemma agrees_shared k idx m s : tbl_agrees k idx m s -> shared_key k s.
Proof.
  intros [[_ Hl _ _] (Hn & _) _ Hch]. unfold shared_key. apply list.Forall_forall. intros q (j & l & Hj & Hq)%elem_of_chain.
  pose proof (lookup_lt_Some _ _ _ Hj) as Hlt. specialize (Hch (Z.of_nat j)). rewrite Nat2Z.id, Hj in Hch.
  injection (Hch ltac:(lia)) as ->. destruct (m !! Z.of_nat j); [by apply list_elem_of_singleton in Hq as -> | by apply not_elem_of_nil in Hq].
Qed.

Lemma agrees_lookup k idx m s key : tbl_agrees k idx m s ->
  shm_stream_lookup k (store_stream_key k key s) = Val (match m !! slot key with Some _ => Some (idx (slot key)) | None => None end).
Proof.
  intros H. rewrite (shared_lookup k key s (agrees_shared _ _ _ _ H) (ta_shape _ _ _ _ H)). f_equal. unfold stream_chain.
  destruct (ta_cap _ _ _ _ H) as (-> & _). fold (slot key).
  rewrite (list_lookup_total_correct _ _ _ (ta_chain _ _ _ _ H _ (slot_range key))). by destruct (m !! slot key).
Qed.

(** The table when the conversation of bucket [b] is entered. *)
Lemma tbl_entered k idx m s s' b c ss :
  tbl_agrees k idx m s -> m !! b = None -> 0 <= b < SLOTS -> ht_streams s' = entered k b (ht_streams s) ss ->
  tbl_agrees k (<[b := ss]> idx) (<[b := c]> m) s'.
Proof.
  intros [[Hp Hl Hc Hh] (Hn & Hr & Hu) Hnum Hch] Hnone Hb He. split; rewrite ?He; cbn [entered set_buckets numOfBuckets numOfElements bucketArray].
  - split; rewrite He; cbn [entered set_buckets numOfBuckets bucketArray]; [reflexivity | rewrite length_insert; lia | exact Hc | exact Hh].
  - by split.
  - rewrite map_size_insert_None by exact Hnone. lia.
  - intros b' Hb'. destruct (decide (b' = b)) as [-> | Hne].
    + rewrite list_lookup_insert_eq by lia. by rewrite lookup_insert_eq, fn_lookup_insert.
    + rewrite list_lookup_insert_ne, lookup_insert_ne, fn_lookup_insert_ne by (congruence || lia). by apply Hch.
Qed.

Lemma tbl_same k idx m s s' b c c0 :
  tbl_agrees k idx m s -> m !! b = Some c0 -> ht_streams s' = ht_streams s -> tbl_agrees k idx (<[b := c]> m) s'.
Proof.
  intros [[Hp Hl Hc Hh] Hcap Hnum Hch] Hb He. split; rewrite ?He; [by split; rewrite He | exact Hcap | |].
  - by rewrite map_size_insert_Some by (by eexists).
  - intros b' Hb'. rewrite (Hch b' Hb'). f_equal. destruct (decide (b' = b)) as [-> | Hne].
    + by rewrite lookup_insert_eq, Hb.
    + by rewrite lookup_insert_ne by done.
Qed.

(** ** The conversations and the peers *)

Lemma convs_step idx idx' m s s' b c e :
  convs_agree idx m s -> shm_inv s -> shm_inv s' -> 0 <= b < SLOTS ->
  (forall b', b' <> b -> idx' b' = idx b') -> (forall c, m !! b = Some c -> idx' b = idx b) ->
  stream_at s' (idx' b) e -> conv_entry (addr_dict s') c e ->
  (forall j e, j <> idx' b -> stream_at s j e -> stream_at s' j e) ->
  (forall b' c, m !! b' = Some c -> b' <> b -> idx b' <> idx' b) ->
  (forall ip i, addr_dict s !! addr_key_init_v4 ip = Some i -> addr_dict s' !! addr_key_init_v4 ip = Some i) ->
  convs_agree idx' (<[b := c]> m) s'.
Proof.
  intros [He Hi Hl] Hs Hs' Hb Hidx Hidx' Hat Hc Hothers Hne Hd. split.
  - intros b' c' [[<- <-] | [Hn Hb']]%lookup_insert_Some; [by eauto |].
    destruct (He b' c' Hb') as (Hr & e' & Hat' & [C1 C2 C3 C4 C5 C6 C7]). split; [exact Hr |]. exists e'.
    rewrite Hidx by congruence. split; [| split; try assumption; by apply Hd].
    apply Hothers; [| exact Hat']. by eapply Hne.
  - intros b1 b2 c1 c2 [[<- <-] | [Hn1 Hb1]]%lookup_insert_Some [[<- <-] | [Hn2 Hb2]]%lookup_insert_Some; [done | | |].
    + rewrite (Hidx b2) by congruence. intros E. by destruct (Hne _ _ Hb2 ltac:(congruence)).
    + rewrite (Hidx b1) by congruence. intros E. by destruct (Hne _ _ Hb1 ltac:(congruence)).
    + rewrite (Hidx b1), (Hidx b2) by congruence. by eapply Hi.
  - intros j x Hx Hz. destruct (decide (j = idx' b)) as [-> |]; [exists b, c; by rewrite lookup_insert_eq |].
    destruct (aget_lt (sh_streams (g_shm s)) j) as [x0 Hx0];
      [apply aget_inv in Hx; rewrite (sv_streams _ Hs') in Hx; by rewrite (sv_streams _ Hs) |].
    pose proof (Hothers j x0 ltac:(done) Hx0) as Hx1. unfold stream_at in *. assert (x0 = x) as -> by congruence.
    destruct (Hl j x Hx0 Hz) as (b0 & c0 & Hb0 & <-). destruct (decide (b0 = b)) as [-> | Hn]; [by rewrite (Hidx' c0 Hb0) in * |].
    exists b0, c0. rewrite lookup_insert_ne by congruence. by rewrite Hidx.
Qed.

Lemma peers_step m m' s s' l r il ir pl pr al ar :
  peers_agree m s -> dict_live s' ->
  (forall ip, ip <> l -> ip <> r -> m' !! ip = m !! ip /\ addr_dict s' !! addr_key_init_v4 ip = addr_dict s !! addr_key_init_v4 ip) ->
  (forall j b, j <> il -> j <> ir -> addr_at s j b -> addr_at s' j b) ->
  m' !! l = Some pl -> addr_dict s' !! addr_key_init_v4 l = Some il -> addr_at s' il al -> peer_entry l pl al ->
  m' !! r = Some pr -> addr_dict s' !! addr_key_init_v4 r = Some ir -> addr_at s' ir ar -> peer_entry r pr ar ->
  peers_agree m' s'.
Proof.
  intros H [_ Hinj] Ho Ha L1 L2 L3 L4 R1 R2 R3 R4 ip Hip.
  destruct (decide (ip = l)) as [-> |]; [rewrite L1; by exists il, al |]. destruct (decide (ip = r)) as [-> |]; [rewrite R1; by exists ir, ar |].
  destruct (Ho ip) as [-> Hd]; [done .. |]. specialize (H ip Hip). destruct (m !! ip) as [p |]; [| by rewrite Hd].
  destruct H as (i & a & H1 & H2 & H3). rewrite <- Hd in H1. exists i, a. split; [exact H1 |]. split; [| exact H3].
  apply Ha; [| | exact H2]; intros ->.
  - by apply (key_ne ip l), (Hinj _ _ _ H1 L2).
  - by apply (key_ne ip r), (Hinj _ _ _ H1 R2).
Qed.

(** The dictionary after the entries of two addresses were found or made. *)
Lemma live_step s s' l r il ir al ar :
  shm_inv s -> dict_live s -> l <> r -> il <> ir ->
  addr_dict s' = <[addr_key_init_v4 r := ir]> (<[addr_key_init_v4 l := il]> (addr_dict s)) ->
  addr_at s' il al -> tv_sec (ai_tstart al) <> 0 -> addr_at s' ir ar -> tv_sec (ai_tstart ar) <> 0 ->
  (forall j b, j <> il -> j <> ir -> addr_at s j b -> addr_at s' j b) ->
  (forall ip i, ip = l /\ i = il \/ ip = r /\ i = ir ->
    addr_dict s !! addr_key_init_v4 ip = Some i \/ exists old, addr_at s i old /\ tv_sec (ai_tstart old) = 0) ->
  dict_live s'.
Proof.
  intros Hi [Hlive Hinj] Hlr Hil HD Hal Htl Har Htr Hoth Hnew.
  set (kl := addr_key_init_v4 l) in *. set (kr := addr_key_init_v4 r) in *. assert (kr <> kl) as Hk by (by apply key_ne).
  assert (forall k i, addr_dict s' !! k = Some i -> k = kl /\ i = il \/ k = kr /\ i = ir \/
    i <> il /\ i <> ir /\ addr_dict s !! k = Some i) as Hcase.
  { intros k i Hki. rewrite HD in Hki. apply lookup_insert_Some in Hki as [[<- <-] | [H1 Hki]]; [by right; left |].
    apply lookup_insert_Some in Hki as [[<- <-] | [H2 Hki]]; [by left |]. right. right.
    assert (forall ip j, ip = l /\ j = il \/ ip = r /\ j = ir -> addr_key_init_v4 ip <> k -> i <> j) as Hne.
    { intros ip j Hip Hipk ->. destruct (Hnew ip j Hip) as [Hd | (old & Hold & Hz)].
      - by apply Hipk, (Hinj _ _ _ Hd Hki).
      - by apply (Hlive _ _ _ Hki Hold). }
    split; [apply (Hne l); [by left | done] |]. split; [apply (Hne r); [by right | done] | exact Hki]. }
  split.
  - intros k i a Hki Ha. destruct (Hcase k i Hki) as [[_ ->] | [[_ ->] | (N1 & N2 & Hd)]]; [unfold addr_at in *; congruence .. |].
    pose proof (map_Forall_lookup_1 _ _ _ _ (sv_vals _ Hi) Hd) as Hb. cbn in Hb.
    destruct (aget_lt (sh_addrs (g_shm s)) i) as [b Hbi]; [rewrite (sv_addrs _ Hi); unfold SI_NUM_ADDRS in *; lia |].
    pose proof (Hoth i b N1 N2 Hbi) as Hbi'. assert (a = b) as -> by (unfold addr_at in *; congruence). by apply (Hlive k i b).
  - intros k k' i H1 H2. destruct (Hcase _ _ H1) as [[-> E1] | [[-> E1] | (N1 & N2 & D1)]],
      (Hcase _ _ H2) as [[-> E2] | [[-> E2] | (M1 & M2 & D2)]]; try done; try congruence. by apply (Hinj _ _ _ D1 D2).
Qed.

(** ** The number of peers of a side *)

Definition side_size (lan : bool) (X : gset Z) : Z := Z.of_nat (size (filter (fun ip => is_lan ip = lan) X)).

Definition is_new (ip : Z) (lan : bool) (X : gset Z) : Z := if bool_decide (ip ∈ X \/ lan <> is_lan ip) then 0 else 1.

Lemma side_size_add ip lan X : side_size lan ({[ip]} ∪ X) = side_size lan X + is_new ip lan X.
Proof.
  unfold side_size, is_new. case_bool_decide as H.
  - rewrite Z.add_0_r. do 2 f_equal. apply set_eq. intros x. rewrite !elem_of_filter. set_solver.
  - assert ((ip ∉ X) /\ lan = is_lan ip) as [H1 ->] by (split; [tauto |]; destruct (decide (lan = is_lan ip)); [done | tauto]).
    assert (filter (fun x => is_lan x = is_lan ip) ({[ip]} ∪ X) = {[ip]} ∪ filter (fun x => is_lan x = is_lan ip) X) as ->.
    { apply set_eq. intros x. rewrite elem_of_filter, !elem_of_union, elem_of_filter. set_solver. }
    rewrite size_union, size_singleton by set_solver. lia.
Qed.

Lemma is_new_range ip lan X : 0 <= is_new ip lan X <= 1.
Proof. unfold is_new. case_bool_decide; lia. Qed.

Lemma peers_agree_known m s ip : peers_agree m s -> is_u32 ip -> known ip s <-> is_Some (m !! ip).
Proof.
  intros H Hip. specialize (H ip Hip). unfold known. destruct (m !! ip) as [p |].
  - destruct H as (i & a & -> & _). by split; eexists.
  - rewrite H. by split; intros [? ?].
Qed.

Lemma side_after_fill (arr : list addr_info_t) ip s lan n m :
  peers_agree m s -> is_u32 ip -> mga_wf (side_mga lan) arr -> 0 <= n < total_entries (side_mga lan) ->
  side_after ip s lan (fill_info (side_mga lan) n) = fill_info (side_mga lan) (n + is_new ip lan (dom m)).
Proof.
  intros H Hip Hwf Hn. unfold side_after, is_new.
  assert (known ip s \/ lan <> is_lan ip <-> ip ∈ dom m \/ lan <> is_lan ip) as Hiff
    by (rewrite elem_of_dom, <- (peers_agree_known m s ip H Hip); tauto).
  rewrite (bool_decide_ext _ _ Hiff). case_bool_decide; [by rewrite Z.add_0_r |]. by apply (fill_next _ arr).
Qed.

(** ** One packet of a known conversation *)

Lemma alter_peers_other (f g : peer -> peer) l r m ip : ip <> l -> ip <> r -> alter f r (alter g l m) !! ip = (m : gmap Z peer) !! ip.
Proof. intros. by rewrite !lookup_alter_ne. Qed.

Lemma alter_peers_left (f g : peer -> peer) l r (m : gmap Z peer) p : l <> r -> m !! l = Some p -> alter f r (alter g l m) !! l = Some (g p).
Proof. intros Hne H. rewrite lookup_alter_ne by congruence. by rewrite lookup_alter_eq, H. Qed.

Lemma alter_peers_right (f g : peer -> peer) l r (m : gmap Z peer) p : l <> r -> m !! r = Some p -> alter f r (alter g l m) !! r = Some (f p).
Proof. intros Hne H. rewrite lookup_alter_eq. by rewrite lookup_alter_ne, H by congruence. Qed.

Lemma dom_alter_peers (f g : peer -> peer) l r (m : gmap Z peer) : dom (alter f r (alter g l m)) = dom m.
Proof. by rewrite !dom_alter_L. Qed.

Lemma size_alter_peers (f g : peer -> peer) l r (m : gmap Z peer) : size (alter f r (alter g l m)) = size m.
Proof. by rewrite <- !size_dom, dom_alter_peers. Qed.

Lemma peers_of_tally lan p c t : peers_of lan (tally p c t) = peers_of lan t.
Proof. unfold peers_of, tally. cbn [ft_peers]. by rewrite dom_alter_peers. Qed.

(** The peer of an address of the dictionary. *)
Lemma dict_peer m s ip i : peers_agree m s -> is_u32 ip -> addr_dict s !! addr_key_init_v4 ip = Some i ->
  exists p a, m !! ip = Some p /\ addr_at s i a /\ peer_entry ip p a.
Proof.
  intros H Hip Hd. specialize (H ip Hip). destruct (m !! ip) as [p |]; [| congruence]. destruct H as (j & a & H1 & H2 & H3).
  rewrite Hd in H1. injection H1 as <-. by exists p, a.
Qed.

(** What a packet does to the cleanup lists: the end of a connection queues the stream [i]
    and marks it, unless it was [marked] before; the other streams are as they were. *)
Record queue_step (p : packet) (i : Z) (before : bool) (s s' : shm_t) (cl cl' : cleanup_t) : Prop := {
  qs_queues : queues cl' = if final p && negb before then queue_add (tv_sec (hdr_ts (pk_hdr p))) [i] (queues cl) else queues cl;
  qs_marked : exists e, stream_at s' i e /\ marked e = before || final p;
  qs_others : forall j e, j <> i -> stream_at s j e -> stream_at s' j e;
  qs_key : km_stream (g_mem s') (pe_key (pk_env p)) = pk_key p
}.

Lemma end_counters_tstart dir len al ar al' ar' :
  end_counters dir len al ar = (al', ar') -> ai_tstart al' = ai_tstart al /\ ai_tstart ar' = ai_tstart ar.
Proof. destruct dir; intros [= <- <-]; by split. Qed.

Lemma known_step k used idx t s p cl c :
  agrees k used idx t s -> packet_ok (pk_hdr p) (pk_buf p) -> heard (pk_hdr p) (pk_buf p) -> pe_key (pk_env p) = k ->
  cleanup_inv cl -> ft_convs t !! slot (pk_key p) = Some c -> cv_packets c + 1 < 4294967296 ->
  exists s' cl', packet_step (pk_env p) (pk_hdr p) (pk_buf p) s cl = Val (true, s', cl') /\
    agrees k used idx (tally p c t) s' /\ cleanup_inv cl' /\
    exists e, stream_at s (idx (slot (pk_key p))) e /\ queue_step p (idx (slot (pk_key p))) (marked e) s s' cl cl'.
Proof.
  intros [Ai At Ac Ap Al Asz Astr Asd Afr Afl Asv Acn Apl] (Hb1 & Hb2 & Hb3) (Hacc & Hh1 & Hh2) <- Hcl Hconv Hmax.
  set (b := slot (pk_key p)) in *. destruct (ca_entry _ _ _ Ac b c Hconv) as (Hb & e & He & Hce).
  pose proof Hce as [(Hkey & Hlr & Hts) Dl Dr (P1 & P2 & P3 & P4) Hclass [Hpk Hpk'] Hbytes Hiid].
  destruct (key_addrs_u32 _ Hkey) as [Hul Hur].
  destruct (dict_peer _ _ _ _ Ap Hul Dl) as (pl & al & Hpl & Hal & Hel). destruct (dict_peer _ _ _ _ Ap Hur Dr) as (pr & ar & Hpr & Har & Her).
  assert (si_idx_left e <> si_idx_right e) as Hne by (intros E; rewrite <- E in Dr; by apply (key_ne _ _ Hlr), (dl_inj _ Al _ _ _ Dl Dr)).
  pose proof (agrees_lookup _ _ _ _ (pk_key p) At) as Hlook. fold b in Hlook. rewrite Hconv in Hlook.
  destruct (packet_known_ok (pk_env p) (pk_hdr p) (pk_buf p) s cl (idx b) e al ar Hb1 Hb2 Hb3 Hacc (conj Hh1 Hh2) Hlook Ai Hcl He Hal Har
    Hne ltac:(rewrite P2; apply Hkey) ltac:(rewrite Hclass; apply conv_class_small))
    as (s' & cl' & vlan & Hstep & _ & [C1 C2 C3 C4 [F1 F2 [F3 [F4 F5]] [F6 [F7 F8]] _ _]] & Hi' & Hcl' & Hq).
  exists s', cl'. split; [exact Hstep |]. split; [| split; [exact Hcl' | exists e; split; [exact He | split]]].
  2: { rewrite Hq, finishing_marked. reflexivity. }
  2: { eexists. split; [exact C1 |]. apply counted_marked. }
  2: { intros j x Hj Hx. apply F1; [by intros ->%list_elem_of_singleton |]. unfold stream_at in *.
    by rewrite (proj1 (global_counted_rest (pk_hdr p) _)). }
  2: { destruct (global_counted_rest (pk_hdr p) (store_stream_key (pe_key (pk_env p)) (snd (packet_key (pk_buf p))) s)) as (_ & _ & _ & _ & _ & G6 & _).
    rewrite F8, G6. apply fn_lookup_insert. }
  set (s0 := store_stream_key _ _ s) in *. destruct (global_counted_rest (pk_hdr p) s0) as (G1 & G2 & G3 & G4 & G5 & _ & G7 & _ & _ & Hd).
  assert (addr_dict s' = addr_dict s) as HD by (unfold addr_dict in *; by rewrite F7, F8).
  destruct (counted_fields (pk_hdr p) vlan (packet_info (pk_buf p)) e) as (K1 & K2 & K3 & K4 & K5 & K6 & K7).
  set (e' := counted_stream _ _ _ e) in *.
  assert (si_packets e' = cv_packets c + 1 /\ si_bytes e' = u32 (cv_bytes c + pk_len p)) as [Hp' Hby'].
  { destruct (counted_numbers (pk_hdr p) vlan (packet_info (pk_buf p)) e) as [N1 N2]. fold e' in N1, N2. rewrite N1, N2, Hpk', Hbytes, u32_u32_add_l.
    split; [| reflexivity]. apply u32_small. unfold is_u32. lia. }
  rewrite (proj2 (Z.eqb_neq _ _)) in C2 by (rewrite u32_small; unfold is_u32; lia). cbn [start_stream] in C2.
  fold (pk_len p) in C2, C3, C4. destruct (end_counters (packet_dir (pk_buf p)) (pk_len p) al ar) as [al' ar'] eqn:Eends.
  destruct C2 as [C2 C2']. destruct (ends_counted _ _ _ _ _ _ _ _ _ Hel Her Eends) as [Hel' Her'].
  destruct (end_counters_tstart _ _ _ _ _ _ Eends) as [T1 T2].
  assert (forall j a, j <> si_idx_left e -> j <> si_idx_right e -> addr_at s j a -> addr_at s' j a) as Hoth.
  { intros j a Hj1 Hj2 Ha. apply F2; [by intros [<- | [<- | []]]%list_elem_of_In |]. unfold addr_at in *. by rewrite G2. }
  assert (dict_live s') as Hlive.
  { apply (live_step s s' (conv_left c) (conv_right c) (si_idx_left e) (si_idx_right e) al' ar' Ai Al Hlr Hne).
    - rewrite HD. rewrite (insert_id (addr_dict s)) by exact Dl. by rewrite insert_id by exact Dr.
    - exact C2.
    - rewrite T1. by apply (dl_live _ Al _ _ _ Dl).
    - exact C2'.
    - rewrite T2. by apply (dl_live _ Al _ _ _ Dr).
    - exact Hoth.
    - intros ip i [[-> ->] | [-> ->]]; left; assumption. }
  assert (ht_streams s' = ht_streams s) as Ht by (rewrite F6, G5; reflexivity).
  split; cbn [tally ft_convs ft_peers ft_services ft_flows].
  - exact Hi'.
  - by apply (tbl_same _ _ _ s _ _ _ c).
  - apply (convs_step idx idx (ft_convs t) s s' b _ e' Ac Ai Hi' Hb).
    + done.
    + done.
    + exact C1.
    + rewrite HD. split; cbn [count_conv new_conv cv_key cv_start cv_id cv_packets cv_bytes]; try (by split).
      * by rewrite K1.
      * by rewrite K2.
      * by rewrite K3, K4, K5, K6.
      * by rewrite K7.
      * split; [lia | exact Hp'].
      * exact Hby'.
      * unfold e'. by rewrite counted_iid.
    + intros j e0 Hj Hj'. apply F1; [by intros ->%list_elem_of_singleton |]. unfold stream_at in *. by rewrite G1.
    + intros b' c' Hb' Hn E. by apply Hn, (ca_inj _ _ _ Ac _ _ _ _ Hb' Hconv).
    + intros ip i. by rewrite HD.
  - fold (send_of p false) (send_of p true).
    apply (peers_step (ft_peers t) _ s s' (conv_left c) (conv_right c) (si_idx_left e) (si_idx_right e)
      (send_of p true pl) (send_of p false pr) al' ar' Ap Hlive).
    + intros ip N1 N2. split; [by apply alter_peers_other | by rewrite HD].
    + exact Hoth.
    + by apply alter_peers_left.
    + by rewrite HD.
    + exact C2.
    + exact Hel'.
    + by apply alter_peers_right.
    + by rewrite HD.
    + exact C2'.
    + exact Her'.
  - exact Hlive.
  - by rewrite HD, size_alter_peers.
  - rewrite F3. rewrite map_size_insert_Some by (by eexists). rewrite <- Astr. unfold global_counted. by destruct (_ =? 0).
  - intros lan. rewrite peers_of_tally, <- Asd.
    destruct lan; cbn [side_idx]; rewrite ?F4, ?F5; unfold global_counted; by destruct (_ =? 0).
  - intros q Hq'. specialize (Afr q Hq'). unfold fresh_key in *. rewrite F7, G7. exact Afr.
  - rewrite C3, G4, Hclass. change (sh_flow_stats (g_shm s0)) with (sh_flow_stats (g_shm s)). rewrite Afl. by rewrite !flow_counted.
  - rewrite C4, P2, P3, G3. change (sh_protos (g_shm s0)) with (sh_protos (g_shm s)). apply services_step; [apply Hkey | exact Asv].
  - pose proof (packet_step_numbered (pk_env p) (pk_hdr p) (pk_buf p) s cl _ Hb1 Hb2 Hb3 Hacc Ai Hlook) as Hnum.
    rewrite Hstep in Hnum. change (true = true -> gStreamCount s' = gStreamCount s) in Hnum. rewrite (Hnum eq_refl), Acn. by rewrite map_size_insert_Some by (by eexists).
  - rewrite HD. exact Apl.
Qed.

(** ** The first packet of a conversation *)

Lemma side_wf lan s : shm_inv s -> mga_wf (side_mga lan) (sh_addrs (g_shm s)).
Proof. intros Hi. destruct lan; [apply (sv_lan _ Hi) | apply (sv_wan _ Hi)]. Qed.

Definition SIDE_ROOM (lan : bool) : Z := total_entries (side_mga lan) - 2.

Lemma peers_of_pos lan t : 0 <= peers_of lan t.
Proof. unfold peers_of. lia. Qed.

(** Every peer is on one side. *)
Lemma peers_split t : Z.of_nat (size (ft_peers t)) = peers_of true t + peers_of false t.
Proof.
  unfold peers_of. rewrite <- size_dom, <- Nat2Z.inj_add, <- size_union.
  - do 2 f_equal. apply set_eq. intros ip. rewrite elem_of_union, !elem_of_filter. destruct (is_lan ip); naive_solver.
  - intros ip. rewrite !elem_of_filter. intros [-> _] [? _]. done.
Qed.

Lemma side_rooms k used idx t s lan n : agrees k used idx t s -> 0 <= n <= 1 -> peers_of lan t < SIDE_ROOM lan ->
  let q := fill_info (side_mga lan) (peers_of lan t + n) in
  mi_num_entries q < total_entries (side_mga lan) /\ mga_room (side_mga lan) q.
Proof.
  intros H Hn Hr. unfold SIDE_ROOM in Hr. pose proof (peers_of_pos lan t). split; [cbn; lia |].
  apply (fill_room _ _ _ (side_wf lan s (ag_inv _ _ _ _ _ H))). lia.
Qed.

Lemma streams_below k used idx t s : agrees k used idx t s -> Z.of_nat (size (ft_convs t)) <= SLOTS.
Proof. intros H. apply slots_bound. intros b c Hb. by apply (ca_entry _ _ _ (ag_convs _ _ _ _ _ H)) in Hb as [? _]. Qed.

Lemma agrees_supply k used idx t s env pkey ip :
  agrees k used idx t s -> (forall lan, peers_of lan t < SIDE_ROOM lan) -> pkey <> NULL -> pkey ∉ used -> pe_ok_pair env = true ->
  addr_supply env pkey ip s.
Proof.
  intros H Hr Hp Hu Hok. right. unfold addr_room. rewrite (ag_sides _ _ _ _ _ H).
  pose proof (side_rooms _ _ _ _ _ (is_lan ip) 0 H ltac:(lia) (Hr _)) as Hroom. rewrite Z.add_0_r in Hroom.
  split; [exact Hroom |]. split; [exact Hp |]. split; [by apply (ag_fresh _ _ _ _ _ H) | exact Hok].
Qed.

Lemma enter_can_start k used idx t s env hdr key :
  agrees k used idx t s -> pointers_ok k used env -> k <> NULL -> ft_convs t !! slot key = None ->
  tv_sec (hdr_ts hdr) <> 0 -> (forall lan, peers_of lan t < SIDE_ROOM lan) ->
  can_start env hdr key (store_stream_key k key s) (entered k (slot key) (ht_streams s)).
Proof.
  intros H [Hk (U1 & U2 & U3) (N1 & N2 & Hok) (U4 & U5)] Hnull Hnone Hts Hroom. set (s0 := store_stream_key k key s).
  pose proof (streams_below _ _ _ _ _ H) as Hst. pose proof (Hroom true) as Hrl. pose proof (Hroom false) as Hrw.
  unfold SIDE_ROOM in Hrl, Hrw. cbn in Hrl, Hrw. change SLOTS with 6553 in Hst.
  split; change (g_shm s0) with (g_shm s); change (ht_v4addrs s0) with (ht_v4addrs s).
  - exact Hts.
  - rewrite (ag_str _ _ _ _ _ H). cbn. lia.
  - rewrite (ag_str _ _ _ _ _ H). apply (fill_room _ (sh_streams (g_shm s))); [apply (sv_str _ (ag_inv _ _ _ _ _ H)) | cbn; lia].
  - intros i. rewrite Hk, Hok. apply (entered_put k key idx (ft_convs t) s); [apply (ag_tbl _ _ _ _ _ H) | | exact Hnone | exact Hnull].
    intros b c Hb. by apply (ca_entry _ _ _ (ag_convs _ _ _ _ _ H)) in Hb as [? _].
  - destruct (ag_live _ _ _ _ _ H) as [L1 L2]. by split.
  - exact (ag_fresh _ _ _ _ _ H _ U4).
  - by split.
  - rewrite (dict_size s (sv_tbl _ (ag_inv _ _ _ _ _ H))), (ag_size _ _ _ _ _ H), peers_split. lia.
  - right. right. right. unfold room_for_two. change (side_idx ?lan s0) with (side_idx lan s). rewrite (ag_sides _ _ _ _ _ H).
    pose proof (Hroom (is_lan (net_stream4_right key))) as Hr. unfold SIDE_ROOM in Hr.
    rewrite (fill_next _ _ _ (side_wf _ s (ag_inv _ _ _ _ _ H))) by (split; [apply peers_of_pos | lia]).
    apply (side_rooms _ _ _ _ _ _ 1 H); [lia | apply Hroom].
  - exact (agrees_supply k used idx t s env _ _ H Hroom N1 U1 Hok).
  - exact (agrees_supply k used idx t s env _ _ H Hroom N2 U2 Hok).
Qed.

Lemma end_enrolled m s ip ts i a :
  peers_agree m s -> dict_live s -> is_u32 ip -> tv_sec ts <> 0 -> end_of ip ts s i a ->
  peer_entry ip (default new_peer (m !! ip)) a /\ tv_sec (ai_tstart a) <> 0.
Proof.
  intros H [Hlive _] Hip Hts. unfold end_of. pose proof (peers_agree_known m s ip H Hip) as Hk. case_bool_decide as Hkn.
  - intros [Hd Ha]. destruct (dict_peer _ _ _ _ H Hip Hd) as (q & a' & -> & Ha' & He).
    unfold addr_at in *. assert (a' = a) as -> by congruence. split; [exact He | by apply (Hlive _ _ _ Hd)].
  - intros [Hf _]. assert (m !! ip = None) as -> by (destruct (m !! ip); [| done]; destruct Hkn; apply Hk; by eexists).
    split; [by apply (peer_new ip ts) |]. destruct Hf as (_ & -> & _). exact Hts.
Qed.

(** The sizes of two maps that know the same key grow together. *)
Lemma size_together {K K' A B} `{Countable K, Countable K'} (D : gmap K A) (m : gmap K' B) k k' x y :
  (is_Some (D !! k) <-> is_Some (m !! k')) -> size D = size m -> size (<[k := x]> D) = size (<[k' := y]> m).
Proof.
  intros Hiff Hs. rewrite !map_size_insert. destruct (D !! k), (m !! k'); cbn; try lia.
  - by destruct (proj1 Hiff ltac:(by eexists)).
  - by destruct (proj2 Hiff ltac:(by eexists)).
Qed.

Section Enter.
Context (k : ptr) (used : gset ptr) (idx : Z -> Z) (t : flow_table) (s s' : shm_t) (p : packet).
Context (ht : Z -> HashTable keymem Z) (vlan ss il ir : Z) (old : stream_info_t) (al ar : addr_info_t).
Context (H : agrees k used idx t s) (Hbytes : Forall is_u8 (pk_buf p)) (Hnone : ft_convs t !! slot (pk_key p) = None).
Context (Hlr : net_stream4_left (pk_key p) <> net_stream4_right (pk_key p)) (Hts : tv_sec (hdr_ts (pk_hdr p)) <> 0).
Context (HS : started (pk_hdr p) (pk_buf p) ht vlan ss il ir old al ar s s').
Context (HE : ends_made (pk_env p) (net_stream4_left (pk_key p)) (net_stream4_right (pk_key p)) il ir s s').

Local Notation key := (pk_key p).
Local Notation lip := (net_stream4_left (pk_key p)).
Local Notation rip := (net_stream4_right (pk_key p)).
Local Notation Dl := (addr_key_init_v4 lip).
Local Notation Dr := (addr_key_init_v4 rip).
Local Notation m := (ft_peers t).

Lemma enter_key : key_wf key /\ is_u32 lip /\ is_u32 rip.
Proof. destruct (packet_key_wf (pk_buf p) Hbytes) as [Hk _]. split; [exact Hk |]. by apply key_addrs_u32. Qed.

Lemma enter_dict : addr_dict s' = <[Dr := ir]> (<[Dl := il]> (addr_dict s)) /\ il <> ir /\ Dl <> Dr.
Proof. destruct (st_dict _ _ _ _ _ _ _ _ _ _ _ _ HS) as [H1 H2]. split; [exact H1 |]. split; [exact H2 |]. by apply key_ne. Qed.

Lemma enter_found : addr_dict s' !! Dl = Some il /\ addr_dict s' !! Dr = Some ir.
Proof.
  destruct enter_dict as (-> & _ & Hne). split; [| apply lookup_insert_eq].
  rewrite lookup_insert_ne by congruence. apply lookup_insert_eq.
Qed.

Lemma enter_left : peer_entry lip (default new_peer (m !! lip)) al /\ tv_sec (ai_tstart al) <> 0.
Proof.
  destruct enter_key as (_ & Hl & _).
  exact (end_enrolled m s lip _ il al (ag_peers _ _ _ _ _ H) (ag_live _ _ _ _ _ H) Hl Hts (st_left _ _ _ _ _ _ _ _ _ _ _ _ HS)).
Qed.

Lemma enter_right : peer_entry rip (default new_peer (m !! rip)) ar /\ tv_sec (ai_tstart ar) <> 0.
Proof.
  destruct enter_key as (_ & _ & Hr).
  exact (end_enrolled m s rip _ ir ar (ag_peers _ _ _ _ _ H) (ag_live _ _ _ _ _ H) Hr Hts (st_right _ _ _ _ _ _ _ _ _ _ _ _ HS)).
Qed.

Lemma enter_class : flow_of al ar (sk_rport (sk_v4 key)) = conv_class key.
Proof.
  destruct enter_left as [[[_ Hl] _ _ _] _], enter_right as [[[_ Hr] _ _ _] _].
  unfold flow_of, conv_class. rewrite Hl, Hr. by destruct (is_lan lip), (is_lan rip).
Qed.

(** An address of the dictionary keeps its entry. *)
Lemma enter_keeps ip i : addr_dict s !! addr_key_init_v4 ip = Some i -> addr_dict s' !! addr_key_init_v4 ip = Some i.
Proof.
  intros Hd. destruct enter_found as [F1 F2]. destruct enter_dict as (HD & _).
  pose proof (st_left _ _ _ _ _ _ _ _ _ _ _ _ HS) as HL. pose proof (st_right _ _ _ _ _ _ _ _ _ _ _ _ HS) as HR. cbv zeta in HL, HR.
  fold key in HL, HR. destruct (decide (ip = lip)) as [-> |].
  - rewrite bool_decide_eq_true_2 in HL by (by eexists). rewrite F1, <- Hd. symmetry. apply HL.
  - destruct (decide (ip = rip)) as [-> |].
    + rewrite bool_decide_eq_true_2 in HR by (by eexists). rewrite F2, <- Hd. symmetry. apply HR.
    + by rewrite HD, !lookup_insert_ne by (by apply key_ne).
Qed.

(** The entry of an end was its own, or free. *)
Lemma enter_free ip i : ip = lip /\ i = il \/ ip = rip /\ i = ir ->
  addr_dict s !! addr_key_init_v4 ip = Some i \/ exists old, addr_at s i old /\ tv_sec (ai_tstart old) = 0.
Proof.
  pose proof (st_left _ _ _ _ _ _ _ _ _ _ _ _ HS) as HL. pose proof (st_right _ _ _ _ _ _ _ _ _ _ _ _ HS) as HR. cbv zeta in HL, HR.
  fold key in HL, HR. intros [[-> ->] | [-> ->]].
  - destruct (decide (known lip s)) as [Hk |]; [| right; by apply (em_left _ _ _ _ _ _ _ HE)].
    rewrite bool_decide_eq_true_2 in HL by exact Hk. left. apply HL.
  - destruct (decide (known rip s)) as [Hk |]; [| right; by apply (em_right _ _ _ _ _ _ _ HE)].
    rewrite bool_decide_eq_true_2 in HR by exact Hk. left. apply HR.
Qed.

(** The conversation and the peers after the packet. *)
Local Notation c' := (count_conv (pk_len p) (new_conv p t)).
Local Notation m' := (ft_peers (tally p (new_conv p t) (enter p t))).

Lemma enter_entry : exists e, stream_at s' ss e /\ conv_entry (addr_dict s') c' e.
Proof.
  destruct (st_stream _ _ _ _ _ _ _ _ _ _ _ _ HS) as (E1 & E2 & E3 & E4). fold key in E1, E2, E3, E4.
  set (e0 := fill_stream _ _ _ _ _) in *. set (e := counted_stream _ _ _ _) in *. exists e. split; [exact E1 |].
  destruct enter_found as [F1 F2]. pose proof (sv_vals _ (proj1 (st_inv _ _ _ _ _ _ _ _ _ _ _ _ HS))) as Hv.
  destruct (counted_fields (pk_hdr p) vlan (packet_info (pk_buf p)) (stream_flow_flags al ar e0)) as (K1 & K2 & K3 & K4 & K5 & K6 & K7).
  fold e in K1, K2, K3, K4, K5, K6, K7.
  destruct (new_entry_fields al ar key il ir (hdr_ts (pk_hdr p)) (new_stream_entry (gStreamCount s) old)
    (map_Forall_lookup_1 _ _ _ _ Hv F1) (map_Forall_lookup_1 _ _ _ _ Hv F2) eq_refl eq_refl) as [(N1 & N2 & N3 & _) (N4 & N5 & N6)]. fold e0 in N1, N2, N3, N4, N5, N6.
  split; cbn [count_conv new_conv cv_key cv_start cv_id cv_packets cv_bytes].
  - destruct enter_key as [Hkw _]. by split.
  - rewrite K1, N1. exact F1.
  - rewrite K2, N2. exact F2.
  - rewrite K3, K4, K5, K6. done.
  - rewrite E4. exact enter_class.
  - rewrite E2. lia.
  - rewrite E3. done.
  - unfold e, e0. rewrite started_iid. apply (ag_count _ _ _ _ _ H).
Qed.

Lemma enter_convs : convs_agree (<[slot key := ss]> idx) (<[slot key := c']> (ft_convs t)) s'.
Proof.
  destruct enter_entry as (e & He & Hc). destruct (st_free _ _ _ _ _ _ _ _ _ _ _ _ HS) as [Ho Hz].
  apply (convs_step idx _ (ft_convs t) s s' _ _ e (ag_convs _ _ _ _ _ H)
    (ag_inv _ _ _ _ _ H) (proj1 (st_inv _ _ _ _ _ _ _ _ _ _ _ _ HS)) (slot_range key)).
  - intros b Hb. by apply fn_lookup_insert_ne.
  - congruence.
  - by rewrite fn_lookup_insert.
  - exact Hc.
  - intros j x Hj. rewrite fn_lookup_insert in Hj. by apply (st_others _ _ _ _ _ _ _ _ _ _ _ _ HS).
  - intros b x Hb Hn. rewrite fn_lookup_insert. intros E.
    destruct (ca_entry _ _ _ (ag_convs _ _ _ _ _ H) b x Hb) as (_ & y & Hy & [(_ & _ & Hnz) _ _ (_ & _ & _ & Hst) _ _ _ _]).
    rewrite E in Hy. unfold stream_at in *. assert (y = old) as -> by congruence. by rewrite <- Hst in Hnz.
  - exact enter_keeps.
Qed.

Lemma enter_others j b : j <> il -> j <> ir -> addr_at s j b -> addr_at s' j b.
Proof. apply (em_others _ _ _ _ _ _ _ HE). Qed.

Lemma enter_ends : exists al' ar', addr_at s' il al' /\ tv_sec (ai_tstart al') <> 0 /\ addr_at s' ir ar' /\ tv_sec (ai_tstart ar') <> 0 /\
  peer_entry lip (send_of p true (enrol (default new_peer (m !! lip)))) al' /\
  peer_entry rip (send_of p false (enrol (default new_peer (m !! rip)))) ar'.
Proof.
  destruct enter_left as [Hel Htl], enter_right as [Her Htr]. pose proof (st_ends _ _ _ _ _ _ _ _ _ _ _ _ HS) as SE. fold (pk_len p) in SE.
  destruct (end_counters _ _ _ _) as [al' ar'] eqn:Eends. destruct SE as [Hal Har]. exists al', ar'.
  destruct (ends_counted _ _ _ _ _ _ _ _ _ (peer_joins _ _ _ Hel) (peer_joins _ _ _ Her) Eends) as [Hl' Hr'].
  destruct (end_counters_tstart _ _ _ _ _ _ Eends) as [-> ->]. done.
Qed.

Lemma enter_live : dict_live s'.
Proof.
  destruct enter_ends as (al' & ar' & A1 & A2 & A3 & A4 & _). destruct enter_dict as (D1 & D2 & _).
  exact (live_step s s' lip rip il ir al' ar' (ag_inv _ _ _ _ _ H) (ag_live _ _ _ _ _ H) Hlr D2 D1 A1 A2 A3 A4 enter_others enter_free).
Qed.

Lemma enter_peers : peers_agree m' s'.
Proof.
  destruct enter_ends as (al' & ar' & A1 & A2 & A3 & A4 & A5 & A6). destruct enter_found as [F1 F2]. destruct enter_dict as (D1 & _ & _).
  cbn [tally enter ft_peers]. fold (send_of p true) (send_of p false). change (conv_left (new_conv p t)) with lip. change (conv_right (new_conv p t)) with rip.
  apply (peers_step m _ s s' lip rip il ir _ _ al' ar' (ag_peers _ _ _ _ _ H) enter_live) with (4 := F1) (5 := A1) (6 := A5) (8 := F2) (9 := A3) (10 := A6).
  - intros ip N1 N2. rewrite alter_peers_other by done. unfold enrols. rewrite !lookup_insert_ne by done.
    rewrite D1, !lookup_insert_ne by (by apply key_ne). done.
  - exact enter_others.
  - apply alter_peers_left; [exact Hlr |]. unfold enrols. rewrite lookup_insert_ne by congruence. apply lookup_insert_eq.
  - apply alter_peers_right; [exact Hlr |]. unfold enrols. rewrite lookup_insert_eq. by rewrite lookup_insert_ne by congruence.
Qed.

Lemma enter_dom : dom m' = {[rip]} ∪ ({[lip]} ∪ dom m).
Proof. cbn [tally enter ft_peers]. rewrite dom_alter_peers. unfold enrols. by rewrite !dom_insert_L. Qed.

Lemma enter_size : size (addr_dict s') = size m'.
Proof.
  destruct enter_key as (_ & Hl & Hr). destruct enter_dict as (-> & _ & Hne). cbn [tally enter ft_peers]. rewrite size_alter_peers. unfold enrols.
  apply size_together.
  - rewrite !lookup_insert_ne by congruence. by apply (peers_agree_known m s), Hr; apply (ag_peers _ _ _ _ _ H).
  - apply size_together; [| apply (ag_size _ _ _ _ _ H)]. by apply (peers_agree_known m s), Hl; apply (ag_peers _ _ _ _ _ H).
Qed.

Lemma enter_sides lan : (forall lan, peers_of lan t < SIDE_ROOM lan) ->
  side_idx lan s' = fill_info (side_mga lan) (peers_of lan (tally p (new_conv p t) (enter p t))).
Proof.
  intros Hroom. specialize (Hroom lan). unfold SIDE_ROOM in Hroom. pose proof (peers_of_pos lan t) as Hpos.
  destruct enter_key as (_ & Hl & Hr). pose proof (side_wf lan s (ag_inv _ _ _ _ _ H)) as Hwf. pose proof (ag_peers _ _ _ _ _ H) as Hp.
  pose proof (is_new_range lip lan (dom m)) as Hn.
  rewrite (em_sides _ _ _ _ _ _ _ HE), (ag_sides _ _ _ _ _ H).
  rewrite (side_after_fill _ lip s lan _ m Hp Hl Hwf) by lia. rewrite (side_after_fill _ rip s lan _ m Hp Hr Hwf) by lia. f_equal.
  unfold peers_of at 2. rewrite enter_dom. fold (side_size lan ({[rip]} ∪ ({[lip]} ∪ dom m))). rewrite !side_size_add.
  fold (peers_of lan t). change (side_size lan (dom m)) with (peers_of lan t).
  assert (is_new rip lan ({[lip]} ∪ dom m) = is_new rip lan (dom m)) as ->; [| lia].
  unfold is_new. rewrite (bool_decide_ext (rip ∈ {[lip]} ∪ dom m \/ lan <> is_lan rip) (rip ∈ dom m \/ lan <> is_lan rip)); [done |].
  rewrite elem_of_union, elem_of_singleton. split; [intros [[E |] |] | intros []]; auto.
Qed.

(** Each address has an entry of its side. *)
Lemma enter_placed ip i : is_u32 ip -> addr_dict s' !! addr_key_init_v4 ip = Some i -> addr_side i = is_lan ip.
Proof.
  intros Hip. pose proof (ag_placed _ _ _ _ _ H) as Hold. destruct enter_key as (_ & Hl & Hr). destruct enter_dict as (-> & _ & _).
  assert (forall a j b, is_u32 a -> (if bool_decide (known a s) then addr_dict s !! addr_key_init_v4 a = Some j /\ addr_at s j b
    else fresh_end a (hdr_ts (pk_hdr p)) b /\ addr_side j = is_lan a) -> addr_side j = is_lan a) as Hend.
  { intros a j b Ha. case_bool_decide; intros [H1 H2]; [by apply Hold | exact H2]. }
  intros [[Hk <-] | [_ [[Hk <-] | [_ Hd]]%lookup_insert_Some]]%lookup_insert_Some; [| | by apply Hold].
  - destruct (decide (rip = ip)) as [<- | Hne]; [| by destruct (key_ne _ _ Hne)]. exact (Hend _ _ _ Hr (st_right _ _ _ _ _ _ _ _ _ _ _ _ HS)).
  - destruct (decide (lip = ip)) as [<- | Hne]; [| by destruct (key_ne _ _ Hne)]. exact (Hend _ _ _ Hl (st_left _ _ _ _ _ _ _ _ _ _ _ _ HS)).
Qed.

End Enter.

(** The state before and after the first packet of a conversation. *)
Lemma new_step k used idx t s p cl :
  agrees k used idx t s -> packet_ok (pk_hdr p) (pk_buf p) -> heard (pk_hdr p) (pk_buf p) -> pointers_ok k used (pk_env p) -> k <> NULL ->
  cleanup_inv cl -> ft_convs t !! slot (pk_key p) = None ->
  net_stream4_left (pk_key p) <> net_stream4_right (pk_key p) -> tv_sec (hdr_ts (pk_hdr p)) <> 0 -> (forall lan, peers_of lan t < SIDE_ROOM lan) ->
  exists s' cl' ss, packet_step (pk_env p) (pk_hdr p) (pk_buf p) s cl = Val (true, s', cl') /\
    agrees k (used_after (pk_env p) used) (<[slot (pk_key p) := ss]> idx) (tally p (new_conv p t) (enter p t)) s' /\
    cleanup_inv cl' /\ queue_step p ss false s s' cl cl'.
Proof.
  intros H (Hb1 & Hb2 & Hb3) (Hacc & Hh1 & Hh2) Hptr Hk Hcl Hnone Hlr Hts Hroom.
  pose proof (enter_can_start _ _ _ _ _ _ _ _ H Hptr Hk Hnone Hts Hroom) as Hcan.
  pose proof (agrees_lookup _ _ _ _ (pk_key p) (ag_tbl _ _ _ _ _ H)) as Hlook. rewrite Hnone in Hlook.
  rewrite <- (po_key _ _ _ Hptr) in Hcan, Hlook.
  destruct (packet_new_ok (pk_env p) (pk_hdr p) (pk_buf p) s cl _ Hb1 Hb2 Hb3 Hacc (ag_inv _ _ _ _ _ H) Hcl Hh1 Hh2 Hlr Hlook Hcan)
    as (vlan & ss & il & ir & old & al & ar & s' & cl' & Hstep & _ & HS & Hcl' & Hq & Hstr & HE & Hmem & Hproto).
  fold (pk_key p) in HE, Hproto. exists s', cl', ss. split; [exact Hstep |]. split; [| split; [exact Hcl' | split]].
  2: { rewrite Hq, andb_true_r. reflexivity. }
  2: { eexists. split; [exact (proj1 (st_stream _ _ _ _ _ _ _ _ _ _ _ _ HS)) |]. by rewrite counted_marked, flow_flags_unmarked. }
  2: { exact (st_others _ _ _ _ _ _ _ _ _ _ _ _ HS). }
  2: { rewrite Hmem. apply fn_lookup_insert. }
  pose proof (po_key _ _ _ Hptr) as Hpk.
  split.
  - apply (st_inv _ _ _ _ _ _ _ _ _ _ _ _ HS).
  - cbn [tally enter ft_convs]. rewrite insert_insert_eq. apply (tbl_entered k idx (ft_convs t) s); [apply (ag_tbl _ _ _ _ _ H) | done | apply slot_range |].
    rewrite (st_table _ _ _ _ _ _ _ _ _ _ _ _ HS). by rewrite Hpk.
  - cbn [tally enter ft_convs]. rewrite insert_insert_eq. by eapply (enter_convs k used idx t s s' p).
  - by eapply (enter_peers k used idx t s s' p).
  - by eapply (enter_live k used idx t s s' p).
  - by eapply (enter_size k used idx t s s' p).
  - cbn [tally enter ft_convs]. rewrite insert_insert_eq, map_size_insert_None by exact Hnone.
    rewrite Hstr, (ag_str _ _ _ _ _ H). pose proof (streams_below _ _ _ _ _ H) as Hsz. change SLOTS with 6553 in Hsz.
    rewrite (fill_next _ (sh_streams (g_shm s))); [f_equal; lia | apply (sv_str _ (ag_inv _ _ _ _ _ H)) | cbn; lia].
  - intros lan. by eapply (enter_sides k used idx t s s' p).
  - intros q Hq'. unfold used_after in Hq'. apply not_elem_of_union in Hq' as [Hq1 Hq2].
    apply not_elem_of_union in Hq1 as [Hq3%not_elem_of_singleton Hq4%not_elem_of_singleton].
    apply (em_fresh _ _ _ _ _ _ _ HE); [done | done | by apply (ag_fresh _ _ _ _ _ H)].
  - rewrite (st_flow _ _ _ _ _ _ _ _ _ _ _ _ HS). fold (pk_key p) (pk_len p). cbn [tally enter ft_flows cv_key].
    rewrite (enter_class k used idx t s s' p _ vlan ss il ir old al ar H Hb2 Hts HS).
    by rewrite (ag_flows _ _ _ _ _ H), !flow_counted.
  - rewrite Hproto. fold (pk_len p). cbn [tally enter ft_services cv_key].
    apply services_step; [| apply (ag_services _ _ _ _ _ H)]. apply (packet_key_wf _ Hb2).
  - pose proof (packet_step_numbered (pk_env p) (pk_hdr p) (pk_buf p) s cl _ Hb1 Hb2 Hb3 Hacc (ag_inv _ _ _ _ _ H) Hlook) as Hnum.
    rewrite Hstep in Hnum. change (true = true -> gStreamCount s' = u32 (gStreamCount s + 1)) in Hnum. rewrite (Hnum eq_refl), (ag_count _ _ _ _ _ H). cbn [tally enter ft_convs].
    rewrite insert_insert_eq, map_size_insert_None by exact Hnone. pose proof (streams_below _ _ _ _ _ H) as Hsz. change SLOTS with 6553 in Hsz.
    rewrite u32_small by (unfold is_u32; lia). lia.
  - intros ip i Hip. by eapply (enter_placed k used idx t s s' p).
Qed.
