(* ===== verification/FlowRun.v ===== *)
(** Runs of the capture process against the flow table: one packet keeps the relation of
    [Bookkeeping], whatever it is, so a run of the packet handler from the state
    [shm_data_init] leaves, without a sweep, keeps the books of [FlowTable]. *)
From S2P Require Import Prelude Structs MgArray IpUtils StreamKey Float32 HashTable StatProc Packet Cleanup ShmData Capture Lifecycle Conversation Flows FlowTable FlowViews Bookkeeping.
From stdpp Require Import list gmap.
#[local] Open Scope Z_scope.

(** ** Packets that change no count *)

Lemma agrees_used k used used' idx t s : used ⊆ used' -> agrees k used idx t s -> agrees k used' idx t s.
Proof. intros Hs []. split; try done. set_solver. Qed.

(** The handler's key object is not part of what agrees. *)
Lemma agrees_store k used idx t s q key : agrees k used idx t s -> agrees k used idx t (store_stream_key q key s).
Proof.
  intros [Ai [[T1 T2 T3 T4] Tc Tn Tch] [Ce Ci Cl] Ap [L1 L2] Asz Astr Asd Afr Afl Asv Acn Apl].
  split; try done; [by apply store_stream_inv].
Qed.

(** ** One packet *)

(** The capture process against the table; while no connection has ended, no stream
    waits for its release. *)
Record keeps_books (k : ptr) (used : gset ptr) (idx : Z -> Z) (t : flow_table) (st : capture_t) : Prop := {
  kb_agrees : agrees k used idx t (cp_shm st);
  kb_cleanup : cleanup_inv (cp_cleanup st);
  kb_calm : ft_ended t = false -> list_items (cp_cleanup st) = []
}.

(** What a packet does to the cleanup lists: nothing, unless it counts. *)
Definition queued_by (p : packet) (idx' : Z -> Z) (t : flow_table) (s s' : shm_t) (cl cl' : cleanup_t) : Prop :=
  if pk_heard p then
    exists before, match ft_convs t !! slot (pk_key p) with
      | Some _ => exists e, stream_at s (idx' (slot (pk_key p))) e /\ marked e = before
      | None => before = false
      end /\ queue_step p (idx' (slot (pk_key p))) before s s' cl cl'
  else queues cl' = queues cl /\ sh_streams (g_shm s') = sh_streams (g_shm s).

Lemma step_books k used idx t s cl p : k <> NULL ->
  agrees k used idx t s -> cleanup_inv cl -> pointers_ok k used (pk_env p) -> entered_ok p t ->
  exists s' cl' idx', packet_step (pk_env p) (pk_hdr p) (pk_buf p) s cl = Val (pk_heard p, s', cl') /\
    agrees k (used_after (pk_env p) used) idx' (book p t) s' /\ cleanup_inv cl' /\
    (forall b, is_Some (ft_convs t !! b) -> idx' b = idx b) /\
    (ft_ended (book p t) = ft_ended t || (pk_heard p && final p)) /\ queued_by p idx' t s s' cl cl'.
Proof.
  intros Hk H Hcl Hptr [Hok Henter Htally]. assert (used ⊆ used_after (pk_env p) used) as Hsub by (unfold used_after; set_solver).
  unfold book. unfold pk_heard in *. case_bool_decide as Hh.
  - destruct (ft_convs t !! slot (pk_key p)) as [c |] eqn:Hc.
    + rewrite Hc. destruct (known_step _ _ _ _ _ _ cl c H Hok Hh (po_key _ _ _ Hptr) Hcl Hc (Htally c eq_refl)) as (s' & cl' & H1 & H2 & H3 & e & He & H4).
      exists s', cl', idx. split; [exact H1 |]. split; [by apply (agrees_used _ used) |]. split; [exact H3 |]. split; [done |].
      split; [done |]. unfold queued_by, pk_heard. rewrite bool_decide_true by exact Hh. exists (marked e). split; [| exact H4].
      rewrite Hc. by exists e.
    + destruct (Henter eq_refl eq_refl) as (E1 & E2 & E3 & E4). cbn [enter ft_convs]. rewrite lookup_insert_eq.
      destruct (new_step k used idx t s p cl H Hok Hh Hptr Hk Hcl Hc E1 E2) as (s' & cl' & ss & H1 & H2 & H3 & H4);
        [by intros [] |]. exists s', cl', (<[slot (pk_key p) := ss]> idx). split; [exact H1 |].
        split; [exact H2 |]. split; [exact H3 |]. split; [intros b [c Hb]; apply fn_lookup_insert_ne; congruence |]. split; [done |].
        unfold queued_by, pk_heard. rewrite bool_decide_true by exact Hh. exists false. rewrite Hc, fn_lookup_insert. by split.
  - destruct Hok as (B1 & B2 & B3). destruct (packet_step_ignored (pk_env p) (pk_hdr p) (pk_buf p) s cl B1 B2 B3) as [I1 I2].
    cbn [andb]. rewrite orb_false_r. destruct (decide (accepts (hdr_caplen (pk_hdr p)) (pk_buf p))) as [Ha |].
    + rewrite (I2 Ha) by (unfold heard in Hh; destruct (decide (net_stream4_left (pk_key p) = 0)); [by left | right];
        destruct (decide (net_stream4_right (pk_key p) = 0)); [done | by destruct Hh]).
      eexists _, cl, idx. split; [reflexivity |].
      split; [apply (agrees_used _ used); [exact Hsub | by apply agrees_store] |]. split; [done |]. split; [done |].
      split; [done |]. unfold queued_by, pk_heard. by rewrite bool_decide_false by exact Hh.
    + rewrite I1 by done. exists s, cl, idx. split; [done |]. split; [by apply (agrees_used _ used) |]. split; [done |].
      split; [done |]. split; [done |]. unfold queued_by, pk_heard. by rewrite bool_decide_false by exact Hh.
Qed.

(** The sweep of the cleanup list has nothing to do, or is not due. *)
Lemma no_sweep env tv s c : cleanup_inv c -> list_items c = [] \/ tv mod 60 < STAT_PROCESS_TIME_SEC ->
  cleanup_expired_streams env tv s c = Val (s, c).
Proof.
  intros Hc [Hl | Hl]; unfold cleanup_expired_streams.
  - by rewrite (list_empty c Hc Hl), orb_true_r.
  - by rewrite (proj2 (Z.ltb_lt _ _) Hl).
Qed.

(** One packet of a quiet run, with what it does to the cleanup lists and when the
    handler last looked at them. *)
Lemma handle_books k used idx t st p : k <> NULL ->
  keeps_books k used idx t st -> pointers_ok k used (pk_env p) -> bookable p t ->
  exists st' idx', handle [p] st = Val st' /\ keeps_books k (used_after (pk_env p) used) idx' (book p t) st' /\
    (forall b, is_Some (ft_convs t !! b) -> idx' b = idx b) /\
    queued_by p idx' t (cp_shm st) (cp_shm st') (cp_cleanup st) (cp_cleanup st') /\
    (cp_last_sec st' = cp_last_sec st \/ cp_last_sec st' = tv_sec (hdr_ts (pk_hdr p))).
Proof.
  intros Hk [Ha Hc Hl] Hptr Hb. pose proof (bo_calm _ _ Hb) as Hcalm.
  destruct (step_books k used idx t (cp_shm st) (cp_cleanup st) p Hk Ha Hc Hptr (bookable_entered _ _ Hb)) as (s' & cl' & idx' & Hs & Ha' & Hc' & Hidx & He & Hq).
  assert (ft_ended (book p t) = false -> list_items cl' = []) as Hl'.
  { rewrite He. intros [E1 E2]%orb_false_iff. unfold queued_by in Hq. destruct (pk_heard p).
    - destruct Hq as (b & _ & [Hq _ _ _]). cbn [andb] in E2. rewrite E2 in Hq. injection Hq as -> _. by apply Hl.
    - destruct Hq as [Hq _]. injection Hq as -> _. by apply Hl. }
  set (st1 := mk_capture_t s' cl' (cp_last_sec st) (cp_sim_last st) (cp_statproc st)).
  assert (exists st', handle [p] st = Val st' /\ cp_shm st' = s' /\ cp_cleanup st' = cl' /\
    (cp_last_sec st' = cp_last_sec st \/ cp_last_sec st' = tv_sec (hdr_ts (pk_hdr p)))) as (st' & Hh & E1 & E2 & E3).
  { unfold handle. cbn [for_each]. unfold on_packet. cbn [run_sim]. rewrite bind_Val, Hs, bind_Val. fold st1.
    destruct (pk_heard p); cbn [negb]; [| exists st1; split; [done | by auto]]. rewrite bind_Val.
    destruct (0 <? _); [| exists st1; split; [done | by auto]].
    change (cp_cleanup st1) with cl'. rewrite (no_sweep _ _ _ _ Hc').
    - rewrite !bind_Val. eexists. split; [done |]. split; [done |]. split; [done | by right].
    - destruct (ft_ended (book p t)); [right; by apply Hcalm | left; by apply Hl']. }
  exists st', idx'. split; [exact Hh |]. split; [split; by rewrite ?E1, ?E2 |]. split; [exact Hidx |]. rewrite E1, E2. by split.
Qed.

Lemma handle_keeps_books k used idx t st p : k <> NULL ->
  keeps_books k used idx t st -> pointers_ok k used (pk_env p) -> bookable p t ->
  exists st' idx', handle [p] st = Val st' /\ keeps_books k (used_after (pk_env p) used) idx' (book p t) st' /\
    (forall b, is_Some (ft_convs t !! b) -> idx' b = idx b).
Proof.
  intros Hk H Hptr Hb. destruct (handle_books k used idx t st p Hk H Hptr Hb) as (st' & idx' & H1 & H2 & H3 & _). by exists st', idx'.
Qed.

(** ** Runs *)

(** The objects in use after the packets. *)
Definition used_after_all (l : list packet) (used : gset ptr) : gset ptr := foldl (fun u p => used_after (pk_env p) u) used l.

Lemma run_keeps_books k l : k <> NULL -> forall used idx t st,
  keeps_books k used idx t st -> bookable_all k used l t ->
  exists idx' st', handle l st = Val st' /\ keeps_books k (used_after_all l used) idx' (book_all l t) st' /\
    (forall b, is_Some (ft_convs t !! b) -> idx' b = idx b).
Proof.
  intros Hk. induction l as [| p l IH]; intros used idx t st H Hl; [by exists idx, st |].
  destruct Hl as (Hptr & Hb & Hl). destruct (handle_keeps_books k used idx t st p Hk H Hptr Hb) as (st1 & idx1 & Hh & H1 & Hi1).
  destruct (IH _ _ _ _ H1 Hl) as (idx' & st' & Hh' & H' & Hi'). exists idx', st'. split; [| split; [exact H' |]].
  2: { intros b Hb'. rewrite Hi' by (by apply (book_all_some [p])). by apply Hi1. }
  unfold handle in *. cbn [for_each] in Hh |- *. apply bind_Val_inv in Hh as (x & -> & Hx). injection Hx as ->. exact Hh'.
Qed.

Lemma bookable_last k l p used t : bookable_all k used (l ++ [p]) t ->
  bookable_all k used l t /\ pointers_ok k (used_after_all l used) (pk_env p) /\ bookable p (book_all l t).
Proof. intros (H1 & H2 & H3 & _)%bookable_app. by split. Qed.

(** ** The start *)

Definition start_books (s : shm_t) : capture_t := mk_capture_t s cleanup_init 0 zero_tval statproc_init.

Lemma init_counters use_shm env mem :
  yields (fun r => match r with
    | Some s => sh_flow_stats (g_shm s) = replicate 6 zero_flow_stats /\
        sh_protos (g_shm s) = replicate (Z.to_nat SI_NUM_PROTOS) zero_proto_info /\ gStreamCount s = 0
    | None => True
    end) (shm_data_init use_shm env mem).
Proof.
  unfold shm_data_init. destruct (if use_shm then _ else _); [done |]. cbv zeta. do 7 (apply yields_any; intros ?).
  destruct (mga_init _ _ _ 0 255) as [lan p1]. destruct (mga_init _ _ _ 256 _) as [wan p2].
  destruct (mga_init _ _ _ _ (SI_NUM_STREAMS - 1)) as [strm p3]. split; [reflexivity | split; reflexivity].
Qed.

(** The block is there if the process got this far. *)
Lemma init_succeeded use_shm env mem s : shm_data_init use_shm env mem = Val (Some s) ->
  (if use_shm then 0 <= ie_handle env /\ ie_mapped env = true else ie_calloc env = true) /\
  ie_streams_tbl env = true /\ ie_addrs_tbl env = true.
Proof.
  unfold shm_data_init. intros H.
  destruct (if use_shm then _ else _) eqn:E; [done |]. split.
  - destruct use_shm; [apply orb_false_iff in E as [E1 E2]; apply Z.ltb_ge in E1 | idtac]; destruct (ie_mapped env), (ie_calloc env); done.
  - destruct (ie_streams_tbl env); [| done]. split; [done |]. destruct (ie_addrs_tbl env); [done |].
    do 4 (apply bind_Val_inv in H as (? & _ & H)). done.
Qed.

Lemma no_pairs {A} (l : list (list A)) n b : concat l = [] -> length l = n -> (b < n)%nat -> l !! b = Some [].
Proof.
  intros Hc Hl Hb. destruct (lookup_lt_is_Some_2 l b) as [x Hx]; [lia |]. rewrite Hx. f_equal.
  apply list_elem_of_lookup_2, list_elem_of_split in Hx as (l1 & l2 & ->). rewrite concat_app in Hc. cbn in Hc.
  apply app_eq_nil in Hc as [_ Hc]. by apply app_eq_nil in Hc as [Hc _].
Qed.

Lemma init_agrees use_shm env mem s k idx : shm_data_init use_shm env mem = Val (Some s) -> agrees k ∅ idx empty_table s.
Proof.
  intros Hs. destruct (init_succeeded _ _ _ _ Hs) as (E1 & E2 & E3).
  destruct (shm_init_ok use_shm env mem E1 E2 E3) as (s0 & H1 & H2 & H3 & H4 & H5 & _ & H6 & H7 & H8 & Hf1 & Hf2 & Hc1 & Hc2 & Hc3).
  rewrite Hs in H1. injection H1 as <-.
  destruct (abs_empty km_addr addr_okp (g_mem s) (ht_v4addrs s) (sv_tbl _ H2) H4) as [H9 H10].
  destruct (abs_empty km_stream stream_okp (g_mem s) (ht_streams s) H3 H5) as [H11 H12].
  pose proof (init_counters use_shm env mem) as Hz. rewrite Hs in Hz. destruct Hz as (Hz1 & Hz2 & Hz3).
  pose proof (hi_len _ _ _ _ H3) as Hlen.
  split; cbn [empty_table ft_convs ft_peers ft_services ft_flows].
  - exact H2.
  - split; [split; [by rewrite Hc1 | exact Hlen | exact Hf1 | exact Hf2] | done | by rewrite map_size_empty |].
    intros b Hb. rewrite lookup_empty. rewrite Hc1 in Hlen. apply (no_pairs _ (Z.to_nat SLOTS)); [exact H11 | |]; change (SI_NUM_STREAMS / 5) with SLOTS in *; lia.
  - split; [intros b c | intros b b' c c' | intros j e He Hz; by rewrite (streams_free s j e H2 H8 He) in Hz]; by rewrite lookup_empty.
  - intros ip _. by rewrite lookup_empty, H4.
  - split; intros k1; rewrite H4; [intros i a | intros k2 i]; by rewrite lookup_empty.
  - by rewrite H4.
  - by rewrite map_size_empty.
  - intros []; [exact H6 | exact H7].
  - intros q _. unfold fresh_key. by rewrite H9.
  - exact Hz1.
  - intros i Hi. rewrite lookup_empty, Hz2. apply aget_Val. split; [lia |]. apply lookup_replicate_2. unfold SI_NUM_PROTOS in *. lia.
  - rewrite map_size_empty. exact Hz3.
  - intros ip i _. by rewrite H4.
Qed.

Lemma start_keeps_books use_shm env mem s k idx :
  shm_data_init use_shm env mem = Val (Some s) -> keeps_books k ∅ idx empty_table (start_books s).
Proof. intros Hs. split; [by eapply init_agrees | exact cleanup_init_inv | done]. Qed.

(** ** Sums over the streams in use *)

Definition weight (f : stream_info_t -> Z) (e : stream_info_t) : Z := if tv_sec (si_tstart e) =? 0 then 0 else f e.
Definition live_sum (f : stream_info_t -> Z) (s : shm_t) : Z := foldr (fun e n => weight f e + n) 0 (sh_streams (g_shm s)).

Lemma weights_insert f L j (x y : stream_info_t) : L !! j = Some x ->
  foldr (fun e n => weight f e + n) 0 L = foldr (fun e n => weight f e + n) 0 (<[j := y]> L) + weight f x - weight f y.
Proof.
  revert j. induction L as [| e L IH]; intros [| j] H; [done | done | |].
  - injection H as ->. change (<[0%nat := y]> (x :: L)) with (y :: L). cbn [foldr]. lia.
  - change (<[S j := y]> (e :: L)) with (e :: <[j := y]> L). cbn [foldr]. rewrite (IH j H). lia.
Qed.

Lemma weights_zero f L : (forall j e, L !! j = Some e -> tv_sec (si_tstart e) = 0) -> foldr (fun e n => weight f e + n) 0 L = 0.
Proof.
  induction L as [| e L IH]; intros H; [done |]. cbn. rewrite IH by (intros j; apply (H (S j))). unfold weight. by rewrite (H 0%nat e).
Qed.

Section Sums.
(** Two sums are compared by a relation that sums keep: equality, or equality modulo 2^32. *)
Context (R : Z -> Z -> Prop) (R_zero : R 0 0) (R_add : forall a b c d, R a b -> R c d -> R (a + c) (b + d)).

Lemma weights_related f g (idx : Z -> Z) (m : gmap Z conv) : forall L,
  (forall b c, m !! b = Some c -> 0 <= idx b /\ exists e, L !! Z.to_nat (idx b) = Some e /\ tv_sec (si_tstart e) <> 0 /\ R (f e) (g c)) ->
  (forall b b' c c', m !! b = Some c -> m !! b' = Some c' -> idx b = idx b' -> b = b') ->
  (forall j e, L !! j = Some e -> tv_sec (si_tstart e) <> 0 -> exists b c, m !! b = Some c /\ Z.to_nat (idx b) = j) ->
  R (foldr (fun e n => weight f e + n) 0 L) (msum g m).
Proof.
  induction m as [| i x m Hi IH] using map_ind; intros L Hall Hinj Hlive.
  - rewrite msum_empty, weights_zero; [exact R_zero |]. intros j e He. destruct (decide (tv_sec (si_tstart e) = 0)) as [| Hz]; [done |].
    destruct (Hlive j e He Hz) as (b & c & Hb & _). by rewrite lookup_empty in Hb.
  - destruct (Hall i x) as (Hpos & e & He & Hz & Hf); [apply lookup_insert_eq |].
    rewrite (weights_insert f L _ e zero_stream_info He), msum_new by exact Hi.
    replace (weight f zero_stream_info) with 0 by done. rewrite Z.sub_0_r. apply R_add.
    2: { unfold weight. by rewrite (proj2 (Z.eqb_neq _ _) Hz). }
    assert (forall b c, m !! b = Some c -> i <> b /\ <[i := x]> m !! b = Some c) as Hm
      by (intros b c Hb; assert (i <> b) by congruence; by rewrite lookup_insert_ne).
    apply IH.
    + intros b c Hb. destruct (Hm b c Hb) as [Hib Hb']. destruct (Hall b c Hb') as (Hpos' & e' & He' & Hrest). split; [exact Hpos' |]. exists e'.
      rewrite list_lookup_insert_ne; [done |]. intros E. apply Hib, (Hinj _ _ _ _ (lookup_insert_eq _ _ _) Hb'). lia.
    + intros b b' c c' H1 H2. apply (Hinj b b' c c'); by apply Hm.
    + intros j e' He' Hz'. apply list_lookup_insert_Some in He' as [(<- & <- & _) | [Hj He']]; [done |].
      destruct (Hlive j e' He' Hz') as (b & c & Hb & <-). apply lookup_insert_Some in Hb as [[-> _] | [_ Hb]]; [done | by exists b, c].
Qed.

Lemma agrees_sum k used idx t s f g : agrees k used idx t s ->
  (forall c e, conv_entry (addr_dict s) c e -> R (f e) (g c)) -> R (live_sum f s) (msum g (ft_convs t)).
Proof.
  intros H Hfg. destruct (ag_convs _ _ _ _ _ H) as [Ce Ci Cl]. apply (weights_related f g idx).
  - intros b c Hb. destruct (Ce b c Hb) as (_ & e & He & Hc). apply aget_Val in He as [Hpos He]. split; [apply Hpos |].
    exists e. split; [exact He |]. split; [| by apply Hfg]. destruct Hc as [(_ & _ & Hz) _ _ (_ & _ & _ & ->) _ _ _ _]. exact Hz.
  - exact Ci.
  - intros j e He Hz. destruct (Cl (Z.of_nat j) e) as (b & c & Hb & Hj); [| exact Hz |].
    + apply aget_Val. rewrite Nat2Z.id. split; [| exact He]. apply lookup_lt_Some in He. lia.
    + exists b, c. split; [exact Hb |]. lia.
Qed.
End Sums.

(** ** What the shared block shows *)

Definition on_class (i : Z) (f : stream_info_t -> Z) (e : stream_info_t) : Z := if flow_class e =? i then f e else 0.
Definition on_proto (i : Z) (f : stream_info_t -> Z) (e : stream_info_t) : Z :=
  if bool_decide (shm_get_protocol (si_ipproto e) (si_rport e) = Some i) then f e else 0.
Definition on_addr (i : Z) (f : stream_info_t -> Z) (e : stream_info_t) : Z :=
  if bool_decide (i = si_idx_left e \/ i = si_idx_right e) then f e else 0.

(** The streams in use add up to the packets that counted, and every other counter is
    the sum over its streams, as far as 32 (or 16) bits go. *)
Record balanced (l : list packet) (s : shm_t) : Prop := {
  ba_streams : live_sum si_packets s = heard_count l /\ u32 (live_sum si_bytes s) = u32 (heard_len l);
  ba_total : aget (sh_flow_stats (g_shm s)) FLOW_TYPE_TOTAL = Val (flow_row (heard_count l, heard_len l));
  ba_classes : forall i, 0 <= i < FLOW_TYPE_TOTAL ->
    aget (sh_flow_stats (g_shm s)) i = Val (flow_row (live_sum (on_class i si_packets) s, live_sum (on_class i si_bytes) s));
  ba_protos : forall i, 0 <= i < SI_NUM_PROTOS -> exists q, aget (sh_protos (g_shm s)) i = Val q /\
    pi_packets q = u32 (live_sum (on_proto i si_packets) s) /\ pi_bytes q = u32 (live_sum (on_proto i si_bytes) s);
  ba_addrs : forall ip i, is_u32 ip -> addr_dict s !! addr_key_init_v4 ip = Some i -> exists a, addr_at s i a /\
    u32 (ai_txpackets a + ai_rxpackets a) = u32 (live_sum (on_addr i si_packets) s) /\
    ai_nstreams a = u16 (live_sum (on_addr i (fun _ => 1)) s) /\ ai_nstreams_active a = ai_nstreams a
}.

(** Equality of 32 bits. *)
Definition same32 (a b : Z) : Prop := u32 a = u32 b.

Lemma same32_add a b c d : same32 a b -> same32 c d -> same32 (a + c) (b + d).
Proof.
  unfold same32. intros H1 H2. by rewrite <- (u32_u32_add_l a c), <- (u32_u32_add_l b d), H1, <- (u32_u32_add_r _ c), <- (u32_u32_add_r _ d), H2.
Qed.

Lemma eq_add (a b c d : Z) : a = b -> c = d -> a + c = b + d.
Proof. by intros -> ->. Qed.

Section Views.
Context (k : ptr) (used : gset ptr) (idx : Z -> Z) (t : flow_table) (s : shm_t).
Context (H : agrees k used idx t s).

Lemma entry_class c e : conv_entry (addr_dict s) c e -> flow_class e = conv_class (cv_key c).
Proof. by intros []. Qed.

Lemma entry_service c e : conv_entry (addr_dict s) c e -> shm_get_protocol (si_ipproto e) (si_rport e) = conv_service (cv_key c).
Proof. intros [_ _ _ (_ & -> & -> & _) _ _ _]. reflexivity. Qed.

(** The streams of an address are the conversations it is an end of. *)
Lemma entry_peer ip i c e : addr_dict s !! addr_key_init_v4 ip = Some i -> conv_entry (addr_dict s) c e ->
  i = si_idx_left e \/ i = si_idx_right e <-> ip = conv_left c \/ ip = conv_right c.
Proof.
  intros Hi [_ Hl Hr _ _ _ _].
  assert (forall ip' j, addr_dict s !! addr_key_init_v4 ip' = Some j -> i = j <-> ip = ip') as Hone.
  { intros ip' j Hj. split; [| intros ->; congruence]. intros ->. destruct (decide (ip = ip')) as [| Hne]; [done |].
    by destruct (key_ne _ _ Hne), (dl_inj _ (ag_live _ _ _ _ _ H) _ _ _ Hi Hj). }
  by rewrite (Hone _ _ Hl), (Hone _ _ Hr).
Qed.

Lemma sum_packets (F : (stream_info_t -> Z) -> stream_info_t -> Z) (G : (conv -> Z) -> conv -> Z) f g :
  (forall c e, conv_entry (addr_dict s) c e -> F f e = G g c) -> live_sum (F f) s = msum (G g) (ft_convs t).
Proof. apply (agrees_sum eq eq_refl eq_add k used idx t s _ _ H). Qed.

Lemma sum_bytes (F : (stream_info_t -> Z) -> stream_info_t -> Z) (G : (conv -> Z) -> conv -> Z) :
  (forall c e, conv_entry (addr_dict s) c e -> exists b : bool, F si_bytes e = (if b then si_bytes e else 0) /\
    G cv_bytes c = (if b then cv_bytes c else 0)) ->
  u32 (live_sum (F si_bytes) s) = u32 (msum (G cv_bytes) (ft_convs t)).
Proof.
  intros HF. apply (agrees_sum same32 eq_refl same32_add k used idx t s _ _ H). intros c e Hc. unfold same32.
  destruct (HF c e Hc) as (b & -> & ->). destruct b; [| done]. rewrite (ce_bytes _ _ _ Hc). apply u32_small, u32_range.
Qed.
End Views.

(** Tables with the same books as a run of the abstract table show its sums. *)
Lemma agrees_balanced k used idx l s :
  agrees k used idx (book_all l empty_table) s -> views (book_all l empty_table) -> balanced l s.
Proof.
  set (t := book_all l empty_table). intros H [_ Vt Vc Vs Vp _].
  assert (total_row t = Some (heard_count l, heard_len l)) as Ht by (by apply (book_all_total l empty_table 0 0)).
  unfold total_row in Ht. rewrite Vt in Ht. injection Ht as Tp Tb.
  assert (forall i x y, 0 <= i -> ft_flows t !! Z.to_nat i = Some (x, y) -> aget (sh_flow_stats (g_shm s)) i = Val (flow_row (x, y))) as Hrow.
  { intros i x y Hi Hx. rewrite (ag_flows _ _ _ _ _ H). apply aget_Val. split; [exact Hi |]. by rewrite list_lookup_fmap, Hx. }
  pose proof (sum_packets k used idx t s H id id si_packets cv_packets (fun c e Hc => proj2 (ce_packets _ _ _ Hc))) as Sp.
  pose proof (sum_bytes k used idx t s H id id) as Sb. unfold id in Sp, Sb.
  split.
  - split; [by rewrite Sp | rewrite Sb; [by rewrite Tb |]]. intros c e _. by exists true.
  - rewrite <- Tp, <- Tb. by apply Hrow.
  - intros i Hi. rewrite (Hrow i _ _ (proj1 Hi) (Vc i Hi)). unfold flow_row. cbn [fst snd].
    rewrite (sum_packets k used idx t s H (on_class i) (of_class i) si_packets cv_packets), (sum_bytes k used idx t s H (on_class i) (of_class i)); [done | |].
    + intros c e Hc. unfold on_class, of_class. rewrite (entry_class s c e Hc). exists (conv_class (cv_key c) =? i). by split.
    + intros c e Hc. unfold on_class, of_class. rewrite (entry_class s c e Hc). by destruct (proj2 (ce_packets _ _ _ Hc)).
  - intros i Hi. eexists. split; [exact (ag_services _ _ _ _ _ H i Hi) |]. destruct (Vs i) as [S1 S2]. unfold service_of in S1, S2.
    cbn [service_row pi_packets pi_bytes]. rewrite S1, S2.
    rewrite (sum_packets k used idx t s H (on_proto i) (of_service i) si_packets cv_packets), (sum_bytes k used idx t s H (on_proto i) (of_service i)); [done | |].
    + intros c e Hc. unfold on_proto, of_service. rewrite (entry_service s c e Hc). exists (bool_decide (conv_service (cv_key c) = Some i)). by split; case_bool_decide.
    + intros c e Hc. unfold on_proto, of_service. rewrite (entry_service s c e Hc). by destruct (proj2 (ce_packets _ _ _ Hc)).
  - intros ip i Hip Hd. destruct (dict_peer _ _ _ _ (ag_peers _ _ _ _ _ H) Hip Hd) as (p & a & Hp & Ha & [_ [A1 _] A2 [A3 A4]]).
    exists a. split; [exact Ha |]. destruct (Vp ip) as [P1 P2]. unfold peer_of in P1, P2. rewrite Hp in P1, P2. cbn in P1, P2.
    rewrite A1, A2, A3, A4, u32_u32_add_l, u32_u32_add_r, P1, P2.
    rewrite (sum_packets k used idx t s H (on_addr i) (of_peer ip) si_packets cv_packets),
      (sum_packets k used idx t s H (on_addr i) (of_peer ip) (fun _ => 1) (fun _ => 1)); [done | |];
      intros c e Hc; unfold on_addr, of_peer; rewrite (bool_decide_ext _ _ (entry_peer k used idx t s H ip i c e Hd Hc)); [done |].
    by destruct (proj2 (ce_packets _ _ _ Hc)).
Qed.

(** ** Properties *)

Lemma refines_run use_shm env mem s k l : shm_data_init use_shm env mem = Val (Some s) -> k <> NULL -> bookable_all k ∅ l empty_table ->
  exists idx st, handle l (start_books s) = Val st /\ keeps_books k (used_after_all l ∅) idx (book_all l empty_table) st.
Proof.
  intros Hs Hk Hl. destruct (run_keeps_books k l Hk ∅ (fun _ => 0) empty_table (start_books s)) as (idx & st & H1 & H2 & _);
    [by eapply start_keeps_books | exact Hl | by exists idx, st].
Qed.

(** C1: the packet handler implements the flow table, as long as no sweep frees a
    stream.  From the state [shm_data_init] leaves, let packets of any number of
    interleaved conversations come that satisfy [bookable_all]: each is in a buffer of
    at least 96 bytes, with a captured length below 2^31; the first packet of a
    conversation has two different addresses and a time other than second 0, and comes
    while fewer than 254 LAN and fewer than 16126 other addresses are known; no
    conversation reaches 2^32 packets; the handler's key object is always at the same
    address, and the allocations for new conversations succeed, with new objects; and
    from the first counted packet with a FIN or RST on, packets come only in the first
    fifteen seconds of a minute, when the cleanup lists are not swept.  Then the handler
    runs to its end and the arrays, windows and tables of the shared block hold exactly
    the conversations, peers, services and flow rows that the abstract table [book_all]
    has for these packets: each conversation in a stream entry of its own that its
    bucket leads to, numbered in the order of their first packets, each peer in an
    address entry that the dictionary leads to, all counters equal up to their widths,
    and no other entry in use. *)
Theorem capture_refines_flow_table use_shm env mem s k l
    (Hs : shm_data_init use_shm env mem = Val (Some s)) (Hk : k <> NULL) (Hl : bookable_all k ∅ l empty_table) :
  exists idx st, handle l (start_books s) = Val st /\ agrees k (used_after_all l ∅) idx (book_all l empty_table) (cp_shm st).
Proof.
  destruct (refines_run _ _ _ _ _ _ Hs Hk Hl) as (idx & st & Hh & [Ha _ _]). by exists idx, st.
Qed.

(** C2: the counters of the shared block are consistent as long as no stream is freed.
    After any run of the packet handler from the state [shm_data_init] leaves, over
    packets that satisfy [bookable_all] - buffers of at least 96 bytes, captured lengths
    below 2^31; new conversations with two different addresses and a time other than
    second 0, while fewer than 254 LAN and 16126 other addresses are known; fewer than
    2^32 packets in a conversation; the handler's key object at one address, and
    allocations that succeed, with new objects; and from the first FIN or RST on only
    packets in the first fifteen seconds of a minute, so that no sweep frees a stream -,
    the packets of the streams in use add up to the packets that counted, and their
    lengths to the bytes, modulo 2^32; the row of each flow type is the sum over the
    streams of the type, the row of each protocol port the sum over its streams; and
    each address has sent and received what its streams carried and has as many streams
    as there are streams it is an end of.  (A sweep ends this: it takes streams out of
    use, but not their packets out of the totals.) *)
Theorem streams_add_up use_shm env mem s k l
    (Hs : shm_data_init use_shm env mem = Val (Some s)) (Hk : k <> NULL) (Hl : bookable_all k ∅ l empty_table) :
  exists st, handle l (start_books s) = Val st /\ balanced l (cp_shm st).
Proof.
  destruct (refines_run _ _ _ _ _ _ Hs Hk Hl) as (idx & st & Hh & [Ha _ _]). exists st. split; [exact Hh |].
  apply (agrees_balanced k _ idx l _ Ha), (book_all_views k l ∅); [exact views_empty | exact Hl].
Qed.

(** C32: a conversation whose key selects the bucket of another one is lost in it, as
    long as no stream was freed.  After packets, from the state [shm_data_init] leaves,
    that together with the packet in question satisfy [bookable_all] - buffers of at
    least 96 bytes, captured lengths below 2^31; new conversations with two different
    addresses and a time other than second 0, while fewer than 254 LAN and 16126 other
    addresses are known; fewer than 2^32 packets in a conversation; the handler's key
    object at one address, and allocations that succeed, with new objects; and from the
    first FIN or RST on only packets in the first fifteen seconds of a minute, so that
    no sweep frees a stream -, if some earlier packet's conversation [c] has the bucket
    of the packet's key, whatever the key's addresses and ports are, and the packet is
    one that counts, then it is counted on the stream of [c], with the ports and the
    addresses of [c]; no stream is made for it, and no address becomes known. *)
Theorem colliding_packet_misfiled use_shm env mem s k l p c
    (Hs : shm_data_init use_shm env mem = Val (Some s)) (Hk : k <> NULL) (Hl : bookable_all k ∅ (l ++ [p]) empty_table)
    (Hh : heard (pk_hdr p) (pk_buf p)) (Hc : ft_convs (book_all l empty_table) !! slot (pk_key p) = Some c) :
  exists st st' ss e e', handle l (start_books s) = Val st /\ handle [p] st = Val st' /\
    stream_at (cp_shm st) ss e /\ stream_at (cp_shm st') ss e' /\ si_packets e' = si_packets e + 1 /\
    si_lport e' = sk_lport (sk_v4 (cv_key c)) /\ si_rport e' = sk_rport (sk_v4 (cv_key c)) /\
    addr_dict (cp_shm st') !! addr_key_init_v4 (conv_left c) = Some (si_idx_left e') /\
    addr_dict (cp_shm st') !! addr_key_init_v4 (conv_right c) = Some (si_idx_right e') /\
    mi_num_entries (sh_stream_indexes (g_shm (cp_shm st'))) = mi_num_entries (sh_stream_indexes (g_shm (cp_shm st))) /\
    (forall ip, is_u32 ip -> known ip (cp_shm st') <-> known ip (cp_shm st)).
Proof.
  destruct (bookable_last k l p _ _ Hl) as (Hl1 & Hptr & Hb). destruct (refines_run _ _ _ _ _ _ Hs Hk Hl1) as (idx & st & Hrun & Hkb).
  set (t := book_all l empty_table) in *.
  destruct (handle_keeps_books k _ idx t st p Hk Hkb Hptr Hb) as (st' & idx' & Hp & [Ha' _ _] & Hidx).
  destruct Hkb as [Ha _ _].
  assert (book p t = tally p c t) as Hbook by (unfold book, pk_heard; rewrite bool_decide_eq_true_2 by exact Hh; by rewrite Hc, Hc).
  rewrite Hbook in Ha'.
  destruct (ca_entry _ _ _ (ag_convs _ _ _ _ _ Ha) _ _ Hc) as (_ & e & He & [_ _ _ _ _ [_ E1] _]).
  destruct (ca_entry _ _ _ (ag_convs _ _ _ _ _ Ha') (slot (pk_key p)) (count_conv (pk_len p) c)) as (_ & e' & He' & [_ D1 D2 (P1 & P2 & _) _ [_ E2] _]);
    [apply lookup_insert_eq |].
  rewrite Hidx in He' by (by eexists). exists st, st', (idx (slot (pk_key p))), e, e'. do 4 (split; [assumption |]).
  split; [rewrite E2, E1; done |]. do 4 (split; [assumption |]). split.
  - rewrite (ag_str _ _ _ _ _ Ha), (ag_str _ _ _ _ _ Ha'). cbn [tally ft_convs fill_info mi_num_entries].
    by rewrite map_size_insert_Some by (by eexists).
  - intros ip Hip. rewrite (peers_agree_known _ _ ip (ag_peers _ _ _ _ _ Ha) Hip), (peers_agree_known _ _ ip (ag_peers _ _ _ _ _ Ha') Hip).
    cbn [tally ft_peers]. rewrite <- !elem_of_dom, dom_alter_peers. done.
Qed.

(** ** Witnesses *)

Module FlowRunTest.
Import ShmTest PacketTest LifeTest ConversationTest.

(** The objects [malloc] returns for the [n]th packet. *)
Definition env_at (n : Z) : pkt_env := mk_pkt_env 5 6 7 (100 + 2 * n) (101 + 2 * n) true true true 0 0.

Definition frame_of (src sport flags : Z) : frame :=
  mk_frame (mac 16) (mac 32) (Tag 7) 0 64 1 2 64 0
    (ip_of 10 0 0 src) (ip_of 8 8 8 8) [1; 1; 1; 1] (Tcp sport 443 (replicate 8 9) 80 flags (replicate 64 0)).

Definition packet_of (n : Z) (f : frame) : packet := mk_packet (env_at n) syn_hdr (encode_frame f).

(** Two conversations: a host's first packet, another host's, the answer to the first
    host, and its last packet. *)
Definition talk : list packet :=
  [packet_of 0 syn; packet_of 1 (frame_of 2 4001 2); packet_of 2 reply; packet_of 3 (frame_of 1 4000 16)].

(** A packet of a third host whose key selects the bucket of the first conversation. *)
Definition stranger : packet := packet_of 4 (frame_of 2 10665 2).

Lemma stranger_bookable : bookable_all 5 ∅ (talk ++ [stranger]) empty_table.
Proof. apply bookable_allb_sound. vm_compute. reflexivity. Qed.

Lemma stranger_heard : heard (pk_hdr stranger) (pk_buf stranger).
Proof. apply (bool_decide_eq_true_1 (heard (pk_hdr stranger) (pk_buf stranger))). vm_compute. reflexivity. Qed.

Lemma talk_bookable : bookable_all 5 ∅ talk empty_table.
Proof. exact (proj1 (bookable_last _ _ _ _ _ stranger_bookable)). Qed.

(** What the abstract table holds after the four packets. *)
Example talk_books :
  size (ft_convs (book_all talk empty_table)) = 2%nat /\ size (ft_peers (book_all talk empty_table)) = 3%nat /\
  ft_peers (book_all talk empty_table) !! ip_of 10 0 0 1 = Some (mk_peer 2 284 1 1) /\ ft_ended (book_all talk empty_table) = false.
Proof. vm_compute. done. Qed.

Lemma capture_refines_flow_table_witness : exists s idx st, shm_data_init true env_ok mem0 = Val (Some s) /\
  handle talk (start_books s) = Val st /\ agrees 5 (used_after_all talk ∅) idx (book_all talk empty_table) (cp_shm st).
Proof.
  destruct (init_ready true) as (s & Hs & _).
  destruct (capture_refines_flow_table true env_ok mem0 s 5 talk Hs ltac:(discriminate) talk_bookable) as (idx & st & H1 & H2).
  exists s, idx, st. exact (conj Hs (conj H1 H2)).
Defined.

Lemma streams_add_up_witness : exists s st, shm_data_init true env_ok mem0 = Val (Some s) /\
  handle talk (start_books s) = Val st /\ live_sum si_packets (cp_shm st) = 4.
Proof.
  destruct (init_ready true) as (s & Hs & _).
  destruct (streams_add_up true env_ok mem0 s 5 talk Hs ltac:(discriminate) talk_bookable) as (st & H1 & H2).
  exists s, st. split; [exact Hs |]. split; [exact H1 |]. rewrite (proj1 (ba_streams _ _ H2)). vm_compute. reflexivity.
Defined.

Lemma colliding_packet_misfiled_witness : exists s st st' ss e e', shm_data_init true env_ok mem0 = Val (Some s) /\
  handle talk (start_books s) = Val st /\ handle [stranger] st = Val st' /\
  stream_at (cp_shm st) ss e /\ stream_at (cp_shm st') ss e' /\ si_packets e' = si_packets e + 1 /\
  si_lport e' = 4000 /\ sk_lport (sk_v4 (pk_key stranger)) = 10665.
Proof.
  destruct (init_ready true) as (s & Hs & _).
  assert (exists c, ft_convs (book_all talk empty_table) !! slot (pk_key stranger) = Some c /\ cv_key c = syn_key) as (c & Hc & Hkey)
    by (eexists; split; [vm_compute; reflexivity | vm_compute; reflexivity]).
  destruct (colliding_packet_misfiled true env_ok mem0 s 5 talk stranger c Hs ltac:(discriminate) stranger_bookable)
    as (st & st' & ss & e & e' & H1 & H2 & H3 & H4 & H5 & H6 & _).
  - exact stranger_heard.
  - exact Hc.
  - exists s, st, st', ss, e, e'. do 6 (split; [assumption |]). rewrite H6, Hkey. split; vm_compute; reflexivity.
Defined.
End FlowRunTest.
