(* ===== verification/Expiry.v ===== *)
(** Expired streams over several sweeps of [cleanup_expired_streams]: what becomes of a
    stream that is on the list and idle. *)
From S2P Require Import Prelude Structs MgArray StreamKey HashTable Packet Cleanup ShmData Capture Lifecycle Conversation Flows.
From stdpp Require Import list.
#[local] Open Scope Z_scope.

(** The middle of a minute: what is found expired then goes on the waiting list. *)
Definition mid_minute (tv : Z) : Prop := 15 <= tv mod 60 < 55.

Lemma mid_not_immediate tv : mid_minute tv -> immediate tv = false.
Proof. intros H. apply bool_decide_false. unfold mid_minute in H. lia. Qed.

(** A sweep whose list holds one stream. *)
Lemma sweep_one env tv s c ss s1 :
  shm_inv s -> cleanup_inv c -> list_items c = [ss] -> wait_items c = [] -> mid_minute tv ->
  let w := List.filter (expired tv (sh_streams (g_shm s))) (inside (sh_stream_indexes (g_shm s))) in
  (length w <= 1638)%nat -> cleanup_stream env ss s = Val s1 ->
  exists c1, cleanup_expired_streams env tv s c = Val (s1, c1) /\ cleanup_inv c1 /\ list_items c1 = w /\ wait_items c1 = [].
Proof.
  cbv zeta. intros Hi Hc Hl Hw Hm Hlen Hs1. unfold cleanup_expired_streams, STAT_PROCESS_TIME_SEC. unfold mid_minute in Hm.
  rewrite (proj2 (Z.ltb_ge _ _)) by lia. cbn [orb].
  pose proof (length_items _ (ci_list _ Hc)) as Hn. unfold list_items in Hl. rewrite Hl in Hn. cbn [length] in Hn.
  unfold alist_is_empty. rewrite <- Hn. cbn [Z.of_nat Z.eqb Pos.of_succ_nat].
  destruct (find_expired_ok tv s c Hi Hc) as (c' & -> & Hc' & Hq). rewrite bind_Val.
  unfold queue_add in Hq. rewrite mid_not_immediate in Hq by done. unfold queues in Hq. cbn [fst snd] in Hq.
  rewrite Hw in Hq. cbn [app] in Hq. rewrite take_ge in Hq by done. injection Hq as Hq1 Hq2.
  unfold list_items in Hq1. rewrite Hl in Hq1. pose proof (length_items _ (ci_list _ Hc')) as Hn'. rewrite Hq1 in Hn'. cbn [length] in Hn'.
  rewrite <- Hn'. change (seqZ 0 (Z.of_nat 1)) with [0]. cbn [for_each].
  assert (aget (al_entries (cleanup_streams_list c')) 0 = Val ss) as ->.
  { apply aget_Val. split; [done |]. unfold items in Hq1. rewrite <- Hn' in Hq1. change (Z.to_nat (Z.of_nat 1)) with 1%nat in Hq1.
    destruct (al_entries (cleanup_streams_list c')) as [| x l]; [done |]. cbn in Hq1. by injection Hq1 as ->. }
  rewrite bind_Val, Hs1, !bind_Val. destruct (move_wait_ok c' Hc') as (c1 & -> & Hc1 & H1 & H2). rewrite bind_Val.
  exists c1. split; [done |]. split; [done |]. split; [unfold list_items; rewrite H1; exact Hq2 | exact H2].
Qed.

Lemma filter_single (f : Z -> bool) l x :
  NoDup l -> x ∈ l -> f x = true -> (forall i, i <> x -> f i = false) -> List.filter f l = [x].
Proof.
  intros Hnd Hin Hx Ho. induction Hnd as [| y l Hy Hnd IH]; [by apply not_elem_of_nil in Hin |]. cbn [List.filter].
  assert (forall l', x ∉ l' -> List.filter f l' = []) as Hnone.
  { intros l'. induction l' as [| z l' IH']; [done |]. intros Hz. cbn [List.filter].
    rewrite (Ho z) by set_solver. apply IH'. set_solver. }
  destruct (decide (y = x)) as [-> | Hne].
  - rewrite Hx. by rewrite Hnone.
  - rewrite (Ho y Hne). apply IH. set_solver.
Qed.

Lemma filter_none (f : Z -> bool) l : (forall i, f i = false) -> List.filter f l = [].
Proof. intros Hf. induction l as [| x l IH]; [done |]. cbn. by rewrite Hf. Qed.

Lemma stream_inside s i e : shm_inv s -> stream_at s i e -> tv_sec (si_tstart e) <> 0 -> i ∈ inside (sh_stream_indexes (g_shm s)).
Proof.
  intros Hi He Hz. pose proof (aget_inv _ _ _ He) as Hb. pose proof (sv_streams _ Hi) as Hlen. unfold SI_NUM_STREAMS in Hlen.
  assert (taken (sh_streams (g_shm s)) i = true) as Ht.
  { unfold taken. unfold stream_at in He. rewrite He. apply bool_decide_eq_true.
    unfold entry_status, isempty_func, stream_isempty_func. cbn. by rewrite (proj2 (Z.eqb_neq _ _)). }
  pose proof (live_inside _ _ _ i (sv_str _ Hi) ltac:(cbn; lia) Ht) as Hw. apply elem_of_seqZ. lia.
Qed.

(** An end with one active stream, when that stream is freed and when it is freed again. *)
Lemma release_last a : ai_nstreams_active a = 1 ->
  ai_nstreams_active (release a) = 0 /\ tv_sec (ai_tstart (release a)) = 0 /\
  ai_nstreams_active (release (release a)) = 65535 /\ tv_sec (ai_tstart (release (release a))) = 0.
Proof.
  intros Ha. assert (release a = freed_addr (dec_nstreams_active a)) as -> by (unfold release, dec_nstreams_active; cbn; by rewrite Ha).
  unfold release. change (ai_nstreams_active (dec_nstreams_active (freed_addr (dec_nstreams_active a))))
    with (u16 (u16 (ai_nstreams_active a - 1) - 1)). rewrite Ha. change (u16 (u16 (1 - 1) - 1) =? 0) with false. cbv iota.
  change (ai_nstreams_active (freed_addr (dec_nstreams_active a))) with (u16 (ai_nstreams_active a - 1)).
  change (ai_nstreams_active (dec_nstreams_active (freed_addr (dec_nstreams_active a)))) with (u16 (u16 (ai_nstreams_active a - 1) - 1)).
  rewrite Ha. done.
Qed.

Lemma release_active a : ai_nstreams_active (release a) = ai_nstreams_active (dec_nstreams_active a).
Proof. unfold release. cbv zeta. by destruct (_ =? 0). Qed.

Lemma release_key e al ar : key_of_stream (freed_stream e) (release al) (release ar) = key_of_stream e al ar.
Proof.
  assert (forall a, ai_addr_offset (release a) = ai_addr_offset a) as H by (intros a; unfold release; cbv zeta; by destruct (_ =? 0)).
  unfold key_of_stream. by rewrite !H.
Qed.

(** ** Property *)

(** C26: a queued stream that is idle is freed twice.  Let a stream with one stream at
    each of its ends be on the cleanup list, and be the only stream without a packet for
    more than 30 seconds.  A sweep in the middle of a minute first queues it again,
    because it is still in use then, and then frees it with its two addresses: it
    leaves the freed entry on the list.  The next such sweep frees it again: both
    addresses, which are free and have no active stream, lose another one and count
    65535 of them. *)
Theorem idle_stream_freed_twice env tv s c ss e al ar
    (Hi : shm_inv s) (Hc : cleanup_inv c) (Hlist : list_items c = [ss]) (Hwait : wait_items c = []) (Htv : mid_minute tv)
    (Hs : stream_at s ss e) (Hidle : expired tv (sh_streams (g_shm s)) ss = true)
    (Hothers : forall i, i <> ss -> expired tv (sh_streams (g_shm s)) i = false)
    (Hl : addr_at s (si_idx_left e) al) (Hr : addr_at s (si_idx_right e) ar)
    (Hal : tv_sec (ai_tstart al) <> 0) (Har : tv_sec (ai_tstart ar) <> 0) (Hv4 : ai_isv6 al = 0)
    (Hone : ai_nstreams_active al = 1 /\ ai_nstreams_active ar = 1)
    (Hside : addr_side (si_idx_left e) <> addr_side (si_idx_right e)) (Hwin : windows s)
    (Hsh : shared_key (pe_key env) s) (Hshape : stream_tbl_shape s) (Hptr : pe_cleanup_key env <> pe_key env)
    (Hne : hcmp_stream_key (key_of_stream e al ar) (km_stream (g_mem s) (pe_key env)) <> 0) :
  exists s1 c1, cleanup_expired_streams env tv s c = Val (s1, c1) /\ shm_inv s1 /\
    taken (sh_streams (g_shm s1)) ss = false /\ list_items c1 = [ss] /\ wait_items c1 = [] /\
    addr_at s1 (si_idx_left e) (release al) /\ addr_at s1 (si_idx_right e) (release ar) /\
    tv_sec (ai_tstart (release al)) = 0 /\ tv_sec (ai_tstart (release ar)) = 0 /\
    forall env' tv', mid_minute tv' -> (forall i, i <> ss -> expired tv' (sh_streams (g_shm s)) i = false) ->
      pe_key env' = pe_key env -> pe_cleanup_key env' <> pe_key env' ->
      hcmp_stream_key (key_of_stream e al ar) (km_stream (g_mem s1) (pe_key env')) <> 0 ->
      exists s2 c2 al2 ar2, cleanup_expired_streams env' tv' s1 c1 = Val (s2, c2) /\ shm_inv s2 /\ list_items c2 = [] /\
        addr_at s2 (si_idx_left e) al2 /\ addr_at s2 (si_idx_right e) ar2 /\
        ai_nstreams_active al2 = 65535 /\ ai_nstreams_active ar2 = 65535.
Proof.
  pose proof (aget_inv _ _ _ Hs) as Hb.
  assert (tv_sec (si_tstart e) <> 0) as Hlive.
  { unfold expired in Hidle. unfold stream_at in Hs. rewrite Hs in Hidle. apply andb_true_iff in Hidle as [Hz _].
    by apply negb_true_iff, Z.eqb_neq in Hz. }
  destruct (freed_keeps_pair env ss s e al ar Hi Hs Hlive Hl Hr Hal Har Hv4 Hside Hwin Hsh Hshape Hptr Hne)
    as (s1 & Hc1 & Hi1 & Ht1 & Hst1 & Hl1 & Hr1 & _).
  assert (List.filter (expired tv (sh_streams (g_shm s))) (inside (sh_stream_indexes (g_shm s))) = [ss]) as Hf.
  { apply filter_single; [apply NoDup_seqZ | by apply (stream_inside s ss e) | exact Hidle | exact Hothers]. }
  destruct (sweep_one env tv s c ss s1 Hi Hc Hlist Hwait Htv) as (c1 & Hsw & Hci1 & Hli & Hwi);
    [rewrite Hf; cbn; lia | exact Hc1 |]. rewrite Hf in Hli.
  destruct Hone as [Oal Oar]. destruct (release_last al Oal) as (A1 & A2 & A3 & _), (release_last ar Oar) as (B1 & B2 & B3 & _).
  assert (stream_at s1 ss (freed_stream e)) as Hs1 by (unfold stream_at; by rewrite Hst1, aget_insert_eq).
  exists s1, c1. split; [exact Hsw |]. split; [exact Hi1 |].
  split; [unfold taken; rewrite Hs1; reflexivity |]. do 6 (split; [assumption |]).
  intros env' tv' Htv' Hoth' Hpk Hptr' Hne'.
  assert (forall i a, ai_nstreams_active (release a) = 65535 -> releasable i a s1) as Hrel
    by (intros i a H H0; rewrite release_active, H0 in H; done).
  set (s0 := store_stream_key (pe_cleanup_key env') (key_of_stream e al ar) s1).
  assert (HashTableRemove (pe_ok_rehash env') (g_mem s0) (ht_streams s1) (pe_cleanup_key env') = Val (ht_streams s1, g_mem s0)) as Hrm.
  { apply (shared_remove _ (pe_key env') _ s0).
    - unfold shared_key in *. change (ht_streams s0) with (ht_streams s1). by rewrite Ht1, Hpk.
    - destruct Hshape. split; change (ht_streams s0) with (ht_streams s1); by rewrite Ht1.
    - unfold s0. cbn. rewrite fn_lookup_insert, fn_lookup_insert_ne by done. exact Hne'. }
  destruct (cleanup_freed_ok env' ss s1 (freed_stream e) (release al) (release ar) (ht_streams s1) Hi1 Hs1 eq_refl Hl1 Hr1
    (Hrel _ _ A3) (Hrel _ _ B3) Hside) as (s2 & Hc2 & Hi2 & _ & Hst2 & Hl2 & Hr2).
  { unfold release. cbv zeta. by destruct (_ =? 0). }
  { rewrite release_key. exact Hrm. }
  assert (List.filter (expired tv' (sh_streams (g_shm s1))) (inside (sh_stream_indexes (g_shm s1))) = []) as Hf'.
  { apply filter_none. intros i. destruct (decide (i = ss)) as [-> | Hn]; unfold expired in *.
    - unfold stream_at in Hs1. by rewrite Hs1.
    - rewrite Hst1, aget_insert_ne by (congruence || lia). by apply Hoth'. }
  destruct (sweep_one env' tv' s1 c1 ss s2 Hi1 Hci1 Hli Hwi Htv') as (c2 & Hsw2 & _ & Hli2 & _);
    [rewrite Hf'; cbn; lia | exact Hc2 |]. rewrite Hf' in Hli2.
  exists s2, c2, (release (release al)), (release (release ar)). by repeat (split; [assumption |]).
Qed.

(** ** Without the end of a connection *)

(** The streams in use. *)
Definition used (s : shm_t) (i : Z) : Prop := exists e, stream_at s i e /\ tv_sec (si_tstart e) <> 0.

(** Every stream in use is still in use. *)
Definition keeps (s s' : shm_t) : Prop := forall i, used s i -> used s' i.

Lemma keeps_refl s : keeps s s.
Proof. by intros i. Qed.

Lemma keeps_quiet s0 s s' : keeps s0 s -> quiet s s' -> keeps s0 s'.
Proof. intros H [_ Q] i Hu. destruct (H i Hu) as (e & He & Hz). exists e. unfold stream_at in *. by rewrite Q. Qed.

Lemma put_used s s' i e' : used s' i \/ tv_sec (si_tstart e') <> 0 -> 0 <= i < Z.of_nat (length (sh_streams (g_shm s))) ->
  sh_streams (g_shm s') = <[Z.to_nat i := e']> (sh_streams (g_shm s)) -> keeps s s'.
Proof.
  intros Hi Hb Hs' j (e & He & Hz). unfold used, stream_at in *. rewrite Hs' in *. destruct (decide (i = j)) as [<- | Hne].
  - rewrite aget_insert_eq in * by done. destruct Hi as [Hi | Hi]; [exact Hi | by exists e'].
  - exists e. by rewrite aget_insert_ne by lia.
Qed.

Lemma keeps_trans s0 s s' : keeps s0 s -> keeps s s' -> keeps s0 s'.
Proof. intros H1 H2 i Hu. by apply H2, H1. Qed.

(** An update of a stream that does not clear its start time. *)
Lemma upd_stream_keeps_used j f s s0 :
  keeps s0 s -> (forall e, tv_sec (si_tstart e) <> 0 -> tv_sec (si_tstart (f e)) <> 0) -> yields (keeps s0) (upd_stream j f s).
Proof.
  intros H Hf. unfold upd_stream. destruct (aget (sh_streams (g_shm s)) j) as [e | |] eqn:E; [| done ..]. rewrite bind_Val.
  pose proof (aget_inv _ _ _ E) as Hb. rewrite aset_lt, bind_Val by done. cbn [yields]. apply (keeps_trans _ s); [exact H |].
  intros i (b & He & Hz). unfold used, stream_at in *. cbn. destruct (decide (j = i)) as [<- | Hne].
  - exists (f e). rewrite aget_insert_eq by done. split; [done |]. apply Hf. congruence.
  - exists b. by rewrite aget_insert_ne by lia.
Qed.

Lemma stream_alloc_keeps okp okr key s s0 : keeps s0 s -> yields (fun r => keeps s0 (snd r)) (shm_stream_alloc okp okr key s).
Proof.
  intros H. unfold shm_stream_alloc.
  destruct (mga_alloc_entry _ _ _) as [[[[i |] p] arr] | |] eqn:Ha; [| | done | done]; rewrite bind_Val; cbv zeta.
  - destruct (alloc_content _ _ _ _ _ _ Ha) as (e & He & ->). apply yields_any. intros [[st ht] m].
    apply (yields_bind (keeps s0)); [| done]. apply upd_stream_keeps_used; [| done].
    apply (keeps_trans _ s); [exact H |]. pose proof (aget_inv _ _ _ He) as Hb.
    apply (put_used s _ i (fst (isempty_func e MGA_OP_TSTSET))); [right | exact Hb | reflexivity].
    unfold isempty_func, stream_isempty_func. cbn [fst]. destruct (Z.eqb_spec (tv_sec (si_tstart e)) 0); [done | assumption].
  - by rewrite (alloc_none _ _ _ _ _ Ha).
Qed.

Lemma new_stream_keeps env hdr buf pkt fl key s s0 :
  tv_sec (hdr_ts hdr) <> 0 -> keeps s0 s -> yields (fun r => keeps s0 (snd r)) (new_stream env hdr buf pkt fl key s).
Proof.
  intros Hts H. unfold new_stream. apply (yields_bind _ _ _ _ (stream_alloc_keeps _ _ _ s s0 H)).
  intros [[ss |] s1] H1; [| exact H1]. cbn [snd] in H1. cbv zeta.
  apply (yields_bind _ _ _ _ (addr_for_quiet env _ _ _ _ buf s1 s1 (quiet_refl s1))). intros [[al il] s2] Q2.
  apply (yields_bind _ _ _ _ (addr_for_quiet env _ _ _ _ buf s2 s1 Q2)). intros [[ar ir] s3] Q3.
  apply (yields_bind (keeps s0)); [apply upd_stream_keeps_used; [by apply (keeps_quiet s0 s1) | by intros e _] |]. intros s4 H4.
  apply (yields_bind (keeps s0)); [| done]. unfold set_stream_flow_flags. do 4 (apply yields_any; intros ?).
  apply upd_stream_keeps_used; [exact H4 |]. intros e He. unfold stream_flow_flags. by repeat case_match.
Qed.

Lemma stream_packet_keeps hdr buf pkt dir ss s c s0 :
  istcp pkt = 0 \/ isfin pkt = 0 -> keeps s0 s ->
  yields (fun r => keeps s0 (fst r) /\ snd r = c) (stream_packet hdr buf pkt dir ss s c).
Proof.
  intros Hfin H. unfold stream_packet. cbv zeta. apply (yields_bind (keeps s0)); [by apply upd_stream_keeps_used |]. intros s1 H1.
  apply (yields_bind (fun r => keeps s0 (fst r) /\ snd r = c)).
  { unfold tcp_update. destruct (Z.eqb_spec (istcp pkt) 0) as [Hz | Hz]; [by split |].
    apply (yields_bind (keeps s0)); [by apply upd_stream_keeps_used |]. intros s2 H2. apply yields_any. intros e.
    destruct Hfin as [Hf | Hf]; [done |]. rewrite Hf. by split. }
  intros [s2 c2] [H2 Hc2]. cbn [fst snd] in *. apply yields_any. intros e. apply (yields_bind (keeps s0)).
  { destruct (_ =? 1); [| done]. apply yields_any. intros v. by apply upd_stream_keeps_used. }
  intros s3 H3. apply (yields_bind (keeps s0)).
  { unfold inc_stream_counters. apply (yields_bind (keeps s0)); [by apply upd_stream_keeps_used |]. intros s4 H4.
    do 3 (apply yields_any; intros ?).
    assert (forall m, yields (quiet s4) m -> yields (keeps s0) m) as Hq
      by (intros m Hm; destruct m; [by apply (keeps_quiet s0 s4) | done ..]).
    apply Hq. apply (yields_bind (quiet s4)); [| intros s5; apply inc_addr_ctrs_quiet].
    destruct (_ =? 1); [| done]. repeat (apply (yields_bind (quiet s4)); [by apply upd_addr_quiet | intros ? ?]). by apply upd_addr_quiet. }
  intros s4 H4. apply (yields_bind (keeps s0)).
  { unfold shm_inc_flow_stats. apply yields_any. intros e'. apply yields_assert. unfold upd_flow. by do 2 (apply yields_any; intros ?). }
  intros s5 H5. apply yields_any. intros e'. apply (yields_bind _ _ _ _ (protocol_quiet _ _ dir _ s5 s5 (quiet_refl s5))).
  intros s6 Q6. split; [by apply (keeps_quiet s0 s5) | exact Hc2].
Qed.

(** A packet that does not end a connection. *)
Definition not_final (buf : list Z) : Prop := istcp (packet_info buf) = 0 \/ isfin (packet_info buf) = 0.

Lemma packet_step_keeps env hdr buf s c :
  packet_ok hdr buf -> tv_sec (hdr_ts hdr) <> 0 -> not_final buf ->
  yields (fun r => keeps s (snd (fst r)) /\ snd r = c) (packet_step env hdr buf s c).
Proof.
  intros (Hl & Hb & Hc) Hts Hfin. unfold packet_step.
  destruct (net_parse_eq (hdr_caplen hdr) buf pkt_init Hl Hb Hc) as (st & pkt & -> & _ & _ & Hpd). rewrite bind_Val.
  destruct (Z.eqb_spec st PARSE_ERR_OK) as [-> | Hne]; cbn [negb]; [| split; [apply keeps_refl | done]].
  specialize (Hpd eq_refl). rewrite (parsed_key buf pkt Hl Hpd), bind_Val. destruct (packet_key buf) as [fl key]. cbv zeta.
  set (s0 := store_stream_key _ _ s). assert (keeps s s0) as H0 by (by intros i).
  destruct (_ || _); [by split |]. apply (yields_bind (keeps s)).
  { unfold shm_inc_global. apply (yields_bind (keeps s)); [unfold upd_flow; by do 2 (apply yields_any; intros ?) |].
    intros s1 H1. cbv zeta. by destruct (_ =? 0). }
  intros s1 H1. destruct (negb _); [by split |]. apply yields_any. intros found.
  apply (yields_bind (fun r => keeps s (snd r))); [destruct found; [exact H1 | by apply new_stream_keeps] |].
  intros [[ss |] s2] H2; [| by split]. cbn [snd] in H2.
  assert (istcp pkt = 0 \/ isfin pkt = 0) as Hfin'.
  { rewrite (pd_tcp _ _ Hpd), (pd_fin _ _ Hpd). exact Hfin. }
  apply (yields_bind _ _ _ _ (stream_packet_keeps hdr buf pkt _ ss s2 c s Hfin' H2)). by intros [s3 c3] [H3 Hc3].
Qed.

(** A packet of a run without ends of connections. *)
Definition plain (p : packet) : Prop :=
  packet_ok (pk_hdr p) (pk_buf p) /\ tv_sec (hdr_ts (pk_hdr p)) <> 0 /\ not_final (pk_buf p).

Lemma idle_run st0 l : Forall plain l -> cleanup_inv (cp_cleanup st0) -> list_items (cp_cleanup st0) = [] ->
  forall st, cp_cleanup st = cp_cleanup st0 -> keeps (cp_shm st0) (cp_shm st) ->
  yields (fun st' => cp_cleanup st' = cp_cleanup st0 /\ keeps (cp_shm st0) (cp_shm st')) (handle l st).
Proof.
  intros Hl Hc Hq. induction Hl as [| p l (Hp & Hts & Hf) Hl IH]; intros st E1 K1; [by split |].
  unfold handle. cbn [for_each]. apply (yields_bind (fun st2 => cp_cleanup st2 = cp_cleanup st0 /\ keeps (cp_shm st0) (cp_shm st2)));
    [| intros st2 [E2 K2]; exact (IH st2 E2 K2)].
  unfold on_packet. cbn [run_sim]. rewrite bind_Val.
  pose proof (packet_step_keeps (pk_env p) (pk_hdr p) (pk_buf p) (cp_shm st) (cp_cleanup st) Hp Hts Hf) as Hst.
  destruct (packet_step _ _ _ _ _) as [[[counted s] c] | |]; [| done ..]. destruct Hst as [Ks Ec]. cbn [fst snd] in Ks, Ec.
  rewrite bind_Val. cbv zeta. rewrite E1 in Ec. subst c.
  assert (keeps (cp_shm st0) s) as K2 by (by apply (keeps_trans _ (cp_shm st))).
  destruct (negb counted); [by split |]. rewrite bind_Val. destruct (_ <? _); [| by split].
  unfold cleanup_expired_streams. cbn [cp_cleanup]. rewrite (list_empty _ Hc Hq), orb_true_r. by split.
Qed.

(** C27: without the end of a connection no stream is ever freed.  Expired streams are
    only looked for when the cleanup list is not empty, and only a FIN or RST puts the
    first one there: while the lists are empty and no packet ends a connection, the
    handler leaves the lists empty and every stream that is in use stays in use, however
    long it has been idle - whatever the packets and the state are. *)
Theorem idle_streams_stay l st st'
    (Hl : Forall plain l) (Hc : cleanup_inv (cp_cleanup st)) (Hq : list_items (cp_cleanup st) = [])
    (Hh : handle l st = Val st') :
  cp_cleanup st' = cp_cleanup st /\ forall i, used (cp_shm st) i -> used (cp_shm st') i.
Proof. pose proof (idle_run st l Hl Hc Hq st eq_refl (keeps_refl _)) as H. by rewrite Hh in H. Qed.

(** ** Witnesses *)
Module ExpiryTest.
Import ShmTest PacketTest LifeTest.

(** The cleanup lists with the stream on the first one. *)
Definition listed (ss : Z) : cleanup_t :=
  match add_stream_to_cleanup_list 0 ss cleanup_init with Val c => c | _ => cleanup_init end.

Lemma listed_ok ss : cleanup_inv (listed ss) /\ list_items (listed ss) = [ss] /\ wait_items (listed ss) = [].
Proof.
  destruct (add_stream_take 0 ss cleanup_init cleanup_init_inv) as (c & Hc & Hi & Hq). unfold listed. rewrite Hc.
  split; [exact Hi |]. injection Hq as H1 H2. rewrite H1, H2. split; reflexivity.
Qed.

Lemma idle_stream_freed_twice_witness :
  exists s s1 ss c1, cleanup_expired_streams env0 1095 s (listed ss) = Val (s1, c1) /\
    taken (sh_streams (g_shm s1)) ss = false /\ list_items c1 = [ss].
Proof.
  destruct syn_first as (s0 & ss & il & ir & e & al & ar & [[A1 [W1 W2 W3]] A2
    (F1 & F2 & F3 & F4 & F5 & F6 & F7) (A4 & L1 & L2 & L3 & L4) (A5 & R1 & R3 & R4) [A6 A6'] A7 T1 T2]).
  set (s := store_stream_key 5 zero_stream_key s0).
  destruct (syn_table s ss A7) as (Hsh & Hshape & _). destruct (listed_ok ss) as (C1 & C2 & C3).
  destruct (idle_stream_freed_twice env0 1095 s (listed ss) ss e al ar) as (s1 & c1 & H1 & _ & H2 & H3 & _).
  - exact (store_stream_inv _ _ _ A1).
  - exact C1.
  - exact C2.
  - exact C3.
  - split; [discriminate | reflexivity].
  - exact A2.
  - unfold expired. change (sh_streams (g_shm s)) with (sh_streams (g_shm s0)). unfold stream_at in A2. rewrite A2, F6, T1. reflexivity.
  - intros i Hne. unfold expired. change (sh_streams (g_shm s)) with (sh_streams (g_shm s0)).
    destruct (aget (sh_streams (g_shm s0)) i) as [b | |] eqn:E; [| reflexivity | reflexivity].
    rewrite (T2 i b Hne E). reflexivity.
  - rewrite F1. exact A4.
  - rewrite F2. exact A5.
  - rewrite L1. discriminate.
  - rewrite R1. discriminate.
  - exact L2.
  - exact (conj L3 R3).
  - rewrite F1, F2, A6, A6'. discriminate.
  - split; [exact W1 | exact W2 | exact W3].
  - exact Hsh.
  - exact Hshape.
  - discriminate.
  - assert (km_stream (g_mem s) (pe_key env0) = zero_stream_key) as -> by apply fn_lookup_insert.
    unfold key_of_stream. rewrite F3, F4, F5, L4, R4. vm_compute. discriminate.
  - exists s, s1, ss, c1. exact (conj H1 (conj H2 H3)).
Defined.

(** The answer 95 seconds after the first packet, when a sweep would be due. *)
Definition late : packet := mk_packet env0 (mk_pcap_pkthdr32_t (mk_tval_t 1095 0) 142 142) (encode_frame ConversationTest.reply).

Lemma late_follows : follows 5 (pk_key ConversationTest.first) late.
Proof. destruct ConversationTest.answer_follows. by split. Qed.

Lemma late_plain : plain late.
Proof.
  destruct (fo_bytes _ _ _ late_follows). split; [| split; [discriminate | right; vm_compute; reflexivity]].
  split; [assumption |]. split; [assumption |]. split; [discriminate | reflexivity].
Qed.

Lemma idle_streams_stay_witness : exists st st' ss, handle [late; late] st = Val st' /\ used (cp_shm st') ss.
Proof.
  destruct ready_state as [s Hr].
  destruct (start_ok 5 (put_tbl (store_stream_key 5 syn_key s)) (ConversationTest.start_of s) ConversationTest.first)
    as (st & ss & il & ir & al & ar & e & al1 & ar1 & _ & Ht & P1 & _ & _ & _ & _ & _ & _ & P2 & _ & _ & _ & _ & _ & _ & Hch);
    [exact (rd_inv _ Hr) | exact cleanup_init_inv | reflexivity | exact (ConversationTest.first_opens s Hr) |
     exact (ConversationTest.first_inserted s Hr) |].
  destruct (talk_all 5 ss [late; late] st e al1 ar1 Ht) as (st' & e' & al' & ar' & Hh & _).
  { assert (stream_packet_in 5 ss (cp_shm st) late) as Hin.
    { apply (follows_in 5 ss _ ConversationTest.first); [split; vm_compute; discriminate | exact Hch | exact late_follows]. }
    constructor; [exact Hin |]. constructor; [exact Hin | constructor]. }
  { rewrite P1. discriminate. }
  { rewrite P1. reflexivity. }
  destruct (idle_streams_stay [late; late] st st') as [_ H].
  - constructor; [exact late_plain |]. constructor; [exact late_plain | constructor].
  - exact (proj1 (tk_cleanup _ _ _ _ _ _ Ht)).
  - exact (proj2 (tk_cleanup _ _ _ _ _ _ Ht)).
  - exact Hh.
  - exists st, st', ss. split; [exact Hh |]. apply H. exists e. split; [exact (tk_stream _ _ _ _ _ _ Ht) |].
    rewrite P2. discriminate.
Defined.
End ExpiryTest.
