(* ===== verification/Sweeps.v ===== *)
(** A sweep of [cleanup_expired_streams] over a list of any number of streams: what is
    freed, what is kept, and that the addresses count the streams that are left. *)
From S2P Require Import Prelude Structs MgArray IpUtils StreamKey HashTable Packet Cleanup ShmData Capture Lifecycle Conversation Flows FlowTable FlowViews Bookkeeping FlowRun Expiry.
From stdpp Require Import list gmap.
#[local] Open Scope Z_scope.

(** ** Counting the streams of an address *)

Definition is_end (k : Z) (e : stream_info_t) : Prop := k = si_idx_left e \/ k = si_idx_right e.

Definition live_stream (s : shm_t) (i : Z) (e : stream_info_t) : Prop := stream_at s i e /\ tv_sec (si_tstart e) <> 0.

(** The streams in use that the address entry [k] is an end of. *)
Definition active (k : Z) (s : shm_t) : Z := live_sum (on_addr k (fun _ => 1)) s.

Lemma on_addr_one k e : on_addr k (fun _ => 1) e = if bool_decide (is_end k e) then 1 else 0.
Proof. reflexivity. Qed.

Lemma one_weight k e : 0 <= weight (on_addr k (fun _ => 1)) e <= 1.
Proof. unfold weight. rewrite on_addr_one. repeat case_match; lia. Qed.

Lemma live_weight k e : tv_sec (si_tstart e) <> 0 -> weight (on_addr k (fun _ => 1)) e = if bool_decide (is_end k e) then 1 else 0.
Proof. intros Hz. unfold weight. by rewrite (proj2 (Z.eqb_neq _ _) Hz). Qed.

Lemma weights_range k (L : list stream_info_t) :
  0 <= foldr (fun e n => weight (on_addr k (fun _ => 1)) e + n) 0 L <= Z.of_nat (length L).
Proof. induction L as [| e L IH]; [done |]. cbn [foldr length]. pose proof (one_weight k e). lia. Qed.

Lemma active_range k s : 0 <= active k s <= Z.of_nat (length (sh_streams (g_shm s))).
Proof. apply weights_range. Qed.

(** What the release of a stream leaves of a count. *)
Lemma active_freed k s s' i e : live_stream s i e -> sh_streams (g_shm s') = <[Z.to_nat i := freed_stream e]> (sh_streams (g_shm s)) ->
  active k s' = active k s - (if bool_decide (is_end k e) then 1 else 0).
Proof.
  intros [He Hz] Hs'. unfold active, live_sum. rewrite Hs'. apply aget_Val in He as [_ He].
  rewrite (weights_insert (on_addr k (fun _ => 1)) _ _ e (freed_stream e) He), (live_weight k e Hz).
  change (weight (on_addr k (fun _ => 1)) (freed_stream e)) with 0. lia.
Qed.

Lemma active_pos k s i e : live_stream s i e -> is_end k e -> 1 <= active k s.
Proof.
  intros [He Hz] Hk. unfold active, live_sum. apply aget_Val in He as [_ He].
  rewrite (weights_insert (on_addr k (fun _ => 1)) _ _ e zero_stream_info He), (live_weight k e Hz), bool_decide_true by done.
  change (weight (on_addr k (fun _ => 1)) zero_stream_info) with 0.
  pose proof (weights_range k (<[Z.to_nat i := zero_stream_info]> (sh_streams (g_shm s)))). lia.
Qed.

Lemma active_small k s : shm_inv s -> 0 <= active k s < 65536.
Proof. intros Hi. pose proof (active_range k s) as H. rewrite (sv_streams _ Hi) in H. unfold SI_NUM_STREAMS in H. lia. Qed.

(** ** Addresses that count their streams *)

(** The entry of an address when [n] of its streams are in use; without any it is free. *)
Definition with_active (n : Z) (a : addr_info_t) : addr_info_t :=
  let a := set_ai_nstreams_active n a in if n =? 0 then freed_addr a else a.

Lemma with_active_live n a : n <> 0 -> with_active n a = set_ai_nstreams_active n a.
Proof. intros H. unfold with_active. by rewrite (proj2 (Z.eqb_neq _ _) H). Qed.

Lemma with_active_same a : ai_nstreams_active a <> 0 -> with_active (ai_nstreams_active a) a = a.
Proof. intros H. rewrite with_active_live by done. by destruct a. Qed.

(** One stream less. *)
Lemma release_active_less n a : 0 < n < 65536 -> release (with_active n a) = with_active (n - 1) a.
Proof.
  intros H. rewrite (with_active_live n) by lia. unfold release, with_active, dec_nstreams_active. cbn.
  rewrite u16_small by (unfold is_u16; lia). done.
Qed.

Lemma dec_active n a : 0 < n < 65536 -> ai_nstreams_active (dec_nstreams_active (with_active n a)) = n - 1.
Proof. intros H. rewrite with_active_live by lia. cbn. apply u16_small. unfold is_u16. lia. Qed.

(** The ends of the streams in use are different entries in use that count these
    streams. *)
Definition counted_end (s : shm_t) (k : Z) : Prop :=
  exists a, addr_at s k a /\ tv_sec (ai_tstart a) <> 0 /\ ai_isv6 a = 0 /\ ai_nstreams_active a = active k s.

Definition ends_counted (s : shm_t) : Prop := forall i e, live_stream s i e ->
  si_idx_left e <> si_idx_right e /\ counted_end s (si_idx_left e) /\ counted_end s (si_idx_right e).

Lemma counted_end_of s i e k : ends_counted s -> live_stream s i e -> is_end k e -> counted_end s k.
Proof. intros H Hl [-> | ->]; by apply (H i e Hl). Qed.

Lemma live_straddles_stream s i e : shm_inv s -> live_stream s i e -> mga_mid streams_mga <= i ->
  straddles streams_mga (sh_stream_indexes (g_shm s)).
Proof.
  intros Hi [He Hz] Hm. pose proof (stream_inside s i e Hi He Hz) as H. apply elem_of_seqZ in H.
  pose proof (inv_window _ _ _ (sv_str _ Hi)) as Hw. unfold straddles. lia.
Qed.

(** ** What a sweep leaves *)

(** The state after the streams [dn] are freed one after the other. *)
Record swept (p : ptr) (dn : list Z) (s s' : shm_t) : Prop := {
  sw_inv : shm_inv s';
  sw_streams : forall i e, stream_at s i e -> stream_at s' i (if bool_decide (i ∈ dn) then freed_stream e else e);
  sw_ends : forall i e k a, live_stream s i e -> is_end k e -> addr_at s k a -> addr_at s' k (with_active (active k s') a);
  sw_others : forall k a, addr_at s k a -> (forall i e, i ∈ dn -> stream_at s i e -> is_end k e -> False) -> addr_at s' k a;
  sw_tbls : ht_streams s' = ht_streams s /\ addr_dict s' = addr_dict s;
  sw_key : km_stream (g_mem s') p = km_stream (g_mem s) p;
  sw_counters : sh_flow_stats (g_shm s') = sh_flow_stats (g_shm s) /\ sh_protos (g_shm s') = sh_protos (g_shm s)
}.

(** What is left when the streams of the list are gone: a stream beyond the middle of
    the array, and on the side of each end of a listed stream an end of such a stream. *)
Record anchored (L : list Z) (s : shm_t) : Prop := {
  an_stream : exists i e, live_stream s i e /\ (i ∉ L) /\ mga_mid streams_mga <= i;
  an_side : forall i e k, live_stream s i e -> i ∈ L -> is_end k e ->
    exists k' i' e', live_stream s i' e' /\ (i' ∉ L) /\ is_end k' e' /\ addr_side k' = addr_side k /\ mga_mid (side_mga (addr_side k)) <= k'
}.

Section Sweep.
Context (env : pkt_env) (s : shm_t) (Hi : shm_inv s) (Hec : ends_counted s).

Lemma swept_nil p : swept p [] s s.
Proof.
  split; try done. intros i e k a Hl Hk Ha. destruct (counted_end_of s i e k Hec Hl Hk) as (a' & Ha' & _ & _ & Hn).
  assert (a' = a) as -> by (unfold addr_at in *; congruence). pose proof (active_pos k s i e Hl Hk).
  rewrite <- Hn, with_active_same by lia. exact Ha.
Qed.

Lemma swept_keeps p dn s' i e : swept p dn s s' -> live_stream s i e -> i ∉ dn -> live_stream s' i e.
Proof. intros H [He Hz] Hn. split; [| exact Hz]. pose proof (sw_streams _ _ _ _ H i e He) as He'. by rewrite bool_decide_false in He'. Qed.

Lemma swept_live p dn s' i e : swept p dn s s' -> live_stream s' i e -> live_stream s i e /\ i ∉ dn.
Proof.
  intros H [He Hz]. pose proof (aget_inv _ _ _ He) as Hb. rewrite (sv_streams _ (sw_inv _ _ _ _ H)), <- (sv_streams _ Hi) in Hb.
  destruct (aget_lt _ _ Hb) as [x Hx]. pose proof (sw_streams _ _ _ _ H i x Hx) as Hx'. unfold stream_at in He, Hx'. rewrite He in Hx'.
  injection Hx' as ->. case_bool_decide; [done |]. by split.
Qed.

(** An end of a stream that is still in use. *)
Lemma swept_end p dn s' i e k : swept p dn s s' -> live_stream s' i e -> is_end k e -> exists a, addr_at s k a /\
  ai_isv6 a = 0 /\ addr_at s' k (with_active (active k s') a) /\ tv_sec (ai_tstart a) <> 0 /\ 0 < active k s' < 65536.
Proof.
  intros H Hl Hk. pose proof (active_pos k s' i e Hl Hk). pose proof (active_small k s' (sw_inv _ _ _ _ H)).
  apply (swept_live p dn s' i e H) in Hl as [Hl _]. destruct (counted_end_of s i e k Hec Hl Hk) as (a & Ha & Hz & Hv & _).
  exists a. split; [exact Ha |]. split; [exact Hv |]. split; [exact (sw_ends _ _ _ _ H i e k a Hl Hk Ha) |]. split; [exact Hz | lia].
Qed.

Lemma swept_counted p dn s' : swept p dn s s' -> ends_counted s'.
Proof.
  intros H i e Hl. split; [by apply (Hec i e), (swept_live p dn s' i e H Hl) |].
  assert (forall k, is_end k e -> counted_end s' k) as Hk; [| by split; apply Hk; [left | right]].
  intros k Hk. destruct (swept_end p dn s' i e k H Hl Hk) as (a & _ & Hv & Ha' & Hz & Hn).
  exists (with_active (active k s') a). split; [exact Ha' |]. rewrite with_active_live by lia. by split.
Qed.

(** The side of an end can lose an entry while a stream off the list keeps one. *)
Lemma swept_straddles p L dn s' x y k0 : swept p dn s s' -> anchored L s -> (forall i, i ∈ dn -> i ∈ L) ->
  live_stream s x y -> x ∈ L -> is_end k0 y -> straddles (side_mga (addr_side k0)) (side_idx (addr_side k0) s').
Proof.
  intros H [_ Hside] Hsub Hx HxL Hk0. destruct (Hside x y k0 Hx HxL Hk0) as (k & i & e & Hl & Hn & Hk & <- & Hm).
  assert (live_stream s' i e) as Hl' by (apply (swept_keeps p dn s' i e H Hl); intros Hd; by apply Hn, Hsub).
  destruct (swept_end p dn s' i e k H Hl' Hk) as (a & _ & _ & Ha' & Hz & Hc). apply (live_straddles s' k _ (sw_inv _ _ _ _ H) Ha'); [| exact Hm].
  rewrite with_active_live by lia. exact Hz.
Qed.

(** The left end of a listed stream leaves the right one releasable. *)
Lemma swept_open p L dn s' x e al : swept p dn s s' -> anchored L s -> (forall i, i ∈ dn -> i ∈ L) -> x ∈ L -> live_stream s' x e ->
  right_open (si_idx_left e) (with_active (active (si_idx_left e) s') al) (si_idx_right e) s'.
Proof.
  intros H Han Hsub HxL Hl'. right. destruct (swept_live p dn s' x e H Hl') as [Hl _].
  destruct (an_side _ _ Han x e (si_idx_right e) Hl HxL (or_intror eq_refl)) as (k & i & e' & Hl1 & Hn & Hk1 & Hside & Hm).
  assert (live_stream s' i e') as Hl1' by (apply (swept_keeps p dn s' i e' H Hl1); intros Hd; by apply Hn, Hsub).
  destruct (swept_end p dn s' i e' k H Hl1' Hk1) as (a & _ & _ & Ha' & Hz & Hc). exists k, (with_active (active k s') a).
  split; [exact Hside |]. split; [exact Hm |]. split; [exact Ha' |]. split; [by rewrite with_active_live by lia |].
  intros ->. rewrite dec_active by exact Hc. set (s2 := put_stream x (freed_stream e) s').
  assert (live_stream s2 i e') as Hl2.
  { destruct Hl1' as [He1 Hz1]. split; [| exact Hz1]. unfold stream_at, s2 in *. cbn. rewrite aget_insert_ne; [exact He1 | congruence |].
    apply (aget_inv _ _ _ (proj1 Hl')). }
  pose proof (active_pos (si_idx_left e) s2 i e' Hl2 Hk1) as Hp.
  rewrite (active_freed _ s' s2 x e Hl' eq_refl), bool_decide_true in Hp by (by left). lia.
Qed.

(** Its pair stays in the table. *)
Lemma swept_remove dn s' key : swept (pe_key env) dn s s' ->
  shared_key (pe_key env) s -> stream_tbl_shape s -> pe_cleanup_key env <> pe_key env ->
  hcmp_stream_key key (km_stream (g_mem s) (pe_key env)) <> 0 ->
  let s0 := store_stream_key (pe_cleanup_key env) key s' in
  HashTableRemove (pe_ok_rehash env) (g_mem s0) (ht_streams s') (pe_cleanup_key env) = Val (ht_streams s', g_mem s0).
Proof.
  intros H Hsh Hshape Hptr Hkey. cbv zeta. destruct (sw_tbls _ _ _ _ H) as [Ht _].
  set (s0 := store_stream_key _ key s'). apply (shared_remove _ (pe_key env) _ s0).
  - unfold shared_key in *. change (ht_streams s0) with (ht_streams s'). by rewrite Ht.
  - destruct Hshape. split; change (ht_streams s0) with (ht_streams s'); by rewrite Ht.
  - unfold s0. cbn. rewrite fn_lookup_insert, fn_lookup_insert_ne by done. by rewrite (sw_key _ _ _ _ H).
Qed.

(** The entries after one more stream. *)
Lemma swept_more p dn s' s2 x e al ar : swept p dn s s' -> live_stream s x e -> live_stream s' x e ->
  addr_at s (si_idx_left e) al -> addr_at s (si_idx_right e) ar -> shm_inv s2 ->
  sh_streams (g_shm s2) = <[Z.to_nat x := freed_stream e]> (sh_streams (g_shm s')) ->
  addr_at s2 (si_idx_left e) (with_active (active (si_idx_left e) s' - 1) al) ->
  addr_at s2 (si_idx_right e) (with_active (active (si_idx_right e) s' - 1) ar) ->
  (forall j a, j <> si_idx_left e -> j <> si_idx_right e -> addr_at s' j a -> addr_at s2 j a) ->
  ht_streams s2 = ht_streams s' /\ addr_dict s2 = addr_dict s' -> km_stream (g_mem s2) p = km_stream (g_mem s') p ->
  sh_flow_stats (g_shm s2) = sh_flow_stats (g_shm s') /\ sh_protos (g_shm s2) = sh_protos (g_shm s') ->
  swept p (dn ++ [x]) s s2.
Proof.
  intros [_ Sst Sends Soth [St1 St2] Skey [Sc1 Sc2]] Hl Hl' Hal Har Hi2 Hst H6 H7 H8 [T1 T2] Hm [C1 C2].
  split; try (rewrite ?T1, ?T2, ?Hm, ?C1, ?C2; by try split); [exact Hi2 | ..].
  - intros i y Hy. pose proof (Sst i y Hy) as Hy'. unfold stream_at in *. rewrite Hst.
    destruct (decide (i = x)) as [-> | Hix].
    + rewrite aget_insert_eq by exact (aget_inv _ _ _ (proj1 Hl')). rewrite bool_decide_true by set_solver.
      destruct Hl as [Hl _]. unfold stream_at in Hl. congruence.
    + rewrite aget_insert_ne by (try exact (proj1 (aget_inv _ _ _ (proj1 Hl'))); congruence). rewrite Hy'. f_equal.
      by rewrite (bool_decide_ext (i ∈ dn ++ [x]) (i ∈ dn)) by set_solver.
  - intros i y k a Hly Hky Hka. rewrite (active_freed k s' s2 x e Hl' Hst). case_bool_decide as Hke.
    + unfold addr_at in *. destruct Hke as [-> | ->]; [rewrite Hal in Hka | rewrite Har in Hka]; by injection Hka as <-.
    + rewrite Z.sub_0_r. apply H8; [intros ->; apply Hke; by left | intros ->; apply Hke; by right |]. by apply (Sends i y).
  - intros k a Hka Hno. pose proof (Hno x e ltac:(set_solver) (proj1 Hl)) as Hke.
    apply H8; [intros ->; apply Hke; by left | intros ->; apply Hke; by right |].
    apply Soth; [exact Hka |]. intros i y Hd. apply Hno. set_solver.
Qed.

(** What is asked of the key object: it does not hold the key of a listed stream. *)
Definition keys_differ (L : list Z) : Prop := forall i e al ar, i ∈ L -> stream_at s i e ->
  addr_at s (si_idx_left e) al -> addr_at s (si_idx_right e) ar ->
  hcmp_stream_key (key_of_stream e al ar) (km_stream (g_mem s) (pe_key env)) <> 0.

Context (L : list Z) (Han : anchored L s) (Hkeys : keys_differ L).
Context (Hsh : shared_key (pe_key env) s) (Hshape : stream_tbl_shape s) (Hptr : pe_cleanup_key env <> pe_key env).

(** One stream of the list. *)
Lemma sweep_step dn s' x e :
  swept (pe_key env) dn s s' -> (forall i, i ∈ dn -> i ∈ L) -> x ∈ L -> x ∉ dn -> live_stream s x e ->
  exists s2, cleanup_stream env x s' = Val s2 /\ swept (pe_key env) (dn ++ [x]) s s2.
Proof.
  intros H Hsub HxL Hx Hl. pose proof (swept_keeps _ _ _ _ _ H Hl Hx) as Hl'.
  destruct (swept_end _ _ _ _ _ (si_idx_left e) H Hl' (or_introl eq_refl)) as (al & Hal & Hv & Hal' & Hzl & Hcl).
  destruct (swept_end _ _ _ _ _ (si_idx_right e) H Hl' (or_intror eq_refl)) as (ar & Har & _ & Har' & Hzr & Hcr).
  destruct (Hec x e Hl) as (Hne & _). set (nl := active (si_idx_left e) s') in *. set (nr := active (si_idx_right e) s') in *.
  assert (key_of_stream e (with_active nl al) (with_active nr ar) = key_of_stream e al ar) as Hk
    by (rewrite !with_active_live by lia; reflexivity).
  assert (forall k n a, is_end k e -> 0 < n < 65536 -> tv_sec (ai_tstart a) <> 0 -> releasable k (with_active n a) s') as Hrel.
  { intros k n a Hk' Hc Hz _. rewrite with_active_live by lia. split; [exact Hz |].
    exact (swept_straddles _ L dn s' x e k H Han Hsub Hl HxL Hk'). }
  destruct (an_stream _ _ Han) as (i0 & e0 & Hl0 & Hn0 & Hm0).
  assert (live_stream s' i0 e0) as Hl0' by (apply (swept_keeps _ _ _ _ _ H Hl0); intros Hd; by apply Hn0, Hsub).
  destruct (cleanup_stream_ok env x s' e (with_active nl al) (with_active nr ar) (ht_streams s') (sw_inv _ _ _ _ H) (proj1 Hl') (proj2 Hl')
    (live_straddles_stream _ _ _ (sw_inv _ _ _ _ H) Hl0' Hm0) Hal' Har' (Hrel _ _ _ (or_introl eq_refl) Hcl Hzl) (Hrel _ _ _ (or_intror eq_refl) Hcr Hzr) Hne
    (swept_open _ L dn s' x e al H Han Hsub HxL Hl'))
    as (s2 & H1 & H2 & H3 & H4 & H5 & H6 & H7 & H8 & H9 & H10 & H11).
  - by rewrite with_active_live by lia.
  - rewrite Hk. apply (swept_remove dn s' _ H Hsh Hshape Hptr). exact (Hkeys x e al ar HxL (proj1 Hl) Hal Har).
  - exists s2. split; [exact H1 |]. rewrite release_active_less in H6 by exact Hcl. rewrite release_active_less in H7 by exact Hcr.
    apply (swept_more _ dn s' s2 x e al ar H Hl Hl' Hal Har H2 H5 H6 H7 H8); [split; [exact H3 | unfold addr_dict; by rewrite H4, H11] | | by split].
    rewrite H11. cbn. by rewrite fn_lookup_insert_ne by done.
Qed.

(** All streams of the list. *)
Lemma sweep_all : NoDup L -> (forall i, i ∈ L -> exists e, live_stream s i e) ->
  exists s', for_each (cleanup_stream env) L s = Val s' /\ swept (pe_key env) L s s'.
Proof.
  intros Hnd Hlive. apply (for_each_inv (fun dn s' => swept (pe_key env) dn s s')); [apply swept_nil |].
  intros dn x rest s' HL H. rewrite HL in Hnd. apply NoDup_app in Hnd as (_ & Hnd & _).
  destruct (Hlive x) as [e Hl]; [rewrite HL; set_solver |].
  apply (sweep_step dn s' x e H); [rewrite HL; set_solver .. | intros Hx; apply (Hnd x Hx); set_solver | exact Hl].
Qed.
End Sweep.

(** The loop of the sweep goes through the items of its list. *)
Lemma for_each_items {S} (f : Z -> S -> res S) l s : alist_inv l ->
  for_each (fun i s => ss ← aget (al_entries l) i; f ss s) (seqZ 0 (al_i l)) s = for_each f (items l) s.
Proof.
  intros [Hl Hb _]. unfold items. assert (forall n, (n <= length (al_entries l))%nat ->
    for_each (fun i s => ss ← aget (al_entries l) i; f ss s) (seqZ 0 (Z.of_nat n)) s = for_each f (take n (al_entries l)) s) as H.
  { intros n. induction n as [| n IH]; intros Hn; [done |]. destruct (lookup_lt_is_Some_2 (al_entries l) n) as [x Hx]; [lia |].
    rewrite (take_S_r _ _ x) by done. replace (Z.of_nat (Datatypes.S n)) with (Z.of_nat n + 1) by lia.
    rewrite seqZ_app by lia. rewrite !for_each_app, IH by lia. destruct (for_each f _ s) as [s1 | |]; [| done ..]. rewrite !bind_Val.
    change (seqZ (0 + Z.of_nat n) 1) with [0 + Z.of_nat n]. rewrite Z.add_0_l. cbn [for_each].
    assert (aget (al_entries l) (Z.of_nat n) = Val x) as -> by (apply aget_Val; rewrite Nat2Z.id; split; [lia | exact Hx]).
    by rewrite bind_Val. }
  rewrite <- H by lia. by rewrite Z2Nat.id by lia.
Qed.

Lemma sweep_ok env tv s c :
  let q := queue_add tv (List.filter (expired tv (sh_streams (g_shm s))) (inside (sh_stream_indexes (g_shm s)))) (queues c) in
  shm_inv s -> cleanup_inv c -> ends_counted s -> STAT_PROCESS_TIME_SEC <= tv mod 60 -> list_items c <> [] ->
  NoDup (fst q) -> (forall i, i ∈ fst q -> exists e, live_stream s i e) -> anchored (fst q) s -> keys_differ env s (fst q) ->
  shared_key (pe_key env) s -> stream_tbl_shape s -> pe_cleanup_key env <> pe_key env ->
  exists s' c', cleanup_expired_streams env tv s c = Val (s', c') /\ swept (pe_key env) (fst q) s s' /\ ends_counted s' /\
    cleanup_inv c' /\ queues c' = (snd q, []).
Proof.
  cbv zeta. intros Hi Hc Hec Htv Hlist Hnd Hlive Han Hkeys Hsh Hshape Hptr. set (q := queue_add _ _ _) in *.
  unfold cleanup_expired_streams. rewrite (proj2 (Z.ltb_ge _ _) Htv). cbn [orb].
  assert (alist_is_empty (cleanup_streams_list c) = false) as ->.
  { pose proof (length_items _ (ci_list _ Hc)) as Hn. unfold alist_is_empty. unfold list_items in Hlist. apply Z.eqb_neq.
    intros E. apply Hlist, length_zero_iff_nil. lia. }
  destruct (find_expired_ok tv s c Hi Hc) as (c' & -> & Hc' & Hq). rewrite bind_Val. fold q in Hq.
  assert (items (cleanup_streams_list c') = fst q /\ items (cleanup_streams_wait c') = snd q) as [Hq1 Hq2] by (by rewrite <- Hq).
  destruct (sweep_all env s Hi Hec (fst q) Han Hkeys Hsh Hshape Hptr Hnd Hlive) as (s' & Hf & Hsw).
  assert (for_each (fun i s => ss ← aget (al_entries (cleanup_streams_list c')) i; cleanup_stream env ss s)
    (seqZ 0 (al_i (cleanup_streams_list c'))) s = Val s') as -> by (rewrite (for_each_items _ _ _ (ci_list _ Hc')), Hq1; exact Hf).
  rewrite bind_Val. destruct (move_wait_ok c' Hc') as (c1 & -> & Hc1 & H1 & H2). rewrite bind_Val.
  exists s', c1. split; [done |]. split; [exact Hsw |]. split; [exact (swept_counted s Hi Hec _ _ _ Hsw) |]. split; [exact Hc1 |].
  unfold queues, list_items, wait_items. by rewrite H1, H2, Hq2.
Qed.
