(* ===== verification/SweepRun.v ===== *)
(** The packet handler against the flow table when connections end: the cleanup list after
    a run, and the first sweep, which frees the streams on it. *)
From S2P Require Import Prelude Structs MgArray IpUtils StreamKey HashTable Packet Cleanup ShmData Capture Lifecycle Conversation Flows FlowTable FlowViews Bookkeeping FlowRun Expiry Sweeps.
From stdpp Require Import list gmap.
#[local] Open Scope Z_scope.

(** ** The connections that ended *)

(** The buckets of the conversations that had a FIN or RST, in the order of the first. *)
Definition finish (p : packet) (fin : list Z) : list Z :=
  if pk_heard p && final p && negb (bool_decide (slot (pk_key p) ∈ fin)) then fin ++ [slot (pk_key p)] else fin.

Definition finished_from (l : list packet) (fin : list Z) : list Z := foldl (fun fin p => finish p fin) fin l.
Definition finished (l : list packet) : list Z := finished_from l [].

(** The streams a cleanup list of 3276 places has room for. *)
Definition listed_slots (fin : list Z) : list Z := take 3276 fin.

(** The cleanup lists and the marks of the streams against the conversations that ended. *)
Record queue_agrees (idx : Z -> Z) (t : flow_table) (fin : list Z) (s : shm_t) (q : list Z * list Z) : Prop := {
  qa_nodup : NoDup fin;
  qa_convs : forall b, b ∈ fin -> is_Some (ft_convs t !! b);
  qa_queues : q = (idx <$> listed_slots fin, []);
  qa_marks : forall b c, ft_convs t !! b = Some c -> exists e, stream_at s (idx b) e /\ marked e = bool_decide (b ∈ fin)
}.

Lemma listed_finished fin b : b ∈ listed_slots fin -> b ∈ fin.
Proof. intros (j & Hj)%list_elem_of_lookup_1. apply lookup_take_Some in Hj as [Hj _]. by eapply list_elem_of_lookup_2. Qed.

Lemma listed_idx (idx idx' : Z -> Z) fin : (forall b, b ∈ fin -> idx' b = idx b) -> idx' <$> listed_slots fin = idx <$> listed_slots fin.
Proof.
  intros H. apply list_fmap_ext. intros j b Hb. apply H. unfold listed_slots in Hb. apply lookup_take_Some in Hb as [Hb _].
  by eapply list_elem_of_lookup_2.
Qed.

Lemma listed_push (idx : Z -> Z) tv fin b : immediate tv = true ->
  queue_add tv [idx b] (idx <$> listed_slots fin, []) = (idx <$> listed_slots (fin ++ [b]), []).
Proof.
  intros Ht. unfold queue_add, listed_slots. rewrite Ht. cbn [fst snd]. rewrite !fmap_take, fmap_app, take_take_app. done.
Qed.

Lemma book_convs p t b : pk_heard p = true -> is_Some (ft_convs (book p t) !! b) <-> b = slot (pk_key p) \/ is_Some (ft_convs t !! b).
Proof.
  intros Hh. unfold book. rewrite Hh.
  assert (forall c (m : gmap Z conv), is_Some (<[slot (pk_key p) := c]> m !! b) <-> b = slot (pk_key p) \/ is_Some (m !! b)) as Ht.
  { intros c m. destruct (decide (slot (pk_key p) = b)) as [<- | Hne]; [rewrite lookup_insert_eq; split; [by left | by eexists] |].
    rewrite lookup_insert_ne by done. split; [by right | by intros [-> |]]. }
  destruct (ft_convs t !! slot (pk_key p)) as [c |] eqn:Hc; [rewrite Hc; apply Ht |].
  cbn [enter ft_convs]. rewrite lookup_insert_eq. cbn [tally enter ft_convs]. rewrite !Ht. split; [intros [|] | intros []]; auto.
Qed.

Lemma quiet_packet p fin t : pk_heard p = false -> finish p fin = fin /\ book p t = t.
Proof. intros Hh. unfold finish, book. by rewrite Hh. Qed.

Lemma finish_elem p fin b : pk_heard p = true -> b ∈ finish p fin <-> b ∈ fin \/ (b = slot (pk_key p) /\ final p = true).
Proof.
  intros Hh. unfold finish. rewrite Hh. cbn [andb]. destruct (final p); cbn [andb].
  - case_bool_decide as Hin; cbn [negb]; [intuition congruence | set_solver].
  - intuition congruence.
Qed.

(** One packet; the end of a connection comes when the streams are listed at once. *)
Lemma queue_packet k used used' idx idx' t fin s s' cl cl' p :
  agrees k used idx t s -> agrees k used' idx' (book p t) s' -> (forall b, is_Some (ft_convs t !! b) -> idx' b = idx b) ->
  queued_by p idx' t s s' cl cl' -> (pk_heard p && final p = true -> immediate (tv_sec (hdr_ts (pk_hdr p))) = true) ->
  queue_agrees idx t fin s (queues cl) -> queue_agrees idx' (book p t) (finish p fin) s' (queues cl').
Proof.
  intros Ha Ha' Hidx Hq Him [Qn Qc Qq Qm]. unfold queued_by in Hq. destruct (pk_heard p) eqn:Hh.
  2: { destruct (quiet_packet p fin t Hh) as [E1 E2]. rewrite E1, E2. destruct Hq as [Hq1 Hq2]. split; [exact Qn | exact Qc | |].
    - rewrite Hq1, Qq, (listed_idx idx idx'); [done |]. intros b Hb. by apply Hidx, Qc.
    - intros b c Hb. rewrite Hidx by (by eexists). unfold stream_at in *. rewrite Hq2. by apply (Qm b c). }
  set (b0 := slot (pk_key p)) in *. destruct Hq as (before & Hbefore & [Hq1 (e0 & He0 & Hm0) Hoth _]).
  assert (before = bool_decide (b0 ∈ fin)) as Hb0.
  { destruct (ft_convs t !! b0) as [c |] eqn:Hc.
    - destruct Hbefore as (e & He & <-). destruct (Qm b0 c Hc) as (e' & He' & Hm'). rewrite (Hidx b0) in He by (by eexists).
      unfold stream_at in *. assert (e = e') as -> by congruence. exact Hm'.
    - rewrite Hbefore. symmetry. apply bool_decide_false. intros Hin. destruct (Qc _ Hin). congruence. }
  rewrite Hb0 in Hq1, Hm0. cbn [andb] in Him. split.
  - unfold finish. rewrite Hh. fold b0. cbn [andb]. destruct (final p); [| exact Qn]. case_bool_decide; cbn [negb andb]; [exact Qn |].
    apply NoDup_app. split; [exact Qn |]. split; [set_solver | apply NoDup_singleton].
  - intros b Hb. apply (book_convs p t b Hh). apply (finish_elem p fin b Hh) in Hb as [Hb | [-> _]]; [right; by apply Qc | by left].
  - rewrite Hq1, Qq, <- (listed_idx idx idx') by (intros b Hb; by apply Hidx, Qc). unfold finish. rewrite Hh. fold b0. cbn [andb].
    destruct (final p); cbn [andb]; [| done]. case_bool_decide; cbn [negb]; [done |]. by apply listed_push, Him.
  - intros b c Hb. destruct (decide (b = b0)) as [-> | Hne].
    + exists e0. split; [exact He0 |]. rewrite Hm0.
      rewrite (bool_decide_ext (b0 ∈ finish p fin) (b0 ∈ fin \/ final p = true)) by (rewrite (finish_elem p fin b0 Hh); fold b0; intuition).
      destruct (final p); repeat case_bool_decide; intuition congruence.
    + assert (is_Some (ft_convs t !! b)) as [c' Hc'] by (assert (is_Some (ft_convs (book p t) !! b)) as Hs by (by eexists); by apply (book_convs p t b Hh) in Hs as [|]).
      destruct (Qm b c' Hc') as (e & He & Hm). exists e. split.
      * rewrite Hidx by (by eexists). apply Hoth; [| exact He]. rewrite <- (Hidx b) by (by eexists).
        intros E. apply Hne. assert (is_Some (ft_convs (book p t) !! b0)) as [c0 Hc0] by (apply (book_convs p t b0 Hh); by left).
        exact (ca_inj _ _ _ (ag_convs _ _ _ _ _ Ha') b b0 c c0 Hb Hc0 E).
      * rewrite Hm. apply bool_decide_ext. rewrite (finish_elem p fin b Hh). fold b0. intuition congruence.
Qed.

Lemma ended_now p t : pk_heard p && final p = true -> ft_ended (book p t) = true.
Proof.
  intros [Hh Hf]%andb_true_iff. unfold book. rewrite Hh. destruct (ft_convs t !! slot (pk_key p)) as [c |] eqn:Hc.
  - rewrite Hc. cbn [tally ft_ended]. by rewrite Hf, orb_true_r.
  - cbn [enter ft_convs]. rewrite lookup_insert_eq. cbn [tally ft_ended]. by rewrite Hf, orb_true_r.
Qed.

Definition times (l : list packet) : list Z := (fun p => tv_sec (hdr_ts (pk_hdr p))) <$> l.

Lemma run_queue k l : k <> NULL -> forall used idx t fin st,
  keeps_books k used idx t st -> queue_agrees idx t fin (cp_shm st) (queues (cp_cleanup st)) -> bookable_all k used l t ->
  exists idx' st', handle l st = Val st' /\ keeps_books k (used_after_all l used) idx' (book_all l t) st' /\
    queue_agrees idx' (book_all l t) (finished_from l fin) (cp_shm st') (queues (cp_cleanup st')) /\
    cp_last_sec st' ∈ cp_last_sec st :: times l.
Proof.
  intros Hk. induction l as [| p l IH]; intros used idx t fin st H Hq Hl; [exists idx, st; repeat (split; [done |]); set_solver |].
  destruct Hl as (Hptr & Hb & Hl). destruct (handle_books k used idx t st p Hk H Hptr Hb) as (st1 & idx1 & Hh & H1 & Hi1 & Hq1 & Hlast).
  assert (queue_agrees idx1 (book p t) (finish p fin) (cp_shm st1) (queues (cp_cleanup st1))) as Hqa.
  { apply (queue_packet k used (used_after (pk_env p) used) idx idx1 t fin (cp_shm st) (cp_shm st1) (cp_cleanup st) (cp_cleanup st1) p
      (kb_agrees _ _ _ _ _ H) (kb_agrees _ _ _ _ _ H1) Hi1 Hq1); [| exact Hq].
    intros Hf. apply bool_decide_true. left. apply (bo_calm _ _ Hb). by apply ended_now. }
  destruct (IH _ _ _ _ _ H1 Hqa Hl) as (idx' & st' & Hh' & H' & Hqa' & Hlast'). exists idx', st'.
  split; [| split; [exact H' | split; [exact Hqa' |]]].
  - unfold handle in *. cbn [for_each] in Hh |- *. apply bind_Val_inv in Hh as (x & -> & Hx). injection Hx as ->. exact Hh'.
  - cbn [times fmap list_fmap]. fold (times l). apply elem_of_cons in Hlast' as [-> | Hin]; [| set_solver]. destruct Hlast as [-> | ->]; set_solver.
Qed.

Lemma start_queue idx s : queue_agrees idx empty_table [] s (queues cleanup_init).
Proof.
  split; [constructor | intros b Hb; by apply not_elem_of_nil in Hb | reflexivity |].
  intros b c. cbn [empty_table ft_convs]. by rewrite lookup_empty.
Qed.

Lemma queue_run use_shm env mem s k l : shm_data_init use_shm env mem = Val (Some s) -> k <> NULL -> bookable_all k ∅ l empty_table ->
  exists idx st, handle l (start_books s) = Val st /\ keeps_books k (used_after_all l ∅) idx (book_all l empty_table) st /\
    queue_agrees idx (book_all l empty_table) (finished l) (cp_shm st) (queues (cp_cleanup st)) /\ cp_last_sec st ∈ 0 :: times l.
Proof.
  intros Hs Hk Hl. exact (run_queue k l Hk ∅ (fun _ => 0) empty_table [] (start_books s) (start_keeps_books _ _ _ _ _ _ Hs) (start_queue _ s) Hl).
Qed.

(** ** The counts of the addresses *)

(** The relation of the tables makes the ends of the streams count them. *)
Lemma agrees_counted k used idx t s : agrees k used idx t s -> views t -> ends_counted s.
Proof.
  intros H V i e [He Hz]. destruct (ca_live _ _ _ (ag_convs _ _ _ _ _ H) i e He Hz) as (b & c & Hb & <-).
  destruct (ca_entry _ _ _ (ag_convs _ _ _ _ _ H) b c Hb) as (_ & e' & He' & Hc). assert (e' = e) as -> by (unfold stream_at in *; congruence).
  pose proof Hc as [(Hkey & Hlr & _) Dl Dr _ _ _ _ _]. destruct (key_addrs_u32 _ Hkey) as [Hul Hur].
  assert (forall ip j, is_u32 ip -> addr_dict s !! addr_key_init_v4 ip = Some j -> counted_end s j) as Hend.
  { intros ip j Hip Hd. destruct (dict_peer _ _ _ _ (ag_peers _ _ _ _ _ H) Hip Hd) as (p & a & Hp & Ha & [_ _ _ [_ Hn] Hv]).
    exists a. split; [exact Ha |]. split; [exact (dl_live _ (ag_live _ _ _ _ _ H) _ _ _ Hd Ha) |]. split; [exact Hv |].
    pose proof (proj2 (vw_peers _ V ip)) as Hs. unfold peer_of in Hs. rewrite Hp in Hs. cbn in Hs. rewrite Hn, Hs. unfold active.
    rewrite (sum_packets k used idx t s H (on_addr j) (of_peer ip) (fun _ => 1) (fun _ => 1)).
    - apply u16_small. pose proof (active_small j s (ag_inv _ _ _ _ _ H)) as Hr. unfold active in Hr.
      rewrite (sum_packets k used idx t s H (on_addr j) (of_peer ip) (fun _ => 1) (fun _ => 1)) in Hr; [exact Hr |].
      intros c' e1 Hc'. unfold on_addr, of_peer. by rewrite (bool_decide_ext _ _ (entry_peer k used idx t s H ip j c' e1 Hd Hc')).
    - intros c' e1 Hc'. unfold on_addr, of_peer. by rewrite (bool_decide_ext _ _ (entry_peer k used idx t s H ip j c' e1 Hd Hc')). }
  split; [| by split; [apply (Hend _ _ Hul) | apply (Hend _ _ Hur)]].
  intros E. rewrite <- E in Dr. by apply (key_ne _ _ Hlr), (dl_inj _ (ag_live _ _ _ _ _ H) _ _ _ Dl Dr).
Qed.

(** ** What is left *)

(** The conversations off the list, the streams an address keeps, and the addresses of a
    side that keep one. *)
Definition surviving (L : list Z) (t : flow_table) : gmap Z conv := filter (fun x => x.1 ∉ L) (ft_convs t).
Definition streams_left (L : list Z) (ip : Z) (t : flow_table) : Z := msum (of_peer ip (fun _ => 1)) (surviving L t).
Definition kept_peers (lan : bool) (L : list Z) (t : flow_table) : gset Z :=
  filter (fun ip => is_lan ip = lan /\ 0 < streams_left L ip t) (dom (ft_peers t)).

Lemma surviving_lookup L t b c : surviving L t !! b = Some c <-> ft_convs t !! b = Some c /\ (b ∉ L).
Proof. unfold surviving. rewrite map_lookup_filter_Some. reflexivity. Qed.

Lemma msum_positive {A} (f : A -> Z) m : 0 < msum f m -> exists k x, m !! k = Some x /\ 0 < f x.
Proof.
  induction m as [| k x m Hk IH] using map_ind; [rewrite msum_empty; lia |]. rewrite msum_new by exact Hk. intros H.
  destruct (decide (0 < f x)) as [Hx | Hx]; [exists k, x; by rewrite lookup_insert_eq |].
  destruct IH as (k' & x' & H1 & H2); [lia |]. exists k', x'. split; [| exact H2]. rewrite lookup_insert_ne; [exact H1 | congruence].
Qed.

Lemma left_conv L ip t : 0 < streams_left L ip t ->
  exists b c, ft_convs t !! b = Some c /\ (b ∉ L) /\ (ip = conv_left c \/ ip = conv_right c).
Proof.
  intros (b & c & Hb & Hc)%msum_positive. apply surviving_lookup in Hb as [Hb Hn]. exists b, c. split; [exact Hb |]. split; [exact Hn |].
  unfold of_peer in Hc. by case_bool_decide.
Qed.

(** Distinct numbers strictly between two others. *)
Lemma crowded {A} (f : A -> Z) (X : list A) lo hi : NoDup (f <$> X) -> (forall x, x ∈ X -> lo < f x < hi) -> lo < hi ->
  Z.of_nat (length X) <= hi - lo - 1.
Proof.
  intros Hnd Hr Hlo. assert ((f <$> X) ⊆+ seqZ (lo + 1) (hi - lo - 1)) as Hs.
  { apply NoDup_submseteq; [exact Hnd |]. intros y (x & -> & Hx)%list_elem_of_fmap. specialize (Hr x Hx). apply elem_of_seqZ. lia. }
  apply submseteq_length in Hs. rewrite length_fmap, length_seqZ in Hs. lia.
Qed.

(** More than half of the entries of a window filled from its middle reach beyond it. *)
Lemma beyond_middle {A} (f : A -> Z) (X : list A) ma n : NoDup (f <$> X) -> 1 <= n -> n <= 2 * Z.of_nat (length X) ->
  (forall x, x ∈ X -> mi_idx_lo (fill_info ma n) < f x) -> exists x, x ∈ X /\ mga_mid ma <= f x.
Proof.
  intros Hnd Hn HX Hlo. destruct (decide (Exists (fun x => mga_mid ma <= f x) X)) as [He | He]; [by apply list.Exists_exists in He |].
  assert (Z.of_nat (length X) <= mga_mid ma - mi_idx_lo (fill_info ma n) - 1) as Hc.
  { apply (crowded f); [exact Hnd | | cbn [fill_info mi_idx_lo]; clia]. intros x Hx. split; [by apply Hlo |]. apply Z.nle_gt. intros Hm. apply He, list.Exists_exists. by exists x. }
  cbn [fill_info mi_idx_lo] in Hc. clia.
Qed.

Section Anchors.
Context (k : ptr) (used : gset ptr) (idx : Z -> Z) (t : flow_table) (s : shm_t) (H : agrees k used idx t s).

(** The entry of a conversation. *)
Lemma conv_stream b c : ft_convs t !! b = Some c -> exists e, live_stream s (idx b) e /\ conv_entry (addr_dict s) c e.
Proof.
  intros Hb. destruct (ca_entry _ _ _ (ag_convs _ _ _ _ _ H) b c Hb) as (_ & e & He & Hc). exists e. split; [| exact Hc]. split; [exact He |].
  destruct Hc as [(_ & _ & Hz) _ _ (_ & _ & _ & ->) _ _ _ _]. exact Hz.
Qed.

Lemma stream_conv i e : live_stream s i e -> exists b c, ft_convs t !! b = Some c /\ i = idx b /\ conv_entry (addr_dict s) c e.
Proof.
  intros [He Hz]. destruct (ca_live _ _ _ (ag_convs _ _ _ _ _ H) i e He Hz) as (b & c & Hb & <-). exists b, c.
  destruct (ca_entry _ _ _ (ag_convs _ _ _ _ _ H) b c Hb) as (_ & e' & He' & Hc). assert (e' = e) as -> by (unfold stream_at in *; congruence). done.
Qed.

Lemma listed_stream (L : list Z) b c : ft_convs t !! b = Some c -> (forall x, x ∈ L -> is_Some (ft_convs t !! x)) -> idx b ∈ idx <$> L <-> b ∈ L.
Proof.
  intros Hb HL. split; [| intros Hin; by apply list_elem_of_fmap_2]. intros (b' & E & Hb')%list_elem_of_fmap. destruct (HL b' Hb') as [c' Hc'].
  by rewrite (ca_inj _ _ _ (ag_convs _ _ _ _ _ H) b b' c c' Hb Hc' E).
Qed.

(** The address of an end. *)
Lemma end_addr c e ip : conv_entry (addr_dict s) c e -> ip = conv_left c \/ ip = conv_right c ->
  exists i a, is_u32 ip /\ addr_dict s !! addr_key_init_v4 ip = Some i /\ is_end i e /\ addr_at s i a /\ tv_sec (ai_tstart a) <> 0 /\
    addr_side i = is_lan ip /\ ai_addr_offset a = ip.
Proof.
  intros [(Hkey & _) Dl Dr _ _ _ _ _] Hip. destruct (key_addrs_u32 _ Hkey) as [Hul Hur].
  assert (exists i, is_u32 ip /\ addr_dict s !! addr_key_init_v4 ip = Some i /\ is_end i e) as (i & Hu & Hd & He)
    by (destruct Hip as [-> | ->]; [exists (si_idx_left e) | exists (si_idx_right e)]; (split; [done |]; split; [done |]; by (left + right))).
  destruct (dict_peer _ _ _ _ (ag_peers _ _ _ _ _ H) Hu Hd) as (p & a & _ & Ha & [[Ho _] _ _ _ _]).
  exists i, a. split; [exact Hu |]. split; [exact Hd |]. split; [exact He |]. split; [exact Ha |].
  split; [exact (dl_live _ (ag_live _ _ _ _ _ H) _ _ _ Hd Ha) |]. split; [exact (ag_placed _ _ _ _ _ H ip i Hu Hd) | exact Ho].
Qed.

(** The index of an address; addresses with streams have different ones, inside the
    window of their side. *)
Definition addr_idx (ip : Z) : Z := default 0 (addr_dict s !! addr_key_init_v4 ip).

Lemma kept_addr lan L ip : ip ∈ kept_peers lan L t -> exists b c e, ft_convs t !! b = Some c /\ (b ∉ L) /\ live_stream s (idx b) e /\
  is_end (addr_idx ip) e /\ addr_dict s !! addr_key_init_v4 ip = Some (addr_idx ip) /\ addr_side (addr_idx ip) = lan /\
  mi_idx_lo (fill_info (side_mga lan) (peers_of lan t)) < addr_idx ip.
Proof.
  intros [[Hlan Hpos] _]%elem_of_filter. destruct (left_conv L ip t Hpos) as (b & c & Hb & Hn & Hip).
  destruct (conv_stream b c Hb) as (e & Hl & Hc). destruct (end_addr c e ip Hc Hip) as (i & a & Hu & Hd & He & Ha & Hz & Hside & _).
  assert (addr_idx ip = i) as Hi by (unfold addr_idx; by rewrite Hd). rewrite Hlan in Hside.
  exists b, c, e. rewrite Hi. do 4 (split; [assumption |]). split; [exact Hd |]. split; [exact Hside |].
  rewrite <- (ag_sides _ _ _ _ _ H lan), <- Hside.
  pose proof (live_inside _ _ _ i (side_inv (addr_side i) s (ag_inv _ _ _ _ _ H)) (addr_side_range i s (ag_inv _ _ _ _ _ H) (aget_inv _ _ _ Ha))) as Hw.
  rewrite (addr_taken s i a Ha), bool_decide_true in Hw by done. by destruct (Hw eq_refl).
Qed.

(** Lists that leave half of the conversations, and half of the addresses of each side,
    leave what a sweep needs. *)
Lemma run_anchored L : (forall x, x ∈ L -> is_Some (ft_convs t !! x)) -> 1 <= Z.of_nat (size (ft_convs t)) ->
  Z.of_nat (size (ft_convs t)) <= 2 * Z.of_nat (size (surviving L t)) ->
  (forall lan, peers_of lan t <= 2 * Z.of_nat (size (kept_peers lan L t))) -> anchored (idx <$> L) s.
Proof.
  intros HL Hn Hs Hp. split.
  - destruct (beyond_middle idx (map_to_list (surviving L t)).*1 streams_mga (Z.of_nat (size (ft_convs t)))) as (b & Hb & Hm).
    + apply NoDup_fmap_2_strong; [| apply NoDup_fst_map_to_list].
      intros b b' ([? c] & -> & Hb%elem_of_map_to_list)%list_elem_of_fmap ([? c'] & -> & Hb'%elem_of_map_to_list)%list_elem_of_fmap E.
      apply surviving_lookup in Hb as [Hb _], Hb' as [Hb' _]. exact (ca_inj _ _ _ (ag_convs _ _ _ _ _ H) _ _ _ _ Hb Hb' E).
    + exact Hn.
    + by rewrite length_fmap, length_map_to_list.
    + intros b ([? c] & -> & Hb%elem_of_map_to_list)%list_elem_of_fmap. apply surviving_lookup in Hb as [Hb _]. cbn [fst] in *.
      destruct (conv_stream _ _ Hb) as (e & [He Hz] & _). pose proof (stream_inside s _ e (ag_inv _ _ _ _ _ H) He Hz) as Hw.
      apply elem_of_seqZ in Hw. rewrite <- (ag_str _ _ _ _ _ H). lia.
    + apply list_elem_of_fmap in Hb as ([? c] & -> & Hb%elem_of_map_to_list). apply surviving_lookup in Hb as [Hb Hnb]. cbn [fst] in *.
      destruct (conv_stream _ _ Hb) as (e & Hl & _). eexists _, e. split; [exact Hl |]. split; [| exact Hm]. by rewrite (listed_stream L _ c Hb HL).
  - intros i e k0 Hl HiL Hk0. destruct (stream_conv i e Hl) as (b0 & c0 & Hb0 & -> & Hc0). pose proof Hc0 as [(Hkey & _) Dl Dr _ _ _ _ _].
    destruct (key_addrs_u32 _ Hkey) as [Hul Hur].
    assert (exists ip, is_u32 ip /\ addr_dict s !! addr_key_init_v4 ip = Some k0) as (ip & Hip & Hd)
      by (destruct Hk0 as [-> | ->]; [exists (conv_left c0) | exists (conv_right c0)]; by split).
    rewrite (ag_placed _ _ _ _ _ H ip k0 Hip Hd). set (lan := is_lan ip).
    destruct (dict_peer _ _ _ _ (ag_peers _ _ _ _ _ H) Hip Hd) as (p & _ & Hpeer & _).
    destruct (beyond_middle addr_idx (elements (kept_peers lan L t)) (side_mga lan) (peers_of lan t)) as (ip' & Hip' & Hm).
    + apply NoDup_fmap_2_strong; [| apply NoDup_elements]. intros x y Hx%elem_of_elements Hy%elem_of_elements E.
      destruct (kept_addr lan L x Hx) as (? & ? & ? & _ & _ & _ & _ & Dx & _), (kept_addr lan L y Hy) as (? & ? & ? & _ & _ & _ & _ & Dy & _).
      rewrite E in Dx. destruct (decide (x = y)) as [| Hne]; [done |]. by destruct (key_ne _ _ Hne), (dl_inj _ (ag_live _ _ _ _ _ H) _ _ _ Dx Dy).
    + unfold peers_of. assert (ip ∈ filter (fun a => is_lan a = lan) (dom (ft_peers t))) as Hin
        by (apply elem_of_filter; split; [done | by apply elem_of_dom_2 in Hpeer]).
      assert (size (filter (fun a => is_lan a = lan) (dom (ft_peers t))) <> 0%nat); [| lia].
      intros E%size_empty_inv. apply (E ip), elem_of_empty in Hin. exact Hin.
    + apply Hp.
    + intros x Hx%elem_of_elements. by destruct (kept_addr lan L x Hx) as (? & ? & ? & _ & _ & _ & _ & _ & _ & Hlo).
    + apply elem_of_elements in Hip'. destruct (kept_addr lan L ip' Hip') as (b & c & e' & Hb & Hnb & Hl' & He' & _ & Hside & _).
      exists (addr_idx ip'), (idx b), e'. split; [exact Hl' |]. split; [by rewrite (listed_stream L b c Hb HL) |]. by split.
Qed.
End Anchors.

(** ** The state after a sweep *)

(** The key object a sweep looks a conversation up with. *)
Definition cleanup_key (c : conv) : stream_key_t :=
  snd (net_stream_init_v4 (sk_ipproto (sk_v4 (cv_key c))) (conv_left c) (conv_right c)
    (sk_lport (sk_v4 (cv_key c))) (sk_rport (sk_v4 (cv_key c)))).

(** The tables when the streams of the conversations [L] are freed: they are not in use,
    the others are, with their entries as the table has them; each address counts the
    streams that are left to it and is free if there are none; the hash table still leads
    to the entries of all conversations; the totals are those of all packets. *)
Record released (k : ptr) (idx : Z -> Z) (L : list Z) (t : flow_table) (s : shm_t) : Prop := {
  re_inv : shm_inv s;
  re_entries : forall b c, ft_convs t !! b = Some c -> exists e, conv_entry (addr_dict s) c e /\
    stream_at s (idx b) (if bool_decide (b ∈ L) then freed_stream e else e);
  re_live : forall i e, live_stream s i e -> exists b c, surviving L t !! b = Some c /\ i = idx b;
  re_ends : forall b c ip, ft_convs t !! b = Some c -> ip = conv_left c \/ ip = conv_right c ->
    exists i a, addr_dict s !! addr_key_init_v4 ip = Some i /\ addr_at s i a /\
      ai_nstreams_active a = streams_left L ip t /\ (tv_sec (ai_tstart a) = 0 <-> streams_left L ip t = 0);
  re_inj : forall key key' i, addr_dict s !! key = Some i -> addr_dict s !! key' = Some i -> key = key';
  re_tbl : tbl_agrees k idx (ft_convs t) s;
  re_counters : sh_flow_stats (g_shm s) = flow_row <$> ft_flows t /\ services_agree (ft_services t) (sh_protos (g_shm s))
}.

Lemma tbl_same_table k idx m s s' : ht_streams s' = ht_streams s -> tbl_agrees k idx m s -> tbl_agrees k idx m s'.
Proof.
  intros Ht [[T1 T2 T3 T4] Tc Tn Tch]. split; [split; by rewrite Ht | by rewrite Ht | by rewrite Ht |]. intros b Hb. rewrite Ht. by apply Tch.
Qed.

Section Released.
Context (k : ptr) (used : gset ptr) (idx : Z -> Z) (t : flow_table) (s s' : shm_t) (p : ptr) (L : list Z).
Context (H : agrees k used idx t s) (V : views t) (HL : forall x, x ∈ L -> is_Some (ft_convs t !! x)).
Context (Hsw : swept p (idx <$> L) s s').

Lemma released_entry b c : ft_convs t !! b = Some c -> exists e, conv_entry (addr_dict s) c e /\ live_stream s (idx b) e /\
  stream_at s' (idx b) (if bool_decide (b ∈ L) then freed_stream e else e).
Proof.
  intros Hb. destruct (conv_stream k used idx t s H b c Hb) as (e & Hl & Hc). exists e. split; [exact Hc |]. split; [exact Hl |].
  pose proof (sw_streams _ _ _ _ Hsw (idx b) e (proj1 Hl)) as He. by rewrite (bool_decide_ext _ _ (listed_stream k used idx t s H L b c Hb HL)) in He.
Qed.

Lemma released_live i e : live_stream s' i e -> exists b c, surviving L t !! b = Some c /\ i = idx b /\ conv_entry (addr_dict s) c e.
Proof.
  intros Hl. apply (swept_live s (ag_inv _ _ _ _ _ H) p _ s' i e Hsw) in Hl as [Hl Hn].
  destruct (stream_conv k used idx t s H i e Hl) as (b & c & Hb & -> & Hc). exists b, c. split; [| by split].
  apply surviving_lookup. split; [exact Hb |]. by rewrite (listed_stream k used idx t s H L b c Hb HL) in Hn.
Qed.

Lemma released_count ip i : addr_dict s !! addr_key_init_v4 ip = Some i -> active i s' = streams_left L ip t.
Proof.
  intros Hd. unfold active, live_sum, streams_left. apply (weights_related eq eq_refl eq_add _ _ idx).
  - intros b c [Hb Hn]%surviving_lookup. destruct (released_entry b c Hb) as (e & Hc & Hl & He). rewrite bool_decide_false in He by exact Hn.
    apply aget_Val in He as [Hpos He]. split; [apply Hpos |]. exists e. split; [exact He |]. split; [exact (proj2 Hl) |].
    unfold on_addr, of_peer. by rewrite (bool_decide_ext _ _ (entry_peer k used idx t s H ip i c e Hd Hc)).
  - intros b b' c c' [Hb _]%surviving_lookup [Hb' _]%surviving_lookup. exact (ca_inj _ _ _ (ag_convs _ _ _ _ _ H) _ _ _ _ Hb Hb').
  - intros j e He Hz. destruct (released_live (Z.of_nat j) e) as (b & c & Hb & Hj & _).
    + split; [| exact Hz]. apply aget_Val. rewrite Nat2Z.id. split; [| exact He]. apply lookup_lt_Some in He. lia.
    + exists b, c. split; [exact Hb | lia].
Qed.

Lemma swept_released : released k idx L t s'.
Proof.
  destruct (sw_tbls _ _ _ _ Hsw) as [T1 HD]. destruct (sw_counters _ _ _ _ Hsw) as [C1 C2].
  split.
  - exact (sw_inv _ _ _ _ Hsw).
  - intros b c Hb. rewrite HD. destruct (released_entry b c Hb) as (e & Hc & _ & He). by exists e.
  - intros i e Hl. destruct (released_live i e Hl) as (b & c & Hb & Hi & _). by exists b, c.
  - intros b c ip Hb Hip. rewrite HD. destruct (conv_stream k used idx t s H b c Hb) as (e & Hl & Hc).
    destruct (end_addr k used idx t s H c e ip Hc Hip) as (i & a & _ & Hd & He & Ha & Hz & _).
    exists i, (with_active (active i s') a). split; [exact Hd |]. split; [exact (sw_ends _ _ _ _ Hsw _ e i a Hl He Ha) |].
    rewrite <- (released_count ip i Hd). unfold with_active. destruct (Z.eqb_spec (active i s') 0) as [E | E]; cbn; [by rewrite E | done].
  - rewrite HD. exact (dl_inj _ (ag_live _ _ _ _ _ H)).
  - exact (tbl_same_table k idx _ s s' T1 (ag_tbl _ _ _ _ _ H)).
  - rewrite C1, C2. split; [apply (ag_flows _ _ _ _ _ H) | apply (ag_services _ _ _ _ _ H)].
Qed.
End Released.

(** ** A packet with a sweep *)

(** The packet [p] after the packets [l] sweeps the list: it comes in the middle of a
    minute, at a new time, after some connection ended; its key is not that of a listed
    conversation; and half of the conversations and of the addresses are not listed. *)
Record sweep_due (k : ptr) (l : list packet) (p : packet) : Prop := {
  sd_ptr : pointers_ok k (used_after_all l ∅) (pk_env p) /\ pe_cleanup_key (pk_env p) <> k;
  sd_packet : entered_ok p (book_all l empty_table) /\ pk_heard p = true;
  sd_time : let tv := tv_sec (hdr_ts (pk_hdr p)) in mid_minute tv /\ (tv ∉ 0 :: times l) /\ Forall is_u32 (tv :: times l);
  sd_ended : finished l <> [];
  sd_keys : forall b c, b ∈ listed_slots (finished l) -> ft_convs (book_all (l ++ [p]) empty_table) !! b = Some c -> cleanup_key c <> pk_key p;
  sd_left : let t := book_all (l ++ [p]) empty_table in
    Z.of_nat (size (ft_convs t)) <= 2 * Z.of_nat (size (surviving (listed_slots (finished l)) t)) /\
    forall lan, peers_of lan t <= 2 * Z.of_nat (size (kept_peers lan (listed_slots (finished l)) t))
}.

Lemma keys_differ_conv k (used : gset ptr) idx t s env (L : list Z) : agrees k used idx t s -> (forall x, x ∈ L -> is_Some (ft_convs t !! x)) ->
  key_wf (km_stream (g_mem s) (pe_key env)) ->
  (forall b c, b ∈ L -> ft_convs t !! b = Some c -> cleanup_key c <> km_stream (g_mem s) (pe_key env)) -> keys_differ env s (idx <$> L).
Proof.
  intros H HL Hwf Hne i e al ar HiL He Hal Har. apply list_elem_of_fmap in HiL as (b & -> & Hb). destruct (HL b Hb) as [c Hc].
  destruct (conv_stream k used idx t s H b c Hc) as (e' & [He' _] & Hce). assert (e' = e) as -> by (unfold stream_at in *; congruence).
  pose proof Hce as [([Kl Kr Kp _ _ _ _] & _) Dl Dr (P1 & P2 & P3 & _) _ _ _ _].
  destruct (end_addr k used idx t s H c e _ Hce (or_introl eq_refl)) as (i1 & a1 & _ & D1 & _ & A1 & _ & _ & O1).
  destruct (end_addr k used idx t s H c e _ Hce (or_intror eq_refl)) as (i2 & a2 & _ & D2 & _ & A2 & _ & _ & O2).
  rewrite Dl in D1. injection D1 as <-. rewrite Dr in D2. injection D2 as <-.
  assert (a1 = al) as -> by (unfold addr_at in *; congruence). assert (a2 = ar) as -> by (unfold addr_at in *; congruence).
  assert (key_of_stream e al ar = cleanup_key c) as -> by (unfold key_of_stream, cleanup_key; by rewrite P1, P2, P3, O1, O2).
  rewrite hcmp_eq; [by apply (Hne b c Hb Hc) | | exact Hwf]. unfold cleanup_key. rewrite init_v4_eq by exact Kp.
  case_match; apply v4_key_wf; assumption.
Qed.

Lemma nonempty_elem {A} (l : list A) : l <> [] -> exists x, x ∈ l.
Proof. destruct l as [| x l]; [done | exists x; set_solver]. Qed.

(** In the middle of a minute nothing is added to the list itself. *)
Lemma mid_queue_list tv l c : mid_minute tv -> fst (queue_add tv l (queues c)) = list_items c.
Proof. intros H. unfold queue_add. by rewrite mid_not_immediate. Qed.

(** The handler's packet, then its sweep. *)
Lemma sweep_packet k (used' : gset ptr) idx idx' t s s' cl cl' p fin :
  let env := pk_env p in let tv := tv_sec (hdr_ts (pk_hdr p)) in let t' := book p t in
  agrees k used' idx' t' s' -> views t' -> cleanup_inv cl' -> pk_heard p = true -> mid_minute tv ->
  pe_key env = k -> pe_cleanup_key env <> k -> Forall is_u8 (pk_buf p) ->
  (forall b, is_Some (ft_convs t !! b) -> idx' b = idx b) -> queued_by p idx' t s s' cl cl' ->
  queue_agrees idx t fin s (queues cl) -> fin <> [] ->
  (forall b c, b ∈ listed_slots fin -> ft_convs t' !! b = Some c -> cleanup_key c <> pk_key p) ->
  Z.of_nat (size (ft_convs t')) <= 2 * Z.of_nat (size (surviving (listed_slots fin) t')) ->
  (forall lan, peers_of lan t' <= 2 * Z.of_nat (size (kept_peers lan (listed_slots fin) t'))) ->
  exists s2 c2, cleanup_expired_streams env tv s' cl' = Val (s2, c2) /\ cleanup_inv c2 /\
    released k idx' (listed_slots fin) t' s2 /\ list_items cl = idx' <$> listed_slots fin.
Proof.
  cbv zeta. intros Ha V Hc Hh Htv Hkey Hptr Hbytes Hidx Hq [Qn Qc Qq Qm] Hfin Hkeys Hs Hp. set (L := listed_slots fin) in *.
  pose proof (listed_finished fin) as HLf. fold L in HLf.
  assert (forall b, b ∈ L -> is_Some (ft_convs (book p t) !! b)) as HL by (intros b Hb; apply (book_convs p t b Hh); right; by apply Qc, HLf).
  unfold queued_by in Hq. rewrite Hh in Hq. destruct Hq as (before & _ & [Hq _ _ Hmem]).
  assert (list_items cl = idx' <$> L) as Hcl.
  { assert (list_items cl = fst (queues cl)) as -> by reflexivity. rewrite Qq. cbn [fst]. symmetry. apply listed_idx. intros b Hb. by apply Hidx, Qc. }
  assert (list_items cl' = idx' <$> L) as Hcl'.
  { assert (list_items cl' = fst (queues cl')) as -> by reflexivity. rewrite Hq, <- Hcl. destruct (_ && _); [| done].
    by apply mid_queue_list. }
  assert (L <> []) as HLne by (unfold L, listed_slots; by destruct fin).
  destruct (sweep_ok (pk_env p) (tv_sec (hdr_ts (pk_hdr p))) s' cl') as (s2 & c2 & H1 & H2 & _ & H3 & _).
  - apply (ag_inv _ _ _ _ _ Ha).
  - exact Hc.
  - by eapply agrees_counted.
  - unfold mid_minute in Htv. unfold STAT_PROCESS_TIME_SEC. lia.
  - rewrite Hcl'. by destruct L.
  - rewrite (mid_queue_list _ _ _ Htv), Hcl'. apply NoDup_fmap_2_strong; [| by apply sublist_NoDup with fin, sublist_take].
    intros x y Hx Hy E. destruct (HL x Hx) as [cx Hcx], (HL y Hy) as [cy Hcy]. exact (ca_inj _ _ _ (ag_convs _ _ _ _ _ Ha) _ _ _ _ Hcx Hcy E).
  - rewrite (mid_queue_list _ _ _ Htv), Hcl'. intros i (b & -> & Hb)%list_elem_of_fmap.
    destruct (HL b Hb) as [c Hbc]. destruct (conv_stream k used' idx' _ s' Ha b c Hbc) as (e & Hl & _). by exists e.
  - rewrite (mid_queue_list _ _ _ Htv), Hcl'.
    apply (run_anchored k used' idx' _ s' Ha L HL); [| exact Hs | exact Hp].
    destruct (nonempty_elem L HLne) as [b Hb]. destruct (HL b Hb) as [c Hbc].
    assert (size (ft_convs (book p t)) <> 0%nat); [| lia]. intros E%map_size_empty_inv. rewrite E, lookup_empty in Hbc. done.
  - rewrite (mid_queue_list _ _ _ Htv), Hcl'.
    apply (keys_differ_conv k used' idx' _ s' _ L Ha HL); rewrite Hmem; [by apply packet_key_wf | exact Hkeys].
  - rewrite Hkey. exact (agrees_shared _ _ _ _ (ag_tbl _ _ _ _ _ Ha)).
  - exact (ta_shape _ _ _ _ (ag_tbl _ _ _ _ _ Ha)).
  - by rewrite Hkey.
  - exists s2, c2. split; [exact H1 |]. split; [exact H3 |]. split; [| exact Hcl].
    rewrite (mid_queue_list _ _ _ Htv), Hcl' in H2.
    exact (swept_released k used' idx' _ s' s2 _ L Ha HL H2).
Qed.

Lemma due_later tv last l : (tv ∉ 0 :: l) -> Forall is_u32 (tv :: l) -> (last ∈ 0 :: l) -> (0 <? u32 (tv - last)) = true.
Proof.
  intros Hn Hu Hl. apply Forall_cons_1 in Hu as [Htv Hu]. assert (tv <> last) by (intros ->; by apply Hn).
  assert (is_u32 last) as Hlast by (apply elem_of_cons in Hl as [-> | Hl]; [done | by apply (proj1 (list.Forall_forall _ _) Hu)]).
  apply Z.ltb_lt. unfold is_u32, u32 in *. destruct (Z_lt_le_dec last tv).
  - rewrite Z.mod_small by lia. lia.
  - rewrite <- (Z.mod_unique (tv - last) 4294967296 (-1) (tv - last + 4294967296)) by lia. lia.
Qed.

(** A packet of a conversation whose stream was freed. *)
Lemma freed_counts k idx L t s cl b c p :
  released k idx L t s -> cleanup_inv cl -> b ∈ L -> ft_convs t !! b = Some c ->
  packet_ok (pk_hdr p) (pk_buf p) -> heard (pk_hdr p) (pk_buf p) -> pe_key (pk_env p) = k -> slot (pk_key p) = b ->
  exists e e' s' cl', packet_step (pk_env p) (pk_hdr p) (pk_buf p) s cl = Val (true, s', cl') /\ shm_inv s' /\
    stream_at s (idx b) e /\ tv_sec (si_tstart e) = 0 /\ stream_at s' (idx b) e' /\ tv_sec (si_tstart e') = 0 /\
    si_packets e' = u32 (si_packets e + 1) /\ si_bytes e' = u32 (si_bytes e + pk_len p) /\
    sh_stream_indexes (g_shm s') = sh_stream_indexes (g_shm s) /\ (forall i x, live_stream s' i x <-> live_stream s i x).
Proof.
  intros [Ri Re _ Rends Rinj Rt _] Hc HbL Hconv (Hb1 & Hb2 & Hb3) (Hacc & Hh1 & Hh2) <- Hslot.
  destruct (Re b c Hconv) as (e0 & Hce & He). rewrite bool_decide_true in He by exact HbL.
  pose proof Hce as [(Hkey & Hlr & Hts) Dl Dr (P1 & P2 & P3 & P4) Hclass _ _ _].
  destruct (Rends b c _ Hconv (or_introl eq_refl)) as (il & al & Il & Hal & _). destruct (Rends b c _ Hconv (or_intror eq_refl)) as (ir & ar & Ir & Har & _).
  rewrite Dl in Il. injection Il as <-. rewrite Dr in Ir. injection Ir as <-. fold (pk_key p) in *.
  assert (si_idx_left e0 <> si_idx_right e0) as Hne by (intros E; rewrite <- E in Dr; by apply (key_ne _ _ Hlr), (Rinj _ _ _ Dl Dr)).
  pose proof (agrees_lookup _ _ _ _ (pk_key p) Rt) as Hlook. rewrite Hslot, Hconv in Hlook.
  destruct (packet_known_ok (pk_env p) (pk_hdr p) (pk_buf p) s cl (idx b) (freed_stream e0) al ar Hb1 Hb2 Hb3 Hacc (conj Hh1 Hh2) Hlook Ri Hc He Hal Har
    Hne) as (s' & cl' & vlan & Hstep & _ & [C1 _ _ _ [F1 _ [F3 _] _ _ [F6 _]]] & Hi' & _).
  - change (is_u16 (si_rport e0)). rewrite P2. apply Hkey.
  - change (flow_class (freed_stream e0)) with (flow_class e0). rewrite Hclass. apply conv_class_small.
  - set (s0 := store_stream_key _ _ s) in *. destruct (global_counted_rest (pk_hdr p) s0) as (G1 & _).
    exists (freed_stream e0). eexists. exists s', cl'. split; [exact Hstep |]. split; [exact Hi' |]. split; [exact He |]. split; [reflexivity |].
    split; [exact C1 |]. split; [by rewrite counted_tstart |].
    destruct (counted_numbers (pk_hdr p) vlan (packet_info (pk_buf p)) (freed_stream e0)) as [-> ->]. split; [done |]. split; [done |].
    split; [rewrite F3; unfold global_counted; by destruct (_ =? 0) |].
    assert (forall i x, i <> idx b -> stream_at s i x -> stream_at s' i x) as Hoth.
    { intros i x Hix Hx. apply F1; [by intros ->%list_elem_of_singleton |]. unfold stream_at in *. by rewrite G1. }
    intros i x. destruct (decide (i = idx b)) as [-> | Hix].
    + split; intros [Hx Hz]; destruct Hz; unfold stream_at in *; [rewrite C1 in Hx | rewrite He in Hx]; injection Hx as <-; [by rewrite counted_tstart | reflexivity].
    + split; intros [Hx Hz]; (split; [| exact Hz]); [| by apply Hoth].
      pose proof (aget_inv _ _ _ Hx) as Hb. rewrite F6, G1 in Hb. change (sh_streams (g_shm s0)) with (sh_streams (g_shm s)) in Hb.
      destruct (aget_lt _ _ Hb) as [y Hy]. pose proof (Hoth i y Hix Hy) as Hy'. unfold stream_at in *. congruence.
Qed.

(** The sweep after a run. *)
Lemma sweep_frees use_shm env mem s k l p
    (Hs : shm_data_init use_shm env mem = Val (Some s)) (Hk : k <> NULL) (Hl : bookable_all k ∅ l empty_table)
    (Hd : sweep_due k l p) :
  exists idx st st', handle l (start_books s) = Val st /\ handle [p] st = Val st' /\
    NoDup (finished l) /\ list_items (cp_cleanup st) = idx <$> listed_slots (finished l) /\
    cleanup_inv (cp_cleanup st') /\ released k idx (listed_slots (finished l)) (book_all (l ++ [p]) empty_table) (cp_shm st') /\
    (forall b, b ∈ listed_slots (finished l) -> is_Some (ft_convs (book_all (l ++ [p]) empty_table) !! b)).
Proof.
  destruct (queue_run _ _ _ _ _ _ Hs Hk Hl) as (idx & st & Hrun & [Ha Hc _] & Hqa & Hlast).
  destruct Hd as [[Hptr Hck] [Hent Hh] (Htv & Hnew & Hu) Hend Hkeys [Hs1 Hs2]]. set (t := book_all l empty_table) in *.
  assert (book_all (l ++ [p]) empty_table = book p t) as Et by (unfold book_all; by rewrite foldl_app). rewrite Et in *.
  destruct (step_books k _ idx t (cp_shm st) (cp_cleanup st) p Hk Ha Hc Hptr Hent) as (s' & cl' & idx' & Hstep & Ha' & Hc' & Hidx & _ & Hq).
  assert (views (book p t)) as V by (apply book_views; [apply (book_all_views k l ∅); [exact views_empty | exact Hl] | exact Hent]).
  destruct (sweep_packet k _ idx idx' t (cp_shm st) s' (cp_cleanup st) cl' p (finished l) Ha' V Hc' Hh Htv (po_key _ _ _ Hptr) Hck
    (proj1 (proj2 (eo_packet _ _ Hent))) Hidx Hq Hqa Hend Hkeys Hs1 Hs2) as (s2 & c2 & Hsw & Hc2 & Hrel & Hlist).
  exists idx', st. eexists. split; [exact Hrun |]. split; [| split; [exact (qa_nodup _ _ _ _ _ Hqa) | split; [exact Hlist |]]].
  - unfold handle. cbn [for_each]. unfold on_packet. cbn [run_sim]. rewrite bind_Val, Hstep, bind_Val, Hh. cbn [negb]. rewrite bind_Val.
    cbn [cp_last_sec cp_shm cp_cleanup]. rewrite (due_later _ _ _ Hnew Hu Hlast), Hsw, !bind_Val. reflexivity.
  - split; [exact Hc2 |]. split; [exact Hrel |]. intros b Hb. apply (book_convs p t b Hh). right.
    apply (qa_convs _ _ _ _ _ Hqa). by apply (listed_finished _ b).
Qed.

(** ** Properties *)

(** C4: what the first sweep frees.  From the state [shm_data_init] leaves, after
    packets of any number of interleaved conversations that satisfy [bookable_all] -
    buffers of at least 96 bytes, captured lengths below 2^31; new conversations with
    two different addresses and a time other than second 0, while fewer than 254 LAN and
    16126 other addresses are known; fewer than 2^32 packets in a conversation; the
    handler's key object at one address, and allocations that succeed, with new objects;
    and from the first FIN or RST on only packets in the first fifteen seconds of a
    minute, so that no sweep frees a stream -, the cleanup list holds the streams of the
    conversations that had a FIN or RST, in the order of the first of these packets, as
    far as it has room, each once.  Let then a packet come for which [sweep_due] holds:
    it satisfies the same conditions except the last; it counts; it comes in the middle
    of a minute (seconds 15 to 54), at a second other than 0 in which no packet came
    before; some connection has ended; its key is none of the keys the sweep forms for
    the listed conversations, in a key object of its own; and with it at least half of
    the conversations are not listed, and at least half of the addresses of each side
    keep a stream.  It is counted, and the sweep it starts frees exactly the listed
    streams: they are not in use any more and every other stream is, each address counts
    the streams that are left to it, the addresses without any are free, and no counter
    of the other conversations, of the services or of the flow types changes but by the
    packet itself; and since the packet's key is none of those the sweep forms, the hash
    table still leads the keys of the freed streams to their entries. *)
Theorem sweep_frees_ended use_shm env mem s k l p
    (Hs : shm_data_init use_shm env mem = Val (Some s)) (Hk : k <> NULL) (Hl : bookable_all k ∅ l empty_table)
    (Hd : sweep_due k l p) :
  exists idx st st', handle l (start_books s) = Val st /\ handle [p] st = Val st' /\
    NoDup (finished l) /\ list_items (cp_cleanup st) = idx <$> listed_slots (finished l) /\
    cleanup_inv (cp_cleanup st') /\ released k idx (listed_slots (finished l)) (book_all (l ++ [p]) empty_table) (cp_shm st').
Proof.
  destruct (sweep_frees use_shm env mem s k l p Hs Hk Hl Hd) as (idx & st & st' & H1 & H2 & H3 & H4 & H5 & H6 & _).
  by exists idx, st, st'.
Qed.

(** C33: a connection that goes on after its stream was freed is lost.  After packets
    that satisfy [bookable_all] - buffers of at least 96 bytes, captured lengths below
    2^31; new conversations with two different addresses and a time other than second 0,
    while fewer than 254 LAN and 16126 other addresses are known; fewer than 2^32
    packets in a conversation; the handler's key object at one address, and allocations
    that succeed, with new objects; and from the first FIN or RST on only packets in the
    first fifteen seconds of a minute, so that no sweep frees a stream - and the packet
    that starts the first sweep as [sweep_due] states it - it satisfies the same
    conditions except the last; it counts; it comes in the middle of a minute (seconds
    15 to 54), at a second other than 0 in which no packet came before; some connection
    has ended; its key is none of the keys the sweep forms for the listed conversations,
    in a key object of its own; and with it at least half of the conversations are not
    listed, and at least half of the addresses of each side keep a stream -, let a
    packet follow in a buffer of at least 96 bytes that counts, with the handler's key
    object at the same address as before, and whose key leads to a conversation of the
    list.  It is counted on the entry that was freed, which stays free.  No stream is
    made for it and the streams in use are those that were, so no report shows the
    packet among its streams. *)
Theorem packet_after_release use_shm env mem s k l p q
    (Hs : shm_data_init use_shm env mem = Val (Some s)) (Hk : k <> NULL) (Hl : bookable_all k ∅ l empty_table)
    (Hd : sweep_due k l p) (Hq : packet_ok (pk_hdr q) (pk_buf q)) (Hh : heard (pk_hdr q) (pk_buf q))
    (Hkey : pe_key (pk_env q) = k) (Hslot : slot (pk_key q) ∈ listed_slots (finished l)) :
  exists st st' i e e' s' c', handle l (start_books s) = Val st /\ handle [p] st = Val st' /\
    packet_step (pk_env q) (pk_hdr q) (pk_buf q) (cp_shm st') (cp_cleanup st') = Val (true, s', c') /\
    stream_at (cp_shm st') i e /\ tv_sec (si_tstart e) = 0 /\ stream_at s' i e' /\ tv_sec (si_tstart e') = 0 /\
    si_packets e' = u32 (si_packets e + 1) /\ si_bytes e' = u32 (si_bytes e + pk_len q) /\
    sh_stream_indexes (g_shm s') = sh_stream_indexes (g_shm (cp_shm st')) /\
    (forall j x, live_stream s' j x <-> live_stream (cp_shm st') j x).
Proof.
  destruct (sweep_frees use_shm env mem s k l p Hs Hk Hl Hd) as (idx & st & st' & H1 & H2 & _ & _ & Hc & Hrel & Hsome).
  destruct (Hsome _ Hslot) as [c Hconv].
  destruct (freed_counts k idx _ _ (cp_shm st') (cp_cleanup st') _ c q Hrel Hc Hslot Hconv Hq Hh Hkey eq_refl)
    as (e & e' & s' & c' & P1 & _ & P2 & P3 & P4 & P5 & P6 & P7 & P8 & P9).
  exists st, st', (idx (slot (pk_key q))), e, e', s', c'. by repeat (split; [assumption |]).
Qed.

(** ** Witness *)

Module SweepTest.
Import ShmTest PacketTest LifeTest ConversationTest FlowRunTest.

Definition hdr_at (sec : Z) : pcap_pkthdr32_t := mk_pcap_pkthdr32_t (mk_tval_t sec 0) 142 142.
Definition packet_at (n sec src sport flags : Z) : packet := mk_packet (env_at n) (hdr_at sec) (encode_frame (frame_of src sport flags)).

(** Three connections of one host and one of another, in the first seconds of a minute;
    the second host's and the first of the others end. *)
Definition closing : list packet :=
  [packet_at 0 1080 1 4000 2; packet_at 1 1081 1 4001 2; packet_at 2 1081 2 4002 2; packet_at 3 1082 1 4003 2;
   packet_at 4 1083 2 4002 17; packet_at 5 1084 1 4000 17; packet_at 6 1085 2 4002 17].

(** A packet of another connection twenty seconds into the minute. *)
Definition later : packet := packet_at 7 1100 1 4001 16.

Lemma closing_bookable : bookable_all 5 ∅ closing empty_table.
Proof. apply bookable_allb_sound. vm_compute. reflexivity. Qed.

Definition ended_slots : list Z := [slot (pk_key (packet_at 4 1083 2 4002 17)); slot (pk_key (packet_at 5 1084 1 4000 17))].

Lemma closing_finished : finished closing = ended_slots /\ listed_slots (finished closing) = ended_slots.
Proof. assert (finished closing = ended_slots) as -> by (vm_compute; reflexivity). split; reflexivity. Qed.

Lemma forallb_elem {A} (f : A -> bool) l x : forallb f l = true -> x ∈ l -> f x = true.
Proof. intros H Hx. rewrite forallb_forall in H. by apply H, list_elem_of_In. Qed.

Lemma later_due : sweep_due 5 closing later.
Proof.
  destruct closing_finished as [Hf Hls]. split.
  - split; [apply pointers_okb_sound; vm_compute; reflexivity | discriminate].
  - split; [apply entered_okb_sound; vm_compute; reflexivity | vm_compute; reflexivity].
  - split; [split; vm_compute; [discriminate | reflexivity] |].
    split; [apply (bool_decide_eq_true_1 (1100 ∉ 0 :: times closing)); vm_compute; reflexivity |].
    apply (bool_decide_eq_true_1 (Forall is_u32 (1100 :: times closing))). vm_compute. reflexivity.
  - rewrite Hf. discriminate.
  - rewrite Hls. intros b c Hb Hc.
    assert (forallb (fun b => match ft_convs (book_all (closing ++ [later]) empty_table) !! b with
      | Some c => negb (bool_decide (sk_lport (sk_v4 (cleanup_key c)) = sk_lport (sk_v4 (pk_key later)))) | None => true end) ended_slots = true) as Hall
      by (vm_compute; reflexivity).
    apply (forallb_elem _ _ b) in Hall; [| exact Hb]. cbv beta in Hall. rewrite Hc in Hall.
    apply negb_true_iff, bool_decide_eq_false in Hall. intros E.
    exact (Hall (f_equal (fun key => sk_lport (sk_v4 key)) E)).
  - cbv zeta. rewrite Hls. split; [vm_compute; discriminate |]. intros []; vm_compute; discriminate.
Qed.

(** Two streams are freed; the second host loses its only one, the first keeps two. *)
Lemma sweep_frees_ended_witness : exists s idx st st', shm_data_init true env_ok mem0 = Val (Some s) /\
  handle closing (start_books s) = Val st /\ handle [later] st = Val st' /\ list_items (cp_cleanup st) = idx <$> ended_slots /\
  (exists i a, addr_at (cp_shm st') i a /\ tv_sec (ai_tstart a) = 0) /\
  (exists i a, addr_at (cp_shm st') i a /\ tv_sec (ai_tstart a) <> 0 /\ ai_nstreams_active a = 2).
Proof.
  destruct (init_ready true) as (s & Hs & _).
  destruct (sweep_frees_ended true env_ok mem0 s 5 closing later Hs ltac:(discriminate) closing_bookable later_due)
    as (idx & st & st' & H1 & H2 & _ & H3 & _ & [_ _ _ He _ _ _]).
  rewrite (proj2 closing_finished) in H3, He. exists s, idx, st, st'. do 4 (split; [assumption |]).
  assert (exists c, ft_convs (book_all (closing ++ [later]) empty_table) !! slot (pk_key (packet_at 4 1083 2 4002 17)) = Some c /\
    conv_left c = ip_of 10 0 0 2) as (c & Hc & Hl) by (eexists; split; [vm_compute; reflexivity | vm_compute; reflexivity]).
  assert (exists c, ft_convs (book_all (closing ++ [later]) empty_table) !! slot (pk_key later) = Some c /\
    conv_left c = ip_of 10 0 0 1) as (c' & Hc' & Hl') by (eexists; split; [vm_compute; reflexivity | vm_compute; reflexivity]).
  assert (streams_left ended_slots (ip_of 10 0 0 2) (book_all (closing ++ [later]) empty_table) = 0) as Hn by (vm_compute; reflexivity).
  assert (streams_left ended_slots (ip_of 10 0 0 1) (book_all (closing ++ [later]) empty_table) = 2) as Hn' by (vm_compute; reflexivity).
  destruct (He _ _ _ Hc (or_introl eq_refl)) as (i & a & _ & Ha & _ & Hz). destruct (He _ _ _ Hc' (or_introl eq_refl)) as (i' & a' & _ & Ha' & Hm & Hz').
  rewrite Hl, Hn in Hz. rewrite Hl', Hn' in Hm, Hz'. split; [exists i, a | exists i', a']; (split; [assumption |]).
  - exact (proj2 Hz eq_refl).
  - split; [| exact Hm]. intros E. discriminate (proj1 Hz' E).
Defined.

(** The second host's connection goes on. *)
Definition after : packet := packet_at 8 1101 2 4002 16.

Lemma packet_after_release_witness : exists s st st' i e e' s' c', shm_data_init true env_ok mem0 = Val (Some s) /\
  handle closing (start_books s) = Val st /\ handle [later] st = Val st' /\
  packet_step (pk_env after) (pk_hdr after) (pk_buf after) (cp_shm st') (cp_cleanup st') = Val (true, s', c') /\
  stream_at (cp_shm st') i e /\ stream_at s' i e' /\ tv_sec (si_tstart e') = 0 /\ si_packets e' = u32 (si_packets e + 1).
Proof.
  destruct (init_ready true) as (s & Hs & _).
  destruct (packet_after_release true env_ok mem0 s 5 closing later after Hs ltac:(discriminate) closing_bookable later_due)
    as (st & st' & i & e & e' & s' & c' & H1 & H2 & H3 & H4 & _ & H5 & H6 & H7 & _).
  - apply packet_okb_sound. vm_compute. reflexivity.
  - apply (bool_decide_eq_true_1 (heard (pk_hdr after) (pk_buf after))). vm_compute. reflexivity.
  - reflexivity.
  - rewrite (proj2 closing_finished). apply (bool_decide_eq_true_1 (slot (pk_key after) ∈ ended_slots)). vm_compute. reflexivity.
  - exists s, st, st', i, e, e', s', c'. do 7 (split; [assumption |]). exact H7.
Defined.
End SweepTest.
