(* ===== verification/Reports.v ===== *)
(** What the statistics process reports: the differences of the counters between
    two periods, the order of the top lists, the clock of the per second table, the
    port masks, and the lists of what a period already described. *)
From S2P Require Import Prelude Structs Counters Format StreamKey Sort StringBuf ShmData Export StatProc.
From stdpp Require Import list.
#[local] Open Scope Z_scope.

(** ** Comparators *)

Lemma cmp_field_cases x y : cmp_field x y <= 0 <-> x <= y.
Proof. unfold cmp_field. destruct (Z.ltb_spec x y), (Z.ltb_spec y x); lia. Qed.

(** Sorting pointers by a key of the entries, largest first. *)
Lemma via_desc {A} (arr : list A) (k : A -> Z) (cmp : A -> A -> Z) :
  (forall a b, cmp a b = cmp_field (k b) (k a)) -> CmpOrder (via arr cmp).
Proof.
  intros Hc. split; unfold via.
  - intros p. destruct (at_ptr arr p); [| lia]. rewrite Hc. apply cmp_field_cases. lia.
  - intros p q. destruct (at_ptr arr p) as [x |], (at_ptr arr q) as [y |]; rewrite ?Hc; try lia.
    rewrite cmp_field_cases. pose proof (cmp_field_cases (k y) (k x)). lia.
  - intros p q r. destruct (at_ptr arr p), (at_ptr arr q), (at_ptr arr r); rewrite ?Hc; try lia.
    rewrite !cmp_field_cases. lia.
Qed.

#[export] Instance stream_pkt_order arr : CmpOrder (via arr rcmp_stream_pkt).
Proof. by apply (via_desc _ si_packets). Qed.
#[export] Instance stream_bytes_order arr : CmpOrder (via arr rcmp_stream_bytes).
Proof. by apply (via_desc _ si_bytes). Qed.
#[export] Instance protos_pkt_order arr : CmpOrder (via arr rcmp_protos_pkt).
Proof. by apply (via_desc _ pi_packets). Qed.

(** The first [n] pointers, in descending order of a key of their entries. *)
Definition ranked {A} (arr : list A) (k : A -> Z) (n : Z) (ptrs : list (option Z)) : Prop :=
  forall a b i j x y, 0 <= a -> a <= b -> b < n ->
    aget ptrs a = Val (Some i) -> aget ptrs b = Val (Some j) -> aget arr i = Val x -> aget arr j = Val y ->
    k y <= k x.

Lemma sort_ranked {A} (arr : list A) (k : A -> Z) cmp (l : list Z) ptrs n :
  (forall a b, cmp a b = cmp_field (k b) (k a)) ->
  n = Z.of_nat (length l) -> n <= Z.of_nat (length ptrs) -> Z.of_nat (length ptrs) <= 1073741824 ->
  take (length l) ptrs ≡ₚ (Some <$> l) ->
  exists ptrs', quicksort (via arr cmp) ptrs 0 (i32 (u32 (n - 1))) = Val ptrs' /\
    length ptrs' = length ptrs /\ take (length l) ptrs' ≡ₚ (Some <$> l) /\ ranked arr k n ptrs'.
Proof.
  intros Hk Hn Hlen Hmax Hp.
  assert (i32 (u32 (n - 1)) = n - 1) as -> by (subst n; clia).
  destruct (quicksort_fuel_spec (via arr cmp) (CmpOrder0 := via_desc arr k cmp Hk) (Z.to_nat (n - 1 - 0 + 1)) ptrs 0 (n - 1))
    as (ptrs' & Hq & Hseg & Hs); [lia .. |].
  pose proof (seg_perm_length _ _ _ _ Hseg) as Hl'. destruct Hseg as [Hperm Hout _].
  exists ptrs'. split; [exact Hq |]. split; [exact Hl' |]. split.
  - rewrite <- Hp. rewrite <- (take_drop (length l) ptrs), <- (take_drop (length l) ptrs') in Hperm.
    assert (drop (length l) ptrs' = drop (length l) ptrs) as Hd.
    { apply list_eq. intros i. rewrite !lookup_drop. specialize (Hout (Z.of_nat (length l + i)) ltac:(lia)).
      destruct (decide (length l + i < length ptrs)%nat) as [Hi | Hi].
      - destruct (aget_lt ptrs (Z.of_nat (length l + i)) ltac:(lia)) as [x Hx]. rewrite Hx in Hout.
        apply aget_Val in Hx as [_ Hx]. apply aget_Val in Hout as [_ Hy]. rewrite Nat2Z.id in Hx, Hy. congruence.
      - rewrite !lookup_ge_None_2 by lia. done. }
    rewrite Hd in Hperm. symmetry. by apply (Permutation_app_inv_r (drop (length l) ptrs)).
  - intros a b i j x y Ha Hab Hb Hi Hj Hx Hy.
    pose proof (Hs a b _ _ ltac:(lia) Hab ltac:(lia) Hi Hj) as Hc. unfold via, at_ptr in Hc.
    apply aget_Val in Hx as [_ Hx]. apply aget_Val in Hy as [_ Hy]. rewrite Hx, Hy, Hk in Hc.
    exact (proj1 (cmp_field_cases _ _) Hc).
Qed.

(** ** Streams of a period *)

(** A stream of the copy that exists, inside the window. *)
Definition live_stream (arr : list stream_info_t) (i : Z) : bool :=
  match aget arr i with Val e => negb (IS_EMPTY_SLOT (si_tstart e)) | _ => false end.

(** What a report's loop over streams has done to entry [i] of the copy and of the
    last report's block. *)
Definition stream_diffed (copy last copy' last' : sharedif_t) (i : Z) : Prop :=
  exists old cur, aget (sh_streams last) i = Val old /\ aget (sh_streams copy) i = Val cur /\
    aget (sh_streams last') i = Val (fst (diff_stream old cur)) /\
    aget (sh_streams copy') i = Val (snd (diff_stream old cur)).

Definition stream_kept (copy last copy' last' : sharedif_t) (i : Z) : Prop :=
  aget (sh_streams copy') i = aget (sh_streams copy) i /\ aget (sh_streams last') i = aget (sh_streams last) i.

Record streams_gathered (copy last : sharedif_t) (ptrs : list (option Z)) (dn : list Z) (g : gather) : Prop := {
  sg_num : ga_num g = Z.of_nat (length (List.filter (live_stream (sh_streams copy)) dn));
  sg_ptrs : take (length (List.filter (live_stream (sh_streams copy)) dn)) (ga_ptrs g) =
    Some <$> List.filter (live_stream (sh_streams copy)) dn;
  sg_len : length (sh_streams (ga_copy g)) = length (sh_streams copy) /\
    length (sh_streams (ga_last g)) = length (sh_streams last) /\
    length (sh_addrs (ga_copy g)) = length (sh_addrs copy) /\ length (ga_ptrs g) = length ptrs;
  sg_done : forall i, i ∈ dn -> live_stream (sh_streams copy) i = true ->
    stream_diffed copy last (ga_copy g) (ga_last g) i;
  sg_rest : forall i, i ∉ dn \/ live_stream (sh_streams copy) i = false ->
    stream_kept copy last (ga_copy g) (ga_last g) i
}.

(** The ends of the live streams exist. *)
Definition ends_exist (sh : sharedif_t) (w : list Z) : Prop :=
  forall i e, i ∈ w -> aget (sh_streams sh) i = Val e -> IS_EMPTY_SLOT (si_tstart e) = false ->
    0 <= si_idx_left e < Z.of_nat (length (sh_addrs sh)) /\ 0 <= si_idx_right e < Z.of_nat (length (sh_addrs sh)).

Lemma mark_ok (arr : list addr_info_t) i f :
  0 <= i < Z.of_nat (length arr) ->
  exists arr' a, aget arr i = Val a /\
    (if negb (ai_internal a =? 0) then upd_at arr i f else Val arr) = Val arr' /\ length arr' = length arr.
Proof.
  intros Hi. destruct (aget_lt arr i Hi) as [a Ha].
  destruct (negb (ai_internal a =? 0)) eqn:E.
  - exists (<[Z.to_nat i := f a]> arr), a. rewrite E. split; [done |]. unfold upd_at. rewrite Ha, bind_Val, aset_lt by done.
    split; [done | apply length_insert].
  - exists arr, a. by rewrite E.
Qed.

Lemma take_push {A} (l : list A) n x :
  (n < length l)%nat -> take (S n) (<[n := x]> l) = take n l ++ [x].
Proof.
  intros Hn. erewrite take_S_r by (by apply list_lookup_insert_eq). by rewrite take_insert_ge by lia.
Qed.

Lemma process_stream_step copy last ptrs dn i g :
  streams_gathered copy last ptrs dn g -> i ∉ dn ->
  0 <= i < Z.of_nat (length (sh_streams copy)) -> length (sh_streams last) = length (sh_streams copy) ->
  (length (List.filter (live_stream (sh_streams copy)) dn) < length ptrs)%nat ->
  Z.of_nat (length ptrs) < 4294967295 ->
  ends_exist copy [i] ->
  exists g', process_stream i g = Val g' /\ streams_gathered copy last ptrs (dn ++ [i]) g'.
Proof.
  intros [Gn Gp (L1 & L2 & L3 & L4) Gd Gr] Hi Hb Hlen Hroom Hmax Hends.
  destruct (Gr i (or_introl Hi)) as [Kc Kl]. unfold process_stream.
  destruct (aget_lt (sh_streams copy) i Hb) as [cur Hcur]. rewrite Kc, Hcur, bind_Val.
  assert (live_stream (sh_streams copy) i = negb (IS_EMPTY_SLOT (si_tstart cur))) as Hlive
    by (unfold live_stream; by rewrite Hcur).
  destruct (IS_EMPTY_SLOT (si_tstart cur)) eqn:Hemp.
  { exists g. split; [done |]. cbn in Hlive.
    assert (List.filter (live_stream (sh_streams copy)) (dn ++ [i]) =
      List.filter (live_stream (sh_streams copy)) dn) as Hf
      by (rewrite List.filter_app; cbn; by rewrite Hlive, app_nil_r).
    split; rewrite ?Hf; try done.
    - intros j [Hj | ->%list_elem_of_singleton]%elem_of_app Hjl; [by apply Gd | congruence].
    - intros j [Hj | Hj]; [| by apply Gr; right]. apply Gr. left. set_solver. }
  cbn in Hlive. destruct (aget_lt (sh_streams last) i ltac:(lia)) as [old Hold]. rewrite Kl, Hold, bind_Val.
  destruct (diff_stream old cur) as [last' cur'] eqn:Hd.
  rewrite !aset_lt by lia. rewrite !bind_Val.
  destruct (Hends i cur ltac:(set_solver) Hcur Hemp) as [He1 He2].
  destruct (mark_ok (sh_addrs (ga_copy g)) (si_idx_left cur) (mark_dest_port (si_rport cur)) ltac:(lia))
    as (arr1 & a & Ha & Hm1 & Hl1). rewrite Ha, bind_Val, Hm1, bind_Val.
  destruct (mark_ok arr1 (si_idx_right cur) (mark_serve_port (si_rport cur)) ltac:(lia))
    as (arr2 & b & Hbb & Hm2 & Hl2). rewrite Hbb, bind_Val, Hm2, bind_Val.
  rewrite bind_Val. eexists. split; [done |].
  assert (List.filter (live_stream (sh_streams copy)) (dn ++ [i]) =
    List.filter (live_stream (sh_streams copy)) dn ++ [i]) as Hf
    by (rewrite List.filter_app; cbn; by rewrite Hlive).
  split; rewrite ?Hf, ?length_app; cbn [ga_num ga_ptrs ga_copy ga_last sh_streams sh_addrs set_sh_addrs set_sh_streams length].
  - rewrite u32_small by (unfold is_u32; lia). lia.
  - rewrite Gn, Nat2Z.id, Nat.add_1_r, take_push, Gp, fmap_app by lia. done.
  - rewrite !length_insert. split; [done |]. split; [done |]. split; [congruence | done].
  - intros j Hj Hjl. destruct (decide (j = i)) as [-> | Hne].
    + exists old, cur. rewrite Hd. repeat (split; [done |]). cbn. split; by rewrite aget_insert_eq by lia.
    + destruct (Gd j) as (o & c & D1 & D2 & D3 & D4); [set_solver | done |].
      exists o, c. repeat (split; [done |]). cbn. by rewrite !aget_insert_ne by lia.
  - intros j Hj. assert (j <> i) as Hne by (intros ->; destruct Hj as [Hj | Hj]; [set_solver | congruence]).
    unfold stream_kept. cbn. rewrite !aget_insert_ne by lia. apply Gr. destruct Hj; [left; set_solver | by right].
Qed.

Lemma filter_le {A} (f : A -> bool) l : (length (List.filter f l) <= length l)%nat.
Proof. induction l as [| x l IH]; cbn; [lia |]. destruct (f x); cbn; lia. Qed.

Lemma gather_streams copy last ptrs w :
  NoDup w -> (forall i, i ∈ w -> 0 <= i < Z.of_nat (length (sh_streams copy))) ->
  length (sh_streams last) = length (sh_streams copy) -> (length w <= length ptrs)%nat ->
  Z.of_nat (length ptrs) < 4294967295 -> ends_exist copy w ->
  exists g, for_each process_stream w (mk_gather copy last ptrs 0) = Val g /\ streams_gathered copy last ptrs w g.
Proof.
  intros Hnd Hb Hl Hp Hmax He. apply for_each_inv.
  - split; try done. intros i Hi. by apply not_elem_of_nil in Hi.
  - intros dn i rest g Hsp Hg. assert (i ∈ w) as Hiw by (rewrite Hsp; set_solver).
    apply (process_stream_step copy last ptrs dn i g); try done.
    + rewrite Hsp in Hnd. apply NoDup_app in Hnd as (_ & Hno & _). intros Hi. by apply (Hno i Hi); left.
    + by apply Hb.
    + pose proof (filter_le (live_stream (sh_streams copy)) dn). rewrite Hsp, length_app in Hp. cbn in Hp. lia.
    + intros j e ->%list_elem_of_singleton. by apply He.
Qed.

(** The streams of the window that exist. *)
Definition live_streams (sh : sharedif_t) : list Z :=
  List.filter (live_stream (sh_streams sh)) (window (sh_stream_indexes sh)).

Lemma window_bounds p n i : 0 <= mi_idx_lo p -> mi_idx_hi p <= n -> n < 4294967295 -> i ∈ window p -> 0 <= i < n.
Proof. unfold window. intros H1 H2 H3 Hi%elem_of_seqZ. pose proof (u32_range (mi_idx_lo p + 1)). unfold is_u32 in *. lia. Qed.

Lemma window_length p n : 0 <= mi_idx_lo p -> mi_idx_hi p <= n -> 0 <= n < 4294967295 ->
  (length (window p) <= Z.to_nat n)%nat.
Proof. intros H1 H2 H3. unfold window. rewrite length_seqZ. pose proof (u32_range (mi_idx_lo p + 1)). unfold is_u32 in *. lia. Qed.

(** ** Properties *)

(** The streams of a period: the loop over the window, and the two sorts. *)
Lemma streams_ranked copy last ptrs
    (Hs : Z.of_nat (length (sh_streams copy)) = SI_NUM_STREAMS)
    (Hl : Z.of_nat (length (sh_streams last)) = SI_NUM_STREAMS)
    (Hp : Z.of_nat (length ptrs) = SI_NUM_STREAMS)
    (Hlo : 0 <= mi_idx_lo (sh_stream_indexes copy)) (Hhi : mi_idx_hi (sh_stream_indexes copy) <= SI_NUM_STREAMS)
    (Hends : ends_exist copy (window (sh_stream_indexes copy))) :
  let live := live_streams copy in
  exists g ptrs1 ptrs2,
    for_each process_stream (window (sh_stream_indexes copy)) (mk_gather copy last ptrs 0) = Val g /\
    ga_num g = Z.of_nat (length live) /\ take (length live) (ga_ptrs g) = Some <$> live /\
    (forall i, i ∈ live -> stream_diffed copy last (ga_copy g) (ga_last g) i) /\
    (forall i, i ∉ live -> stream_kept copy last (ga_copy g) (ga_last g) i) /\
    quicksort (via (sh_streams (ga_copy g)) rcmp_stream_pkt) (ga_ptrs g) 0 (i32 (u32 (ga_num g - 1))) = Val ptrs1 /\
    take (length live) ptrs1 ≡ₚ (Some <$> live) /\
    ranked (sh_streams (ga_copy g)) si_packets (ga_num g) ptrs1 /\
    quicksort (via (sh_streams (ga_copy g)) rcmp_stream_bytes) ptrs1 0 (i32 (u32 (ga_num g - 1))) = Val ptrs2 /\
    take (length live) ptrs2 ≡ₚ (Some <$> live) /\
    ranked (sh_streams (ga_copy g)) si_bytes (ga_num g) ptrs2.
Proof.
  cbv zeta. unfold SI_NUM_STREAMS in *. set (w := window (sh_stream_indexes copy)).
  pose proof (window_length _ _ Hlo Hhi ltac:(lia)) as Hwl. fold w in Hwl.
  destruct (gather_streams copy last ptrs w) as (g & Hg & [Gn Gp (L1 & L2 & L3 & L4) Gd Gr]); try lia; try done.
  { apply NoDup_seqZ. }
  { intros i Hi. rewrite Hs. by apply (window_bounds (sh_stream_indexes copy)). }
  pose proof (filter_le (live_stream (sh_streams copy)) w) as Hle.
  change (List.filter (live_stream (sh_streams copy)) w) with (live_streams copy) in Gn, Gp, Hle.
  assert (take (length (live_streams copy)) (ga_ptrs g) ≡ₚ (Some <$> live_streams copy)) as Hperm by (by rewrite Gp).
  destruct (sort_ranked (sh_streams (ga_copy g)) si_packets rcmp_stream_pkt (live_streams copy) (ga_ptrs g) (ga_num g))
    as (p1 & Q1 & N1 & P1 & R1); [done | done | lia | lia | done |].
  destruct (sort_ranked (sh_streams (ga_copy g)) si_bytes rcmp_stream_bytes (live_streams copy) p1 (ga_num g))
    as (p2 & Q2 & N2 & P2 & R2); [done | done | lia | lia | done |].
  exists g, p1, p2. split; [exact Hg |]. split; [exact Gn |]. split; [exact Gp |].
  assert (forall i, i ∈ live_streams copy <-> i ∈ w /\ live_stream (sh_streams copy) i = true) as Hin.
  { intros i. unfold live_streams. rewrite list_elem_of_In, filter_In, <- list_elem_of_In. done. }
  split; [intros i [Hi1 Hi2]%Hin; by apply Gd |].
  split; [| by repeat (split; [assumption |])].
  intros i Hi. apply Gr. destruct (decide (i ∈ w)) as [Hw | Hw]; [right | by left].
  destruct (live_stream (sh_streams copy) i) eqn:E; [| done]. destruct Hi. by apply Hin.
Qed.

(** C20: the streams of a period.  After the loop of [_process_streams] the pointer
    array starts with the live streams of the window, each once; each has become the
    difference to the last report if that had a stream that started at the same time,
    and the last report's entry now holds the present values; all other entries are
    unchanged.  Each of the two sorts leaves the same pointers at the front, the
    first ordered by packets, the second by bytes, largest first. *)
Theorem process_streams_ranks copy last ptrs
    (Hs : Z.of_nat (length (sh_streams copy)) = SI_NUM_STREAMS)
    (Hl : Z.of_nat (length (sh_streams last)) = SI_NUM_STREAMS)
    (Hp : Z.of_nat (length ptrs) = SI_NUM_STREAMS)
    (Hlo : 0 <= mi_idx_lo (sh_stream_indexes copy)) (Hhi : mi_idx_hi (sh_stream_indexes copy) <= SI_NUM_STREAMS)
    (Hends : ends_exist copy (window (sh_stream_indexes copy))) :
  let live := live_streams copy in
  exists g ptrs1 ptrs2,
    for_each process_stream (window (sh_stream_indexes copy)) (mk_gather copy last ptrs 0) = Val g /\
    ga_num g = Z.of_nat (length live) /\ take (length live) (ga_ptrs g) = Some <$> live /\
    (forall i, i ∈ live -> stream_diffed copy last (ga_copy g) (ga_last g) i) /\
    (forall i, i ∉ live -> stream_kept copy last (ga_copy g) (ga_last g) i) /\
    quicksort (via (sh_streams (ga_copy g)) rcmp_stream_pkt) (ga_ptrs g) 0 (i32 (u32 (ga_num g - 1))) = Val ptrs1 /\
    take (length live) ptrs1 ≡ₚ (Some <$> live) /\
    ranked (sh_streams (ga_copy g)) si_packets (ga_num g) ptrs1 /\
    quicksort (via (sh_streams (ga_copy g)) rcmp_stream_bytes) ptrs1 0 (i32 (u32 (ga_num g - 1))) = Val ptrs2 /\
    take (length live) ptrs2 ≡ₚ (Some <$> live) /\
    ranked (sh_streams (ga_copy g)) si_bytes (ga_num g) ptrs2.
Proof. exact (streams_ranked copy last ptrs Hs Hl Hp Hlo Hhi Hends). Qed.

(** The difference of a stream's counters between two reports: when the last
    report had the same stream, the new value minus the last one, and one less when
    the counter wrapped in between; a stream the last report did not have is
    reported with its whole counters. *)
Theorem diff_stream_deltas last cur
    (Hl : is_u32 (si_packets last)) (Hc : is_u32 (si_packets cur)) :
  let '(last', cur') := diff_stream last cur in
  si_packets last' = si_packets cur /\ si_bytes last' = si_bytes cur /\
  (tval_cmp (si_tstart cur) (si_tstart last) <> 0 -> last' = cur /\ cur' = cur) /\
  (tval_cmp (si_tstart cur) (si_tstart last) = 0 ->
   si_tstart last' = si_tstart last /\ si_tstart cur' = si_tstart cur /\
   si_packets cur' = if si_packets last <=? si_packets cur then si_packets cur - si_packets last
                     else u32 (si_packets cur - si_packets last) - 1).
Proof.
  unfold diff_stream. destruct (Z.eqb_spec (tval_cmp (si_tstart cur) (si_tstart last)) 0) as [He | Hne].
  - split; [done |]. split; [done |]. split; [done |]. intros _. cbn. split; [done |]. split; [done |].
    unfold u32diff. destruct (Z.leb_spec (si_packets last) (si_packets cur)); [done |]. clia.
  - split; [done |]. split; [done |]. split; [done |]. done.
Qed.

(** ** The clock of the per second table *)

Definition cell (rows : list (list flow_stats_t)) (i k : Z) : option flow_stats_t :=
  match aget rows i with Val row => match aget row k with Val f => Some f | _ => None end | _ => None end.

Record sec_tables (sp : statproc_t) : Prop := {
  se_rows : length (sec_flows sp) = 6%nat;
  se_cols : Forall (fun row => length row = 68%nat) (sec_flows sp)
}.

Definition second_delta (last cur : second_stats_t) (i : Z) (d : flow_stats_t) : Prop :=
  exists a b, aget (ss_flow_stats last) i = Val a /\ aget (ss_flow_stats cur) i = Val b /\
    d = mk_flow_stats_t (u32diff (fs_packets a) (fs_packets b)) (u32diff (fs_bytes a) (fs_bytes b)).

(** Everything of the state but the table and the minute's totals. *)
Definition same_but_rows (sp sp' : statproc_t) : Prop :=
  sp' = set_last_min_bytes (last_min_bytes sp') (set_last_min_packets (last_min_packets sp')
          (set_sec_flows (sec_flows sp') sp)).

Record rows_written (sp : statproc_t) (dn : list Z) (sp' : statproc_t) : Prop := {
  rw_same : same_but_rows sp sp';
  rw_tables : sec_tables sp';
  rw_done : forall i, i ∈ dn -> exists d, second_delta (stats_last_sec sp) (stats_cur_sec sp) i d /\
    cell (sec_flows sp') i (sec_i sp) = Some d;
  rw_rest : forall i k, i ∉ dn \/ k <> sec_i sp -> cell (sec_flows sp') i k = cell (sec_flows sp) i k;
  rw_totals : exists d, (5 ∈ dn -> second_delta (stats_last_sec sp) (stats_cur_sec sp) 5 d) /\
    last_min_packets sp' = (if bool_decide (5 ∈ dn) then u64 (last_min_packets sp + fs_packets d) else last_min_packets sp) /\
    last_min_bytes sp' = (if bool_decide (5 ∈ dn) then u64 (last_min_bytes sp + fs_bytes d) else last_min_bytes sp)
}.

Lemma cell_set rows row i k d :
  0 <= i < Z.of_nat (length rows) -> 0 <= k < Z.of_nat (length row) -> aget rows i = Val row ->
  let rows' := <[Z.to_nat i := <[Z.to_nat k := d]> row]> rows in
  cell rows' i k = Some d /\ forall i' k', i' <> i \/ k' <> k -> cell rows' i' k' = cell rows i' k'.
Proof.
  intros Hi Hk Hr. cbv zeta. unfold cell. split.
  - by rewrite !aget_insert_eq by done.
  - intros i' k' Hne. destruct (decide (i' = i)) as [-> | Hni].
    + rewrite aget_insert_eq, Hr by done. destruct Hne as [| Hne]; [done |].
      by rewrite aget_insert_ne by (congruence || lia).
    + by rewrite aget_insert_ne by (congruence || lia).
Qed.

Lemma second_row_step sp dn i sp1 :
  rows_written sp dn sp1 -> i ∉ dn -> 0 <= i < 6 -> 0 <= sec_i sp < 68 ->
  length (ss_flow_stats (stats_last_sec sp)) = 6%nat -> length (ss_flow_stats (stats_cur_sec sp)) = 6%nat ->
  exists sp2, second_row i sp1 = Val sp2 /\ rows_written sp (dn ++ [i]) sp2.
Proof.
  intros [Hsame [Hr Hc] Hd Hrest (d0 & Ht & Hp & Hb)] Hi Hi6 Hs Hl1 Hl2. unfold second_row.
  assert (stats_last_sec sp1 = stats_last_sec sp /\ stats_cur_sec sp1 = stats_cur_sec sp /\ sec_i sp1 = sec_i sp)
    as (-> & -> & ->) by (rewrite Hsame; done).
  destruct (aget_lt (ss_flow_stats (stats_last_sec sp)) i ltac:(lia)) as [a Ha].
  destruct (aget_lt (ss_flow_stats (stats_cur_sec sp)) i ltac:(lia)) as [b Hbb].
  destruct (aget_lt (sec_flows sp1) i ltac:(lia)) as [row Hrow].
  rewrite Ha, Hbb, !bind_Val, Hrow, bind_Val. set (d := mk_flow_stats_t _ _).
  assert (length row = 68%nat) as Hlr.
  { rewrite Forall_forall in Hc. apply Hc. apply aget_Val in Hrow as [_ Hrow]. by eapply list_elem_of_lookup_2. }
  rewrite aset_lt, bind_Val by lia. rewrite aset_lt, bind_Val by lia.
  destruct (cell_set (sec_flows sp1) row i (sec_i sp) d ltac:(lia) ltac:(lia) Hrow) as [C1 C2].
  assert (second_delta (stats_last_sec sp) (stats_cur_sec sp) i d) as Hdel by (by exists a, b).
  set (rows' := <[Z.to_nat i := _]> (sec_flows sp1)) in *.
  assert (sec_tables (set_sec_flows rows' sp1)) as Htab.
  { split; cbn; unfold rows'; [by rewrite length_insert |]. apply Forall_insert; [done |]. cbn. by rewrite length_insert. }
  eexists. split; [done |].
  assert (forall i', i' ∈ dn ++ [i] -> exists d', second_delta (stats_last_sec sp) (stats_cur_sec sp) i' d' /\
    cell rows' i' (sec_i sp) = Some d') as Hdone.
  { intros i' [Hi' | ->%list_elem_of_singleton]%elem_of_app; [| by exists d].
    destruct (Hd i' Hi') as (d' & H1 & H2). exists d'. split; [done |]. rewrite C2; [done | left; by intros ->]. }
  assert (forall i' k, i' ∉ dn ++ [i] \/ k <> sec_i sp -> cell rows' i' k = cell (sec_flows sp) i' k) as Hrest'.
  { intros i' k Hk. rewrite C2 by set_solver. apply Hrest. set_solver. }
  unfold FLOW_TYPE_TOTAL. destruct (Z.eqb_spec i 5) as [-> | Hne].
  - split; [by rewrite Hsame | by split; apply Htab | exact Hdone | exact Hrest' |]. exists d. split; [done |].
    rewrite bool_decide_true by set_solver. rewrite bool_decide_false in Hp, Hb by done.
    cbn. by rewrite Hp, Hb.
  - split; [by rewrite Hsame | by split; apply Htab | exact Hdone | exact Hrest' |].
    exists d0. split; [set_solver |]. cbn.
    assert (5 ∈ dn ++ [i] <-> 5 ∈ dn) as Hiff by set_solver.
    by rewrite (bool_decide_ext _ _ Hiff).
Qed.

Lemma second_rows sp :
  sec_tables sp -> 0 <= sec_i sp < 68 ->
  length (ss_flow_stats (stats_last_sec sp)) = 6%nat -> length (ss_flow_stats (stats_cur_sec sp)) = 6%nat ->
  exists sp', for_each second_row (seqZ 0 SI_NUM_FLOWTYPES) sp = Val sp' /\
    rows_written sp (seqZ 0 SI_NUM_FLOWTYPES) sp'.
Proof.
  intros Ht Hs H1 H2. apply for_each_inv.
  - split; try done; [by destruct sp | intros i Hi; by apply not_elem_of_nil in Hi |].
    exists zero_flow_stats. split; [intros Hi; by apply not_elem_of_nil in Hi | done].
  - intros dn i rest s Hsp Hg. pose proof (NoDup_seqZ 0 SI_NUM_FLOWTYPES) as Hnd. rewrite Hsp in Hnd.
    apply NoDup_app in Hnd as (_ & Hno & _).
    assert (i ∈ seqZ 0 SI_NUM_FLOWTYPES) as Hi by (rewrite Hsp; set_solver). apply elem_of_seqZ in Hi.
    apply second_row_step; try done. intros Hin. by apply (Hno i Hin); left.
Qed.

(** The per second table's index does not run ahead of the time of the last call. *)
Definition clock (sp : statproc_t) (t : Z) : Prop := 0 <= sec_i sp <= t - tlast_min sp /\ t - tlast_min sp < 60 /\ 0 <= tlast_min sp.

(** A minute report resets the clock. *)
Lemma check_minute_clock ok now0 now1 ts g sp sp' :
  check_minute ok now0 now1 ts g sp = Val sp' -> 0 < ts -> clock sp' ts /\ last_min_packets sp' = 0 /\ last_min_bytes sp' = 0.
Proof.
  intros Hc Hts. unfold check_minute in Hc. rewrite (proj2 (Z.eqb_neq ts 0)) in Hc by lia.
  repeat match type of Hc with
    | (_ ≫= _) = Val _ => let a := fresh "a" in apply bind_Val_inv in Hc as (a & _ & Hc)
    | (let '(_, _) := ?p in _) = Val _ => destruct p
    end.
  injection Hc as <-. unfold clock. cbn. split; [| done]. clia.
Qed.

(** One call of [every_second]: a column of the table, and the report when a minute
    has passed. *)
Lemma every_second_step ok now0 now1 ts g sp :
  initialized sp <> 0 -> sec_tables sp -> length (ss_flow_stats (stats_last_sec sp)) = 6%nat ->
  length (sh_flow_stats g) = 6%nat -> 0 <= sec_i sp < 60 -> 0 <= tlast_min sp <= tv_sec ts -> is_u32 (tv_sec ts) ->
  exists sp1, rows_written (set_stats_cur_sec (second_stats g) sp) (seqZ 0 SI_NUM_FLOWTYPES) sp1 /\
    let sp' := set_stats_last_sec (second_stats g) (set_sec_i (sec_i sp + 1) sp1) in
    every_second ok now0 now1 ts g sp =
      if 60 <=? tv_sec ts - tlast_min sp then check_minute ok now0 now1 (tv_sec ts) g sp' else Val sp'.
Proof.
  intros Hinit Htab Hl Hg Hsec Htl Hts. unfold every_second. rewrite (proj2 (Z.eqb_neq _ _) Hinit).
  set (sp0 := set_stats_cur_sec (second_stats g) sp).
  destruct (second_rows sp0) as (sp1 & -> & Hrows); try done.
  { destruct Htab. by split. }
  { change (sec_i sp0) with (sec_i sp). lia. }
  exists sp1. split; [exact Hrows |]. rewrite bind_Val. cbv zeta. destruct Hrows as [Hsame _ _ _ _].
  assert (sec_i sp1 = sec_i sp /\ stats_cur_sec sp1 = second_stats g /\ tlast_min sp1 = tlast_min sp)
    as (E1 & E2 & E3) by (rewrite Hsame; done).
  change (sec_i (set_sec_i (sec_i sp1 + 1) sp1)) with (sec_i sp1 + 1). rewrite E1.
  rewrite (proj2 (Z.leb_le _ _)) by lia. cbn [c_assert].
  change (stats_cur_sec (set_sec_i (sec_i sp + 1) sp1)) with (stats_cur_sec sp1). rewrite E2.
  change (tlast_min (set_stats_last_sec (second_stats g) (set_sec_i (sec_i sp + 1) sp1))) with (tlast_min sp1).
  rewrite E3. rewrite u32_small by (unfold is_u32 in *; lia). done.
Qed.

(** C21: the clock of the statistics process.  While the calls of [every_second] come
    with increasing seconds, the assertion on the table's index never fails: from a
    state whose index does not run ahead of the last call's second [t], a call at a
    later second writes one column - for every flow type the difference of its
    counters to the last call - adds the total's difference to the minute's totals,
    and remembers the present counters; then it goes on to the minute's report when
    60 seconds have passed, which resets the index and the totals.  In both cases the
    index again does not run ahead of the second of this call. *)
Theorem every_second_clock ok now0 now1 ts g t sp
    (Hinit : initialized sp <> 0) (Htab : sec_tables sp)
    (Hl : length (ss_flow_stats (stats_last_sec sp)) = 6%nat) (Hg : length (sh_flow_stats g) = 6%nat)
    (Hclk : clock sp t) (Hlt : t < tv_sec ts) (Hts : is_u32 (tv_sec ts)) :
  exists sp', every_second ok now0 now1 ts g sp =
      (if 60 <=? tv_sec ts - tlast_min sp then check_minute ok now0 now1 (tv_sec ts) g sp' else Val sp') /\
    sec_i sp' = sec_i sp + 1 /\ sec_i sp' <= 60 /\ stats_last_sec sp' = second_stats g /\ sec_tables sp' /\
    (forall i, 0 <= i < 6 -> exists d, second_delta (stats_last_sec sp) (second_stats g) i d /\
       cell (sec_flows sp') i (sec_i sp) = Some d) /\
    (forall i k, k <> sec_i sp -> cell (sec_flows sp') i k = cell (sec_flows sp) i k) /\
    (exists d, second_delta (stats_last_sec sp) (second_stats g) FLOW_TYPE_TOTAL d /\
       last_min_packets sp' = u64 (last_min_packets sp + fs_packets d) /\
       last_min_bytes sp' = u64 (last_min_bytes sp + fs_bytes d)) /\
    (tv_sec ts - tlast_min sp < 60 -> clock sp' (tv_sec ts)) /\
    (forall sp2, check_minute ok now0 now1 (tv_sec ts) g sp' = Val sp2 ->
       clock sp2 (tv_sec ts) /\ last_min_packets sp2 = 0 /\ last_min_bytes sp2 = 0).
Proof.
  destruct Hclk as (H1 & H2 & H3).
  destruct (every_second_step ok now0 now1 ts g sp Hinit Htab Hl Hg ltac:(lia) ltac:(lia) Hts)
    as (sp1 & [Hsame Ht1 Hd Hr (d & Hdel & Hp & Hb)] & He). eexists. split; [exact He |].
  assert (sec_i sp1 = sec_i sp /\ tlast_min sp1 = tlast_min sp) as (E1 & E3) by (rewrite Hsame; done).
  assert (5 ∈ seqZ 0 SI_NUM_FLOWTYPES) as H5 by (apply elem_of_seqZ; unfold SI_NUM_FLOWTYPES; lia).
  rewrite bool_decide_true in Hp, Hb by exact H5.
  split; [done |]. split; [cbn; lia |]. split; [done |]. split; [destruct Ht1; by split |].
  split; [intros i Hi; apply Hd, elem_of_seqZ; unfold SI_NUM_FLOWTYPES; lia |].
  split; [intros i k Hk; apply Hr; by right |].
  split; [exists d; split; [by apply Hdel | split; [exact Hp | exact Hb]] |].
  split; [intros Hm; unfold clock; cbn; rewrite E3; lia |].
  intros sp2 Hc. apply (check_minute_clock _ _ _ _ _ _ _ Hc). lia.
Qed.

(** The port and protocol of a reported protocol entry: the entry the capture
    process counts a packet in is reported with the packet's port, but the names of
    the two protocols are exchanged: UDP is reported with TCP's number 6 and the
    others with UDP's number 17. *)
Theorem proto_of_ptr_swapped ipproto rport i
    (Hport : is_u16 rport) (Hget : shm_get_protocol ipproto rport = Some i) :
  proto_of_ptr i = (rport, if ipproto =? IPPROTO_UDP then 6 else 17).
Proof.
  unfold shm_get_protocol, proto_of_ptr, SI_NUM_TCP_PROTOS, is_u16 in *.
  destruct (Z.leb_spec 9110 rport); [done |]. injection Hget as <-.
  destruct (ipproto =? IPPROTO_UDP).
  - rewrite (u16_small (rport + 9110)), u16_small by (unfold is_u16; lia).
    rewrite (proj2 (Z.leb_le _ _)) by lia. rewrite u16_small by (unfold is_u16; lia).
    by replace (rport + 9110 - 9110) with rport by lia.
  - rewrite u16_small by done. by rewrite (proj2 (Z.leb_gt _ _)) by lia.
Qed.

(** ** Port masks *)

(** The ports that have a bit, in the order of the bits. *)
Definition watched : list Z := [21; 22; 23; 53; 80; 123; 135; 137; 138; 161; 162; 389; 443; 445; 37; 8080].

Lemma port_bit_spec p : (exists k, 0 <= k < 16 /\ port_bit p = Z.shiftl 1 k /\ watched !! Z.to_nat k = Some p) \/
  port_bit p = 0 /\ p ∉ watched.
Proof.
  unfold port_bit.
  repeat match goal with |- context [if p =? ?x then Z.shiftl 1 ?k else _] =>
    destruct (Z.eqb_spec p x) as [-> |]; [left; exists k; split; [lia | split; reflexivity] |] end.
  right. split; [done |]. unfold watched. rewrite !not_elem_of_cons. repeat (split; [done |]). apply not_elem_of_nil.
Qed.

Lemma watched_nodup : NoDup watched.
Proof. apply (bool_decide_unpack (NoDup watched)). vm_compute. exact I. Qed.

(** Bit [k] of a port's mask. *)
Lemma port_bit_testbit p k q : 0 <= k -> watched !! Z.to_nat k = Some q -> Z.testbit (port_bit p) k = bool_decide (p = q).
Proof.
  intros Hk Hq. destruct (port_bit_spec p) as [(j & Hj & -> & Hp) | [-> Hp]].
  - rewrite Z.shiftl_1_l, Z.pow2_bits_eqb by lia. destruct (Z.eqb_spec j k) as [-> | Hne].
    + rewrite bool_decide_true; [done |]. congruence.
    + rewrite bool_decide_false; [done |]. intros ->.
      pose proof (NoDup_lookup _ _ _ _ watched_nodup Hp Hq). lia.
  - rewrite Z.bits_0, bool_decide_false; [done |]. intros ->. apply Hp. by eapply list_elem_of_lookup_2.
Qed.

Lemma mask_testbit ports m k q : 0 <= k -> watched !! Z.to_nat k = Some q ->
  Z.testbit (fold_left _set_port_bit ports m) k = Z.testbit m k || bool_decide (q ∈ ports).
Proof.
  intros Hk Hq. revert m. induction ports as [| p ports IH]; intros m; cbn [fold_left].
  - rewrite bool_decide_false by apply not_elem_of_nil. by rewrite orb_false_r.
  - rewrite IH. unfold _set_port_bit at 1. rewrite Z.lor_spec, (port_bit_testbit p k q) by done.
    rewrite <- orb_assoc. f_equal. apply eq_true_iff_eq. rewrite orb_true_iff, !bool_decide_eq_true, elem_of_cons.
    split; intros [-> |]; auto.
Qed.

Lemma count_if_shift f n : count_if f (seqZ 1 n) = count_if (fun k => f (k + 1)) (seqZ 0 n).
Proof.
  change 1 with (1 + 0) at 1. rewrite <- fmap_add_seqZ. induction (seqZ 0 n) as [| i l IH]; cbn; [done |].
  rewrite IH. by replace (1 + i) with (i + 1) by lia.
Qed.

Lemma count_if_lookup {A} (f : A -> bool) (l : list A) :
  count_if (fun k => match l !! Z.to_nat k with Some x => f x | None => false end) (seqZ 0 (Z.of_nat (length l))) =
  Z.of_nat (length (List.filter f l)).
Proof.
  induction l as [| x l IH]; [done |]. cbn [length]. rewrite Nat2Z.inj_succ, seqZ_cons by lia. cbn [count_if].
  rewrite Z.pred_succ. change (Z.succ 0) with 1. rewrite count_if_shift.
  rewrite (count_if_ext _ (fun k => match l !! Z.to_nat k with Some x => f x | None => false end)).
  - rewrite IH. change ((x :: l) !! Z.to_nat 0) with (Some x). cbn [List.filter].
    destruct (f x); cbn [length]; lia.
  - intros k Hk%elem_of_seqZ. replace (Z.to_nat (k + 1)) with (S (Z.to_nat k)) by lia. done.
Qed.

(** The loop of [count_bits16]: bit by bit, for any number of iterations. *)
Lemma count_loop (l : list Z) num val :
  0 <= val -> 0 <= num -> num + Z.of_nat (length l) < 65536 ->
  fst (fold_left (fun '(num, val) (_ : Z) => (u16 (num + Z.land val 1), Z.shiftr val 1)) l (num, val)) =
  num + count_if (Z.testbit val) (seqZ 0 (Z.of_nat (length l))).
Proof.
  revert num val. induction l as [| x l IH]; intros num val Hv Hn Hl; cbn [fold_left length] in *;
    [change (num = num + 0); lia |].
  assert (Z.land val 1 = val mod 2) as Hland by (change 1 with (Z.ones 1); by rewrite Z.land_ones by lia).
  cbv beta iota. rewrite Hland.
  pose proof (Z.mod_pos_bound val 2 ltac:(lia)).
  rewrite u16_small by (unfold is_u16; lia). rewrite IH; [| by apply Z.shiftr_nonneg | lia | lia].
  rewrite Nat2Z.inj_succ, (seqZ_cons 0 (Z.succ _)) by lia. cbn [count_if]. rewrite Z.pred_succ. change (Z.succ 0) with 1.
  rewrite count_if_shift, <- Z.bit0_mod.
  rewrite (count_if_ext (Z.testbit (Z.shiftr val 1)) (fun k => Z.testbit val (k + 1))).
  - rewrite Z.bit0_mod, Zmod_odd, <- Z.bit0_odd. destruct (Z.testbit val 0); lia.
  - intros k Hk%elem_of_seqZ. by rewrite Z.shiftr_spec by lia.
Qed.

(** The scan counters: after the streams of a period have marked their service
    ports in an address's mask, [count_bits16] gives the number of different watched
    ports among them, however often and in which order they occur. *)
Theorem count_bits16_ports ports :
  count_bits16 (fold_left _set_port_bit ports 0) =
    Z.of_nat (length (List.filter (fun p => bool_decide (p ∈ ports)) watched)).
Proof.
  unfold count_bits16. rewrite count_loop.
  - change (Z.of_nat (length (seqZ 0 16))) with (Z.of_nat (length watched)). rewrite <- count_if_lookup.
    cbn [Z.add]. apply count_if_ext. intros k Hk%elem_of_seqZ.
    destruct (lookup_lt_is_Some_2 watched (Z.to_nat k)) as [q Hq]; [lia |].
    rewrite Hq, (mask_testbit ports 0 k q) by (done || lia). by rewrite Z.bits_0.
  - assert (forall l m, 0 <= m -> 0 <= fold_left _set_port_bit l m) as H; [| by apply H].
    intros l. induction l as [| p l IH]; intros m Hm; [done |]. cbn. apply IH. unfold _set_port_bit.
    apply Z.lor_nonneg. split; [done |]. destruct (port_bit_spec p) as [(k & Hk & -> & _) | [-> _]]; [| done].
    rewrite Z.shiftl_1_l. lia.
  - lia.
  - vm_compute. done.
Qed.

(** ** What a period already described *)

(** The first [n] pointers, and their ids: all different. *)
Record seen_inv (ids : Z -> res Z) (seen : list Z) (n : Z) (known : list Z) : Prop := {
  si_len : length seen = Z.to_nat MAX_SEEN;
  si_n : n = Z.of_nat (length known);
  si_ids : forall i, 0 <= i < n -> exists p k, aget seen i = Val p /\ ids p = Val k /\ aget known i = Val k;
  si_nodup : NoDup known
}.

Lemma seen_scan_ok ids seen n kn id :
  seen_inv ids seen n kn -> seen_scan ids seen n id = Val (bool_decide (id ∈ kn)).
Proof.
  intros [_ Hn Hi _]. unfold seen_scan.
  set (body := fun i (_ : unit) => _).
  assert (forall m, (m <= length kn)%nat ->
    for_ctl body (seqZ (n - Z.of_nat m) (Z.of_nat m)) tt =
    Val (if bool_decide (id ∈ drop (length kn - m) kn) then Brk true else Next tt)) as Hloop.
  { induction m as [| m IH]; intros Hm.
    - rewrite Nat.sub_0_r, drop_all, bool_decide_false by apply not_elem_of_nil. done.
    - rewrite seqZ_cons by lia. cbn [for_ctl]. fold body.
      destruct (Hi (n - Z.of_nat (S m)) ltac:(lia)) as (p & k & Hp & Hk & Hkn).
      assert (body (n - Z.of_nat (S m)) tt = Val (if k =? id then Brk true else Next tt)) as ->
        by (unfold body; by rewrite Hp, bind_Val, Hk).
      rewrite bind_Val.
      apply aget_Val in Hkn as [_ Hkn].
      assert (drop (length kn - S m) kn = k :: drop (length kn - m) kn) as ->.
      { replace (length kn - m)%nat with (S (length kn - S m)) by lia. apply drop_S.
        replace (length kn - S m)%nat with (Z.to_nat (n - Z.of_nat (S m))) by lia. done. }
      destruct (Z.eqb_spec k id) as [-> | Hne].
      + rewrite bool_decide_true by left. done.
      + replace (Z.succ (n - Z.of_nat (S m))) with (n - Z.of_nat m) by lia.
        replace (Z.pred (Z.of_nat (S m))) with (Z.of_nat m) by lia. rewrite IH by lia.
        f_equal. rewrite (bool_decide_ext (id ∈ k :: drop (length kn - m) kn) (id ∈ drop (length kn - m) kn));
          [done |]. rewrite elem_of_cons. split; [intros [|] |]; auto. congruence. }
  specialize (Hloop (length kn) ltac:(lia)). rewrite Nat.sub_diag, drop_0, <- Hn, Z.sub_diag in Hloop.
  rewrite Hloop, bind_Val. by case_bool_decide.
Qed.

(** An address is described once in a period: [seen_addr] says whether an
    address with the same id was noted since the period began, and notes it when not;
    the list has room for 1024 addresses and the next new one is written past it. *)
Theorem seen_addr_once sh addr x kn id
    (Hinv : seen_inv (addr_iid sh) (ex_addrs x) (ex_num_addrs x) kn) (Hid : addr_iid sh addr = Val id) :
  (id ∈ kn -> seen_addr sh addr x = Val (true, x)) /\
  (id ∉ kn -> Z.of_nat (length kn) < MAX_SEEN ->
   exists x', seen_addr sh addr x = Val (false, x') /\
     seen_inv (addr_iid sh) (ex_addrs x') (ex_num_addrs x') (kn ++ [id]) /\ ex_streams x' = ex_streams x) /\
  (id ∉ kn -> Z.of_nat (length kn) = MAX_SEEN -> seen_addr sh addr x = Undefined).
Proof.
  pose proof (seen_scan_ok _ _ _ _ id Hinv) as Hs. destruct Hinv as [Hl Hn Hi Hnd].
  unfold seen_addr. rewrite Hid, bind_Val, Hs, bind_Val. split; [| split].
  - intros Hin. by rewrite bool_decide_true.
  - intros Hin Hroom. rewrite bool_decide_false by done. rewrite aset_lt, bind_Val by lia.
    eexists. split; [done |]. cbn. split; [| done]. split.
    + by rewrite length_insert.
    + rewrite length_app. cbn. lia.
    + intros i Hib. destruct (decide (i = ex_num_addrs x)) as [-> | Hne].
      * exists addr, id. rewrite aget_insert_eq by lia. split; [done |]. split; [done |].
        apply aget_Val. split; [lia |]. rewrite lookup_app_r by lia.
        replace (Z.to_nat (ex_num_addrs x) - length kn)%nat with 0%nat by lia. done.
      * destruct (Hi i ltac:(lia)) as (p & k & H1 & H2 & H3). exists p, k.
        rewrite aget_insert_ne by lia. split; [done |]. split; [done |].
        apply aget_Val in H3 as [H3 H4]. apply aget_Val. split; [done |]. by apply lookup_app_l_Some.
    + apply NoDup_app. split; [done |]. split; [| apply NoDup_singleton]. intros k Hk ->%list_elem_of_singleton. done.
  - intros Hin Hfull. rewrite bool_decide_false by done. unfold aset.
    assert (in_bounds (ex_addrs x) (ex_num_addrs x) = false) as ->; [| done].
    apply not_true_iff_false. rewrite in_bounds_true. lia.
Qed.

(** A period without anything to report: closing a period right after it was
    opened reads the text of a buffer nothing was written to. *)
Theorem empty_period_undefined ok ts period x
    (Hinit : ex_initialized x = 0) :
  on_stat_period_close period (on_stat_period_open ok ts period x) = Undefined.
Proof.
  unfold on_stat_period_open. rewrite Hinit. cbn [Z.eqb]. unfold on_stat_period_close, puts_sbuf. cbn.
  destruct ok; reflexivity.
Qed.

(** ** Witnesses *)
Module ReportsTest.

(** A block with one stream, of 7 packets, at the middle of the range. *)
Definition stream7 : stream_info_t :=
  set_si_bytes 700 (set_si_packets 7 (set_si_tstart (mk_tval_t 1000 0) zero_stream_info)).
Definition block7 : sharedif_t :=
  set_sh_stream_indexes (mk_mga_info_t 1 16383 16385)
    (set_sh_streams (<[Z.to_nat 16384 := stream7]> (sh_streams zero_sharedif)) zero_sharedif).

Lemma process_streams_ranks_witness :
  exists g ptrs, for_each process_stream (window (sh_stream_indexes block7))
      (mk_gather block7 zero_sharedif (replicate (Z.to_nat SI_NUM_STREAMS) None) 0) = Val g /\
    quicksort (via (sh_streams (ga_copy g)) rcmp_stream_pkt) (ga_ptrs g) 0 (i32 (u32 (ga_num g - 1))) = Val ptrs /\
    take 1 ptrs ≡ₚ [Some 16384].
Proof.
  destruct (process_streams_ranks block7 zero_sharedif (replicate (Z.to_nat SI_NUM_STREAMS) None))
    as (g & p1 & p2 & H1 & _ & _ & _ & _ & H2 & H3 & _).
  - change (sh_streams block7) with (<[Z.to_nat 16384 := stream7]> (sh_streams zero_sharedif)).
    rewrite length_insert. vm_compute. reflexivity.
  - vm_compute. reflexivity.
  - vm_compute. reflexivity.
  - vm_compute. discriminate.
  - vm_compute. discriminate.
  - intros i e Hi He _. change (window (sh_stream_indexes block7)) with [16384] in Hi.
    apply list_elem_of_singleton in Hi as ->.
    assert (aget (sh_streams block7) 16384 = Val stream7) as He' by (vm_compute; reflexivity).
    rewrite He' in He. injection He as <-. vm_compute. intuition discriminate.
  - assert (live_streams block7 = [16384]) as Hl by (vm_compute; reflexivity).
    rewrite Hl in H3. exists g, p1. split; [exact H1 |]. split; [exact H2 | exact H3].
Defined.

Lemma diff_stream_deltas_witness :
  let '(last', cur') := diff_stream (set_si_packets 4294967290 stream7) stream7 in
  si_packets last' = 7 /\ si_packets cur' = 12.
Proof.
  pose proof (diff_stream_deltas (set_si_packets 4294967290 stream7) stream7
    ltac:(vm_compute; intuition discriminate) ltac:(vm_compute; intuition discriminate)) as H.
  cbn in H |- *. destruct H as (_ & _ & _ & H). split; [reflexivity |].
  destruct (H eq_refl) as (_ & _ & H3). exact H3.
Defined.

(** The first second after the initialisation, 1010. *)
Definition sp_1009 : statproc_t := _init_state (fun _ => true) (mk_tval_t 1009 0) zero_sharedif statproc_init.

Lemma every_second_clock_witness :
  exists sp', every_second true 0 0 (mk_tval_t 1010 0) zero_sharedif sp_1009 = Val sp' /\ sec_i sp' = 50.
Proof.
  destruct (every_second_clock true 0 0 (mk_tval_t 1010 0) zero_sharedif 1009 sp_1009) as (sp' & H1 & H2 & _).
  - discriminate.
  - split; [reflexivity | repeat constructor].
  - reflexivity.
  - reflexivity.
  - vm_compute. intuition discriminate.
  - reflexivity.
  - vm_compute. intuition discriminate.
  - exists sp'. split; [exact H1 | exact H2].
Defined.

Lemma proto_of_ptr_swapped_witness : proto_of_ptr 9163 = (53, 6).
Proof.
  exact (proto_of_ptr_swapped IPPROTO_UDP 53 9163 ltac:(vm_compute; intuition discriminate) eq_refl).
Defined.

Lemma seen_addr_once_witness :
  exists x', seen_addr zero_sharedif 300 export_init = Val (false, x').
Proof.
  destruct (seen_addr_once zero_sharedif 300 export_init [] 0) as (_ & H & _).
  - split; [vm_compute; reflexivity | reflexivity | intros i Hi; vm_compute in Hi | constructor].
    destruct Hi as [H1 H2]. destruct i; [discriminate H2 | discriminate H2 | contradiction H1; reflexivity].
  - vm_compute. reflexivity.
  - destruct H as (x' & H & _); [apply not_elem_of_nil | vm_compute; reflexivity |]. exists x'. exact H.
Defined.

Lemma empty_period_undefined_witness :
  on_stat_period_close 60 (on_stat_period_open true 1000 60 export_init) = Undefined.
Proof. exact (empty_period_undefined true 1000 60 export_init eq_refl). Defined.

End ReportsTest.
