(* ===== verification/Rankings.v ===== *)
(** What a report says of protocols and addresses: which entries a period collects,
    the differences it forms, and the order of the lists it reports. *)
From S2P Require Import Prelude Structs Counters Sort Export StatProc Reports.
From stdpp Require Import list.
#[local] Open Scope Z_scope.

(** ** Collected pointers

    Both loops append the index of an entry to a pointer array when the entry
    qualifies, and leave the rest of the array alone. *)

Definition collected (sel : Z -> bool) (dn : list Z) (len0 : nat) (ptrs : list (option Z)) (n : Z) : Prop :=
  n = Z.of_nat (length (List.filter sel dn)) /\
  take (length (List.filter sel dn)) ptrs = Some <$> List.filter sel dn /\
  length ptrs = len0.

Lemma collected_nil sel ptrs : collected sel [] (length ptrs) ptrs 0.
Proof. done. Qed.

Lemma filter_snoc {A} (f : A -> bool) l x :
  List.filter f (l ++ [x]) = if f x then List.filter f l ++ [x] else List.filter f l.
Proof. rewrite List.filter_app. cbn. destruct (f x); [done | apply app_nil_r]. Qed.

Lemma collected_skip sel dn len0 ptrs n i :
  collected sel dn len0 ptrs n -> sel i = false -> collected sel (dn ++ [i]) len0 ptrs n.
Proof. unfold collected. intros H Hi. by rewrite filter_snoc, Hi. Qed.

Lemma collected_push sel dn len0 ptrs n i :
  collected sel dn len0 ptrs n -> sel i = true -> (length dn < len0)%nat -> Z.of_nat len0 < 4294967295 ->
  exists ptrs', aset ptrs n (Some i) = Val ptrs' /\ collected sel (dn ++ [i]) len0 ptrs' (u32 (n + 1)).
Proof.
  intros (Hn & Ht & Hl) Hi Hroom Hmax. pose proof (filter_le sel dn) as Hle.
  exists (<[Z.to_nat n := Some i]> ptrs). split; [apply aset_lt; lia |].
  unfold collected. rewrite filter_snoc, Hi, length_app. cbn [length].
  rewrite Hn, Nat2Z.id, Nat.add_1_r, take_push, Ht, fmap_app, length_insert by lia.
  rewrite u32_small by (unfold is_u32; lia). split; [lia | done].
Qed.

Lemma in_filter (sel : Z -> bool) w i : i ∈ List.filter sel w <-> i ∈ w /\ sel i = true.
Proof. rewrite list_elem_of_In, filter_In, <- list_elem_of_In. done. Qed.

(** The sort of what was collected. *)
Lemma sort_collected {A} (arr : list A) (k : A -> Z) cmp sel w len0 ptrs n :
  (forall a b, cmp a b = cmp_field (k b) (k a)) -> collected sel w len0 ptrs n -> Z.of_nat len0 <= 1073741824 ->
  exists ptrs', quicksort (via arr cmp) ptrs 0 (i32 (u32 (n - 1))) = Val ptrs' /\
    length ptrs' = len0 /\ take (length (List.filter sel w)) ptrs' ≡ₚ (Some <$> List.filter sel w) /\
    ranked arr k n ptrs'.
Proof.
  intros Hk (Hn & Ht & Hl) Hmax.
  assert (length (List.filter sel w) <= length ptrs)%nat as Hle.
  { apply (f_equal length) in Ht. rewrite length_take, length_fmap in Ht. lia. }
  destruct (sort_ranked arr k cmp (List.filter sel w) ptrs n Hk Hn) as (p & Q & N & P & R); [lia | lia | by rewrite Ht |].
  exists p. rewrite N. done.
Qed.

(** ** Protocols of a period *)

(** A protocol counted since the last report. *)
Definition active_proto (copy last : sharedif_t) (i : Z) : bool :=
  match aget (sh_protos copy) i, aget (sh_protos last) i with
  | Val cur, Val old => negb (pi_packets cur =? 0) && negb (pi_packets cur =? pi_packets old)
  | _, _ => false
  end.

Definition active_protos (copy last : sharedif_t) : list Z :=
  List.filter (active_proto copy last) (seqZ 0 SI_NUM_PROTOS).

Definition proto_diffed (copy last copy' last' : sharedif_t) (i : Z) : Prop :=
  exists old cur, aget (sh_protos last) i = Val old /\ aget (sh_protos copy) i = Val cur /\
    aget (sh_protos last') i = Val (set_pi_bytes (pi_bytes cur) (set_pi_packets (pi_packets cur) old)) /\
    aget (sh_protos copy') i = Val (set_pi_bytes (u32diff (pi_bytes old) (pi_bytes cur))
      (set_pi_packets (u32diff (pi_packets old) (pi_packets cur)) cur)).

Definition proto_kept (copy last copy' last' : sharedif_t) (i : Z) : Prop :=
  aget (sh_protos copy') i = aget (sh_protos copy) i /\ aget (sh_protos last') i = aget (sh_protos last) i.

Record protos_gathered (copy last : sharedif_t) (len0 : nat) (dn : list Z) (g : gather) : Prop := {
  pg_ptrs : collected (active_proto copy last) dn len0 (ga_ptrs g) (ga_num g);
  pg_len : length (sh_protos (ga_copy g)) = length (sh_protos copy) /\
    length (sh_protos (ga_last g)) = length (sh_protos last);
  pg_rest : sh_streams (ga_copy g) = sh_streams copy /\ sh_addrs (ga_copy g) = sh_addrs copy /\
    sh_streams (ga_last g) = sh_streams last /\ sh_addrs (ga_last g) = sh_addrs last;
  pg_done : forall i, i ∈ dn -> active_proto copy last i = true -> proto_diffed copy last (ga_copy g) (ga_last g) i;
  pg_kept : forall i, i ∉ dn \/ active_proto copy last i = false -> proto_kept copy last (ga_copy g) (ga_last g) i
}.

Lemma protos_skip copy last len0 dn g i :
  protos_gathered copy last len0 dn g -> active_proto copy last i = false ->
  protos_gathered copy last len0 (dn ++ [i]) g.
Proof.
  intros [Gp Gl Gr Gd Gk] Hi. split; try done; [by apply collected_skip | |].
  - intros j [Hj | ->%list_elem_of_singleton]%elem_of_app Ha; [by apply Gd | congruence].
  - intros j [Hj | Hj]; apply Gk; [left; set_solver | by right].
Qed.

Lemma process_protocol_step copy last len0 dn i g :
  protos_gathered copy last len0 dn g -> i ∉ dn -> 0 <= i < Z.of_nat (length (sh_protos copy)) ->
  length (sh_protos last) = length (sh_protos copy) -> (length dn < len0)%nat -> Z.of_nat len0 < 4294967295 ->
  exists g', process_protocol i g = Val g' /\ protos_gathered copy last len0 (dn ++ [i]) g'.
Proof.
  intros Hg Hi Hb Hlen Hroom Hmax. pose proof Hg as [Gp (L1 & L2) Gr Gd Gk].
  destruct (Gk i (or_introl Hi)) as [Kc Kl]. unfold process_protocol.
  destruct (aget_lt (sh_protos copy) i Hb) as [cur Hcur], (aget_lt (sh_protos last) i ltac:(lia)) as [old Hold].
  assert (active_proto copy last i = negb (pi_packets cur =? 0) && negb (pi_packets cur =? pi_packets old)) as Ha
    by (unfold active_proto; by rewrite Hcur, Hold).
  rewrite Kc, Hcur, bind_Val, Kl, Hold.
  destruct (pi_packets cur =? 0); [exists g; split; [done | by apply protos_skip] |]. rewrite bind_Val.
  destruct (pi_packets cur =? pi_packets old); [exists g; split; [done | by apply protos_skip] |].
  cbn [negb andb] in Ha. cbv zeta. rewrite (aset_lt (sh_protos (ga_last g))), bind_Val, (aset_lt (sh_protos (ga_copy g))), bind_Val by lia.
  destruct (collected_push _ _ _ _ _ i Gp Ha Hroom Hmax) as (ptrs' & Hpush & Hcol). rewrite Hpush, bind_Val.
  eexists. split; [done |]. split; cbn [ga_num ga_ptrs ga_copy ga_last sh_protos set_sh_protos]; [done | | done | |].
  - by rewrite !length_insert.
  - intros j Hj Hja. unfold proto_diffed. cbn. destruct (decide (j = i)) as [-> | Hne].
    + exists old, cur. by rewrite !aget_insert_eq by lia.
    + rewrite !aget_insert_ne by lia. apply Gd; [set_solver | done].
  - intros j Hj. assert (j <> i) as Hne by (intros ->; destruct Hj as [Hj | Hj]; [set_solver | congruence]).
    unfold proto_kept. cbn. rewrite !aget_insert_ne by lia. apply Gk. destruct Hj; [left; set_solver | by right].
Qed.

Lemma fresh_next {A} (dn : list A) i rest w : w = dn ++ (i :: rest) -> NoDup w -> (i ∉ dn) /\ (i ∈ w) /\ (length dn < length w)%nat.
Proof.
  intros -> (_ & Hno & _)%NoDup_app. split; [| split; [set_solver | rewrite length_app; cbn; lia]].
  intros Hi. by apply (Hno i Hi); left.
Qed.

Lemma gather_protos copy last ptrs w :
  NoDup w -> (forall i, i ∈ w -> 0 <= i < Z.of_nat (length (sh_protos copy))) ->
  length (sh_protos last) = length (sh_protos copy) -> (length w <= length ptrs)%nat ->
  Z.of_nat (length ptrs) < 4294967295 ->
  exists g, for_each process_protocol w (mk_gather copy last ptrs 0) = Val g /\
    protos_gathered copy last (length ptrs) w g.
Proof.
  intros Hnd Hb Hl Hp Hmax. apply for_each_inv.
  - split; try done. intros i Hi. by apply not_elem_of_nil in Hi.
  - intros dn i rest g Hsp Hg. destruct (fresh_next dn i rest w Hsp Hnd) as (H1 & H2 & H3).
    apply process_protocol_step; try done; [by apply Hb | lia].
Qed.

(** The loop over the protocols and its sort. *)
Lemma protos_ranked copy last ptrs :
  Z.of_nat (length (sh_protos copy)) = SI_NUM_PROTOS -> Z.of_nat (length (sh_protos last)) = SI_NUM_PROTOS ->
  Z.of_nat (length ptrs) = SI_NUM_PROTOS ->
  let active := active_protos copy last in
  exists g p, for_each process_protocol (seqZ 0 SI_NUM_PROTOS) (mk_gather copy last ptrs 0) = Val g /\
    ga_num g = Z.of_nat (length active) /\
    quicksort (via (sh_protos (ga_copy g)) rcmp_protos_pkt) (ga_ptrs g) 0 (i32 (u32 (ga_num g - 1))) = Val p /\
    take (length active) p ≡ₚ (Some <$> active) /\
    ranked (sh_protos (ga_copy g)) pi_packets (Z.of_nat (length active)) p /\
    (forall i, i ∈ active -> proto_diffed copy last (ga_copy g) (ga_last g) i) /\
    (forall i, i ∉ active -> proto_kept copy last (ga_copy g) (ga_last g) i) /\
    (sh_streams (ga_copy g) = sh_streams copy /\ sh_addrs (ga_copy g) = sh_addrs copy) /\ sh_streams (ga_last g) = sh_streams last.
Proof.
  cbv zeta. intros Hc Hl Hp. unfold SI_NUM_PROTOS, SI_NUM_TCP_PROTOS in *.
  set (w := seqZ 0 SI_NUM_PROTOS).
  assert (Z.of_nat (length w) = 18220) as Hw by (unfold w; rewrite length_seqZ, Z2Nat.id; [reflexivity | discriminate]).
  destruct (gather_protos copy last ptrs w) as (g & Hg & [Gp GL (R1 & R2 & R3 & _) Gd Gk]); try lia.
  { apply NoDup_seqZ. }
  { intros i [H1 H2]%elem_of_seqZ. unfold SI_NUM_PROTOS, SI_NUM_TCP_PROTOS in H2. lia. }
  destruct (sort_collected (sh_protos (ga_copy g)) pi_packets rcmp_protos_pkt _ _ _ _ _ ltac:(done) Gp ltac:(lia))
    as (p & Q & N & P & R).
  destruct Gp as (Hn & _ & _). change (List.filter (active_proto copy last) w) with (active_protos copy last) in *.
  exists g, p. rewrite Hn in R. split; [exact Hg |]. split; [exact Hn |]. split; [exact Q |]. split; [exact P |]. split; [exact R |].
  assert (forall i, i ∈ active_protos copy last <-> i ∈ w /\ active_proto copy last i = true) as Hin
    by (intros i; apply in_filter).
  split; [intros i [H1 H2]%Hin; exact (Gd i H1 H2) |]. split; [| exact (conj (conj R1 R2) R3)].
  intros i Hi. apply Gk. destruct (decide (i ∈ w)) as [Hiw | Hiw]; [right | by left].
  destruct (active_proto copy last i) eqn:E; [| reflexivity]. destruct Hi. apply Hin. exact (conj Hiw E).
Qed.

(** ** Addresses of a period *)

(** For LAN addresses the port masks become counts first. *)
Definition tallied (flowflags : Z) (a : addr_info_t) : addr_info_t :=
  if flowflags =? FLOW_TYPE_INTERNAL
  then set_ai_resvd2 (count_bits16 (ai_resvd2 a)) (set_ai_resvd (count_bits16 (ai_resvd a)) a)
  else a.

Definition live_addr (copy : sharedif_t) (i : Z) : bool :=
  match aget (sh_addrs copy) i with Val a => negb (IS_EMPTY_SLOT (ai_tstart a)) | _ => false end.

(** A live LAN address with more than ten ports in a mask. *)
Definition suspect (mask : addr_info_t -> Z) (flowflags : Z) (copy : sharedif_t) (i : Z) : bool :=
  live_addr copy i && (flowflags =? FLOW_TYPE_INTERNAL) &&
  match aget (sh_addrs copy) i with Val a => SUSPICIOUS_PORTS_MIN <? count_bits16 (mask a) | _ => false end.

Definition addr_diffed (flowflags : Z) (copy last copy' last' : sharedif_t) (i : Z) : Prop :=
  exists old cur, aget (sh_addrs last) i = Val old /\ aget (sh_addrs copy) i = Val cur /\
    aget (sh_addrs last') i = Val (fst (diff_addr old (tallied flowflags cur))) /\
    aget (sh_addrs copy') i = Val (snd (diff_addr old (tallied flowflags cur))).

Definition addr_kept (copy last copy' last' : sharedif_t) (i : Z) : Prop :=
  aget (sh_addrs copy') i = aget (sh_addrs copy) i /\ aget (sh_addrs last') i = aget (sh_addrs last) i.

Record addrs_gathered (flowflags : Z) (g0 : gather_addrs) (dn : list Z) (g : gather_addrs) : Prop := {
  ag_ptrs : collected (live_addr (gd_copy g0)) dn (length (gd_ptrs g0)) (gd_ptrs g) (gd_num g);
  ag_scanners : collected (suspect ai_resvd flowflags (gd_copy g0)) dn (length (gd_scanners g0))
    (gd_scanners g) (gd_num_scanners g);
  ag_targets : collected (suspect ai_resvd2 flowflags (gd_copy g0)) dn (length (gd_targets g0))
    (gd_targets g) (gd_num_targets g);
  ag_len : length (sh_addrs (gd_copy g)) = length (sh_addrs (gd_copy g0)) /\
    length (sh_addrs (gd_last g)) = length (sh_addrs (gd_last g0));
  ag_done : forall i, i ∈ dn -> live_addr (gd_copy g0) i = true ->
    addr_diffed flowflags (gd_copy g0) (gd_last g0) (gd_copy g) (gd_last g) i;
  ag_kept : forall i, i ∉ dn \/ live_addr (gd_copy g0) i = false ->
    addr_kept (gd_copy g0) (gd_last g0) (gd_copy g) (gd_last g) i
}.

(** One of the two lists of suspects, as the loop extends it. *)
Lemma suspect_push mask flowflags copy dn len0 ptrs n i cur :
  collected (suspect mask flowflags copy) dn len0 ptrs n ->
  aget (sh_addrs copy) i = Val cur -> IS_EMPTY_SLOT (ai_tstart cur) = false ->
  (flowflags = FLOW_TYPE_INTERNAL -> (length dn < len0)%nat) -> Z.of_nat len0 < 4294967295 ->
  exists ptrs' n', (if (flowflags =? FLOW_TYPE_INTERNAL) &&
        (SUSPICIOUS_PORTS_MIN <? if flowflags =? FLOW_TYPE_INTERNAL then count_bits16 (mask cur) else mask cur)
      then l ← aset ptrs n (Some i); Val (l, u32 (n + 1)) else Val (ptrs, n)) = Val (ptrs', n') /\
    collected (suspect mask flowflags copy) (dn ++ [i]) len0 ptrs' n'.
Proof.
  intros Hc Hcur He Hroom Hmax.
  assert (suspect mask flowflags copy i =
    (flowflags =? FLOW_TYPE_INTERNAL) && (SUSPICIOUS_PORTS_MIN <? count_bits16 (mask cur))) as Hs
    by (unfold suspect, live_addr; by rewrite Hcur, He).
  destruct (flowflags =? FLOW_TYPE_INTERNAL) eqn:Hf; rewrite ?andb_true_l, ?andb_false_l in *.
  2: { exists ptrs, n. split; [reflexivity | by apply collected_skip]. }
  apply Z.eqb_eq in Hf. generalize dependent (SUSPICIOUS_PORTS_MIN <? count_bits16 (mask cur)). intros b Hs.
  destruct b; [| exists ptrs, n; split; [reflexivity | by apply collected_skip]].
  destruct (collected_push _ _ _ _ _ i Hc Hs (Hroom Hf) Hmax) as (ptrs' & Hp & Hc'). rewrite Hp, bind_Val.
  exists ptrs', (u32 (n + 1)). split; [reflexivity | exact Hc'].
Qed.

Lemma process_addr_step flowflags g0 dn i g :
  addrs_gathered flowflags g0 dn g -> i ∉ dn -> 0 <= i < Z.of_nat (length (sh_addrs (gd_copy g0))) ->
  length (sh_addrs (gd_last g0)) = length (sh_addrs (gd_copy g0)) ->
  (length dn < length (gd_ptrs g0))%nat -> Z.of_nat (length (gd_ptrs g0)) < 4294967295 ->
  (flowflags = FLOW_TYPE_INTERNAL ->
    (length dn < length (gd_scanners g0))%nat /\ (length dn < length (gd_targets g0))%nat) ->
  Z.of_nat (length (gd_scanners g0)) < 4294967295 -> Z.of_nat (length (gd_targets g0)) < 4294967295 ->
  exists g', process_addr flowflags i g = Val g' /\ addrs_gathered flowflags g0 (dn ++ [i]) g'.
Proof.
  intros [Gp Gs Gt (L1 & L2) Gd Gk] Hi Hb Hlen Hroom Hmax Hsus Hms Hmt.
  destruct (Gk i (or_introl Hi)) as [Kc Kl]. unfold process_addr.
  destruct (aget_lt (sh_addrs (gd_copy g0)) i Hb) as [cur Hcur].
  destruct (aget_lt (sh_addrs (gd_last g0)) i ltac:(lia)) as [old Hold].
  assert (live_addr (gd_copy g0) i = negb (IS_EMPTY_SLOT (ai_tstart cur))) as Hl by (unfold live_addr; by rewrite Hcur).
  rewrite Kc, Hcur, bind_Val. destruct (IS_EMPTY_SLOT (ai_tstart cur)) eqn:He; cbn [negb] in Hl.
  { exists g. split; [done |]. split; try done; try (apply collected_skip; [done | by unfold suspect; rewrite Hl]).
    - intros j [Hj | ->%list_elem_of_singleton]%elem_of_app Ha; [by apply Gd | congruence].
    - intros j [Hj | Hj]; apply Gk; [left; set_solver | by right]. }
  cbv zeta. fold (tallied flowflags cur).
  destruct (suspect_push _ _ _ _ _ _ _ i cur Gs Hcur He ltac:(naive_solver) Hms) as (sc & ns & Hsc & Gs').
  destruct (suspect_push _ _ _ _ _ _ _ i cur Gt Hcur He ltac:(naive_solver) Hmt) as (ta & nt & Hta & Gt').
  assert (ai_resvd (tallied flowflags cur) =
    if flowflags =? FLOW_TYPE_INTERNAL then count_bits16 (ai_resvd cur) else ai_resvd cur) as ->
    by (unfold tallied; by destruct (flowflags =? FLOW_TYPE_INTERNAL)).
  assert (ai_resvd2 (tallied flowflags cur) =
    if flowflags =? FLOW_TYPE_INTERNAL then count_bits16 (ai_resvd2 cur) else ai_resvd2 cur) as ->
    by (unfold tallied; by destruct (flowflags =? FLOW_TYPE_INTERNAL)).
  rewrite Hsc, bind_Val, Hta, bind_Val, Kl, Hold, bind_Val.
  destruct (diff_addr old (tallied flowflags cur)) as [last' cur'] eqn:Hd.
  rewrite (aset_lt (sh_addrs (gd_last g))), bind_Val, (aset_lt (sh_addrs (gd_copy g))), bind_Val by lia.
  destruct (collected_push _ _ _ _ _ i Gp Hl Hroom Hmax) as (ptrs' & Hpush & Hcol). rewrite Hpush, bind_Val.
  eexists. split; [done |].
  split; cbn [gd_ptrs gd_num gd_scanners gd_num_scanners gd_targets gd_num_targets gd_copy gd_last sh_addrs set_sh_addrs]; try done.
  - by rewrite !length_insert.
  - intros j Hj Hja. unfold addr_diffed. cbn. destruct (decide (j = i)) as [-> | Hne].
    + exists old, cur. rewrite Hd. by rewrite !aget_insert_eq by lia.
    + rewrite !aget_insert_ne by lia. apply Gd; [set_solver | done].
  - intros j Hj. assert (j <> i) as Hne by (intros ->; destruct Hj as [Hj | Hj]; [set_solver | congruence]).
    unfold addr_kept. cbn. rewrite !aget_insert_ne by lia. apply Gk. destruct Hj; [left; set_solver | by right].
Qed.

Lemma gather_addresses flowflags g0 w :
  NoDup w -> (forall i, i ∈ w -> 0 <= i < Z.of_nat (length (sh_addrs (gd_copy g0)))) ->
  length (sh_addrs (gd_last g0)) = length (sh_addrs (gd_copy g0)) ->
  (length w <= length (gd_ptrs g0))%nat -> Z.of_nat (length (gd_ptrs g0)) < 4294967295 ->
  (flowflags = FLOW_TYPE_INTERNAL ->
    (length w <= length (gd_scanners g0))%nat /\ (length w <= length (gd_targets g0))%nat) ->
  Z.of_nat (length (gd_scanners g0)) < 4294967295 -> Z.of_nat (length (gd_targets g0)) < 4294967295 ->
  exists g, for_each (process_addr flowflags) w
      (mk_gather_addrs (gd_copy g0) (gd_last g0) (gd_ptrs g0) 0 (gd_scanners g0) 0 (gd_targets g0) 0) = Val g /\
    addrs_gathered flowflags g0 w g.
Proof.
  intros Hnd Hb Hl Hp Hmax Hsus Hms Hmt. apply for_each_inv.
  - split; try apply collected_nil; try done. intros i Hi. by apply not_elem_of_nil in Hi.
  - intros dn i rest g Hsp Hg. destruct (fresh_next dn i rest w Hsp Hnd) as (H1 & H2 & H3).
    apply process_addr_step; try done; [by apply Hb | lia |]. intros Hf. destruct (Hsus Hf). lia.
Qed.

(** A list of suspects is reported in the order of its port counts. *)
Lemma report_suspects_ranked ok copy ts flowflags num sortby k cmp sel w len0 ptrs :
  (forall a b, cmp a b = cmp_field (k b) (k a)) -> collected sel w len0 ptrs num -> Z.of_nat len0 <= 1073741824 ->
  exists ptrs', length ptrs' = len0 /\ take (length (List.filter sel w)) ptrs' ≡ₚ (Some <$> List.filter sel w) /\
    ranked (sh_addrs copy) k num ptrs' /\
    forall x, report_suspects ok copy ts flowflags num sortby cmp ptrs x =
      (x' ← report_top 10 num ptrs' (on_topn_address ok copy ts sortby flowflags) x; Val (ptrs', x')).
Proof.
  intros Hk Hc Hmax. unfold report_suspects. destruct (Z.ltb_spec 0 num) as [Hpos | Hz].
  - destruct (sort_collected (sh_addrs copy) k cmp sel w len0 ptrs num Hk Hc Hmax) as (p & Q & N & P & R).
    exists p. do 3 (split; [done |]). intros x. by rewrite Q, bind_Val.
  - destruct Hc as (Hn & Ht & Hl). exists ptrs. rewrite Ht.
    assert (num = 0) as -> by lia. split; [done |]. split; [done |]. split; [| done]. intros a b i j y z. lia.
Qed.

(** ** Properties *)

(** C23: the protocols of a period.  [_process_protocols] collects exactly the entries
    whose packet count is not zero and changed since the last report, replaces each by
    the difference and remembers its present counters, leaves all others alone, and
    reports the collected entries, most packets first, up to twenty of them. *)
Theorem process_protocols_ranks ok ts copy last ptrs x
    (Hc : Z.of_nat (length (sh_protos copy)) = SI_NUM_PROTOS)
    (Hl : Z.of_nat (length (sh_protos last)) = SI_NUM_PROTOS)
    (Hp : Z.of_nat (length ptrs) = SI_NUM_PROTOS) :
  let active := active_protos copy last in
  exists copy' last' ptrs',
    _process_protocols ok ts copy last ptrs x =
      (x' ← report_top TOPN_PROTOS (Z.of_nat (length active)) ptrs' (report_protocol ok copy' ts) x;
       Val (copy', last', ptrs', x')) /\
    take (length active) ptrs' ≡ₚ (Some <$> active) /\
    ranked (sh_protos copy') pi_packets (Z.of_nat (length active)) ptrs' /\
    (forall i, i ∈ active -> proto_diffed copy last copy' last' i) /\
    (forall i, i ∉ active -> proto_kept copy last copy' last' i) /\
    sh_streams copy' = sh_streams copy /\ sh_addrs copy' = sh_addrs copy.
Proof.
  cbv zeta. destruct (protos_ranked copy last ptrs Hc Hl Hp) as (g & p & Hg & Hn & Q & P & R & Hd & Hk & (R1 & R2) & _).
  exists (ga_copy g), (ga_last g), p. unfold _process_protocols. rewrite Hg, bind_Val. cbv zeta. rewrite Q, bind_Val, Hn.
  split; [reflexivity |]. split; [exact P |]. split; [exact R |]. split; [exact Hd |]. split; [exact Hk | exact (conj R1 R2)].
Qed.

(** C22: the addresses of a period.  [_process_addrs2] on one side of the address
    array collects the live addresses of its window, turns the port masks of LAN
    addresses into counts, replaces the counters by the difference to the last report
    and remembers the present ones, leaves all other entries alone, and reports: the
    addresses, most packets sent first; on the LAN side the addresses that used more
    than ten watched ports, and those that served more than ten, each list with the
    largest count first; at most ten of each. *)
Theorem process_addrs_ranks ok ts flowflags indexes g0 x
    (Ha : Z.of_nat (length (sh_addrs (gd_copy g0))) = SI_NUM_ADDRS)
    (Hl : Z.of_nat (length (sh_addrs (gd_last g0))) = SI_NUM_ADDRS)
    (Hp : Z.of_nat (length (gd_ptrs g0)) = SI_NUM_ADDRS)
    (Hs : Z.of_nat (length (gd_scanners g0)) = SI_NUM_ADDRS / 2)
    (Ht : Z.of_nat (length (gd_targets g0)) = SI_NUM_ADDRS / 2)
    (Hlo : 0 <= mi_idx_lo indexes) (Hhi : mi_idx_hi indexes <= SI_NUM_ADDRS)
    (Hlan : flowflags = FLOW_TYPE_INTERNAL -> mi_idx_hi indexes <= SI_NUM_ADDRS / 2) :
  let copy := gd_copy g0 in
  let live := List.filter (live_addr copy) (window indexes) in
  let scanners := List.filter (suspect ai_resvd flowflags copy) (window indexes) in
  let targets := List.filter (suspect ai_resvd2 flowflags copy) (window indexes) in
  let top copy' l sortby ptrs := report_top 10 (Z.of_nat (length l)) ptrs (on_topn_address ok copy' ts sortby flowflags) in
  exists copy' last' ps ss tt,
    _process_addrs2 ok ts flowflags indexes g0 x =
      (x ← top copy' live SortByTxPkt ps x;
       x ← top copy' scanners SortByScannedPorts ss x;
       x ← top copy' targets SortByServedPorts tt x;
       Val (mk_gather_addrs copy' last' ps (Z.of_nat (length live)) ss (Z.of_nat (length scanners))
              tt (Z.of_nat (length targets)), x)) /\
    (take (length live) ps ≡ₚ (Some <$> live) /\ ranked (sh_addrs copy') ai_txpackets (Z.of_nat (length live)) ps) /\
    (take (length scanners) ss ≡ₚ (Some <$> scanners) /\
     ranked (sh_addrs copy') ai_resvd (Z.of_nat (length scanners)) ss) /\
    (take (length targets) tt ≡ₚ (Some <$> targets) /\
     ranked (sh_addrs copy') ai_resvd2 (Z.of_nat (length targets)) tt) /\
    (forall i, i ∈ live -> addr_diffed flowflags copy (gd_last g0) copy' last' i) /\
    (forall i, i ∉ live -> addr_kept copy (gd_last g0) copy' last' i).
Proof.
  cbv zeta. change (SI_NUM_ADDRS / 2) with 8192 in *. change SI_NUM_ADDRS with 16384 in *. set (w := window indexes).
  assert (Z.of_nat (length w) <= 16384) as Hw by (pose proof (window_length indexes 16384 Hlo Hhi ltac:(lia)); unfold w; lia).
  destruct (gather_addresses flowflags g0 w) as (g & Hg & [Gp Gs Gt GL Gd Gk]); try lia.
  { apply NoDup_seqZ. }
  { intros i Hi. rewrite Ha. by apply (window_bounds indexes). }
  { intros Hf. pose proof (window_length indexes 8192 Hlo (Hlan Hf) ltac:(lia)) as Hw2. fold w in Hw2. lia. }
  destruct (sort_collected (sh_addrs (gd_copy g)) ai_txpackets rcmp_addr_txpkt _ _ _ _ _ ltac:(done) Gp ltac:(lia))
    as (p & Q & N & P & R).
  destruct Gp as (Hn & _ & _). unfold _process_addrs2. fold w. rewrite Hg, bind_Val. cbv zeta. rewrite Q, bind_Val.
  destruct (report_suspects_ranked ok (gd_copy g) ts flowflags _ SortByScannedPorts ai_resvd rcmp_addr_scanned_ports
    _ _ _ _ ltac:(done) Gs ltac:(lia)) as (ss & _ & Ps & Rs & Es).
  destruct (report_suspects_ranked ok (gd_copy g) ts flowflags _ SortByServedPorts ai_resvd2 rcmp_addr_served_ports
    _ _ _ _ ltac:(done) Gt ltac:(lia)) as (tt & _ & Pt & Rt & Et).
  destruct Gs as (Hns & _ & _), Gt as (Hnt & _ & _).
  exists (gd_copy g), (gd_last g), p, ss, tt. rewrite <- Hn, <- Hns, <- Hnt.
  assert (forall i, i ∈ List.filter (live_addr (gd_copy g0)) w <-> i ∈ w /\ live_addr (gd_copy g0) i = true) as Hin
    by (intros i; apply in_filter).
  split; [| split; [done |]; split; [done |]; split; [done |]; split].
  - destruct (report_top _ _ p _ x) as [x1 | |]; [| done | done]. rewrite !bind_Val, Es.
    destruct (report_top _ _ ss _ x1) as [x2 | |]; [| done | done]. rewrite !bind_Val, Et.
    by destruct (report_top _ _ tt _ x2).
  - intros i [H1 H2]%Hin. by apply Gd.
  - intros i Hi. apply Gk. destruct (decide (i ∈ w)) as [Hiw | Hiw]; [right | by left].
    destruct (live_addr (gd_copy g0) i) eqn:E; [| done]. destruct Hi. by apply Hin.
Qed.

(** ** Witnesses *)
Module RankTest.

(** One protocol counted: five packets on TCP port 443. *)
Definition block443 : sharedif_t :=
  set_sh_protos (<[443%nat := mk_proto_info_t 5 500 0 0]> (sh_protos zero_sharedif)) zero_sharedif.

Lemma process_protocols_ranks_witness :
  exists copy' last' ptrs' n,
    _process_protocols true 60 block443 zero_sharedif (replicate (Z.to_nat SI_NUM_PROTOS) None) export_init =
      (x' ← report_top TOPN_PROTOS n ptrs' (report_protocol true copy' 60) export_init;
       Val (copy', last', ptrs', x')) /\
    proto_diffed block443 zero_sharedif copy' last' 443.
Proof.
  destruct (process_protocols_ranks true 60 block443 zero_sharedif (replicate (Z.to_nat SI_NUM_PROTOS) None) export_init)
    as (c & l & p & H1 & _ & _ & H2 & _).
  - change (sh_protos block443) with (<[443%nat := mk_proto_info_t 5 500 0 0]> (sh_protos zero_sharedif)).
    rewrite length_insert. vm_compute. reflexivity.
  - vm_compute. reflexivity.
  - vm_compute. reflexivity.
  - exists c, l, p, (Z.of_nat (length (active_protos block443 zero_sharedif))). split; [exact H1 |].
    apply H2. apply in_filter. split; [apply elem_of_seqZ; vm_compute; intuition discriminate | vm_compute; reflexivity].
Defined.

(** One LAN address, which used eleven of the watched ports. *)
Definition block_scan : sharedif_t :=
  set_sh_addrs (<[128%nat := set_ai_txpackets 9 (set_ai_resvd 0x7ff (set_ai_tstart (mk_tval_t 1000 0) zero_addr_info))]>
    (sh_addrs zero_sharedif)) zero_sharedif.
Definition gather_scan : gather_addrs :=
  mk_gather_addrs block_scan zero_sharedif (replicate (Z.to_nat SI_NUM_ADDRS) None) 0
    (replicate (Z.to_nat (SI_NUM_ADDRS / 2)) None) 0 (replicate (Z.to_nat (SI_NUM_ADDRS / 2)) None) 0.

Lemma process_addrs_ranks_witness :
  exists copy' last' ps ss tt,
    _process_addrs2 true 60 FLOW_TYPE_INTERNAL (mk_mga_info_t 1 127 129) gather_scan export_init =
      (x ← report_top 10 1 ps (on_topn_address true copy' 60 SortByTxPkt FLOW_TYPE_INTERNAL) export_init;
       x ← report_top 10 1 ss (on_topn_address true copy' 60 SortByScannedPorts FLOW_TYPE_INTERNAL) x;
       x ← report_top 10 0 tt (on_topn_address true copy' 60 SortByServedPorts FLOW_TYPE_INTERNAL) x;
       Val (mk_gather_addrs copy' last' ps 1 ss 1 tt 0, x)) /\
    take 1 ss ≡ₚ [Some 128].
Proof.
  destruct (process_addrs_ranks true 60 FLOW_TYPE_INTERNAL (mk_mga_info_t 1 127 129) gather_scan export_init)
    as (c & l & ps & ss & tt & H1 & _ & (H2 & _) & _).
  - change (sh_addrs (gd_copy gather_scan)) with (sh_addrs block_scan). unfold block_scan. cbn [sh_addrs set_sh_addrs].
    rewrite length_insert. vm_compute. reflexivity.
  - vm_compute. reflexivity.
  - vm_compute. reflexivity.
  - vm_compute. reflexivity.
  - vm_compute. reflexivity.
  - vm_compute. discriminate.
  - vm_compute. discriminate.
  - intros _. vm_compute. discriminate.
  - assert (List.filter (live_addr (gd_copy gather_scan)) (window (mk_mga_info_t 1 127 129)) = [128]) as Hl
      by (vm_compute; reflexivity).
    assert (List.filter (suspect ai_resvd FLOW_TYPE_INTERNAL (gd_copy gather_scan)) (window (mk_mga_info_t 1 127 129)) = [128])
      as Hs by (vm_compute; reflexivity).
    assert (List.filter (suspect ai_resvd2 FLOW_TYPE_INTERNAL (gd_copy gather_scan)) (window (mk_mga_info_t 1 127 129)) = [])
      as Ht by (vm_compute; reflexivity).
    rewrite Hl, Hs, Ht in H1. rewrite Hs in H2. exists c, l, ps, ss, tt. split; [exact H1 | exact H2].
Defined.

End RankTest.
