(* ===== verification/Typing.v ===== *)
(** The types of the shared block: every member of every entry is in the range of
    its C type, and no operation of the capture process changes that. *)
From S2P Require Import Prelude Structs MgArray IpUtils StreamKey HashTable Packet Cleanup ShmData Export StatProc Capture Lifecycle.
#[local] Open Scope Z_scope.

(** ** The types *)

(** An array of [n] entries, each of which satisfies [P]. *)
Definition arr_typed {A} (P : A -> Prop) (n : Z) (l : list A) : Prop := Forall P l /\ Z.of_nat (length l) = n.

Lemma arr_aget {A} (P : A -> Prop) n l i : arr_typed P n l -> yields P (aget l i).
Proof. intros [H _]. by apply yields_aget. Qed.

Lemma arr_aset {A} (P : A -> Prop) n (l : list A) i x : arr_typed P n l -> P x -> yields (arr_typed P n) (aset l i x).
Proof.
  intros [Hl Hn] Hx. pose proof (yields_aset P l i x Hl Hx) as H. destruct (aset l i x) eqn:E; [| done | done].
  split; [exact H | by rewrite (aset_length _ _ _ _ E)].
Qed.

(** An index of the address array. *)
Definition addr_index (i : Z) : Prop := 0 <= i < SI_NUM_ADDRS.

Definition tval_typed (t : tval_t) : Prop := is_u32 (tv_sec t) /\ is_u32 (tv_usec t).

Record mga_typed (p : mga_info_t) : Prop := {
  mt_num : is_u32 (mi_num_entries p); mt_lo : is_u32 (mi_idx_lo p); mt_hi : is_u32 (mi_idx_hi p)
}.

Record addr_typed (a : addr_info_t) : Prop := {
  at_tstart : tval_typed (ai_tstart a);
  at_iid : is_u32 (ai_iid a);
  at_offset : is_u32 (ai_addr_offset a);
  at_isv6 : is_u8 (ai_isv6 a);
  at_internal : is_u8 (ai_internal a);
  at_resvd : is_u16 (ai_resvd a);
  at_resvd2 : is_u16 (ai_resvd2 a);
  at_nstreams : is_u16 (ai_nstreams a);
  at_active : is_u16 (ai_nstreams_active a);
  at_txpackets : is_u32 (ai_txpackets a);
  at_txbytes : is_u32 (ai_txbytes a);
  at_rxpackets : is_u32 (ai_rxpackets a);
  at_rxbytes : is_u32 (ai_rxbytes a);
  at_bcast : is_u16 (ai_txbcastpkt a);
  at_mac : length (ai_mac a) = 6%nat /\ Forall is_u8 (ai_mac a)
}.

Record stream_typed (e : stream_info_t) : Prop := {
  st_tstart : tval_typed (si_tstart e);
  st_tlast : tval_typed (si_tlast e);
  st_iid : is_u32 (si_iid e);
  st_left : addr_index (si_idx_left e);
  st_right : addr_index (si_idx_right e);
  st_proto : is_u16 (si_idx_proto e);
  st_lport : is_u16 (si_lport e);
  st_rport : is_u16 (si_rport e);
  st_ipproto : is_u8 (si_ipproto e);
  st_tcpflags : is_u8 (si_tcpflags e);
  st_vlan : is_u8 (si_vlan e);
  st_flowflags : is_u8 (si_flowflags e);
  st_packets : is_u32 (si_packets e);
  st_bytes : is_u32 (si_bytes e);
  st__packets : is_u32 (si__packets e);
  st__bytes : is_u32 (si__bytes e)
}.

Definition flow_typed (f : flow_stats_t) : Prop := is_u32 (fs_packets f) /\ is_u32 (fs_bytes f).

Definition proto_typed (p : proto_info_t) : Prop :=
  is_u32 (pi_packets p) /\ is_u32 (pi_bytes p) /\ is_u32 (pi__packets p) /\ is_u32 (pi__bytes p).

(** The members that the program writes after initialisation. *)
Record block_typed (sh : sharedif_t) : Prop := {
  bt_tstart : tval_typed (sh_tstart sh);
  bt_tnow : tval_typed (sh_tnow sh);
  bt_flows : arr_typed flow_typed SI_NUM_FLOWTYPES (sh_flow_stats sh);
  bt_drops : is_u32 (sh_ifdrops sh) /\ is_u32 (sh_kdrops sh);
  bt_lan : mga_typed (sh_addr_lan_indexes sh);
  bt_wan : mga_typed (sh_addr_wan_indexes sh);
  bt_strm : mga_typed (sh_stream_indexes sh);
  bt_streams : arr_typed stream_typed SI_NUM_STREAMS (sh_streams sh);
  bt_protos : arr_typed proto_typed SI_NUM_PROTOS (sh_protos sh);
  bt_addrs : arr_typed addr_typed SI_NUM_ADDRS (sh_addrs sh)
}.

(** The values of a table. *)
Definition tbl_vals (P : Z -> Prop) (ht : HashTable keymem Z) : Prop :=
  Forall (Forall (fun pr => P (kv_value pr))) (bucketArray ht).

(** The process state: the block, the counters of identifiers, and the table of
    addresses, which leads to entries of the address array. *)
Record shm_typed (s : shm_t) : Prop := {
  sy_block : block_typed (g_shm s);
  sy_counts : is_u32 (gAddrCount s) /\ is_u32 (gStreamCount s);
  sy_addrs : tbl_vals addr_index (ht_v4addrs s)
}.

Lemma zero_u8 : is_u8 0. Proof. done. Qed.
Lemma one_u8 : is_u8 1. Proof. done. Qed.
Lemma zero_u16 : is_u16 0. Proof. done. Qed.
Lemma zero_u32 : is_u32 0. Proof. done. Qed.
Lemma one_u32 : is_u32 1. Proof. done. Qed.

Create HintDb typed discriminated.
#[export] Hint Resolve u8_range u16_range u32_range zero_u8 one_u8 zero_u16 zero_u32 one_u32 : typed.
#[export] Hint Resolve arr_aget arr_aset : typed.

(** A record with some members replaced. *)
Ltac retype :=
  match goal with
  | H : addr_typed _ |- addr_typed _ => destruct H; split; cbn; auto with typed
  | H : stream_typed _ |- stream_typed _ => destruct H; split; cbn; auto with typed
  | H : block_typed _ |- block_typed _ => destruct H; split; cbn; auto with typed
  end.

(** ** Entries *)

Lemma lor_u8 x y : is_u8 x -> is_u8 y -> is_u8 (Z.lor x y).
Proof. by apply (lor_bound 8). Qed.
#[export] Hint Resolve lor_u8 : typed.

(** The constants assigned to members. *)
Lemma flags_u8 : is_u8 FLOW_FLAG_WEB /\ is_u8 FLOW_FLAG_IN /\ is_u8 FLOW_FLAG_CLEANUP /\ is_u8 FLOW_TYPE_INTERNAL.
Proof. vm_compute. intuition discriminate. Qed.

Lemma tval_set_sec v t : is_u32 v -> tval_typed t -> tval_typed (set_tv_sec v t).
Proof. by intros Hv [_ Hu]. Qed.
#[export] Hint Resolve tval_set_sec : typed.

Lemma addr_op_typed (op : mgaop_t) a : addr_typed a -> addr_typed (fst (addr_isempty_func a op)).
Proof.
  intros Ha. unfold addr_isempty_func. cbn [fst].
  assert (forall v, is_u32 v -> addr_typed (set_ai_tstart (set_tv_sec v (ai_tstart a)) a)) as Hset.
  { intros v Hv. retype. }
  destruct op; [done | apply Hset; apply one_u32 | | apply Hset; apply zero_u32].
  destruct (tv_sec (ai_tstart a) =? 0); [apply Hset; apply one_u32 | done].
Qed.

Lemma stream_op_typed (op : mgaop_t) e : stream_typed e -> stream_typed (fst (stream_isempty_func e op)).
Proof.
  intros He. unfold stream_isempty_func. cbn [fst].
  assert (forall v, is_u32 v -> stream_typed (set_si_tstart (set_tv_sec v (si_tstart e)) e)) as Hset.
  { intros v Hv. retype. }
  destruct op; [done | apply Hset; apply one_u32 | | apply Hset; apply zero_u32].
  destruct (tv_sec (si_tstart e) =? 0); [apply Hset; apply one_u32 | done].
Qed.

(** ** Managed arrays *)

Section Mga.
Context {E : Type} `{MgaEntry E} (P : E -> Prop) (n : Z) (Hop : forall op e, P e -> P (fst (isempty_func e op))).

Lemma entry_op_typed op arr i : arr_typed P n arr -> yields (fun r => arr_typed P n (fst r)) (entry_op op arr i).
Proof.
  intros Ha. unfold entry_op. apply (yields_bind P); [by eapply arr_aget |]. intros e He.
  specialize (Hop op e He). destruct (isempty_func e op) as [e' st]. cbn in Hop.
  apply (yields_bind (arr_typed P n)); [by apply arr_aset | done].
Qed.

(** The state of an array: its entries and its indexes. *)
Definition mga_state (p : mga_info_t) (arr : list E) : Prop := mga_typed p /\ arr_typed P n arr.

Lemma find_interior_typed p arr :
  arr_typed P n arr ->
  yields (fun c => match c with Brk (_, arr') => arr_typed P n arr' | Next arr' => arr_typed P n arr' end) (mga_find_interior p arr).
Proof.
  unfold mga_find_interior. generalize (seqZ (u32 (mi_idx_lo p + 1)) (mi_idx_hi p - u32 (mi_idx_lo p + 1))). intros l.
  revert arr. induction l as [| i l IH]; intros arr Ha; [done |].
  cbn [for_ctl]. rewrite bind_assoc. apply (yields_bind (fun r => arr_typed P n (fst r))); [by apply entry_op_typed |].
  intros [arr' []] Ha'; cbn in *; [done | by apply IH].
Qed.

Lemma alloc_typed ma p arr :
  mga_state p arr -> yields (fun r => mga_state (snd (fst r)) (snd r)) (mga_alloc_entry ma p arr).
Proof.
  intros [Hp Ha]. unfold mga_alloc_entry. destruct (_ <=? _); [done |]. apply yields_assert. cbv zeta.
  assert (forall v, is_u32 v -> mga_typed (set_mi_num_entries v p)) as Hnum by (intros v Hv; destruct Hp; by split).
  destruct (_ <? _).
  { apply (yields_bind _ _ _ _ (find_interior_typed p arr Ha)). intros [arr' | [i arr']] Ha'; [done |].
    split; [apply Hnum, u32_range | done]. }
  destruct (_mga_more_lo_than_hi ma p);
    (apply (yields_bind (fun r => arr_typed P n (fst r))); [by apply entry_op_typed |]; intros [arr' st] Ha';
     apply yields_assert, yields_any; intros b; apply yields_assert; split; [| done];
     destruct Hp; split; cbn; auto with typed).
Qed.

Lemma raise_lo_typed fuel mid arr lo : is_u32 lo -> yields is_u32 (raise_lo fuel mid arr lo).
Proof.
  revert lo. induction fuel as [| fuel IH]; intros lo Hlo; cbn [raise_lo]; (destruct (_ <? _); [| done]);
    apply yields_any; intros []; try done. apply IH, u32_range.
Qed.

Lemma lower_hi_typed fuel lo arr hi : is_u32 hi -> yields is_u32 (lower_hi fuel lo arr hi).
Proof.
  revert hi. induction fuel as [| fuel IH]; intros hi Hhi; cbn [lower_hi]; (destruct (_ <? _); [| done]);
    apply yields_any; intros []; try done. apply IH, u32_range.
Qed.

Lemma free_typed ma p arr idx :
  mga_state p arr -> yields (fun r => mga_state (fst r) (snd r)) (mga_free_entry ma p arr idx).
Proof.
  intros [[H1 H2 H3] Ha]. unfold mga_free_entry. destruct (_ || _); [done |]. apply yields_any. intros []; [done |].
  cbv zeta. apply (yields_bind (fun r => arr_typed P n (fst r))); [by apply entry_op_typed |]. intros [arr' st] Ha'.
  apply (yields_bind _ _ _ _ (raise_lo_typed _ _ _ _ H2)). intros lo Hlo.
  apply (yields_bind _ _ _ _ (lower_hi_typed _ _ _ _ H3)). intros hi Hhi.
  split; [| done]. split; cbn; auto with typed.
Qed.
End Mga.

(** ** The table of addresses *)

Section Table.
Context (P : Z -> Prop).
Implicit Types (m : keymem) (ht : HashTable keymem Z).

Lemma vals_find m ht key l prev pr rest :
  Forall (fun pr => P (kv_value pr)) l -> find_pair m ht key l = Some (prev, pr, rest) ->
  Forall (fun pr => P (kv_value pr)) prev /\ P (kv_value pr) /\ Forall (fun pr => P (kv_value pr)) rest.
Proof.
  revert prev. induction l as [| q l IH]; intros prev Hl; [done |]. apply Forall_cons_1 in Hl as [Hq Hl].
  cbn [find_pair]. destruct (_ =? 0); [by intros [= <- <- <-] |].
  destruct (find_pair m ht key l) as [[[prev' pr'] rest'] |]; [| done]. intros [= <- <- <-].
  destruct (IH prev' Hl eq_refl) as (H1 & H2 & H3). split; [by constructor | done].
Qed.

Lemma vals_get m ht key : tbl_vals P ht ->
  yields (fun r => match r with Some v => P v | None => True end) (HashTableGet m ht key).
Proof.
  intros H. unfold HashTableGet. cbv zeta. apply (yields_bind _ _ _ _ (yields_aget _ _ _ H)). intros l Hl.
  destruct (find_pair m ht key l) as [[[prev pr] rest] |] eqn:E; [| done]. by destruct (vals_find _ _ _ _ _ _ _ Hl E) as (_ & H2 & _).
Qed.

Lemma vals_null n : yields (fun bs => Forall (Forall (fun pr : KeyValuePair Z => P (kv_value pr))) bs) (null_buckets n).
Proof. unfold null_buckets. apply yields_any. intros l. cbn [yields]. by induction l; constructor. Qed.

Lemma vals_rehash ok m ht n : tbl_vals P ht -> yields (tbl_vals P) (HashTableRehash ok m ht n).
Proof.
  intros H. unfold HashTableRehash. apply yields_any. intros k. destruct (_ =? _); [done |]. destruct (negb ok); [done |].
  apply (yields_bind _ _ _ _ (vals_null k)). intros bs Hbs.
  apply (yields_bind (fun bs => Forall (Forall (fun pr => P (kv_value pr))) bs)); [| done].
  unfold for_pairs. apply yields_any. intros idx. apply yields_for_each; [done |]. intros i new Hnew.
  apply (yields_bind _ _ _ _ (yields_aget _ _ _ H)). intros l Hl.
  clear Hbs bs. revert new Hnew. induction l as [| pr l IH]; intros new Hnew; [done |]. apply Forall_cons_1 in Hl as [Hp Hl].
  cbn [for_each]. apply (yields_bind (fun bs => Forall (Forall (fun pr => P (kv_value pr))) bs)); [| by apply IH].
  unfold rehash_pair. cbv zeta. apply (yields_bind _ _ _ _ (yields_aget _ _ _ Hnew)). intros chain Hch.
  apply yields_aset; [done | by constructor].
Qed.

Lemma vals_put ok okr m ht key v : tbl_vals P ht -> P v ->
  yields (fun '(_, ht', _) => tbl_vals P ht') (HashTablePut ok okr m ht key (Some v)).
Proof.
  intros H Hv. unfold HashTablePut. apply yields_assert. cbv zeta.
  apply (yields_bind _ _ _ _ (yields_aget _ _ _ H)). intros l Hl.
  destruct (find_pair m ht key l) as [[[prev pr] rest] |] eqn:E.
  - destruct (vals_find _ _ _ _ _ _ _ Hl E) as (H1 & H2 & H3).
    apply (yields_bind (fun bs => Forall (Forall (fun pr => P (kv_value pr))) bs)); [| done].
    apply yields_aset; [done |]. apply Forall_app. split; [done | by constructor].
  - destruct (negb ok); [done |].
    apply (yields_bind (fun bs => Forall (Forall (fun pr => P (kv_value pr))) bs)).
    { apply yields_aset; [done | by constructor]. }
    intros bs Hbs. destruct (_ && _); [| done]. apply (yields_bind (tbl_vals P)); [by apply vals_rehash | done].
Qed.
End Table.

(** ** The shared data *)

Lemma upd_addr_typed i f s :
  (forall a, addr_typed a -> addr_typed (f a)) -> shm_typed s -> yields shm_typed (upd_addr i f s).
Proof.
  intros Hf [Hb Hc Ht]. pose proof (bt_addrs _ Hb) as Ha. unfold upd_addr.
  apply (yields_bind _ _ _ _ (arr_aget _ _ _ i Ha)). intros a Hta.
  apply (yields_bind _ _ _ _ (arr_aset _ _ _ i _ Ha (Hf a Hta))). intros arr Harr. split; [cbn; retype | done | done].
Qed.

(** The entry exists when the update returns. *)
Lemma upd_addr_index i f s : shm_typed s -> yields (fun _ => addr_index i) (upd_addr i f s).
Proof.
  intros [Hb _ _]. destruct (bt_addrs _ Hb) as [_ Hn]. unfold upd_addr. destruct (aget (sh_addrs (g_shm s)) i) eqn:E; [| done | done].
  rewrite bind_Val. apply yields_any. intros arr. apply aget_inv in E. cbn [yields]. unfold addr_index. lia.
Qed.

Lemma upd_stream_typed i f s :
  (forall e, stream_typed e -> stream_typed (f e)) -> shm_typed s -> yields shm_typed (upd_stream i f s).
Proof.
  intros Hf [Hb Hc Ht]. pose proof (bt_streams _ Hb) as Ha. unfold upd_stream.
  apply (yields_bind _ _ _ _ (arr_aget _ _ _ i Ha)). intros e He.
  apply (yields_bind _ _ _ _ (arr_aset _ _ _ i _ Ha (Hf e He))). intros arr Harr. split; [cbn; retype | done | done].
Qed.

Lemma upd_flow_typed i len s : shm_typed s -> yields shm_typed (upd_flow i (add_flow len) s).
Proof.
  intros [Hb Hc Ht]. unfold upd_flow. apply yields_any. intros f.
  apply (yields_bind (arr_typed flow_typed SI_NUM_FLOWTYPES)).
  { apply arr_aset; [by apply bt_flows | split; apply u32_range]. }
  intros arr Harr. split; [cbn; retype | done | done].
Qed.

Lemma upd_proto_typed i f s :
  (forall p, proto_typed p -> proto_typed (f p)) -> shm_typed s -> yields shm_typed (upd_proto i f s).
Proof.
  intros Hf [Hb Hc Ht]. pose proof (bt_protos _ Hb) as Ha. unfold upd_proto.
  apply (yields_bind _ _ _ _ (arr_aget _ _ _ i Ha)). intros p Hp.
  apply (yields_bind _ _ _ _ (arr_aset _ _ _ i _ Ha (Hf p Hp))). intros arr Harr. split; [cbn; retype | done | done].
Qed.

Lemma store_stream_typed p k s : shm_typed s -> shm_typed (store_stream_key p k s).
Proof. by intros []. Qed.
Lemma store_addr_typed p k s : shm_typed s -> shm_typed (store_addr_key p k s).
Proof. by intros []. Qed.

Lemma inc_global_typed ts len s : tval_typed ts -> shm_typed s -> yields shm_typed (shm_inc_global ts len s).
Proof.
  intros Hts Hs. unfold shm_inc_global. apply (yields_bind shm_typed); [by apply upd_flow_typed |].
  intros s1 [Hb Hc Ht]. cbv zeta. destruct (_ =? 0); (split; [cbn; retype | done | done]).
Qed.

Lemma inc_flow_stats_typed ss len s : shm_typed s -> yields shm_typed (shm_inc_flow_stats ss len s).
Proof. intros Hs. apply yields_any. intros e. by apply yields_assert, upd_flow_typed. Qed.

Lemma update_capstats_typed r i k s : shm_typed s -> shm_typed (shm_update_capstats r i k s).
Proof. intros [Hb Hc Ht]. split; [cbn; destruct Hb as [? ? ? [? ?]]; split; cbn; auto with typed | done | done]. Qed.

(** The two sides of the address array. *)
Lemma alloc_addr_typed (lan : bool) ma v s :
  is_u8 v -> shm_typed s ->
  yields (fun r => shm_typed (snd r))
    ('(addr, p, arr) ← mga_alloc_entry ma (if lan then sh_addr_lan_indexes (g_shm s) else sh_addr_wan_indexes (g_shm s))
                         (sh_addrs (g_shm s));
     let s := set_g_shm (set_sh_addrs arr (if lan then set_sh_addr_lan_indexes p (g_shm s)
                                           else set_sh_addr_wan_indexes p (g_shm s))) s in
     match addr with
     | Some i => s ← upd_addr i (set_ai_internal v) s; Val (addr, s)
     | None => Val (addr, s)
     end).
Proof.
  intros Hv [Hb Hc Ht].
  apply (yields_bind (fun r => mga_state addr_typed SI_NUM_ADDRS (snd (fst r)) (snd r))).
  { apply alloc_typed; [exact addr_op_typed |]. split; [by destruct lan; apply Hb | by apply bt_addrs]. }
  intros [[addr p] arr] [Hp Ha]. cbv zeta.
  set (s' := set_g_shm _ s). assert (shm_typed s') as Hs' by (split; [cbn; destruct lan; retype | done | done]).
  destruct addr as [i |]; [| exact Hs']. apply (yields_bind shm_typed); [| done].
  apply upd_addr_typed; [| exact Hs']. intros a Hta. retype.
Qed.

(** An allocated entry, or none: then the index is 0. *)
Definition addr_result (r : option Z * Z * shm_t) : Prop := addr_index (snd (fst r)) /\ shm_typed (snd r).

Lemma addr_alloc_typed pkey okp okr ip mac s :
  is_u32 ip -> length mac = 6%nat /\ Forall is_u8 mac -> shm_typed s ->
  yields addr_result (shm_addr_alloc_v4 pkey okp okr ip mac s).
Proof.
  intros Hip Hmac Hs. unfold shm_addr_alloc_v4. apply yields_any. intros lan.
  apply (yields_bind (fun r => shm_typed (snd r))).
  { destruct (negb (lan =? 0)); [exact (alloc_addr_typed true _ 1 s one_u8 Hs) | exact (alloc_addr_typed false _ 0 s zero_u8 Hs)]. }
  intros [[i |] s1] Hs1; [| by split]. cbn [snd] in Hs1.
  apply (yields_bind (fun s2 => addr_index i /\ shm_typed s2)).
  { apply yields_and; [by apply upd_addr_index |]. apply upd_addr_typed; [| done].
    intros a Ha. pose proof (proj1 (sy_counts _ Hs1)). retype. }
  intros s2 [Hi [Hb [Hc Hd] Ht]]. cbv zeta. destruct (pkey =? NULL); [done |].
  apply (yields_bind _ _ _ _ (vals_put addr_index _ _ _ _ pkey i Ht Hi)).
  intros [[st ht] m] Hht. split; [exact Hi |]. split; [exact Hb | split; [apply u32_range | exact Hd] | exact Hht].
Qed.

Lemma addr_lookup_typed l ip s : shm_typed s -> yields addr_result (shm_addr_lookup_v4 l ip s).
Proof.
  intros Hs. unfold shm_addr_lookup_v4. cbv zeta. apply (yields_bind _ _ _ _ (vals_get _ _ _ _ (sy_addrs _ Hs))).
  intros [i |] Hi; (split; [done | by apply store_addr_typed]).
Qed.

Lemma addr_free_typed i s : shm_typed s -> yields shm_typed (shm_addr_free i s).
Proof.
  intros [Hb Hc Ht]. unfold shm_addr_free.
  destruct (_ <=? _); (apply (yields_bind (fun r => mga_state addr_typed SI_NUM_ADDRS (fst r) (snd r)));
    [apply free_typed; [exact addr_op_typed | split; [apply Hb | by apply bt_addrs]]
    | intros [p arr] [Hp Ha]; split; [cbn; retype | done | done]]).
Qed.

Lemma stream_alloc_typed okp okr key s :
  shm_typed s -> yields (fun r => shm_typed (snd r)) (shm_stream_alloc okp okr key s).
Proof.
  intros [Hb Hc Ht]. unfold shm_stream_alloc.
  apply (yields_bind (fun r => mga_state stream_typed SI_NUM_STREAMS (snd (fst r)) (snd r))).
  { apply alloc_typed; [exact stream_op_typed | split; [apply Hb | by apply bt_streams]]. }
  intros [[val p] arr] [Hp Ha]. cbv zeta.
  set (s' := set_g_shm _ s). assert (shm_typed s') as Hs' by (split; [cbn; retype | done | done]).
  destruct val as [i |]; [| exact Hs']. apply yields_any. intros [[st ht] m].
  apply (yields_bind shm_typed).
  { apply upd_stream_typed; [| by destruct Hs']. intros e He. pose proof (proj2 (sy_counts _ Hs')). retype. }
  intros s2 [H1 [H2 H3] H4]. split; [exact H1 | split; [exact H2 | apply u32_range] | exact H4].
Qed.

Lemma stream_free_typed i s : shm_typed s -> yields shm_typed (set_stream_slot_empty i s).
Proof.
  intros [Hb Hc Ht]. unfold set_stream_slot_empty.
  apply (yields_bind (fun r => mga_state stream_typed SI_NUM_STREAMS (fst r) (snd r))).
  { apply free_typed; [exact stream_op_typed | split; [apply Hb | by apply bt_streams]]. }
  intros [p arr] [Hp Ha]. split; [cbn; retype | done | done].
Qed.

(** ** The packet handler *)

Lemma inc_addr_ctrs_typed l r dir len s : shm_typed s -> yields shm_typed (inc_addr_ctrs l r dir len s).
Proof.
  intros Hs. assert (forall a, addr_typed a -> addr_typed (inc_addr_tx len a)) as Htx by (intros a Ha; retype).
  assert (forall a, addr_typed a -> addr_typed (inc_addr_rx len a)) as Hrx by (intros a Ha; retype).
  unfold inc_addr_ctrs. destruct dir; (apply (yields_bind shm_typed); [by apply upd_addr_typed |]); intros s1 Hs1;
    by apply upd_addr_typed.
Qed.

Lemma inc_stream_counters_typed ss dir len s : shm_typed s -> yields shm_typed (inc_stream_counters ss dir len s).
Proof.
  intros Hs. unfold inc_stream_counters. apply (yields_bind shm_typed).
  { apply upd_stream_typed; [intros e He; retype | done]. }
  intros s1 Hs1. apply yields_any. intros e. apply yields_any. intros l. apply yields_any. intros r.
  apply (yields_bind shm_typed); [| intros s2; apply inc_addr_ctrs_typed].
  assert (forall a, addr_typed a -> addr_typed (inc_nstreams a)) as Hn by (intros a Ha; retype).
  assert (forall a, addr_typed a -> addr_typed (inc_nstreams_active a)) as Hn' by (intros a Ha; retype).
  destruct (_ =? 1); [| done].
  repeat (apply (yields_bind shm_typed); [by apply upd_addr_typed | intros ? ?]). by apply upd_addr_typed.
Qed.

Lemma inc_protocol_typed p r dir len s : shm_typed s -> yields shm_typed (inc_protocol_counters p r dir len s).
Proof.
  intros Hs. unfold inc_protocol_counters. destruct (shm_get_protocol p r); [| done].
  apply upd_proto_typed; [| done]. intros q (H1 & H2 & H3 & H4). unfold inc_proto.
  destruct (bool_decide _); repeat split; cbn; try apply u32_range; apply H3 || apply H4.
Qed.

Lemma set_flow_flags_typed ss l r s : shm_typed s -> yields shm_typed (set_stream_flow_flags ss l r s).
Proof.
  intros Hs. do 4 (apply yields_any; intros ?). apply upd_stream_typed; [| done]. intros e He.
  destruct flags_u8 as (F1 & F2 & F3 & F4). unfold stream_flow_flags.
  repeat match goal with |- context [if ?b then _ else _] => destruct b end; repeat retype.
Qed.

Lemma tcp_update_typed hdr pkt ss s c :
  is_u8 (tcpflags pkt) -> shm_typed s -> yields (fun r => shm_typed (fst r)) (tcp_update hdr pkt ss s c).
Proof.
  intros Hf Hs. unfold tcp_update. destruct (_ =? 0); [done |].
  apply (yields_bind shm_typed); [apply upd_stream_typed; [intros e He; retype | done] |].
  intros s1 Hs1. apply yields_any. intros e. destruct (_ && _); [| done].
  apply yields_any. intros c'. apply (yields_bind shm_typed); [| done].
  destruct flags_u8 as (_ & _ & F3 & _). apply upd_stream_typed; [intros e' He; retype | done].
Qed.

Definition hdr_typed (h : pcap_pkthdr32_t) : Prop :=
  tval_typed (hdr_ts h) /\ is_u32 (hdr_caplen h) /\ is_u32 (hdr_len h).

Lemma stream_packet_typed hdr buf pkt dir ss s c :
  hdr_typed hdr -> is_u8 (tcpflags pkt) -> shm_typed s ->
  yields (fun r => shm_typed (fst r)) (stream_packet hdr buf pkt dir ss s c).
Proof.
  intros (Ht & _) Hf Hs. unfold stream_packet. cbv zeta.
  apply (yields_bind shm_typed); [apply upd_stream_typed; [intros e He; retype | done] |]. intros s1 Hs1.
  apply (yields_bind _ _ _ _ (tcp_update_typed hdr pkt ss s1 c Hf Hs1)). intros [s2 c2] Hs2. cbn [fst] in Hs2.
  apply yields_any. intros e. apply (yields_bind shm_typed).
  { destruct (_ =? 1); [| done]. apply yields_any. intros v. apply upd_stream_typed; [intros e' He; retype | done]. }
  intros s3 Hs3. apply (yields_bind shm_typed); [by apply inc_stream_counters_typed |].
  intros s4 Hs4. apply (yields_bind shm_typed); [by apply inc_flow_stats_typed |].
  intros s5 Hs5. apply yields_any. intros e'. apply (yields_bind shm_typed); [by apply inc_protocol_typed | done].
Qed.

(** ** What the parser delivers *)

Section Bytes.
Context (buf : list Z) (Hbuf : Forall is_u8 buf).

Lemma byte_typed i : yields is_u8 (aget buf i).
Proof using Hbuf. by apply yields_aget. Qed.

Lemma ntohs16_typed off : yields is_u16 (ntohs16 buf off).
Proof using Hbuf.
  apply (yields_bind _ _ _ _ (byte_typed _)). intros hi Hhi.
  apply (yields_bind _ _ _ _ (byte_typed _)). intros lo Hlo.
  unfold yields, mret, res_ret, is_u8, is_u16 in *. lia.
Qed.

Definition flags_typed (r : Z * pktinfo_t) : Prop := is_u8 (tcpflags (snd r)).

Lemma ip_parse_typed pos pkt rem : is_u8 (tcpflags pkt) -> yields flags_typed (_ip_parse buf pos pkt rem).
Proof using Hbuf.
  intros Hp. unfold _ip_parse. destruct (_ <? _); [done |]. cbv zeta.
  apply yields_any. intros hlen. apply yields_any. intros l. destruct (_ && _); [done |].
  apply yields_any. intros off. destruct (_ =? 0); [| done]. apply yields_any. intros p.
  destruct (p =? IPPROTO_TCP); [| by destruct (p =? IPPROTO_UDP)].
  unfold _tcp4_parse. by apply (yields_bind _ _ _ _ (byte_typed _)).
Qed.

Lemma net_parse_typed caplen pkt : is_u8 (tcpflags pkt) -> yields flags_typed (net_parse caplen buf pkt).
Proof using Hbuf.
  intros Hp. unfold net_parse. destruct (_ <? _); [done |]. cbv zeta. apply yields_any. intros [ty off].
  destruct (_ <=? _); [done |]. destruct (_ =? _); [| done]. by apply ip_parse_typed.
Qed.

Lemma zero_key_wf : key_wf zero_stream_key.
Proof. by split; vm_compute; repeat constructor. Qed.

Lemma init_key_typed pkt : yields (fun r => key_wf (snd r)) (pkt_init_key buf pkt).
Proof using Hbuf.
  unfold pkt_init_key. destruct (negb _); [exact zero_key_wf |].
  apply yields_any. intros ip. apply (yields_bind _ _ _ _ (byte_typed _)). intros p Hp.
  apply (yields_bind (fun r => is_u16 (fst r) /\ is_u16 (snd r))).
  - unfold pkt_get_ports_v4. destruct (_ =? _); apply yields_any; intros l4;
      (apply (yields_bind _ _ _ _ (ntohs16_typed _)); intros sp Hsp;
       apply (yields_bind _ _ _ _ (ntohs16_typed _)); by intros dp Hdp).
  - intros [sp dp] [Hsp Hdp]. apply yields_any. intros src. apply yields_any. intros dst.
    rewrite init_v4_eq by done. by destruct (_ || _); apply v4_key_wf.
Qed.

Lemma mac_typed off : yields (fun m => length m = 6%nat /\ Forall is_u8 m) (mac_at buf off).
Proof using Hbuf.
  unfold mac_at. repeat (apply (yields_bind _ _ _ _ (byte_typed _)); intros ? ?).
  split; [reflexivity |]. by do 6 (constructor; [assumption |]).
Qed.

Lemma addr_for_typed env pkey ts ip mac s :
  is_u32 ip -> tval_typed ts -> shm_typed s -> yields addr_result (addr_for env pkey ts ip mac buf s).
Proof using Hbuf.
  intros Hip Hts Hs. unfold addr_for. apply (yields_bind _ _ _ _ (addr_lookup_typed _ ip s Hs)).
  intros [[[a |] idx] s1] [Hi1 Hs1]; [by split |]. apply yields_any. intros off.
  apply (yields_bind _ _ _ _ (mac_typed off)). intros m Hm.
  apply (yields_bind _ _ _ _ (addr_alloc_typed _ _ _ ip m s1 Hip Hm Hs1)). intros [[[i |] idx'] s2] Hs2; [| exact Hs2].
  destruct Hs2 as [Hi Hs2]. apply (yields_bind shm_typed); [| done]. apply upd_addr_typed; [intros x Hx; retype | exact Hs2].
Qed.

Lemma new_stream_typed env hdr pkt fl key s :
  hdr_typed hdr -> key_wf key -> shm_typed s -> yields (fun r => shm_typed (snd r)) (new_stream env hdr buf pkt fl key s).
Proof using Hbuf.
  intros (Hts & _) Hk Hs. unfold new_stream.
  pose proof (load32_u32 (sk_addrs (sk_v4 key)) 0 (proj2 (kw_addrs _ Hk))) as Hl.
  pose proof (load32_u32 (sk_addrs (sk_v4 key)) 4 (proj2 (kw_addrs _ Hk))) as Hr.
  apply (yields_bind _ _ _ _ (stream_alloc_typed _ _ _ s Hs)). intros [[ss |] s1] Hs1; [| exact Hs1]. cbv zeta.
  apply (yields_bind _ _ _ _ (addr_for_typed env _ _ (net_stream4_left key) _ s1 Hl Hts Hs1)). intros [[al il] s2] [Hil Hs2].
  apply (yields_bind _ _ _ _ (addr_for_typed env _ _ (net_stream4_right key) _ s2 Hr Hts Hs2)). intros [[ar ir] s3] [Hir Hs3]. cbn [fst snd] in Hil, Hir.
  apply (yields_bind shm_typed).
  { apply upd_stream_typed; [| exact Hs3]. intros e He. destruct Hk. unfold fill_stream.
    rewrite (u16_small il), (u16_small ir) by (unfold addr_index, SI_NUM_ADDRS, is_u16 in *; lia). retype. }
  intros s4 Hs4. apply (yields_bind shm_typed); [by apply set_flow_flags_typed | done].
Qed.

Lemma packet_step_typed env hdr s c :
  hdr_typed hdr -> shm_typed s -> yields (fun r => shm_typed (snd (fst r))) (packet_step env hdr buf s c).
Proof using Hbuf.
  intros Hh Hs. unfold packet_step. apply (yields_bind _ _ _ _ (net_parse_typed _ pkt_init zero_u8)).
  intros [st pkt] Hf. destruct (negb _); [done |].
  apply (yields_bind _ _ _ _ (init_key_typed pkt)). intros [fl key] Hk. cbv zeta. destruct (_ || _); [by apply store_stream_typed |].
  apply (yields_bind shm_typed); [apply inc_global_typed; [apply Hh | by apply store_stream_typed] |]. intros s1 Hs1.
  destruct (negb _); [done |]. apply yields_any. intros found.
  apply (yields_bind (fun r => shm_typed (snd r))).
  { destruct found; [done |]. by apply new_stream_typed. }
  intros [[ss |] s2] Hs2; [| exact Hs2].
  apply (yields_bind _ _ _ _ (stream_packet_typed hdr buf pkt _ ss s2 c Hh Hf Hs2)). by intros [s3 c3] Hs3.
Qed.
End Bytes.

(** ** Expired streams, one packet, a whole file *)

Lemma dec_active_typed a : addr_typed a -> addr_typed (dec_nstreams_active a).
Proof. intros Ha. retype. Qed.
#[export] Hint Resolve dec_active_typed : typed.

Lemma cleanup_stream_typed env ss s : shm_typed s -> yields shm_typed (cleanup_stream env ss s).
Proof.
  intros Hs. unfold cleanup_stream. apply yields_any. intros key. cbv zeta. apply (yields_bind shm_typed).
  { apply yields_any. intros [ht m]. by destruct Hs. }
  intros s1 Hs1. do 3 (apply yields_any; intros ?).
  apply (yields_bind shm_typed); [apply upd_addr_typed; auto with typed |]. intros s2 Hs2.
  apply (yields_bind shm_typed); [apply upd_addr_typed; auto with typed |]. intros s3 Hs3.
  apply yields_any. intros l. apply (yields_bind shm_typed); [destruct (_ =? 0); [by apply addr_free_typed | done] |].
  intros s4 Hs4. apply yields_any. intros r.
  apply (yields_bind shm_typed); [destruct (_ =? 0); [by apply addr_free_typed | done] |]. apply stream_free_typed.
Qed.

Lemma cleanup_expired_typed env tv s c :
  shm_typed s -> yields (fun r => shm_typed (fst r)) (cleanup_expired_streams env tv s c).
Proof.
  intros Hs. unfold cleanup_expired_streams. cbv zeta. destruct (_ || _); [done |].
  apply yields_any. intros c1. apply (yields_bind shm_typed).
  { apply yields_for_each; [done |]. intros i s1 Hs1. apply yields_any. intros ss. by apply cleanup_stream_typed. }
  intros s1 Hs1. by apply yields_any.
Qed.

Definition capture_typed (st : capture_t) : Prop := shm_typed (cp_shm st).

Lemma run_sim_typed rff env ts st : capture_typed st -> yields capture_typed (run_sim rff env ts st).
Proof. intros Hs. unfold run_sim. destruct rff; [| done]. apply yields_any. by intros [last sp]. Qed.

Lemma on_packet_yields rff env hdr buf st :
  Forall is_u8 buf -> hdr_typed hdr -> capture_typed st ->
  yields (fun r => capture_typed (snd r)) (on_packet rff env hdr buf st).
Proof.
  intros Hb Hh Hs. unfold on_packet. apply (yields_bind _ _ _ _ (run_sim_typed rff env (hdr_ts hdr) st Hs)). intros st1 Hs1.
  apply (yields_bind _ _ _ _ (packet_step_typed buf Hb env hdr (cp_shm st1) (cp_cleanup st1) Hh Hs1)).
  intros [[counted s] c] Hs2. cbv zeta. destruct (negb counted); [exact Hs2 |].
  apply (yields_bind capture_typed); [by apply run_sim_typed |]. intros st3 Hs3. destruct (_ <? _); [| done].
  apply (yields_bind _ _ _ _ (cleanup_expired_typed env _ _ (cp_cleanup st3) Hs3)). by intros [s4 c4] Hs4.
Qed.

Lemma le_val_u32 bs : Forall is_u8 bs -> is_u32 (le_val (take 4 bs)).
Proof.
  intros Hbs. assert (forall n l, Forall is_u8 l -> 0 <= le_val (take n l) < 256 ^ Z.of_nat n) as Hle.
  { clear. induction n as [| n IH]; intros l Hl; [done |]. rewrite Nat2Z.inj_succ, Z.pow_succ_r by lia.
    destruct l as [| b l]; [cbn; lia |]. apply Forall_cons_1 in Hl as [Hb Hl]. specialize (IH l Hl).
    cbn [take le_val]. unfold is_u8 in Hb. lia. }
  exact (Hle 4%nat bs Hbs).
Qed.

Lemma read_loop_typed {S} (P : S -> Prop) cb :
  (forall hdr buf n st, hdr_typed hdr -> Forall is_u8 buf -> P st -> yields (fun r => P (snd r)) (cb hdr buf n st)) ->
  forall fuel file tmpbuf n st, Forall is_u8 file -> Forall is_u8 tmpbuf -> P st ->
  yields (fun r => P (snd r)) (read_pcap_loop cb fuel file tmpbuf n st).
Proof.
  intros Hcb. induction fuel as [| fuel IH]; intros file tmpbuf n st Hf Ht Hs; [done |].
  cbn [read_pcap_loop read_file]. destruct (_ <? _); [exact Hs |]. destruct (_ <? _); [done |].
  destruct (_ <? _); [exact Hs |].
  assert (Forall is_u8 (take (Z.to_nat (hdr_caplen (decode_pkthdr (take SIZEOF_PKTHDR file)))) (drop SIZEOF_PKTHDR file))) as Hd
    by by apply Forall_take, Forall_drop.
  apply (yields_bind (fun r => P (snd r))).
  - apply Hcb; [| apply Forall_app; split; [exact Hd | by apply Forall_drop] | done].
    repeat split; apply le_val_u32; repeat apply Forall_drop; by apply Forall_take.
  - intros [r st1] Hs1. destruct (negb _); [exact Hs1 |]. apply IH; [| | exact Hs1].
    + by do 2 apply Forall_drop.
    + apply Forall_app. split; [exact Hd | by apply Forall_drop].
Qed.

Lemma main_file_typed env name file tmpbuf st :
  Forall is_u8 file -> Forall is_u8 tmpbuf -> capture_typed st ->
  yields (fun r => capture_typed (snd r)) (main_file env name (Some file) tmpbuf st).
Proof.
  intros Hf Ht Hs. unfold main_file, open_pcap. cbn [fmap option_fmap option_map].
  apply (yields_bind (fun r => capture_typed (snd r))).
  { apply read_loop_typed; [| by apply Forall_drop | done | done]. intros hdr buf n st1 Hh Hb. by apply on_packet_yields. }
  intros [r st1] Hs1. cbv zeta. by apply yields_any.
Qed.

Lemma replicate_typed {A} (P : A -> Prop) n x : P x -> 0 <= n -> arr_typed P n (replicate (Z.to_nat n) x).
Proof. intros Hx Hn. split; [by apply Forall_replicate |]. rewrite length_replicate. lia. Qed.

Lemma zero_tval_typed : tval_typed zero_tval.
Proof. split; exact zero_u32. Qed.
Lemma zero_index : addr_index 0.
Proof. split; [done | reflexivity]. Qed.
#[export] Hint Resolve zero_index zero_tval_typed : typed.

Lemma zero_entries_typed :
  addr_typed zero_addr_info /\ stream_typed zero_stream_info /\ flow_typed zero_flow_stats /\ proto_typed zero_proto_info.
Proof.
  assert (length (ai_mac zero_addr_info) = 6%nat /\ Forall is_u8 (ai_mac zero_addr_info)) as Hm.
  { split; [reflexivity |]. apply Forall_replicate, zero_u8. }
  split; [| split; [| split]]; [split; cbn [ai_mac] in *; auto with typed | split; auto with typed | by repeat split ..].
Qed.

Lemma mga_init_typed {E} ma (data : list E) lo hi ma' p :
  mga_init ma zero_mga_info (Some data) lo hi = (ma', p) -> mga_typed p.
Proof. intros [= <- <-]. split; cbn [mi_num_entries mi_idx_lo mi_idx_hi]; auto with typed. Qed.

Lemma zero_block_typed : block_typed zero_sharedif.
Proof.
  destruct zero_entries_typed as (Za & Zs & Zf & Zp).
  assert (mga_typed zero_mga_info) as Zm by (split; exact zero_u32).
  split; try exact zero_tval_typed; try exact Zm; try (apply replicate_typed; [assumption | discriminate]).
Qed.

Lemma create_vals (P : Z -> Prop) ok1 ok2 n :
  yields (fun o => match o with Some t => tbl_vals P t | None => True end) (HashTableCreate (M:=keymem) (V:=Z) ok1 ok2 n).
Proof.
  unfold HashTableCreate. apply yields_assert. destruct (negb ok1); [done |]. destruct (negb ok2); [done |].
  apply (yields_bind _ _ _ _ (vals_null P n)). by intros bs Hbs.
Qed.

Lemma init_typed use_shm env mem :
  yields (fun r => match r with Some s => shm_typed s | None => True end) (shm_data_init use_shm env mem).
Proof.
  unfold shm_data_init. destruct (if use_shm then _ else _); [done |]. cbv zeta. do 4 (apply yields_any; intros ?).
  apply (yields_bind _ _ _ _ (create_vals addr_index _ _ _)). intros [t |] Ht; [| done]. cbn [deref]. rewrite bind_Val.
  apply (yields_bind (tbl_vals addr_index)); [exact Ht |]. clear t Ht. intros t Ht.
  apply (yields_bind (tbl_vals addr_index)); [exact Ht |]. clear t Ht. intros t Ht.
  destruct (mga_init _ _ _ 0 255) as [lan p1] eqn:E1. apply mga_init_typed in E1.
  destruct (mga_init _ _ _ 256 _) as [wan p2] eqn:E2. apply mga_init_typed in E2.
  destruct (mga_init _ _ _ _ (SI_NUM_STREAMS - 1)) as [strm p3] eqn:E3. apply mga_init_typed in E3.
  destruct zero_block_typed. split; [by split | split; exact zero_u32 | exact Ht].
Qed.

Lemma callback_typed env stat h tv64 bytes tlast st :
  Forall is_u8 bytes -> hdr_typed h -> capture_typed st ->
  yields (fun r => capture_typed (snd r)) (callback env stat h tv64 bytes tlast st).
Proof.
  intros Hb Hh Hs. unfold callback.
  assert (forall p : Z * capture_t, capture_typed (snd p) ->
    yields (fun r => capture_typed (snd r))
      (let '(t, st1) := p in '(_, st2) ← on_packet false env h bytes st1; Val (t, st2))) as H.
  { intros [t st1] H1. apply (yields_bind _ _ _ _ (on_packet_yields false env h bytes st1 Hb Hh H1)). by intros [r st2] H2. }
  apply H. destruct (_ =? 0); [exact Hs |]. destruct (_ <=? _); [| exact Hs].
  destruct (get_libpcap_stats stat) as [[r i] k]. by apply (update_capstats_typed r i k).
Qed.

(** ** Runs of the capture process *)

(** The states [main] reaches: the initial state of either mode, and what each
    packet of a file or of the interface leaves. *)
Inductive capture_run : capture_t -> Prop :=
| run_init use_shm ienv mem s :
    shm_data_init use_shm ienv mem = Val (Some s) ->
    capture_run (mk_capture_t s cleanup_init 0 zero_tval statproc_init)
| run_packet rff env hdr buf st r st' :
    capture_run st -> Forall is_u8 buf -> hdr_typed hdr ->
    on_packet rff env hdr buf st = Val (r, st') -> capture_run st'
| run_callback env stat h tv_sec64 bytes tlast st tlast' st' :
    capture_run st -> Forall is_u8 bytes -> hdr_typed h ->
    callback env stat h tv_sec64 bytes tlast st = Val (tlast', st') -> capture_run st'.

Lemma run_typed st : capture_run st -> shm_typed (cp_shm st).
Proof.
  induction 1 as [use_shm ienv mem s Hi | rff env hdr buf st r st' Hrun IH Hb Hh Hp | env stat h tv b tl st tl' st' Hrun IH Hb Hh Hp].
  - pose proof (init_typed use_shm ienv mem) as H. by rewrite Hi in H.
  - pose proof (on_packet_yields rff env hdr buf st Hb Hh IH) as H. by rewrite Hp in H.
  - pose proof (callback_typed env stat h tv b tl st Hb Hh IH) as H. by rewrite Hp in H.
Qed.

(** C7: In every state the capture process reaches, from the packets of a file or
    of the interface, the shared block is well typed: the arrays keep their sizes,
    packet and byte counters and times stay below 2^32, ports and stream counts below
    2^16, flags and protocols below 2^8, MAC addresses have six bytes; the two address
    indices of every stream are entries of the address array, and so is every value of
    the table of addresses, also after entries have been freed and reused. *)
Theorem capture_run_types st (Hrun : capture_run st) : shm_typed (cp_shm st).
Proof. by apply run_typed. Qed.

(** ** Witnesses *)
Module TypeTest.
Import ShmTest LifeTest.

(** The packet of a stream's start at the first second of a minute. *)
Definition hdr0 : pcap_pkthdr32_t := mk_pcap_pkthdr32_t (mk_tval_t 1020 0) 142 142.

Lemma can_start_hdr env hdr hdr' key s ht :
  tv_sec (hdr_ts hdr') <> 0 -> can_start env hdr key s ht -> can_start env hdr' key s ht.
Proof. intros H []. by split. Qed.

Lemma first_packet s c : ready s -> cleanup_inv c -> exists s' c', packet_step env0 hdr0 syn_buf s c = Val (true, s', c').
Proof.
  intros Hr Hc. destruct (syn_can_start s Hr) as [Hcan Hlook]. destruct syn_bytes as [Hb1 Hb2].
  destruct (packet_new_ok env0 hdr0 syn_buf s c (put_tbl (store_stream_key 5 syn_key s)))
    as (vlan & ss & il & ir & old & al & ar & s' & c' & Hp & _);
    [exact Hb1 | exact Hb2 | vm_compute; intuition discriminate | exact syn_accepted | exact (rd_inv _ Hr) |
     exact Hc | vm_compute; discriminate .. | exact Hlook | by eapply can_start_hdr |].
  by exists s', c'.
Qed.

(** The first packet of a live capture. *)
Lemma capture_run_types_witness : exists st, capture_run st /\ shm_typed (cp_shm st) /\ cp_last_sec st = 1020.
Proof.
  destruct (init_ready false) as (s & Hinit & Hr). destruct (first_packet s _ Hr cleanup_init_inv) as (s' & c' & Hp).
  set (st := mk_capture_t s' c' 1020 zero_tval statproc_init).
  assert (capture_run st) as Hrun; [| exists st; split; [exact Hrun |]; split; [exact (capture_run_types st Hrun) | reflexivity]].
  apply (run_packet false env0 hdr0 syn_buf (mk_capture_t s cleanup_init 0 zero_tval statproc_init) 0).
  - exact (run_init false env_ok mem0 s Hinit).
  - apply syn_bytes.
  - vm_compute. intuition discriminate.
  - unfold on_packet. cbn [run_sim]. rewrite bind_Val. cbn [cp_shm cp_cleanup]. rewrite Hp, bind_Val. reflexivity.
Defined.
End TypeTest.
