(* ===== verification/Lines.v ===== *)
(** The length of the lines of a report.  Every line the export writes is assembled
    in a local buffer before it is appended to the text of its section; here are the
    bounds of its parts and of whole lines, for entries whose members are in the
    range of their types. *)
From S2P Require Import Prelude Structs Format IpUtils StreamKey StringBuf ShmData Export Typing.
#[local] Open Scope Z_scope.

(** At most [n] characters, none of them a terminator. *)
Definition short (n : nat) (s : string) : Prop := no_nul s /\ (String.length s <= n)%nat.

Lemma short_le n m s : short n s -> (n <= m)%nat -> short m s.
Proof. intros [H1 H2] H. split; [done | lia]. Qed.

Lemma short_app n m s t : short n s -> short m t -> short (n + m) (s +:+ t).
Proof. intros [H1 H2] [H3 H4]. split; [by apply no_nul_app |]. rewrite string_length_app. lia. Qed.

(** A literal. *)
Lemma short_lit s : forallb (fun c => negb (Ascii.eqb c NUL)) (chars s) = true -> short (String.length s) s.
Proof.
  intros H. split; [| done]. unfold no_nul. apply Forall_forall. intros c Hc.
  rewrite forallb_forall in H. apply H, negb_true_iff, Ascii.eqb_neq in Hc. done.
Qed.

(** ** Numbers *)

Lemma digit_no_nul d : 0 <= d < 10 -> digit_char d <> NUL.
Proof.
  intros Hd. pose proof (forallb_below (fun d => negb (Ascii.eqb (digit_char d) NUL)) 10 eq_refl d Hd) as H.
  by apply negb_true_iff, Ascii.eqb_neq in H.
Qed.

Lemma no_nul_cons c s : c <> NUL -> no_nul s -> no_nul (String c s).
Proof. intros Hc Hs. by constructor. Qed.

Lemma dec_digits_short fuel x acc k n :
  0 <= x < 10 ^ (Z.of_nat k + 1) -> short n acc -> short (S k + n) (dec_digits fuel x acc).
Proof.
  revert x acc k n. induction fuel as [| fuel IH]; intros x acc k n Hx [Hn Hl];
    pose proof (digit_no_nul (x mod 10) ltac:(apply Z.mod_pos_bound; lia)) as Hc; cbn [dec_digits].
  - split; [by apply no_nul_cons |]. cbn [String.length]. lia.
  - destruct (Z.ltb_spec x 10) as [Hs | Hs]; [split; [by apply no_nul_cons |]; cbn [String.length]; lia |].
    destruct k as [| k]; [cbn in Hx; lia |].
    apply (short_le (S k + S n)); [| lia]. apply IH; [| split; [by apply no_nul_cons | cbn [String.length]; lia]].
    rewrite Nat2Z.inj_succ in Hx. replace (Z.succ (Z.of_nat k) + 1) with (Z.succ (Z.of_nat k + 1)) in Hx by lia.
    rewrite Z.pow_succ_r in Hx by lia. split; [apply Z.div_pos; lia | apply Z.div_lt_upper_bound; lia].
Qed.

Lemma fmt_u_short x k : 0 <= x < 10 ^ (Z.of_nat k + 1) -> short (S k) (fmt_u x).
Proof.
  intros Hx. rewrite <- (Nat.add_0_r (S k)). by apply dec_digits_short, short_lit.
Qed.

Lemma short_u32 x : is_u32 x -> short 10 (fmt_u x).
Proof. intros Hx. apply (fmt_u_short x 9). unfold is_u32 in Hx. cbn. lia. Qed.

Lemma short_d x : short 11 (fmt_d x).
Proof.
  unfold fmt_d. assert (-2147483648 <= i32 x < 2147483648) as Hi by clia. destruct (i32 x <? 0) eqn:E.
  - change 11%nat with (String.length "-" + 10)%nat. apply Z.ltb_lt in E.
    apply short_app; [by apply short_lit | apply (fmt_u_short _ 9); cbn; lia].
  - apply Z.ltb_ge in E. apply (short_le 10); [apply (fmt_u_short _ 9); cbn; lia | lia].
Qed.

Lemma short_02x x : is_u8 x -> short 2 (fmt_02x x).
Proof.
  intros Hx. pose proof (forallb_below (fun x => forallb (fun c => negb (Ascii.eqb c NUL)) (chars (fmt_02x x))
    && Nat.eqb (String.length (fmt_02x x)) 2) 256 eq_refl x Hx) as H.
  apply andb_true_iff in H as [H1 H2%Nat.eqb_eq]. rewrite <- H2. by apply short_lit.
Qed.

Lemma short_octet b : octet b -> short 3 (fmt_u b).
Proof. intros Hb. apply (fmt_u_short b 2). unfold octet in Hb. cbn. lia. Qed.

(** ** Lines *)

Create HintDb text discriminated.
#[export] Hint Resolve short_u32 short_d short_02x short_octet : text.

(** Splits a concatenation into its parts. *)
Ltac text :=
  eapply short_le;
  [repeat match goal with
     | |- short _ (_ +:+ _) => eapply short_app
     | |- short _ (String _ _) => apply short_lit; reflexivity
     | |- short _ "" => apply short_lit; reflexivity
     | |- short _ newline => apply short_lit; reflexivity
     | |- _ => eassumption
     | |- _ => solve [eauto with text]
     end
  | cbn; lia].

Lemma ip2string_short ip : is_u32 ip -> returns (short 15) (ip2string ip).
Proof.
  intros Hip. destruct (ip_of_octets ip Hip) as (a & b & c & d & Ha & Hb & Hc & Hd & ->).
  rewrite ip2string_spec by done. cbn [returns]. text.
Qed.

Lemma addr_text a : addr_typed a -> returns (short 15) (addr_info_to_s a).
Proof.
  intros Ha. unfold addr_info_to_s. destruct (negb _); [cbn [returns]; text | by apply ip2string_short, Ha].
Qed.

Lemma mac_text a : addr_typed a -> returns (short 17) (addr_mac_to_s a).
Proof.
  intros [_ _ _ _ _ _ _ _ _ _ _ _ _ _ [Hl Hm]]. unfold addr_mac_to_s.
  do 6 (apply (returns_bind is_u8); [apply returns_aget; [exact Hm | lia] |]; intros ? ?). cbn [returns]. text.
Qed.

Lemma proto_name_short p : short 3 (get_proto_name p).
Proof. unfold get_proto_name. repeat destruct (_ =? _); text. Qed.
#[export] Hint Resolve proto_name_short : text.

(** 9 + 10 + ... characters: the line of an address. *)
Lemma addr_line_short a : addr_typed a -> returns (short 64) (addr_line a).
Proof.
  intros Ha. unfold addr_line. apply (returns_bind _ _ _ _ (addr_text a Ha)). intros p Hp.
  apply (returns_bind (short 17)).
  { destruct (negb _); [by apply mac_text | cbn [returns]; text]. }
  intros m Hm. destruct Ha. cbn [returns]. text.
Qed.

(** The text of a stream fits its 80 byte buffer with its terminator. *)
Lemma stream_text sh e l r :
  addr_typed l -> addr_typed r -> returns (short 60) (stream_info_to_s sh e (Some l) (Some r)).
Proof.
  intros Hl Hr. unfold stream_info_to_s. rewrite !bind_Val.
  apply (returns_bind _ _ _ _ (addr_text l Hl)). intros a Ha.
  apply (returns_bind _ _ _ _ (addr_text r Hr)). intros b Hb. cbn [returns]. text.
Qed.

Lemma sort_name_short s : s <> SortByMax -> returns (short 3) (sort_name s).
Proof. intros Hs. destruct s; try done; cbn; by text. Qed.
