(* ===== verification/ReportRun.v ===== *)
(** Reports complete: with a well-typed block that has a live stream, and allocations
    that succeed, nothing a minute's report does can fail: no entry outside an array,
    no seen list or line buffer overrun, no text that was never written. *)
From S2P Require Import Prelude Structs Counters Format StringBuf Sort ShmData Export StatProc Reports Rankings Typing Lines.
From stdpp Require Import list.
#[local] Open Scope Z_scope.

(** ** The state of the export during a period

    [k] is a budget: the number of entries noted and of lines written so far. *)

Record seen_ok (bound k n : Z) (l : list Z) : Prop := {
  so_len : Z.of_nat (length l) = MAX_SEEN;
  so_num : 0 <= n <= k;
  so_idx : forall i, 0 <= i < n -> returns (fun p => 0 <= p < bound) (aget l i)
}.

Definition LINE : nat := 200.

(** The text of a section; [term]: something was written. *)
Definition text_ok (k : Z) (term : bool) (ob : option sbuf_t) : Prop :=
  exists b t tm, ob = Some b /\ sbuf_holds b t tm /\ (term = true -> tm = true) /\
    Z.of_nat (String.length t) <= 200 * k /\ 8192 <= sb_capacity b /\
    (sb_capacity b <= 8192 \/ sb_capacity b <= 2 * Z.of_nat (String.length t)).

Record ex_core (k : Z) (fa fs ft : bool) (o : string) (x : export_t) : Prop := {
  ec_streams : seen_ok SI_NUM_STREAMS k (ex_num_streams x) (ex_streams x);
  ec_addrs : seen_ok SI_NUM_ADDRS k (ex_num_addrs x) (ex_addrs x);
  ec_taddrs : text_ok k fa (sbuf_addrs x);
  ec_tstreams : text_ok k fs (sbuf_streams x);
  ec_tstats : text_ok k ft (sbuf_stats x);
  ec_init : ex_initialized x = 0;
  ec_out : out x = o
}.

(** A section has text once one of its entries was noted; [f]: every section has. *)
Definition ex_inv (f : bool) (o : string) (k : Z) (x : export_t) : Prop :=
  exists fa fs ft, ex_core k fa fs ft o x /\
    (0 < ex_num_addrs x -> fa = true) /\ (0 < ex_num_streams x -> fa = true /\ fs = true) /\
    (f = true -> fa = true /\ fs = true /\ ft = true).

Lemma seen_ok_mono bound k k' n l : seen_ok bound k n l -> k <= k' -> seen_ok bound k' n l.
Proof. intros [? ? ?] H. split; try done. lia. Qed.

Lemma text_ok_mono k k' t t' ob : text_ok k t ob -> k <= k' -> (t' = true -> t = true) -> text_ok k' t' ob.
Proof. intros (b & s & tm & H1 & H2 & H3 & H4 & H5) H Ht. exists b, s, tm. repeat (split; [done || auto || lia |]). lia. Qed.

Lemma ex_core_mono k k' fa fs ft o x : ex_core k fa fs ft o x -> k <= k' -> ex_core k' fa fs ft o x.
Proof.
  intros [] H. split; try done; first [by eapply seen_ok_mono | by eapply text_ok_mono].
Qed.

Lemma ex_inv_mono f o k k' x : ex_inv f o k x -> k <= k' -> ex_inv f o k' x.
Proof. intros (fa & fs & ft & H1 & H2) H. exists fa, fs, ft. split; [by eapply ex_core_mono | done]. Qed.

(** A line appended to the text of a section. *)
Lemma append_text k term b line :
  text_ok k term (Some b) -> short LINE line -> k <= 1000 ->
  returns (fun r => text_ok (k + 1) true (Some (snd r))) (sbuf_append true b line).
Proof.
  intros (b0 & t & tm & [= <-] & Hh & _ & Ht & Hc & Hc') [Hn Hl] Hk. unfold LINE in Hl.
  pose proof (sh_len _ _ _ Hh). pose proof (sh_fits _ _ _ Hh).
  destruct (append_ok true b t tm line Hh Hn) as (b' & -> & Hh' & Hcap); [lia | lia | done |].
  cbn [returns snd]. exists b', (t +:+ line), true. rewrite string_length_app.
  repeat (split; [done || lia |]). lia.
Qed.

Section Append.
Context (o : string) (k : Z) (fa fs ft : bool) (line : string).
Hypothesis (Hk : k <= 1000) (Hl : short LINE line).

Lemma append_addrs_ok x : ex_core k fa fs ft o x ->
  returns (fun x' => ex_core (k + 1) true fs ft o x' /\ ex_num_streams x' = ex_num_streams x) (append_addrs true line x).
Proof using Hk Hl.
  intros Hx. apply (ex_core_mono _ (k + 1)) in Hx as Hx'; [| lia]. destruct Hx' as [C1 C2 _ C4 C5 C6 C7].
  destruct Hx as [_ _ Ht _ _ _ _]. unfold append_addrs. destruct (sbuf_addrs x) as [b |]; [| by destruct Ht as (? & ? & ? & ? & _)].
  cbn [deref]. rewrite bind_Val. apply (returns_bind _ _ _ _ (append_text k fa b line Ht Hl Hk)). by intros [st b'] Hb.
Qed.

Lemma append_streams_ok x : ex_core k fa fs ft o x ->
  returns (fun x' => ex_core (k + 1) fa true ft o x') (append_streams true line x).
Proof using Hk Hl.
  intros Hx. apply (ex_core_mono _ (k + 1)) in Hx as Hx'; [| lia]. destruct Hx' as [C1 C2 C3 _ C5 C6 C7].
  destruct Hx as [_ _ _ Ht _ _ _]. unfold append_streams. destruct (sbuf_streams x) as [b |]; [| by destruct Ht as (? & ? & ? & ? & _)].
  cbn [deref]. rewrite bind_Val. apply (returns_bind _ _ _ _ (append_text k fs b line Ht Hl Hk)). by intros [st b'] Hb.
Qed.

Lemma append_stats_ok x : ex_core k fa fs ft o x ->
  returns (fun x' => ex_core (k + 1) fa fs true o x' /\ ex_num_addrs x' = ex_num_addrs x /\
    ex_num_streams x' = ex_num_streams x) (append_stats true line x).
Proof using Hk Hl.
  intros Hx. apply (ex_core_mono _ (k + 1)) in Hx as Hx'; [| lia]. destruct Hx' as [C1 C2 C3 C4 _ C6 C7].
  destruct Hx as [_ _ _ _ Ht _ _]. unfold append_stats. destruct (sbuf_stats x) as [b |]; [| by destruct Ht as (? & ? & ? & ? & _)].
  cbn [deref]. rewrite bind_Val. apply (returns_bind _ _ _ _ (append_text k ft b line Ht Hl Hk)). by intros [st b'] Hb.
Qed.
End Append.

(** A line of the statistics section keeps what holds of the sections. *)
Lemma stats_line f o k line x :
  k <= 1000 -> short LINE line -> ex_inv f o k x -> returns (ex_inv f o (k + 1)) (append_stats true line x).
Proof.
  intros Hk Hl (fa & fs & ft & Hc & Ha & Hs & Hf).
  apply (returns_weaken _ _ _ (append_stats_ok o k fa fs ft line Hk Hl x Hc)). intros x' (Hc' & E1 & E2).
  exists fa, fs, true. rewrite E1, E2. repeat (split; [done |]). intros H. by destruct (Hf H) as (? & ? & ?).
Qed.

(** ** The block a report describes *)

Lemma streams_len sh : block_typed sh -> Z.of_nat (length (sh_streams sh)) = SI_NUM_STREAMS.
Proof. intros H. apply (bt_streams _ H). Qed.
Lemma addrs_len sh : block_typed sh -> Z.of_nat (length (sh_addrs sh)) = SI_NUM_ADDRS.
Proof. intros H. apply (bt_addrs _ H). Qed.
Lemma protos_len sh : block_typed sh -> Z.of_nat (length (sh_protos sh)) = SI_NUM_PROTOS.
Proof. intros H. apply (bt_protos _ H). Qed.

Section Block.
Context (sh : sharedif_t) (Hsh : block_typed sh).

Lemma addr_entry a : 0 <= a < SI_NUM_ADDRS -> returns addr_typed (aget (sh_addrs sh) a).
Proof using Hsh. intros Ha. apply returns_aget; [apply (bt_addrs _ Hsh) | by rewrite (addrs_len _ Hsh)]. Qed.

Lemma stream_entry a : 0 <= a < SI_NUM_STREAMS -> returns stream_typed (aget (sh_streams sh) a).
Proof using Hsh. intros Ha. apply returns_aget; [apply (bt_streams _ Hsh) | by rewrite (streams_len _ Hsh)]. Qed.

(** Looking an entry up in a list of those seen, and noting it. *)
Lemma scan_ok bound k n l ids id :
  seen_ok bound k n l -> (forall p, 0 <= p < bound -> returns (fun _ => True) (ids p)) ->
  returns (fun b => b = true -> 0 < n) (seen_scan ids l n id).
Proof.
  intros [_ Hn Hidx] Hids. unfold seen_scan.
  assert (forall m, (m <= Z.to_nat n)%nat -> returns (fun c => match c with Brk b => b = true -> 0 < n | Next _ => True end)
    (for_ctl (fun i (_ : unit) => p ← aget l i; k ← ids p; Val (if k =? id then Brk true else Next tt))
       (seqZ (n - Z.of_nat m) (Z.of_nat m)) tt)) as Hloop.
  { induction m as [| m IH]; intros Hm; [done |].
    rewrite Nat2Z.inj_succ, seqZ_cons by lia. cbn [for_ctl]. rewrite !bind_assoc.
    apply (returns_bind _ _ _ _ (Hidx (n - Z.succ (Z.of_nat m)) ltac:(lia))). intros p Hp. rewrite bind_assoc.
    apply (returns_bind _ _ _ _ (Hids p Hp)). intros k' _. rewrite bind_Val. destruct (k' =? id); [cbn; lia |].
    replace (Z.succ (n - Z.succ (Z.of_nat m))) with (n - Z.of_nat m) by lia. rewrite Z.pred_succ. apply IH. lia. }
  specialize (Hloop (Z.to_nat n) ltac:(lia)). rewrite Z2Nat.id, Z.sub_diag in Hloop by lia.
  apply (returns_bind _ _ _ _ Hloop). by intros [b | []].
Qed.

Lemma note_ok bound k n l p :
  seen_ok bound k n l -> k < MAX_SEEN -> 0 <= p < bound ->
  returns (fun l' => seen_ok bound (k + 1) (n + 1) l') (aset l n p).
Proof.
  intros [Hl Hn Hi] Hk Hp. rewrite aset_lt by lia. cbn [returns]. split; [by rewrite length_insert | lia |].
  intros i Hi'. destruct (decide (i = n)) as [-> | Hne]; [by rewrite aget_insert_eq by lia |].
  rewrite aget_insert_ne by lia. apply Hi. lia.
Qed.

Lemma seen_addr_ok k fa fs ft o a x :
  ex_core k fa fs ft o x -> k < MAX_SEEN -> 0 <= a < SI_NUM_ADDRS ->
  returns (fun r => ex_core (k + 1) fa fs ft o (snd r) /\ ex_num_streams (snd r) = ex_num_streams x /\
    (fst r = true -> 0 < ex_num_addrs x /\ snd r = x)) (seen_addr sh a x).
Proof using Hsh.
  intros Hx Hk Ha. unfold seen_addr.
  assert (forall p, 0 <= p < SI_NUM_ADDRS -> returns (fun _ => True) (addr_iid sh p)) as Hid.
  { intros p Hp. by apply (returns_bind _ _ _ _ (addr_entry p Hp)). }
  apply (returns_bind _ _ _ _ (Hid a Ha)). intros id _.
  apply (returns_bind _ _ _ _ (scan_ok _ _ _ _ _ id (ec_addrs _ _ _ _ _ _ Hx) Hid)). intros [] Hb.
  - cbn [returns fst snd]. split; [eapply ex_core_mono; [exact Hx | lia] |]. auto.
  - apply (returns_bind _ _ _ _ (note_ok _ _ _ _ a (ec_addrs _ _ _ _ _ _ Hx) Hk Ha)). intros l Hl.
    cbn [returns fst snd]. apply (ex_core_mono _ (k + 1)) in Hx; [| lia]. destruct Hx. by split.
Qed.

Lemma seen_stream_ok k fa fs ft o a x :
  ex_core k fa fs ft o x -> k < MAX_SEEN -> 0 <= a < SI_NUM_STREAMS ->
  returns (fun r => ex_core (k + 1) fa fs ft o (snd r) /\ ex_num_addrs (snd r) = ex_num_addrs x /\
    (fst r = true -> 0 < ex_num_streams x /\ snd r = x)) (seen_stream sh a x).
Proof using Hsh.
  intros Hx Hk Ha. unfold seen_stream.
  assert (forall p, 0 <= p < SI_NUM_STREAMS -> returns (fun _ => True) (stream_iid sh p)) as Hid.
  { intros p Hp. by apply (returns_bind _ _ _ _ (stream_entry p Hp)). }
  apply (returns_bind _ _ _ _ (Hid a Ha)). intros id _.
  apply (returns_bind _ _ _ _ (scan_ok _ _ _ _ _ id (ec_streams _ _ _ _ _ _ Hx) Hid)). intros [] Hb.
  - cbn [returns fst snd]. split; [eapply ex_core_mono; [exact Hx | lia] |]. auto.
  - apply (returns_bind _ _ _ _ (note_ok _ _ _ _ a (ec_streams _ _ _ _ _ _ Hx) Hk Ha)). intros l Hl.
    cbn [returns fst snd]. apply (ex_core_mono _ (k + 1)) in Hx; [| lia]. destruct Hx. by split.
Qed.

(** An address is noted at most once; afterwards the section of addresses has text. *)
Lemma note_addr_ok k fa fs ft o a x :
  ex_core k fa fs ft o x -> (0 < ex_num_addrs x -> fa = true) -> k < 1000 -> 0 <= a < SI_NUM_ADDRS ->
  returns (fun x' => ex_core (k + 2) true fs ft o x' /\ ex_num_streams x' = ex_num_streams x) (note_addr true sh a x).
Proof using Hsh.
  intros Hx Hfa Hk Ha. unfold note_addr. unfold MAX_SEEN in *.
  apply (returns_bind _ _ _ _ (seen_addr_ok k fa fs ft o a x Hx ltac:(unfold MAX_SEEN; lia) Ha)).
  intros [b x1] (Hx1 & E1 & Hb). cbn [fst snd] in *. destruct b.
  - destruct (Hb eq_refl) as [Hpos ->]. rewrite (Hfa Hpos) in Hx1. cbn [returns].
    split; [eapply ex_core_mono; [exact Hx1 | lia] | done].
  - unfold on_new_addr. apply (returns_bind _ _ _ _ (addr_entry a Ha)). intros e He.
    apply (returns_bind _ _ _ _ (addr_line_short e He)). intros line Hl. rewrite <- E1.
    replace (k + 2) with (k + 1 + 1) by lia. eapply append_addrs_ok; [lia | by eapply short_le; [exact Hl | unfold LINE; lia] | exact Hx1].
Qed.

Lemma on_new_stream_ok k fa fs ft o st l r x :
  ex_core k fa fs ft o x -> (0 < ex_num_addrs x -> fa = true) -> k < 990 ->
  0 <= st < SI_NUM_STREAMS -> 0 <= l < SI_NUM_ADDRS -> 0 <= r < SI_NUM_ADDRS ->
  returns (ex_core (k + 5) true true ft o) (on_new_stream true sh st l r x).
Proof using Hsh.
  intros Hx Hfa Hk Hst Hl Hr. unfold on_new_stream.
  apply (returns_bind _ _ _ _ (note_addr_ok k fa fs ft o l x Hx Hfa ltac:(lia) Hl)). intros x1 [Hx1 _].
  apply (returns_bind _ _ _ _ (note_addr_ok (k + 2) true fs ft o r x1 Hx1 ltac:(done) ltac:(lia) Hr)). intros x2 [Hx2 _].
  apply (returns_bind _ _ _ _ (stream_entry st Hst)). intros e He.
  apply (returns_bind _ _ _ _ (addr_entry l Hl)). intros al Hal. apply (returns_bind _ _ _ _ (addr_entry r Hr)). intros ar Har.
  apply (returns_bind _ _ _ _ (stream_text sh e al ar Hal Har)). intros p Hp.
  replace (k + 5) with (k + 2 + 2 + 1) by lia. destruct He, Hal, Har.
  eapply append_streams_ok; [lia | unfold LINE; text | exact Hx2].
Qed.

(** A stream of a report's list: afterwards every section has text. *)
Lemma on_topn_stream_ok f k o ts sortby ff i st l r x :
  ex_inv f o k x -> sortby <> SortByMax -> k < 980 ->
  0 <= st < SI_NUM_STREAMS -> 0 <= l < SI_NUM_ADDRS -> 0 <= r < SI_NUM_ADDRS ->
  returns (ex_inv true o (k + 8)) (on_topn_stream true sh ts sortby ff i st l r x).
Proof using Hsh.
  intros Hx Hs Hk Hst Hl Hr. unfold on_topn_stream.
  apply (returns_bind (ex_inv f o (k + 1))).
  { destruct (i =? 0); [apply stats_line; [lia | unfold LINE; text | done] | eapply ex_inv_mono; [exact Hx | lia]]. }
  clear x Hx. intros x (fa & fs & ft & Hx & Ha & Hn & _).
  apply (returns_bind _ _ _ _ (seen_stream_ok (k + 1) fa fs ft o st x Hx ltac:(unfold MAX_SEEN; lia) Hst)).
  intros [b x1] (Hx1 & E1 & Hb). cbn [fst snd] in *.
  apply (returns_bind (ex_core (k + 7) true true ft o)).
  { destruct b.
    - destruct (Hb eq_refl) as [Hpos ->]. destruct (Hn Hpos) as [-> ->]. cbn [returns]. eapply ex_core_mono; [exact Hx1 | lia].
    - replace (k + 7) with (k + 1 + 1 + 5) by lia. eapply on_new_stream_ok; [exact Hx1 | by rewrite E1 | lia | done ..]. }
  intros x2 Hx2. apply (returns_bind _ _ _ _ (stream_entry st Hst)). intros e He.
  apply (returns_bind _ _ _ _ (sort_name_short sortby Hs)). intros name Hname.
  apply (returns_weaken (fun x' => ex_core (k + 7 + 1) true true true o x' /\ ex_num_addrs x' = ex_num_addrs x2 /\
    ex_num_streams x' = ex_num_streams x2)).
  { destruct He. eapply append_stats_ok; [lia | unfold LINE; text | exact Hx2]. }
  intros x' [Hx' _]. replace (k + 7 + 1) with (k + 8) in Hx' by lia. by exists true, true, true.
Qed.

Lemma on_topn_protocol_ok f k o ts sortby ff i port ipproto p x :
  ex_inv f o k x -> sortby <> SortByMax -> k < 980 -> is_u32 port -> is_u32 ipproto -> proto_typed p ->
  returns (ex_inv f o (k + 2)) (on_topn_protocol true ts sortby ff i port ipproto p x).
Proof using.
  intros Hx Hs Hk Hp Hi (Ht1 & Ht2 & _). unfold on_topn_protocol.
  apply (returns_bind (ex_inv f o (k + 1))).
  { destruct (i =? 0); [apply stats_line; [lia | unfold LINE; text | done] | eapply ex_inv_mono; [exact Hx | lia]]. }
  clear x Hx. intros x Hx. apply (returns_bind _ _ _ _ (sort_name_short sortby Hs)). intros name Hname.
  replace (k + 2) with (k + 1 + 1) by lia. apply stats_line; [lia | unfold LINE; text | done].
Qed.

Lemma on_topn_address_ok f k o ts sortby ff i a x :
  ex_inv f o k x -> sortby <> SortByMax -> k < 980 -> 0 <= a < SI_NUM_ADDRS ->
  returns (ex_inv f o (k + 4)) (on_topn_address true sh ts sortby ff i a x).
Proof using Hsh.
  intros Hx Hs Hk Ha. unfold on_topn_address.
  apply (returns_bind (ex_inv f o (k + 1))).
  { destruct (i =? 0); [apply stats_line; [lia | unfold LINE; text | done] | eapply ex_inv_mono; [exact Hx | lia]]. }
  clear x Hx. intros x (fa & fs & ft & Hx & Hfa & Hn & Hf).
  apply (returns_bind (ex_inv f o (k + 3))).
  { apply (returns_weaken _ _ _ (note_addr_ok (k + 1) fa fs ft o a x Hx Hfa ltac:(lia) Ha)). intros x1 [Hx1 E].
    exists true, fs, ft. rewrite E. replace (k + 1 + 2) with (k + 3) in Hx1 by lia. split; [exact Hx1 |].
    split; [done |]. split; [naive_solver |]. intros H. destruct (Hf H) as (? & ? & ?). done. }
  intros x1 Hx1. apply (returns_bind _ _ _ _ (addr_entry a Ha)). intros e He.
  apply (returns_bind _ _ _ _ (sort_name_short sortby Hs)). intros name Hname.
  replace (k + 4) with (k + 3 + 1) by lia. destruct He. apply stats_line; [lia | unfold LINE; text | done].
Qed.
End Block.

(** ** Lists of a report *)

Lemma top_entry (l : list Z) ptrs i :
  take (length l) ptrs ≡ₚ (Some <$> l) -> 0 <= i < Z.of_nat (length l) -> exists q, aget ptrs i = Val (Some q) /\ q ∈ l.
Proof.
  intros Hp Hi. assert (length l <= length ptrs)%nat as Hle.
  { apply Permutation_length in Hp. rewrite length_take, length_fmap in Hp. lia. }
  destruct (lookup_lt_is_Some_2 ptrs (Z.to_nat i)) as [p E]; [lia |].
  assert (p ∈ (Some <$> l)) as (q & -> & Hq)%list_elem_of_fmap.
  { rewrite <- Hp. apply list_elem_of_lookup. exists (Z.to_nat i). rewrite lookup_take_lt by lia. exact E. }
  exists q. split; [| done]. apply aget_Val. split; [lia | done].
Qed.

(** Reporting the first entries of a sorted list: the flag becomes [f'] with the
    first of them. *)
Lemma report_top_ok (f f' : bool) o k c n (l : list Z) ptrs report x :
  take (length l) ptrs ≡ₚ (Some <$> l) -> 0 <= n -> 0 <= c -> (f = true -> f' = true) ->
  (forall i q f0 j x, q ∈ l -> ex_inv f0 o j x -> (f0 = f \/ f0 = f') -> j <= k + c * n ->
    returns (ex_inv f' o (j + c)) (report i q x)) ->
  ex_inv f o k x ->
  returns (ex_inv (if bool_decide (l <> [] /\ n <> 0) then f' else f) o (k + c * n))
    (report_top n (Z.of_nat (length l)) ptrs report x).
Proof.
  intros Hp Hn Hc Hff Hrep Hx. unfold report_top. set (m := Z.min n (Z.of_nat (length l))).
  set (P := fun (dn : list Z) x => ex_inv (if bool_decide (dn <> []) then f' else f) o (k + c * Z.of_nat (length dn)) x).
  destruct (for_each_inv P (fun i x => p ← aget ptrs i; match p with None => Val x | Some q => report i q x end)
    (seqZ 0 m) x) as (x' & -> & Hx').
  - unfold P. cbn. by rewrite Z.mul_0_r, Z.add_0_r.
  - intros dn i rest y Hsp Hy. assert (i ∈ seqZ 0 m) as Hi%elem_of_seqZ by (rewrite Hsp; set_solver).
    apply (f_equal length) in Hsp. rewrite length_seqZ, length_app in Hsp. cbn [length] in Hsp.
    destruct (top_entry l ptrs i Hp ltac:(lia)) as (q & -> & Hq). rewrite bind_Val. apply returns_Val. unfold P in *.
    rewrite (bool_decide_true (dn ++ [i] <> [])) by (by destruct dn). rewrite length_app. cbn [length].
    replace (k + c * Z.of_nat (length dn + 1)) with (k + c * Z.of_nat (length dn) + c) by lia.
    eapply Hrep; [exact Hq | exact Hy | destruct (bool_decide _); auto | nia].
  - cbn [returns]. unfold P in Hx'. rewrite length_seqZ in Hx'.
    eapply ex_inv_mono; [| instantiate (1 := k + c * Z.of_nat (Z.to_nat m)); nia].
    destruct (decide (l <> [] /\ n <> 0)) as [[Hl Hn0] | Hno].
    + rewrite bool_decide_true in Hx' |- *; try done.
      intros E. apply (f_equal length) in E. rewrite length_seqZ in E. destruct l; [done |]. cbn in *. lia.
    + rewrite (bool_decide_false (l <> [] /\ n <> 0)) by done. assert (m = 0) as E.
      { destruct (decide (n = 0)); [lia |]. destruct l; [cbn in *; lia |]. by destruct Hno. }
      rewrite E in Hx' |- *. exact Hx'.
Qed.

(** ** What the loops keep of the blocks *)

Definition same_indexes (sh sh' : sharedif_t) : Prop :=
  sh_stream_indexes sh' = sh_stream_indexes sh /\ sh_addr_lan_indexes sh' = sh_addr_lan_indexes sh /\
  sh_addr_wan_indexes sh' = sh_addr_wan_indexes sh.

Definition good (sh0 sh : sharedif_t) : Prop := block_typed sh /\ same_indexes sh0 sh.

Lemma good_refl sh : block_typed sh -> good sh sh.
Proof. intros H. split; [exact H |]. split; [reflexivity |]. split; reflexivity. Qed.

Section Good.
Context (sh0 sh : sharedif_t) (Hg : good sh0 sh).

Lemma good_streams l : arr_typed stream_typed SI_NUM_STREAMS l -> good sh0 (set_sh_streams l sh).
Proof using Hg. destruct Hg as (Ht & S). intros H. split; [retype | exact S]. Qed.

Lemma good_addrs l : arr_typed addr_typed SI_NUM_ADDRS l -> good sh0 (set_sh_addrs l sh).
Proof using Hg. destruct Hg as (Ht & S). intros H. split; [retype | exact S]. Qed.

Lemma good_protos l : arr_typed proto_typed SI_NUM_PROTOS l -> good sh0 (set_sh_protos l sh).
Proof using Hg. destruct Hg as (Ht & S). intros H. split; [retype | exact S]. Qed.

Lemma good_entries : arr_typed stream_typed SI_NUM_STREAMS (sh_streams sh) /\
  arr_typed addr_typed SI_NUM_ADDRS (sh_addrs sh) /\ arr_typed proto_typed SI_NUM_PROTOS (sh_protos sh).
Proof using Hg. destruct Hg as ([] & _). auto. Qed.
End Good.

Lemma u32diff_u32 x y : is_u32 x -> is_u32 y -> is_u32 (u32diff x y).
Proof. unfold u32diff, is_u32. intros Hx Hy. destruct (Z.leb_spec x y); [lia | apply u32_range]. Qed.

Lemma count_bits16_u16 v : is_u16 (count_bits16 v).
Proof.
  unfold count_bits16. generalize (seqZ 0 16). intros l. assert (is_u16 (fst (0, v))) as H by done.
  revert H. generalize (0, v). induction l as [| i l IH]; intros [n w] H; [exact H |]. cbn [fold_left]. apply IH, u16_range.
Qed.

Lemma port_bit_u16 p : is_u16 (port_bit p).
Proof. destruct (port_bit_spec p) as [(k & Hk & -> & _) | [-> _]]; [| done].
  pose proof (forallb_below (fun k => (0 <=? Z.shiftl 1 k) && (Z.shiftl 1 k <? 65536)) 16 eq_refl k Hk) as H.
  apply andb_true_iff in H as [H1%Z.leb_le H2%Z.ltb_lt]. by split.
Qed.

Lemma set_port_bit_u16 m p : is_u16 m -> is_u16 (_set_port_bit m p).
Proof. intros Hm. apply (lor_bound 16); [lia | exact Hm | apply port_bit_u16]. Qed.
#[export] Hint Resolve u32diff_u32 count_bits16_u16 set_port_bit_u16 : typed.

Lemma mark_typed p a : addr_typed a -> addr_typed (mark_dest_port p a) /\ addr_typed (mark_serve_port p a).
Proof. intros Ha. split; retype. Qed.

Lemma upd_at_yields {A} (P : A -> Prop) n (l : list A) i f :
  arr_typed P n l -> (forall x, P x -> P (f x)) -> yields (arr_typed P n) (upd_at l i f).
Proof.
  intros Hl Hf. unfold upd_at. apply (yields_bind P); [by eapply arr_aget |]. intros x Hx. by apply arr_aset; auto.
Qed.

Lemma diff_stream_typed last cur : stream_typed last -> stream_typed cur ->
  stream_typed (fst (diff_stream last cur)) /\ stream_typed (snd (diff_stream last cur)).
Proof.
  intros Hl Hc. unfold diff_stream. destruct (_ =? 0); [| done]. cbn [fst snd].
  pose proof (st_packets _ Hl). pose proof (st_packets _ Hc). pose proof (st_bytes _ Hl). pose proof (st_bytes _ Hc).
  split; [clear Hc | clear Hl]; retype.
Qed.

Lemma diff_addr_typed last cur : addr_typed last -> addr_typed cur ->
  addr_typed (fst (diff_addr last cur)) /\ addr_typed (snd (diff_addr last cur)).
Proof.
  intros Hl Hc. unfold diff_addr. destruct (_ =? 0); [| done]. cbn [fst snd].
  pose proof (at_txpackets _ Hl). pose proof (at_txpackets _ Hc). pose proof (at_txbytes _ Hl). pose proof (at_txbytes _ Hc).
  pose proof (at_rxpackets _ Hl). pose proof (at_rxpackets _ Hc). pose proof (at_rxbytes _ Hl). pose proof (at_rxbytes _ Hc).
  split; [clear Hc | clear Hl]; retype.
Qed.

(** ** The loops *)

Definition gather_good (c0 l0 : sharedif_t) (g : gather) : Prop := good c0 (ga_copy g) /\ good l0 (ga_last g).

Lemma process_stream_good c0 l0 i g : gather_good c0 l0 g -> yields (gather_good c0 l0) (process_stream i g).
Proof.
  intros [Hc Hl]. destruct (good_entries _ _ Hc) as (C1 & C2 & _), (good_entries _ _ Hl) as (L1 & _ & _).
  unfold process_stream. apply (yields_bind _ _ _ _ (arr_aget _ _ _ _ C1)). intros cur Hcur.
  destruct (IS_EMPTY_SLOT _); [by split |].
  apply (yields_bind _ _ _ _ (arr_aget _ _ _ _ L1)). intros old Hold.
  destruct (diff_stream_typed old cur Hold Hcur) as [H1 H2]. destruct (diff_stream old cur) as [last' cur'].
  apply (yields_bind _ _ _ _ (arr_aset _ _ _ _ _ L1 H1)). intros lasts Q1.
  apply (yields_bind _ _ _ _ (arr_aset _ _ _ _ _ C1 H2)). intros streams Q2. apply yields_any. intros al.
  apply (yields_bind (arr_typed addr_typed SI_NUM_ADDRS)).
  { destruct (negb _); [| done]. apply upd_at_yields; [done |]. intros a Ha. by apply mark_typed. }
  intros addrs Q3. apply yields_any. intros ar. apply (yields_bind (arr_typed addr_typed SI_NUM_ADDRS)).
  { destruct (negb _); [| done]. apply upd_at_yields; [done |]. intros a Ha. by apply mark_typed. }
  intros addrs' Q4. apply yields_any. intros ptrs. split; [by apply good_addrs, Q4; apply good_streams | by apply good_streams].
Qed.

Lemma process_protocol_good c0 l0 i g : gather_good c0 l0 g -> yields (gather_good c0 l0) (process_protocol i g).
Proof.
  intros [Hc Hl]. destruct (good_entries _ _ Hc) as (_ & _ & C1), (good_entries _ _ Hl) as (_ & _ & L1).
  unfold process_protocol. apply (yields_bind _ _ _ _ (arr_aget _ _ _ _ C1)). intros cur (A1 & A2 & A3 & A4).
  destruct (_ =? 0); [by split |].
  apply (yields_bind _ _ _ _ (arr_aget _ _ _ _ L1)). intros old (B1 & B2 & B3 & B4).
  destruct (_ =? _); [by split |]. cbv zeta.
  apply (yields_bind (arr_typed proto_typed SI_NUM_PROTOS)).
  { apply arr_aset; [done |]. exact (conj A1 (conj A2 (conj B3 B4))). }
  intros lasts Q1. apply (yields_bind (arr_typed proto_typed SI_NUM_PROTOS)).
  { apply arr_aset; [done |]. exact (conj (u32diff_u32 _ _ B1 A1) (conj (u32diff_u32 _ _ B2 A2) (conj A3 A4))). }
  intros curs Q2. apply yields_any. intros ptrs. split; by apply good_protos.
Qed.

Definition addrs_good (c0 l0 : sharedif_t) (g : gather_addrs) : Prop := good c0 (gd_copy g) /\ good l0 (gd_last g).

Lemma process_addr_good c0 l0 ff i g : addrs_good c0 l0 g -> yields (addrs_good c0 l0) (process_addr ff i g).
Proof.
  intros [Hc Hl]. destruct (good_entries _ _ Hc) as (_ & C1 & _), (good_entries _ _ Hl) as (_ & L1 & _).
  unfold process_addr. apply (yields_bind _ _ _ _ (arr_aget _ _ _ _ C1)). intros cur Hcur.
  destruct (IS_EMPTY_SLOT _); [by split |]. cbv zeta.
  set (cur0 := if _ =? _ then _ else cur). assert (addr_typed cur0) as Hcur0 by (unfold cur0; destruct (_ =? _); [retype | done]).
  apply yields_any. intros [sc ns]. apply yields_any. intros [ta nt].
  apply (yields_bind _ _ _ _ (arr_aget _ _ _ _ L1)). intros old Hold.
  destruct (diff_addr_typed old cur0 Hold Hcur0) as [H1 H2]. destruct (diff_addr old cur0) as [last' cur'].
  apply (yields_bind _ _ _ _ (arr_aset _ _ _ _ _ L1 H1)). intros lasts Q1.
  apply (yields_bind _ _ _ _ (arr_aset _ _ _ _ _ C1 H2)). intros addrs Q2.
  apply yields_any. intros ptrs. split; by apply good_addrs.
Qed.

(** ** The three parts of a report *)

Lemma ok_ends sh w : block_typed sh -> ends_exist sh w.
Proof.
  intros Hs i e _ Hi _. rewrite (addrs_len _ Hs). pose proof (arr_aget _ _ _ i (bt_streams _ Hs)) as H.
  rewrite Hi in H. by destruct H.
Qed.

Lemma report_stream_ok sh f k o ts sortby i q x :
  block_typed sh -> sortby <> SortByMax -> k < 980 -> 0 <= q < SI_NUM_STREAMS -> ex_inv f o k x ->
  returns (ex_inv true o (k + 8)) (report_stream true sh ts sortby i q x).
Proof.
  intros Hsh Hs Hk Hq Hx. unfold report_stream. apply (returns_bind _ _ _ _ (stream_entry sh Hsh q Hq)).
  intros e []. apply on_topn_stream_ok with f; done || lia.
Qed.

Lemma process_streams_ok ts copy last ptrs f o k x :
  block_typed copy -> block_typed last -> Z.of_nat (length ptrs) = SI_NUM_STREAMS ->
  0 <= mi_idx_lo (sh_stream_indexes copy) -> mi_idx_hi (sh_stream_indexes copy) <= SI_NUM_STREAMS ->
  ex_inv f o k x -> k <= 300 ->
  returns (fun '(copy', last', ptrs', x') => good copy copy' /\ good last last' /\
      Z.of_nat (length ptrs') = SI_NUM_STREAMS /\
      ex_inv (if bool_decide (live_streams copy <> []) then true else f) o (k + 320) x')
    (_process_streams true ts copy last ptrs x).
Proof.
  intros Hc Hl Hp Hlo Hhi Hx Hk. pose proof (streams_len _ Hc) as Hcl. pose proof (streams_len _ Hl) as Hll.
  unfold SI_NUM_STREAMS in *. set (w := window (sh_stream_indexes copy)).
  pose proof (window_length _ _ Hlo Hhi ltac:(lia)) as Hwl. fold w in Hwl.
  destruct (gather_streams copy last ptrs w) as (g & Hg & [Gn Gp (L1 & L2 & L3 & L4) _ _]); try lia.
  { apply NoDup_seqZ. }
  { intros i Hi. rewrite Hcl. by apply (window_bounds (sh_stream_indexes copy)). }
  { by apply ok_ends. }
  pose proof (filter_le (live_stream (sh_streams copy)) w) as Hle.
  change (List.filter (live_stream (sh_streams copy)) w) with (live_streams copy) in Gn, Gp, Hle.
  assert (yields (gather_good copy last) (for_each process_stream w (mk_gather copy last ptrs 0))) as Hgood.
  { apply yields_for_each; [split; by apply good_refl |]. intros i g'. apply process_stream_good. }
  rewrite Hg in Hgood. destruct Hgood as [GC GL]. pose proof (proj1 GC) as HC.
  assert (forall q, q ∈ live_streams copy -> 0 <= q < 32768) as Hlive.
  { intros q [Hq _]%in_filter. by apply (window_bounds (sh_stream_indexes copy)). }
  destruct (sort_ranked (sh_streams (ga_copy g)) si_packets rcmp_stream_pkt (live_streams copy) (ga_ptrs g) (ga_num g))
    as (p1 & Q1 & N1 & P1 & _); [done | done | lia | lia | by rewrite Gp |].
  destruct (sort_ranked (sh_streams (ga_copy g)) si_bytes rcmp_stream_bytes (live_streams copy) p1 (ga_num g))
    as (p2 & Q2 & N2 & P2 & _); [done | done | lia | lia | done |].
  unfold _process_streams. fold w. rewrite Hg, bind_Val. cbv zeta. rewrite Q1, bind_Val, Gn.
  set (f' := if bool_decide (live_streams copy <> []) then true else f).
  apply (returns_bind (ex_inv f' o (k + 160))).
  { eapply returns_weaken;
      [apply (report_top_ok f true o k 8 20 (live_streams copy) p1); [exact P1 | lia | lia | done | | exact Hx]
      | intros x' Hx'; rewrite (bool_decide_ext _ (live_streams copy <> [])) in Hx' by (intuition lia); exact Hx'].
    intros i q f0 j y Hq Hy _ Hj. apply (report_stream_ok _ f0); [exact HC | done | lia | by apply Hlive | exact Hy]. }
  intros x1 Hx1. rewrite <- Gn, Q2, bind_Val, Gn. apply (returns_bind (ex_inv f' o (k + 320))).
  { eapply returns_weaken;
      [apply (report_top_ok f' true o (k + 160) 8 20 (live_streams copy) p2); [exact P2 | lia | lia | done | | exact Hx1] |].
    - intros i q f0 j y Hq Hy _ Hj. apply (report_stream_ok _ f0); [exact HC | done | lia | by apply Hlive | exact Hy].
    - intros x' Hx'. replace (k + 160 + 8 * 20) with (k + 320) in Hx' by lia.
      rewrite (bool_decide_ext _ (live_streams copy <> [])) in Hx' by (intuition lia). unfold f' in *. by destruct (bool_decide _). }
  intros x2 Hx2. split; [exact GC |]. split; [exact GL |]. split; [lia | exact Hx2].
Qed.

Lemma proto_of_ptr_u32 q : is_u32 (fst (proto_of_ptr q)) /\ is_u32 (snd (proto_of_ptr q)).
Proof.
  assert (forall z, is_u32 (u16 z)) as H by (intros z; pose proof (u16_range z) as Hz; unfold is_u16, is_u32 in *; lia).
  unfold proto_of_ptr. destruct (_ <=? _); (split; [apply H | split; [discriminate | reflexivity]]).
Qed.

Lemma process_protocols_ok ts copy last ptrs f o k x :
  block_typed copy -> block_typed last -> Z.of_nat (length ptrs) = SI_NUM_PROTOS -> ex_inv f o k x -> k <= 800 ->
  returns (fun '(copy', last', ptrs', x') => good copy copy' /\ good last last' /\
      Z.of_nat (length ptrs') = SI_NUM_PROTOS /\ ex_inv f o (k + 40) x')
    (_process_protocols true ts copy last ptrs x).
Proof.
  intros Hc Hl Hp Hx Hk. pose proof (protos_len _ Hc) as Hcl. pose proof (protos_len _ Hl) as Hll.
  unfold SI_NUM_PROTOS, SI_NUM_TCP_PROTOS in *. unfold _process_protocols. set (w := seqZ 0 SI_NUM_PROTOS).
  assert (Z.of_nat (length w) = 18220) as Hw by (unfold w; rewrite length_seqZ, Z2Nat.id; [reflexivity | discriminate]).
  destruct (gather_protos copy last ptrs w) as (g & Hg & [Gp GL _ _ _]); try lia.
  { apply NoDup_seqZ. }
  { intros i [H1 H2]%elem_of_seqZ. unfold SI_NUM_PROTOS, SI_NUM_TCP_PROTOS in H2. lia. }
  assert (yields (gather_good copy last) (for_each process_protocol w (mk_gather copy last ptrs 0))) as Hgood.
  { apply yields_for_each; [split; by apply good_refl |]. intros i g'. apply process_protocol_good. }
  rewrite Hg in Hgood. destruct Hgood as [HGC HGL]. pose proof (proj1 HGC) as HC.
  destruct (sort_collected (sh_protos (ga_copy g)) pi_packets rcmp_protos_pkt _ _ _ _ _ ltac:(done) Gp ltac:(lia))
    as (p & Q & N & P & _).
  destruct Gp as (Hn & _ & _). rewrite Hg, bind_Val. cbv zeta. rewrite Q, bind_Val, Hn.
  set (l := List.filter _ w) in *. apply (returns_bind (ex_inv f o (k + 40))).
  { apply (returns_weaken (ex_inv (if bool_decide (l <> [] /\ 20 <> 0) then f else f) o (k + 2 * 20)));
      [| intros x' Hx'; by destruct (bool_decide _)].
    apply (report_top_ok f f o k 2 20 l p); [exact P | lia | lia | done | | exact Hx].
    intros i q f0 j y Hq Hy Hf0 Hj. assert (f0 = f) as -> by (by destruct Hf0). unfold report_protocol.
    apply (returns_bind proto_typed).
    { apply returns_aget; [apply (bt_protos _ HC) |]. rewrite (protos_len _ HC). apply in_filter in Hq as [Hq%elem_of_seqZ _]. lia. }
    intros pr Hpr. destruct (proto_of_ptr q) as [port ipproto] eqn:E.
    assert (is_u32 port /\ is_u32 ipproto) as [Hport Hip].
    { pose proof (proto_of_ptr_u32 q) as H. by rewrite E in H. }
    apply (on_topn_protocol_ok f); [exact Hy | discriminate | lia | exact Hport | exact Hip | exact Hpr]. }
  intros x1 Hx1. split; [exact HGC |]. split; [exact HGL |]. split; [lia | exact Hx1].
Qed.

(** The state a report keeps of the address arrays. *)
Record addr_arrays (g : gather_addrs) : Prop := {
  aa_ptrs : Z.of_nat (length (gd_ptrs g)) = SI_NUM_ADDRS;
  aa_scanners : Z.of_nat (length (gd_scanners g)) = SI_NUM_ADDRS / 2;
  aa_targets : Z.of_nat (length (gd_targets g)) = SI_NUM_ADDRS / 2
}.

Lemma top_addrs_ok sh f k o ts sortby ff (l : list Z) ptrs x :
  block_typed sh -> take (length l) ptrs ≡ₚ (Some <$> l) -> (forall q, q ∈ l -> 0 <= q < SI_NUM_ADDRS) ->
  sortby <> SortByMax -> k <= 900 -> ex_inv f o k x ->
  returns (ex_inv f o (k + 40)) (report_top 10 (Z.of_nat (length l)) ptrs (on_topn_address true sh ts sortby ff) x).
Proof.
  intros Hsh P Hl Hs Hk Hx. apply (returns_weaken (ex_inv (if bool_decide (l <> [] /\ 10 <> 0) then f else f) o (k + 4 * 10)));
    [| intros x' Hx'; by destruct (bool_decide _)].
  apply (report_top_ok f f o k 4 10 l ptrs); [exact P | lia | lia | done | | exact Hx].
  intros i q f0 j y Hq Hy Hf0 Hj. assert (f0 = f) as -> by (by destruct Hf0).
  apply (on_topn_address_ok sh Hsh f); [exact Hy | exact Hs | lia | by apply Hl].
Qed.

Lemma process_addrs2_ok ts ff indexes g0 f o k x :
  block_typed (gd_copy g0) -> block_typed (gd_last g0) -> addr_arrays g0 ->
  0 <= mi_idx_lo indexes -> mi_idx_hi indexes <= SI_NUM_ADDRS ->
  (ff = FLOW_TYPE_INTERNAL -> mi_idx_hi indexes <= SI_NUM_ADDRS / 2) -> ex_inv f o k x -> k <= 780 ->
  returns (fun '(g', x') => good (gd_copy g0) (gd_copy g') /\ good (gd_last g0) (gd_last g') /\ addr_arrays g' /\
      ex_inv f o (k + 120) x')
    (_process_addrs2 true ts ff indexes g0 x).
Proof.
  intros Hc Hl [Hp Hs Ht] Hlo Hhi Hlan Hx Hk. pose proof (addrs_len _ Hc) as Ha. pose proof (addrs_len _ Hl) as Hla.
  change (SI_NUM_ADDRS / 2) with 8192 in *. change SI_NUM_ADDRS with 16384 in *. set (w := window indexes).
  assert (Z.of_nat (length w) <= 16384) as Hw by (pose proof (window_length indexes 16384 Hlo Hhi ltac:(lia)); unfold w; lia).
  assert (forall q, q ∈ w -> 0 <= q < 16384) as Hin by (intros q; by apply (window_bounds indexes)).
  destruct (gather_addresses ff g0 w) as (g & Hg & [Gp Gs Gt _ _ _]); try lia.
  { apply NoDup_seqZ. }
  { intros i Hi. rewrite Ha. by apply Hin. }
  { intros Hf. pose proof (window_length indexes 8192 Hlo (Hlan Hf) ltac:(lia)) as Hw2. fold w in Hw2. lia. }
  assert (yields (addrs_good (gd_copy g0) (gd_last g0)) (for_each (process_addr ff) w
    (mk_gather_addrs (gd_copy g0) (gd_last g0) (gd_ptrs g0) 0 (gd_scanners g0) 0 (gd_targets g0) 0))) as Hgood.
  { apply yields_for_each; [split; by apply good_refl |]. intros i g'. apply process_addr_good. }
  rewrite Hg in Hgood. destruct Hgood as [HGC HGL]. pose proof (proj1 HGC) as HC.
  destruct (sort_collected (sh_addrs (gd_copy g)) ai_txpackets rcmp_addr_txpkt _ _ _ _ _ ltac:(done) Gp ltac:(lia))
    as (p & Q & N & P & _).
  destruct Gp as (Hn & _ & _). unfold _process_addrs2. fold w. rewrite Hg, bind_Val. cbv zeta. rewrite Q, bind_Val.
  destruct (report_suspects_ranked true (gd_copy g) ts ff _ SortByScannedPorts ai_resvd rcmp_addr_scanned_ports
    _ _ _ _ ltac:(done) Gs ltac:(lia)) as (ss & Ns & Ps & _ & Es).
  destruct (report_suspects_ranked true (gd_copy g) ts ff _ SortByServedPorts ai_resvd2 rcmp_addr_served_ports
    _ _ _ _ ltac:(done) Gt ltac:(lia)) as (tt & Nt & Pt & _ & Et).
  destruct Gs as (Hns & _ & _), Gt as (Hnt & _ & _). rewrite Hn.
  assert (forall sel q, q ∈ List.filter sel w -> 0 <= q < SI_NUM_ADDRS) as Hsel by (intros sel q [Hq _]%in_filter; by apply Hin).
  apply (returns_bind (ex_inv f o (k + 40))); [apply top_addrs_ok; [exact HC | exact P | apply Hsel | discriminate | lia | exact Hx] |].
  intros x1 Hx1. rewrite Es, Hns. apply (returns_bind (fun r => fst r = ss /\ ex_inv f o (k + 80) (snd r))).
  { apply (returns_bind (ex_inv f o (k + 40 + 40))); [apply top_addrs_ok; [exact HC | exact Ps | apply Hsel | discriminate | lia | exact Hx1] |].
    intros x2 Hx2. replace (k + 40 + 40) with (k + 80) in Hx2 by lia. by split. }
  intros [ss' x2] [E2 Hx2]. cbn [fst snd] in E2, Hx2. subst ss'. rewrite Et, Hnt. apply (returns_bind (fun r => fst r = tt /\ ex_inv f o (k + 120) (snd r))).
  { apply (returns_bind (ex_inv f o (k + 80 + 40))); [apply top_addrs_ok; [exact HC | exact Pt | apply Hsel | discriminate | lia | exact Hx2] |].
    intros x3 Hx3. replace (k + 80 + 40) with (k + 120) in Hx3 by lia. by split. }
  intros [tt' x3] [E3 Hx3]. cbn [fst snd] in E3, Hx3. subst tt'. split; [exact HGC |]. split; [exact HGL |]. split; [| exact Hx3].
  split; cbn [gd_ptrs gd_scanners gd_targets]; change (SI_NUM_ADDRS / 2) with 8192; change SI_NUM_ADDRS with 16384; lia.
Qed.

(** ** The working copy *)

Lemma copy_range_ok {A} (P : A -> Prop) (dst src : list A) lo hi :
  0 <= lo -> lo <= hi -> hi <= Z.of_nat (length src) -> length src = length dst -> Forall P src -> Forall P dst ->
  returns (fun l => length l = length dst /\ Forall P l /\ forall i, lo <= i < hi -> aget l i = aget src i)
    (copy_range dst src lo hi).
Proof.
  intros H1 H2 H3 H4 Hs Hd. unfold copy_range.
  rewrite (proj2 (Z.leb_le 0 lo)), (proj2 (Z.leb_le lo hi)), !(proj2 (Z.leb_le hi _)) by lia. cbn [andb returns].
  set (l := _ ++ _). assert (length l = length dst) as Hl.
  { unfold l. rewrite !length_app, !length_take, !length_drop. lia. }
  split; [exact Hl |]. split.
  - apply Forall_app. split; [by apply Forall_take |]. apply Forall_app. split; [by apply Forall_take, Forall_drop | by apply Forall_drop].
  - intros i Hi. unfold aget, in_bounds. rewrite Hl, H4.
    assert (l !! Z.to_nat i = src !! Z.to_nat i) as ->; [| reflexivity]. unfold l.
    rewrite lookup_app_r, length_take by (rewrite length_take; lia).
    rewrite lookup_app_l by (rewrite length_take, length_drop; lia).
    rewrite lookup_take_lt by lia. rewrite lookup_drop. f_equal. lia.
Qed.

(** The window of a managed array lies in an array of [n] entries. *)
Definition window_ok (p : mga_info_t) (n : Z) : Prop := 0 <= mi_idx_lo p <= mi_idx_hi p /\ mi_idx_hi p <= n.

Lemma copy_range_undefined {A B} (d s : list A) lo hi (f : list A -> res B) :
  (forall l, f l = Undefined) -> (copy_range d s lo hi ≫= f) = Undefined.
Proof. intros H. unfold copy_range. destruct (_ && _); [apply H | done]. Qed.

(** A window whose low end is above its high end, as releases can leave one in [MgArray],
    cannot be copied: the length passed to [memcpy] wraps. *)
Lemma take_copy_reversed copy g w :
  w ∈ [sh_stream_indexes g; sh_addr_lan_indexes g; sh_addr_wan_indexes g] -> mi_idx_hi w < mi_idx_lo w ->
  take_copy copy g = Undefined.
Proof.
  intros Hw Hlt. assert (forall A (d s : list A), copy_range d s (mi_idx_lo w) (mi_idx_hi w) = Undefined) as H.
  { intros A d s. unfold copy_range. by rewrite (proj2 (Z.leb_gt _ _) Hlt), andb_false_r. }
  unfold take_copy. cbv zeta. cbn [sh_stream_indexes sh_addr_lan_indexes sh_addr_wan_indexes set_sh_addr_lan_indexes
    set_sh_addr_wan_indexes set_sh_stream_indexes].
  apply elem_of_cons in Hw as [<- | Hw]; [by rewrite H |]. apply copy_range_undefined. intros streams.
  apply elem_of_cons in Hw as [<- | Hw]; [by rewrite H |]. apply copy_range_undefined. intros addrs.
  apply elem_of_cons in Hw as [<- | Hw]; [by rewrite H | by apply not_elem_of_nil in Hw].
Qed.

(** The live block when a report is made. *)
Record block_ready (g : sharedif_t) : Prop := {
  br_ok : block_typed g;
  br_streams : window_ok (sh_stream_indexes g) SI_NUM_STREAMS;
  br_lan : window_ok (sh_addr_lan_indexes g) (SI_NUM_ADDRS / 2);
  br_wan : window_ok (sh_addr_wan_indexes g) SI_NUM_ADDRS;
  br_live : exists i, i ∈ live_streams g
}.

Lemma take_copy_ok copy g : block_typed copy -> block_ready g ->
  returns (fun c => block_typed c /\ live_streams c <> [] /\ sh_stream_indexes c = sh_stream_indexes g /\
      sh_addr_lan_indexes c = sh_addr_lan_indexes g /\ sh_addr_wan_indexes c = sh_addr_wan_indexes g /\
      (forall j, j ∈ window (sh_stream_indexes g) -> aget (sh_streams c) j = aget (sh_streams g) j) /\
      forall j, 0 <= j < SI_NUM_PROTOS -> aget (sh_protos c) j = aget (sh_protos g) j)
    (take_copy copy g).
Proof.
  intros Hc [Hg [[W1 W2] W3] [[L1 L2] L3] [[A1 A2] A3] (i & Hi)].
  destruct (bt_streams _ Hc) as [Cs Cs'], (bt_addrs _ Hc) as [Ca Ca'], (bt_protos _ Hc) as [Cp Cp'].
  destruct (bt_streams _ Hg) as [Gs Gs'], (bt_addrs _ Hg) as [Ga Ga'], (bt_protos _ Hg) as [Gp Gp'].
  change (SI_NUM_ADDRS / 2) with 8192 in *. change SI_NUM_ADDRS with 16384 in *.
  unfold SI_NUM_STREAMS, SI_NUM_PROTOS, SI_NUM_TCP_PROTOS in *. unfold take_copy.
  set (c := set_sh_addr_lan_indexes _ _). cbv zeta.
  change (sh_streams c) with (sh_streams copy). change (sh_addrs c) with (sh_addrs copy). change (sh_protos c) with (sh_protos copy).
  change (sh_stream_indexes c) with (sh_stream_indexes g). change (sh_addr_lan_indexes c) with (sh_addr_lan_indexes g).
  change (sh_addr_wan_indexes c) with (sh_addr_wan_indexes g).
  eapply returns_bind; [apply (copy_range_ok stream_typed); (exact Gs || exact Cs || lia) |]. intros streams (S1 & S2 & S3).
  eapply returns_bind; [apply (copy_range_ok addr_typed); (exact Ga || exact Ca || lia) |]. intros addrs (D1 & D2 & _).
  eapply returns_bind; [apply (copy_range_ok addr_typed); (exact Ga || exact D2 || lia) |]. intros addrs' (E1 & E2 & _).
  eapply returns_bind;
    [apply (copy_range_ok proto_typed); [| | | | exact Gp | exact Cp]; unfold SI_NUM_PROTOS, SI_NUM_TCP_PROTOS; lia |].
  intros protos (F1 & F2 & F3). cbn [returns].
  assert (arr_typed stream_typed SI_NUM_STREAMS streams) as Ts by (split; [exact S2 | unfold SI_NUM_STREAMS; lia]).
  assert (arr_typed addr_typed SI_NUM_ADDRS addrs') as Ta by (split; [exact E2 | unfold SI_NUM_ADDRS; lia]).
  assert (arr_typed proto_typed SI_NUM_PROTOS protos) as Tp by (split; [exact F2 | unfold SI_NUM_PROTOS, SI_NUM_TCP_PROTOS; lia]).
  assert (forall j, j ∈ window (sh_stream_indexes g) -> aget streams j = aget (sh_streams g) j) as Hwin.
  { intros j Hw%elem_of_seqZ. apply S3. pose proof (mt_hi _ (bt_strm _ Hg)) as Hu. unfold is_u32 in Hu.
    rewrite (u32_small (mi_idx_lo (sh_stream_indexes g) + 1)) in Hw by (unfold is_u32; lia). lia. }
  split; [destruct Hc, Hg; by split | split; [| by repeat split]].
  intros Hnil. apply in_filter in Hi as [Hw Hlive].
  assert (i ∈ live_streams (set_sh_protos protos (set_sh_addrs addrs' (set_sh_streams streams c)))) as Hin.
  { apply in_filter. split; [exact Hw |]. unfold live_stream in *.
    cbn [sh_streams set_sh_streams set_sh_addrs set_sh_protos]. by rewrite Hwin. }
  rewrite Hnil in Hin. by apply not_elem_of_nil in Hin.
Qed.

(** ** The whole report *)

Lemma print_print s t x : print t (print s x) = print (s +:+ t) x.
Proof. unfold print. cbn. by rewrite string_app_assoc. Qed.

Lemma print_nil x : print "" x = x.
Proof. destruct x. unfold print. cbn. by rewrite string_app_nil_r. Qed.

(** The line of one flow type: sixty columns of the table, whatever was written to them. *)
Definition columns_text (row : list flow_stats_t) : string :=
  foldr (fun f s => fmt_u (fs_packets f) +:+ "," +:+ fmt_u (fs_bytes f) +:+ "," +:+ s)%string ""%string row.

Definition second_line (rows : list (list flow_stats_t)) (T : Z) : string :=
  "STAT,S" +:+ fmt_d T +:+ "," +:+ match aget rows T with Val row => columns_text (take 60 row) | _ => "" end +:+ newline.

(** The per second lines of a report; the total has none. *)
Definition second_lines (rows : list (list flow_stats_t)) : string :=
  second_line rows FLOW_TYPE_WEB_IN +:+ second_line rows FLOW_TYPE_WEB_OUT +:+ second_line rows FLOW_TYPE_NONWEB_IN +:+
  second_line rows FLOW_TYPE_NONWEB_OUT +:+ second_line rows FLOW_TYPE_INTERNAL.

Lemma columns_app l1 l2 : columns_text (l1 ++ l2) = columns_text l1 +:+ columns_text l2.
Proof. induction l1 as [| f l1 IH]; [done |]. cbn [app columns_text foldr]. fold (columns_text (l1 ++ l2)) (columns_text l1). by rewrite IH, !string_app_assoc. Qed.

Lemma seqZ_split m n dn i rest : seqZ m n = dn ++ i :: rest -> i = m + Z.of_nat (length dn) /\ Z.of_nat (length dn) < n.
Proof.
  intros H. assert (seqZ m n !! length dn = Some i) as [Hi Hlt]%lookup_seqZ
    by (rewrite H; apply list_lookup_middle; reflexivity).
  lia.
Qed.

Lemma print_sec_ok T sp x : sec_tables sp -> 0 <= T < 6 -> PRINT_SEC T sp x = Val (print (second_line (sec_flows sp) T) x).
Proof.
  intros [Hr Hc] HT. unfold PRINT_SEC, second_line. destruct (aget_lt (sec_flows sp) T ltac:(lia)) as [row Hrow].
  rewrite Hrow, bind_Val. cbv zeta. set (x0 := print _ x).
  assert (length row = 68%nat) as Hl.
  { rewrite list.Forall_forall in Hc. apply Hc. apply aget_Val in Hrow as [_ Hrow]. by eapply list_elem_of_lookup_2. }
  destruct (for_each_inv (fun dn y => y = print (columns_text (take (length dn) row)) x0)
    (fun i x => f ← aget row i; Val (print (fmt_u (fs_packets f) +:+ "," +:+ fmt_u (fs_bytes f) +:+ ",") x)) (seqZ 0 60) x0) as (y & -> & ->).
  - symmetry. apply print_nil.
  - intros dn i rest y Hsp ->. destruct (seqZ_split _ _ _ _ _ Hsp) as [-> Hi].
    destruct (aget_lt row (0 + Z.of_nat (length dn)) ltac:(lia)) as [f Hf]. rewrite Hf, bind_Val. eexists. split; [reflexivity |].
    rewrite print_print. f_equal. rewrite length_app. cbn [length].
    assert (row !! length dn = Some f) as Hlk by (apply aget_Val in Hf as [_ Hf]; by replace (Z.to_nat (0 + Z.of_nat (length dn))) with (length dn) in Hf by lia).
    rewrite Nat.add_1_r, (take_S_r _ _ _ Hlk), columns_app. cbn [columns_text foldr]. by rewrite string_app_nil_r.
  - rewrite bind_Val. unfold x0. rewrite !print_print. rewrite !string_app_assoc. reflexivity.
Qed.

Lemma print_secs_ok {A} (k : export_t -> res A) sp x : sec_tables sp ->
  (x ← PRINT_SEC FLOW_TYPE_WEB_IN sp x;
   x ← PRINT_SEC FLOW_TYPE_WEB_OUT sp x;
   x ← PRINT_SEC FLOW_TYPE_NONWEB_IN sp x;
   x ← PRINT_SEC FLOW_TYPE_NONWEB_OUT sp x;
   x ← PRINT_SEC FLOW_TYPE_INTERNAL sp x;
   k x) = k (print (second_lines (sec_flows sp)) x).
Proof.
  intros H. do 5 (rewrite print_sec_ok, bind_Val by (exact H || (split; [discriminate | reflexivity]))).
  by rewrite !print_print, ?string_app_assoc.
Qed.

(** The export between two reports. *)
Record export_idle (x : export_t) : Prop := {
  xi_streams : Z.of_nat (length (ex_streams x)) = MAX_SEEN;
  xi_addrs : Z.of_nat (length (ex_addrs x)) = MAX_SEEN;
  xi_init : ex_initialized x = 0
}.

Lemma print_inv f o k s x : ex_inv f o k x -> ex_inv f (o +:+ s) k (print s x).
Proof.
  intros (fa & fs & ft & [] & H). exists fa, fs, ft. split; [| exact H]. split; try assumption. cbn. congruence.
Qed.

Definition start_line (ts n : Z) : string := "===,START," +:+ fmt_u ts +:+ "," +:+ fmt_d n +:+ newline.
Definition end_line : string := "===,END," +:+ fmt_d 60 +:+ newline.

(** The line with the packets and bytes of the period. *)
Definition total_line (packets bytes : Z) : string := "STAT,T," +:+ fmt_u packets +:+ "," +:+ fmt_u bytes +:+ newline.

Lemma open_ok ts n x : export_idle x -> ex_inv false (out x +:+ start_line ts n) 0 (on_stat_period_open true ts n x).
Proof.
  intros [H1 H2 H3]. unfold on_stat_period_open. rewrite H3. cbn [Z.eqb].
  assert (text_ok 0 false (sbuf_new true true 8192)) as Ht.
  { destruct (new_holds 8192 ltac:(lia)) as (b & -> & Hb & Hc). exists b, ""%string, false. rewrite Hc.
    split; [done |]. split; [exact Hb |]. split; [done |]. cbn. lia. }
  exists false, false, false. split; [| split; [done |]; split; done].
  split; [split; [exact H1 | cbn; lia |]; cbn; intros; lia | split; [exact H2 | cbn; lia |]; cbn; intros; lia | exact Ht .. | exact H3 | reflexivity].
Qed.

Lemma puts_ok k ob x : text_ok k true ob -> returns (fun x' => exists s, x' = print s x) (puts_sbuf ob x).
Proof.
  intros (b & t & tm & -> & Hb & Htm & _). unfold puts_sbuf. cbn [deref]. rewrite bind_Val.
  destruct (sh_text _ _ _ Hb) as (rest & Hp & Ht). destruct (Ht (Htm eq_refl)) as [rest' ->].
  unfold sbuf_to_s. rewrite Hp, c_string_text by apply (sh_no_nul _ _ _ Hb). rewrite bind_Val. cbn [returns]. by eexists.
Qed.

Lemma close_ok o k x : ex_inv true o k x ->
  returns (fun x' => export_idle x' /\ exists body, out x' = o +:+ body +:+ end_line) (on_stat_period_close 60 x).
Proof.
  intros (fa & fs & ft & [[L1 _ _] [L2 _ _] Ta Ts Tt Hi Ho] & _ & _ & Hf). destruct (Hf eq_refl) as (-> & -> & ->).
  unfold on_stat_period_close. cbv zeta.
  change (sbuf_addrs (print ?s x)) with (sbuf_addrs x).
  apply (returns_bind _ _ _ _ (puts_ok _ _ (print _ x) Ta)). intros x1 (s1 & ->). rewrite print_print.
  change (sbuf_streams (print ?s (print ?t x))) with (sbuf_streams x).
  rewrite print_print. apply (returns_bind _ _ _ _ (puts_ok _ _ (print _ x) Ts)). intros x2 (s2 & ->). rewrite print_print.
  change (sbuf_stats (print ?s x)) with (sbuf_stats x).
  apply (returns_bind _ _ _ _ (puts_ok _ _ (print _ x) Tt)). intros x3 (s3 & ->). rewrite !print_print. cbn [returns].
  split; [split; assumption |]. unfold print. cbn [out set_out]. rewrite Ho.
  rewrite <- (string_app_assoc _ s3). by eexists.
Qed.

(** The state of the statistics process between two seconds. *)
Record sp_ready (sp : statproc_t) : Prop := {
  sr_rows : sec_tables sp;
  sr_last_sec : length (ss_flow_stats (stats_last_sec sp)) = 6%nat;
  sr_copy : exists c, sp_copy sp = Some c /\ block_typed c;
  sr_last : exists l, sp_last sp = Some l /\ block_typed l;
  sr_streams : Z.of_nat (length (stream_ptrs sp)) = SI_NUM_STREAMS;
  sr_protos : Z.of_nat (length (proto_ptrs sp)) = SI_NUM_PROTOS;
  sr_addrs : addr_arrays (mk_gather_addrs zero_sharedif zero_sharedif (addr_ptrs sp) 0 (addr_ptrs_scanners sp) 0
    (addr_ptrs_targets sp) 0);
  sr_export : export_idle (sp_export sp)
}.

(** A minute's report: what it leaves, and what it prints. *)
Definition reported (ts : Z) (sp sp' : statproc_t) : Prop :=
  sp_ready sp' /\ initialized sp' = initialized sp /\ stats_last_sec sp' = stats_last_sec sp /\
  gProfileNumMins sp' = u32 (gProfileNumMins sp + 1) /\ sec_i sp' = ts mod 60 /\ tlast_min sp' = ts / 60 * 60 /\
  last_min_packets sp' = 0 /\ last_min_bytes sp' = 0 /\ sec_flows sp' = sec_flows sp /\
  exists body, out (sp_export sp') = (out (sp_export sp) +:+ start_line ts (sec_i sp)) +:+
    (total_line (last_min_packets sp) (last_min_bytes sp) +:+ second_lines (sec_flows sp) +:+ body) +:+ end_line.

Lemma check_minute_ok now0 now1 ts g sp : sp_ready sp -> block_ready g -> ts <> 0 ->
  returns (reported ts sp) (check_minute true now0 now1 ts g sp).
Proof.
  intros [Rr Rl (c0 & Ec & Hc0) (l0 & El & Hl0) Rs Rp Ra Rx] Hg Hts. unfold check_minute.
  set (sp0 := set_gProfileNumMins _ sp). cbv zeta. rewrite (proj2 (Z.eqb_neq _ _) Hts).
  assert (sec_tables sp0) as Rr0 by (destruct Rr; by split).
  pose proof (open_ok ts (sec_i sp0) (sp_export sp0) Rx) as Hx.
  apply (print_inv _ _ _ (total_line (last_min_packets sp0) (last_min_bytes sp0))), (print_inv _ _ _ (second_lines (sec_flows sp0))) in Hx.
  rewrite print_secs_ok by exact Rr0. fold (total_line (last_min_packets sp0) (last_min_bytes sp0)).
  set (o := (((_ +:+ _) +:+ _) +:+ _)%string) in Hx. revert Hx.
  generalize (print (second_lines (sec_flows sp0)) (print (total_line (last_min_packets sp0) (last_min_bytes sp0))
    (on_stat_period_open true ts (sec_i sp0) (sp_export sp0)))). intros x Hx.
  apply (print_inv _ _ _ ""%string) in Hx. rewrite print_nil in Hx.
  pose (P := fun x => exists s, ex_inv false (o +:+ s) 0 x).
  assert (forall s x, P x -> P (print s x)) as Hprint.
  { intros s y (s' & Hs). exists (s' +:+ s). rewrite <- string_app_assoc. by apply print_inv. }
  change (sp_copy sp0) with (sp_copy sp). change (sp_last sp0) with (sp_last sp). rewrite Ec, El. cbn [deref].
  rewrite bind_Val. apply (returns_bind _ _ _ _ (take_copy_ok c0 g Hc0 Hg)). intros c (Hc & Hlive & I1 & I2 & I3 & _).
  apply (ex_intro (fun s => ex_inv false (o +:+ s) 0 x) ""%string) in Hx.
  apply (Hprint ("STAT,I,streams:" +:+ fmt_d (mi_num_entries (sh_stream_indexes c)) +:+
                  ",lanaddrs:" +:+ fmt_d (mi_num_entries (sh_addr_lan_indexes c)) +:+
                  ",wanaddrs:" +:+ fmt_d (mi_num_entries (sh_addr_wan_indexes c)) +:+ newline)%string) in Hx.
  revert Hx. generalize (print ("STAT,I,streams:" +:+ fmt_d (mi_num_entries (sh_stream_indexes c)) +:+
                  ",lanaddrs:" +:+ fmt_d (mi_num_entries (sh_addr_lan_indexes c)) +:+
                  ",wanaddrs:" +:+ fmt_d (mi_num_entries (sh_addr_wan_indexes c)) +:+ newline)%string x).
  clear x. intros x (s & Hx). rewrite bind_Val.
  destruct Hg as [_ [[W1 _] W3] [[L1 _] L3] [[A1 _] A3] _].
  apply (returns_bind _ _ _ _ (process_streams_ok ts c l0 (stream_ptrs sp0) false _ 0 x Hc Hl0 Rs
    ltac:(by rewrite I1) ltac:(by rewrite I1) Hx ltac:(lia))).
  intros [[[c1 l1] sptrs] x1] (GC1 & GL1 & Hsp & Hx1). rewrite bool_decide_true in Hx1 by done.
  pose proof (proj1 GC1) as Hc1. pose proof (proj1 GL1) as Hl1.
  apply (returns_bind _ _ _ _ (process_protocols_ok ts c1 l1 (proto_ptrs sp0) true _ (0 + 320) x1 Hc1 Hl1 Rp Hx1 ltac:(lia))).
  intros [[[c2 l2] pptrs] x2] (GC2 & GL2 & Hpp & Hx2).
  pose proof (proj1 GC2) as Hc2. pose proof (proj1 GL2) as Hl2.
  destruct (proj2 GC1) as (J1 & J2 & J3), (proj2 GC2) as (K1 & K2 & K3).
  apply (returns_bind (fun '(g', x') => block_typed (gd_copy g') /\ block_typed (gd_last g') /\ addr_arrays g' /\
    ex_inv true (o +:+ s) (0 + 320 + 40 + 120 + 120) x')).
  - unfold _process_addrs. cbn [gd_copy]. destruct Ra as [Ra1 Ra2 Ra3].
    eapply returns_bind; [apply (process_addrs2_ok ts FLOW_TYPE_INTERNAL); cbn [gd_copy gd_last];
      [exact Hc2 | exact Hl2 | by split | by rewrite K2, J2, I2 | | | exact Hx2 | lia] |].
    { rewrite K2, J2, I2. change (SI_NUM_ADDRS / 2) with 8192 in L3. unfold SI_NUM_ADDRS. lia. }
    { by rewrite K2, J2, I2. }
    cbn [gd_copy gd_last]. intros [g1 x3] (GC3 & GL3 & Ha & Hx3).
    destruct (proj2 GC3) as (M1 & M2 & M3).
    eapply returns_weaken; [apply (process_addrs2_ok ts 0);
      [exact (proj1 GC3) | exact (proj1 GL3) | exact Ha | by rewrite M3, K3, J3, I3 | by rewrite M3, K3, J3, I3 |
       discriminate | exact Hx3 | lia] |].
    intros [g2 x4] (GC4 & GL4 & Ha' & Hx4). split; [exact (proj1 GC4) |].
    split; [exact (proj1 GL4) |]. split; [exact Ha' | exact Hx4].
  - intros [g2 x3] (Hc3 & Hl3 & [Ha1 Ha2 Ha3] & Hx3).
    apply (returns_bind _ _ _ _ (close_ok _ _ _ Hx3)). intros x4 (Hidle & body & Hout). cbn [returns].
    split; [| do 8 (split; [reflexivity |])].
    + split; [destruct Rr; by split | exact Rl | | | exact Hsp | exact Hpp | by split | exact Hidle].
      * exists (gd_copy g2). exact (conj eq_refl Hc3).
      * exists (gd_last g2). exact (conj eq_refl Hl3).
    + exists (s +:+ body). cbn [sp_export set_sp_export]. rewrite Hout.
      unfold o. change (sec_i sp0) with (sec_i sp). change (sp_export sp0) with (sp_export sp).
      change (last_min_packets sp0) with (last_min_packets sp). change (last_min_bytes sp0) with (last_min_bytes sp).
      change (sec_flows sp0) with (sec_flows sp). by rewrite !string_app_assoc.
Qed.

(** C24: a minute's report completes.  From any state between two reports, for any
    typed block whose windows lie in their arrays and that has a live stream, and with
    allocations that succeed, [check_minute] returns: no entry outside an array, no
    NULL, no overrun of the lists of seen entries or of a line or text buffer, no text
    that was never written.  It prints one START line, the report - which begins with
    the totals of the minute and the per second lines - and one END line, counts the report, restarts the minute's clock at the report's second, and leaves a
    state from which the next report completes too. *)
Theorem minute_report_completes now0 now1 ts g sp
    (Hsp : sp_ready sp) (Hg : block_ready g) (Hts : ts <> 0) :
  exists sp', check_minute true now0 now1 ts g sp = Val sp' /\ reported ts sp sp'.
Proof. exact (returns_Val _ _ (check_minute_ok now0 now1 ts g sp Hsp Hg Hts)). Qed.
