(* ===== verification/Clock.v ===== *)
(** The statistics process over time: what one second does to a state between two
    reports, runs of seconds, and the main loop of [statproc/main.c]. *)
From S2P Require Import Prelude Structs MgArray Format ShmData Export StatProc Capture Lifecycle Reports Rankings Typing ReportRun.
From stdpp Require Import list.
#[local] Open Scope Z_scope.

(** ** The initial state *)

Lemma length_ptrs n : 0 <= n -> Z.of_nat (length (replicate (Z.to_nat n) (@None Z))) = n.
Proof. intros Hn. rewrite length_replicate. lia. Qed.

Lemma init_tables : sec_tables statproc_init.
Proof. split; [reflexivity | repeat constructor]. Qed.

Lemma init_idle : export_idle export_init.
Proof. split; [cbn [ex_streams export_init] | cbn [ex_addrs export_init] | reflexivity]; rewrite length_replicate; reflexivity. Qed.

(** The first second: [every_second] only allocates its working copies. *)
Lemma init_state_ok now0 now1 ts g :
  length (sh_flow_stats g) = 6%nat -> 0 <= tv_sec ts ->
  every_second true now0 now1 ts g statproc_init = Val (_init_state (fun _ => true) ts g statproc_init) /\
  sp_ready (_init_state (fun _ => true) ts g statproc_init) /\ clock (_init_state (fun _ => true) ts g statproc_init) (tv_sec ts).
Proof.
  intros Hg Ht. split; [reflexivity |]. split.
  - split.
    + destruct init_tables. by split.
    + exact Hg.
    + exists zero_sharedif. exact (conj eq_refl zero_block_typed).
    + exists zero_sharedif. exact (conj eq_refl zero_block_typed).
    + exact (length_ptrs SI_NUM_STREAMS ltac:(discriminate)).
    + exact (length_ptrs SI_NUM_PROTOS ltac:(discriminate)).
    + split; [exact (length_ptrs SI_NUM_ADDRS ltac:(discriminate)) |
              exact (length_ptrs (SI_NUM_ADDRS / 2) ltac:(discriminate)) ..].
    + exact init_idle.
  - unfold clock. change (sec_i (_init_state (fun _ => true) ts g statproc_init)) with (tv_sec ts mod 60).
    change (tlast_min (_init_state (fun _ => true) ts g statproc_init)) with (tv_sec ts / 60 * 60). clia.
Qed.

Lemma flows_len g : block_typed g -> length (sh_flow_stats g) = 6%nat.
Proof. intros H. destruct (bt_flows _ H) as [_ Hl]. unfold SI_NUM_FLOWTYPES in Hl. lia. Qed.

(** The block of the capture process, while its invariant holds. *)
Lemma capture_block_ready s : shm_inv s -> shm_typed s -> (exists i, i ∈ live_streams (g_shm s)) -> block_ready (g_shm s).
Proof.
  intros Hi [Ht _ _] Hl. destruct Hi as [_ _ _ _ _ [_ _ L1 _ L2 L3 _ _] [_ _ A1 _ A2 A3 _ _] [_ _ S1 _ S2 S3 _ _] _ _].
  cbn [idx_max lan_mga wan_mga streams_mga] in *. change (SI_NUM_STREAMS - 1) with 32767 in S3. change (SI_NUM_ADDRS - 1) with 16383 in A3.
  split; [exact Ht | | | | exact Hl]; unfold window_ok; change (SI_NUM_ADDRS / 2) with 8192; unfold SI_NUM_STREAMS, SI_NUM_ADDRS; lia.
Qed.

(** A stream in use is inside the window the reports look at. *)
Lemma stream_live s i e : shm_inv s -> stream_at s i e -> tv_sec (si_tstart e) <> 0 -> i ∈ live_streams (g_shm s).
Proof.
  intros Hi He Hz. pose proof (aget_inv _ _ _ He) as Hb. pose proof (sv_streams _ Hi) as Hlen. unfold SI_NUM_STREAMS in Hlen.
  assert (taken (sh_streams (g_shm s)) i = true) as Ht.
  { unfold taken. unfold stream_at in He. rewrite He. apply bool_decide_eq_true.
    unfold entry_status, isempty_func, stream_isempty_func. cbn. by rewrite (proj2 (Z.eqb_neq _ _)). }
  pose proof (live_inside _ _ _ i (sv_str _ Hi) ltac:(cbn; lia) Ht) as Hw.
  apply in_filter. split.
  - pose proof (inv_lo_nonneg _ _ _ (sv_str _ Hi)) as Hlo. pose proof (inv_hi _ _ _ (sv_str _ Hi)) as Hhi.
    cbn [idx_min idx_max streams_mga] in *. change (SI_NUM_STREAMS - 1) with 32767 in Hhi. unfold window, is_u32 in *. apply elem_of_seqZ.
    rewrite !u32_small by (unfold is_u32; lia). lia.
  - unfold live_stream. unfold stream_at in He. rewrite He. unfold IS_EMPTY_SLOT. by rewrite (proj2 (Z.eqb_neq _ _)).
Qed.

(** ** One second *)

(** What the second did: a report when a minute has passed, else nothing visible. *)
Definition ticked (t : Z) (sp sp' : statproc_t) : Prop :=
  if 60 <=? t - tlast_min sp
  then tlast_min sp' = t / 60 * 60 /\ gProfileNumMins sp' = u32 (gProfileNumMins sp + 1) /\
    exists n body, out (sp_export sp') = (out (sp_export sp) +:+ start_line t n) +:+ body +:+ end_line
  else tlast_min sp' = tlast_min sp /\ gProfileNumMins sp' = gProfileNumMins sp /\
    out (sp_export sp') = out (sp_export sp).

(** A state the process can go on from at a second after [t]. *)
Record running (t : Z) (sp : statproc_t) : Prop := {
  rn_ready : sp_ready sp;
  rn_init : initialized sp <> 0;
  rn_clock : clock sp t
}.

Lemma written_ready sp g sp1 n :
  sp_ready sp -> length (sh_flow_stats g) = 6%nat ->
  rows_written (set_stats_cur_sec (second_stats g) sp) (seqZ 0 SI_NUM_FLOWTYPES) sp1 ->
  let sp' := set_stats_last_sec (second_stats g) (set_sec_i n sp1) in
  sp_ready sp' /\ initialized sp' = initialized sp /\ tlast_min sp' = tlast_min sp /\
  gProfileNumMins sp' = gProfileNumMins sp /\ sp_export sp' = sp_export sp.
Proof.
  intros [Rr Rl Rc R2 R3 R4 R5 R6] Hg [Hsame [Ht1 Ht2] _ _ _].
  rewrite Hsame. cbv zeta. split; [| by repeat split]. split; try assumption. by split.
Qed.

Lemma tick_ok now0 now1 ts g t sp :
  running t sp -> t < tv_sec ts -> is_u32 (tv_sec ts) -> block_typed g ->
  (60 <= tv_sec ts - tlast_min sp -> block_ready g) ->
  returns (fun sp' => running (tv_sec ts) sp' /\ ticked (tv_sec ts) sp sp') (every_second true now0 now1 ts g sp).
Proof.
  intros [Hr Hi Hc] Hlt Hts Hg%flows_len Hb.
  destruct Hc as (C1 & C2 & C3).
  destruct (every_second_step true now0 now1 ts g sp Hi (sr_rows _ Hr) (sr_last_sec _ Hr) Hg ltac:(lia) ltac:(lia) Hts)
    as (sp1 & Hw & ->).
  destruct (written_ready sp g sp1 (sec_i sp + 1) Hr Hg Hw) as (Hr' & E1 & E2 & E3 & E4).
  set (sp' := set_stats_last_sec _ _) in *. unfold ticked.
  destruct (Z.leb_spec 60 (tv_sec ts - tlast_min sp)) as [Hm | Hm].
  - apply (returns_weaken _ _ _ (check_minute_ok now0 now1 (tv_sec ts) g sp' Hr' (Hb Hm) ltac:(lia))).
    intros sp2 (R1 & R2 & R3 & R4 & R5 & R6 & _ & _ & _ & body & R7). rewrite E3 in R4. rewrite E4 in R7. split; [split |].
    + exact R1.
    + by rewrite R2, E1.
    + unfold clock. rewrite R5, R6. clia.
    + split; [exact R6 |]. split; [exact R4 |]. by eexists (sec_i sp'), _.
  - cbn [returns]. split; [split; [exact Hr' | by rewrite E1 |] |].
    + unfold clock. rewrite E2. change (sec_i sp') with (sec_i sp + 1). lia.
    + split; [exact E2 |]. split; [exact E3 | by rewrite E4].
Qed.

(** ** Runs of seconds *)

(** The second of a call, and the block at that moment. *)
Record tick := mk_tick { tk_sec : Z; tk_block : sharedif_t; tk_now0 : Z; tk_now1 : Z }.

Definition do_tick (k : tick) (sp : statproc_t) : res statproc_t :=
  every_second true (tk_now0 k) (tk_now1 k) (mk_tval_t (tk_sec k) 0) (tk_block k) sp.

(** Seconds increase from [t] on. *)
Fixpoint increasing (t : Z) (l : list tick) : Prop :=
  match l with [] => True | k :: l => t < tk_sec k /\ is_u32 (tk_sec k) /\ increasing (tk_sec k) l end.

(** The calls at which a report is due, from the start [tl] of the current minute. *)
Fixpoint due (tl : Z) (l : list tick) : list tick :=
  match l with
  | [] => []
  | k :: l => if 60 <=? tk_sec k - tl then k :: due (tk_sec k / 60 * 60) l else due tl l
  end.

(** The output after reports at these seconds. *)
Inductive report_log : list Z -> string -> string -> Prop :=
| log_nil o : report_log [] o o
| log_cons t n body ts o o' :
    report_log ts ((o +:+ start_line t n) +:+ body +:+ end_line) o' -> report_log (t :: ts) o o'.

Definition last_sec_of (t : Z) (l : list tick) : Z := match last l with Some k => tk_sec k | None => t end.

Lemma last_sec_cons t k l : last_sec_of t (k :: l) = last_sec_of (tk_sec k) l.
Proof. unfold last_sec_of. destruct l as [| k' l]; [done |]. change (last (k :: k' :: l)) with (last (k' :: l)).
  destruct (last (k' :: l)) eqn:E; [done |]. by apply last_None in E.
Qed.

Lemma run_ticks t l sp :
  running t sp -> increasing t l -> Forall (fun k => block_typed (tk_block k)) l ->
  Forall (fun k => block_ready (tk_block k)) (due (tlast_min sp) l) ->
  returns (fun sp' => running (last_sec_of t l) sp' /\
      report_log (tk_sec <$> due (tlast_min sp) l) (out (sp_export sp)) (out (sp_export sp')) /\
      gProfileNumMins sp' mod 4294967296 =
        (gProfileNumMins sp + Z.of_nat (length (due (tlast_min sp) l))) mod 4294967296 /\
      (due (tlast_min sp) l = [] -> tlast_min sp' = tlast_min sp))
    (for_each do_tick l sp).
Proof.
  revert t sp. induction l as [| k l IH]; intros t sp Hr Hinc Hf Hd.
  { cbn. split; [exact Hr |]. split; [constructor |]. split; [by rewrite Z.add_0_r | done]. }
  destruct Hinc as (Hlt & Hu & Hinc). apply Forall_cons in Hf as [Hf1 Hf]. cbn [due] in Hd |- *.
  rewrite last_sec_cons. cbn [for_each].
  assert (60 <= tk_sec k - tlast_min sp -> block_ready (tk_block k)) as Hb.
  { intros Hm. rewrite (proj2 (Z.leb_le _ _)) in Hd by lia. by apply Forall_cons in Hd as [Hd _]. }
  apply (returns_bind _ _ _ _ (tick_ok (tk_now0 k) (tk_now1 k) (mk_tval_t (tk_sec k) 0) (tk_block k) t sp Hr Hlt Hu Hf1 Hb)).
  cbn [tv_sec]. intros sp1 [Hr1 Ht]. unfold ticked in Ht.
  destruct (60 <=? tk_sec k - tlast_min sp); destruct Ht as (T1 & T2 & T3).
  - apply Forall_cons in Hd as [_ Hd]. rewrite <- T1 in Hd |- *.
    apply (returns_weaken _ _ _ (IH _ _ Hr1 Hinc Hf Hd)). intros sp' (R1 & R2 & R3 & _).
    destruct T3 as (n & body & T3). split; [exact R1 |]. split; [econstructor; rewrite <- T3; exact R2 |].
    split; [| done]. cbn [length]. rewrite R3, T2. unfold u32. rewrite Zplus_mod_idemp_l. f_equal. lia.
  - rewrite <- T1 in Hd |- *. apply (returns_weaken _ _ _ (IH _ _ Hr1 Hinc Hf Hd)). intros sp' (R1 & R2 & R3).
    split; [exact R1 |]. rewrite <- T3, <- T2. by split.
Qed.

Lemma increasing_app t l1 l2 : increasing t (l1 ++ l2) -> increasing t l1 /\ increasing (last_sec_of t l1) l2.
Proof.
  revert t. induction l1 as [| k l1 IH]; intros t; [done |]. cbn [app increasing]. intros (H1 & H2 & H3).
  rewrite last_sec_cons. destruct (IH _ H3) as [H4 H5]. done.
Qed.

(** The first call at which a report is due. *)
Lemma due_first tl l : due tl l <> [] -> exists pre k post, l = pre ++ k :: post /\ due tl pre = [] /\
  60 <= tk_sec k - tl /\ due tl l = k :: due (tk_sec k / 60 * 60) post.
Proof.
  induction l as [| k l IH]; [done |]. cbn [due]. destruct (Z.leb_spec 60 (tk_sec k - tl)) as [H | H].
  - intros _. by exists [], k, l.
  - intros Hd. destruct (IH Hd) as (pre & k' & post & -> & H1 & H2 & H3). exists (k :: pre), k', post.
    split; [done |]. cbn [due]. by rewrite (proj2 (Z.leb_gt _ _)) by lia.
Qed.

Lemma due_reached t tl l : increasing t l -> t - tl < 60 -> 60 <= last_sec_of t l - tl -> due tl l <> [].
Proof.
  revert t. induction l as [| k l IH]; intros t; [cbn; lia |]. intros (H1 & H2 & H3) Ht. rewrite last_sec_cons. intros Hl.
  cbn [due]. destruct (Z.leb_spec 60 (tk_sec k - tl)); [done |]. by apply (IH (tk_sec k)).
Qed.

(** ** Properties *)

(** C8: reports keep coming.  From a state between two reports, let increasing seconds
    find well typed blocks, any at all, and reach 60 seconds past the start of the
    current minute; let the first second at which they do find a block that a report can
    be made of ([block_ready]): with a live stream, and with the windows of the three
    managed arrays in order inside their arrays; and let the allocations of the report
    succeed.  Then all the calls before that second return without output, and the call
    at that second returns and prints one complete report, from its START line to its
    END line.  The state is then again one the process can go on from, at the start of
    the next minute. *)
Theorem report_within_minute t l sp
    (Hrun : running t sp) (Hinc : increasing t l) (Htyped : Forall (fun k => block_typed (tk_block k)) l)
    (Hready : forall k, head (due (tlast_min sp) l) = Some k -> block_ready (tk_block k))
    (Hreach : 60 <= last_sec_of t l - tlast_min sp) :
  exists pre k post sp1 sp2, l = pre ++ k :: post /\
    for_each do_tick pre sp = Val sp1 /\ out (sp_export sp1) = out (sp_export sp) /\
    do_tick k sp1 = Val sp2 /\
    (exists n body, out (sp_export sp2) = (out (sp_export sp) +:+ start_line (tk_sec k) n) +:+ body +:+ end_line) /\
    tlast_min sp2 = tk_sec k / 60 * 60 /\ running (tk_sec k) sp2.
Proof.
  destruct (due_first (tlast_min sp) l) as (pre & k & post & -> & Hpre & Hk & Hdue).
  { apply (due_reached t); [done | apply (rn_clock _ _ Hrun) | done]. }
  destruct (increasing_app _ _ _ Hinc) as [Hi1 (Hlt & Hu & Hi2)]. apply Forall_app in Htyped as [Ht1 [Ht2 _]%Forall_cons].
  destruct (returns_Val _ _ (run_ticks t pre sp Hrun Hi1 Ht1 ltac:(by rewrite Hpre))) as (sp1 & E1 & R1 & L1 & _ & T1).
  rewrite Hpre in L1, T1. assert (out (sp_export sp1) = out (sp_export sp)) as E3 by (by inversion L1). specialize (T1 eq_refl).
  destruct (returns_Val _ _ (tick_ok (tk_now0 k) (tk_now1 k) (mk_tval_t (tk_sec k) 0) (tk_block k) _ sp1 R1 Hlt Hu Ht2
    ltac:(intros _; apply Hready; by rewrite Hdue))) as (sp2 & E4 & R2 & Htick).
  cbn [tv_sec] in R2, Htick. unfold ticked in Htick. rewrite T1, (proj2 (Z.leb_le _ _)) in Htick by lia.
  destruct Htick as (H1 & _ & H3). rewrite E3 in H3.
  exists pre, k, post, sp1, sp2. by repeat (split; [done |]).
Qed.

(** ** Witnesses *)
Module ClockTest.
Import ReportsTest.

Lemma stream7_typed : stream_typed stream7.
Proof. split; vm_compute; intuition discriminate. Qed.

Lemma block7_ready : block_ready block7.
Proof.
  assert (arr_typed stream_typed SI_NUM_STREAMS (<[Z.to_nat 16384 := stream7]> (sh_streams zero_sharedif))) as Hs.
  { destruct (bt_streams _ zero_block_typed) as [H1 H2]. split; [| by rewrite length_insert].
    apply Forall_insert; [exact H1 | exact stream7_typed]. }
  assert (block_typed block7) as Hb.
  { destruct zero_block_typed. split; try assumption. split; vm_compute; intuition discriminate. }
  split; [exact Hb | | | | exists 16384]; [split; [split |]; discriminate .. |].
  apply in_filter. split; [apply elem_of_seqZ; split; [discriminate | reflexivity] |].
  unfold live_stream, block7. cbn [sh_streams set_sh_stream_indexes set_sh_streams].
  rewrite aget_insert_eq; [reflexivity |]. rewrite (proj2 (bt_streams _ zero_block_typed)). split; [discriminate | reflexivity].
Qed.

Lemma sp_1009_running : running 1009 sp_1009.
Proof.
  destruct (init_state_ok 0 0 (mk_tval_t 1009 0) zero_sharedif) as (_ & H2 & H3);
    [exact (flows_len _ zero_block_typed) | discriminate |].
  split; [exact H2 | discriminate | exact H3].
Qed.

Lemma minute_report_completes_witness :
  exists sp', check_minute true 0 0 1020 block7 sp_1009 = Val sp' /\ tlast_min sp' = 1020.
Proof.
  destruct (minute_report_completes 0 0 1020 block7 sp_1009) as (sp' & H1 & H2).
  - exact (rn_ready _ _ sp_1009_running).
  - exact block7_ready.
  - discriminate.
  - exists sp'. split; [exact H1 |]. destruct H2 as (_ & _ & _ & _ & _ & H & _). exact H.
Defined.

Definition two_ticks : list tick := [mk_tick 1010 block7 0 0; mk_tick 1021 block7 0 0].

Lemma report_within_minute_witness :
  exists pre k post sp1 sp2, two_ticks = pre ++ k :: post /\ for_each do_tick pre sp_1009 = Val sp1 /\
    do_tick k sp1 = Val sp2 /\ tlast_min sp2 = tk_sec k / 60 * 60.
Proof.
  destruct (report_within_minute 1009 two_ticks sp_1009)
    as (pre & k & post & sp1 & sp2 & H1 & H2 & _ & H3 & _ & H4 & _).
  - exact sp_1009_running.
  - split; [reflexivity |]. split; [split; [discriminate | reflexivity] |]. split; [reflexivity |].
    split; [split; [discriminate | reflexivity] | exact I].
  - constructor; [exact (br_ok _ block7_ready) |]. constructor; [exact (br_ok _ block7_ready) | constructor].
  - intros k Hk. change (Some (mk_tick 1021 block7 0 0) = Some k) in Hk. injection Hk as <-. exact block7_ready.
  - discriminate.
  - exists pre, k, post, sp1, sp2. exact (conj H1 (conj H2 (conj H3 H4))).
Defined.
End ClockTest.
