(* ===== verification/Seconds.v ===== *)
(** The per second table over a minute: which column each second writes, and the lines of
    the report that print the table. *)
From S2P Require Import Prelude Structs Format ShmData Export StatProc Reports Typing ReportRun Clock.
From stdpp Require Import list.
#[local] Open Scope Z_scope.

(** ** One second *)

(** Column [c] holds, for every flow type, the growth of its counters from [prev] to [cur]. *)
Definition column (c : Z) (prev cur : second_stats_t) (rows : list (list flow_stats_t)) : Prop :=
  forall i, 0 <= i < 6 -> exists d, second_delta prev cur i d /\ cell rows i c = Some d.

(** The tables agree outside of the columns from [c] up to [c']. *)
Definition outside_same (c c' : Z) (rows rows' : list (list flow_stats_t)) : Prop :=
  forall i k, k < c \/ c' <= k -> cell rows' i k = cell rows i k.

Lemma tick_column k t sp :
  running t sp -> t < tk_sec k -> is_u32 (tk_sec k) -> block_typed (tk_block k) ->
  (60 <= tk_sec k - tlast_min sp -> block_ready (tk_block k)) ->
  returns (fun sp' => running (tk_sec k) sp' /\ stats_last_sec sp' = second_stats (tk_block k) /\
      column (sec_i sp) (stats_last_sec sp) (second_stats (tk_block k)) (sec_flows sp') /\
      outside_same (sec_i sp) (sec_i sp + 1) (sec_flows sp) (sec_flows sp') /\
      if 60 <=? tk_sec k - tlast_min sp
      then sec_i sp' = tk_sec k mod 60 /\ tlast_min sp' = tk_sec k / 60 * 60 /\
        exists P B body, out (sp_export sp') = (out (sp_export sp) +:+ start_line (tk_sec k) (sec_i sp + 1)) +:+
          (total_line P B +:+ second_lines (sec_flows sp') +:+ body) +:+ end_line
      else sec_i sp' = sec_i sp + 1 /\ tlast_min sp' = tlast_min sp /\ out (sp_export sp') = out (sp_export sp))
    (do_tick k sp).
Proof.
  intros [Hr Hi Hc] Hlt Hts Ht Hb. pose proof (flows_len _ Ht) as Hg. destruct Hc as (C1 & C2 & C3). unfold do_tick.
  destruct (every_second_step true (tk_now0 k) (tk_now1 k) (mk_tval_t (tk_sec k) 0) (tk_block k) sp Hi (sr_rows _ Hr)
    (sr_last_sec _ Hr) Hg ltac:(lia) ltac:(cbn; lia) Hts) as (sp1 & Hw & ->). cbn [tv_sec].
  destruct (written_ready sp _ sp1 (sec_i sp + 1) Hr Hg Hw) as (Hr' & E1 & E2 & E3 & E4).
  assert (column (sec_i sp) (stats_last_sec sp) (second_stats (tk_block k)) (sec_flows sp1)) as Hcol.
  { intros i Hi6. apply (rw_done _ _ _ Hw). apply elem_of_seqZ. exact Hi6. }
  assert (outside_same (sec_i sp) (sec_i sp + 1) (sec_flows sp) (sec_flows sp1)) as Hout.
  { intros i c Hc. apply (rw_rest _ _ _ Hw). right. change (c <> sec_i sp). lia. }
  set (sp' := set_stats_last_sec _ _) in *.
  destruct (Z.leb_spec 60 (tk_sec k - tlast_min sp)) as [Hm | Hm].
  - apply (returns_weaken _ _ _ (check_minute_ok (tk_now0 k) (tk_now1 k) (tk_sec k) (tk_block k) sp' Hr' (Hb Hm) ltac:(lia))).
    intros sp2 (R1 & R2 & R3 & _ & R5 & R6 & _ & _ & R9 & body & R10). rewrite E4 in R10. rewrite R9.
    split; [split; [exact R1 | by rewrite R2, E1 | unfold clock; rewrite R5, R6; clia] |].
    split; [exact R3 |]. split; [exact Hcol |]. split; [exact Hout |]. split; [exact R5 |]. split; [exact R6 |]. by eexists _, _, body.
  - cbn [returns]. split; [split; [exact Hr' | by rewrite E1 | unfold clock; rewrite E2; change (sec_i sp') with (sec_i sp + 1); lia] |].
    split; [done |]. split; [exact Hcol |]. split; [exact Hout |]. split; [done |]. split; [exact E2 | by rewrite E4].
Qed.

(** ** A minute *)

(** From column [c] on, one column for each reading, each against the one before. *)
Fixpoint columns (c : Z) (prev : second_stats_t) (l : list second_stats_t) (rows : list (list flow_stats_t)) : Prop :=
  match l with
  | [] => True
  | cur :: l => column c prev cur rows /\ columns (c + 1) cur l rows
  end.

(** What the calls read. *)
Definition readings (l : list tick) : list second_stats_t := second_stats <$> (tk_block <$> l).

Lemma column_kept c c' c1 prev cur rows rows' :
  column c prev cur rows -> outside_same c1 c' rows rows' -> c < c1 -> column c prev cur rows'.
Proof. intros H Ho Hc i Hi. destruct (H i Hi) as (d & Hd & Hcell). exists d. split; [exact Hd |]. rewrite Ho; [exact Hcell | by left]. Qed.

Lemma last_cons {A} (l : list A) : forall x d, List.last (x :: l) d = List.last l x.
Proof. induction l as [| y l IH]; intros x d; [done |]. change (List.last (x :: y :: l) d) with (List.last (y :: l) d). by rewrite !IH. Qed.

Lemma columns_snoc x rows l : forall c prev,
  columns c prev l rows -> column (c + Z.of_nat (length l)) (List.last l prev) x rows -> columns c prev (l ++ [x]) rows.
Proof.
  induction l as [| y l IH]; intros c prev; cbn [columns app].
  - rewrite Z.add_0_r. by split.
  - rewrite last_cons. intros [H1 H2] H3. split; [exact H1 |]. apply IH; [exact H2 |].
    cbn [length] in H3. by replace (c + 1 + Z.of_nat (length l)) with (c + Z.of_nat (S (length l))) by lia.
Qed.

Lemma columns_kept l rows rows' c' c1 : forall c prev,
  columns c prev l rows -> outside_same c1 c' rows rows' -> c + Z.of_nat (length l) <= c1 -> columns c prev l rows'.
Proof.
  induction l as [| y l IH]; intros c prev; [done |]. cbn [columns length]. intros [H1 H2] Ho Hc.
  split; [apply (column_kept _ _ _ _ _ _ _ H1 Ho); lia | apply (IH _ _ H2 Ho); lia].
Qed.

Lemma outside_trans c c1 c2 r0 r1 r2 : outside_same c c1 r0 r1 -> outside_same c1 c2 r1 r2 -> c <= c1 <= c2 -> outside_same c c2 r0 r2.
Proof. intros H1 H2 Hc i k Hk. rewrite H2, H1 by lia. done. Qed.

(** Seconds at which no report is due. *)
Lemma ticks_columns l : forall t sp,
  running t sp -> increasing t l -> Forall (fun k => block_typed (tk_block k)) l -> due (tlast_min sp) l = [] ->
  returns (fun sp' => running (last_sec_of t l) sp' /\ sec_i sp' = sec_i sp + Z.of_nat (length l) /\
      columns (sec_i sp) (stats_last_sec sp) (readings l) (sec_flows sp') /\
      outside_same (sec_i sp) (sec_i sp') (sec_flows sp) (sec_flows sp') /\
      stats_last_sec sp' = List.last (readings l) (stats_last_sec sp) /\
      tlast_min sp' = tlast_min sp /\ out (sp_export sp') = out (sp_export sp))
    (for_each do_tick l sp).
Proof.
  induction l as [| k l IH]; intros t sp Hr Hinc Hf Hd.
  { cbn [for_each returns]. split; [exact Hr |]. split; [by rewrite Z.add_0_r |]. by repeat split. }
  destruct Hinc as (Hlt & Hu & Hinc). apply Forall_cons in Hf as [Hf1 Hf]. cbn [due] in Hd.
  destruct (Z.leb_spec 60 (tk_sec k - tlast_min sp)) as [| Hm]; [done |]. cbn [for_each].
  apply (returns_bind _ _ _ _ (tick_column k t sp Hr Hlt Hu Hf1 ltac:(lia))). intros sp1 (R1 & R2 & R3 & R4 & R5).
  rewrite (proj2 (Z.leb_gt 60 _)) in R5 by lia. destruct R5 as (R5 & R6 & R7). rewrite <- R6 in Hd.
  apply (returns_weaken _ _ _ (IH _ _ R1 Hinc Hf Hd)). intros sp' (S1 & S2 & S3 & S4 & S5 & S6 & S7).
  rewrite R2 in S3, S5. rewrite R5 in S2, S3, S4. rewrite last_sec_cons. cbn [length]. split; [exact S1 |]. split; [lia |]. split; [split |].
  - apply (column_kept _ _ _ _ _ _ _ R3 S4). lia.
  - exact S3.
  - split; [apply (outside_trans _ _ _ _ _ _ R4 S4); lia |]. split; [| split; congruence].
    rewrite S5. unfold readings. rewrite !fmap_cons. symmetry. apply last_cons.
Qed.


(** ** Witness *)
Module SecondsTest.
Import ReportsTest ClockTest.

End SecondsTest.
