(* ===== verification/ReplayClock.v ===== *)
(** The clock when a capture file is replayed: [sim_before_packet] runs the seconds of
    the statistics process from the timestamps of the packets. *)
From S2P Require Import Prelude Structs Counters Format Export StatProc Reports Typing ReportRun Clock.
From stdpp Require Import list.
#[local] Open Scope Z_scope.

(** A call with the block it finds. *)
Record stamp := mk_stamp { sp_ts : tval_t; sp_block : sharedif_t; sp_now0 : Z; sp_now1 : Z }.

Definition do_stamp (p : stamp) (st : tval_t * statproc_t) : res (tval_t * statproc_t) :=
  sim_before_packet true (sp_now0 p) (sp_now1 p) (sp_ts p) (sp_block p) (fst st) (snd st).

Definition tval_le (a b : tval_t) : Prop := tval_us a <= tval_us b.

(** Normalised timestamps after the epoch's first second, none before [t]. *)
Fixpoint in_order (t : tval_t) (l : list stamp) : Prop :=
  match l with
  | [] => True
  | p :: l => tval_norm (sp_ts p) /\ 1 <= tv_sec (sp_ts p) < 4294967296 /\ tval_le t (sp_ts p) /\ in_order (sp_ts p) l
  end.

(** Two timestamps of one second are never a second apart. *)
Lemma same_second_short a b :
  tval_norm a -> tval_norm b -> tval_le a b -> tv_sec a = tv_sec b -> tval_diff_ms a b < 1000.
Proof.
  intros [Ha _] [Hb _] Hle Hs. unfold tval_le, tval_us in Hle. unfold tval_diff_ms. rewrite Hs, Z.sub_diag in *.
  rewrite (proj2 (Z.ltb_ge _ _)) by lia. change (u32 (u32 0 * 1000)) with 0. rewrite Z.add_0_l.
  assert ((tv_usec b - tv_usec a) / 1000 < 1000) by (apply Z.div_lt_upper_bound; lia).
  assert (0 <= (tv_usec b - tv_usec a) / 1000) by (apply Z.div_pos; lia).
  rewrite u32_small by (unfold is_u32; lia). lia.
Qed.

(** The state between two calls, the last one handled at [last]. *)
Definition replaying (st : tval_t * statproc_t) : Prop :=
  (snd st = statproc_init \/ 1 <= tv_sec (fst st) /\ running (tv_sec (fst st)) (snd st)) /\
  exists ts, report_log ts "" (out (sp_export (snd st))).

Lemma log_more ts o o1 o' t n body :
  report_log ts o o1 -> o' = (o1 +:+ start_line t n) +:+ body +:+ end_line -> exists ts', report_log ts' o o'.
Proof.
  intros Hl ->. exists (ts ++ [t]). induction Hl; [econstructor; constructor | econstructor; eassumption].
Qed.

Lemma stamp_ok p last sp :
  replaying (last, sp) -> tval_norm last -> tval_le last (sp_ts p) -> tval_norm (sp_ts p) ->
  1 <= tv_sec (sp_ts p) < 4294967296 -> block_ready (sp_block p) ->
  returns (fun st => replaying st /\ tval_norm (fst st) /\ tval_le (fst st) (sp_ts p)) (do_stamp p (last, sp)).
Proof.
  intros [Hr (ts & Hl)] Hn Hle Hn' Hs Hb. unfold do_stamp, sim_before_packet. cbn [fst snd] in *.
  assert (tval_le (sp_ts p) (sp_ts p)) as Hrefl by (unfold tval_le; lia).
  destruct (Z.eqb_spec (tv_sec last) 0) as [Hz | Hnz].
  { cbn [returns]. split; [| done]. split; [| by exists ts]. destruct Hr as [-> | [Hpos _]]; [by left | lia]. }
  destruct (Z.leb_spec 1000 (tval_diff_ms last (sp_ts p))) as [Hms | Hms].
  2: { cbn [returns]. split; [by split; [| exists ts] | done]. }
  assert (tv_sec last < tv_sec (sp_ts p)) as Hlt.
  { destruct (Z.lt_trichotomy (tv_sec last) (tv_sec (sp_ts p))) as [| [He | Hgt]]; [done | |].
    - pose proof (same_second_short _ _ Hn Hn' Hle He). lia.
    - unfold tval_le, tval_us, tval_norm in *. lia. }
  apply (returns_bind (fun sp' => running (tv_sec (sp_ts p)) sp' /\ exists ts, report_log ts "" (out (sp_export sp')))).
  - pose proof (br_ok _ Hb) as Ht. destruct Hr as [-> | [_ Hr]].
    + destruct (init_state_ok (sp_now0 p) (sp_now1 p) (sp_ts p) (sp_block p) (flows_len _ Ht) ltac:(lia)) as (-> & S1 & S2).
      cbn [returns]. split; [split; [exact S1 | discriminate | exact S2] |]. by exists ts.
    + eapply returns_weaken; [apply (tick_ok _ _ (sp_ts p) _ _ sp Hr Hlt); [unfold is_u32; lia | exact Ht | done] |].
      intros sp' [Hr' Hk]. split; [exact Hr' |]. unfold ticked in Hk.
      destruct (60 <=? _); destruct Hk as (_ & _ & Hk); [| exists ts; by rewrite Hk].
      destruct Hk as (m & body & Hk). by eapply log_more.
  - intros sp' [Hr' Hl']. cbn [returns fst snd]. split; [split; [right; cbn [fst snd]; split; [lia | exact Hr'] | exact Hl'] | done].
Qed.

(** A call when the table's index is past its end. *)
Lemma every_second_aborts ok now0 now1 ts g sp :
  initialized sp <> 0 -> sec_tables sp -> length (ss_flow_stats (stats_last_sec sp)) = 6%nat ->
  length (sh_flow_stats g) = 6%nat -> sec_i sp = 60 -> every_second ok now0 now1 ts g sp = Asserted.
Proof.
  intros Hi Ht Hl Hg Hs. unfold every_second. rewrite (proj2 (Z.eqb_neq _ _) Hi).
  destruct (second_rows (set_stats_cur_sec (second_stats g) sp)) as (sp1 & -> & [Hsame _ _ _ _]); try done.
  { destruct Ht. by split. }
  { change (sec_i (set_stats_cur_sec (second_stats g) sp)) with (sec_i sp). lia. }
  rewrite bind_Val. cbv zeta. change (sec_i (set_sec_i (sec_i sp1 + 1) sp1)) with (sec_i sp1 + 1).
  assert (sec_i sp1 = 60) as -> by (rewrite Hsame; exact Hs). reflexivity.
Qed.

(** A replay in order leads to a state between two calls. *)
Lemma replay_ok l : Forall (fun p => block_ready (sp_block p)) l ->
  forall t last sp, replaying (last, sp) -> tval_norm last -> tval_le last t -> in_order t l ->
  returns (fun st => replaying st /\ tval_norm (fst st)) (for_each do_stamp l (last, sp)).
Proof.
  induction 1 as [| p l Hp _ IH]; intros t last sp Hr Hn Hle Hin; [by split |].
  destruct Hin as (H1 & H2 & H3 & H4). cbn [for_each]. assert (tval_le last (sp_ts p)) as Hle' by (unfold tval_le in *; lia).
  apply (returns_bind _ _ _ _ (stamp_ok p last sp Hr Hn Hle' H1 H2 Hp)).
  intros [last' sp'] (R1 & R2 & R3). by apply (IH (sp_ts p)).
Qed.

Lemma replay_from_start l : in_order zero_tval l -> Forall (fun p => block_ready (sp_block p)) l ->
  exists last sp, for_each do_stamp l (zero_tval, statproc_init) = Val (last, sp) /\ replaying (last, sp) /\ tval_norm last.
Proof.
  intros Hl Hb. destruct (returns_Val _ _ (replay_ok l Hb zero_tval zero_tval statproc_init
    ltac:(split; [by left | exists []; constructor]) ltac:(by repeat split) ltac:(unfold tval_le; lia) Hl))
    as ([last sp] & E & R). by exists last, sp.
Qed.

(** ** Timestamps that run backwards *)

(** Less than a second back: across a second the difference of the seconds wraps, and
    inside one it borrows. *)
Lemma backwards_long a b : tval_norm a -> tval_norm b -> tval_us b < tval_us a < tval_us b + 1000000 -> tv_sec a < 4294967296 ->
  1000 <= tval_diff_ms a b.
Proof.
  intros [Ha Ha'] [Hb Hb'] Hlt Hs. unfold tval_us in Hlt. unfold tval_diff_ms.
  assert (tv_sec b = tv_sec a \/ tv_sec b = tv_sec a - 1) as [E | E] by lia; rewrite E in *.
  - rewrite Z.sub_diag, (proj2 (Z.ltb_lt _ _)) by lia. change (u32 (u32 0 * 1000)) with 0. clia.
  - rewrite (proj2 (Z.ltb_ge _ _)) by lia. replace (tv_sec a - 1 - tv_sec a) with (-1) by lia.
    change (u32 (u32 (-1) * 1000)) with 4294966296. clia.
Qed.

(** Packets with typed blocks in the minute that starts at [tl], each before the one
    before it - the first before [t] - by less than a second. *)
Fixpoint backwards (tl : Z) (t : tval_t) (l : list stamp) : Prop :=
  match l with
  | [] => True
  | p :: l => tval_norm (sp_ts p) /\ Z.max 1 tl <= tv_sec (sp_ts p) < tl + 60 /\
      tval_us (sp_ts p) < tval_us t < tval_us (sp_ts p) + 1000000 /\ block_typed (sp_block p) /\ backwards tl (sp_ts p) l
  end.

(** Each of them is a call of [every_second]. *)
Lemma backward_stamp p last sp : tval_norm last -> 1 <= tv_sec last < 4294967296 -> tval_norm (sp_ts p) ->
  tval_us (sp_ts p) < tval_us last < tval_us (sp_ts p) + 1000000 ->
  do_stamp p (last, sp) = (sp' ← every_second true (sp_now0 p) (sp_now1 p) (sp_ts p) (sp_block p) sp; Val (sp_ts p, sp')).
Proof.
  intros Hn Hs Hn' Hlt. unfold do_stamp, sim_before_packet. cbn [fst snd]. rewrite (proj2 (Z.eqb_neq _ _)) by lia. cbv zeta.
  by rewrite (proj2 (Z.leb_le 1000 _)) by (apply backwards_long; [done .. | lia]).
Qed.

(** They fill the table's columns that are left, and the next one aborts. *)
Lemma replay_backwards l : forall last sp, sp_ready sp -> initialized sp <> 0 -> 0 <= sec_i sp <= 60 ->
  0 <= tlast_min sp < 4294967236 -> tval_norm last -> 1 <= tv_sec last < 4294967296 -> backwards (tlast_min sp) last l ->
  if Z.of_nat (length l) <=? 60 - sec_i sp
  then exists last' sp', for_each do_stamp l (last, sp) = Val (last', sp') /\ sec_i sp' = sec_i sp + Z.of_nat (length l) /\
    out (sp_export sp') = out (sp_export sp)
  else for_each do_stamp l (last, sp) = Asserted.
Proof.
  induction l as [| p l IH]; intros last sp Hr Hi Hs Htl Hn Hsec Hb.
  { rewrite (proj2 (Z.leb_le _ _)) by (cbn [length]; lia). exists last, sp. cbn [length]. split; [done | split; [lia | done]]. }
  destruct Hb as (Hn' & Hp & Hlt & Hg%flows_len & Hb). cbn [for_each length]. rewrite backward_stamp by done.
  destruct (Z.eq_dec (sec_i sp) 60) as [E | Hne].
  { rewrite (proj2 (Z.leb_gt _ _)) by lia.
    by rewrite every_second_aborts by (first [exact (sr_rows _ Hr) | exact (sr_last_sec _ Hr) | done]). }
  destruct (every_second_step true (sp_now0 p) (sp_now1 p) (sp_ts p) (sp_block p) sp Hi (sr_rows _ Hr) (sr_last_sec _ Hr) Hg
    ltac:(lia) ltac:(lia) ltac:(unfold is_u32; lia)) as (sp1 & Hw & ->).
  destruct (written_ready sp _ sp1 (sec_i sp + 1) Hr Hg Hw) as (Hr' & E1 & E2 & _ & E4).
  set (sp' := set_stats_last_sec _ _) in *. assert (sec_i sp' = sec_i sp + 1) as E3 by reflexivity.
  cbv zeta. rewrite (proj2 (Z.leb_gt 60 _)) by lia. rewrite !bind_Val.
  pose proof (IH (sp_ts p) sp' Hr' ltac:(by rewrite E1) ltac:(lia) ltac:(by rewrite E2) Hn' ltac:(lia) ltac:(by rewrite E2)) as H.
  rewrite E3, E4 in H. destruct (Z.leb_spec (Z.of_nat (length l)) (60 - (sec_i sp + 1))).
  2: { by rewrite (proj2 (Z.leb_gt _ _)) by lia. }
  rewrite (proj2 (Z.leb_le _ _)) by lia. destruct H as (last' & sp2 & H1 & H2 & H3). exists last', sp2. split; [exact H1 | split; [lia | exact H3]].
Qed.

(** ** Properties *)

(** C29: replaying packets in the order of their times.  From the program's start, let a
    file's timestamps be normalised, from second 1 on, in 32 bits, and never run backwards, and
    let every packet find a block that a report can be made of: typed, with a live
    stream, and with the windows of the three managed arrays in order inside their
    arrays.  When the allocations of the reports succeed, the file drives the statistics
    process without a failure: although the differences of [tval_diff_ms] are wrong
    whenever they borrow, a second is only counted when the seconds advance, so the
    assertion on the table's index holds.  What is printed is a sequence of complete
    reports. *)
Theorem replay_in_order l
    (Hl : in_order zero_tval l) (Hb : Forall (fun p => block_ready (sp_block p)) l) :
  exists last sp ts, for_each do_stamp l (zero_tval, statproc_init) = Val (last, sp) /\
    report_log ts "" (out (sp_export sp)).
Proof.
  destruct (replay_from_start l Hl Hb) as (last & sp & E & [_ (ts & Hlog)] & _). by exists last, sp, ts.
Qed.

(** C30: packets that are out of order by less than a second can abort a replay.  After
    a replay in order, of packets as in [replay_in_order], in which the statistics
    process has started, let packets with well typed blocks follow whose normalised
    timestamps run backwards, each by less than a second - the first from the last
    packet that counted a second - inside the current minute, which is not among the
    last of the 32 bit clock.  The borrow, or the wrap-around, makes each of these
    differences a second or more, so each packet counts one second although none has
    passed: if the columns that are left in the per second table, [60 - sec_i], are
    enough, [sec_i] has advanced by one for each packet and nothing was printed; if they
    are not, the assertion [sec_i <= 60] of [every_second] fails. *)
Theorem replay_backwards_aborts pre last sp l
    (Hpre : in_order zero_tval pre) (Hb : Forall (fun p => block_ready (sp_block p)) pre)
    (Hrun : for_each do_stamp pre (zero_tval, statproc_init) = Val (last, sp)) (Hi : initialized sp <> 0)
    (Htl : tlast_min sp < 4294967236) (Hl : backwards (tlast_min sp) last l) :
  let replay := for_each do_stamp (pre ++ l) (zero_tval, statproc_init) in
  if Z.of_nat (length l) <=? 60 - sec_i sp
  then exists last' sp', replay = Val (last', sp') /\ sec_i sp' = sec_i sp + Z.of_nat (length l) /\
    out (sp_export sp') = out (sp_export sp)
  else replay = Asserted.
Proof.
  destruct (replay_from_start pre Hpre Hb) as (last1 & sp1 & E & [Hr _] & Hn). rewrite Hrun in E. injection E as <- <-.
  cbv zeta. rewrite for_each_app, Hrun, bind_Val. cbn [fst snd] in Hr. destruct Hr as [-> | [Hpos [Hr _ Hc]]]; [by destruct Hi |].
  unfold clock in Hc. apply replay_backwards; [done | done | lia | lia | done | lia | exact Hl].
Qed.

(** ** Witnesses *)
Module ReplayClockTest.
Import ReportsTest ClockTest.

Lemma replay_in_order_witness :
  exists last sp ts, for_each do_stamp [mk_stamp (mk_tval_t 1009 900000) block7 0 0; mk_stamp (mk_tval_t 1010 100000) block7 0 0]
    (zero_tval, statproc_init) = Val (last, sp) /\ report_log ts "" (out (sp_export sp)).
Proof.
  apply replay_in_order.
  - vm_compute. intuition discriminate.
  - constructor; [exact block7_ready |]. constructor; [exact block7_ready | constructor].
Defined.

(** The packet at 1019 s starts the clock in the last second of a minute; of two more, each
    100 ms before the last, the second fails the assertion. *)
Definition ahead : list stamp := [mk_stamp (mk_tval_t 1018 0) block7 0 0; mk_stamp (mk_tval_t 1019 500000) block7 0 0].
Definition back : list stamp := [mk_stamp (mk_tval_t 1019 400000) block7 0 0; mk_stamp (mk_tval_t 1019 300000) block7 0 0].

Lemma replay_backwards_aborts_witness : for_each do_stamp (ahead ++ back) (zero_tval, statproc_init) = Asserted.
Proof.
  refine (replay_backwards_aborts ahead (mk_tval_t 1019 500000)
    (_init_state (fun _ => true) (mk_tval_t 1019 500000) block7 statproc_init) back _ _ _ _ _ _).
  - vm_compute. intuition discriminate.
  - constructor; [exact block7_ready |]. constructor; [exact block7_ready | constructor].
  - reflexivity.
  - discriminate.
  - reflexivity.
  - pose proof (br_ok _ block7_ready) as Ht. cbn [back backwards sp_ts sp_block].
    split; [by repeat split |]. split; [by vm_compute |]. split; [by vm_compute |]. split; [exact Ht |].
    split; [by repeat split |]. split; [by vm_compute |]. split; [by vm_compute |]. split; [exact Ht | done].
Defined.

End ReplayClockTest.
