(* ===== verification/Main.v ===== *)
(** The two programs: [main] and [usage] of [capture/main.c] with [go_live_pcap] of
    [capture/capmain.c], and [main] of [statproc/main.c], with the shared memory calls
    of [utils/ipc.c].

    What the system answers is an argument: the results of the shared memory calls, the
    options [getopt] returns, the files, the packets [pcap_loop] delivers, the clock. *)
From S2P Require Import Prelude Structs Format HashTable Cleanup ShmData Export StatProc Capture Lifecycle Reports Typing ReportRun Clock.
#[local] Open Scope Z_scope.

(** ** utils/ipc.c *)

Definition PERM_RO : Z := 420.
Definition IPC_CREAT : Z := 512.
Definition IPC_RMID : Z := 0.
Definition SHMID_MINFLOWCAP : Z := 0x05430A1E.

(** [shmget(key, size, flags)], [shmctl(id, cmd, NULL)], [shmat(id, NULL, 0)], which
    returns -1 cast to a pointer when it fails, and [shmdt]. *)
Record shm_calls := mk_shm_calls {
  shmget : Z -> Z -> Z -> Z;
  shmctl : Z -> Z -> Z;
  shmat : Z -> ptr;
  shmdt : ptr -> Z
}.

Definition shmem_create (sys : shm_calls) (key mem_size_bytes : Z) : Z :=
  shmget sys key mem_size_bytes (Z.lor IPC_CREAT PERM_RO).

Definition shmem_destroy (sys : shm_calls) (h_shmem : Z) : Z := shmctl sys h_shmem IPC_RMID.

Definition shmem_open (sys : shm_calls) (key mem_size_bytes : Z) : ptr :=
  let h := shmget sys key mem_size_bytes PERM_RO in
  if h =? -1 then NULL else
  let rv := shmat sys h in
  if rv =? -1 then NULL else rv.

Definition shmem_close (sys : shm_calls) (shmem_addr : ptr) : Z := shmdt sys shmem_addr.

(** What [shm_data_init] sees of them. *)
Definition init_env_of (sys : shm_calls) (sizeof_sharedif : Z) (ok_calloc ok_streams ok_addrs : bool) : init_env :=
  mk_init_env (shmem_create sys SHMID_MINFLOWCAP sizeof_sharedif)
    (negb (shmem_open sys SHMID_MINFLOWCAP sizeof_sharedif =? NULL)) ok_calloc ok_streams ok_addrs.

(** ** statproc/main.c *)

(** One iteration's view of the world: its two [time(NULL)], the block, the clock and
    the allocations of the report. *)
Record sec_io := mk_sec_io {
  io_time : Z;
  io_time2 : Z;
  io_block : sharedif_t;
  io_now0 : Z;
  io_now1 : Z;
  io_ok : bool
}.

Definition main_iter (io : sec_io) (st : Z * statproc_t) : res (Z * statproc_t) :=
  let '(tv_sec, sp) := st in
  if tv_sec =? 0 then Val (u32 (io_time io), sp) else
  if 1 <=? io_time io - tv_sec then
    let tv_sec := u32 (io_time2 io) in
    sp ← every_second (io_ok io) (io_now0 io) (io_now1 io) (mk_tval_t tv_sec 0) (io_block io) sp;
    Val (tv_sec, sp)
  else Val (tv_sec, sp).

(** [None]: the segment could not be opened. *)
Definition statproc_main (sys : shm_calls) (sizeof_sharedif : Z) (io : Z -> sec_io)
    : res (option (Z * statproc_t)) :=
  if shmem_open sys SHMID_MINFLOWCAP sizeof_sharedif =? NULL then Val None else
  st ← for_each (fun i st => main_iter (io i) st) (seqZ 0 (60 * 60)) (0, statproc_init);
  Val (Some st).

(** ** capture/capmain.c *)

(** A packet [pcap_loop] delivers, with what its processing needs from outside. *)
Record live_packet := mk_live_packet {
  lp_env : pkt_env;
  lp_stat : option (Z * Z * Z);
  lp_hdr : pcap_pkthdr32_t;
  lp_tv_sec : Z;
  lp_bytes : list Z
}.

(** [pcap_open_live]: whether it returned a handle, and the message it wrote. *)
Record live_env := mk_live_env {
  le_open : bool;
  le_ebuf : string;
  le_packets : list live_packet
}.

Definition EBUF_SIZE : Z := 32.

(** The text printed on standard output, and the state; [tlast_report] starts as 0. *)
Definition go_live_pcap (live : live_env) (st : capture_t) : res (string * capture_t) :=
  if EBUF_SIZE <=? Z.of_nat (String.length (le_ebuf live)) then Undefined else
  if negb (le_open live) then Val ("ERROR:" +:+ le_ebuf live, st)%string else
  let warning := if decide (le_ebuf live = ""%string) then ""%string else ("WARN:" +:+ le_ebuf live)%string in
  '(_, st) ← for_each (fun p '(tlast_report, st) =>
        callback (lp_env p) (lp_stat p) (lp_hdr p) (lp_tv_sec p) (lp_bytes p) tlast_report st)
      (le_packets live) (0, st);
  Val (warning +:+ "pcap_loop done", st)%string.

(** ** capture/main.c *)

(** What [getopt(argc, argv, "vf:")] returns, with [optarg]. *)
Inductive opt : Set := OPT_v | OPT_f (optarg : string) | OPT_other.

#[export] Instance opt_eq_dec : EqDecision opt.
Proof. solve_decision. Defined.

(** [strcpy(filename, s)] into [char filename[128]]. *)
Definition strcpy_filename (s : string) : res string :=
  if Z.of_nat (String.length s) <? 128 then Val s else Undefined.

(** The option loop; [None] when it ends in [usage], which exits. *)
Fixpoint parse_options (opts : list opt) (gVerbose : Z) (filename : string) : res (option (Z * string)) :=
  match opts with
  | [] => Val (Some (gVerbose, filename))
  | OPT_v :: opts => parse_options opts 1 filename
  | OPT_f optarg :: opts => filename ← strcpy_filename optarg; parse_options opts gVerbose filename
  | OPT_other :: _ => Val None
  end.

(** How the program ends, always with the status 0: after printing the usage; after the
    message that the data structures could not be initialised; or after a run, with the
    text that was printed besides the reports. *)
Inductive main_result :=
| Usage
| InitFailed
| Finished (printed : string) (st : capture_t).

(** [READ_FROM_FILE] is a constant of the build; [rest] are the arguments after the
    options. *)
Definition capture_main (read_from_file : bool) (opts : list opt) (rest : list string)
    (ienv : init_env) (mem : keymem) (files : string -> option (list Z)) (env : Z -> pkt_env)
    (tmpbuf : list Z) (live : live_env) : res main_result :=
  o ← parse_options opts 0 "";
  match o with
  | None => Val Usage
  | Some (_, filename) =>
      if (Z.of_nat (length rest) <? 1) && (Z.of_nat (String.length filename) <=? 0) then Val Usage else
      filename ← match rest with [] => Val filename | a :: _ => strcpy_filename a end;
      s ← shm_data_init (negb read_from_file) ienv mem;
      match s with
      | None => Val InitFailed
      | Some s =>
          let st := mk_capture_t s cleanup_init 0 zero_tval statproc_init in
          if read_from_file then
            '(_, text, st) ← main_file env filename (files filename) tmpbuf st; Val (Finished text st)
          else
            '(text, st) ← go_live_pcap live st; Val (Finished text st)
      end
  end.

(** ** The statistics process *)

Lemma log_snoc ts o o1 t n body :
  report_log ts o o1 -> report_log (ts ++ [t]) o ((o1 +:+ start_line t n) +:+ body +:+ end_line).
Proof.
  induction 1 as [o | t' n' body' ts o o' Hl IH]; [econstructor; constructor | econstructor; exact IH].
Qed.

(** The clock of the iterations: it never runs backwards, and fits 32 bits. *)
Record clock_io (io : Z -> sec_io) (n : Z) : Prop := {
  ci_range : forall i, 0 <= i < n -> 1 <= io_time (io i) <= io_time2 (io i) /\ io_time2 (io i) < 4294967296;
  ci_mono : forall i, 0 <= i -> i + 1 < n -> io_time2 (io i) <= io_time (io (i + 1))
}.

(** The loop's variables before iteration [i]. *)
Definition main_inv (io : Z -> sec_io) (i : Z) (st : Z * statproc_t) : Prop :=
  (i = 0 /\ st = (0, statproc_init)) \/
  (0 < i /\ 0 < fst st <= io_time2 (io (i - 1)) /\
   (snd st = statproc_init \/ running (fst st) (snd st) /\ exists ts, report_log ts "" (out (sp_export (snd st))))).

Lemma main_iter_ok io n i st :
  clock_io io n -> 0 <= i < n -> io_ok (io i) = true -> block_ready (io_block (io i)) ->
  main_inv io i st -> returns (main_inv io (i + 1)) (main_iter (io i) st).
Proof.
  intros Hc Hi Hok Hb Hst. destruct (ci_range _ _ Hc i Hi) as [[H1 H2] H3].
  pose proof (br_ok _ Hb) as Ht. unfold main_iter. rewrite Hok. destruct st as [t sp].
  unfold main_inv in Hst |- *. replace (i + 1 - 1) with i by lia.
  destruct Hst as [[-> [= -> ->]] | (Hpos & Ht0 & Hst)]; cbn [fst snd] in *.
  { cbn [Z.eqb returns]. right. rewrite u32_small by (unfold is_u32; lia). cbn. split; [lia |]. split; [lia | by left]. }
  pose proof (ci_mono _ _ Hc (i - 1) ltac:(lia) ltac:(lia)) as Hm. replace (i - 1 + 1) with i in Hm by lia.
  rewrite (proj2 (Z.eqb_neq t 0)) by lia. destruct (Z.leb_spec 1 (io_time (io i) - t)).
  2: { cbn [returns fst snd]. right. split; [lia |]. split; [lia | exact Hst]. }
  rewrite u32_small by (unfold is_u32; lia). set (k := mk_tval_t (io_time2 (io i)) 0).
  apply (returns_bind (fun sp' => running (io_time2 (io i)) sp' /\ exists ts, report_log ts "" (out (sp_export sp')))).
  - destruct Hst as [-> | [Hr (ts & Hl)]].
    + destruct (init_state_ok (io_now0 (io i)) (io_now1 (io i)) k (io_block (io i)) (flows_len _ Ht) ltac:(cbn; lia)) as (-> & S1 & S2).
      cbn [returns]. split; [split; [exact S1 | discriminate | exact S2] |]. exists []. constructor.
    + eapply returns_weaken; [apply (tick_ok _ _ k _ t sp Hr); [cbn; lia | cbn; unfold is_u32; lia | exact Ht | done] |].
      intros sp' [Hr' Hk]. split; [exact Hr' |]. unfold ticked in Hk.
      destruct (60 <=? _); destruct Hk as (_ & _ & Hk); [| exists ts; by rewrite Hk].
      destruct Hk as (m & body & ->). eexists. by apply log_snoc.
  - intros sp' [Hr Hl]. cbn [returns fst snd]. right. split; [lia |]. split; [lia |]. by right.
Qed.

(** C28: the statistics process runs to its end.  When the shared segment can be opened,
    the clock starts at second 1 or later, does not run backwards and fits 32 bits, the
    allocations of the reports succeed, and every iteration finds a block that a report
    can be made of ([block_ready]: well typed, with a live stream, and with the windows
    of the three managed arrays in order inside their arrays), then all 3600 iterations
    of [main] return - the assertion on the table's index never fails - and everything
    printed is a sequence of complete reports. *)
Theorem statproc_main_runs sys size io
    (Hopen : shmem_open sys SHMID_MINFLOWCAP size <> NULL)
    (Hclock : clock_io io 3600) (Hok : forall i, 0 <= i < 3600 -> io_ok (io i) = true)
    (Hblock : forall i, 0 <= i < 3600 -> block_ready (io_block (io i))) :
  exists t sp ts, statproc_main sys size io = Val (Some (t, sp)) /\ report_log ts "" (out (sp_export sp)).
Proof.
  unfold statproc_main. rewrite (proj2 (Z.eqb_neq _ _) Hopen). change (60 * 60) with 3600.
  destruct (for_each_inv (fun dn st => main_inv io (Z.of_nat (length dn)) st) (fun i st => main_iter (io i) st)
    (seqZ 0 3600) (0, statproc_init)) as ([t sp] & -> & Hst).
  - by left.
  - intros dn i rest st Hsp Hst. apply returns_Val.
    assert (i = Z.of_nat (length dn)) as E.
    { assert (seqZ 0 3600 !! length dn = Some i) as Hl by (rewrite Hsp; by apply list_lookup_middle).
      apply lookup_seqZ in Hl as [-> _]. lia. }
    assert (i ∈ seqZ 0 3600) as Hi%elem_of_seqZ by (rewrite Hsp; set_solver).
    rewrite length_app, Nat2Z.inj_add. cbn [length]. change (Z.of_nat 1) with 1. rewrite <- E in Hst |- *.
    apply (main_iter_ok io 3600); [exact Hclock | lia | apply Hok; lia | apply Hblock; lia | exact Hst].
  - rewrite bind_Val. destruct Hst as [[Hz _] | (_ & _ & [Hsp | [_ (ts & Hl)]])].
    + rewrite length_seqZ in Hz. lia.
    + exists t, sp, []. split; [done |]. cbn [snd] in Hsp. rewrite Hsp. constructor.
    + by exists t, sp, ts.
Qed.

(** ** The capture process *)

Lemma live_run live st : Forall (fun p => Forall is_u8 (lp_bytes p) /\ hdr_typed (lp_hdr p)) (le_packets live) ->
  capture_run st -> yields (fun r => capture_run (snd r)) (go_live_pcap live st).
Proof.
  intros Hp Hst. unfold go_live_pcap. destruct (_ <=? _); [done |]. destruct (negb _); [exact Hst |].
  cbv zeta. apply (yields_bind (fun r => capture_run (snd r))); [| by intros [t st']].
  generalize 0 at 1. intros t. revert t st Hst. induction Hp as [| p l [Hb Hh] Hp IH]; intros t st Hst; [exact Hst |].
  cbn [for_each]. apply (yields_bind (fun r => capture_run (snd r))).
  - destruct (callback _ _ _ _ _ _ _) as [[t' st'] | |] eqn:E; [| done | done].
    exact (run_callback _ _ _ _ _ _ _ _ _ Hst Hb Hh E).
  - intros [t' st'] Hst'. by apply IH.
Qed.

Lemma file_run env name file tmpbuf st : Forall is_u8 file -> Forall is_u8 tmpbuf -> capture_run st ->
  yields (fun r => exists st', capture_run st' /\ cp_shm (snd r) = cp_shm st') (main_file env name (Some file) tmpbuf st).
Proof.
  intros Hf Ht Hst. unfold main_file, open_pcap. cbn [fmap option_fmap option_map].
  apply (yields_bind (fun r => capture_run (snd r))).
  { apply read_loop_typed; [| by apply Forall_drop | done | done]. intros hdr buf n st1 Hh Hb H1.
    destruct (on_packet _ _ _ _ _) as [[r st'] | |] eqn:E; [| done | done].
    exact (run_packet _ _ _ _ _ _ _ H1 Hb Hh E). }
  intros [r st1] Hs1. cbv zeta. apply yields_any. intros sp. by exists st1.
Qed.

(** The argument of the last [-f]. *)
Fixpoint last_file (opts : list opt) (filename : string) : string :=
  match opts with
  | [] => filename
  | OPT_f a :: opts => last_file opts a
  | _ :: opts => last_file opts filename
  end.

Definition fits (s : string) : Prop := Z.of_nat (String.length s) < 128.

Lemma strcpy_fits s : strcpy_filename s = if bool_decide (fits s) then Val s else Undefined.
Proof.
  unfold strcpy_filename, fits. destruct (Z.ltb_spec (Z.of_nat (String.length s)) 128).
  - by rewrite bool_decide_true.
  - by rewrite bool_decide_false by lia.
Qed.

Lemma parse_options_ok opts v f : Forall (fun o => match o with OPT_f a => fits a | _ => True end) opts ->
  exists v', parse_options opts v f =
    Val (if bool_decide (OPT_other ∈ opts) then None else Some (v', last_file opts f)).
Proof.
  revert v f. induction opts as [| o opts IH]; intros v f Hf; [by exists v |]. apply Forall_cons_1 in Hf as [Ho Hf].
  destruct o as [| a |]; cbn [parse_options last_file].
  - destruct (IH 1 f Hf) as [v' ->]. exists v'. by rewrite (bool_decide_ext (_ ∈ OPT_v :: _) (OPT_other ∈ opts)) by set_solver.
  - rewrite strcpy_fits, bool_decide_true, bind_Val by done. destruct (IH v a Hf) as [v' ->]. exists v'.
    by rewrite (bool_decide_ext (_ ∈ OPT_f a :: _) (OPT_other ∈ opts)) by set_solver.
  - exists v. by rewrite bool_decide_true by set_solver.
Qed.

(** What happens once the name of the file is known. *)
Definition capture_start (read_from_file : bool) (ienv : init_env) (mem : keymem) (name : string)
    (file : option (list Z)) (env : Z -> pkt_env) (tmpbuf : list Z) (live : live_env) : res main_result :=
  s ← shm_data_init (negb read_from_file) ienv mem;
  match s with
  | None => Val InitFailed
  | Some s =>
      let st := mk_capture_t s cleanup_init 0 zero_tval statproc_init in
      if read_from_file then '(_, text, st) ← main_file env name file tmpbuf st; Val (Finished text st)
      else '(text, st) ← go_live_pcap live st; Val (Finished text st)
  end.

(** The command line of the capture program.  With names that fit the 128 byte
    buffer: an unknown option, or neither [-f] nor an argument, ends in [usage] - also
    for the live capture, which has no use for a file name; otherwise the process is
    started on the first argument, or without one on the last [-f].  A name of 128
    characters or more is copied past the end of the buffer. *)
Theorem capture_main_command_line rff opts rest ienv mem files env tmpbuf live :
  let main := capture_main rff opts rest ienv mem files env tmpbuf live in
  let start name := capture_start rff ienv mem name (files name) env tmpbuf live in
  (Forall (fun o => match o with OPT_f a => fits a | _ => True end) opts ->
   main = if bool_decide (OPT_other ∈ opts) then Val Usage
          else match rest with
               | a :: _ => if bool_decide (fits a) then start a else Undefined
               | [] => if bool_decide (last_file opts "" = ""%string) then Val Usage else start (last_file opts "")
               end) /\
  (forall a opts', opts = OPT_f a :: opts' -> ~ fits a -> main = Undefined).
Proof.
  cbv zeta. unfold capture_main. split.
  - intros Hf. destruct (parse_options_ok opts 0 "" Hf) as [v ->]. rewrite bind_Val.
    destruct (bool_decide (OPT_other ∈ opts)); [done |]. destruct rest as [| a rest]; cbn [length].
    + change (Z.of_nat 0 <? 1) with true. cbn [andb]. destruct (last_file opts "") as [| c s] eqn:E; [done |].
      rewrite bool_decide_false by done. rewrite (proj2 (Z.leb_gt _ _)) by (cbn [String.length]; lia). by rewrite bind_Val.
    + rewrite (proj2 (Z.ltb_ge _ _)) by lia. cbn [andb]. rewrite strcpy_fits. by destruct (bool_decide (fits a)).
  - intros a opts' -> Ha. cbn [parse_options]. by rewrite strcpy_fits, bool_decide_false.
Qed.

(** Whatever command line, capture file and traffic the capture program is given,
    when it ends after starting its work the shared block is well typed: every counter,
    index, port and flag in the range of its C type, every stream's two indices within
    the address array, the table of addresses leading into it. *)
Theorem capture_main_types rff opts rest ienv mem files env tmpbuf live r st
    (Hfiles : forall name file, files name = Some file -> Forall is_u8 file) (Htmp : Forall is_u8 tmpbuf)
    (Hlive : Forall (fun p => Forall is_u8 (lp_bytes p) /\ hdr_typed (lp_hdr p)) (le_packets live))
    (Hmain : capture_main rff opts rest ienv mem files env tmpbuf live = Val (Finished r st)) :
  shm_typed (cp_shm st).
Proof.
  assert (yields (fun m => match m with Finished _ st => shm_typed (cp_shm st) | _ => True end)
    (capture_main rff opts rest ienv mem files env tmpbuf live)) as H; [| by rewrite Hmain in H].
  clear Hmain r st. unfold capture_main. apply yields_any. intros [[v f] |]; [| done]. destruct (_ && _); [done |].
  apply yields_any. intros name.
  destruct (shm_data_init (negb rff) ienv mem) as [[s |] | |] eqn:Hinit; [| done ..]. rewrite bind_Val.
  pose proof (run_init _ _ _ _ Hinit) as Hrun. pose proof (init_typed (negb rff) ienv mem) as Hty. rewrite Hinit in Hty.
  cbv zeta. destruct rff.
  - destruct (files name) as [file |] eqn:Hfile; [| exact Hty].
    apply (yields_bind _ _ _ _ (file_run env name file tmpbuf _ (Hfiles _ _ Hfile) Htmp Hrun)).
    intros [[r text] st] (st' & Hst' & E). cbn [yields snd] in *. rewrite E. by apply run_typed.
  - apply (yields_bind _ _ _ _ (live_run live _ Hlive Hrun)). intros [text st] Hst. by apply run_typed.
Qed.

(** ** Witnesses *)
Module MainTest.
Import ReportsTest ClockTest ShmTest LifeTest.

Definition sys0 : shm_calls := mk_shm_calls (fun _ _ _ => 1) (fun _ _ => 0) (fun _ => 4096) (fun _ => 0).
Definition io0 (i : Z) : sec_io := mk_sec_io (1000 + i) (1000 + i) block7 0 0 true.
Definition no_live : live_env := mk_live_env false "" [].

Lemma statproc_main_runs_witness :
  exists t sp ts, statproc_main sys0 100 io0 = Val (Some (t, sp)) /\ report_log ts "" (out (sp_export sp)).
Proof.
  apply (statproc_main_runs sys0 100 io0).
  - discriminate.
  - split; intros; cbn; lia.
  - reflexivity.
  - intros i _. exact block7_ready.
Defined.

Lemma capture_main_command_line_witness :
  capture_main false [OPT_v] [] env_ok mem0 (fun _ => None) (fun _ => env0) [] no_live = Val Usage.
Proof.
  destruct (capture_main_command_line false [OPT_v] [] env_ok mem0 (fun _ => None) (fun _ => env0) [] no_live) as [H _].
  rewrite H; [reflexivity |]. repeat constructor.
Defined.

Lemma capture_main_types_witness : exists st,
  capture_main false [] ["eth0"%string] env_ok mem0 (fun _ => None) (fun _ => env0) [] no_live = Val (Finished "ERROR:" st) /\
  shm_typed (cp_shm st).
Proof.
  destruct (shm_init_ok true env_ok mem0) as (s & Hs & _); [split; [discriminate | reflexivity] | reflexivity .. |].
  assert (capture_main false [] ["eth0"%string] env_ok mem0 (fun _ => None) (fun _ => env0) [] no_live =
    Val (Finished "ERROR:" (mk_capture_t s cleanup_init 0 zero_tval statproc_init))) as Hm.
  { unfold capture_main. cbn [parse_options]. rewrite bind_Val. cbn [length]. change (Z.of_nat 1 <? 1) with false. cbn [andb].
    change (strcpy_filename "eth0") with (Val "eth0"%string). rewrite bind_Val. cbn [negb]. by rewrite Hs. }
  eexists. split; [exact Hm |].
  apply (capture_main_types false [] ["eth0"%string] env_ok mem0 (fun _ => None) (fun _ => env0) [] no_live "ERROR:" _).
  - discriminate.
  - constructor.
  - constructor.
  - exact Hm.
Defined.
End MainTest.
