(* ===== verification/TopText.v ===== *)
(** The text of a report's statistics section: the lines of the top streams are a
    function of the ranked entries, and what the report appends later stays behind them. *)
From S2P Require Import Prelude Structs Format StringBuf Sort ShmData Export StatProc Reports Rankings Typing Lines ReportRun.
From stdpp Require Import list.
#[local] Open Scope Z_scope.

(** ** The section while it is written *)

(** The section holds exactly [t], of at most [k] lines. *)
Definition text_is (k : Z) (t : string) (ob : option sbuf_t) : Prop :=
  exists b tm, ob = Some b /\ sbuf_holds b t tm /\ (0 < k -> tm = true) /\ Z.of_nat (String.length t) <= 200 * k /\
    8192 <= sb_capacity b /\ (sb_capacity b <= 8192 \/ sb_capacity b <= 2 * Z.of_nat (String.length t)).

Section Output.
(** What was printed before; the report is printed when its period closes. *)
Context (o : string).

Definition stats_text (k : Z) (t : string) (x : export_t) : Prop := text_is k t (sbuf_stats x) /\ out x = o.

(** A line appended to the section. *)
Lemma stats_append k t x line : short LINE line -> 0 <= k <= 1000 -> stats_text k t x ->
  yields (stats_text (k + 1) (t +:+ line)) (append_stats true line x).
Proof.
  intros [Hn Hl] Hk [(b & tm & Hx & Hh & _ & Ht & Hc & Hc') Ho]. unfold LINE in Hl. unfold append_stats. rewrite Hx. cbn [deref]. rewrite bind_Val.
  pose proof (sh_len _ _ _ Hh). pose proof (sh_fits _ _ _ Hh).
  destruct (append_ok true b t tm line Hh Hn) as (b' & -> & Hh' & Hcap); [lia | lia | done |].
  rewrite bind_Val. cbn [yields]. split; [| exact Ho]. cbn [sbuf_stats set_sbufs]. exists b', true. rewrite string_length_app.
  repeat (split; [done || lia |]). lia.
Qed.

Lemma stats_more k k' t x : stats_text k t x -> 0 < k -> k <= k' -> stats_text k' t x.
Proof. intros [(b & tm & H1 & H2 & H3 & H4 & H5 & H6) Ho] Hk Hle. split; [| exact Ho]. exists b, tm. specialize (H3 Hk). repeat (split; [done || lia |]). lia. Qed.

(** ** What does not touch the section *)

Definition same_stats (x x' : export_t) : Prop := sbuf_stats x' = sbuf_stats x /\ out x' = out x.

Lemma same_trans x y z : same_stats x y -> same_stats y z -> same_stats x z.
Proof. unfold same_stats. intros [-> ->] [-> ->]. done. Qed.

Lemma same_yields {A} (f : export_t -> res A) (P : A -> export_t) x y :
  same_stats x y -> yields (fun a => same_stats y (P a)) (f y) -> yields (fun a => same_stats x (P a)) (f y).
Proof. intros H Hf. destruct (f y); [| done ..]. by apply (same_trans x y). Qed.

Lemma append_addrs_stats ok line x : yields (same_stats x) (append_addrs ok line x).
Proof. unfold append_addrs. apply yields_any. intros b. apply yields_any. by intros [st b']. Qed.

Lemma append_streams_stats ok line x : yields (same_stats x) (append_streams ok line x).
Proof. unfold append_streams. apply yields_any. intros b. apply yields_any. by intros [st b']. Qed.

Lemma note_addr_stats ok sh a x : yields (same_stats x) (note_addr ok sh a x).
Proof.
  unfold note_addr. apply (yields_bind (fun r => same_stats x (snd r))).
  { unfold seen_addr. apply yields_any. intros id. apply yields_any. intros [|]; [done |]. apply yields_any. by intros l. }
  intros [seen x1] Hx1. cbn [snd] in Hx1. destruct seen; [exact Hx1 |]. unfold on_new_addr. apply yields_any. intros e. apply yields_any. intros line.
  apply (same_yields _ id x x1 Hx1), append_addrs_stats.
Qed.

Lemma on_new_stream_stats ok sh st l r x : yields (same_stats x) (on_new_stream ok sh st l r x).
Proof.
  unfold on_new_stream. apply (yields_bind _ _ _ _ (note_addr_stats ok sh l x)). intros x1 E1.
  apply (yields_bind _ _ _ _ (note_addr_stats ok sh r x1)). intros x2 E2. do 4 (apply yields_any; intros ?).
  apply (same_yields _ id x x2), append_streams_stats. by apply (same_trans x x1).
Qed.

(** ** The lines of a top list *)

Definition stream_head : string := "_TSTR_,_SortBy_,_FlowFlags_,_Idx_,_Packets_,_Bytes_,_Stream_,_____" +:+ newline.

Definition stream_row (name : string) (i : Z) (e : stream_info_t) : string :=
  "TSTR," +:+ name +:+ "," +:+ fmt_d 0 +:+ "," +:+ fmt_d i +:+ "," +:+ fmt_u (si_packets e) +:+ "," +:+
  fmt_u (si_bytes e) +:+ "," +:+ fmt_u (si_iid e) +:+ newline.

Definition proto_head : string := "_PORT_,_SortBy_,_FlowFlags_,_Idx_,_Port_,_IpProto_,_Packets_,_Bytes_,_____" +:+ newline.

(** The line of a protocol, with its index in the block. *)
Definition proto_row (i : Z) (e : Z * proto_info_t) : string :=
  "PORT," +:+ "P" +:+ "," +:+ fmt_d 0 +:+ "," +:+ fmt_d i +:+ "," +:+ fmt_u (fst (proto_of_ptr (fst e))) +:+ "," +:+
  fmt_u (snd (proto_of_ptr (fst e))) +:+ "," +:+ fmt_u (pi_packets (snd e)) +:+ "," +:+ fmt_u (pi_bytes (snd e)) +:+ newline.

(** A heading goes before the first line. *)
Definition headed (head : string) (i : Z) (line : string) : string := (if i =? 0 then head else "") +:+ line.

Fixpoint rows {A} (row : Z -> A -> string) (i : Z) (es : list A) : string :=
  match es with [] => "" | e :: es => row i e +:+ rows row (i + 1) es end.

Definition stream_rows (name : string) : Z -> list stream_info_t -> string :=
  rows (fun i e => headed stream_head i (stream_row name i e)).
Definition proto_rows : Z -> list (Z * proto_info_t) -> string := rows (fun i e => headed proto_head i (proto_row i e)).

(** Lists with the same lines. *)
Lemma rows_same {A B} (row : Z -> A -> string) (row' : Z -> B -> string) (f : B -> A) bs : forall i,
  (forall i b, b ∈ bs -> row i (f b) = row' i b) -> rows row i (f <$> bs) = rows row' i bs.
Proof.
  induction bs as [| b bs IH]; intros i H; [done |]. cbn [fmap list_fmap rows]. rewrite (H i b), IH; [done | | set_solver].
  intros i' b' Hb'. apply H. set_solver.
Qed.

Lemma on_topn_stream_text sh ts sortby name i st l r k t x : block_typed sh -> sort_name sortby = Val name -> sortby <> SortByMax ->
  0 <= k <= 900 -> stats_text k t x ->
  yields (fun x' => exists e, aget (sh_streams sh) st = Val e /\
      stats_text (k + 2) (t +:+ headed stream_head i (stream_row name i e)) x')
    (on_topn_stream true sh ts sortby 0 i st l r x).
Proof.
  intros Hsh Hname Hmax Hk Hx. unfold on_topn_stream.
  apply (yields_bind (fun x' => stats_text (k + (if i =? 0 then 1 else 0)) (t +:+ (if i =? 0 then stream_head else "")) x')).
  { destruct (i =? 0); [apply stats_append; [unfold LINE; text | lia | exact Hx] | cbn [yields]; by rewrite string_app_nil_r, Z.add_0_r]. }
  clear Hx. intros x0 Hx. set (t0 := t +:+ _) in *. set (k0 := k + _) in *. assert (0 <= k0 <= k + 1) as Hk0 by (unfold k0; destruct (i =? 0); lia).
  apply (yields_bind (fun r => same_stats x0 (snd r))).
  { unfold seen_stream. apply yields_any. intros id. apply yields_any. intros [|]; [done |]. apply yields_any. by intros l'. }
  intros [seen x1] E1. cbn [snd] in E1. apply (yields_bind (same_stats x0)).
  { destruct seen; [exact E1 |]. apply (same_yields _ id x0 x1 E1), on_new_stream_stats. }
  intros x2 E2. pose proof (arr_aget _ _ _ st (bt_streams _ Hsh)) as He.
  destruct (aget (sh_streams sh) st) as [e | |]; [| done ..]. cbn [yields] in He. rewrite bind_Val, Hname, bind_Val.
  assert (short LINE (stream_row name i e)) as Hs.
  { pose proof (sort_name_short sortby Hmax) as Hn. rewrite Hname in Hn. cbn [returns] in Hn. destruct He. unfold stream_row, LINE. text. }
  pose proof (stats_append k0 t0 x2 (stream_row name i e) Hs ltac:(lia) ltac:(destruct E2 as [E2 E3]; unfold stats_text in *; by rewrite E2, E3)) as Hap.
  unfold stream_row in Hap at 2. destruct (append_stats true _ x2) as [x3 | |]; [| done ..]. cbn [yields] in Hap |- *. exists e. split; [done |].
  unfold t0 in Hap. rewrite string_app_assoc in Hap. apply (stats_more (k0 + 1)); [exact Hap | lia | lia].
Qed.

(** A protocol's line, and the heading before the first. *)
Lemma report_protocol_text copy ts i q e k t x : block_typed copy -> fst e = q -> aget (sh_protos copy) q = Val (snd e) ->
  0 <= k <= 900 -> stats_text k t x ->
  yields (stats_text (k + 2) (t +:+ headed proto_head i (proto_row i e))) (report_protocol true copy ts i q x).
Proof.
  intros Hc <- He Hk Hx. pose proof (arr_aget _ _ _ (fst e) (bt_protos _ Hc)) as Hp. rewrite He in Hp. destruct Hp as (P1 & P2 & _).
  unfold report_protocol. rewrite He, bind_Val. pose proof (proto_of_ptr_u32 (fst e)) as Hu.
  assert (short LINE (proto_row i e)) as Hs by (unfold proto_row, LINE; destruct Hu; text).
  unfold proto_row in Hs |- *. destruct (proto_of_ptr (fst e)) as [port ipproto]. cbn [fst snd] in *. unfold on_topn_protocol.
  apply (yields_bind (fun x' => stats_text (k + (if i =? 0 then 1 else 0)) (t +:+ (if i =? 0 then proto_head else "")) x')).
  { destruct (i =? 0); [apply stats_append; [unfold LINE; text | lia | exact Hx] | cbn [yields]; by rewrite string_app_nil_r, Z.add_0_r]. }
  clear Hx. intros x0 Hx. change (sort_name SortByPkt) with (Val (A := string) "P"). rewrite bind_Val.
  set (k0 := k + _) in *. assert (0 <= k0 <= k + 1) as Hk0 by (unfold k0; destruct (i =? 0); lia).
  pose proof (stats_append k0 _ x0 _ Hs ltac:(lia) Hx) as Ha. destruct (append_stats _ _ x0) as [x' | |]; [| done ..]. cbn [yields] in Ha |- *.
  unfold headed. rewrite <- string_app_assoc. apply (stats_more (k0 + 1)); [exact Ha | lia | lia].
Qed.

(** The first entries of a ranked list. *)
Section Ranked.
Context {A : Type} (at_ : Z -> A -> Prop) (row : Z -> A -> string) (report : Z -> Z -> export_t -> res export_t).
Context (Hreport : forall i q e k t x, at_ q e -> 0 <= k <= 900 -> stats_text k t x ->
  yields (stats_text (k + 2) (t +:+ row i e)) (report i q x)).

Lemma for_each_rows ptrs es : forall i k t x,
  0 <= i -> (forall j e, es !! j = Some e -> exists q, aget ptrs (i + Z.of_nat j) = Val (Some q) /\ at_ q e) ->
  0 <= k -> k + 2 * Z.of_nat (length es) <= 900 -> stats_text k t x ->
  yields (stats_text (k + 2 * Z.of_nat (length es)) (t +:+ rows row i es))
    (for_each (fun i x => p ← aget ptrs i; match p with None => Val x | Some q => report i q x end) (seqZ i (Z.of_nat (length es))) x).
Proof using Hreport.
  induction es as [| e es IH]; intros i k t x Hi Hes Hk Hb Hx.
  { cbn [length rows]. rewrite string_app_nil_r. replace (k + 2 * Z.of_nat 0) with k by lia. exact Hx. }
  cbn [length] in *. rewrite Nat2Z.inj_succ, seqZ_cons by lia. cbn [for_each]. rewrite Z.pred_succ.
  destruct (Hes 0%nat e eq_refl) as (q & Hq & He). rewrite Z.add_0_r in Hq. rewrite Hq, bind_Val.
  apply (yields_bind _ _ _ _ (Hreport i q e k t x He ltac:(lia) Hx)).
  intros x' Hx'. replace (k + 2 * Z.succ (Z.of_nat (length es))) with (k + 2 + 2 * Z.of_nat (length es)) by lia.
  cbn [rows]. rewrite <- (string_app_assoc t). replace (Z.succ i) with (i + 1) by lia. apply IH; [lia | | lia | lia | exact Hx'].
  intros j e0 Hj. destruct (Hes (S j) e0 Hj) as (q0 & Hq0 & He0). exists q0. split; [| exact He0].
  by replace (i + 1 + Z.of_nat j) with (i + Z.of_nat (S j)) by lia.
Qed.

Lemma report_top_rows n ptrs (l : list Z) es k t x : 0 <= n -> take (length l) ptrs = Some <$> l ->
  Forall2 at_ (take (Z.to_nat n) l) es -> 0 <= k -> k + 2 * n <= 900 -> stats_text k t x ->
  yields (stats_text (k + 2 * Z.of_nat (length es)) (t +:+ rows row 0 es)) (report_top n (Z.of_nat (length l)) ptrs report x).
Proof using Hreport.
  intros Hn Hp Hes Hk Hb Hx. unfold report_top. pose proof (Forall2_length _ _ _ Hes) as Hlen. rewrite length_take in Hlen.
  replace (Z.min n (Z.of_nat (length l))) with (Z.of_nat (length es)) by lia.
  apply for_each_rows; try done; [| lia]. intros j e Hj. destruct (Forall2_lookup_r _ _ _ _ _ Hes Hj) as (q & Hq & He).
  exists q. split; [| exact He]. apply lookup_take_Some in Hq as [Hq _]. pose proof (lookup_lt_Some _ _ _ Hq) as Hlt.
  apply aget_Val. split; [lia |]. rewrite Z.add_0_l, Nat2Z.id, <- (lookup_take_lt ptrs (length l) j Hlt), Hp, list_lookup_fmap, Hq. done.
Qed.
End Ranked.

(** The entries the pointers lead to. *)
Definition leads_to (arr : list stream_info_t) (l : list Z) (es : list stream_info_t) : Prop := Forall2 (fun q e => aget arr q = Val e) l es.
Definition protos_at (arr : list proto_info_t) (l : list Z) (es : list (Z * proto_info_t)) : Prop :=
  Forall2 (fun q e => fst e = q /\ aget arr q = Val (snd e)) l es.

Lemma report_top_text sh ts sortby name n ptrs (l : list Z) es k t x : block_typed sh -> sort_name sortby = Val name -> sortby <> SortByMax ->
  0 <= n -> take (length l) ptrs = Some <$> l -> leads_to (sh_streams sh) (take (Z.to_nat n) l) es ->
  0 <= k -> k + 2 * n <= 900 -> stats_text k t x ->
  yields (stats_text (k + 2 * Z.of_nat (length es)) (t +:+ stream_rows name 0 es))
    (report_top n (Z.of_nat (length l)) ptrs (report_stream true sh ts sortby) x).
Proof.
  intros Hsh Hname Hmax. apply report_top_rows. clear n l es k t x. intros i q e k t x He Hk Hx. unfold report_stream. rewrite He, bind_Val.
  pose proof (on_topn_stream_text sh ts sortby name i q (si_idx_left e) (si_idx_right e) k t x Hsh Hname Hmax Hk Hx) as Ht.
  destruct (on_topn_stream _ _ _ _ _ _ _ _ _ x) as [x' | |]; [| done ..]. cbn [yields] in Ht |- *. destruct Ht as (e' & He' & Ht).
  assert (e' = e) as -> by congruence. exact Ht.
Qed.

Lemma process_streams_text ts copy last ptrs g p1 p2 (l1 l2 : list Z) es1 es2 x :
  for_each process_stream (window (sh_stream_indexes copy)) (mk_gather copy last ptrs 0) = Val g ->
  block_typed (ga_copy g) -> ga_num g = Z.of_nat (length l1) -> length l2 = length l1 ->
  quicksort (via (sh_streams (ga_copy g)) rcmp_stream_pkt) (ga_ptrs g) 0 (i32 (u32 (ga_num g - 1))) = Val p1 ->
  quicksort (via (sh_streams (ga_copy g)) rcmp_stream_bytes) p1 0 (i32 (u32 (ga_num g - 1))) = Val p2 ->
  take (length l1) p1 = Some <$> l1 -> take (length l1) p2 = Some <$> l2 ->
  leads_to (sh_streams (ga_copy g)) (take 20 l1) es1 -> leads_to (sh_streams (ga_copy g)) (take 20 l2) es2 ->
  stats_text 0 "" x ->
  yields (fun '(c', last', p', x') => c' = ga_copy g /\ last' = ga_last g /\ p' = p2 /\
      stats_text (2 * Z.of_nat (length es1 + length es2)) (stream_rows "P" 0 es1 +:+ stream_rows "B" 0 es2) x')
    (_process_streams true ts copy last ptrs x).
Proof.
  intros Hg Hc Hn Hlen Hq1 Hq2 Ht1 Ht2 He1 He2 Hx. unfold _process_streams. rewrite Hg, bind_Val. cbv zeta. rewrite Hq1, bind_Val, Hn.
  assert ((length es1 <= 20)%nat /\ (length es2 <= 20)%nat) as [L1 L2].
  { apply Forall2_length in He1, He2. rewrite length_take in He1, He2. lia. }
  apply (yields_bind _ _ _ _ (report_top_text (ga_copy g) ts SortByPkt "P" NUM_TOPN_STREAMS p1 l1 es1 0 "" x Hc eq_refl ltac:(done) ltac:(done) Ht1 He1 ltac:(lia) ltac:(done) Hx)).
  intros x1 Hx1. rewrite <- Hn, Hq2, bind_Val, Hn. rewrite <- Hlen in Ht2 |- *.
  apply (yields_bind _ _ _ _ (report_top_text (ga_copy g) ts SortByBytes "B" NUM_TOPN_STREAMS p2 l2 es2 (0 + 2 * Z.of_nat (length es1)) (stream_rows "P" 0 es1) x1 Hc eq_refl ltac:(done) ltac:(done) Ht2 He2 ltac:(lia) ltac:(unfold NUM_TOPN_STREAMS; lia) Hx1)).
  intros x2 Hx2. cbn [yields]. do 3 (split; [done |]).
  replace (2 * Z.of_nat (length es1 + length es2)) with (0 + 2 * Z.of_nat (length es1) + 2 * Z.of_nat (length es2)) by lia. exact Hx2.
Qed.

(** ** The rest of the report *)

(** The section starts with [t]. *)
Definition grown_text (k : Z) (t : string) (x : export_t) : Prop := 0 < k /\ exists r, stats_text k (t +:+ r) x.

Lemma grown_append k t x line : short LINE line -> k <= 1000 -> grown_text k t x -> yields (grown_text (k + 1) t) (append_stats true line x).
Proof.
  intros Hl Hk [Hpos (r & Hx)]. pose proof (stats_append k (t +:+ r) x line Hl ltac:(lia) Hx) as Ha.
  destruct (append_stats true line x) as [x' | |]; [| done ..]. cbn [yields] in *. split; [lia |]. exists (r +:+ line).
  by rewrite <- string_app_assoc.
Qed.

Lemma grown_more k k' t x : k <= k' -> grown_text k t x -> grown_text k' t x.
Proof. intros Hk [Hpos (r & Hx)]. split; [lia |]. exists r. by apply (stats_more k). Qed.

Lemma grown_same k t x x' : same_stats x x' -> grown_text k t x -> grown_text k t x'.
Proof. unfold grown_text, stats_text, same_stats. by intros [-> ->]. Qed.

(** A heading before the first line of a list. *)
Lemma grown_head k t x i line : short LINE line -> k <= 1000 -> grown_text k t x ->
  yields (grown_text (k + 1) t) (if (i : Z) =? 0 then append_stats true line x else Val x).
Proof. intros Hl Hk Hx. destruct (i =? 0); [by apply grown_append | apply (grown_more k); [lia | exact Hx]]. Qed.

Lemma report_top_grows n num ptrs report k t x : 0 <= n -> k + 2 * n <= 900 ->
  (forall i q j x, grown_text j t x -> j <= 898 -> yields (grown_text (j + 2) t) (report i q x)) ->
  grown_text k t x -> yields (grown_text (k + 2 * n) t) (report_top n num ptrs report x).
Proof.
  intros Hn Hk Hr Hx. unfold report_top.
  assert (forall w j x, grown_text j t x -> j + 2 * Z.of_nat (length w) <= 900 -> yields (grown_text (j + 2 * Z.of_nat (length w)) t)
    (for_each (fun i x => p ← aget ptrs i; match p with None => Val x | Some q => report i q x end) w x)) as Hloop.
  { induction w as [| i w IH]; intros j y Hy Hj; [apply (grown_more j); [lia | exact Hy] |]. cbn [length] in *. cbn [for_each].
    apply (yields_bind (grown_text (j + 2) t)).
    - apply yields_any. intros [q |]; [apply Hr; [exact Hy | lia] | apply (grown_more j); [lia | exact Hy]].
    - intros y' Hy'. replace (j + 2 * Z.of_nat (S (length w))) with (j + 2 + 2 * Z.of_nat (length w)) by lia. apply IH; [exact Hy' | lia]. }
  pose proof (Hloop (seqZ 0 (Z.min n num)) k x Hx) as Hl. rewrite length_seqZ in Hl.
  destruct (for_each _ _ x) as [x' | |]; [| done ..]. cbn [yields] in *.
  eapply grown_more; [| apply Hl]; lia.
Qed.

(** The addresses' part of the report leaves the streams and protocols of the last one. *)
Definition other_entries (l l' : sharedif_t) : Prop := sh_streams l' = sh_streams l /\ sh_protos l' = sh_protos l.

Lemma process_addr_others ff i g : yields (fun g' => other_entries (gd_last g) (gd_last g')) (process_addr ff i g).
Proof.
  unfold process_addr. apply yields_any. intros cur. destruct (IS_EMPTY_SLOT _); [done |]. cbv zeta.
  apply yields_any. intros [sc ns]. apply yields_any. intros [ta nt]. apply yields_any. intros old. destruct (diff_addr _ _) as [l' c'].
  do 3 (apply yields_any; intros ?). done.
Qed.

Lemma process_protocols_text ts copy last ptrs g p (l : list Z) es k t x :
  for_each process_protocol (seqZ 0 SI_NUM_PROTOS) (mk_gather copy last ptrs 0) = Val g ->
  block_typed (ga_copy g) -> ga_num g = Z.of_nat (length l) ->
  quicksort (via (sh_protos (ga_copy g)) rcmp_protos_pkt) (ga_ptrs g) 0 (i32 (u32 (ga_num g - 1))) = Val p ->
  take (length l) p = Some <$> l -> protos_at (sh_protos (ga_copy g)) (take 20 l) es -> 0 <= k <= 800 -> stats_text k t x ->
  yields (fun '(c', last', _, x') => c' = ga_copy g /\ last' = ga_last g /\
      stats_text (k + 2 * Z.of_nat (length es)) (t +:+ proto_rows 0 es) x')
    (_process_protocols true ts copy last ptrs x).
Proof.
  intros Hg Hc Hn Hq Ht He Hk Hx. unfold _process_protocols. rewrite Hg, bind_Val. cbv zeta. rewrite Hq, bind_Val, Hn.
  assert (forall i q e k t x, fst e = q /\ aget (sh_protos (ga_copy g)) q = Val (snd e) -> 0 <= k <= 900 -> stats_text k t x ->
    yields (stats_text (k + 2) (t +:+ headed proto_head i (proto_row i e))) (report_protocol true (ga_copy g) ts i q x)) as Hrow
    by (intros i q e k0 t0 x0 [E1 E2]; by apply report_protocol_text).
  apply (yields_bind _ _ _ _ (report_top_rows _ _ _ Hrow TOPN_PROTOS p l es k t x ltac:(done) Ht He ltac:(lia) ltac:(unfold TOPN_PROTOS; lia) Hx)).
  intros x1 Hx1. cbn [yields]. by repeat (split; [done |]).
Qed.

Lemma top_addrs_grows sh ts sortby ff num ptrs k t x : block_typed sh -> sortby <> SortByMax -> k <= 800 -> grown_text k t x ->
  yields (grown_text (k + 20) t) (report_top 10 num ptrs (on_topn_address true sh ts sortby ff) x).
Proof.
  intros Hsh Hmax Hk Hx. apply (report_top_grows 10 num ptrs _ k t x); [lia | lia | | exact Hx]. intros i q j y Hy Hj.
  unfold on_topn_address. apply (yields_bind (grown_text (j + 1) t)); [apply grown_head; [unfold LINE; text | lia | exact Hy] |]. intros y1 Hy1.
  apply (yields_bind _ _ _ _ (note_addr_stats true sh q y1)). intros y2 E2.
  apply (yields_bind _ _ _ _ (arr_aget _ _ _ q (bt_addrs _ Hsh))). intros a [].
  pose proof (sort_name_short sortby Hmax) as Hn. destruct (sort_name sortby) as [name | |]; [| done ..]. cbn [returns] in Hn. rewrite bind_Val.
  replace (j + 2) with (j + 1 + 1) by lia. apply grown_append; [unfold LINE; text | lia | by apply (grown_same _ _ y1)].
Qed.

Lemma report_suspects_grows sh ts ff num sortby cmp ptrs k t x : block_typed sh -> sortby <> SortByMax -> k <= 800 -> grown_text k t x ->
  yields (fun r => grown_text (k + 20) t (snd r)) (report_suspects true sh ts ff num sortby cmp ptrs x).
Proof.
  intros Hsh Hmax Hk Hx. unfold report_suspects. destruct (0 <? num); [| apply (grown_more k); [lia | exact Hx]].
  apply yields_any. intros p. by apply (yields_bind _ _ _ _ (top_addrs_grows sh ts sortby ff num p k t x Hsh Hmax Hk Hx)).
Qed.

Lemma process_addrs2_grows ts ff indexes g0 k t x : block_typed (gd_copy g0) -> block_typed (gd_last g0) -> k <= 700 -> grown_text k t x ->
  yields (fun '(g', x') => block_typed (gd_copy g') /\ block_typed (gd_last g') /\ other_entries (gd_last g0) (gd_last g') /\ grown_text (k + 60) t x')
    (_process_addrs2 true ts ff indexes g0 x).
Proof.
  intros Hc Hl Hk Hx. unfold _process_addrs2.
  apply (yields_bind (fun g => addrs_good (gd_copy g0) (gd_last g0) g /\ other_entries (gd_last g0) (gd_last g))).
  { apply yields_for_each; [split; [split; by apply good_refl | done] |]. intros i g [Hg Hs].
    apply yields_and; [by apply process_addr_good |]. eapply yields_weaken; [apply process_addr_others |].
    unfold other_entries in *. intros g' [-> ->]. exact Hs. }
  intros g ([[HC _] [HL _]] & Hs). cbv zeta. apply yields_any. intros p.
  apply (yields_bind _ _ _ _ (top_addrs_grows _ ts SortByTxPkt ff _ p k t x HC ltac:(done) ltac:(lia) Hx)). intros x1 Hx1.
  apply (yields_bind _ _ _ _ (report_suspects_grows _ ts ff _ SortByScannedPorts _ _ (k + 20) t x1 HC ltac:(done) ltac:(lia) Hx1)). intros [sc x2] Hx2.
  apply (yields_bind _ _ _ _ (report_suspects_grows _ ts ff _ SortByServedPorts _ _ (k + 20 + 20) t x2 HC ltac:(done) ltac:(lia) Hx2)). intros [ta x3] Hx3.
  cbn [yields snd] in *. do 3 (split; [done |]). replace (k + 60) with (k + 20 + 20 + 20) by lia. exact Hx3.
Qed.

Lemma process_addrs_grows ts g0 k t x : block_typed (gd_copy g0) -> block_typed (gd_last g0) -> k <= 600 -> grown_text k t x ->
  yields (fun '(g', x') => other_entries (gd_last g0) (gd_last g') /\ grown_text (k + 120) t x') (_process_addrs true ts g0 x).
Proof.
  intros Hc Hl Hk Hx. unfold _process_addrs. apply (yields_bind _ _ _ _ (process_addrs2_grows ts _ _ g0 k t x Hc Hl ltac:(lia) Hx)).
  intros [g1 x1] (C1 & L1 & S1 & X1).
  pose proof (process_addrs2_grows ts 0 (sh_addr_wan_indexes (gd_copy g1)) g1 (k + 60) t x1 C1 L1 ltac:(lia) X1) as H.
  destruct (_process_addrs2 _ _ _ _ _ _) as [[g2 x2] | |]; [| done ..]. cbn [yields] in *. destruct H as (_ & _ & S2 & X2).
  split; [unfold other_entries in *; destruct S1, S2; by split; congruence |]. replace (k + 120) with (k + 60 + 60) by lia. exact X2.
Qed.

End Output.

(** The close of a period prints the section just before the END line. *)
Lemma close_text o k t x : grown_text o k t x ->
  yields (fun x' => exists pre rest, out x' = o +:+ pre +:+ t +:+ rest +:+ newline +:+ end_line) (on_stat_period_close 60 x).
Proof.
  intros [Hk (r & (b & tm & Hb & Hh & Htm & _) & Ho)]. unfold on_stat_period_close. cbv zeta.
  assert (forall ob y, yields (fun y' => sbuf_stats y' = sbuf_stats y /\ exists s, out y' = out y +:+ s) (puts_sbuf ob y)) as Hputs
    by (intros ob y; unfold puts_sbuf; apply yields_any; intros ?; apply yields_any; intros s; split; [done | by eexists]).
  apply (yields_bind _ _ _ _ (Hputs _ _)). intros x1 [E1 (s1 & O1)]. apply (yields_bind _ _ _ _ (Hputs _ _)). intros x2 [E2 (s2 & O2)].
  cbn [sbuf_stats out print set_out] in E1, E2, O1, O2. rewrite E2, E1, Hb. unfold puts_sbuf. cbn [deref]. rewrite bind_Val.
  destruct (sh_text _ _ _ Hh) as (rest & Hp & Ht). destruct (Ht (Htm Hk)) as [rest' ->].
  unfold sbuf_to_s. rewrite Hp, c_string_text by apply (sh_no_nul _ _ _ Hh). rewrite bind_Val. cbn [yields].
  assert (exists pre, out x2 = o +:+ pre) as (pre & Hpre)
    by (rewrite O2, O1, Ho, !string_app_assoc; eexists; reflexivity).
  exists pre, r. cbn [out puts print set_out]. rewrite Hpre, !string_app_assoc. reflexivity.
Qed.

(** ** The whole report *)

Lemma open_text ts n x : ex_initialized x = 0 -> exists s, stats_text (out x +:+ s) 0 "" (on_stat_period_open true ts n x).
Proof.
  intros Hi. unfold on_stat_period_open. rewrite Hi. cbn [Z.eqb]. destruct (new_holds 8192 ltac:(lia)) as (b & Hb & Hh & Hc).
  eexists. split; [| reflexivity]. exists b, false. cbn. rewrite Hc. split; [exact Hb |]. split; [exact Hh |]. split; [done |]. lia.
Qed.

Lemma print_text o k t s x : stats_text o k t x -> stats_text (o +:+ s) k t (print s x).
Proof. intros [H Ho]. split; [exact H |]. cbn. by rewrite Ho. Qed.

(** What a report's own computations on its two blocks gave: the entries of its rankings. *)
Record top_lists (g : sharedif_t) (sp : statproc_t) (gt : gather) (es1 es2 : list stream_info_t) : Prop := {
  tl_gather : exists c0 c l0 p1 p2 l1 l2, sp_copy sp = Some c0 /\ sp_last sp = Some l0 /\ take_copy c0 g = Val c /\ block_typed c /\ block_typed l0 /\
    for_each process_stream (window (sh_stream_indexes c)) (mk_gather c l0 (stream_ptrs sp) 0) = Val gt /\
    ga_num gt = Z.of_nat (length l1) /\ length l2 = length l1 /\
    quicksort (via (sh_streams (ga_copy gt)) rcmp_stream_pkt) (ga_ptrs gt) 0 (i32 (u32 (ga_num gt - 1))) = Val p1 /\
    quicksort (via (sh_streams (ga_copy gt)) rcmp_stream_bytes) p1 0 (i32 (u32 (ga_num gt - 1))) = Val p2 /\
    take (length l1) p1 = Some <$> l1 /\ take (length l1) p2 = Some <$> l2 /\
    leads_to (sh_streams (ga_copy gt)) (take 20 l1) es1 /\ leads_to (sh_streams (ga_copy gt)) (take 20 l2) es2;
  tl_some : es1 <> []
}.

(** The same for the protocols, which are looked at after the streams. *)
Record top_protos (sp : statproc_t) (gt gp : gather) (ps : list (Z * proto_info_t)) : Prop := {
  tp_gather : exists p l, for_each process_protocol (seqZ 0 SI_NUM_PROTOS) (mk_gather (ga_copy gt) (ga_last gt) (proto_ptrs sp) 0) = Val gp /\
    ga_num gp = Z.of_nat (length l) /\
    quicksort (via (sh_protos (ga_copy gp)) rcmp_protos_pkt) (ga_ptrs gp) 0 (i32 (u32 (ga_num gp - 1))) = Val p /\
    take (length l) p = Some <$> l /\ protos_at (sh_protos (ga_copy gp)) (take 20 l) ps
}.

(** The text of a report's lists of streams and protocols. *)
Definition lists_text (es1 es2 : list stream_info_t) (ps : list (Z * proto_info_t)) : string :=
  (stream_rows "P" 0 es1 +:+ stream_rows "B" 0 es2) +:+ proto_rows 0 ps.

(** The report's text contains exactly the lines of its lists of streams and protocols,
    and the entries that the next report compares with are those the loops left. *)
Lemma check_minute_text now0 now1 ts g sp gt gp es1 es2 ps : sec_tables sp -> export_idle (sp_export sp) -> ts <> 0 ->
  top_lists g sp gt es1 es2 -> top_protos sp gt gp ps ->
  yields (fun sp' => (exists l', sp_last sp' = Some l' /\ sh_streams l' = sh_streams (ga_last gp) /\ sh_protos l' = sh_protos (ga_last gp)) /\
      exists pre rest, out (sp_export sp') = out (sp_export sp) +:+ pre +:+ lists_text es1 es2 ps +:+ rest +:+ newline +:+ end_line)
    (check_minute true now0 now1 ts g sp).
Proof.
  intros Rr Rx Hts [(c0 & c & l0 & p1 & p2 & l1 & l2 & Ec & El & Htake & Tc & Tl & Hg & Hn & Hlen & Hq1 & Hq2 & Ht1 & Ht2 & He1 & He2) Hsome]
    [(p3 & l3 & Hgp & Hn3 & Hq3 & Ht3 & He3)].
  unfold check_minute. set (sp0 := set_gProfileNumMins _ sp). cbv zeta. rewrite (proj2 (Z.eqb_neq _ _) Hts).
  assert (sec_tables sp0) as Rr0 by (destruct Rr; by split). rewrite print_secs_ok by exact Rr0.
  destruct (open_text ts (sec_i sp0) (sp_export sp0) (xi_init _ Rx)) as (s & Hx).
  apply (print_text _ _ _ ("STAT,T," +:+ fmt_u (last_min_packets sp0) +:+ "," +:+ fmt_u (last_min_bytes sp0) +:+ newline)),
    (print_text _ _ _ (second_lines (sec_flows sp0))) in Hx. revert Hx. generalize (print (second_lines (sec_flows sp0)) (print ("STAT,T," +:+ fmt_u (last_min_packets sp0) +:+ "," +:+ fmt_u (last_min_bytes sp0) +:+ newline)
    (on_stat_period_open true ts (sec_i sp0) (sp_export sp0)))). intros x Hx.
  change (sp_copy sp0) with (sp_copy sp). change (sp_last sp0) with (sp_last sp). rewrite Ec, El. cbn [deref]. rewrite bind_Val, Htake, bind_Val.
  set (line := ("STAT,I,streams:" +:+ _)%string). apply (print_text _ _ _ line) in Hx.
  revert Hx. generalize (print line x). clear x. intros x Hx. rewrite bind_Val.
  assert (exists s', stats_text (out (sp_export sp) +:+ s') 0 "" x) as (s' & Hs')
    by (change (sp_export sp0) with (sp_export sp) in Hx; rewrite !string_app_assoc in Hx; by eexists).
  clear Hx. change (stream_ptrs sp0) with (stream_ptrs sp).
  assert (yields (gather_good c l0) (for_each process_stream (window (sh_stream_indexes c)) (mk_gather c l0 (stream_ptrs sp) 0))) as Hgood.
  { apply yields_for_each; [split; by apply good_refl |]. intros i g'. apply process_stream_good. }
  rewrite Hg in Hgood. destruct Hgood as [[GC _] [GL _]].
  apply (yields_bind _ _ _ _ (process_streams_text _ ts c l0 (stream_ptrs sp) gt p1 p2 l1 l2 es1 es2 x Hg GC Hn Hlen Hq1 Hq2 Ht1 Ht2 He1 He2 Hs')).
  intros [[[c1 la1] sptrs] x1] (-> & -> & -> & Hx1). set (T := stream_rows "P" 0 es1 +:+ stream_rows "B" 0 es2) in *.
  assert ((0 < length es1)%nat /\ (length es1 <= 20)%nat /\ (length es2 <= 20)%nat) as (L0 & L1 & L2).
  { split; [destruct es1; [done | cbn; lia] |]. apply Forall2_length in He1, He2. rewrite length_take in He1, He2. lia. }
  assert (stats_text (out (sp_export sp) +:+ s') 80 T x1) as Hgr by (eapply stats_more; [exact Hx1 | lia | lia]).
  assert (yields (gather_good (ga_copy gt) (ga_last gt)) (for_each process_protocol (seqZ 0 SI_NUM_PROTOS) (mk_gather (ga_copy gt) (ga_last gt) (proto_ptrs sp) 0))) as Hgoodp.
  { apply yields_for_each; [split; by apply good_refl |]. intros i g'. apply process_protocol_good. }
  rewrite Hgp in Hgoodp. destruct Hgoodp as [[GC2 _] [GL2 _]]. change (proto_ptrs sp0) with (proto_ptrs sp).
  apply (yields_bind _ _ _ _ (process_protocols_text _ ts (ga_copy gt) (ga_last gt) (proto_ptrs sp) gp p3 l3 ps 80 T x1 Hgp GC2 Hn3 Hq3 Ht3 He3 ltac:(lia) Hgr)).
  intros [[[c2 la2] pptrs] x2] (-> & -> & Hx2). fold (lists_text es1 es2 ps) in Hx2.
  assert (length ps <= 20)%nat as L3 by (apply Forall2_length in He3; rewrite length_take in He3; lia).
  assert (grown_text (out (sp_export sp) +:+ s') 120 (lists_text es1 es2 ps) x2) as Hgr2.
  { split; [lia |]. exists ""%string. rewrite string_app_nil_r. eapply stats_more; [exact Hx2 | lia | lia]. }
  apply (yields_bind _ _ _ _ (process_addrs_grows _ ts (mk_gather_addrs (ga_copy gp) (ga_last gp) _ 0 _ 0 _ 0) 120 _ x2 GC2 GL2 ltac:(lia) Hgr2)).
  intros [g2 x3] ([S1 S2] & Hx3). apply (yields_bind _ _ _ _ (close_text _ _ _ _ Hx3)). intros x4 (pre & rest & Hout). cbn [yields].
  split; [exists (gd_last g2); split; [reflexivity | by split] |].
  exists (s' +:+ pre), rest. cbn [sp_export set_sp_export]. rewrite Hout, !string_app_assoc. reflexivity.
Qed.
