(* ===== verification/System.v ===== *)
(** The two processes together: packets and seconds in any order over one shared
    block, and what a minute's report says about the packets of the minute. *)
From S2P Require Import Prelude Structs Format IpUtils Packet Cleanup ShmData Export StatProc Capture Lifecycle Conversation Flows Counters Reports Typing ReportRun Clock Replay Main.
From stdpp Require Import list.
#[local] Open Scope Z_scope.

(** [tlast_report] and the state of the capture process, which holds the shared block,
    and the state of the statistics process. *)
Record system := mk_system { sys_tlast : Z; sys_cap : capture_t; sys_sp : statproc_t }.

Definition sys_block (sy : system) : sharedif_t := g_shm (cp_shm (sys_cap sy)).
Definition sys_out (sy : system) : string := out (sp_export (sys_sp sy)).

(** A packet that [pcap_loop] hands to the capture process, or a second of the
    statistics process, with its readings of the clock. *)
Inductive event := Deliver (p : live_packet) | Second (sec now0 now1 : Z).

(** Each runs to its end: a packet is handled between two looks at the block. *)
Definition do_event (e : event) (sy : system) : res system :=
  match e with
  | Deliver p =>
      '(tlast, st) ← callback (lp_env p) (lp_stat p) (lp_hdr p) (lp_tv_sec p) (lp_bytes p) (sys_tlast sy) (sys_cap sy);
      Val (mk_system tlast st (sys_sp sy))
  | Second sec now0 now1 =>
      sp ← every_second true now0 now1 (mk_tval_t sec 0) (sys_block sy) (sys_sp sy);
      Val (mk_system (sys_tlast sy) (sys_cap sy) sp)
  end.

Definition run_events (evs : list event) (sy : system) : res system := for_each do_event evs sy.

Definition is_packet (e : event) : bool := match e with Deliver _ => true | _ => false end.

(** The packets of a list of events, and those of them that are heard. *)
Fixpoint delivered (evs : list event) : list (pcap_pkthdr32_t * list Z) :=
  match evs with
  | [] => []
  | Deliver p :: evs => (lp_hdr p, lp_bytes p) :: delivered evs
  | _ :: evs => delivered evs
  end.

Definition packets_of (evs : list event) : Z := Z.of_nat (length (heard_of (delivered evs))).
Definition bytes_of (evs : list event) : Z := foldr (fun p n => i32 (hdr_len (fst p)) + n) 0 (heard_of (delivered evs)).

Definition event_ok (e : event) : Prop :=
  match e with
  | Deliver p => packet_ok (lp_hdr p) (lp_bytes p) /\ hdr_typed (lp_hdr p) /\ hdr_len (lp_hdr p) < 2147483648
  | Second _ _ _ => True
  end.

(** The seconds increase from [t] on and stay inside the minute that started at [tl]. *)
Fixpoint seconds_in (tl t : Z) (evs : list event) : Prop :=
  match evs with
  | [] => True
  | Second sec _ _ :: evs => t < sec /\ sec - tl < 60 /\ is_u32 sec /\ seconds_in tl sec evs
  | _ :: evs => seconds_in tl t evs
  end.

Fixpoint last_second (t : Z) (evs : list event) : Z :=
  match evs with
  | [] => t
  | Second sec _ _ :: evs => last_second sec evs
  | _ :: evs => last_second t evs
  end.

(** ** Sums over events *)

Lemma delivered_app evs evs' : delivered (evs ++ evs') = delivered evs ++ delivered evs'.
Proof. induction evs as [| [p | sec n0 n1] evs IH]; [done | cbn; by rewrite IH | exact IH]. Qed.

Lemma packets_app evs evs' : packets_of (evs ++ evs') = packets_of evs + packets_of evs'.
Proof. unfold packets_of, heard_of. rewrite delivered_app, List.filter_app, length_app. lia. Qed.

Lemma bytes_app evs evs' : bytes_of (evs ++ evs') = bytes_of evs + bytes_of evs'.
Proof.
  unfold bytes_of, heard_of. rewrite delivered_app, List.filter_app. induction (List.filter _ (delivered evs)) as [| p l IH]; [done |].
  cbn [app foldr]. rewrite IH. lia.
Qed.

Lemma sums_ok evs : Forall event_ok evs -> 0 <= packets_of evs /\ 0 <= bytes_of evs.
Proof.
  intros H. split; [unfold packets_of; lia |]. unfold bytes_of, heard_of.
  induction H as [| [p | sec n0 n1] evs He H IH]; [done | | exact IH].
  cbn [delivered List.filter fst snd]. case_bool_decide; [| exact IH]. cbn [foldr fst].
  destruct He as (_ & (_ & _ & Hl) & Hlt). rewrite i32_small by (unfold is_u32 in Hl; lia). unfold is_u32 in Hl. lia.
Qed.

Lemma last_second_app t evs evs' : last_second t (evs ++ evs') = last_second (last_second t evs) evs'.
Proof. revert t. induction evs as [| [p | sec n0 n1] evs IH]; intros t; [done | apply IH ..]. Qed.

(** The packets do not see the state of the statistics process. *)
Lemma only_packets evs : Forall (fun e => is_packet e = true) (List.filter is_packet evs).
Proof. apply list.Forall_forall. intros e He%list_elem_of_In. exact (proj2 (proj1 (List.filter_In _ _ _) He)). Qed.

Lemma capture_only evs : forall sy sy1 syc,
  Forall (fun e => is_packet e = true) evs -> sys_cap sy1 = sys_cap sy -> sys_tlast sy1 = sys_tlast sy ->
  run_events evs sy = Val syc -> exists syc1, run_events evs sy1 = Val syc1 /\ sys_cap syc1 = sys_cap syc.
Proof.
  induction evs as [| e evs IH]; intros sy sy1 syc Hp Hc Ht Hrun.
  { injection Hrun as <-. by exists sy1. }
  apply Forall_cons_1 in Hp as [He Hp]. destruct e as [p |]; [| done]. unfold run_events in *. cbn [for_each do_event] in *.
  rewrite Hc, Ht. destruct (callback _ _ _ _ _ _ _) as [[tl st] | |]; [| done ..]. rewrite bind_Val in Hrun |- *.
  rewrite bind_Val in Hrun |- *. exact (IH (mk_system tl st (sys_sp sy)) (mk_system tl st (sys_sp sy1)) syc Hp eq_refl eq_refl Hrun).
Qed.

(** ** Inside a minute *)

(** The total of a list of flow counters. *)
Definition total_is (F : list flow_stats_t) (p b : Z) : Prop :=
  exists f, aget F FLOW_TYPE_TOTAL = Val f /\ fs_packets f = p /\ fs_bytes f = b.

(** One second, with the totals of the minute. *)
Lemma tick_totals now0 now1 sec g t sp p b p' b' :
  running t sp -> t < sec -> is_u32 sec -> block_typed g -> (60 <= sec - tlast_min sp -> block_ready g) ->
  total_is (ss_flow_stats (stats_last_sec sp)) p b -> total_is (sh_flow_stats g) p' b' ->
  let P := u64 (last_min_packets sp + u32diff p p') in
  let B := u64 (last_min_bytes sp + u32diff b b') in
  returns (fun sp' => running sec sp' /\ stats_last_sec sp' = second_stats g /\
      if 60 <=? sec - tlast_min sp
      then tlast_min sp' = sec / 60 * 60 /\ last_min_packets sp' = 0 /\ last_min_bytes sp' = 0 /\
        exists n body, out (sp_export sp') = (out (sp_export sp) +:+ start_line sec n) +:+ (total_line P B +:+ body) +:+ end_line
      else tlast_min sp' = tlast_min sp /\ last_min_packets sp' = P /\ last_min_bytes sp' = B /\ out (sp_export sp') = out (sp_export sp))
    (every_second true now0 now1 (mk_tval_t sec 0) g sp).
Proof.
  intros [Hr Hi Hc] Hlt Hts Ht Hb (f & Hf & Ep & Eb) (f' & Hf' & Ep' & Eb'). cbv zeta. pose proof (flows_len _ Ht) as Hg.
  destruct Hc as (C1 & C2 & C3).
  destruct (every_second_step true now0 now1 (mk_tval_t sec 0) g sp Hi (sr_rows _ Hr) (sr_last_sec _ Hr) Hg
    ltac:(lia) ltac:(cbn; lia) Hts) as (sp1 & Hw & ->). cbn [tv_sec].
  destruct (written_ready sp g sp1 (sec_i sp + 1) Hr Hg Hw) as (Hr' & E1 & E2 & E3 & E4).
  destruct (rw_totals _ _ _ Hw) as (d & Hd & Hp & Hbt). rewrite bool_decide_true in Hp, Hbt by (by apply elem_of_seqZ).
  destruct Hd as (x & y & Hx & Hy & ->); [by apply elem_of_seqZ |].
  assert (x = f) as -> by (change (ss_flow_stats (stats_last_sec (set_stats_cur_sec (second_stats g) sp)))
    with (ss_flow_stats (stats_last_sec sp)) in Hx; unfold FLOW_TYPE_TOTAL in Hf; congruence).
  assert (y = f') as -> by (change (ss_flow_stats (stats_cur_sec (set_stats_cur_sec (second_stats g) sp)))
    with (sh_flow_stats g) in Hy; unfold FLOW_TYPE_TOTAL in Hf'; congruence).
  cbn [fs_packets fs_bytes] in Hp, Hbt. rewrite Ep, Ep' in Hp. rewrite Eb, Eb' in Hbt.
  set (sp' := set_stats_last_sec _ _) in *.
  assert (last_min_packets sp' = u64 (last_min_packets sp + u32diff p p') /\
    last_min_bytes sp' = u64 (last_min_bytes sp + u32diff b b')) as [P1 P2] by (by split).
  destruct (Z.leb_spec 60 (sec - tlast_min sp)) as [Hm | Hm].
  - apply (returns_weaken _ _ _ (check_minute_ok now0 now1 sec g sp' Hr' (Hb Hm) ltac:(lia))).
    intros sp2 (R1 & R2 & R2' & R4 & R5 & R6 & R7 & R8 & _ & body & R9). rewrite E4, P1, P2 in R9. split; [split |].
    + exact R1.
    + by rewrite R2, E1.
    + unfold clock. rewrite R5, R6. clia.
    + split; [exact R2' |]. split; [exact R6 |]. split; [exact R7 |]. split; [exact R8 |]. by eexists (sec_i sp'), _.
  - cbn [returns]. split; [split; [exact Hr' | by rewrite E1 |] |].
    + unfold clock. rewrite E2. change (sec_i sp') with (sec_i sp + 1). lia.
    + split; [done |]. split; [exact E2 |]. split; [exact P1 |]. split; [exact P2 | by rewrite E4].
Qed.

Section Minute.
Context (F0 : list flow_stats_t) (p0 b0 t0 tl : Z) (o : string).
Context (Hlen : length F0 = 6%nat) (Htot : total_is F0 p0 b0).

(** What holds after events of a minute: the shared block is typed and accounts for
    the packets; the statistics process has added up to the total it saw last. *)
Record in_minute (evs : list event) (sy : system) : Prop := {
  im_run : capture_run (sys_cap sy);
  im_acc : exists xs, accounted (delivered evs) xs F0 (cp_shm (sys_cap sy));
  im_sp : running (last_second t0 evs) (sys_sp sy);
  im_tl : tlast_min (sys_sp sy) = tl;
  im_out : sys_out sy = o;
  im_seen : exists p b, total_is (ss_flow_stats (stats_last_sec (sys_sp sy))) p b /\
    p0 <= p <= p0 + packets_of evs /\ b0 <= b <= b0 + bytes_of evs /\
    last_min_packets (sys_sp sy) = p - p0 /\ last_min_bytes (sys_sp sy) = b - b0
}.

Definition fits32 (evs : list event) : Prop := p0 + packets_of evs < 4294967296 /\ b0 + bytes_of evs < 4294967296.

(** The block's total is exact while it fits its counters. *)
Lemma block_total evs sy : in_minute evs sy -> Forall event_ok evs -> 0 <= p0 -> 0 <= b0 -> fits32 evs ->
  total_is (sh_flow_stats (sys_block sy)) (p0 + packets_of evs) (b0 + bytes_of evs) /\ block_typed (sys_block sy).
Proof using Hlen Htot.
  intros [Hrun (xs & Hacc) _ _ _ _] Hok Hp0 Hb0 [Hf1 Hf2]. pose proof (sy_block _ (run_typed _ Hrun)) as Hty.
  destruct (total_grown _ xs F0 _ Hlen Hacc) as (f & f' & A & B & C & D). destruct Htot as (g & A' & E1 & E2).
  assert (g = f) as -> by congruence. destruct (sums_ok evs Hok) as [S1 S2].
  pose proof (arr_aget _ _ _ FLOW_TYPE_TOTAL (bt_flows _ Hty)) as Hf'. rewrite B in Hf'. destruct Hf' as [U1 U2].
  split; [| exact Hty]. exists f'. split; [exact B |]. rewrite E1 in C. rewrite E2 in D. split.
  - apply (adds_small p0 (packets_of evs)); [exact C | exact U1 | lia].
  - apply (adds_small b0 (bytes_of evs)); [exact D | exact U2 | lia].
Qed.

(** A packet, when the capture process handles it. *)
Lemma deliver_step evs sy p :
  in_minute evs sy -> event_ok (Deliver p) -> yields (in_minute (evs ++ [Deliver p])) (do_event (Deliver p) sy).
Proof using Hlen.
  intros [Hrun (xs & Hacc) Hsp Htl Hout (q & c & H1 & H2 & H3 & H4)] He. pose proof He as (Hpk & Hh & Hlt).
  pose proof (sums_ok [Deliver p] ltac:(by constructor)) as [S1 S2]. cbn [do_event].
  pose proof (callback_flows (lp_env p) (lp_stat p) (lp_hdr p) (lp_tv_sec p) (lp_bytes p) (sys_tlast sy) (sys_cap sy) _ Hpk
    (proj2 (proj2 Hacc))) as Hm.
  destruct (callback _ _ _ _ _ _ _) as [[tl' st'] | |] eqn:Hcb; [| done ..]. rewrite bind_Val. cbn [yields snd] in Hm |- *.
  destruct (accounted_snoc _ _ _ _ _ _ _ Hacc Hm) as (xs' & Hacc').
  split; cbn [sys_cap sys_sp].
  - exact (run_callback _ _ _ _ _ _ _ _ _ Hrun (proj1 (proj2 Hpk)) Hh Hcb).
  - exists xs'. by rewrite delivered_app.
  - by rewrite last_second_app.
  - exact Htl.
  - exact Hout.
  - exists q, c. rewrite packets_app, bytes_app. split; [exact H1 |]. split; [lia |]. split; [lia |]. exact H4.
Qed.

(** A second inside the minute. *)
Lemma second_step evs sy sec n0 n1 :
  in_minute evs sy -> Forall event_ok evs -> 0 <= p0 -> 0 <= b0 -> fits32 evs ->
  last_second t0 evs < sec -> sec - tl < 60 -> is_u32 sec ->
  returns (in_minute (evs ++ [Second sec n0 n1])) (do_event (Second sec n0 n1) sy).
Proof using Hlen Htot.
  intros Him Hok Hp0 Hb0 Hfit Hlt Hin Hu. destruct (block_total evs sy Him Hok Hp0 Hb0 Hfit) as [Hb Hty].
  destruct Him as [Hrun Hacc Hsp Htl Hout (p & b & H1 & H2 & H3 & H4 & H5)]. destruct Hfit as [F1 F2].
  cbn [do_event]. eapply returns_bind.
  { apply (tick_totals n0 n1 sec _ _ _ p b _ _ Hsp Hlt Hu Hty ltac:(rewrite Htl; lia) H1 Hb). }
  cbv beta zeta. intros sp' (R1 & R2 & R3). rewrite Htl, (proj2 (Z.leb_gt 60 _)) in R3 by lia. destruct R3 as (R3 & R4 & R5 & R6).
  cbn [returns]. split; cbn [sys_cap sys_sp].
  - exact Hrun.
  - by rewrite delivered_app, app_nil_r.
  - by rewrite last_second_app.
  - exact R3.
  - unfold sys_out in *. cbn. congruence.
  - exists (p0 + packets_of evs), (b0 + bytes_of evs). rewrite packets_app, bytes_app, R2, R4, R5.
    change (packets_of [Second sec n0 n1]) with 0. change (bytes_of [Second sec n0 n1]) with 0. rewrite !Z.add_0_r.
    split; [exact Hb |]. split; [lia |]. split; [lia |]. unfold u32diff.
    rewrite (proj2 (Z.leb_le p _)), (proj2 (Z.leb_le b _)) by lia. rewrite H4, H5.
    split; unfold u64; rewrite Z.mod_small; lia.
Qed.

(** The rest of a minute, as long as the capture process handles its packets. *)
Lemma minute_events rest : forall evs sy,
  in_minute evs sy -> Forall event_ok (evs ++ rest) -> 0 <= p0 -> 0 <= b0 -> fits32 (evs ++ rest) ->
  seconds_in tl (last_second t0 evs) rest ->
  forall syc, run_events (List.filter is_packet rest) sy = Val syc ->
  exists sy', run_events rest sy = Val sy' /\ in_minute (evs ++ rest) sy' /\ sys_cap sy' = sys_cap syc.
Proof using Hlen Htot.
  induction rest as [| e rest IH]; intros evs sy Him Hok Hp0 Hb0 Hfit Hsec syc Hcap.
  { injection Hcap as <-. exists sy. rewrite app_nil_r. by split. }
  assert (evs ++ e :: rest = (evs ++ [e]) ++ rest) as Happ by (by rewrite <- app_assoc).
  rewrite Happ in Hok, Hfit |- *. pose proof Hok as [Hoke Hokr]%Forall_app.
  assert (fits32 evs) as Hf.
  { apply Forall_app in Hoke as [_ He]. unfold fits32 in *. rewrite !packets_app, !bytes_app in Hfit.
    destruct (sums_ok _ He), (sums_ok _ Hokr). lia. }
  assert (exists sy1 syc', do_event e sy = Val sy1 /\ in_minute (evs ++ [e]) sy1 /\
    run_events (List.filter is_packet rest) sy1 = Val syc' /\ sys_cap syc' = sys_cap syc /\
    seconds_in tl (last_second t0 (evs ++ [e])) rest) as (sy1 & syc' & Hdo & Him1 & Hcap1 & Hc & Hsec1).
  { destruct e as [p | sec n0 n1]; cbn [List.filter is_packet] in Hcap.
    - unfold run_events in Hcap. cbn [for_each] in Hcap. apply bind_Val_inv in Hcap as (sy1 & Hdo & Hcap).
      exists sy1, syc. pose proof (deliver_step evs sy p Him) as Hst. rewrite Hdo in Hst. split; [done |].
      split; [apply Hst; apply Forall_app in Hoke as [_ He]; by inversion He |]. split; [exact Hcap |]. split; [done |].
      rewrite last_second_app. exact Hsec.
    - destruct Hsec as (H1 & H2 & H3 & H4).
      destruct (returns_Val _ _ (second_step evs sy sec n0 n1 Him (proj1 (proj1 (Forall_app _ _ _) Hoke)) Hp0 Hb0 Hf H1 H2 H3))
        as (sy1 & Hdo & Him1).
      assert (sys_cap sy1 = sys_cap sy /\ sys_tlast sy1 = sys_tlast sy) as [C1 C2].
      { cbn [do_event] in Hdo. apply bind_Val_inv in Hdo as (sp' & _ & [= <-]). done. }
      destruct (capture_only (List.filter is_packet rest) sy sy1 syc) as (syc' & Hcap1 & Hc); [apply only_packets | done | done | exact Hcap |].
      exists sy1, syc'. split; [done |]. split; [done |]. split; [done |]. split; [done |]. by rewrite last_second_app. }
  destruct (IH (evs ++ [e]) sy1 Him1 Hok Hp0 Hb0 Hfit Hsec1 syc' Hcap1) as (sy' & Hrun & Him' & Hc').
  exists sy'. split; [unfold run_events in *; cbn [for_each]; by rewrite Hdo, bind_Val |]. split; [done | congruence].
Qed.
End Minute.

(** ** A minute *)

(** A state in which a minute begins: the statistics process has just seen the total
    [p], [b] of the block, and counts from there. *)
Record minute_start (t p b : Z) (sy : system) : Prop := {
  ms_run : capture_run (sys_cap sy);
  ms_classes : Forall class_ok (sh_streams (sys_block sy));
  ms_sp : running t (sys_sp sy);
  ms_zero : last_min_packets (sys_sp sy) = 0 /\ last_min_bytes (sys_sp sy) = 0;
  ms_seen : total_is (ss_flow_stats (stats_last_sec (sys_sp sy))) p b;
  ms_block : total_is (sh_flow_stats (sys_block sy)) p b
}.

Lemma start_total t p b sy : minute_start t p b sy -> 0 <= p /\ 0 <= b.
Proof.
  intros [Hrun _ _ _ _ (f & Hf & <- & <-)]. pose proof (arr_aget _ _ _ FLOW_TYPE_TOTAL (bt_flows _ (sy_block _ (run_typed _ Hrun)))) as H.
  unfold sys_block in Hf. rewrite Hf in H. destruct H as [H1 H2]. unfold is_u32 in *. lia.
Qed.

Lemma start_in_minute t p b sy : minute_start t p b sy ->
  in_minute (sh_flow_stats (sys_block sy)) p b t (tlast_min (sys_sp sy)) (sys_out sy) [] sy.
Proof.
  intros [Hrun Hcl Hsp [Z1 Z2] Hseen Hblock]. split; try done.
  - exists []. by apply accounted_nil.
  - exists p, b. split; [exact Hseen |]. change (packets_of []) with 0. change (bytes_of []) with 0. lia.
Qed.

Lemma minute_ok t p b sy pre sec n0 n1 syc :
  minute_start t p b sy -> Forall event_ok pre -> fits32 p b pre ->
  seconds_in (tlast_min (sys_sp sy)) t pre ->
  run_events (List.filter is_packet pre) sy = Val syc -> block_ready (sys_block syc) ->
  last_second t pre < sec -> 60 <= sec - tlast_min (sys_sp sy) -> is_u32 sec ->
  exists sy1 sy2, run_events pre sy = Val sy1 /\ sys_out sy1 = sys_out sy /\ sys_cap sy1 = sys_cap syc /\
    do_event (Second sec n0 n1) sy1 = Val sy2 /\ sys_cap sy2 = sys_cap syc /\
    (exists n body, sys_out sy2 = (sys_out sy +:+ start_line sec n) +:+ (total_line (packets_of pre) (bytes_of pre) +:+ body) +:+ end_line) /\
    minute_start sec (p + packets_of pre) (b + bytes_of pre) sy2 /\ tlast_min (sys_sp sy2) = sec / 60 * 60.
Proof.
  intros Hs Hok Hfit Hsec Hcap Hready Hlt Hdue Hu. destruct (start_total _ _ _ _ Hs) as [Hp0 Hb0].
  pose proof (flows_len _ (sy_block _ (run_typed _ (ms_run _ _ _ _ Hs)))) as Hlen. pose proof (ms_block _ _ _ _ Hs) as Htot.
  destruct (minute_events _ p b t _ _ Hlen Htot pre [] sy (start_in_minute _ _ _ _ Hs) Hok Hp0 Hb0 Hfit Hsec syc Hcap)
    as (sy1 & Hrun & Him & Hc). cbn [app] in Him.
  destruct (block_total _ p b t _ _ Hlen Htot pre sy1 Him Hok Hp0 Hb0 Hfit) as [Hblk Hty].
  destruct Him as [Hcr (xs & Hacc) Hsp Htl Hout (q & c & H1 & H2 & H3 & H4 & H5)].
  assert (block_ready (sys_block sy1)) as Hready1 by (unfold sys_block in *; by rewrite Hc).
  destruct (returns_Val _ _ (tick_totals n0 n1 sec (sys_block sy1) _ (sys_sp sy1) q c _ _ Hsp Hlt Hu Hty (fun _ => Hready1) H1 Hblk))
    as (sp2 & Hev & R1 & R2 & R3).
  rewrite Htl, (proj2 (Z.leb_le 60 _) Hdue) in R3. destruct R3 as (Htl2 & Z1 & Z2 & n & body & R3).
  exists sy1, (mk_system (sys_tlast sy1) (sys_cap sy1) sp2). split; [exact Hrun |]. split; [exact Hout |]. split; [exact Hc |].
  split; [cbn [do_event]; by rewrite Hev, bind_Val |]. split; [exact Hc |]. split.
  - exists n, body. unfold sys_out in Hout |- *. cbn [sys_sp]. rewrite R3, Hout. destruct Hfit as [Hf1 Hf2].
    unfold u32diff. rewrite (proj2 (Z.leb_le q _)), (proj2 (Z.leb_le c _)) by lia. rewrite H4, H5.
    unfold u64. rewrite !Z.mod_small by lia.
    replace (q - p + (p + packets_of pre - q)) with (packets_of pre) by lia.
    by replace (c - b + (b + bytes_of pre - c)) with (bytes_of pre) by lia.
  - split; [| exact Htl2]. split; cbn [sys_cap sys_sp]; [exact Hcr | apply Hacc | exact R1 | done | | exact Hblk]. rewrite R2. exact Hblk.
Qed.

(** C5: what a minute's report counts.  From the start of a minute ([minute_start]), let
    packets - in buffers of at least 96 bytes, with lengths and captured lengths below
    2^31 - and seconds come in any order, the seconds increasing and all inside the
    minute, the counters staying below 2^32.  Let the capture process handle the packets
    - taken alone, without the statistics process - and leave a block that a report can
    be made of ([block_ready]): well typed, with a stream in use, and with the windows
    of the streams, the LAN and the other addresses in order inside their arrays.  When
    the allocations of the report succeed, the two processes together handle all the
    events without output; and the next second that is a minute past the start prints
    one report, whose first line states as the packets of the minute exactly the number
    of those packets that were accepted by the parser with two addresses, and as its
    bytes the sum of their lengths: none is lost and none counted twice, whichever
    seconds fell between them.  The state is then again the start of a minute, which is
    counted from the full minute before that second. *)
Theorem minute_report_counts t p b sy pre sec n0 n1 syc
    (Hs : minute_start t p b sy) (Hok : Forall event_ok pre) (Hfit : fits32 p b pre)
    (Hsec : seconds_in (tlast_min (sys_sp sy)) t pre)
    (Hcap : run_events (List.filter is_packet pre) sy = Val syc) (Hready : block_ready (sys_block syc))
    (Hlt : last_second t pre < sec) (Hdue : 60 <= sec - tlast_min (sys_sp sy)) (Hu : is_u32 sec) :
  exists sy1 sy2, run_events pre sy = Val sy1 /\ sys_out sy1 = sys_out sy /\ sys_cap sy1 = sys_cap syc /\
    do_event (Second sec n0 n1) sy1 = Val sy2 /\ sys_cap sy2 = sys_cap syc /\
    (exists n body, sys_out sy2 = (sys_out sy +:+ start_line sec n) +:+ (total_line (packets_of pre) (bytes_of pre) +:+ body) +:+ end_line) /\
    minute_start sec (p + packets_of pre) (b + bytes_of pre) sy2 /\ tlast_min (sys_sp sy2) = sec / 60 * 60.
Proof. exact (minute_ok t p b sy pre sec n0 n1 syc Hs Hok Hfit Hsec Hcap Hready Hlt Hdue Hu). Qed.

(** ** The accounting of the capture process *)

(** The packets of a run, counted on the block. *)
Definition flows_counted (l : list (pcap_pkthdr32_t * list Z)) (F F' : list flow_stats_t) : Prop :=
  exists xs, List.map fst xs = List.map (fun p => i32 (hdr_len (fst p))) (heard_of l) /\ Forall cls_ok xs /\
    forall i, 0 <= i < 6 -> grown i xs F F'.

Lemma accounted_counted l xs F s : length F = 6%nat -> accounted l xs F s -> flows_counted l F (sh_flow_stats (g_shm s)).
Proof.
  intros Hl (H1 & H2 & H3 & _). exists xs. split; [exact H1 |]. split; [exact H2 |]. intros i Hi. rewrite H3. by apply tally_grown.
Qed.

Lemma live_accounted ps : forall l F tl st xs, Forall (fun p => packet_ok (lp_hdr p) (lp_bytes p)) ps ->
  accounted l xs F (cp_shm st) ->
  yields (fun r => exists xs', accounted (l ++ List.map (fun p => (lp_hdr p, lp_bytes p)) ps) xs' F (cp_shm (snd r)))
    (for_each (fun p '(tlast_report, st) =>
        callback (lp_env p) (lp_stat p) (lp_hdr p) (lp_tv_sec p) (lp_bytes p) tlast_report st) ps (tl, st)).
Proof.
  induction ps as [| p ps IH]; intros l F tl st xs Hp Ha; [exists xs; by rewrite app_nil_r |].
  apply Forall_cons_1 in Hp as [Hp Hps]. cbn [for_each List.map].
  apply (yields_bind _ _ _ _ (callback_flows (lp_env p) (lp_stat p) (lp_hdr p) (lp_tv_sec p) (lp_bytes p) tl st _ Hp (proj2 (proj2 Ha)))).
  intros [tl1 st1] Hm. destruct (accounted_snoc _ _ _ _ _ _ _ Ha Hm) as (xs1 & Ha1).
  pose proof (IH _ F tl1 st1 xs1 Hps Ha1) as H. by rewrite <- app_assoc in H.
Qed.

Lemma live_counted live st : Forall (fun p => packet_ok (lp_hdr p) (lp_bytes p)) (le_packets live) ->
  Forall class_ok (sh_streams (g_shm (cp_shm st))) -> length (sh_flow_stats (g_shm (cp_shm st))) = 6%nat -> le_open live = true ->
  yields (fun st' => flows_counted (List.map (fun p => (lp_hdr p, lp_bytes p)) (le_packets live))
      (sh_flow_stats (g_shm (cp_shm st))) (sh_flow_stats (g_shm (cp_shm (snd st'))))) (go_live_pcap live st).
Proof.
  intros Hp Hc Hl Ho. unfold go_live_pcap. destruct (_ <=? _); [done |]. rewrite Ho. cbn [negb]. cbv zeta.
  apply (yields_bind _ _ _ _ (live_accounted (le_packets live) [] _ 0 st [] Hp (accounted_nil _ _ (conj eq_refl Hc)))).
  intros [tl st'] (xs & Ha). cbn [yields snd]. by eapply accounted_counted.
Qed.

(** The buffer each packet of a file arrives in: its bytes, then what earlier packets
    left. *)
Fixpoint deliveries (recs : list (pcap_pkthdr32_t * list Z)) (tmpbuf : list Z) : list (pcap_pkthdr32_t * list Z) :=
  match recs with
  | [] => []
  | (h, data) :: recs =>
      let tmpbuf := data ++ drop (length data) tmpbuf in
      (h, tmpbuf) :: deliveries recs tmpbuf
  end.

Lemma on_packet_zero rff env hdr buf st : yields (fun r => fst r = 0) (on_packet rff env hdr buf st).
Proof.
  unfold on_packet. apply yields_any. intros st1. apply yields_any. intros [[c s] q]. cbv zeta. destruct (negb c); [done |].
  apply yields_any. intros st2. destruct (_ <? _); [| done]. apply yields_any. by intros [s' c'].
Qed.

Definition file_record_ok (r : pcap_pkthdr32_t * list Z) : Prop := record_wf r /\ Forall is_u8 (snd r).

Lemma feed_accounted env fin recs : forall l F st xs tmpbuf n,
  Forall file_record_ok recs -> Z.of_nat (length tmpbuf) = MAX_PKT_BYTES -> Forall is_u8 tmpbuf ->
  accounted l xs F (cp_shm st) ->
  yields (fun r => exists xs', accounted (l ++ deliveries recs tmpbuf) xs' F (cp_shm (snd r)))
    (feed (fun hdr buf n => on_packet true (env n) hdr buf) fin recs tmpbuf n st).
Proof.
  induction recs as [| [h data] recs IH]; intros l F st xs tmpbuf n Hr Hl Hb Ha; [exists xs; by rewrite app_nil_r |].
  apply Forall_cons_1 in Hr as [[(Hh & Hcl & Hmax) Hd] Hr]. cbn [fst snd] in Hcl, Hmax, Hd. cbn [feed deliveries].
  set (buf := data ++ drop (length data) tmpbuf).
  assert (Z.of_nat (length buf) = MAX_PKT_BYTES) as Hlb.
  { unfold buf. rewrite length_app, length_drop. unfold MAX_PKT_BYTES in *. lia. }
  assert (Forall is_u8 buf) as Hbuf by (apply Forall_app; split; [exact Hd | by apply Forall_drop]).
  assert (packet_ok h buf) as Hok.
  { split; [unfold HEADER_BYTES, MAX_PKT_BYTES in *; lia |]. split; [exact Hbuf |]. unfold MAX_PKT_BYTES in *. lia. }
  apply (yields_bind _ _ _ _ (yields_and _ _ _ (on_packet_zero true (env (i32 (n + 1))) h buf st)
    (on_packet_flows true (env (i32 (n + 1))) h buf st _ Hok (proj2 (proj2 Ha))))).
  intros [r st1] [Hz Hm]. cbn [fst snd] in Hz, Hm. rewrite Hz. cbn [Z.eqb negb].
  destruct (accounted_snoc _ _ _ _ _ _ _ Ha Hm) as (xs1 & Ha1).
  pose proof (IH _ F st1 xs1 buf (i32 (n + 1)) Hr Hlb Hbuf Ha1) as H. by rewrite <- app_assoc in H.
Qed.

(** The contents of a capture file with these packets. *)
Definition capture_file (fh : list Z) (recs : list (pcap_pkthdr32_t * list Z)) (tail : list Z) : list Z :=
  fh ++ concat (List.map encode_record recs) ++ tail.

Lemma file_counted env name fh recs tail fin tmpbuf st :
  length fh = SIZEOF_FILE_HEADER -> Forall file_record_ok recs -> file_end tail fin ->
  Z.of_nat (length tmpbuf) = MAX_PKT_BYTES -> Forall is_u8 tmpbuf ->
  Forall class_ok (sh_streams (g_shm (cp_shm st))) -> length (sh_flow_stats (g_shm (cp_shm st))) = 6%nat ->
  yields (fun r => flows_counted (deliveries recs tmpbuf) (sh_flow_stats (g_shm (cp_shm st)))
      (sh_flow_stats (g_shm (cp_shm (snd r))))) (main_file env name (Some (capture_file fh recs tail)) tmpbuf st).
Proof.
  intros Hfh Hr Hend Hl Hb Hc Hlen. unfold main_file, capture_file, open_pcap. cbn [fmap option_fmap option_map].
  rewrite drop_app_length' by done.
  rewrite (read_records _ recs tail fin) by (first [eapply Forall_impl; [exact Hr | by intros r [? _]] | done | lia]).
  apply (yields_bind _ _ _ _ (feed_accounted env fin recs [] _ st [] tmpbuf 0 Hr Hl Hb (accounted_nil _ _ (conj eq_refl Hc)))).
  intros [r st1] (xs & Ha). cbv zeta. apply yields_any. intros sp. cbn [yields snd cp_shm]. by eapply accounted_counted.
Qed.

(** C6: the accounting of the capture program.  Run on a capture file of any packets of
    at most 1700 captured bytes, or on an interface that can be opened and delivers any
    packets in buffers of at least 96 bytes, with captured lengths below 2^31, from its
    start to its end: of the packets delivered - each in the buffer as it arrives, the
    end of earlier packets behind its own bytes - those accepted with two addresses are
    counted once each in the total, and at most once in one of the five classes, with
    their lengths, modulo 2^32; no other packet moves a flow counter. *)
Theorem capture_main_accounts rff opts name rest ienv mem files env fh recs tail fin tmpbuf live r st
    (Hfh : length fh = SIZEOF_FILE_HEADER) (Hr : Forall file_record_ok recs) (Hend : file_end tail fin)
    (Hfile : files name = Some (capture_file fh recs tail))
    (Hl : Z.of_nat (length tmpbuf) = MAX_PKT_BYTES) (Hb : Forall is_u8 tmpbuf)
    (Hlive : Forall (fun p => packet_ok (lp_hdr p) (lp_bytes p)) (le_packets live)) (Hopen : le_open live = true)
    (Hmain : capture_main rff opts (name :: rest) ienv mem files env tmpbuf live = Val (Finished r st)) :
  flows_counted (if rff then deliveries recs tmpbuf else List.map (fun p => (lp_hdr p, lp_bytes p)) (le_packets live))
    (replicate 6 zero_flow_stats) (sh_flow_stats (g_shm (cp_shm st))).
Proof.
  set (delivered := if rff then _ else _).
  assert (yields (fun m => match m with
      | Finished _ st => flows_counted delivered (replicate 6 zero_flow_stats) (sh_flow_stats (g_shm (cp_shm st)))
      | _ => True end) (capture_main rff opts (name :: rest) ienv mem files env tmpbuf live)) as H; [| by rewrite Hmain in H].
  clear Hmain r st. unfold capture_main. apply yields_any. intros [[v f] |]; [| done]. destruct (_ && _); [done |].
  apply (yields_bind (fun a => a = name)); [unfold strcpy_filename; by destruct (_ <? _) |]. intros a ->.
  pose proof (init_flows (negb rff) ienv mem) as Hinit. destruct (shm_data_init (negb rff) ienv mem) as [[s |] | |]; [| done ..].
  rewrite bind_Val. destruct Hinit as [H1 H2]. cbv zeta. unfold delivered. rewrite <- H1. destruct rff.
  - rewrite Hfile. apply (yields_bind _ _ _ _ (file_counted env name fh recs tail fin tmpbuf
      (mk_capture_t s cleanup_init 0 zero_tval statproc_init) Hfh Hr Hend Hl Hb H2 ltac:(cbn [cp_shm]; by rewrite H1))).
    by intros [[r text] st].
  - apply (yields_bind _ _ _ _ (live_counted live (mk_capture_t s cleanup_init 0 zero_tval statproc_init) Hlive H2
      ltac:(cbn [cp_shm]; by rewrite H1) Hopen)). by intros [text st].
Qed.

(** ** Witnesses *)
Module SystemTest.
Import ShmTest PacketTest LifeTest ConversationTest ReportsTest ClockTest.

Definition live_of (p : packet) : live_packet := mk_live_packet (pk_env p) None (pk_hdr p) 1000 (pk_buf p).
Definition three : list packet := [first; answer; answer].

Lemma first_ok : packet_ok syn_hdr syn_buf.
Proof. destruct syn_bytes. split; [assumption |]. split; [assumption |]. split; [discriminate | reflexivity]. Qed.
Lemma answer_ok : packet_ok syn_hdr (encode_frame reply).
Proof. destruct (fo_bytes _ _ _ answer_follows). split; [assumption |]. split; [assumption |]. split; [discriminate | reflexivity]. Qed.
Lemma hdr_ok : hdr_typed syn_hdr /\ hdr_len syn_hdr < 2147483648.
Proof. split; [| reflexivity]. repeat split; discriminate. Qed.

(** The callback at second 1000 does what the handler does. *)
Lemma callback_handle p tl st : tl = 0 \/ tl = 1000 ->
  callback (pk_env p) None (pk_hdr p) 1000 (pk_buf p) tl st =
    ('(_, st) ← on_packet false (pk_env p) (pk_hdr p) (pk_buf p) st; Val (1000, st)).
Proof. by intros [-> | ->]. Qed.

Lemma live_handle l : forall tl st st', (tl = 0 \/ tl = 1000) -> handle l st = Val st' ->
  exists tl', for_each (fun p '(tlast_report, st) =>
      callback (lp_env p) (lp_stat p) (lp_hdr p) (lp_tv_sec p) (lp_bytes p) tlast_report st)
    (List.map live_of l) (tl, st) = Val (tl', st').
Proof.
  induction l as [| p l IH]; intros tl st st' Htl Hh; [injection Hh as <-; by exists tl |].
  unfold handle in Hh. cbn [for_each List.map live_of lp_env lp_stat lp_hdr lp_tv_sec lp_bytes] in *.
  rewrite callback_handle by done. destruct (on_packet _ _ _ _ st) as [[r st1] | |]; [| done ..].
  cbn [mbind res_bind] in Hh |- *. apply IH; [by right | exact Hh].
Qed.

Definition live3 : live_env := mk_live_env true "" (List.map live_of three).

Lemma capture_main_accounts_witness : exists st,
  capture_main false [] ["eth0"%string] env_ok mem0 (fun _ => Some (capture_file (replicate 24 0) [] []))
    (fun _ => env0) (replicate 1700 0) live3 = Val (Finished "pcap_loop done" st) /\
  exists f, aget (sh_flow_stats (g_shm (cp_shm st))) FLOW_TYPE_TOTAL = Val f /\ u32 (fs_packets f) = 3 /\ u32 (fs_bytes f) = 426.
Proof.
  destruct (three_packets true) as (s & st' & ss & e & Hinit & Hh & _).
  destruct (live_handle three 0 (start_of s) st' (or_introl eq_refl) Hh) as (tl' & Hl).
  assert (capture_main false [] ["eth0"%string] env_ok mem0 (fun _ => Some (capture_file (replicate 24 0) [] []))
    (fun _ => env0) (replicate 1700 0) live3 = Val (Finished "pcap_loop done" st')) as Hm.
  { unfold capture_main. cbn [parse_options]. rewrite bind_Val. cbn [length]. change (Z.of_nat 1 <? 1) with false. cbn [andb].
    change (strcpy_filename "eth0") with (Val "eth0"%string). rewrite bind_Val. cbn [negb]. rewrite Hinit, bind_Val.
    cbv zeta. unfold go_live_pcap. cbn [live3 le_ebuf le_open le_packets negb String.length]. change (EBUF_SIZE <=? Z.of_nat 0) with false.
    cbv iota. change (mk_capture_t s cleanup_init 0 zero_tval statproc_init) with (start_of s). by rewrite Hl. }
  exists st'. split; [exact Hm |].
  destruct (capture_main_accounts false [] "eth0" [] env_ok mem0 (fun _ => Some (capture_file (replicate 24 0) [] []))
    (fun _ => env0) (replicate 24 0) [] [] (-1) (replicate 1700 0) live3 "pcap_loop done" st') as (xs & H1 & H2 & H3).
  - reflexivity.
  - constructor.
  - constructor. vm_compute. lia.
  - reflexivity.
  - rewrite length_replicate. reflexivity.
  - apply Forall_replicate. split; [discriminate | reflexivity].
  - constructor; [exact first_ok |]. constructor; [exact answer_ok |]. constructor; [exact answer_ok | constructor].
  - reflexivity.
  - exact Hm.
  - destruct (H3 5) as (f & f' & G1 & G2 & G3 & G4); [split; [discriminate | reflexivity] |].
    vm_compute in H1. destruct xs as [| [l1 c1] [| [l2 c2] [| [l3 c3] [| ? ?]]]]; try discriminate H1.
    cbn [List.map fst] in H1. injection H1 as -> -> ->. vm_compute in G1. injection G1 as <-.
    exists f'. split; [exact G2 |]. split; [exact G3 | exact G4].
Defined.

(** A packet, a second, two answers; the minute's report at 1020. *)
Definition events3 : list event :=
  [Deliver (live_of first); Second 1010 0 0; Deliver (live_of answer); Deliver (live_of answer)].

Lemma zero_total : total_is (replicate 6 zero_flow_stats) 0 0.
Proof. exists zero_flow_stats. repeat split. Qed.

Lemma system_start s : shm_data_init false env_ok mem0 = Val (Some s) ->
  minute_start 1009 0 0 (mk_system 0 (start_of s) sp_1009).
Proof.
  intros Hinit. pose proof (init_flows false env_ok mem0) as Hf. rewrite Hinit in Hf. destruct Hf as [H1 H2]. split.
  - exact (run_init _ _ _ _ Hinit).
  - exact H2.
  - exact sp_1009_running.
  - split; reflexivity.
  - exact zero_total.
  - unfold sys_block. cbn [sys_cap start_of cp_shm]. rewrite H1. exact zero_total.
Qed.

Lemma events3_packets l : forall tl st tl' st' sp,
  for_each (fun p '(tlast_report, st) =>
      callback (lp_env p) (lp_stat p) (lp_hdr p) (lp_tv_sec p) (lp_bytes p) tlast_report st) l (tl, st) = Val (tl', st') ->
  run_events (List.map Deliver l) (mk_system tl st sp) = Val (mk_system tl' st' sp).
Proof.
  induction l as [| p l IH]; intros tl st tl' st' sp Hf; [injection Hf as <- <-; reflexivity |].
  unfold run_events in *. cbn [for_each List.map do_event sys_tlast sys_cap sys_sp] in *.
  destruct (callback _ _ _ _ _ _ _) as [[tl1 st1] | |]; [| done ..]. cbn [mbind res_bind] in *. by apply IH.
Qed.

Lemma minute_report_counts_witness : exists sy sy1 sy2 n body, run_events events3 sy = Val sy1 /\
  do_event (Second 1020 0 0) sy1 = Val sy2 /\
  sys_out sy2 = (sys_out sy +:+ start_line 1020 n) +:+ (total_line 3 426 +:+ body) +:+ end_line.
Proof.
  destruct (three_packets false) as (s & st' & ss & e & Hinit & Hh & Hinv & Hat & Hts).
  destruct (live_handle three 0 (start_of s) st' (or_introl eq_refl) Hh) as (tl' & Hl).
  pose proof (events3_packets _ _ _ _ _ sp_1009 Hl) as Hcap.
  assert (minute_start 1009 0 0 (mk_system 0 (start_of s) sp_1009)) as Hs by exact (system_start s Hinit).
  assert (Forall event_ok events3) as Hok.
  { destruct hdr_ok as [O1 O2]. constructor; [exact (conj first_ok (conj O1 O2)) |]. constructor; [exact I |].
    constructor; [exact (conj answer_ok (conj O1 O2)) |]. constructor; [exact (conj answer_ok (conj O1 O2)) | constructor]. }
  assert (packets_of events3 = 3 /\ bytes_of events3 = 426) as [Hp Hb] by (split; vm_compute; reflexivity).
  assert (fits32 0 0 events3) as Hfit by (unfold fits32; rewrite Hp, Hb; split; reflexivity).
  assert (seconds_in 960 1009 events3) as Hsec by (repeat split; discriminate).
  pose proof (minute_events (sh_flow_stats (sys_block (mk_system 0 (start_of s) sp_1009))) 0 0 1009 960 "" (flows_len _ (sy_block _ (run_typed _ (ms_run _ _ _ _ Hs))))
    (ms_block _ _ _ _ Hs) events3 [] _ (start_in_minute _ _ _ _ Hs) Hok ltac:(lia) ltac:(lia) Hfit Hsec _ Hcap) as (sy1 & _ & Him & Hc).
  destruct (minute_report_counts 1009 0 0 (mk_system 0 (start_of s) sp_1009) events3 1020 0 0 (mk_system tl' st' sp_1009))
    as (sy1' & sy2 & H1 & _ & _ & H2 & _ & (n & body & H3) & _).
  - exact Hs.
  - exact Hok.
  - exact Hfit.
  - exact Hsec.
  - exact Hcap.
  - unfold sys_block. cbn [sys_cap]. apply capture_block_ready; [exact Hinv | | exists ss].
    + pose proof (run_typed _ (im_run _ _ _ _ _ _ _ _ Him)) as Hty. rewrite Hc in Hty. exact Hty.
    + apply (stream_live _ _ e Hinv Hat). rewrite Hts. discriminate.
  - reflexivity.
  - discriminate.
  - split; [discriminate | reflexivity].
  - exists (mk_system 0 (start_of s) sp_1009), sy1', sy2, n, body. split; [exact H1 |]. split; [exact H2 |].
    rewrite Hp, Hb in H3. exact H3.
Defined.
End SystemTest.
