(* ===== verification/TopStreams.v ===== *)
(** The streams of a minute's report against the packets of the minute: the entries of
    the statistics process' two blocks, the books of the capture process, and the
    order of the report. *)
From S2P Require Import Prelude Structs MgArray Counters StreamKey Sort HashTable ShmData Export StatProc Packet Capture Lifecycle Conversation Flows FlowTable FlowViews Bookkeeping Reports Rankings Typing ReportRun Clock.
From stdpp Require Import list gmap.
#[local] Open Scope Z_scope.

(** ** What the statistics process remembers *)

(** The entries of the last report's block: those of the conversations [m] hold the
    counters they had then, the others no stream. *)
Record remembers (idx : Z -> Z) (m : gmap Z conv) (L : list stream_info_t) : Prop := {
  rm_conv : forall b c, m !! b = Some c -> exists e, aget L (idx b) = Val e /\ si_tstart e = cv_start c /\
    si_packets e = cv_packets c /\ si_bytes e = u32 (cv_bytes c);
  rm_rest : forall j e, aget L j = Val e -> (forall b c, m !! b = Some c -> idx b <> j) -> tv_sec (si_tstart e) = 0
}.

Lemma remembers_nothing idx : remembers idx ∅ (sh_streams zero_sharedif).
Proof.
  split; [intros b c; by rewrite lookup_empty |]. intros j e [_ He]%aget_Val _.
  unfold zero_sharedif in He. cbn [sh_streams] in He. apply lookup_replicate in He as [-> _]. reflexivity.
Qed.

Lemma remembers_idx idx idx' m L : (forall b, is_Some (m !! b) -> idx' b = idx b) -> remembers idx m L -> remembers idx' m L.
Proof.
  intros Hi [H1 H2]. split.
  - intros b c Hb. rewrite Hi by (by eexists). by apply H1.
  - intros j e He Hj. apply (H2 j e He). intros b c Hb. rewrite <- Hi by (by eexists). by apply (Hj b c).
Qed.

(** ** One stream *)

(** The timestamps of a report are compared exactly. *)
Lemma same_start a b : stream_typed a -> stream_typed b -> tval_cmp (si_tstart a) (si_tstart b) = 0 <-> si_tstart a = si_tstart b.
Proof. intros Ha Hb. apply tval_cmp_eq; [apply (st_tstart _ Ha) | apply (st_tstart _ Hb)]. Qed.

(** What the report makes of an entry whose counters grew by [dp] packets and [db] bytes. *)
Lemma diff_grown old cur p q b d : stream_typed old -> stream_typed cur ->
  si_tstart old = si_tstart cur -> si_packets old = p -> si_packets cur = p + q -> 0 <= q ->
  si_bytes old = u32 b -> si_bytes cur = u32 (b + d) ->
  let '(old', cur') := diff_stream old cur in
  (si_tstart old' = si_tstart cur /\ si_packets old' = si_packets cur /\ si_bytes old' = si_bytes cur) /\
  si_packets cur' = q /\ si_iid cur' = si_iid cur /\ (0 <= b -> 0 <= d -> b + d < 4294967296 -> si_bytes cur' = d).
Proof.
  intros To Tc Et Ep Eq Hq Eb Ec. unfold diff_stream.
  rewrite (proj2 (Z.eqb_eq _ _) (proj2 (same_start _ _ Tc To) (eq_sym Et))). cbn. split; [done |].
  unfold u32diff. rewrite (proj2 (Z.leb_le (si_packets old) _)) by lia. split; [lia |]. split; [done |].
  intros Hb Hd Hbd. rewrite Eb, Ec, !u32_small by (unfold is_u32; lia). rewrite (proj2 (Z.leb_le _ _)) by lia. lia.
Qed.

Lemma diff_new old cur : stream_typed old -> stream_typed cur -> tv_sec (si_tstart old) = 0 -> tv_sec (si_tstart cur) <> 0 ->
  diff_stream old cur = (cur, cur).
Proof.
  intros To Tc Ho Hc. unfold diff_stream. destruct (Z.eqb_spec (tval_cmp (si_tstart cur) (si_tstart old)) 0) as [E |]; [| done].
  apply (same_start cur old Tc To) in E. congruence.
Qed.

(** ** The streams of the block *)

Definition buckets (t : flow_table) : list Z := (map_to_list (ft_convs t)).*1.

Lemma in_buckets t b : b ∈ buckets t <-> is_Some (ft_convs t !! b).
Proof.
  unfold buckets. rewrite list_elem_of_fmap. split.
  - intros ([b' c] & -> & H%elem_of_map_to_list). by eexists.
  - intros [c H%elem_of_map_to_list]. by exists (b, c).
Qed.

Lemma live_buckets k used idx t s : agrees k used idx t s -> live_streams (g_shm s) ≡ₚ (idx <$> buckets t).
Proof.
  intros H. destruct (ag_convs _ _ _ _ _ H) as [Ce Ci Cl]. apply NoDup_Permutation.
  - unfold live_streams. apply NoDup_ListNoDup, List.NoDup_filter, NoDup_ListNoDup, NoDup_seqZ.
  - apply NoDup_fmap_2_strong; [| apply NoDup_fst_map_to_list].
    intros b b' [c Hb]%in_buckets [c' Hb']%in_buckets E. by eapply Ci.
  - intros j. rewrite list_elem_of_fmap. split.
    + intros [_ Hj]%in_filter. unfold live_stream in Hj. destruct (aget (sh_streams (g_shm s)) j) as [e | |] eqn:He; [| done ..].
      unfold IS_EMPTY_SLOT in Hj. apply negb_true_iff, Z.eqb_neq in Hj. destruct (Cl j e He Hj) as (b & c & Hb & <-).
      exists b. split; [done |]. apply in_buckets. by eexists.
    + intros (b & -> & [c Hb]%in_buckets). destruct (Ce b c Hb) as (_ & e & He & [(_ & _ & Hz) _ _ (_ & _ & _ & Et) _ _ _]).
      apply (stream_live s (idx b) e (ag_inv _ _ _ _ _ H) He). by rewrite Et.
Qed.

(** The working copy of a report, as far as its streams go. *)
Record stream_copy (g c : sharedif_t) : Prop := {
  sc_index : sh_stream_indexes c = sh_stream_indexes g;
  sc_entries : forall j, j ∈ window (sh_stream_indexes g) -> aget (sh_streams c) j = aget (sh_streams g) j
}.

Lemma filter_same {A} (f g : A -> bool) l : (forall x, x ∈ l -> f x = g x) -> List.filter f l = List.filter g l.
Proof.
  induction l as [| x l IH]; intros H; [done |]. cbn. rewrite (H x) by set_solver. rewrite IH by (intros; apply H; set_solver). done.
Qed.

Lemma copy_live g c : stream_copy g c -> live_streams c = live_streams g.
Proof.
  intros [Hi He]. unfold live_streams. rewrite Hi. apply filter_same. intros j Hj. unfold live_stream. by rewrite He.
Qed.

(** ** The streams of a minute *)

(** A list in the order of a report. *)
Definition in_order {B} (key : B -> Z) (bs : list B) : Prop :=
  forall i j b b', (i <= j)%nat -> bs !! i = Some b -> bs !! j = Some b' -> key b' <= key b.

(** A ranking of the entries of a list is an order of the list. *)
Lemma ranking_order {A B} (idx : B -> Z) (l0 : list B) ptrs (arr : list A) key (f : B -> Z) :
  take (length l0) ptrs ≡ₚ (Some <$> (idx <$> l0)) -> ranked arr key (Z.of_nat (length l0)) ptrs ->
  (forall b, b ∈ l0 -> exists e, aget arr (idx b) = Val e /\ key e = f b) ->
  exists bs, take (length l0) ptrs = Some <$> (idx <$> bs) /\ bs ≡ₚ l0 /\ in_order f bs.
Proof.
  intros Hp Hr Hkey. destruct (Permutation_map_inv _ _ Hp) as (qs & Hqs & Hq).
  apply Permutation_sym in Hq. destruct (Permutation_map_inv _ _ Hq) as (bs & -> & Hb). apply Permutation_sym in Hb.
  exists bs. split; [exact Hqs |]. split; [exact Hb |]. intros i j b b' Hij Hi Hj.
  assert (length l0 = length bs) as Hlen by (symmetry; by apply Permutation_length).
  assert (forall n x, bs !! n = Some x -> aget ptrs (Z.of_nat n) = Val (Some (idx x)) /\ Z.of_nat n < Z.of_nat (length bs) /\
    exists e, aget arr (idx x) = Val e /\ key e = f x) as Hat.
  { intros n x Hn. pose proof (lookup_lt_Some _ _ _ Hn) as Hlt. split; [| split; [lia |]].
    - apply aget_Val. split; [lia |]. rewrite Nat2Z.id. rewrite <- (lookup_take_lt ptrs (length bs) n Hlt).
      change (take (length l0) ptrs = Some <$> (idx <$> bs)) in Hqs. rewrite <- Hlen, Hqs, !list_lookup_fmap, Hn. done.
    - apply Hkey. rewrite <- Hb. by eapply list_elem_of_lookup_2. }
  destruct (Hat i b Hi) as (A1 & A2 & x & A3 & <-). destruct (Hat j b' Hj) as (B1 & B2 & y & B3 & <-).
  apply (Hr (Z.of_nat i) (Z.of_nat j) _ _ x y) with (4 := A1) (5 := B1); [lia | lia | rewrite Hlen; lia | exact A3 | exact B3].
Qed.

Section Minute.
Context (k : ptr) (used : gset ptr) (idx : Z -> Z) (t0 : flow_table) (l : list packet) (s : shm_t).
Local Notation t := (book_all l t0).
Context (H : agrees k used idx t s) (copy last : sharedif_t) (Hcopy : stream_copy (g_shm s) copy).
Context (Tc : block_typed copy) (Tl : block_typed last) (Hrem : remembers idx (ft_convs t0) (sh_streams last)).
Context (Hw : window_ok (sh_stream_indexes (g_shm s)) SI_NUM_STREAMS).

(** The entry of a conversation in the copy, and what it becomes. *)
Record minute_entry (b : Z) (c : conv) (e : stream_info_t) : Prop := {
  me_packets : si_packets e = slot_count l b;
  me_bytes : 0 <= bytes_in t0 b -> 0 <= slot_len l b -> bytes_in t b < 4294967296 -> si_bytes e = slot_len l b;
  me_iid : si_iid e = cv_id c
}.

Lemma conv_in_copy b c : ft_convs t !! b = Some c -> exists cur, aget (sh_streams copy) (idx b) = Val cur /\
  si_tstart cur = cv_start c /\ tv_sec (cv_start c) <> 0 /\ si_packets cur = cv_packets c /\ si_bytes cur = u32 (cv_bytes c) /\ si_iid cur = cv_id c.
Proof.
  intros Hb. destruct (ca_entry _ _ _ (ag_convs _ _ _ _ _ H) b c Hb) as (_ & cur & Hat & [(_ & _ & Hz) _ _ (_ & _ & _ & Et) _ [_ Ep] Eb Ei]).
  exists cur. split; [| by repeat (split; [assumption |])]. rewrite (sc_entries _ _ Hcopy); [exact Hat |].
  assert (idx b ∈ live_streams (g_shm s)) as [Hin _]%in_filter; [| exact Hin]. apply (stream_live s (idx b) cur (ag_inv _ _ _ _ _ H) Hat). by rewrite Et.
Qed.

Lemma conv_diffed b c old cur : ft_convs t !! b = Some c -> aget (sh_streams copy) (idx b) = Val cur -> aget (sh_streams last) (idx b) = Val old ->
  let '(old', cur') := diff_stream old cur in
  (si_tstart old' = cv_start c /\ si_packets old' = cv_packets c /\ si_bytes old' = u32 (cv_bytes c)) /\ minute_entry b c cur'.
Proof.
  intros Hb Hcur Hold. destruct (conv_in_copy b c Hb) as (cur0 & Hcur0 & Et & Hz & Ep & Eb & Ei). assert (cur0 = cur) as -> by congruence.
  assert (stream_typed cur) as TC by (pose proof (arr_aget _ _ _ (idx b) (bt_streams _ Tc)) as Ha; by rewrite Hcur in Ha).
  assert (stream_typed old) as TO by (pose proof (arr_aget _ _ _ (idx b) (bt_streams _ Tl)) as Ha; by rewrite Hold in Ha).
  destruct (book_all_conv l b t0) as [G1 G2 G3 G4]. rewrite Hb in G1, G2, G3, G4. cbn [from_option] in G1, G2.
  destruct (ft_convs t0 !! b) as [c0 |] eqn:Hc0; cbn [from_option] in G1, G2.
  - destruct (G3 c0 eq_refl) as (c' & [= <-] & _ & Es & _). destruct (rm_conv _ _ _ Hrem b c0 Hc0) as (o & Ho & Eo1 & Eo2 & Eo3).
    assert (o = old) as -> by congruence.
    pose proof (diff_grown old cur (cv_packets c0) (slot_count l b) (cv_bytes c0) (slot_len l b) TO TC
      ltac:(congruence) Eo2 ltac:(congruence) (slot_count_pos l b) Eo3 ltac:(congruence)) as Hd.
    destruct (diff_stream old cur) as [old' cur']. destruct Hd as ((D1 & D2 & D3) & D4 & D5 & D6).
    split; [rewrite D1, D2, D3; by repeat (split; [assumption |]) |]. split; [exact D4 | | congruence].
    unfold bytes_in. rewrite Hc0, Hb. cbn [from_option]. rewrite G2. exact D6.
  - rewrite (diff_new old cur TO TC); [| | by rewrite Et].
    + split; [done |]. split; [lia | | exact Ei]. unfold bytes_in. rewrite Hb, Hc0. cbn [from_option]. intros _ H1 H2. rewrite Eb, u32_small; [lia |].
      unfold is_u32. lia.
    + apply (rm_rest _ _ _ Hrem (idx b) old Hold). intros b' c' Hb' E.
      assert (is_Some (ft_convs t !! b')) as [c2 Hc2] by (apply book_all_some; by eexists).
      pose proof (ca_inj _ _ _ (ag_convs _ _ _ _ _ H) _ _ _ _ Hc2 Hb E) as ->. congruence.
Qed.

(** The loop of the report: what it leaves of the last report's entries. *)
Lemma remembered g : (forall i, i ∈ live_streams copy -> stream_diffed copy last (ga_copy g) (ga_last g) i) ->
  (forall i, i ∉ live_streams copy -> stream_kept copy last (ga_copy g) (ga_last g) i) ->
  remembers idx (ft_convs t) (sh_streams (ga_last g)) /\
  forall b c, ft_convs t !! b = Some c -> exists e, aget (sh_streams (ga_copy g)) (idx b) = Val e /\ minute_entry b c e.
Proof.
  intros Hd Hk. rewrite (copy_live _ _ Hcopy) in Hd, Hk.
  assert (forall j, j ∈ live_streams (g_shm s) <-> exists b c, ft_convs t !! b = Some c /\ idx b = j) as Hin.
  { intros j. rewrite (live_buckets _ _ _ _ _ H), list_elem_of_fmap. split.
    - intros (b & -> & [c Hb]%in_buckets). by exists b, c.
    - intros (b & c & Hb & <-). exists b. split; [done |]. apply in_buckets. by eexists. }
  assert (forall b c, ft_convs t !! b = Some c -> exists old cur, aget (sh_streams copy) (idx b) = Val cur /\
    aget (sh_streams last) (idx b) = Val old /\ aget (sh_streams (ga_last g)) (idx b) = Val (fst (diff_stream old cur)) /\
    aget (sh_streams (ga_copy g)) (idx b) = Val (snd (diff_stream old cur))) as Hone.
  { intros b c Hb. destruct (Hd (idx b)) as (old & cur & D1 & D2 & D3 & D4); [apply Hin; by exists b, c |]. by exists old, cur. }
  split; [split |].
  - intros b c Hb. destruct (Hone b c Hb) as (old & cur & O1 & O2 & O3 & _). pose proof (conv_diffed b c old cur Hb O1 O2) as Hcd.
    destruct (diff_stream old cur) as [old' cur']. destruct Hcd as [Hcd _]. by exists old'.
  - intros j e He Hj. destruct (Hk j) as [_ K2].
    { rewrite Hin. intros (b & c & Hb & E). by apply (Hj b c). }
    apply (rm_rest _ _ _ Hrem j); [congruence |]. intros b c Hb E.
    destruct (book_all_some l t0 b) as [c' Hc']; [by eexists |]. by apply (Hj b c').
  - intros b c Hb. destruct (Hone b c Hb) as (old & cur & O1 & O2 & _ & O4). pose proof (conv_diffed b c old cur Hb O1 O2) as Hcd.
    destruct (diff_stream old cur) as [old' cur']. destruct Hcd as [_ Hcd]. by exists cur'.
Qed.

(** A ranking of the live entries is an order of the conversations. *)
Lemma ranking_buckets ptrs (arr : list stream_info_t) key f :
  take (length (live_streams copy)) ptrs ≡ₚ (Some <$> live_streams copy) ->
  ranked arr key (Z.of_nat (length (live_streams copy))) ptrs ->
  (forall b c, ft_convs t !! b = Some c -> exists e, aget arr (idx b) = Val e /\ key e = f b) ->
  exists bs, take (length (buckets t)) ptrs = Some <$> (idx <$> bs) /\ bs ≡ₚ buckets t /\ in_order f bs.
Proof.
  intros Hp Hr Hkey. rewrite (copy_live _ _ Hcopy) in *. pose proof (live_buckets _ _ _ _ _ H) as Hlive.
  rewrite (Permutation_length Hlive), length_fmap in Hp, Hr.
  apply (ranking_order idx (buckets t) ptrs arr key f (Permutation_trans Hp (Permutation_map Some Hlive)) Hr).
  intros b [c Hb]%in_buckets. by apply (Hkey b c).
Qed.

(** Everything of the report's loop and its two sorts. *)
Record minute_streams (ptrs : list (option Z)) (g : gather) (ptrs1 ptrs2 : list (option Z)) (bs1 bs2 : list Z) : Prop := {
  mi_gather : for_each process_stream (window (sh_stream_indexes copy)) (mk_gather copy last ptrs 0) = Val g;
  mi_num : ga_num g = Z.of_nat (length (buckets t));
  mi_last : remembers idx (ft_convs t) (sh_streams (ga_last g));
  mi_entries : forall b c, ft_convs t !! b = Some c ->
    exists e, aget (sh_streams (ga_copy g)) (idx b) = Val e /\ minute_entry b c e;
  mi_sort1 : quicksort (via (sh_streams (ga_copy g)) rcmp_stream_pkt) (ga_ptrs g) 0 (i32 (u32 (ga_num g - 1))) = Val ptrs1;
  mi_sort2 : quicksort (via (sh_streams (ga_copy g)) rcmp_stream_bytes) ptrs1 0 (i32 (u32 (ga_num g - 1))) = Val ptrs2;
  mi_top1 : take (length (buckets t)) ptrs1 = Some <$> (idx <$> bs1) /\ bs1 ≡ₚ buckets t /\ in_order (slot_count l) bs1;
  mi_top2 : take (length (buckets t)) ptrs2 = Some <$> (idx <$> bs2) /\ bs2 ≡ₚ buckets t /\ in_order (slot_len l) bs2
}.

Lemma minute_streams_ok ptrs : Z.of_nat (length ptrs) = SI_NUM_STREAMS ->
  (forall b, 0 <= bytes_in t0 b /\ 0 <= slot_len l b /\ bytes_in t b < 4294967296) ->
  exists g ptrs1 ptrs2 bs1 bs2, minute_streams ptrs g ptrs1 ptrs2 bs1 bs2.
Proof.
  intros Hp Hfit. destruct Hw as [[W1 W2] W3]. rewrite <- (sc_index _ _ Hcopy) in W1, W3.
  destruct (streams_ranked copy last ptrs (streams_len _ Tc) (streams_len _ Tl) Hp W1 W3 (ok_ends _ _ Tc))
    as (g & ptrs1 & ptrs2 & Hg & Hn & _ & Hd & Hk & Hq1 & Hp1 & Hr1 & Hq2 & Hp2 & Hr2). cbv zeta in *.
  destruct (remembered g Hd Hk) as [Hlast Hent].
  assert (length (live_streams copy) = length (buckets t)) as Hlen.
  { rewrite (copy_live _ _ Hcopy), (Permutation_length (live_buckets _ _ _ _ _ H)). apply length_fmap. }
  rewrite Hn in Hr1, Hr2.
  destruct (ranking_buckets ptrs1 (sh_streams (ga_copy g)) si_packets (slot_count l) Hp1 Hr1) as (bs1 & T1 & P1 & O1).
  { intros b c Hb. destruct (Hent b c Hb) as (e & He & [Ep _ _]). by exists e. }
  destruct (ranking_buckets ptrs2 (sh_streams (ga_copy g)) si_bytes (slot_len l) Hp2 Hr2) as (bs2 & T2 & P2 & O2).
  { intros b c Hb. destruct (Hent b c Hb) as (e & He & [_ Eb _]). exists e. split; [done |]. by apply Eb; apply Hfit. }
  rewrite Hlen in *. exists g, ptrs1, ptrs2, bs1, bs2. by split.
Qed.

End Minute.
