(* ===== verification/TopServices.v ===== *)
(** The service ports of a minute's report against the packets of the minute: the entries
    of the statistics process' two blocks, the books of the capture process, and the
    order of the report. *)
From S2P Require Import Prelude Structs Counters Sort ShmData Export StatProc Packet Conversation Flows FlowTable FlowViews Bookkeeping Reports Rankings TopStreams.
From stdpp Require Import list gmap.
#[local] Open Scope Z_scope.

(** The counters of the last report's block are those the services had then. *)
Definition remembers_services (t : flow_table) (L : list proto_info_t) : Prop :=
  forall i, 0 <= i < SI_NUM_PROTOS -> exists q, aget L i = Val q /\
    pi_packets q = u32 (srv_packets (service_of t i)) /\ pi_bytes q = u32 (srv_bytes (service_of t i)).

Lemma remembers_no_services : remembers_services empty_table (sh_protos zero_sharedif).
Proof.
  intros i Hi. exists zero_proto_info. split; [| unfold service_of; cbn [empty_table ft_services]; rewrite lookup_empty; split; reflexivity].
  apply aget_Val. split; [apply Hi |]. apply lookup_replicate. split; [reflexivity |]. apply Z2Nat.inj_lt; apply Hi || discriminate.
Qed.

(** The services that packets of [l] were counted on. *)
Definition services (l : list packet) (t : flow_table) : list Z :=
  List.filter (fun i => 0 <? serv_count l t i) (seqZ 0 SI_NUM_PROTOS).

Lemma in_services l t i : i ∈ services l t <-> 0 <= i < SI_NUM_PROTOS /\ 0 < serv_count l t i.
Proof. unfold services. rewrite in_filter, elem_of_seqZ, Z.ltb_lt. split; intros [H1 H2]; (split; [| exact H2]); split; apply H1 || (rewrite ?Z.add_0_l in *; apply H1). Qed.

Section Minute.
Context (t0 : flow_table) (l : list packet) (protos : list proto_info_t) (copy last : sharedif_t).
Local Notation t := (book_all l t0).
Context (H : services_agree (ft_services t) protos).
Context (Hcopy : forall j, 0 <= j < SI_NUM_PROTOS -> aget (sh_protos copy) j = aget protos j).
Context (Hrem : remembers_services t0 (sh_protos last)).
Context (Hfit : forall i, (0 <= srv_packets (service_of t0 i) /\ 0 <= srv_bytes (service_of t0 i)) /\
  (0 <= serv_count l t0 i /\ 0 <= serv_len l t0 i) /\ srv_packets (service_of t i) < 4294967296 /\ srv_bytes (service_of t i) < 4294967296).

(** The entry of a service in both blocks, and how it grew. *)
Lemma service_entries i : 0 <= i < SI_NUM_PROTOS -> exists cur old,
  aget (sh_protos copy) i = Val cur /\ aget (sh_protos last) i = Val old /\
  pi_packets cur = pi_packets old + serv_count l t0 i /\ pi_bytes cur = pi_bytes old + serv_len l t0 i /\
  0 <= pi_packets old /\ cur = service_row (service_of t i).
Proof using All.
  intros Hi. destruct (Hrem i Hi) as (old & Hold & E1 & E2). exists (service_row (service_of t i)), old.
  split; [rewrite (Hcopy i Hi); exact (H i Hi) |]. split; [exact Hold |].
  destruct (book_all_service l i t0) as [G1 G2], (Hfit i) as ((F1 & F2) & (F3 & F4) & F5 & F6).
  rewrite E1, E2. cbn [service_row pi_packets pi_bytes]. rewrite !u32_small by (unfold is_u32; lia). by repeat (split; [assumption |]).
Qed.

Lemma active_service i : 0 <= i < SI_NUM_PROTOS -> active_proto copy last i = (0 <? serv_count l t0 i).
Proof using All.
  intros Hi. destruct (service_entries i Hi) as (cur & old & Hc & Ho & E1 & _ & Hpos & _), (Hfit i) as (_ & (F & _) & _).
  unfold active_proto. rewrite Hc, Ho. destruct (Z.ltb_spec 0 (serv_count l t0 i)).
  - by rewrite !(proj2 (Z.eqb_neq _ _)) by lia.
  - rewrite (proj2 (Z.eqb_eq (pi_packets cur) (pi_packets old))) by lia. apply andb_false_r.
Qed.

Lemma active_services : active_protos copy last = services l t0.
Proof using All.
  apply filter_same. intros i [H1 H2]%elem_of_seqZ. apply active_service. split; [exact H1 | exact H2].
Qed.

(** Everything of the report's loop and its sort. *)
Record minute_services (ptrs : list (option Z)) (g : gather) (p : list (option Z)) (sv : list Z) : Prop := {
  mv_gather : for_each process_protocol (seqZ 0 SI_NUM_PROTOS) (mk_gather copy last ptrs 0) = Val g;
  mv_num : ga_num g = Z.of_nat (length sv);
  mv_sort : quicksort (via (sh_protos (ga_copy g)) rcmp_protos_pkt) (ga_ptrs g) 0 (i32 (u32 (ga_num g - 1))) = Val p;
  mv_top : take (length sv) p = Some <$> sv /\ sv ≡ₚ services l t0 /\ in_order (serv_count l t0) sv;
  mv_entries : forall i, i ∈ services l t0 -> exists e, aget (sh_protos (ga_copy g)) i = Val e /\
    pi_packets e = serv_count l t0 i /\ pi_bytes e = serv_len l t0 i;
  mv_last : remembers_services t (sh_protos (ga_last g)) /\ sh_streams (ga_last g) = sh_streams last
}.

(** What the loop makes of an entry. *)
Lemma service_diffed g i : i ∈ services l t0 -> proto_diffed copy last (ga_copy g) (ga_last g) i ->
  (exists e, aget (sh_protos (ga_copy g)) i = Val e /\ pi_packets e = serv_count l t0 i /\ pi_bytes e = serv_len l t0 i) /\
  exists q, aget (sh_protos (ga_last g)) i = Val q /\
    pi_packets q = u32 (srv_packets (service_of t i)) /\ pi_bytes q = u32 (srv_bytes (service_of t i)).
Proof using All.
  intros [Hi _]%in_services (old & cur & Ho & Hc & Hl & He). destruct (service_entries i Hi) as (cur' & old' & Hc' & Ho' & E1 & E2 & E3 & E4).
  assert (cur' = cur) as -> by congruence. assert (old' = old) as -> by congruence. destruct (Hfit i) as (_ & (F3 & F4) & _).
  split; [| eexists; split; [exact Hl |]; rewrite E4; split; reflexivity].
  eexists. split; [exact He |]. cbn [pi_packets pi_bytes set_pi_packets set_pi_bytes]. unfold u32diff.
  rewrite !(proj2 (Z.leb_le _ _)) by lia. lia.
Qed.

Lemma minute_services_ok ptrs : Z.of_nat (length (sh_protos copy)) = SI_NUM_PROTOS ->
  Z.of_nat (length (sh_protos last)) = SI_NUM_PROTOS -> Z.of_nat (length ptrs) = SI_NUM_PROTOS ->
  exists g p sv, minute_services ptrs g p sv.
Proof using All.
  intros L1 L2 L3. destruct (protos_ranked copy last ptrs L1 L2 L3) as (g & p & Hg & Hn & Hq & Hp & Hr & Hd & Hk & _ & Hs). cbv zeta in *.
  rewrite active_services in Hn, Hp, Hr, Hd, Hk.
  pose proof (fun i Hi => service_diffed g i Hi (Hd i Hi)) as Hone.
  destruct (ranking_order id (services l t0) p (sh_protos (ga_copy g)) pi_packets (serv_count l t0)) as (sv & T & P & O);
    [by rewrite list_fmap_id | exact Hr | |].
  { intros i Hi. destruct (Hone i Hi) as [(e & He & E & _) _]. by exists e. }
  rewrite list_fmap_id in T. exists g, p, sv. split; try done.
  - by rewrite Hn, (Permutation_length P).
  - rewrite (Permutation_length P). by split.
  - intros i Hi. exact (proj1 (Hone i Hi)).
  - split; [| exact Hs]. intros i Hi. destruct (decide (i ∈ services l t0)) as [Hin | Hout]; [exact (proj2 (Hone i Hin)) |].
    destruct (Hk i Hout) as [_ ->]. destruct (Hrem i Hi) as (q & Hq' & E1 & E2). exists q. split; [exact Hq' |].
    assert (serv_count l t0 i = 0) as Hz.
    { destruct (Hfit i) as (_ & (F & _) & _). assert (~ 0 < serv_count l t0 i) by (intros Hpos; apply Hout, in_services; by split). lia. }
    destruct (book_all_service l i t0) as [-> ->]. by rewrite Hz, (serv_none l i t0 Hz), !Z.add_0_r.
Qed.
End Minute.
