(* ===== verification/MinuteStreams.v ===== *)
(** A minute of the whole program: packets and seconds in any order, and the lines of
    streams in the report at its end, which are the conversations of the minute by their
    packets and by their bytes. *)
From S2P Require Import Prelude Structs MgArray Counters Format StreamKey Sort HashTable ShmData Export StatProc Packet Cleanup Capture Lifecycle Conversation Flows FlowTable FlowViews Bookkeeping FlowRun Reports Rankings Typing ReportRun Clock Main System TopStreams TopServices TopText.
From stdpp Require Import list gmap.
#[local] Open Scope Z_scope.

(** ** The capture process *)

(** The packets the capture process gets. *)
Fixpoint packets_on (evs : list event) : list packet :=
  match evs with
  | [] => []
  | Deliver p :: evs => mk_packet (lp_env p) (lp_hdr p) (lp_bytes p) :: packets_on evs
  | _ :: evs => packets_on evs
  end.

(** The statistics of libpcap are no part of the books. *)
Lemma agrees_capstats k used idx t s r i d : agrees k used idx t s -> agrees k used idx t (shm_update_capstats r i d s).
Proof.
  intros [[] [[T1 T2 T3 T4] Tc Tn Tch] [Ce Ci Cl] Ap [L1 L2] Asz Astr Asd Afr Afl Asv]. split; try done.
Qed.

Lemma callback_keeps_books k used idx t p tl st : k <> NULL ->
  keeps_books k used idx t st -> pointers_ok k used (lp_env p) -> bookable (mk_packet (lp_env p) (lp_hdr p) (lp_bytes p)) t ->
  exists tl' st' idx', callback (lp_env p) (lp_stat p) (lp_hdr p) (lp_tv_sec p) (lp_bytes p) tl st = Val (tl', st') /\
    keeps_books k (used_after (lp_env p) used) idx' (book (mk_packet (lp_env p) (lp_hdr p) (lp_bytes p)) t) st' /\
    (forall b, is_Some (ft_convs t !! b) -> idx' b = idx b).
Proof.
  intros Hk Hst Hptr Hb. set (q := mk_packet _ _ _) in *.
  assert (forall st1 tl', keeps_books k used idx t st1 -> exists tl'' st' idx',
    ('(_, st2) ← on_packet false (lp_env p) (lp_hdr p) (lp_bytes p) st1; Val (tl' : Z, st2)) = Val (tl'', st') /\
    keeps_books k (used_after (lp_env p) used) idx' (book q t) st' /\ (forall b, is_Some (ft_convs t !! b) -> idx' b = idx b)) as Hone.
  { intros st1 tl' H1. destruct (handle_keeps_books k used idx t st1 q Hk H1 Hptr Hb) as (st' & idx' & Hh & H2 & H3).
    unfold handle in Hh. cbn [for_each pk_env pk_hdr pk_buf q] in Hh. apply bind_Val_inv in Hh as (x & Hon & Hx). injection Hx as ->.
    apply bind_Val_inv in Hon as ([r st2] & Hon & Hx). injection Hx as ->. exists tl', st', idx'. rewrite Hon, bind_Val. done. }
  unfold callback. destruct (tl =? 0); [by apply Hone |]. destruct (1 <=? _); [| by apply Hone].
  destruct (get_libpcap_stats _) as [[r i] d]. apply Hone. destruct Hst as [Ha Hc Hcalm]. split; [by apply agrees_capstats | exact Hc | exact Hcalm].
Qed.

Lemma packets_keep_books k evs : k <> NULL -> forall used idx t sy, Forall (fun e => is_packet e = true) evs ->
  keeps_books k used idx t (sys_cap sy) -> bookable_all k used (packets_on evs) t ->
  exists syc idx', run_events evs sy = Val syc /\ keeps_books k (used_after_all (packets_on evs) used) idx' (book_all (packets_on evs) t) (sys_cap syc) /\
    (forall b, is_Some (ft_convs t !! b) -> idx' b = idx b).
Proof.
  intros Hk. induction evs as [| e evs IH]; intros used idx t sy Hp H Hl; [by exists sy, idx |].
  apply Forall_cons_1 in Hp as [He Hp]. destruct e as [p |]; [| done]. destruct Hl as (Hptr & Hb & Hl). cbn [pk_env] in Hptr.
  destruct (callback_keeps_books k used idx t p (sys_tlast sy) (sys_cap sy) Hk H Hptr Hb) as (tl' & st' & idx1 & Hcb & H1 & Hi1).
  destruct (IH _ _ _ (mk_system tl' st' (sys_sp sy)) Hp H1 Hl) as (syc & idx' & Hrun & H' & Hi').
  exists syc, idx'. split; [unfold run_events in *; cbn [for_each do_event]; by rewrite Hcb, bind_Val, bind_Val |]. split; [exact H' |].
  intros b Hb'. rewrite Hi' by (by apply (book_all_some [mk_packet (lp_env p) (lp_hdr p) (lp_bytes p)])). by apply Hi1.
Qed.

Lemma packets_on_filter evs : packets_on (List.filter is_packet evs) = packets_on evs.
Proof. induction evs as [| [p | sec n0 n1] evs IH]; [done | cbn; by rewrite IH | exact IH]. Qed.

(** ** The statistics process inside the minute *)

Definition same_report_state (sp sp' : statproc_t) : Prop :=
  sp_last sp' = sp_last sp /\ tlast_min sp' = tlast_min sp /\ initialized sp' = initialized sp.

Lemma quiet_second now0 now1 sec g sp : (60 <=? u32 (sec - tlast_min sp)) = false -> initialized sp <> 0 ->
  yields (same_report_state sp) (every_second true now0 now1 (mk_tval_t sec 0) g sp).
Proof.
  intros Hdue Hi. unfold every_second. rewrite (proj2 (Z.eqb_neq _ _) Hi).
  assert (forall w y, yields (same_report_state y) (for_each second_row w y)) as Hrows.
  { induction w as [| i w IH]; intros y; [done |]. cbn [for_each]. apply (yields_bind (same_report_state y)).
    - unfold second_row. repeat (apply yields_any; intros ?). destruct (_ =? _); done.
    - intros y1 (E1 & E2 & E3). pose proof (IH y1) as H. unfold same_report_state in *. rewrite E1, E2, E3 in H. exact H. }
  apply (yields_bind _ _ _ _ (Hrows _ _)). intros sp1 (E1 & E2 & E3). cbv zeta. apply yields_assert.
  change (tlast_min (set_stats_last_sec ?a (set_sec_i ?b sp1))) with (tlast_min sp1). rewrite E2. cbn [tv_sec].
  change (tlast_min (set_stats_cur_sec ?a sp)) with (tlast_min sp). rewrite Hdue. cbn [yields]. by split.
Qed.

Lemma quiet_events tl evs : forall t sy, initialized (sys_sp sy) <> 0 -> tlast_min (sys_sp sy) = tl -> 0 <= tl <= t -> seconds_in tl t evs ->
  yields (fun sy1 => sp_last (sys_sp sy1) = sp_last (sys_sp sy)) (run_events evs sy).
Proof.
  induction evs as [| e evs IH]; intros t sy Hi Htl Ht Hs; [done |]. unfold run_events. cbn [for_each]. fold (run_events evs).
  destruct e as [p | sec n0 n1]; cbn [do_event].
  - destruct (callback _ _ _ _ _ _ _) as [[tl' st] | |]; [| done ..]. rewrite !bind_Val. exact (IH t (mk_system tl' st (sys_sp sy)) Hi Htl Ht Hs).
  - destruct Hs as (H1 & H2 & H3 & H4). rewrite bind_assoc.
    apply (yields_bind (same_report_state (sys_sp sy))).
    { apply quiet_second; [| exact Hi]. rewrite Htl, u32_small by (unfold is_u32 in *; lia). apply Z.leb_gt. lia. }
    intros sp' (E1 & E2 & E3). rewrite bind_Val.
    rewrite <- E1. apply (IH sec (mk_system (sys_tlast sy) (sys_cap sy) sp')); cbn [sys_sp]; [by rewrite E3 | by rewrite E2 | lia | exact H4].
Qed.

(** ** The report *)

(** The number of a conversation: how many there were before it. *)
Definition conv_id (t : flow_table) (b : Z) : Z := from_option cv_id 0 (ft_convs t !! b).

(** The lines of conversations in a top list: the packets and bytes of the minute. *)
Definition conv_row (name : string) (l : list packet) (t : flow_table) (i b : Z) : string :=
  headed stream_head i ("TSTR," +:+ name +:+ "," +:+ fmt_d 0 +:+ "," +:+ fmt_d i +:+ "," +:+ fmt_u (slot_count l b) +:+ "," +:+
    fmt_u (slot_len l b) +:+ "," +:+ fmt_u (conv_id (book_all l t) b) +:+ newline).

(** The lines of services. *)
Definition serv_row (l : list packet) (t : flow_table) (i q : Z) : string :=
  headed proto_head i ("PORT," +:+ "P" +:+ "," +:+ fmt_d 0 +:+ "," +:+ fmt_d i +:+ "," +:+ fmt_u (fst (proto_of_ptr q)) +:+ "," +:+
    fmt_u (snd (proto_of_ptr q)) +:+ "," +:+ fmt_u (serv_count l t q) +:+ "," +:+ fmt_u (serv_len l t q) +:+ newline).

(** What the report after packets [l], on top of the table [t], prints about streams and
    services in its statistics section. *)
Record minute_lists (l : list packet) (t : flow_table) (text : string) : Prop := {
  ml_lists : exists bs1 bs2 sv,
    text = (rows (conv_row "P" l t) 0 (take 20 bs1) +:+ rows (conv_row "B" l t) 0 (take 20 bs2)) +:+ rows (serv_row l t) 0 (take 20 sv) /\
    (bs1 ≡ₚ buckets (book_all l t) /\ in_order (slot_count l) bs1) /\ (bs2 ≡ₚ buckets (book_all l t) /\ in_order (slot_len l) bs2) /\
    sv ≡ₚ services l t /\ in_order (serv_count l t) sv
}.

(** What the statistics process remembers of the last report. *)
Definition remembers_all (idx : Z -> Z) (t : flow_table) (sh : sharedif_t) : Prop :=
  remembers idx (ft_convs t) (sh_streams sh) /\ remembers_services t (sh_protos sh).

(** The counters of a conversation and of a service, within 32 bits. *)
Definition conv_fits (t0 : flow_table) (l : list packet) : Prop :=
  forall b, 0 <= bytes_in t0 b /\ 0 <= slot_len l b /\ bytes_in (book_all l t0) b < 4294967296.
Definition serv_fits (t0 : flow_table) (l : list packet) : Prop :=
  forall i, (0 <= srv_packets (service_of t0 i) /\ 0 <= srv_bytes (service_of t0 i)) /\ (0 <= serv_count l t0 i /\ 0 <= serv_len l t0 i) /\
    srv_packets (service_of (book_all l t0) i) < 4294967296 /\ srv_bytes (service_of (book_all l t0) i) < 4294967296.

Lemma top_in {A} n (l l' : list A) x : l ≡ₚ l' -> x ∈ take n l -> x ∈ l'.
Proof.
  intros Hp [i Hi]%list_elem_of_lookup_1. apply lookup_take_Some in Hi as [Hi _]. rewrite <- Hp. by eapply list_elem_of_lookup_2.
Qed.

(** The entries that the first of a list's pointers lead to. *)
Lemma entries_at {A B} (R : Z -> A -> Prop) (idx : B -> Z) (f : B -> A) l :
  (forall b, b ∈ l -> R (idx b) (f b)) -> Forall2 R (idx <$> l) (f <$> l).
Proof. intros H. by apply Forall2_fmap, Forall_Forall2_diag, list.Forall_forall. Qed.

(** The other loop's entries. *)
Lemma process_stream_protos i g :
  yields (fun g' => sh_protos (ga_copy g') = sh_protos (ga_copy g) /\ sh_protos (ga_last g') = sh_protos (ga_last g)) (process_stream i g).
Proof.
  unfold process_stream. apply yields_any. intros s. destruct (IS_EMPTY_SLOT _); [done |]. apply yields_any. intros old.
  destruct (diff_stream _ _). do 7 (apply yields_any; intros ?). done.
Qed.

Lemma streams_protos w g0 g : for_each process_stream w g0 = Val g ->
  sh_protos (ga_copy g) = sh_protos (ga_copy g0) /\ sh_protos (ga_last g) = sh_protos (ga_last g0).
Proof.
  intros Hg. pose proof (yields_for_each (fun g => sh_protos (ga_copy g) = sh_protos (ga_copy g0) /\ sh_protos (ga_last g) = sh_protos (ga_last g0))
    process_stream w g0 (conj eq_refl eq_refl)) as H. rewrite Hg in H. apply H. clear. intros i g [E1 E2].
  eapply yields_weaken; [apply process_stream_protos |]. intros g' [-> ->]. by split.
Qed.

Section Report.
Context (k : ptr) (used : gset ptr) (idx : Z -> Z) (t0 : flow_table) (l : list packet) (s : shm_t).
Local Notation t := (book_all l t0).
Context (H : agrees k used idx t s) (Hg : block_ready (g_shm s)) (Hsome : ft_convs t <> ∅).
Context (Hfit : conv_fits t0 l) (Hfits : serv_fits t0 l).

(** The two lists of streams. *)
Lemma top_streams_ok c l0 ptrs gt p1 p2 bs1 bs2 : minute_streams idx t0 l c l0 ptrs gt p1 p2 bs1 bs2 ->
  exists es1 es2, stream_rows "P" 0 es1 = rows (conv_row "P" l t0) 0 (take 20 bs1) /\
    stream_rows "B" 0 es2 = rows (conv_row "B" l t0) 0 (take 20 bs2) /\
    leads_to (sh_streams (ga_copy gt)) (take 20 (idx <$> bs1)) es1 /\ leads_to (sh_streams (ga_copy gt)) (take 20 (idx <$> bs2)) es2 /\
    es1 <> [].
Proof using Hfit Hsome.
  intros [_ _ _ G4 _ _ (_ & P1 & _) (_ & P2 & _)].
  pose (es b := match aget (sh_streams (ga_copy gt)) (idx b) with Val e => e | _ => zero_stream_info end).
  assert (forall b, b ∈ buckets t -> aget (sh_streams (ga_copy gt)) (idx b) = Val (es b) /\
    si_packets (es b) = slot_count l b /\ si_bytes (es b) = slot_len l b /\ si_iid (es b) = conv_id t b) as Hes.
  { intros b [x Hb]%in_buckets. destruct (G4 b x Hb) as (e & He & [E1 E2 E3]). unfold es. rewrite He.
    destruct (Hfit b) as (F1 & F2 & F3). split; [done |]. split; [exact E1 |]. split; [by apply E2 |].
    unfold conv_id. by rewrite Hb. }
  assert (forall name bs, bs ≡ₚ buckets t -> stream_rows name 0 (es <$> take 20 bs) = rows (conv_row name l t0) 0 (take 20 bs)) as Hrows.
  { intros name bs Hbs. apply rows_same. intros i b Hb. destruct (Hes b (top_in _ _ _ _ Hbs Hb)) as (_ & E1 & E2 & E3).
    unfold stream_row, conv_row. by rewrite E1, E2, E3. }
  assert (forall bs, bs ≡ₚ buckets t -> leads_to (sh_streams (ga_copy gt)) (take 20 (idx <$> bs)) (es <$> take 20 bs)) as Hat.
  { intros bs Hbs. unfold leads_to. rewrite <- fmap_take. apply entries_at. intros b Hb. exact (proj1 (Hes b (top_in _ _ _ _ Hbs Hb))). }
  exists (es <$> take 20 bs1), (es <$> take 20 bs2).
  split; [by apply Hrows |]. split; [by apply Hrows |]. split; [by apply Hat |]. split; [by apply Hat |].
  intros E. apply (f_equal length) in E. rewrite length_fmap, length_take in E. pose proof (Permutation_length P1) as Hl. cbn [length] in E.
  assert (buckets t = []) as Hnil by (apply nil_length_inv; lia). apply Hsome, map_empty. intros b.
  destruct (ft_convs t !! b) as [x |] eqn:Hb; [| done]. assert (b ∈ buckets t) as Hin by (apply in_buckets; by eexists).
  rewrite Hnil in Hin. by apply not_elem_of_nil in Hin.
Qed.

(** The list of services. *)
Lemma top_services_ok c l0 ptrs gp p sv : minute_services t0 l c l0 ptrs gp p sv ->
  exists ps, proto_rows 0 ps = rows (serv_row l t0) 0 (take 20 sv) /\ protos_at (sh_protos (ga_copy gp)) (take 20 sv) ps.
Proof.
  intros [_ _ _ (_ & P & _) Hent _].
  pose (ps q := (q, match aget (sh_protos (ga_copy gp)) q with Val e => e | _ => zero_proto_info end)).
  assert (forall q, q ∈ services l t0 -> aget (sh_protos (ga_copy gp)) q = Val (snd (ps q)) /\
    pi_packets (snd (ps q)) = serv_count l t0 q /\ pi_bytes (snd (ps q)) = serv_len l t0 q) as Hps.
  { intros q Hq. destruct (Hent q Hq) as (e & He & E1 & E2). unfold ps. cbn [snd]. rewrite He. by split. }
  exists (ps <$> take 20 sv). split.
  - apply rows_same. intros i q Hq. destruct (Hps q (top_in _ _ _ _ P Hq)) as (_ & E1 & E2).
    unfold proto_row, serv_row. by rewrite E1, E2.
  - unfold protos_at. rewrite <- (list_fmap_id (take 20 sv)) at 1. apply (entries_at _ id). intros q Hq. split; [done |].
    exact (proj1 (Hps q (top_in _ _ _ _ P Hq))).
Qed.

(** The report's computations on streams and services. *)
Lemma top_lists_ok sp l0 : sp_ready sp -> sp_last sp = Some l0 -> remembers_all idx t0 l0 ->
  exists gt gp es1 es2 ps, top_lists (g_shm s) sp gt es1 es2 /\ top_protos sp gt gp ps /\
    (remembers idx (ft_convs t) (sh_streams (ga_last gp)) /\ remembers_services t (sh_protos (ga_last gp))) /\
    minute_lists l t0 (lists_text es1 es2 ps).
Proof using All.
  intros [_ _ (c0 & Ec & Tc0) (l0' & El' & Tl) Rs Rp _ _] El [Hrem Hrems]. assert (l0' = l0) as -> by congruence.
  destruct (returns_Val _ _ (take_copy_ok c0 (g_shm s) Tc0 Hg)) as (c & Htake & Tc & _ & I1 & _ & _ & Hwin & Hprotos).
  destruct (minute_streams_ok k used idx t0 l s H c l0 (Build_stream_copy _ _ I1 Hwin) Tc Tl Hrem (br_streams _ Hg) (stream_ptrs sp) Rs Hfit)
    as (gt & p1 & p2 & bs1 & bs2 & Hms).
  destruct (top_streams_ok _ _ _ _ _ _ _ _ Hms) as (es1 & es2 & R1 & R2 & A1 & A2 & Hne).
  destruct Hms as [G1 G2 G3 _ G5 G6 (T1 & P1 & O1) (T2 & P2 & O2)].
  destruct (streams_protos _ _ _ G1) as [Q1 Q2]. cbn [ga_copy ga_last] in Q1, Q2.
  destruct (minute_services_ok t0 l (sh_protos (g_shm s)) (ga_copy gt) (ga_last gt) (ag_services _ _ _ _ _ H)
    ltac:(by rewrite Q1) ltac:(by rewrite Q2) Hfits (proto_ptrs sp)) as (gp & p3 & sv & Hmv);
    [rewrite Q1; exact (protos_len _ Tc) | rewrite Q2; exact (protos_len _ Tl) | exact Rp |].
  destruct (top_services_ok _ _ _ _ _ _ Hmv) as (ps & R3 & A3). destruct Hmv as [M1 M2 M3 (T3 & P3 & O3) _ [M5 M6]].
  exists gt, gp, es1, es2, ps. split; [split; [| exact Hne] | split; [split | split; [split; [by rewrite M6 | exact M5] |]]].
  - exists c0, c, l0, p1, p2, (idx <$> bs1), (idx <$> bs2). rewrite !length_fmap.
    rewrite (Permutation_length P1), (Permutation_length P2). by repeat (split; [assumption || reflexivity |]).
  - exists p3, sv. by repeat (split; [assumption |]).
  - split. exists bs1, bs2, sv. unfold lists_text. rewrite R1, R2, R3. by repeat (split; [done |]).
Qed.

Lemma report_second sp l0 tp sec n0 n1 : running tp sp -> sp_last sp = Some l0 -> remembers_all idx t0 l0 ->
  tp < sec -> is_u32 sec -> 60 <= sec - tlast_min sp ->
  yields (fun sp' => (exists l', sp_last sp' = Some l' /\ remembers_all idx t l') /\
      exists pre text rest, out (sp_export sp') = out (sp_export sp) +:+ pre +:+ text +:+ rest +:+ newline +:+ end_line /\
        minute_lists l t0 text)
    (every_second true n0 n1 (mk_tval_t sec 0) (g_shm s) sp).
Proof using All.
  intros [Hr Hi (C1 & C2 & C3)] El Hrem Hlt Hu Hdue. pose proof (flows_len _ (br_ok _ Hg)) as Hfl.
  destruct (every_second_step true n0 n1 (mk_tval_t sec 0) (g_shm s) sp Hi (sr_rows _ Hr) (sr_last_sec _ Hr) Hfl
    ltac:(lia) ltac:(cbn; lia) Hu) as (sp1 & Hw & ->). cbn [tv_sec].
  destruct (written_ready sp (g_shm s) sp1 (sec_i sp + 1) Hr Hfl Hw) as (Hr' & E1 & E2 & E3 & E4).
  assert (sp_last sp1 = sp_last sp) as E5 by (destruct Hw as [Hsame _ _ _ _]; rewrite Hsame; reflexivity).
  set (sp' := set_stats_last_sec _ _) in *. cbv zeta. rewrite (proj2 (Z.leb_le 60 _) Hdue).
  destruct (top_lists_ok sp' l0 Hr' ltac:(by rewrite <- El, <- E5) Hrem) as (gt & gp & es1 & es2 & ps & Htl & Htp & [Hrem1 Hrem2] & Hrep).
  pose proof (check_minute_text n0 n1 sec (g_shm s) sp' gt gp es1 es2 ps (sr_rows _ Hr') (sr_export _ Hr') ltac:(lia) Htl Htp) as Hc.
  destruct (check_minute true n0 n1 sec (g_shm s) sp') as [sp2 | |]; [| done ..]. cbn [yields] in Hc |- *.
  destruct Hc as ((l' & Hl' & Es & Ep) & pre & rest & Hout).
  split; [exists l'; split; [exact Hl' | split; [by rewrite Es | by rewrite Ep]] |].
  exists pre, (lists_text es1 es2 ps), rest. split; [| exact Hrep]. by rewrite <- E4.
Qed.
End Report.

(** ** A minute *)

(** The books at the start of a minute: the block agrees with the flow table, and the
    statistics process remembers the conversations and services of the table; none of
    them has more than the [P] packets and [B] bytes counted so far. *)
Record minute_books (k : ptr) (used : gset ptr) (idx : Z -> Z) (t : flow_table) (P B : Z) (sy : system) : Prop := {
  mb_books : keeps_books k used idx t (sys_cap sy);
  mb_last : exists l, sp_last (sys_sp sy) = Some l /\ remembers_all idx t l;
  mb_bytes : forall b, 0 <= bytes_in t b <= B;
  mb_services : forall i, 0 <= srv_packets (service_of t i) <= P /\ 0 <= srv_bytes (service_of t i) <= B
}.

Lemma packets_len evs : Forall event_ok evs -> Forall (fun p => 0 <= pk_len p) (packets_on evs).
Proof.
  induction 1 as [| [p | sec n0 n1] evs He H IH]; cbn [packets_on]; [constructor | constructor; [| exact IH] | exact IH].
  destruct He as (_ & (_ & _ & Hl) & Hlt). unfold pk_len. cbn [pk_hdr]. unfold is_u32 in Hl. rewrite i32_small by lia. lia.
Qed.

(** The packets that count, by the events and by the packets. *)
Lemma heard_events evs : Forall event_ok evs ->
  packets_of evs = count (List.filter pk_heard (packets_on evs)) /\ bytes_of evs = total_len (List.filter pk_heard (packets_on evs)).
Proof.
  unfold packets_of, bytes_of, heard_of, count. induction 1 as [| [p | sec n0 n1] evs He H [IH1 IH2]]; [by split | | by split].
  cbn [delivered packets_on List.filter fst snd]. change (pk_heard (mk_packet (lp_env p) (lp_hdr p) (lp_bytes p))) with (bool_decide (heard (lp_hdr p) (lp_bytes p))).
  destruct (bool_decide (heard (lp_hdr p) (lp_bytes p))); [| by split]. cbn [length foldr total_len fst]. fold (total_len (List.filter pk_heard (packets_on evs))).
  rewrite <- IH2. unfold pk_len. cbn [pk_hdr]. split; lia.
Qed.

(** The bytes of a conversation are among those of all packets heard. *)
Lemma slot_len_bounds l b : Forall (fun p => 0 <= pk_len p) l -> 0 <= slot_len l b <= total_len (List.filter pk_heard l).
Proof.
  induction 1 as [| p l Hp H IH]; [done |]. rewrite (proj2 (slot_cons p l b)). cbn [List.filter]. unfold in_slot.
  destruct (pk_heard p); cbn [andb]; [| lia]. cbn [total_len foldr]. fold (total_len (List.filter pk_heard l)). destruct (_ =? b); lia.
Qed.

Lemma books_ready k used idx t s : agrees k used idx t s -> ft_convs t <> ∅ -> shm_typed s -> block_ready (g_shm s).
Proof.
  intros H Hne Hty. apply (capture_block_ready s (ag_inv _ _ _ _ _ H) Hty). destruct (map_choose _ Hne) as (b & c & Hb).
  exists (idx b). rewrite (live_buckets _ _ _ _ _ H). apply list_elem_of_fmap. exists b. split; [done |]. apply in_buckets. by eexists.
Qed.

Section Minute.
Context (k : ptr) (used : gset ptr) (idx : Z -> Z) (t : flow_table) (sec0 p b : Z) (sy : system).
Context (pre : list event) (sec n0 n1 : Z).
Local Notation l := (packets_on pre).
Context (Hk : k <> NULL) (Hs : minute_start sec0 p b sy) (Hbooks : minute_books k used idx t p b sy).
Context (Hok : Forall event_ok pre) (Hfit : fits32 p b pre) (Hsec : seconds_in (tlast_min (sys_sp sy)) sec0 pre).
Context (Hl : bookable_all k used l t) (Hsome : ft_convs (book_all l t) <> ∅).
Context (Hlt : last_second sec0 pre < sec) (Hdue : 60 <= sec - tlast_min (sys_sp sy)) (Hu : is_u32 sec).

(** The end of the minute, before its report. *)
Lemma minute_before_report : exists syc sy1 idx',
  run_events (List.filter is_packet pre) sy = Val syc /\ run_events pre sy = Val sy1 /\ sys_cap sy1 = sys_cap syc /\
  keeps_books k (used_after_all l used) idx' (book_all l t) (sys_cap sy1) /\ (forall x, is_Some (ft_convs t !! x) -> idx' x = idx x) /\
  block_ready (sys_block sy1) /\ running (last_second sec0 pre) (sys_sp sy1) /\
  tlast_min (sys_sp sy1) = tlast_min (sys_sp sy) /\ sp_last (sys_sp sy1) = sp_last (sys_sp sy).
Proof using Hk Hs Hbooks Hok Hfit Hsec Hl Hsome.
  pose proof (mb_books _ _ _ _ _ _ _ Hbooks) as Hb. pose proof Hl as Hl'. rewrite <- (packets_on_filter pre) in Hl'.
  destruct (packets_keep_books k _ Hk used idx t sy (only_packets pre) Hb Hl') as (syc & idx' & Hcap & Hkb & Hidx).
  rewrite packets_on_filter in Hkb. destruct (start_total _ _ _ _ Hs) as [P0 B0].
  pose proof (flows_len _ (sy_block _ (run_typed _ (ms_run _ _ _ _ Hs)))) as Hlen.
  destruct (minute_events _ p b sec0 _ _ Hlen (ms_block _ _ _ _ Hs) pre [] sy (start_in_minute _ _ _ _ Hs) Hok P0 B0 Hfit Hsec syc Hcap)
    as (sy1 & Hrun & Him & Hc). cbn [app] in Him.
  exists syc, sy1, idx'. split; [exact Hcap |]. split; [exact Hrun |]. split; [exact Hc |]. rewrite Hc. split; [exact Hkb |]. split; [exact Hidx |].
  split. { unfold sys_block. rewrite Hc. eapply books_ready; [exact (kb_agrees _ _ _ _ _ Hkb) | exact Hsome |]. rewrite <- Hc. exact (run_typed _ (im_run _ _ _ _ _ _ _ _ Him)). }
  split; [exact (im_sp _ _ _ _ _ _ _ _ Him) |]. split; [exact (im_tl _ _ _ _ _ _ _ _ Him) |].
  destruct (ms_sp _ _ _ _ Hs) as [_ Hi (C1 & C2 & C3)].
  pose proof (quiet_events _ pre sec0 sy Hi eq_refl ltac:(lia) Hsec) as Hq. rewrite Hrun in Hq. exact Hq.
Qed.

(** Nothing of the minute overflows, and the bounds hold at its end. *)
Lemma minute_fits : (conv_fits t l /\ serv_fits t l) /\
  (forall x, 0 <= bytes_in (book_all l t) x <= b + bytes_of pre) /\
  forall i, 0 <= srv_packets (service_of (book_all l t) i) <= p + packets_of pre /\ 0 <= srv_bytes (service_of (book_all l t) i) <= b + bytes_of pre.
Proof using Hbooks Hok Hfit.
  destruct Hbooks as [_ _ Hpos Hserv], Hfit as [F1 F2], (heard_events pre Hok) as [E1 E2].
  assert (forall x, bytes_in (book_all l t) x = bytes_in t x + slot_len l x) as Hgrow
    by (intros x; exact (cg_bytes _ _ _ _ (book_all_conv l x t))).
  pose proof (fun x => slot_len_bounds l x (packets_len pre Hok)) as Hsl. rewrite <- E2 in Hsl.
  pose proof (fun x => serv_bounds l x (packets_len pre Hok) t) as Hsv. rewrite <- E1, <- E2 in Hsv.
  split; [split |].
  - intros x. rewrite Hgrow. specialize (Hpos x). specialize (Hsl x). lia.
  - intros i. destruct (book_all_service l i t) as [-> ->]. specialize (Hserv i). specialize (Hsv i). lia.
  - split; [intros x; rewrite Hgrow; specialize (Hpos x); specialize (Hsl x); lia |].
    intros i. destruct (book_all_service l i t) as [-> ->]. specialize (Hserv i). specialize (Hsv i). lia.
Qed.

Lemma minute_report_ok : exists idx' sy1 sy2 before text after,
  run_events pre sy = Val sy1 /\ sys_out sy1 = sys_out sy /\ do_event (Second sec n0 n1) sy1 = Val sy2 /\
  sys_out sy2 = sys_out sy +:+ before +:+ text +:+ after +:+ newline +:+ end_line /\
  (exists n body, sys_out sy2 = sys_out sy +:+ start_line sec n +:+ total_line (packets_of pre) (bytes_of pre) +:+ body +:+ end_line) /\
  minute_lists l t text /\
  minute_start sec (p + packets_of pre) (b + bytes_of pre) sy2 /\
  tlast_min (sys_sp sy2) = sec / 60 * 60 /\
  minute_books k (used_after_all l used) idx' (book_all l t) (p + packets_of pre) (b + bytes_of pre) sy2.
Proof using All.
  destruct minute_before_report as (syc & sy1 & idx' & Hcap & Hrun & Hc & Hkb & Hidx & Hready & Hrn & Htl & Hlast).
  destruct minute_fits as ([Hfc Hfs] & Hb1 & Hb2).
  assert (block_ready (sys_block syc)) as Hready' by (unfold sys_block in *; by rewrite <- Hc).
  destruct (minute_ok sec0 p b sy pre sec n0 n1 syc Hs Hok Hfit Hsec Hcap Hready' Hlt Hdue Hu)
    as (sy1' & sy2 & Hrun' & Hout & _ & Hdo & Hc2 & (n & body & Hrow) & Hs2 & Htl2).
  assert (sy1' = sy1) as -> by congruence. destruct (mb_last _ _ _ _ _ _ _ Hbooks) as (l0 & El & Hrem & Hrems).
  pose proof (report_second k (used_after_all l used) idx' t l (cp_shm (sys_cap sy1)) (kb_agrees _ _ _ _ _ Hkb) Hready Hsome
    Hfc Hfs (sys_sp sy1) l0 _ sec n0 n1 Hrn ltac:(congruence)
    (conj (remembers_idx _ _ _ _ Hidx Hrem) Hrems) Hlt Hu ltac:(by rewrite Htl)) as Hrep.
  cbn [do_event] in Hdo. unfold sys_block in Hdo. apply bind_Val_inv in Hdo as (sp2 & Hev & [= <-]). rewrite Hev in Hrep.
  destruct Hrep as (Hrem' & before & text & after & Hout' & Htext). exists idx', sy1, (mk_system (sys_tlast sy1) (sys_cap sy1) sp2), before, text, after.
  split; [exact Hrun |]. split; [exact Hout |]. split; [cbn [do_event]; unfold sys_block; by rewrite Hev, bind_Val |].
  split; [rewrite <- Hout; exact Hout' |]. split; [exists n, body; by rewrite Hrow, !string_app_assoc |].
  split; [exact Htext |]. split; [exact Hs2 |]. split; [exact Htl2 |]. by split.
Qed.
End Minute.
