(* ===== verification/Session.v ===== *)
(** Whole sessions: both processes from their first second on, any number of minutes of
    packets and seconds in which no stream is freed, and the reports they end with. *)
From S2P Require Import Prelude Structs MgArray Counters Format StreamKey HashTable ShmData Export StatProc Packet Cleanup Capture Lifecycle Conversation Flows FlowTable FlowViews Bookkeeping FlowRun Reports Typing ReportRun Clock Main System TopStreams TopServices TopText MinuteStreams.
From stdpp Require Import list gmap.
#[local] Open Scope Z_scope.

(** A minute: its packets and seconds, and the second of its report with the readings of
    the clock there. *)
Record minute := mk_minute { mn_events : list event; mn_sec : Z; mn_now0 : Z; mn_now1 : Z }.

Definition mn_packets (m : minute) : list packet := packets_on (mn_events m).
Definition mn_all (m : minute) : list event := mn_events m ++ [Second (mn_sec m) (mn_now0 m) (mn_now1 m)].
Definition session_events (ms : list minute) : list event := concat (mn_all <$> ms).

(** What the environment does in a session that goes on from second [t0] with the table
    [t] and the totals [p], [b]: packets the tables can hold, seconds inside their minute,
    totals below 2^32, and some conversation before each report. *)
Fixpoint session_ok (k : ptr) (used : gset ptr) (t : flow_table) (t0 p b : Z) (ms : list minute) : Prop :=
  match ms with
  | [] => True
  | m :: ms =>
      let t' := book_all (mn_packets m) t in
      let p' := p + packets_of (mn_events m) in
      let b' := b + bytes_of (mn_events m) in
      Forall event_ok (mn_events m) /\ (p' < 4294967296 /\ b' < 4294967296) /\ seconds_in (t0 / 60 * 60) t0 (mn_events m) /\
      bookable_all k used (mn_packets m) t /\ ft_convs t' <> ∅ /\
      last_second t0 (mn_events m) < mn_sec m /\ 60 <= mn_sec m - t0 / 60 * 60 /\ is_u32 (mn_sec m) /\
      session_ok k (used_after_all (mn_packets m) used) t' (mn_sec m) p' b' ms
  end.

(** The report of a minute that started with table [t]. *)
Record minute_report (t : flow_table) (m : minute) (r : string) : Prop := {
  mr_total : exists n body,
    r = start_line (mn_sec m) n +:+ total_line (packets_of (mn_events m)) (bytes_of (mn_events m)) +:+ body +:+ end_line;
  mr_lists : exists before text after,
    r = before +:+ text +:+ after +:+ newline +:+ end_line /\ minute_lists (mn_packets m) t text
}.

Fixpoint session_log (t : flow_table) (ms : list minute) (rs : list string) : Prop :=
  match ms, rs with
  | [], [] => True
  | m :: ms, r :: rs => minute_report t m r /\ session_log (book_all (mn_packets m) t) ms rs
  | _, _ => False
  end.

Definition printed (rs : list string) : string := foldr String.append "" rs.

(** ** Sessions *)

Lemma run_events_app l l' sy : run_events (l ++ l') sy = (sy1 ← run_events l sy; run_events l' sy1).
Proof. unfold run_events. apply for_each_app. Qed.

Lemma run_one e sy sy1 : do_event e sy = Val sy1 -> run_events [e] sy = Val sy1.
Proof. intros H. unfold run_events. cbn [for_each]. by rewrite H, bind_Val. Qed.

Lemma session_log_ok k ms : k <> NULL -> forall used idx t t0 p b sy,
  minute_start t0 p b sy -> tlast_min (sys_sp sy) = t0 / 60 * 60 -> minute_books k used idx t p b sy ->
  session_ok k used t t0 p b ms ->
  exists sy' rs, run_events (session_events ms) sy = Val sy' /\ sys_out sy' = sys_out sy +:+ printed rs /\ session_log t ms rs.
Proof.
  intros Hk. induction ms as [| m ms IH]; intros used idx t t0 p b sy Hs Htl Hb Hms.
  { exists sy, []. by rewrite string_app_nil_r. }
  destruct Hms as (Hok & Hfit & Hsec & Hl & Hne & Hlt & Hdue & Hu & Hms). rewrite <- Htl in Hsec, Hdue.
  destruct (minute_report_ok k used idx t t0 p b sy (mn_events m) (mn_sec m) (mn_now0 m) (mn_now1 m) Hk Hs Hb Hok Hfit Hsec Hl Hne Hlt Hdue Hu)
    as (idx' & sy1 & sy2 & before & text & after & Hrun & _ & Hdo & Hout & (n & body & Hrow) & Hrep & Hs2 & Htl2 & Hb2).
  destruct (IH _ _ _ _ _ _ _ Hs2 Htl2 Hb2 Hms) as (sy' & rs & Hrun' & Hout' & Hlog).
  exists sy', ((before +:+ text +:+ after +:+ newline +:+ end_line) :: rs). split; [| split; [| split; [| exact Hlog]]].
  - unfold session_events, mn_all. cbn [fmap list_fmap concat]. fold (session_events ms). rewrite !run_events_app, Hrun, bind_Val.
    rewrite (run_one _ _ _ Hdo), bind_Val. exact Hrun'.
  - rewrite Hout', Hout. cbn [printed foldr]. fold (printed rs). by rewrite !string_app_assoc.
  - split; [exists n, body | by exists before, text, after].
    rewrite Hout in Hrow. by apply (inj (String.append (sys_out sy))) in Hrow.
Qed.

(** ** The start *)

Lemma nothing_counted : total_is (replicate 6 zero_flow_stats) 0 0.
Proof. exists zero_flow_stats. repeat split. Qed.

(** Both processes as they start, after the first second of the statistics process. *)
Lemma session_start use_shm env mem s t0 n0 n1 k : shm_data_init use_shm env mem = Val (Some s) -> 0 <= t0 ->
  exists sy, do_event (Second t0 n0 n1) (mk_system 0 (start_books s) statproc_init) = Val sy /\ sys_out sy = ""%string /\
    minute_start t0 0 0 sy /\ tlast_min (sys_sp sy) = t0 / 60 * 60 /\ minute_books k ∅ (fun _ => 0) empty_table 0 0 sy.
Proof.
  intros Hs Ht. pose proof (init_flows use_shm env mem) as Hf. rewrite Hs in Hf. destruct Hf as [F1 F2].
  assert (length (sh_flow_stats (g_shm s)) = 6%nat) as Hlen by (by rewrite F1).
  destruct (init_state_ok n0 n1 (mk_tval_t t0 0) (g_shm s) Hlen Ht) as (E & Hr & Hc).
  exists (mk_system 0 (start_books s) (_init_state (fun _ => true) (mk_tval_t t0 0) (g_shm s) statproc_init)).
  cbn [do_event]. unfold sys_block at 1. cbn [sys_cap sys_sp sys_tlast start_books cp_shm]. rewrite E, bind_Val.
  split; [reflexivity |]. split; [reflexivity |]. split; [split | split; [reflexivity |]].
  - exact (run_init _ _ _ _ Hs).
  - exact F2.
  - split; [exact Hr | discriminate | exact Hc].
  - split; reflexivity.
  - cbn [sys_sp]. change (total_is (sh_flow_stats (g_shm s)) 0 0). rewrite F1. exact nothing_counted.
  - unfold sys_block. cbn [sys_cap start_books cp_shm]. rewrite F1. exact nothing_counted.
  - split; [by eapply start_keeps_books | | |].
    + exists zero_sharedif. split; [reflexivity | split; [apply remembers_nothing | exact remembers_no_services]].
    + intros x. unfold bytes_in. cbn [empty_table ft_convs]. rewrite lookup_empty. split; discriminate.
    + intros i. unfold service_of. cbn [empty_table ft_services]. rewrite lookup_empty. repeat split; discriminate.
Qed.

(** C3: what the program reports while no stream is freed.  From the initial states of
    both processes and the first second of the statistics process, let any number of
    minutes follow in which packets and seconds come in any order, such that
    [session_ok] holds: the packets, of interleaved conversations, satisfy
    [bookable_all] - buffers of at least 96 bytes, captured lengths below 2^31; new
    conversations with two different addresses and a time other than second 0, while
    fewer than 254 LAN and 16126 other addresses are known; fewer than 2^32 packets in a
    conversation; the handler's key object at one address, and allocations that succeed,
    with new objects; and from the first FIN or RST on only packets in the first fifteen
    seconds of a minute, so that no sweep frees a stream; their lengths are below 2^31;
    the packets and bytes of the whole session stay below 2^32; the seconds increase and
    stay inside their minute until one at least 60 seconds after its start ends it;
    there is some conversation before each report; and the allocations of the statistics
    process succeed.  Then every event is handled, and the whole output is one report
    for each minute, in order.  Each starts with the number and the lengths of the
    minute's own packets.  Its list of streams is exactly the conversations so far,
    twenty at most, once in the order of their packets and once of their bytes, each
    with the packets and bytes that it had in that minute and with its number, in the
    order of their first packets; and its list of ports is exactly the services that had
    packets in that minute, twenty at most, with their packets and bytes (and the names
    of TCP and UDP exchanged). *)
Theorem session_reports use_shm env mem s k t0 n0 n1 ms
    (Hs : shm_data_init use_shm env mem = Val (Some s)) (Hk : k <> NULL) (Ht : 0 <= t0)
    (Hms : session_ok k ∅ empty_table t0 0 0 ms) :
  exists sy rs, run_events (Second t0 n0 n1 :: session_events ms) (mk_system 0 (start_books s) statproc_init) = Val sy /\
    sys_out sy = printed rs /\ session_log empty_table ms rs.
Proof.
  destruct (session_start use_shm env mem s t0 n0 n1 k Hs Ht) as (sy0 & Hdo & Hout & Hs0 & Htl & Hb).
  destruct (session_log_ok k ms Hk _ _ _ _ _ _ _ Hs0 Htl Hb Hms) as (sy & rs & Hrun & Ho & Hlog).
  exists sy, rs. split; [| split; [by rewrite Ho, Hout | exact Hlog]].
  unfold run_events in *. cbn [for_each]. by rewrite Hdo, bind_Val.
Qed.

(** ** Witnesses *)

Module SessionTest.
Import ShmTest PacketTest LifeTest ConversationTest FlowRunTest SystemTest.

(** Two minutes: the first packets of two hosts with a second between them; then the
    answer to the first host and its last packet. *)
Definition minute1 : minute :=
  mk_minute [Deliver (live_of (packet_of 0 syn)); Second 1010 0 0; Deliver (live_of (packet_of 1 (frame_of 2 4001 2)))] 1020 0 0.
Definition minute2 : minute :=
  mk_minute [Deliver (live_of (packet_of 2 reply)); Second 1030 0 0; Deliver (live_of (packet_of 3 (frame_of 1 4000 16)))] 1080 0 0.

Lemma tests_are_talk : mn_packets minute1 ++ mn_packets minute2 = talk.
Proof. reflexivity. Qed.

Lemma talk_packet p : p ∈ talk -> event_ok (Deliver (live_of p)).
Proof.
  intros Hp. assert (forallb packet_okb talk = true) as Hall by (vm_compute; reflexivity). rewrite forallb_forall in Hall.
  split; [apply packet_okb_sound, Hall; by apply list_elem_of_In |].
  assert (pk_hdr p = syn_hdr) as E by (apply list_elem_of_In in Hp; by destruct Hp as [<- | [<- | [<- | [<- | []]]]]).
  cbn [live_of lp_hdr]. rewrite E. exact hdr_ok.
Qed.

Lemma events_ok m : (forall e, e ∈ mn_events m -> match e with Deliver p => exists q, q ∈ talk /\ p = live_of q | _ => True end) ->
  Forall event_ok (mn_events m).
Proof.
  intros H. apply list.Forall_forall. intros [p |] He; [| exact I]. destruct (H _ He) as (q & Hq & ->). by apply talk_packet.
Qed.

Lemma some_convs (t : flow_table) : negb (Nat.eqb (size (ft_convs t)) 0) = true -> ft_convs t <> ∅.
Proof. intros H E. rewrite E in H. discriminate H. Qed.

Lemma minutes_ok : session_ok 5 ∅ empty_table 1009 0 0 [minute1; minute2].
Proof.
  pose proof talk_bookable as Ht. rewrite <- tests_are_talk in Ht. apply bookable_app in Ht as [H1 H2].
  cbn [session_ok]. split.
  { apply events_ok. intros e He. apply list_elem_of_In in He. destruct He as [<- | [<- | [<- | []]]]; [| exact I |]; eexists; (split; [| reflexivity]); unfold talk; set_solver. }
  split; [vm_compute; split; reflexivity |]. split; [vm_compute; repeat split; discriminate |]. split; [exact H1 |].
  split; [apply some_convs; vm_compute; reflexivity |]. split; [reflexivity |]. split; [discriminate |]. split; [split; [discriminate | reflexivity] |]. split.
  { apply events_ok. intros e He. apply list_elem_of_In in He. destruct He as [<- | [<- | [<- | []]]]; [| exact I |]; eexists; (split; [| reflexivity]); unfold talk; set_solver. }
  split; [vm_compute; split; reflexivity |]. split; [vm_compute; repeat split; discriminate |]. split; [exact H2 |].
  split; [apply some_convs; vm_compute; reflexivity |]. split; [reflexivity |]. split; [discriminate |]. split; [split; [discriminate | reflexivity] |]. exact I.
Qed.

(** In the second minute the first host's conversation had both packets. *)
Example minute2_streams :
  slot_count (mn_packets minute2) (slot (pk_key (packet_of 0 syn))) = 2 /\ slot_count (mn_packets minute2) (slot (pk_key (packet_of 1 (frame_of 2 4001 2)))) = 0.
Proof. vm_compute. done. Qed.

Lemma session_reports_witness : exists s sy r1 r2, shm_data_init true env_ok mem0 = Val (Some s) /\
  run_events (Second 1009 0 0 :: session_events [minute1; minute2]) (mk_system 0 (start_books s) statproc_init) = Val sy /\
  sys_out sy = r1 +:+ r2 +:+ "" /\ (exists n body, r2 = start_line 1080 n +:+ total_line 2 284 +:+ body +:+ end_line).
Proof.
  destruct (init_ready true) as (s & Hs & _).
  destruct (session_reports true env_ok mem0 s 5 1009 0 0 [minute1; minute2] Hs ltac:(discriminate) ltac:(discriminate) minutes_ok)
    as (sy & rs & H1 & H2 & H3).
  destruct rs as [| r1 [| r2 [| ? ?]]]; try (exfalso; cbn in H3; tauto).
  destruct H3 as (_ & [(n & body & H3) _] & _).
  exists s, sy, r1, r2. split; [exact Hs |]. split; [exact H1 |]. split; [exact H2 |]. exists n, body. exact H3.
Defined.
End SessionTest.
